(* ===== verification/_CoqProject ===== *)
-Q . S2P
Prelude.v
KString.v
KScan.v
KFormat.v
Wire.v
Ksocket.v
MapTable.v
Vfs.v
Syscalls.v
Tree.v
Umount.v
Stuck.v
Ops.v
PageIo.v
FileMap.v
Server.v
Node.v
FileData.v
Inv.v
Remove.v
Serve.v
View.v
Mirror.v
Contents.v
Truncate.v
Options.v
Mount.v
Cluster.v
Remote.v
FileOps.v
LocalIo.v
Local.v
LocalDir.v
Results.v
ReadDir.v
Dirents.v
Listing.v
Walk.v
Open.v
Uses.v
Path.v
Calls.v
Opened.v
Saves.v
Rename.v
Moves.v
Session.v
Joint.v
Defects.v
Witness.v
