(* ===== verification/Prelude.v ===== *)
(** * wjfs: a verified model of a distributed in-memory file system

    wjfs is a Linux 2.6.32 kernel module.  Each of two machines mounts it and
    keeps its own files in memory; every file or directory that a user makes on
    one machine appears on the other as a _link_.  Reading and writing a link is
    done by the machine that owns the file.  The machines talk over TCP, one short
    text per connection, through the ksocket library.

    ** The program and the files of this development

    - [Prelude]: faults, the error monad [res], machine integers, C objects as
      lists of bytes, shared lemmas and tactics.
    - [KString], [KScan], [KFormat]: the functions of linux-2.6.32.21/lib/string.c,
      lib/ctype.c and lib/vsprintf.c that wjfs and ksocket call: strcpy, strsep,
      memset, ..., simple_strtoul, vsscanf, and sprintf down to put_dec.
    - [Wire]: the request texts.  The sprintf calls of the four client functions
      (build_request, build_read, build_write) and the tokenizers, string2int and
      strcpy calls with which rdma_create, rdma_remove, rdma_read and rdma_write
      take them apart (parse_request, parse_read, parse_write).
    - [Ksocket]: ksocket-0.0.2/src/ksocket.c, each wrapper over a socket layer that
      may answer anything.
    - [MapTable]: reg_ino_mapp_table, 1024 entries of 52 bytes, and every loop over
      it; above it lists of optional [link]s as its abstract state.
    - [Vfs]: inodes, dentries and the kernel's state as a record [kstate], the
      state and error monad [M], and the functions of fs/dcache.c, fs/inode.c,
      fs/namei.c and fs/libfs.c that wjfs reaches.  [InodeOps] is the interface
      through which the VFS calls a file system.
    - [Syscalls]: mknodat, mkdirat, unlinkat and rmdir from the directory on.
    - [Tree]: find_from_all_dentry, find_dentry_by_ino, wjfs_d_genocide and the
      unmounting, with the mathematical tree that the dentries represent.
    - [Umount]: what unmounting does to a tree of pinned dentries; [Stuck]: where it
      stops.
    - [Ops]: the inode operations of wjfs.c and the client functions of
      wjfs_create.c, wjfs_remove.c, wjfs_read.c and wjfs_write.c.
    - [PageIo]: put_file_message and get_file_message on the pages of a file.
    - [FileMap]: generic_file_aio_read and generic_file_aio_write of mm/filemap.c,
      which serve the files of the node itself, down to the page cache, the times
      and the set-user-ID bit.
    - [FileData]: a file as a function from positions to bytes, and what reads and
      writes over any number of pages do to it.
    - [Server]: wjfs_server and the four rdma_ functions.
    - [Node], [Inv], [Remove], [Serve], [Contents]: the effect of the operations on
      a node, the invariant [node_ok] of a node between two requests, and what
      create, remove, write and read requests do to a node that has it.
    - [Options], [Mount]: lib/parser.c, wjfs_parse_options and wjfs_fill_super.
    - [Cluster], [Remote], [FileOps]: two nodes together: a creation or removal on
      one and its effect on the other, reads and writes through a link, and the
      read and write methods wjfs_read and wjfs_write.
    - [LocalIo]: reads and writes of the node's own files, alone and together with
      the requests of the other node.
    - [View], [Mirror]: what a node shows of itself, entry by entry, and the relation
      of two nodes that show the same tree, which is the abstract specification of
      the cluster.
    - [Local], [LocalDir], [Results], [Rename]: the system calls on a node that has
      the invariant, from the directory on, for any caller and any result; [Rename]
      also has the code of renameat, vfs_rename and d_move.
    - [ReadDir], [Dirents], [Listing]: opening, reading and closing a directory
      (fs/libfs.c, fs/readdir.c), the records getdents64 writes, and the listing
      that the calls give together.
    - [Walk]: the path walk of fs/namei.c and the system calls from the path name
      on; [Uses]: references that users hold; [Path]: where the components of a
      name lead, and that the walk goes there; [Calls], [Moves]: the system calls by
      any path.
    - [Truncate], [Open]: opening, closing and truncating a file and vfs_read and
      vfs_write (fs/namei.c, fs/open.c, fs/file_table.c, fs/read_write.c, fs/attr.c,
      mm/truncate.c); [Opened]: what they do for any path, flags and caller;
      [Saves]: a text saved and loaded.
    - [Session]: the whole of wjfs_server, and a node from mount to unmount through
      any sequence of allowed events, with the files that are open.
    - [Joint]: two nodes from mount on, through any calls by path on either.
    - [Defects]: what goes wrong, for any node: links that were unlinked or emptied,
      files that contain requests, directories that share a name.
    - [Witness]: the theorems at concrete states.

    ** How the state corresponds to the code

    [kstate] holds the inodes and dentries by reference, the dentry hash chains
    ([d_hash], newest first), the counter of new_inode, the static variables of
    the module ([globals]) and the outside world: which allocations succeed
    ([mem]), which sockets and connections, what was sent and what will be
    received ([net]).  Reference counts are the kernel's; [users] is what of a
    dentry's count neither its children nor its creation hold, and a node is [idle]
    when nobody holds anything.  The arrays on the
    stack of a function are arguments ([autos]): what they hold before the
    function writes them is arbitrary.  printk, locks and time other than the
    field [now] are left out; the requests are served one after the other, as the
    single thread of wjfs_server does, and each theorem is about one operation at
    a time or a sequence of them.

    A fault stands for undefined behaviour: an access outside an object, a
    dereference of NULL, a BUG.  A theorem that gives the result [Ok] of an
    operation says that nothing of this happens.

    ** What the theorems show

    - Two nodes: after any calls on either, each request served by the other before
      the next call, the nodes show the same tree and every path names the same entry
      on both ([Joint]); what is created, removed, written or read on one arrives on
      the other ([Cluster], [Remote], [FileOps], [LocalIo]).
    - Files: a read delivers the bytes at its position up to the end of the file, a
      write changes the bytes at its position and no others, and what was written
      is read back ([FileData], [LocalIo]); truncation keeps the bytes before the new
      end and no others, and a file opened with O_TRUNC holds what is then written to it
      and nothing more ([Truncate], [Opened], [Saves]).
    - One node: mounting establishes [node_ok], every request and system call
      keeps it (reads and writes included), so does any sequence of them, and
      unmounting then succeeds and leaves no dentry ([Mount], [Serve], [Contents],
      [Calls], [Moves], [Opened], [Session], [Inv]); every inode has the methods of its
      type, and an open file holds one reference, which closing gives back.
    - Paths: the walk of any name gives what its components name, one by one, and
      mknodat, mkdirat, unlinkat, rmdir, open and truncate return a result that is a
      function of the node and the caller, change nothing when they fail (open with
      O_DIRECT apart, which fails after its work) and give back every reference ([Path],
      [Calls], [Opened]); a directory is listed completely ([Listing]).
    - Parts: the request texts survive formatting and parsing, the table refines a
      list of links, the searches find what is there, wjfs_d_genocide drops each
      reference once, options are read as a reference reader does, put_dec prints
      decimal digits, addresses survive inet_ntoa and inet_addr, the ksocket
      wrappers leak no socket and restore the address limit.
    - Bounds and defects: which inputs overflow which array; the answer to a read
      request ends with what the array held before ([FileOps], [LocalIo]); unmounting
      after a link was unlinked hits a BUG, a read request carries out a file's contents
      when they are a request, a link ends up in another directory of the same name, and
      emptying a link leaves the file as it was ([Defects]).

    ** Bounds and fuel

    Loops that are not structural carry fuel, and [OutOfFuel] is a fault, so a
    result [Ok] includes termination.  The fuel is computed from the input: the
    length of the text for tokenizers and formats, the number of dentries for
    dput, d_ancestor, the searches and wjfs_d_genocide, twice that for the unmounting, the
    number of bytes for the page loops of a read and a write, the length of the name
    for the path walk, since each turn consumes a byte, and the number of children
    for a turn of readdir.  The calls of getdents64 that list a directory are a
    program's; one more than there are entries is enough.  Only
    the retry loops of wjfs_read and wjfs_write, whose number of turns the called
    function decides, take it as an argument; one turn is enough for the functions
    of [FileMap], which never ask to be called again.

    ** Not modelled

    Symbolic links, other mounts than the one of wjfs and what a walk does in other file
    systems; linkat and symlinkat above the methods of wjfs; the table of descriptors,
    ftruncate, chmod, chown and utimes; devices and fifos, file locks and leases;
    renames onto an existing name; quota, security modules and inotify; memory
    pressure and the LRU; the socket layer below ksocket.c and the network;
    readahead, direct and synchronous I/O, mmap and splice; requests that overtake each
    other; the %p conversions of vsnprintf, which are
    a parameter; what printk prints; module registration; save.c, the samples of
    ksocket and the older snapshots of the sources. *)

From Stdlib Require Export ZArith Lia.
From stdpp Require Export base gmap list strings numbers decidable.

#[global] Open Scope Z_scope.

#[global] Arguments Z.eqb : simpl never.
#[global] Arguments Z.ltb : simpl never.
#[global] Arguments Z.leb : simpl never.
#[global] Arguments Z.add : simpl never.
#[global] Arguments Z.sub : simpl never.
#[global] Arguments Z.mul : simpl never.
#[global] Arguments Z.modulo : simpl never.
#[global] Arguments Z.div : simpl never.
#[global] Arguments Z.pow : simpl never.

(** ** Faults: what a kernel C program does when it goes wrong *)

(** A fault stands for undefined behaviour of the C program: an access outside
    an object, a dereference of [NULL] or of an [ERR_PTR], a failed [BUG_ON].
    [OutOfFuel] is produced only by the bounded loops of the model; every
    theorem that uses such a loop shows that it does not occur. *)
Inductive fault : Type :=
  | OutOfBounds
  | NullDeref
  | BadPointer
  | BugOn
  | OutOfFuel.

#[global] Instance fault_eq_dec : EqDecision fault.
Proof. solve_decision. Defined.

Inductive res (A : Type) : Type :=
  | Ok (a : A)
  | Fault (f : fault).
Arguments Ok {A} _.
Arguments Fault {A} _.

#[global] Instance res_eq_dec {A} `{EqDecision A} : EqDecision (res A).
Proof. solve_decision. Defined.

#[global] Instance res_ret : MRet res := @Ok.
#[global] Instance res_bind : MBind res := fun A B f m =>
  match m with Ok a => f a | Fault e => Fault e end.

Definition is_ok {A} (r : res A) : bool :=
  match r with Ok _ => true | Fault _ => false end.

(** One step of a computation, by rewriting: [cbn] would leave a [match] on the
    rest of it, which the kernel evaluates when it compares terms. *)
Lemma bind_ok {A B} (a : A) (f : A -> res B) : (Ok a ≫= f) = f a.
Proof. reflexivity. Qed.

Lemma bind_ok_inv {A B} (m : res A) (f : A -> res B) b :
  (m ≫= f) = Ok b -> exists a, m = Ok a /\ f a = Ok b.
Proof. destruct m as [a|e]; simpl; [eauto|discriminate]. Qed.

(** ** Machine integers of the target (i386: 32-bit int, long and pointers) *)

(** The module is built with [-fno-strict-overflow], so signed arithmetic
    wraps. *)
Definition u8 (z : Z) : Z := z mod 2 ^ 8.
Definition u16 (z : Z) : Z := z mod 2 ^ 16.
Definition u32 (z : Z) : Z := z mod 2 ^ 32.
Definition u64 (z : Z) : Z := z mod 2 ^ 64.
Definition s32 (z : Z) : Z := (z + 2 ^ 31) mod 2 ^ 32 - 2 ^ 31.
Definition s64 (z : Z) : Z := (z + 2 ^ 63) mod 2 ^ 64 - 2 ^ 63.
(** [char] is signed on i386. *)
Definition schar (z : Z) : Z := (z + 2 ^ 7) mod 2 ^ 8 - 2 ^ 7.

Definition byteP (c : Z) : Prop := 0 <= c < 256.

Lemma u32_range z : 0 <= u32 z < 2 ^ 32.
Proof. apply Z.mod_pos_bound. lia. Qed.

Lemma s32_range z : - 2 ^ 31 <= s32 z < 2 ^ 31.
Proof. unfold s32. pose proof (Z.mod_pos_bound (z + 2 ^ 31) (2 ^ 32)). lia. Qed.

Lemma u32_small z : 0 <= z < 2 ^ 32 -> u32 z = z.
Proof. apply Z.mod_small. Qed.

Lemma u64_small z : 0 <= z < 2 ^ 64 -> u64 z = z.
Proof. apply Z.mod_small. Qed.

Lemma s32_small z : - 2 ^ 31 <= z < 2 ^ 31 -> s32 z = z.
Proof. intros H. unfold s32. rewrite Z.mod_small; lia. Qed.

Lemma s64_small z : - 2 ^ 63 <= z < 2 ^ 63 -> s64 z = z.
Proof. intros H. unfold s64. rewrite Z.mod_small; lia. Qed.

Lemma schar_small z : 0 <= z < 128 -> schar z = z.
Proof. intros H. unfold schar. rewrite Z.mod_small; lia. Qed.

Lemma s32_u32 z : s32 (u32 z) = s32 z.
Proof.
  unfold s32, u32.
  rewrite (Zplus_mod_idemp_l z (2 ^ 31) (2 ^ 32)). reflexivity.
Qed.

Lemma u32_s32 z : u32 (s32 z) = u32 z.
Proof.
  unfold s32, u32. rewrite (Zminus_mod_idemp_l (z + 2 ^ 31) (2 ^ 31) (2 ^ 32)). f_equal. lia.
Qed.

Lemma u32_u32 z : u32 (u32 z) = u32 z.
Proof. apply u32_small, u32_range. Qed.

(** ** Blocks of memory *)

(** A C object of [n] bytes is a list of [n] byte values; a [char *] that is
    only read is the suffix of its object that starts at the pointer. *)
Abbreviation block := (list Z).

Definition rd (b : block) (i : nat) : res Z :=
  match b !! i with Some c => Ok c | None => Fault OutOfBounds end.

Definition wr (b : block) (i : nat) (c : Z) : res block :=
  if decide (i < length b)%nat then Ok (<[i := c]> b) else Fault OutOfBounds.

#[global] Arguments rd : simpl never.
#[global] Arguments wr : simpl never.

(** [splice b off t]: [b] with the bytes [t] written at offset [off]. *)
Definition splice (b : block) (off : nat) (t : list Z) : block :=
  take off b ++ t ++ drop (off + length t) b.

(** Bytes of a string literal, without the terminator. *)
Definition bytes (s : string) : list Z :=
  map (fun a => Z.of_N (Ascii.N_of_ascii a)) (String.list_ascii_of_string s).

(** A string literal as the C compiler lays it out. *)
Definition lit (s : string) : block := bytes s ++ [0].

(** [s] starts with the NUL-terminated string [t]. *)
Definition is_cstr (s : block) (t : list Z) : Prop :=
  Forall (fun c => c <> 0) t /\ exists r, s = t ++ 0 :: r.

(** ** Error numbers and mode bits used by the source *)

Definition EPERM := 1.
Definition ENOENT := 2.
Definition ENOMEM := 12.
Definition EACCES := 13.
Definition EBUSY := 16.
Definition EEXIST := 17.
Definition ENOTDIR := 20.
Definition EISDIR := 21.
Definition EINVAL := 22.
Definition ENOSPC := 28.
Definition ENAMETOOLONG := 36.
Definition ENOSYS := 38.
Definition ENOTEMPTY := 39.

(** ** Generic lemmas *)

Create HintDb wjfs.
Create Rewrite HintDb wjfs.

Lemma length_splice b off t :
  (off + length t <= length b)%nat -> length (splice b off t) = length b.
Proof. intros H. unfold splice. rewrite !length_app, length_take, length_drop. lia. Qed.

Lemma splice_nil b off : splice b off [] = b.
Proof. unfold splice. simpl. rewrite Nat.add_0_r. apply take_drop. Qed.

Lemma wr_ok b i c : (i < length b)%nat -> wr b i c = Ok (<[i := c]> b).
Proof. intros H. unfold wr. by rewrite decide_True. Qed.

Lemma wr_oob b i c : (length b <= i)%nat -> wr b i c = Fault OutOfBounds.
Proof. intros H. unfold wr. rewrite decide_False; [done|lia]. Qed.

Lemma wr_inv b i c b' :
  wr b i c = Ok b' -> (i < length b)%nat /\ b' = <[i := c]> b.
Proof. unfold wr. case_decide; naive_solver. Qed.

Lemma rd_ok b i c : b !! i = Some c -> rd b i = Ok c.
Proof. unfold rd. by intros ->. Qed.

Lemma rd_oob b i : (length b <= i)%nat -> rd b i = Fault OutOfBounds.
Proof. intros H. unfold rd. by rewrite lookup_ge_None_2. Qed.

Lemma splice_cons b off c t :
  (off < length b)%nat ->
  splice b off (c :: t) = splice (<[off := c]> b) (S off) t.
Proof.
  intros H. unfold splice. simpl.
  rewrite (take_S_r (<[off := c]> b) off c) by (by apply list_lookup_insert_eq).
  rewrite take_insert_ge by lia. rewrite drop_insert_lt by lia.
  rewrite <- app_assoc. simpl. repeat f_equal. lia.
Qed.

Lemma insert_splice b off c :
  (off < length b)%nat -> <[off := c]> b = splice b off [c].
Proof. intros H. rewrite splice_cons by done. by rewrite splice_nil. Qed.

Lemma splice_app b off t1 t2 :
  (off + length t1 + length t2 <= length b)%nat ->
  splice (splice b off t1) (off + length t1) t2 = splice b off (t1 ++ t2).
Proof.
  revert b off. induction t1 as [|c t1 IH]; intros b off H; simpl in *.
  - rewrite splice_nil. f_equal. lia.
  - rewrite !splice_cons by lia.
    rewrite <- IH by (rewrite length_insert; lia).
    f_equal. lia.
Qed.

Lemma splice_lookup_old b off t i :
  (i < off \/ off + length t <= i)%nat -> (off + length t <= length b)%nat ->
  splice b off t !! i = b !! i.
Proof.
  intros H Hl. unfold splice. destruct H as [H|H].
  - rewrite lookup_app_l by (rewrite length_take; lia). by rewrite lookup_take_lt.
  - rewrite lookup_app_r by (rewrite length_take; lia).
    rewrite length_take, Nat.min_l by lia.
    rewrite lookup_app_r by lia. rewrite lookup_drop. f_equal. lia.
Qed.

Lemma splice_lookup_new b off t i :
  (i < length t)%nat -> (off + length t <= length b)%nat ->
  splice b off t !! (off + i)%nat = t !! i.
Proof.
  intros H Hl. unfold splice.
  rewrite lookup_app_r by (rewrite length_take; lia).
  rewrite length_take, Nat.min_l by lia.
  rewrite lookup_app_l by lia. f_equal. lia.
Qed.

Lemma drop_splice b off t :
  (off + length t <= length b)%nat ->
  drop off (splice b off t) = t ++ drop (off + length t) b.
Proof.
  intros H. unfold splice. rewrite drop_app_length'; [done|].
  rewrite length_take. lia.
Qed.

Lemma Forall_both {A} (P Q : A -> Prop) l :
  Forall P l -> Forall Q l -> Forall (fun x => P x /\ Q x) l.
Proof. rewrite !Forall_lookup. eauto. Qed.

#[export] Hint Rewrite @length_insert @length_app @length_take @length_drop
  @length_replicate @length_map : wjfs.

(** A decidable property of all numbers below [n], by enumeration. *)
Lemma below_forall (n : nat) (P : Z -> bool) :
  forallb P (map Z.of_nat (seq 0 n)) = true -> forall c, 0 <= c < Z.of_nat n -> P c = true.
Proof.
  intros H c Hc. rewrite forallb_forall in H. apply H.
  apply in_map_iff. exists (Z.to_nat c). split; [lia|]. apply in_seq. lia.
Qed.

(** [lia] with division and remainder by constants. *)
Ltac dlia := Z.to_euclidean_division_equations; lia.

(** Split the [if]s and [match]es of a goal and close what is contradictory. *)
Ltac cases := repeat (case_decide || case_match); simplify_eq/=; try done; try lia.

(** A [Forall] over a list that is written out. *)
Ltac forall_list := rewrite ?Forall_cons_iff, ?Forall_nil_iff; split_and?; try done.

(** Equality of two finite maps that differ by inserts and deletes. *)
Ltac map_solve :=
  apply map_eq; intros ?;
  repeat first [rewrite lookup_insert | rewrite lookup_delete];
  repeat case_decide; simplify_eq; try done; try lia.
