(* ===== verification/KString.v ===== *)
(** * lib/string.c: the string routines wjfs calls

    A [const char *] argument is the suffix of its object from the pointer on,
    so running past the end of the object is running past the end of the list.
    A destination is the whole object together with an offset.  Bytes are
    unsigned values; [unsigned char] conversions of the source are therefore
    the identity. *)

From S2P Require Import Prelude.

(** ** Definitions *)

Fixpoint strlen (s : block) : res Z :=
  match s with
  | [] => Fault OutOfBounds
  | c :: s' => if c =? 0 then Ok 0 else n ← strlen s'; Ok (n + 1)
  end.

(** [count] is a [size_t]; callers pass [(size_t)-1] for "no limit". *)
Fixpoint strnlen (s : block) (count : Z) {struct s} : res Z :=
  if count =? 0 then Ok 0
  else match s with
       | [] => Fault OutOfBounds
       | c :: s' => if c =? 0 then Ok 0 else n ← strnlen s' (count - 1); Ok (n + 1)
       end.

Fixpoint strcpy (dest : block) (off : nat) (src : block) : res block :=
  match src with
  | [] => Fault OutOfBounds
  | c :: src' =>
      dest' ← wr dest off c;
      if c =? 0 then Ok dest' else strcpy dest' (S off) src'
  end.

Fixpoint strcmp (cs ct : block) : res Z :=
  match cs, ct with
  | c1 :: cs', c2 :: ct' =>
      if negb (c1 =? c2) then Ok (if c1 <? c2 then -1 else 1)
      else if c1 =? 0 then Ok 0
      else strcmp cs' ct'
  | _, _ => Fault OutOfBounds
  end.

Fixpoint strncmp (cs ct : block) (count : nat) {struct count} : res Z :=
  match count with
  | O => Ok 0
  | S count' =>
      match cs, ct with
      | c1 :: cs', c2 :: ct' =>
          if negb (c1 =? c2) then Ok (if c1 <? c2 then -1 else 1)
          else if c1 =? 0 then Ok 0
          else strncmp cs' ct' count'
      | _, _ => Fault OutOfBounds
      end
  end.

(** The result is the offset of the match from [s], [None] for [NULL]. *)
Fixpoint strchr (s : block) (c : Z) : res (option nat) :=
  match s with
  | [] => Fault OutOfBounds
  | x :: s' =>
      if x =? c then Ok (Some O)
      else if x =? 0 then Ok None
      else r ← strchr s' c; Ok (option_map S r)
  end.

(** The inner loop of [strpbrk]: is [c] one of the characters of [ct]? *)
Fixpoint strpbrk_inner (c : Z) (ct : block) : res bool :=
  match ct with
  | [] => Fault OutOfBounds
  | x :: ct' => if x =? 0 then Ok false
                else if c =? x then Ok true else strpbrk_inner c ct'
  end.

Fixpoint strpbrk (cs ct : block) : res (option nat) :=
  match cs with
  | [] => Fault OutOfBounds
  | c :: cs' =>
      if c =? 0 then Ok None
      else hit ← strpbrk_inner c ct;
           if (hit : bool) then Ok (Some O)
           else r ← strpbrk cs' ct; Ok (option_map S r)
  end.

(** [*s] is an offset into the object [b], [None] for [NULL]; the result is the
    token's offset, the new [*s] and the object with the delimiter replaced. *)
Definition strsep (b : block) (s : option nat) (ct : block)
  : res (option nat * option nat * block) :=
  match s with
  | None => Ok (None, None, b)
  | Some sbegin =>
      e ← strpbrk (drop sbegin b) ct;
      match e with
      | Some d => b' ← wr b (sbegin + d) 0;
                  Ok (Some sbegin, Some (sbegin + d + 1)%nat, b')
      | None => Ok (Some sbegin, None, b)
      end
  end.

Fixpoint memset (xs : block) (off : nat) (c : Z) (count : nat) : res block :=
  match count with
  | O => Ok xs
  | S count' => xs' ← wr xs off (u8 c); memset xs' (S off) c count'
  end.

Fixpoint memcpy (dest : block) (off : nat) (src : block) (count : nat)
  {struct count} : res block :=
  match count with
  | O => Ok dest
  | S count' =>
      match src with
      | [] => Fault OutOfBounds
      | c :: src' => dest' ← wr dest off c; memcpy dest' (S off) src' count'
      end
  end.

Fixpoint memcmp (cs ct : block) (count : nat) {struct count} : res Z :=
  match count with
  | O => Ok 0
  | S count' =>
      match cs, ct with
      | c1 :: cs', c2 :: ct' =>
          let r := c1 - c2 in
          if negb (r =? 0) then Ok r else memcmp cs' ct' count'
      | _, _ => Fault OutOfBounds
      end
  end.

(** ** What a block says as a C string *)

(** The string at the start of [s], when the object holds a terminator. *)
Fixpoint cstring (s : block) : option (list Z) :=
  match s with
  | [] => None
  | c :: s' => if c =? 0 then Some [] else cons c <$> cstring s'
  end.

Lemma cstring_is_cstr s t : cstring s = Some t <-> is_cstr s t.
Proof.
  revert t. induction s as [|c s IH]; intros t; simpl.
  - split; [done|]. intros [_ [r Hr]]. by destruct t.
  - case_match eqn:Hc.
    + apply Z.eqb_eq in Hc as ->. split.
      * intros [= <-]. split; [done|by exists s].
      * intros [Hf [r Hr]]. destruct t as [|d t]; [done|].
        inversion Hf; simplify_eq/=.
    + apply Z.eqb_neq in Hc. split.
      * intros (u & Hu & ->)%fmap_Some. apply IH in Hu as [Hf [r ->]].
        split; [by constructor|by exists r].
      * intros [Hf [r Hr]]. destruct t as [|d t]; simplify_eq/=.
        inversion Hf; simplify_eq/=.
        assert (cstring (t ++ 0 :: r) = Some t) as -> by (apply IH; split; eauto).
        done.
Qed.

Lemma is_cstr_fun s t1 t2 : is_cstr s t1 -> is_cstr s t2 -> t1 = t2.
Proof. rewrite <- !cstring_is_cstr. congruence. Qed.

Lemma is_cstr_nil s : is_cstr (0 :: s) [].
Proof. split; [done|by exists s]. Qed.

Lemma is_cstr_cons c s t : c <> 0 -> is_cstr s t -> is_cstr (c :: s) (c :: t).
Proof. intros Hc [Hf [r ->]]. split; [by constructor|by exists r]. Qed.

Lemma is_cstr_app t r : Forall (fun c => c <> 0) t -> is_cstr (t ++ 0 :: r) t.
Proof. intros H. split; [done|by exists r]. Qed.

Lemma is_cstr_inv c s t :
  is_cstr (c :: s) t ->
  (c = 0 /\ t = []) \/ (c <> 0 /\ exists t', t = c :: t' /\ is_cstr s t').
Proof.
  intros [Hf [r Hr]]. destruct t as [|d t]; simplify_eq/=; [by left|right].
  inversion Hf; subst. split; [done|]. exists t. split; [done|]. split; eauto.
Qed.

(** A string read from a block that starts with [m] starts with [m]. *)
Lemma is_cstr_prefix m x c :
  Forall (fun c => c <> 0) m -> is_cstr (m ++ x) c -> exists c', c = m ++ c' /\ is_cstr x c'.
Proof.
  intros Hm. revert c. induction Hm as [|a m Ha Hm IH]; intros c Hc; [by exists c|].
  cbn [app] in Hc. apply is_cstr_inv in Hc as [[-> _]|(_ & t & -> & Ht)]; [done|].
  destruct (IH t Ht) as (c' & -> & Hc'). by exists c'.
Qed.

Lemma is_cstr_lit_app s r : Forall (fun c => c <> 0) (bytes s) -> is_cstr (lit s ++ r) (bytes s).
Proof. intros H. unfold lit. rewrite <- app_assoc. by apply is_cstr_app. Qed.

Lemma is_cstr_lit s : Forall (fun c => c <> 0) (bytes s) -> is_cstr (lit s) (bytes s).
Proof. intros H. rewrite <- (app_nil_r (lit s)). by apply is_cstr_lit_app. Qed.

#[export] Hint Resolve is_cstr_nil is_cstr_cons is_cstr_app : wjfs.

(** ** Lemmas *)

Lemma strlen_spec s t : is_cstr s t -> strlen s = Ok (Z.of_nat (length t)).
Proof.
  revert t. induction s as [|c s IH]; intros t H.
  - destruct H as [_ [r Hr]]. by destruct t.
  - apply is_cstr_inv in H as [[-> ->]|(Hc & t' & -> & Ht)]; simpl; [done|].
    rewrite (proj2 (Z.eqb_neq c 0)) by done.
    rewrite (IH _ Ht). simpl. f_equal. lia.
Qed.

Lemma strlen_ok_inv s n :
  strlen s = Ok n -> exists t, is_cstr s t /\ n = Z.of_nat (length t).
Proof.
  revert n. induction s as [|c s IH]; intros n; simpl; [done|].
  destruct (Z.eqb_spec c 0) as [->|Hc].
  - intros [= <-]. exists []. eauto with wjfs.
  - intros (m & Hm & [= <-])%bind_ok_inv. apply IH in Hm as (t & Ht & ->).
    exists (c :: t). split; [eauto with wjfs|]. simpl. lia.
Qed.

Lemma strnlen_spec s t count :
  is_cstr s t -> 0 <= count ->
  strnlen s count = Ok (Z.min count (Z.of_nat (length t))).
Proof.
  revert t count. induction s as [|c s IH]; intros t count H Hc.
  - destruct H as [_ [r Hr]]. by destruct t.
  - simpl. destruct (Z.eqb_spec count 0) as [->|Hne]; [f_equal; lia|].
    apply is_cstr_inv in H as [[-> ->]|(Hc0 & t' & -> & Ht)]; simpl.
    + f_equal. lia.
    + rewrite (proj2 (Z.eqb_neq c 0)) by done.
      rewrite (IH _ _ Ht) by lia. simpl. f_equal. lia.
Qed.

Lemma strcpy_ok dest off src t :
  is_cstr src t -> (off + length t + 1 <= length dest)%nat ->
  strcpy dest off src = Ok (splice dest off (t ++ [0])).
Proof.
  revert dest off t. induction src as [|c src IH]; intros dest off t H Hl.
  - destruct H as [_ [r Hr]]. by destruct t.
  - apply is_cstr_inv in H as [[-> ->]|(Hc & t' & -> & Ht)]; simpl in *.
    + rewrite wr_ok by lia. simpl. by rewrite insert_splice by lia.
    + rewrite wr_ok by lia. simpl.
      rewrite (proj2 (Z.eqb_neq c 0)) by done.
      rewrite (IH _ _ t') by (done || rewrite length_insert; lia).
      by rewrite splice_cons by lia.
Qed.

Lemma strcpy_overflow dest off src t :
  is_cstr src t -> (length dest < off + length t + 1)%nat ->
  strcpy dest off src = Fault OutOfBounds.
Proof.
  revert dest off t. induction src as [|c src IH]; intros dest off t H Hl.
  - destruct H as [_ [r Hr]]. by destruct t.
  - apply is_cstr_inv in H as [[-> ->]|(Hc & t' & -> & Ht)]; simpl in *.
    + by rewrite wr_oob by lia.
    + destruct (decide (off < length dest)%nat).
      * rewrite wr_ok by lia. simpl.
        rewrite (proj2 (Z.eqb_neq c 0)) by done.
        apply (IH _ _ t'); [done|]. rewrite length_insert. lia.
      * by rewrite wr_oob by lia.
Qed.

Lemma strcmp_eq cs ct t1 t2 :
  is_cstr cs t1 -> is_cstr ct t2 ->
  exists r, strcmp cs ct = Ok r /\ (r = 0 <-> t1 = t2).
Proof.
  revert ct t1 t2. induction cs as [|c1 cs IH]; intros ct t1 t2 H1 H2.
  - destruct H1 as [_ [r Hr]]. by destruct t1.
  - destruct ct as [|c2 ct]; [destruct H2 as [_ [r Hr]]; by destruct t2|].
    apply is_cstr_inv in H1 as [[-> ->]|(Hc1 & t1' & -> & Ht1)];
      apply is_cstr_inv in H2 as [[-> ->]|(Hc2 & t2' & -> & Ht2)]; simpl.
    + by exists 0.
    + rewrite (proj2 (Z.eqb_neq 0 c2)) by done. simpl.
      eexists; split; [done|]. by case_match.
    + rewrite (proj2 (Z.eqb_neq c1 0)) by done. simpl.
      eexists; split; [done|]. by case_match.
    + destruct (Z.eqb_spec c1 c2) as [->|Hne]; simpl.
      * rewrite (proj2 (Z.eqb_neq c2 0)) by done.
        destruct (IH _ _ _ Ht1 Ht2) as (r & -> & Hr). exists r. split; [done|].
        rewrite Hr. split; congruence.
      * eexists; split; [done|]. case_match; naive_solver.
Qed.

Lemma strcmp_true cs ct t : is_cstr cs t -> is_cstr ct t -> strcmp cs ct = Ok 0.
Proof.
  intros H1 H2. destruct (strcmp_eq _ _ _ _ H1 H2) as (r & -> & Hr).
  f_equal. by apply Hr.
Qed.

Lemma memset_spec xs off c count :
  (off + count <= length xs)%nat ->
  memset xs off c count = Ok (splice xs off (replicate count (u8 c))).
Proof.
  revert xs off. induction count as [|count IH]; intros xs off H; simpl.
  - by rewrite splice_nil.
  - rewrite wr_ok by lia. simpl. rewrite IH by (rewrite length_insert; lia).
    by rewrite <- splice_cons by lia.
Qed.

Lemma memset_all xs c : memset xs 0 c (length xs) = Ok (replicate (length xs) (u8 c)).
Proof.
  rewrite memset_spec by lia. unfold splice. simpl.
  rewrite length_replicate, drop_all, app_nil_r. done.
Qed.

Lemma memcpy_spec dest off t r :
  (off + length t <= length dest)%nat ->
  memcpy dest off (t ++ r) (length t) = Ok (splice dest off t).
Proof.
  revert dest off. induction t as [|c t IH]; intros dest off H; simpl in *.
  - by rewrite splice_nil.
  - rewrite wr_ok by lia. simpl. rewrite IH by (rewrite length_insert; lia).
    by rewrite <- splice_cons by lia.
Qed.

Lemma memcpy_take dest off src n :
  (n <= length src)%nat -> (off + n <= length dest)%nat ->
  memcpy dest off src n = Ok (splice dest off (take n src)).
Proof.
  intros Hs Hd. pose proof (firstn_length_le src Hs) as Hl.
  rewrite <- (take_drop n src) at 1. rewrite <- Hl at 3. apply memcpy_spec. lia.
Qed.

Lemma memcmp_eq cs ct n :
  (n <= length cs)%nat -> (n <= length ct)%nat ->
  exists r, memcmp cs ct n = Ok r /\ (r = 0 <-> take n cs = take n ct).
Proof.
  revert cs ct. induction n as [|n IH]; intros cs ct H1 H2; simpl.
  - exists 0. by rewrite !take_0.
  - destruct cs as [|c1 cs]; [simpl in *; lia|].
    destruct ct as [|c2 ct]; [simpl in *; lia|]. simpl in *.
    destruct (Z.eqb_spec (c1 - c2) 0) as [E|E]; simpl.
    + destruct (IH cs ct) as (r & -> & Hr); [lia..|]. exists r. split; [done|].
      rewrite Hr. assert (c1 = c2) as -> by lia. split; congruence.
    + eexists; split; [done|]. split; [lia|]. intros [= -> _]. lia.
Qed.

Lemma strpbrk_inner_spec c ct t :
  is_cstr ct t -> strpbrk_inner c ct = Ok (bool_decide (c ∈ t)).
Proof.
  revert t. induction ct as [|x ct IH]; intros t H.
  - destruct H as [_ [r Hr]]. by destruct t.
  - apply is_cstr_inv in H as [[-> ->]|(Hx & t' & -> & Ht)]; simpl; [done|].
    rewrite (proj2 (Z.eqb_neq x 0)) by done.
    destruct (Z.eqb_spec c x) as [->|Hne].
    + rewrite bool_decide_true by set_solver. done.
    + rewrite (IH _ Ht). f_equal. apply bool_decide_ext. set_solver.
Qed.

(** [strpbrk] finds the first character of the set, or runs to the NUL. *)
Lemma strpbrk_hit cs ct p t c r :
  is_cstr ct t -> Forall (fun x => x <> 0 /\ x ∉ t) p -> c ∈ t -> c <> 0 ->
  cs = p ++ c :: r -> strpbrk cs ct = Ok (Some (length p)).
Proof.
  intros Ht Hp Hc Hc0 ->. induction p as [|x p IH]; simpl.
  - rewrite (proj2 (Z.eqb_neq c 0)) by done.
    rewrite (strpbrk_inner_spec c ct t Ht). simpl. by rewrite bool_decide_true.
  - inversion Hp as [|?? [Hx0 Hx] Hp']; subst.
    rewrite (proj2 (Z.eqb_neq x 0)) by done.
    rewrite (strpbrk_inner_spec x ct t Ht). simpl. rewrite bool_decide_false by done.
    by rewrite (IH Hp').
Qed.

Lemma strpbrk_miss cs ct p t :
  is_cstr ct t -> is_cstr cs p -> Forall (fun x => x ∉ t) p -> strpbrk cs ct = Ok None.
Proof.
  intros Ht. revert p. induction cs as [|x cs IH]; intros p H Hp.
  - destruct H as [_ [r Hr]]. by destruct p.
  - apply is_cstr_inv in H as [[-> ->]|(Hx & p' & -> & Hp')]; simpl; [done|].
    inversion Hp; subst. rewrite (proj2 (Z.eqb_neq x 0)) by done.
    rewrite (strpbrk_inner_spec x ct t Ht). simpl. rewrite bool_decide_false by done.
    by rewrite (IH p').
Qed.
