(* ===== verification/KScan.v ===== *)
(** * lib/ctype.c and the number readers of lib/vsprintf.c

    [_ctype] is the classification table; [simple_strtoul], [simple_strtol]
    and [vsscanf] read numbers.  A read position is the suffix of the object
    that is still to be read, so the end pointer of the source is the suffix
    that is left. *)

From S2P Require Import Prelude KString.

(** ** ctype *)

Definition _U := 0x01.
Definition _L := 0x02.
Definition _D := 0x04.
Definition _C := 0x08.
Definition _P := 0x10.
Definition _S := 0x20.
Definition _X := 0x40.
Definition _SP := 0x80.

Definition _ctype : list Z :=
  replicate 9 _C ++ replicate 5 (Z.lor _C _S) ++ replicate 18 _C ++
  [Z.lor _S _SP] ++ replicate 15 _P ++ replicate 10 _D ++ replicate 7 _P ++
  replicate 6 (Z.lor _U _X) ++ replicate 20 _U ++ replicate 6 _P ++
  replicate 6 (Z.lor _L _X) ++ replicate 20 _L ++ replicate 4 _P ++ [_C] ++
  replicate 32 0 ++
  [Z.lor _S _SP] ++ replicate 31 _P ++
  replicate 23 _U ++ [_P] ++ replicate 7 _U ++ replicate 24 _L ++ [_P] ++
  replicate 8 _L.

Definition __ismask (x : Z) : Z := default 0 (_ctype !! Z.to_nat (u8 x)).
Definition isalnum (c : Z) : bool :=
  negb (Z.land (__ismask c) (Z.lor (Z.lor _U _L) _D) =? 0).
Definition isdigit (c : Z) : bool := negb (Z.land (__ismask c) _D =? 0).
Definition isspace (c : Z) : bool := negb (Z.land (__ismask c) _S =? 0).
Definition isxdigit (c : Z) : bool := negb (Z.land (__ismask c) (Z.lor _D _X) =? 0).

Definition TOLOWER (x : Z) : Z := Z.lor x 0x20.

(** ** Number readers *)

Definition simple_guess_base (cp : block) : res Z :=
  c0 ← rd cp 0;
  if c0 =? 48 then
    c1 ← rd cp 1;
    if TOLOWER c1 =? 120 then
      c2 ← rd cp 2; Ok (if isxdigit c2 then 16 else 8)
    else Ok 8
  else Ok 10.

(** The value of one digit character. *)
Definition digit_value (c : Z) : Z :=
  if isdigit c then c - 48 else TOLOWER c - 97 + 10.

Fixpoint strtoul_loop (cp : block) (base result : Z) : res (Z * block) :=
  match cp with
  | [] => Fault OutOfBounds
  | c :: cp' =>
      if isxdigit c then
        let value := digit_value c in
        if base <=? value then Ok (result, cp)
        else strtoul_loop cp' base (u32 (result * base + value))
      else Ok (result, cp)
  end.

Definition simple_strtoul (cp : block) (base : Z) : res (Z * block) :=
  base ← (if base =? 0 then simple_guess_base cp else Ok base);
  cp ← (if base =? 16 then
          c0 ← rd cp 0;
          if c0 =? 48 then
            c1 ← rd cp 1;
            if TOLOWER c1 =? 120 then Ok (drop 2 cp) else Ok cp
          else Ok cp
        else Ok cp);
  strtoul_loop cp base 0.

Definition simple_strtol (cp : block) (base : Z) : res (Z * block) :=
  c ← rd cp 0;
  if c =? 45 then
    '(v, e) ← simple_strtoul (drop 1 cp) base; Ok (s32 (u32 (- v)), e)
  else
    '(v, e) ← simple_strtoul cp base; Ok (s32 v, e).

Fixpoint strtoull_loop (cp : block) (base result : Z) : res (Z * block) :=
  match cp with
  | [] => Fault OutOfBounds
  | c :: cp' =>
      if isxdigit c then
        let value := digit_value c in
        if base <=? value then Ok (result, cp)
        else strtoull_loop cp' base (u64 (result * base + value))
      else Ok (result, cp)
  end.

Definition simple_strtoull (cp : block) (base : Z) : res (Z * block) :=
  base ← (if base =? 0 then simple_guess_base cp else Ok base);
  cp ← (if base =? 16 then
          c0 ← rd cp 0;
          if c0 =? 48 then
            c1 ← rd cp 1;
            if TOLOWER c1 =? 120 then Ok (drop 2 cp) else Ok cp
          else Ok cp
        else Ok cp);
  strtoull_loop cp base 0.

Definition simple_strtoll (cp : block) (base : Z) : res (Z * block) :=
  c ← rd cp 0;
  if c =? 45 then
    '(v, e) ← simple_strtoull (drop 1 cp) base; Ok (s64 (u64 (- v)), e)
  else
    '(v, e) ← simple_strtoull cp base; Ok (s64 v, e).

Fixpoint skip_atoi_loop (s : block) (i : Z) : res (Z * block) :=
  match s with
  | [] => Fault OutOfBounds
  | c :: s' => if isdigit c then skip_atoi_loop s' (s32 (i * 10 + c - 48))
               else Ok (i, s)
  end.

Definition skip_atoi (s : block) : res (Z * block) := skip_atoi_loop s 0.

(** ** vsscanf *)

(** What a conversion stores through its pointer argument. *)
Inductive scanned : Type :=
  | SInt (z : Z)        (** an integer of the size the qualifier asks for *)
  | SBytes (t : list Z) (** the bytes written by %c or %s *).

Fixpoint skip_spaces (s : block) : res block :=
  match s with
  | [] => Fault OutOfBounds
  | c :: s' => if isspace c then skip_spaces s' else Ok s
  end.

(** [while (!isspace( *fmt) && *fmt != '%' && *fmt) fmt++;] *)
Fixpoint skip_fmt_word (s : block) : res block :=
  match s with
  | [] => Fault OutOfBounds
  | c :: s' => if negb (isspace c) && negb (c =? 37) && negb (c =? 0)
               then skip_fmt_word s' else Ok s
  end.

Fixpoint skip_word (s : block) : res block :=
  match s with
  | [] => Fault OutOfBounds
  | c :: s' => if negb (isspace c) && negb (c =? 0) then skip_word s' else Ok s
  end.

(** The [do ... while] of %c: at least one byte, at most [w]. *)
Fixpoint scan_chars (s : block) (w : Z) : res (list Z * block) :=
  match s with
  | [] => Fault OutOfBounds
  | c :: s' =>
      if w - 1 <=? 0 then Ok ([c], s')
      else d ← rd s' 0;
           if d =? 0 then Ok ([c], s')
           else '(t, r) ← scan_chars s' (w - 1); Ok (c :: t, r)
  end.

(** The copy loop of %s: up to a space, the NUL or [w] bytes. *)
Fixpoint scan_word (s : block) (w : Z) : res (list Z * block) :=
  match s with
  | [] => Fault OutOfBounds
  | c :: s' =>
      if negb (c =? 0) && negb (isspace c) && negb (w =? 0)
      then '(t, r) ← scan_word s' (w - 1); Ok (c :: t, r)
      else Ok ([], s)
  end.

(** The qualifier letters; [hh] is read as [H] and [ll] as [L]. *)
Definition scan_qualifier (fmt : block) : res (Z * block) :=
  c ← rd fmt 0;
  if (c =? 104) || (c =? 108) || (c =? 76) || (c =? 90) || (c =? 122) then
    let fmt := drop 1 fmt in
    d ← rd fmt 0;
    if c =? d then
      if c =? 104 then Ok (72, drop 1 fmt)
      else if c =? 108 then Ok (76, drop 1 fmt)
      else Ok (c, fmt)
    else Ok (c, fmt)
  else Ok (-1, fmt).

(** The [switch(qualifier)] of the integer conversions. *)
Definition scan_store (qualifier : Z) (is_sign : bool) (str : block) (base : Z)
  : res (Z * block) :=
  if qualifier =? 72 then
    if is_sign then '(v, n) ← simple_strtol str base; Ok (schar v, n)
    else '(v, n) ← simple_strtoul str base; Ok (u8 v, n)
  else if qualifier =? 104 then
    if is_sign then '(v, n) ← simple_strtol str base;
                    Ok ((v + 2 ^ 15) mod 2 ^ 16 - 2 ^ 15, n)
    else '(v, n) ← simple_strtoul str base; Ok (u16 v, n)
  else if qualifier =? 108 then
    if is_sign then simple_strtol str base else simple_strtoul str base
  else if qualifier =? 76 then
    if is_sign then simple_strtoll str base else simple_strtoull str base
  else if (qualifier =? 90) || (qualifier =? 122) then simple_strtoul str base
  else if is_sign then simple_strtol str base else simple_strtoul str base.

(** The epilogue: a %n at the current position of the format is filled. *)
Definition scan_end (buf str fmt : block) (num : Z) (out : list scanned)
  : res (Z * list scanned) :=
  c ← rd fmt 0;
  if c =? 37 then
    d ← rd fmt 1;
    if d =? 110
    then Ok (num, out ++ [SInt (Z.of_nat (length buf - length str))])
    else Ok (num, out)
  else Ok (num, out).

Fixpoint vsscanf_loop (fuel : nat) (buf str fmt : block) (num : Z)
    (out : list scanned) : res (Z * list scanned) :=
  match fuel with
  | O => Fault OutOfFuel
  | S fuel =>
    f0 ← rd fmt 0;
    s0 ← (if f0 =? 0 then Ok 0 else rd str 0);
    if (f0 =? 0) || (s0 =? 0) then scan_end buf str fmt num out else
    (* white space in the format matches any amount of white space *)
    '(fmt, str) ← (if isspace f0 then f ← skip_spaces fmt; s ← skip_spaces str; Ok (f, s)
                   else Ok (fmt, str));
    f0 ← rd fmt 0;
    if negb (f0 =? 37) && negb (f0 =? 0) then
      s0 ← rd str 0;
      if negb (f0 =? s0) then scan_end buf (drop 1 str) (drop 1 fmt) num out
      else vsscanf_loop fuel buf (drop 1 str) (drop 1 fmt) num out
    else if f0 =? 0 then scan_end buf str fmt num out
    else
    let fmt := drop 1 fmt in
    f1 ← rd fmt 0;
    if f1 =? 42 then
      fmt ← skip_fmt_word fmt; str ← skip_word str;
      vsscanf_loop fuel buf str fmt num out
    else
    '(field_width, fmt) ← (if isdigit f1 then skip_atoi fmt else Ok (-1, fmt));
    '(qualifier, fmt) ← scan_qualifier fmt;
    f2 ← rd fmt 0;
    s2 ← (if f2 =? 0 then Ok 0 else rd str 0);
    if (f2 =? 0) || (s2 =? 0) then scan_end buf str fmt num out else
    let fmt := drop 1 fmt in
    if f2 =? 99 then
      '(t, str) ← scan_chars str (if field_width =? -1 then 1 else field_width);
      vsscanf_loop fuel buf str fmt (num + 1) (out ++ [SBytes t])
    else if f2 =? 115 then
      str ← skip_spaces str;
      '(t, str) ← scan_word str (if field_width =? -1 then 2 ^ 31 - 1 else field_width);
      vsscanf_loop fuel buf str fmt (num + 1) (out ++ [SBytes (t ++ [0])])
    else if f2 =? 110 then
      vsscanf_loop fuel buf str fmt num
        (out ++ [SInt (Z.of_nat (length buf - length str))])
    else if f2 =? 37 then
      s ← rd str 0;
      if negb (s =? 37) then Ok (num, out)
      else vsscanf_loop fuel buf (drop 1 str) fmt num out
    else
    match (if f2 =? 111 then Some (8, false)
           else if (f2 =? 120) || (f2 =? 88) then Some (16, false)
           else if f2 =? 105 then Some (0, true)
           else if f2 =? 100 then Some (10, true)
           else if f2 =? 117 then Some (10, false)
           else None) with
    | None => Ok (num, out)
    | Some (base, is_sign) =>
      str ← skip_spaces str;
      digit ← rd str 0;
      digit ← (if (is_sign : bool) && (digit =? 45) then rd str 1 else Ok digit);
      if (digit =? 0)
         || ((base =? 16) && negb (isxdigit digit))
         || ((base =? 10) && negb (isdigit digit))
         || ((base =? 8) && (negb (isdigit digit) || (55 <? schar digit)))
         || ((base =? 0) && negb (isdigit digit))
      then scan_end buf str fmt num out
      else
        '(v, next) ← scan_store qualifier is_sign str base;
        vsscanf_loop fuel buf next fmt (num + 1) (out ++ [SInt v])
    end
  end.

(** Every round consumes a character of the format. *)
Definition vsscanf (buf fmt : block) : res (Z * list scanned) :=
  vsscanf_loop (S (length fmt)) buf buf fmt 0 [].

(** ** Facts about the character classes *)

Lemma byte_forall (P : Z -> bool) :
  forallb P (map Z.of_nat (seq 0 256)) = true -> forall c, byteP c -> P c = true.
Proof. intros H c Hc. exact (below_forall 256 P H c Hc). Qed.

Lemma isdigit_spec c : byteP c -> isdigit c = (48 <=? c) && (c <=? 57).
Proof.
  intros H. apply eqb_true_iff.
  apply (byte_forall (fun c => Bool.eqb (isdigit c) ((48 <=? c) && (c <=? 57)))); [|done].
  vm_compute. reflexivity.
Qed.

Lemma isxdigit_spec c :
  byteP c -> isxdigit c = ((48 <=? c) && (c <=? 57)) || ((65 <=? c) && (c <=? 70))
                          || ((97 <=? c) && (c <=? 102)).
Proof.
  intros H. apply eqb_true_iff.
  apply (byte_forall (fun c => Bool.eqb (isxdigit c)
    (((48 <=? c) && (c <=? 57)) || ((65 <=? c) && (c <=? 70))
     || ((97 <=? c) && (c <=? 102))))); [|done].
  vm_compute. reflexivity.
Qed.

Lemma isspace_spec c :
  byteP c -> isspace c = ((9 <=? c) && (c <=? 13)) || (c =? 32) || (c =? 160).
Proof.
  intros H. apply eqb_true_iff.
  apply (byte_forall (fun c => Bool.eqb (isspace c)
    (((9 <=? c) && (c <=? 13)) || (c =? 32) || (c =? 160)))); [|done].
  vm_compute. reflexivity.
Qed.

Lemma ctype_length : length _ctype = 256%nat.
Proof. reflexivity. Qed.
