(* ===== verification/KFormat.v ===== *)
(** * lib/vsprintf.c: formatting

    [sprintf] as wjfs and ksocket use it.  The output is an object and an
    offset [str] into it; [end_] is the offset the source calls [end].  A byte
    is stored only while [str < end], and a store outside the object is a
    fault: with [sprintf] ([size = INT_MAX]) the caller's buffer is the only
    limit.  When [buf + INT_MAX] wraps around the address space the source
    clips [end] to the last address; either way [end] lies past the object, so
    the model uses [end_ = size]. *)

From S2P Require Import Prelude KString KScan.

(** ** Decimal digits *)

(** [unsigned] arithmetic never wraps here ([d0], [d1] and [d3] times [0xcd]
    stay below 2^32 for every 32-bit [q]); the characters are truncated to a
    byte by the store.  Digits are appended to [buf], least significant
    first. *)
Definition put_dec_trunc (buf : list Z) (q : Z) : list Z :=
  let d1 := Z.land (Z.shiftr q 4) 0xf in
  let d2 := Z.land (Z.shiftr q 8) 0xf in
  let d3 := Z.shiftr q 12 in
  let d0 := 6 * (d3 + d2 + d1) + Z.land q 0xf in
  let q := Z.shiftr (d0 * 0xcd) 11 in
  let buf := buf ++ [u8 (d0 - 10 * q + 48)] in
  let d1 := q + 9 * d3 + 5 * d2 + d1 in
  if negb (d1 =? 0) then
    let q := Z.shiftr (d1 * 0xcd) 11 in
    let buf := buf ++ [u8 (d1 - 10 * q + 48)] in
    let d2 := q + 2 * d2 in
    if negb (d2 =? 0) || negb (d3 =? 0) then
      let q := Z.shiftr (d2 * 0xd) 7 in
      let buf := buf ++ [u8 (d2 - 10 * q + 48)] in
      let d3 := q + 4 * d3 in
      if negb (d3 =? 0) then
        let q := Z.shiftr (d3 * 0xcd) 11 in
        let buf := buf ++ [u8 (d3 - 10 * q + 48)] in
        if negb (q =? 0) then buf ++ [u8 (q + 48)] else buf
      else buf
    else buf
  else buf.

Definition put_dec_full (buf : list Z) (q : Z) : list Z :=
  let d1 := Z.land (Z.shiftr q 4) 0xf in
  let d2 := Z.land (Z.shiftr q 8) 0xf in
  let d3 := Z.shiftr q 12 in
  let d0 := 6 * (d3 + d2 + d1) + Z.land q 0xf in
  let q := Z.shiftr (d0 * 0xcd) 11 in
  let buf := buf ++ [u8 (d0 - 10 * q + 48)] in
  let d1 := q + 9 * d3 + 5 * d2 + d1 in
  let q := Z.shiftr (d1 * 0xcd) 11 in
  let buf := buf ++ [u8 (d1 - 10 * q + 48)] in
  let d2 := q + 2 * d2 in
  let q := Z.shiftr (d2 * 0xd) 7 in
  let buf := buf ++ [u8 (d2 - 10 * q + 48)] in
  let d3 := q + 4 * d3 in
  let q := Z.shiftr (d3 * 0xcd) 11 in
  let buf := buf ++ [u8 (d3 - 10 * q + 48)] in
  buf ++ [u8 (q + 48)].

(** Each round divides [num] by 100000; four rounds exhaust 64 bits. *)
Fixpoint put_dec_loop (fuel : nat) (buf : list Z) (num : Z) : res (list Z) :=
  match fuel with
  | O => Fault OutOfFuel
  | S fuel =>
      if num <? 100000 then Ok (put_dec_trunc buf num)
      else put_dec_loop fuel (put_dec_full buf (num mod 100000)) (num / 100000)
  end.

Definition put_dec (buf : list Z) (num : Z) : res (list Z) := put_dec_loop 4 buf num.

(** ** Conversion specifications *)

Definition ZEROPAD := 1.
Definition SIGN := 2.
Definition PLUS := 4.
Definition SPACE := 8.
Definition LEFT := 16.
Definition SMALL := 32.
Definition SPECIAL := 64.

Inductive format_type : Type :=
  | FORMAT_TYPE_NONE | FORMAT_TYPE_WIDTH | FORMAT_TYPE_PRECISION
  | FORMAT_TYPE_CHAR | FORMAT_TYPE_STR | FORMAT_TYPE_PTR
  | FORMAT_TYPE_PERCENT_CHAR | FORMAT_TYPE_INVALID | FORMAT_TYPE_LONG_LONG
  | FORMAT_TYPE_ULONG | FORMAT_TYPE_LONG | FORMAT_TYPE_UBYTE
  | FORMAT_TYPE_BYTE | FORMAT_TYPE_USHORT | FORMAT_TYPE_SHORT
  | FORMAT_TYPE_UINT | FORMAT_TYPE_INT | FORMAT_TYPE_NRCHARS
  | FORMAT_TYPE_SIZE_T | FORMAT_TYPE_PTRDIFF.

#[global] Instance format_type_eq_dec : EqDecision format_type.
Proof. solve_decision. Defined.

Record printf_spec : Type := mkSpec {
  ps_type : format_type;
  flags : Z;
  field_width : Z;
  base : Z;
  precision : Z;
  qualifier : Z;
}.

Definition flag (f m : Z) : bool := negb (Z.land f m =? 0).

(** ** Output *)

Definition emit (end_ : Z) (st : block * nat) (c : Z) : res (block * nat) :=
  let '(b, str) := st in
  if Z.of_nat str <? end_ then b ← wr b str c; Ok (b, S str)
  else Ok (b, S str).

Fixpoint emits (end_ : Z) (st : block * nat) (l : list Z) : res (block * nat) :=
  match l with
  | [] => Ok st
  | c :: l => st ← emit end_ st c; emits end_ st l
  end.

(** [n] copies of [c]; none when [n] is negative. *)
Definition pad (end_ : Z) (st : block * nat) (n c : Z) : res (block * nat) :=
  emits end_ st (replicate (Z.to_nat n) c).

Definition digits_tbl : list Z := bytes "0123456789ABCDEF".

(** The power-of-two bases of [number]. *)
Fixpoint put_pow2 (fuel : nat) (tmp : list Z) (num mask shift locase : Z) : res (list Z) :=
  match fuel with
  | O => Fault OutOfFuel
  | S fuel =>
      d ← rd digits_tbl (Z.to_nat (Z.land (u8 num) mask));
      let tmp := tmp ++ [Z.lor d locase] in
      let num := Z.shiftr num shift in
      if negb (num =? 0) then put_pow2 fuel tmp num mask shift locase else Ok tmp
  end.

(** The output half of [number], from the digits [tmp] (in reverse order) on. *)
Definition number_out (st : block * nat) (end_ fl fw prec bs sign locase : Z)
    (need_pfx : bool) (tmp : list Z) : res (block * nat) :=
  let i := Z.of_nat (length tmp) in
  let prec := if prec <? i then i else prec in
  let fw := fw - prec in
  '(st, fw) ← (if negb (flag fl (ZEROPAD + LEFT)) then
                 st ← pad end_ st fw 32; Ok (st, if 0 <=? fw then -1 else fw - 1)
               else Ok (st, fw));
  st ← (if negb (sign =? 0) then emit end_ st sign else Ok st);
  st ← (if need_pfx then
          st ← emit end_ st 48;
          if bs =? 16 then emit end_ st (Z.lor 88 locase) else Ok st
        else Ok st);
  '(st, fw) ← (if negb (flag fl LEFT) then
                 st ← pad end_ st fw (if flag fl ZEROPAD then 48 else 32);
                 Ok (st, if 0 <=? fw then -1 else fw - 1)
               else Ok (st, fw));
  st ← pad end_ st (prec - i) 48;
  st ← emits end_ st (rev tmp);
  pad end_ st fw 32.

Definition number (st : block * nat) (end_ : Z) (num : Z) (spec : printf_spec)
  : res (block * nat) :=
  let fl := spec.(flags) in
  let fw := spec.(field_width) in
  let bs := spec.(base) in
  let need_pfx := flag fl SPECIAL && negb (bs =? 10) in
  let locase := Z.land fl SMALL in
  let fl := if flag fl LEFT then Z.land fl (Z.lnot ZEROPAD) else fl in
  let '(sign, num, fw) :=
    if flag fl SIGN then
      if s64 num <? 0 then (45, u64 (- s64 num), fw - 1)
      else if flag fl PLUS then (43, num, fw - 1)
      else if flag fl SPACE then (32, num, fw - 1)
      else (0, num, fw)
    else (0, num, fw) in
  let fw := if need_pfx then (if bs =? 16 then fw - 2 else fw - 1) else fw in
  tmp ← (if num =? 0 then Ok [48]
         else if negb (bs =? 10) then
           put_pow2 22 [] num (bs - 1) (if bs =? 16 then 4 else 3) locase
         else put_dec [] num);
  number_out st end_ fl fw spec.(precision) bs sign locase need_pfx tmp.

(** [s] is [None] when the pointer lies in the first page. *)
Definition string_ (st : block * nat) (end_ : Z) (s : option block) (spec : printf_spec)
  : res (block * nat) :=
  let s := default (lit "<NULL>") s in
  let fw := spec.(field_width) in
  len ← strnlen s (u32 spec.(precision));
  '(st, fw) ← (if negb (flag spec.(flags) LEFT) then
                 st ← pad end_ st (fw - len) 32;
                 Ok (st, if len <? fw then len - 1 else fw - 1)
               else Ok (st, fw));
  st ← emits end_ st (take (Z.to_nat len) s);
  pad end_ st (fw - len) 32.

(** ** format_decode *)

Fixpoint skip_to_percent (fmt : block) : res block :=
  match fmt with
  | [] => Fault OutOfBounds
  | c :: fmt' => if (c =? 0) || (c =? 37) then Ok fmt else skip_to_percent fmt'
  end.

Fixpoint decode_flags (fmt : block) (fl : Z) : res (block * Z) :=
  match fmt with
  | [] => Fault OutOfBounds
  | c :: fmt' =>
      if c =? 45 then decode_flags fmt' (Z.lor fl LEFT)
      else if c =? 43 then decode_flags fmt' (Z.lor fl PLUS)
      else if c =? 32 then decode_flags fmt' (Z.lor fl SPACE)
      else if c =? 35 then decode_flags fmt' (Z.lor fl SPECIAL)
      else if c =? 48 then decode_flags fmt' (Z.lor fl ZEROPAD)
      else Ok (fmt, fl)
  end.

(** The integer types chosen from qualifier and signedness. *)
Definition int_type (q fl : Z) : format_type :=
  if q =? 76 then FORMAT_TYPE_LONG_LONG
  else if q =? 108 then if flag fl SIGN then FORMAT_TYPE_LONG else FORMAT_TYPE_ULONG
  else if (q =? 90) || (q =? 122) then FORMAT_TYPE_SIZE_T
  else if q =? 116 then FORMAT_TYPE_PTRDIFF
  else if q =? 72 then if flag fl SIGN then FORMAT_TYPE_BYTE else FORMAT_TYPE_UBYTE
  else if q =? 104 then if flag fl SIGN then FORMAT_TYPE_SHORT else FORMAT_TYPE_USHORT
  else if flag fl SIGN then FORMAT_TYPE_INT else FORMAT_TYPE_UINT.

(** Label [qualifier:]; the result is the rest of the format and the
    specification. *)
Definition decode_qualifier (fmt : block) (spec : printf_spec) : res (block * printf_spec) :=
  let '(mkSpec ty fl fw _ pr _) := spec in
  c ← rd fmt 0;
  '(q, fmt) ←
    (if (c =? 104) || (c =? 108) || (c =? 76) || (c =? 90) || (c =? 122) || (c =? 116) then
       let fmt := drop 1 fmt in
       d ← rd fmt 0;
       if c =? d then
         if c =? 108 then Ok (76, drop 1 fmt)
         else if c =? 104 then Ok (72, drop 1 fmt)
         else Ok (c, fmt)
       else Ok (c, fmt)
     else Ok (-1, fmt));
  c ← rd fmt 0;
  if c =? 99 then Ok (drop 1 fmt, mkSpec FORMAT_TYPE_CHAR fl fw 10 pr q)
  else if c =? 115 then Ok (drop 1 fmt, mkSpec FORMAT_TYPE_STR fl fw 10 pr q)
  else if c =? 112 then Ok (fmt, mkSpec FORMAT_TYPE_PTR fl fw 10 pr q)
  else if c =? 110 then Ok (drop 1 fmt, mkSpec FORMAT_TYPE_NRCHARS fl fw 10 pr q)
  else if c =? 37 then Ok (drop 1 fmt, mkSpec FORMAT_TYPE_PERCENT_CHAR fl fw 10 pr q)
  else if c =? 111 then Ok (drop 1 fmt, mkSpec (int_type q fl) fl fw 8 pr q)
  else if c =? 120 then
    let fl := Z.lor fl SMALL in Ok (drop 1 fmt, mkSpec (int_type q fl) fl fw 16 pr q)
  else if c =? 88 then Ok (drop 1 fmt, mkSpec (int_type q fl) fl fw 16 pr q)
  else if (c =? 100) || (c =? 105) then
    let fl := Z.lor fl SIGN in Ok (drop 1 fmt, mkSpec (int_type q fl) fl fw 10 pr q)
  else if c =? 117 then Ok (drop 1 fmt, mkSpec (int_type q fl) fl fw 10 pr q)
  else Ok (fmt, mkSpec FORMAT_TYPE_INVALID fl fw 10 pr q).

(** Label [precision:]. *)
Definition decode_precision (fmt : block) (spec : printf_spec) : res (block * printf_spec) :=
  let '(mkSpec ty fl fw bs _ q) := spec in
  c ← rd fmt 0;
  if c =? 46 then
    let fmt := drop 1 fmt in
    d ← rd fmt 0;
    if isdigit d then
      '(pr, fmt) ← skip_atoi fmt;
      decode_qualifier fmt (mkSpec ty fl fw bs (if pr <? 0 then 0 else pr) q)
    else if d =? 42 then Ok (drop 1 fmt, mkSpec FORMAT_TYPE_PRECISION fl fw bs (-1) q)
    else decode_qualifier fmt (mkSpec ty fl fw bs (-1) q)
  else decode_qualifier fmt (mkSpec ty fl fw bs (-1) q).

Definition format_decode (fmt : block) (spec : printf_spec) : res (block * printf_spec) :=
  let '(mkSpec ty fl fw bs pr q) := spec in
  match ty with
  | FORMAT_TYPE_WIDTH =>
      let '(fw, fl) := if fw <? 0 then (- fw, Z.lor fl LEFT) else (fw, fl) in
      decode_precision fmt (mkSpec FORMAT_TYPE_NONE fl fw bs pr q)
  | FORMAT_TYPE_PRECISION =>
      decode_qualifier fmt (mkSpec FORMAT_TYPE_NONE fl fw bs (if pr <? 0 then 0 else pr) q)
  | _ =>
      rest ← skip_to_percent fmt;
      c ← rd rest 0;
      if negb (length rest =? length fmt)%nat || (c =? 0)
      then Ok (rest, mkSpec FORMAT_TYPE_NONE fl fw bs pr q)
      else
        '(fmt, fl) ← decode_flags (drop 1 rest) 0;
        c ← rd fmt 0;
        if isdigit c then
          '(fw, fmt) ← skip_atoi fmt;
          decode_precision fmt (mkSpec FORMAT_TYPE_NONE fl fw bs pr q)
        else if c =? 42 then
          Ok (drop 1 fmt, mkSpec FORMAT_TYPE_WIDTH fl (-1) bs pr q)
        else decode_precision fmt (mkSpec FORMAT_TYPE_NONE fl (-1) bs pr q)
  end.

(** ** vsnprintf *)

(** Arguments as the callee fetches them: a 32-bit word, a 64-bit word, a
    string, a pointer for %p or the target of %n. *)
Inductive va : Type :=
  | VWord (z : Z)
  | VLongLong (z : Z)
  | VStr (s : option block)
  | VPtr (z : Z)
  | VOut.

(** The value an integer conversion fetches, as the 64-bit [num]. *)
Definition fetch_num (ty : format_type) (a : va) : res Z :=
  match ty, a with
  | FORMAT_TYPE_LONG_LONG, VLongLong z => Ok (u64 z)
  | FORMAT_TYPE_LONG_LONG, _ => Fault BadPointer
  | FORMAT_TYPE_ULONG, VWord z | FORMAT_TYPE_SIZE_T, VWord z
  | FORMAT_TYPE_UINT, VWord z => Ok (u32 z)
  | FORMAT_TYPE_LONG, VWord z | FORMAT_TYPE_PTRDIFF, VWord z
  | FORMAT_TYPE_INT, VWord z => Ok (u64 (s32 z))
  | FORMAT_TYPE_UBYTE, VWord z => Ok (u8 z)
  | FORMAT_TYPE_BYTE, VWord z => Ok (u64 (schar z))
  | FORMAT_TYPE_USHORT, VWord z => Ok (u16 z)
  | FORMAT_TYPE_SHORT, VWord z => Ok (u64 ((z + 2 ^ 15) mod 2 ^ 16 - 2 ^ 15))
  | _, _ => Fault BadPointer
  end.

Definition va_arg (args : list va) : res (va * list va) :=
  match args with a :: args => Ok (a, args) | [] => Fault BadPointer end.

Fixpoint skip_alnum (fmt : block) : res block :=
  match fmt with
  | [] => Fault OutOfBounds
  | c :: fmt' => if isalnum c then skip_alnum fmt' else Ok fmt
  end.

Section vsnprintf.
(** [pointer], the %p extensions, serves diagnostics only. *)
Variable pointer : block -> block * nat -> Z -> va -> printf_spec -> res (block * nat).

(** The values stored through %n are collected in the last component. *)
Fixpoint vsnprintf_loop (fuel : nat) (st : block * nat) (end_ : Z) (fmt : block)
    (spec : printf_spec) (args : list va) (out : list Z) : res (block * nat * list Z) :=
  match fuel with
  | O => Fault OutOfFuel
  | S fuel =>
    c ← rd fmt 0;
    if c =? 0 then Ok (st, out) else
    '(rest, spec) ← format_decode fmt spec;
    let read := (length fmt - length rest)%nat in
    match spec.(ps_type) with
    | FORMAT_TYPE_NONE =>
        st ← emits end_ st (take read fmt);
        vsnprintf_loop fuel st end_ rest spec args out
    | FORMAT_TYPE_WIDTH =>
        '(a, args) ← va_arg args;
        match a, spec with
        | VWord z, mkSpec ty fl _ bs pr q =>
            vsnprintf_loop fuel st end_ rest (mkSpec ty fl (s32 z) bs pr q) args out
        | _, _ => Fault BadPointer
        end
    | FORMAT_TYPE_PRECISION =>
        '(a, args) ← va_arg args;
        match a, spec with
        | VWord z, mkSpec ty fl fw bs _ q =>
            vsnprintf_loop fuel st end_ rest (mkSpec ty fl fw bs (s32 z) q) args out
        | _, _ => Fault BadPointer
        end
    | FORMAT_TYPE_CHAR =>
        let fw := spec.(field_width) in
        st ← (if negb (flag spec.(flags) LEFT) then pad end_ st (fw - 1) 32 else Ok st);
        '(a, args) ← va_arg args;
        match a with
        | VWord z =>
            st ← emit end_ st (u8 z);
            st ← (if negb (flag spec.(flags) LEFT) then Ok st else pad end_ st (fw - 1) 32);
            vsnprintf_loop fuel st end_ rest spec args out
        | _ => Fault BadPointer
        end
    | FORMAT_TYPE_STR =>
        '(a, args) ← va_arg args;
        match a with
        | VStr s => st ← string_ st end_ s spec; vsnprintf_loop fuel st end_ rest spec args out
        | _ => Fault BadPointer
        end
    | FORMAT_TYPE_PTR =>
        '(a, args) ← va_arg args;
        st ← pointer (drop 1 rest) st end_ a spec;
        rest ← skip_alnum rest;
        vsnprintf_loop fuel st end_ rest spec args out
    | FORMAT_TYPE_PERCENT_CHAR | FORMAT_TYPE_INVALID =>
        st ← emit end_ st 37; vsnprintf_loop fuel st end_ rest spec args out
    | FORMAT_TYPE_NRCHARS =>
        '(a, args) ← va_arg args;
        match a with
        | VOut => vsnprintf_loop fuel st end_ rest spec args (out ++ [Z.of_nat st.2])
        | _ => Fault BadPointer
        end
    | ty =>
        '(a, args) ← va_arg args;
        num ← fetch_num ty a;
        st ← number st end_ num spec;
        vsnprintf_loop fuel st end_ rest spec args out
    end
  end.

Definition spec0 : printf_spec := mkSpec FORMAT_TYPE_NONE 0 0 0 0 0.

(** A round may leave the format in place only after a [*]; two rounds per
    character are always enough. *)
Definition vsnprintf (buf : block) (size : Z) (fmt : block) (args : list va)
  : res (block * Z * list Z) :=
  if s32 size <? 0 then Ok (buf, 0, [])
  else
    '(b, str, out) ← vsnprintf_loop (2 * length fmt + 2) (buf, O) size fmt spec0 args [];
    b ← (if 0 <? size then
           if Z.of_nat str <? size then wr b str 0 else wr b (Z.to_nat (size - 1)) 0
         else Ok b);
    Ok (b, Z.of_nat str, out).

Definition INT_MAX := 2 ^ 31 - 1.

Definition sprintf (buf : block) (fmt : block) (args : list va) : res (block * Z) :=
  '(b, n, _) ← vsnprintf buf INT_MAX fmt args; Ok (b, n).
End vsnprintf.

(** ** The reference: decimal notation *)

(** Least significant digit first; [k] bounds the number of digits. *)
Fixpoint dec_rev (k : nat) (n : Z) : list Z :=
  match k with
  | O => []
  | S k => (n mod 10 + 48) :: (if n <? 10 then [] else dec_rev k (n / 10))
  end.

Definition decimal (n : Z) : list Z := rev (dec_rev 20 n).
Definition sdecimal (z : Z) : list Z := if z <? 0 then 45 :: decimal (- z) else decimal z.

(** *** The digit extraction of the optimised routines *)

Lemma div10_mul x : 0 <= x < 1024 -> Z.shiftr (x * 0xcd) 11 = x / 10.
Proof.
  intros H. apply Z.eqb_eq.
  by apply (below_forall 1024 (fun x => Z.shiftr (x * 0xcd) 11 =? x / 10)).
Qed.

Lemma div10_mul' x : 0 <= x < 64 -> Z.shiftr (x * 0xd) 7 = x / 10.
Proof.
  intros H. apply Z.eqb_eq.
  by apply (below_forall 64 (fun x => Z.shiftr (x * 0xd) 7 =? x / 10)).
Qed.

Lemma u8_small z : 0 <= z < 256 -> u8 z = z.
Proof. apply Z.mod_small. Qed.

Lemma nibble x : Z.land x 0xf = x mod 16.
Proof. change 0xf with (Z.ones 4). by rewrite Z.land_ones by lia. Qed.

(** The five decimal digits of [q], least significant first. *)
Definition digits5 (q : Z) : list Z :=
  [q mod 10 + 48; q / 10 mod 10 + 48; q / 100 mod 10 + 48;
   q / 1000 mod 10 + 48; q / 10000 mod 10 + 48].
(** One pass of the algorithm: the approximate divisions are exact on the
    range they meet, and the partial sums have the right digits. *)
Lemma jones_steps q :
  0 <= q < 100000 ->
  let d1 := Z.land (Z.shiftr q 4) 0xf in
  let d2 := Z.land (Z.shiftr q 8) 0xf in
  let d3 := Z.shiftr q 12 in
  let a0 := 6 * (d3 + d2 + d1) + Z.land q 0xf in
  let b1 := Z.shiftr (a0 * 0xcd) 11 + 9 * d3 + 5 * d2 + d1 in
  let c2 := Z.shiftr (b1 * 0xcd) 11 + 2 * d2 in
  let e3 := Z.shiftr (c2 * 0xd) 7 + 4 * d3 in
  (a0 - 10 * Z.shiftr (a0 * 0xcd) 11 = q mod 10 /\
   b1 - 10 * Z.shiftr (b1 * 0xcd) 11 = q / 10 mod 10 /\
   c2 - 10 * Z.shiftr (c2 * 0xd) 7 = q / 100 mod 10 /\
   e3 - 10 * Z.shiftr (e3 * 0xcd) 11 = q / 1000 mod 10 /\
   Z.shiftr (e3 * 0xcd) 11 = q / 10000) /\
  (0 <= b1 /\ (b1 = 0 <-> q / 10 = 0)) /\
  (0 <= c2 /\ 0 <= d3 /\ c2 + 40 * d3 = q / 100) /\ e3 = q / 1000.
Proof.
  intros H. cbv zeta.
  rewrite !nibble, !(Z.shiftr_div_pow2 q) by lia.
  change (2 ^ 4) with 16. change (2 ^ 8) with 256. change (2 ^ 12) with 4096.
  set (d1 := q / 16 mod 16). set (d2 := q / 256 mod 16). set (d3 := q / 4096).
  assert (0 <= d1 < 16) by (subst d1; dlia).
  assert (0 <= d2 < 16) by (subst d2; dlia).
  assert (0 <= d3 < 25) by (subst d3; dlia).
  assert (Hq : q = q mod 16 + 16 * d1 + 256 * d2 + 4096 * d3) by (subst d1 d2 d3; dlia).
  clearbody d1 d2 d3.
  set (a0 := 6 * (d3 + d2 + d1) + q mod 16).
  assert (0 <= a0 < 340) by (subst a0; dlia).
  rewrite (div10_mul a0) by lia.
  set (b1 := a0 / 10 + 9 * d3 + 5 * d2 + d1).
  assert (0 <= b1 < 340) by (subst b1; dlia).
  rewrite (div10_mul b1) by lia.
  set (c2 := b1 / 10 + 2 * d2).
  assert (0 <= c2 < 64) by (subst c2; dlia).
  rewrite (div10_mul' c2) by lia.
  set (e3 := c2 / 10 + 4 * d3).
  assert (0 <= e3 < 107) by (subst e3; dlia).
  rewrite (div10_mul e3) by lia.
  assert (E0 : q mod 10 = a0 mod 10) by (subst a0; dlia).
  assert (E1 : q / 10 = b1 + 20 * d2 + 400 * d3) by (subst b1 a0; dlia).
  clearbody b1.
  assert (E2 : q / 100 = c2 + 40 * d3) by (subst c2; dlia).
  clearbody c2.
  assert (E3 : q / 1000 = e3) by (subst e3; dlia).
  clearbody e3 a0.
  split_and!; dlia.
Qed.

Lemma put_dec_full_spec buf q :
  0 <= q < 100000 -> put_dec_full buf q = buf ++ digits5 q.
Proof.
  intros H. destruct (jones_steps q H) as ((E0 & E1 & E2 & E3 & E4) & _).
  unfold put_dec_full, digits5. cbv zeta in *.
  rewrite E0, E1, E2, E3, E4.
  rewrite <- !app_assoc. simpl. rewrite !u8_small by dlia.
  repeat (f_equal; try dlia).
Qed.

Lemma dec_rev_S k n :
  dec_rev (S k) n = (n mod 10 + 48) :: (if n <? 10 then [] else dec_rev k (n / 10)).
Proof. done. Qed.

Lemma dec_rev_pos n : (0 < length (dec_rev 20 n))%nat.
Proof. rewrite dec_rev_S, length_cons. apply Nat.lt_0_succ. Qed.

(** The trimmed routine yields exactly the digits of the number. *)
Lemma put_dec_trunc_spec buf q k :
  0 <= q < 100000 -> (5 <= k)%nat -> put_dec_trunc buf q = buf ++ dec_rev k q.
Proof.
  intros H Hk.
  destruct (jones_steps q H) as ((E0 & E1 & E2 & E3 & E4) & (Hb & B) & (Hc & Hd & C) & D).
  unfold put_dec_trunc. cbv zeta in *. rewrite E0, E1, E2, E3, E4.
  destruct k as [|[|[|[|[|k]]]]]; try lia. rewrite !dec_rev_S.
  rewrite !Z.div_div by lia. simpl Z.mul.
  change (10 * 10) with 100. change (100 * 10) with 1000. change (1000 * 10) with 10000.
  set (b1 := _ + _ + _ + _) in *. set (c2 := _ + 2 * _) in *. set (e3 := _ + 4 * _) in *.
  set (d3 := Z.shiftr q 12) in *. clearbody b1 c2 e3 d3.
  destruct (Z.eqb_spec b1 0) as [Eb|Nb]; simpl.
  { rewrite (proj2 (Z.ltb_lt q 10)) by dlia. rewrite u8_small by dlia.
    done. }
  rewrite (proj2 (Z.ltb_ge q 10)) by dlia.
  destruct (Z.ltb_spec (q / 10) 10) as [L|L].
  { rewrite (proj2 (Z.eqb_eq c2 0)), (proj2 (Z.eqb_eq d3 0)) by dlia. simpl.
    rewrite <- app_assoc, !u8_small by dlia. simpl. done. }
  assert (negb (c2 =? 0) || negb (d3 =? 0) = true) as ->.
  { destruct (Z.eqb_spec c2 0), (Z.eqb_spec d3 0); try done. dlia. }
  destruct (Z.ltb_spec (q / 100) 10) as [L'|L'].
  { rewrite (proj2 (Z.eqb_eq e3 0)) by dlia. simpl.
    rewrite <- !app_assoc, !u8_small by dlia. simpl. done. }
  rewrite (proj2 (Z.eqb_neq e3 0)) by dlia. simpl.
  destruct (Z.ltb_spec (q / 1000) 10) as [L''|L''].
  { rewrite (proj2 (Z.eqb_eq (q / 10000) 0)) by dlia. simpl.
    rewrite <- !app_assoc, !u8_small by dlia. simpl. done. }
  rewrite (proj2 (Z.eqb_neq (q / 10000) 0)) by dlia. simpl.
  rewrite (proj2 (Z.ltb_lt (q / 10000) 10)) by dlia.
  rewrite <- !app_assoc, !u8_small by dlia. simpl. repeat (f_equal; try dlia).
Qed.

Lemma dec_rev_digits5 k n :
  100000 <= n -> dec_rev (5 + k) n = digits5 (n mod 100000) ++ dec_rev k (n / 100000).
Proof.
  intros H. change (5 + k)%nat with (S (S (S (S (S k))))). rewrite !dec_rev_S.
  rewrite !Z.div_div by lia.
  change (10 * 10) with 100. change (100 * 10) with 1000. change (1000 * 10) with 10000.
  change (10000 * 10) with 100000.
  rewrite (proj2 (Z.ltb_ge n 10)), (proj2 (Z.ltb_ge (n / 10) 10)),
    (proj2 (Z.ltb_ge (n / 100) 10)), (proj2 (Z.ltb_ge (n / 1000) 10)),
    (proj2 (Z.ltb_ge (n / 10000) 10)) by dlia.
  unfold digits5. simpl. repeat (f_equal; try dlia).
Qed.

Lemma put_dec_spec buf n :
  0 <= n < 2 ^ 64 -> put_dec buf n = Ok (buf ++ dec_rev 20 n).
Proof.
  intros H. unfold put_dec.
  assert (G : forall fuel buf n, 0 <= n < 100000 ^ (Z.of_nat fuel) -> (0 < fuel)%nat ->
    put_dec_loop fuel buf n = Ok (buf ++ dec_rev (5 * fuel) n)).
  { clear. intros fuel. induction fuel as [|fuel IH]; intros buf n Hn Hf; [lia|]. simpl put_dec_loop.
    destruct (Z.ltb_spec n 100000) as [L|L].
    - by rewrite (put_dec_trunc_spec buf n (5 * S fuel)) by lia.
    - rewrite Nat2Z.inj_succ, Z.pow_succ_r in Hn by lia.
      destruct fuel as [|fuel]; [simpl in Hn; lia|].
      rewrite IH; [|split; [dlia|apply Z.div_lt_upper_bound; lia]|lia].
      rewrite put_dec_full_spec by dlia.
      replace (5 * S (S fuel))%nat with (5 + 5 * S fuel)%nat by lia.
      by rewrite dec_rev_digits5, <- app_assoc. }
  rewrite (G 4%nat) by (simpl; lia). done.
Qed.

(** *** Output *)

Lemma emits_app end_ st l1 l2 :
  emits end_ st (l1 ++ l2) = (st ← emits end_ st l1; emits end_ st l2).
Proof.
  revert st. induction l1 as [|c l1 IH]; intros st; simpl; [done|].
  destruct (emit end_ st c); simpl; [apply IH|done].
Qed.

Lemma emits_one end_ st c : emits end_ st [c] = emit end_ st c.
Proof. simpl. by destruct (emit end_ st c). Qed.

Lemma emits_fit end_ b str l :
  (str + length l <= length b)%nat -> Z.of_nat (length b) <= end_ ->
  emits end_ (b, str) l = Ok (splice b str l, (str + length l)%nat).
Proof.
  revert b str. induction l as [|c l IH]; intros b str H He; simpl in *.
  - by rewrite splice_nil, Nat.add_0_r.
  - rewrite (proj2 (Z.ltb_lt (Z.of_nat str) end_)) by lia.
    rewrite wr_ok by lia. simpl. rewrite IH by (rewrite length_insert; lia).
    rewrite splice_cons by lia. do 2 f_equal. lia.
Qed.

Lemma emits_overflow end_ b str l :
  (str <= length b)%nat -> (length b < str + length l)%nat -> Z.of_nat (length b) < end_ ->
  emits end_ (b, str) l = Fault OutOfBounds.
Proof.
  revert b str. induction l as [|c l IH]; intros b str Hs H He; simpl in *; [lia|].
  rewrite (proj2 (Z.ltb_lt (Z.of_nat str) end_)) by lia.
  destruct (decide (str < length b)%nat).
  - rewrite wr_ok by lia. simpl. apply IH; rewrite ?length_insert; lia.
  - by rewrite wr_oob by lia.
Qed.

Lemma pad_neg end_ st n c : n <= 0 -> pad end_ st n c = Ok st.
Proof. intros H. unfold pad. by rewrite Z2Nat.nonpos by lia. Qed.

Lemma number_out_plain st end_ fw bs sign locase tmp :
  fw <= 0 -> (0 < length tmp)%nat ->
  number_out st end_ SIGN fw (-1) bs sign locase false tmp
  = emits end_ st ((if sign =? 0 then [] else [sign]) ++ rev tmp).
Proof.
  intros Hfw Hl. unfold number_out.
  rewrite (proj2 (Z.ltb_lt (-1) (Z.of_nat (length tmp)))) by lia.
  replace (flag SIGN (ZEROPAD + LEFT)) with false by done.
  replace (flag SIGN LEFT) with false by done. simpl.
  rewrite (pad_neg end_ st) by lia. simpl.
  rewrite (proj2 (Z.leb_gt 0 (fw - Z.of_nat (length tmp)))) by lia.
  rewrite emits_app. destruct (sign =? 0); simpl.
  - rewrite (pad_neg end_ st) by lia. simpl.
    rewrite (proj2 (Z.leb_gt 0 _)) by lia. rewrite pad_neg by lia. simpl.
    destruct (emits end_ st (rev tmp)); simpl; [|done]. by rewrite pad_neg by lia.
  - destruct (emit end_ st sign) as [st'|]; simpl; [|done].
    rewrite (pad_neg end_ st') by lia. simpl.
    rewrite (proj2 (Z.leb_gt 0 _)) by lia. rewrite pad_neg by lia. simpl.
    destruct (emits end_ st' (rev tmp)); simpl; [|done]. by rewrite pad_neg by lia.
Qed.

Lemma digits_of n :
  0 <= n < 2 ^ 64 -> (if n =? 0 then Ok [48] else put_dec [] n) = Ok (dec_rev 20 n).
Proof.
  intros Hn. destruct (Z.eqb_spec n 0) as [->|]; [done|]. by rewrite put_dec_spec.
Qed.

Lemma s64_u64 z : - 2 ^ 63 <= z < 2 ^ 63 -> s64 (u64 z) = z.
Proof.
  intros H. unfold s64, u64. rewrite Zplus_mod_idemp_l, Z.mod_small; lia.
Qed.

(** [%d] with no width: the signed decimal notation of the argument. *)
Lemma number_sdecimal st end_ z q :
  - 2 ^ 31 <= z < 2 ^ 31 ->
  number st end_ (u64 z) (mkSpec FORMAT_TYPE_INT SIGN (-1) 10 (-1) q)
  = emits end_ st (sdecimal z).
Proof.
  intros H. unfold number. cbn [flags field_width base precision].
  replace (flag SIGN SPECIAL) with false by done.
  replace (flag SIGN LEFT) with false by done.
  replace (flag SIGN SIGN) with true by done.
  replace (flag SIGN PLUS) with false by done.
  replace (flag SIGN SPACE) with false by done.
  replace (10 =? 10) with true by done. cbn [andb negb].
  rewrite s64_u64 by lia. unfold sdecimal.
  destruct (Z.ltb_spec z 0) as [L|L]; rewrite u64_small, digits_of by lia;
    cbn [mbind res_bind]; rewrite number_out_plain by (apply dec_rev_pos || lia);
    reflexivity.
Qed.

(** [%s] with no width: the characters of the string. *)
Lemma string_spec st end_ s t q bs :
  is_cstr s t -> Z.of_nat (length t) < 2 ^ 32 - 1 ->
  string_ st end_ (Some s) (mkSpec FORMAT_TYPE_STR 0 (-1) bs (-1) q) = emits end_ st t.
Proof.
  intros Hs Hl. unfold string_. cbv zeta. cbn [flags field_width base precision default].
  rewrite (strnlen_spec s t) by (done || apply u32_range).
  change (u32 (-1)) with (2 ^ 32 - 1). cbn [mbind res_bind].
  rewrite Z.min_r by lia. change (flag 0 LEFT) with false. cbn [negb].
  rewrite pad_neg by lia. simpl.
  destruct Hs as [Hf [r ->]]. rewrite Nat2Z.id, take_app_length.
  destruct (emits end_ st t); simpl; [|done].
  rewrite pad_neg; [done|]. destruct (Z.ltb_spec (Z.of_nat (length t)) (-1)); lia.
Qed.

(** ** Plain formats: literals, %s and %d *)

Inductive fitem : Type := FLit (l : list Z) | FStr | FInt.

(** The conversions of a format that has only plain items, by running the
    decoder on it. *)
Fixpoint fmt_items (fuel : nat) (fmt : block) (spec : printf_spec) : option (list fitem) :=
  match fuel with
  | O => None
  | S fuel =>
    match rd fmt 0 with
    | Fault _ => None
    | Ok c =>
      if c =? 0 then Some [] else
      match format_decode fmt spec with
      | Fault _ => None
      | Ok (rest, spec') =>
        match spec' with
        | mkSpec FORMAT_TYPE_NONE _ _ _ _ _ =>
            cons (FLit (take (length fmt - length rest) fmt)) <$> fmt_items fuel rest spec'
        | mkSpec FORMAT_TYPE_STR 0 (-1) _ (-1) _ => cons FStr <$> fmt_items fuel rest spec'
        | mkSpec FORMAT_TYPE_INT 2 (-1) 10 (-1) _ => cons FInt <$> fmt_items fuel rest spec'
        | _ => None
        end
      end
    end
  end.

(** The text of plain items for given arguments. *)
Inductive renders : list fitem -> list va -> list Z -> Prop :=
  | renders_nil : renders [] [] []
  | renders_lit l items args t :
      renders items args t -> renders (FLit l :: items) args (l ++ t)
  | renders_str s w items args t :
      is_cstr s w -> Z.of_nat (length w) < 2 ^ 32 - 1 -> renders items args t ->
      renders (FStr :: items) (VStr (Some s) :: args) (w ++ t)
  | renders_int z items args t :
      renders items args t ->
      renders (FInt :: items) (VWord z :: args) (sdecimal (s32 z) ++ t).
#[export] Hint Constructors renders : wjfs.

Section plain.
Variable pointer : block -> block * nat -> Z -> va -> printf_spec -> res (block * nat).

Lemma vsnprintf_loop_plain fuel fmt spec items args t st end_ out :
  fmt_items fuel fmt spec = Some items -> renders items args t ->
  vsnprintf_loop pointer fuel st end_ fmt spec args out
  = (st ← emits end_ st t; Ok (st, out)).
Proof.
  revert fmt spec items args t st.
  induction fuel as [|fuel IH]; intros fmt spec items args t st Hi Hr; [done|].
  simpl in Hi |- *. destruct (rd fmt 0) as [c|]; [simpl|done].
  destruct (c =? 0); [simplify_eq; by inversion Hr|].
  destruct (format_decode fmt spec) as [[rest [ty fl fw bs pr q]]|]; [simpl|done].
  destruct ty; simpl in Hi |- *; repeat case_match; try done;
    apply fmap_Some in Hi as (items' & Hi & ->);
    inversion Hr; subst; simpl; rewrite ?emits_app.
  - destruct (emits end_ st _); simpl; [eauto|done].
  - rewrite string_spec with (t := w) by done.
    destruct (emits end_ st _); simpl; [eauto|done].
  - change 2 with SIGN. rewrite number_sdecimal by apply s32_range.
    destruct (emits end_ st _); simpl; [eauto|done].
Qed.

(** A plain format writes its text and the terminator, if they fit. *)
Lemma sprintf_fit buf fmt items args t :
  fmt_items (2 * length fmt + 2) fmt spec0 = Some items -> renders items args t ->
  (length t < length buf)%nat -> Z.of_nat (length buf) <= INT_MAX ->
  sprintf pointer buf fmt args = Ok (splice buf 0 (t ++ [0]), Z.of_nat (length t)).
Proof.
  intros Hi Hr Hl Hm. unfold sprintf, vsnprintf.
  change (s32 INT_MAX <? 0) with false. cbn iota.
  rewrite (vsnprintf_loop_plain _ _ _ _ _ _ _ _ _ Hi Hr).
  rewrite emits_fit by lia. cbn [mbind res_bind].
  change (0 <? INT_MAX) with true. cbn iota.
  rewrite (proj2 (Z.ltb_lt (Z.of_nat (0 + length t)) INT_MAX)) by lia.
  rewrite wr_ok by (rewrite length_splice; lia). cbn [mbind res_bind]. do 2 f_equal.
  rewrite insert_splice by (rewrite length_splice; lia).
  apply splice_app. simpl. lia.
Qed.

(** A text that does not fit is written past the end of the buffer. *)
Lemma sprintf_overflow buf fmt items args t :
  fmt_items (2 * length fmt + 2) fmt spec0 = Some items -> renders items args t ->
  (length buf <= length t)%nat -> Z.of_nat (length buf) < INT_MAX ->
  sprintf pointer buf fmt args = Fault OutOfBounds.
Proof.
  intros Hi Hr Hl Hm. unfold sprintf, vsnprintf.
  change (s32 INT_MAX <? 0) with false. cbn iota.
  rewrite (vsnprintf_loop_plain _ _ _ _ _ _ _ _ _ Hi Hr).
  destruct (decide (length t = length buf)) as [E|N].
  - rewrite emits_fit by lia. cbn [mbind res_bind].
    change (0 <? INT_MAX) with true. cbn iota.
    rewrite (proj2 (Z.ltb_lt (Z.of_nat (0 + length t)) INT_MAX)) by lia.
    by rewrite wr_oob by (rewrite length_splice; lia).
  - by rewrite emits_overflow by lia.
Qed.
End plain.

(** ** The digits mean the number *)

Definition digits_value (ds : list Z) : Z := fold_right (fun d v => v * 10 + (d - 48)) 0 ds.

Lemma dec_rev_means k n :
  0 <= n < 10 ^ Z.of_nat k -> (0 < k)%nat ->
  digits_value (dec_rev k n) = n /\ Forall (fun d => 48 <= d <= 57) (dec_rev k n) /\
  (0 < n -> List.last (dec_rev k n) 0 <> 48).
Proof.
  revert n. induction k as [|k IH]; intros n Hn Hk; [lia|]. rewrite dec_rev_S.
  destruct (Z.ltb_spec n 10) as [L|L].
  - unfold digits_value. cbn [fold_right]. rewrite Z.mod_small by lia.
    split; [lia|]. split; [constructor; [lia|constructor]|]. cbn [List.last]. lia.
  - rewrite Nat2Z.inj_succ, Z.pow_succ_r in Hn by lia.
    destruct k as [|k]; [change (10 ^ Z.of_nat 0) with 1 in Hn; lia|].
    destruct (IH (n / 10)) as (Hv & Hd & Hl); [split; [dlia|apply Z.div_lt_upper_bound; lia]|lia|].
    split; [|split].
    + unfold digits_value in *. cbn [fold_right]. rewrite Hv. dlia.
    + constructor; [dlia|done].
    + intros _. specialize (Hl ltac:(dlia)). rewrite dec_rev_S in Hl |- *. exact Hl.
Qed.

(** C30: put_dec writes the digits of every 64-bit number, least significant first,
    without leading zeros: the multiplications by 0xcd, 0xcccd and the like stand
    for divisions by ten. *)
Theorem put_dec_correct n :
  0 < n < 2 ^ 64 ->
  exists ds, put_dec [] n = Ok ds /\ digits_value ds = n /\
    Forall (fun d => 48 <= d <= 57) ds /\ List.last ds 0 <> 48.
Proof.
  intros Hn. exists (dec_rev 20 n). rewrite put_dec_spec by lia. split; [done|].
  destruct (dec_rev_means 20 n) as (Hv & Hd & Hl); [change (Z.of_nat 20) with 20; lia|lia|].
  split; [done|]. split; [done|]. apply Hl. lia.
Qed.
