(* ===== verification/Wire.v ===== *)
(** * The wire format of wjfs

    Requests travel as text: a two-letter verb, inode numbers in decimal and
    names, separated by single spaces.  The clients format them with [sprintf]
    into a 1024-byte buffer; the server splits the received buffer into the
    rows of a local array [char tmp_name[6][20]] and reads the fields back.
    The model keeps the array as one 120-byte object: an index past the end of
    a row reaches the next row, an index past the end of the object is a
    fault.  Automatic arrays start with arbitrary contents, which are
    arguments of the definitions. *)

From S2P Require Import Prelude KString KScan KFormat.

(** ** wjfs.c: string2int *)

Definition s2i_step (ans c : Z) : Z := s32 (s32 (ans * 10) + (schar c - 48)).

Definition string2int (buf : block) : res Z :=
  n ← strlen buf; Ok (fold_left s2i_step (take (Z.to_nat n) buf) 0).

(** ** Splitting a request (rdma_create, rdma_remove, rdma_read) *)

(** Space, carriage return and line feed end a field. *)
Definition is_sep (c : Z) : bool := (c =? 32) || (c =? 13) || (c =? 10).

(** The inner loops: copy characters to [tmp_name[j][k]] up to a character
    that stops the loop or the end of the string. *)
Fixpoint copy_until (stop : Z -> bool) (fuel : nat) (tmp : block) (j i k : nat)
    (tmp_name : block) : res (nat * nat * block) :=
  match fuel with
  | O => Fault OutOfFuel
  | S fuel =>
      c ← rd tmp i;
      if negb (stop c) then
        n ← strlen tmp;
        if Z.of_nat i <? n then
          tmp_name ← wr tmp_name (20 * j + k) c;
          copy_until stop fuel tmp j (S i) (S k) tmp_name
        else Ok (i, k, tmp_name)
      else Ok (i, k, tmp_name)
  end.

Definition tok_word := copy_until is_sep.

(** The outer loop. *)
Fixpoint tok_loop (fuel : nat) (tmp : block) (i j : nat) (tmp_name : block) : res block :=
  match fuel with
  | O => Fault OutOfFuel
  | S fuel =>
      n ← strlen tmp;
      if Z.of_nat i <? n then
        '(i, k, tmp_name) ← tok_word (S (length tmp)) tmp j i 0 tmp_name;
        tmp_name ← wr tmp_name (20 * j + k) 0;
        tok_loop fuel tmp (S i) (S j) tmp_name
      else Ok tmp_name
  end.

Definition tokenize (tmp tmp_name : block) : res block :=
  tok_loop (S (length tmp)) tmp 0 0 tmp_name.

(** [tmp_name[j]] as a pointer. *)
Definition row (tmp_name : block) (j : nat) : block := drop (20 * j) tmp_name.

(** The fields of a create or remove request. *)
Record request : Type := mkReq {
  r_ino : Z;
  r_name : list Z;
  r_ino_parent : Z;
  r_name_parent : list Z;
  r_mode : Z;
}.

(** From the received text to the local variables [ino], [name],
    [ino_parent], [name_parent] and [mode]; [name] and [name_parent] are
    [char[20]]. The record holds the strings the two arrays end up with. *)
Definition parse_request (buf tmp_name name name_parent : block) : res request :=
  tmp_name ← tokenize buf tmp_name;
  ino ← string2int (row tmp_name 1);
  ino_parent ← string2int (row tmp_name 3);
  mode ← string2int (row tmp_name 5);
  name ← strcpy name 0 (row tmp_name 2);
  name_parent ← strcpy name_parent 0 (row tmp_name 4);
  Ok (mkReq ino (default [] (cstring name)) ino_parent
        (default [] (cstring name_parent)) mode).

(** rdma_read: the same with five rows and no mode. *)
Definition parse_read (buf tmp_name name name_parent : block) : res request :=
  tmp_name ← tokenize buf tmp_name;
  ino ← string2int (row tmp_name 1);
  ino_parent ← string2int (row tmp_name 3);
  name ← strcpy name 0 (row tmp_name 2);
  name_parent ← strcpy name_parent 0 (row tmp_name 4);
  Ok (mkReq ino (default [] (cstring name)) ino_parent
        (default [] (cstring name_parent)) 0).

(** ** Splitting a write request (rdma_write) *)

Definition is_eol (c : Z) : bool := (c =? 13) || (c =? 10).

(** The first loop stops after five fields; the result is the position, the
    number of fields and the array. *)
Fixpoint wtok_head (fuel : nat) (tmp : block) (i j : nat) (tmp_name : block)
  : res (nat * nat * block) :=
  match fuel with
  | O => Fault OutOfFuel
  | S fuel =>
      n ← strlen tmp;
      if Z.of_nat i <? n then
        '(i, k, tmp_name) ← tok_word (S (length tmp)) tmp j i 0 tmp_name;
        tmp_name ← wr tmp_name (20 * j + k) 0;
        if (S j =? 5)%nat then Ok (S i, S j, tmp_name)
        else wtok_head fuel tmp (S i) (S j) tmp_name
      else Ok (i, j, tmp_name)
  end.

(** The inner loop of the payload: only line ends stop it. *)
Definition wtok_line := copy_until is_eol.

(** The second loop: [k] runs on from line to line. *)
Fixpoint wtok_payload (fuel : nat) (tmp : block) (j i k : nat) (tmp_name : block) : res block :=
  match fuel with
  | O => Fault OutOfFuel
  | S fuel =>
      n ← strlen tmp;
      if Z.of_nat i <? n then
        '(i, k, tmp_name) ← wtok_line (S (length tmp)) tmp j i k tmp_name;
        tmp_name ← wr tmp_name (20 * j + k) 0;
        wtok_payload fuel tmp j (S i) k tmp_name
      else Ok tmp_name
  end.

Definition wtokenize (tmp tmp_name : block) : res block :=
  '(i, j, tmp_name) ← wtok_head (S (length tmp)) tmp 0 0 tmp_name;
  wtok_payload (S (length tmp)) tmp j i 0 tmp_name.

(** The fields of a write request and the contents of [char message[1024]]. *)
Definition parse_write (buf tmp_name name name_parent message : block)
  : res (request * block) :=
  tmp_name ← wtokenize buf tmp_name;
  ino ← string2int (row tmp_name 1);
  ino_parent ← string2int (row tmp_name 3);
  name ← strcpy name 0 (row tmp_name 2);
  name_parent ← strcpy name_parent 0 (row tmp_name 4);
  message ← strcpy message 0 (row tmp_name 5);
  Ok (mkReq ino (default [] (cstring name)) ino_parent
        (default [] (cstring name_parent)) 0, message).

(** ** Building requests (the client functions) *)

Section build.
Variable pointer : block -> block * nat -> Z -> va -> printf_spec -> res (block * nat).

(** [memset(buf, 0, 1024); len = sprintf(buf, ...)] of wjfs_client_create
    and wjfs_client_remove. *)
Definition build_request (verb : string) (buf : block) (ino : Z) (name : block)
    (ino_parent : Z) (name_parent : block) (mode : Z) : res (block * Z) :=
  buf ← memset buf 0 0 1024;
  sprintf pointer buf (lit "%s %d %s %d %s %s")
    [VStr (Some (lit verb)); VWord ino; VStr (Some name); VWord ino_parent;
     VStr (Some name_parent);
     VStr (Some (if negb (mode =? 0) then lit "1111" else lit "0000"))].

(** wjfs_client_read *)
Definition build_read (buf : block) (ino : Z) (name : block) (ino_parent : Z)
    (name_parent : block) : res (block * Z) :=
  buf ← memset buf 0 0 1024;
  sprintf pointer buf (lit "%s %d %s %d %s")
    [VStr (Some (lit "RD")); VWord ino; VStr (Some name); VWord ino_parent;
     VStr (Some name_parent)].

(** wjfs_client_write *)
Definition build_write (buf : block) (ino : Z) (name : block) (ino_parent : Z)
    (name_parent message : block) : res (block * Z) :=
  buf ← memset buf 0 0 1024;
  sprintf pointer buf (lit "%s %d %s %d %s %s")
    [VStr (Some (lit "WR")); VWord ino; VStr (Some name); VWord ino_parent;
     VStr (Some name_parent); VStr (Some message)].
End build.

#[global] Arguments dec_rev : simpl never.
#[global] Arguments decimal : simpl never.
#[global] Arguments sdecimal : simpl never.

(** ** Numbers *)

Lemma s2i_dec_rev k n :
  0 <= n < 2 ^ 31 -> n < 10 ^ Z.of_nat k ->
  fold_right (fun c ans => s2i_step ans c) 0 (dec_rev k n) = n.
Proof.
  revert n. induction k as [|k IH]; intros n Hn Hk.
  - simpl in *. change (10 ^ Z.of_nat 0) with 1 in Hk. lia.
  - rewrite dec_rev_S. cbn [fold_right].
    assert (fold_right (λ c ans, s2i_step ans c) 0 (if n <? 10 then [] else dec_rev k (n / 10))
            = n / 10) as ->.
    { destruct (Z.ltb_spec n 10); [simpl; dlia|].
      rewrite Nat2Z.inj_succ, Z.pow_succ_r in Hk by lia.
      apply IH; [dlia|]. apply Z.div_lt_upper_bound; lia. }
    unfold s2i_step. rewrite schar_small by dlia.
    rewrite (s32_small (n / 10 * 10)) by dlia. rewrite s32_small; dlia.
Qed.

Lemma dec_rev_digit k n c : c ∈ dec_rev k n -> 48 <= c <= 57.
Proof.
  revert n. induction k as [|k IH]; intros n; [by intros ?%not_elem_of_nil|].
  rewrite dec_rev_S. intros [->|H]%elem_of_cons; [dlia|].
  destruct (n <? 10); [by apply not_elem_of_nil in H|eauto].
Qed.

Lemma decimal_digit n c : c ∈ decimal n -> 48 <= c <= 57.
Proof. unfold decimal. rewrite list_elem_of_In, <- in_rev, <- list_elem_of_In. apply dec_rev_digit. Qed.

Lemma dec_rev_length k n : (length (dec_rev k n) <= k)%nat.
Proof.
  revert n. induction k as [|k IH]; intros n; [done|].
  rewrite dec_rev_S. simpl. destruct (n <? 10); simpl; [lia|]. specialize (IH (n / 10)). lia.
Qed.

(** A bound on the digits from a bound on the number. *)
Lemma dec_rev_short k m n :
  (0 < m)%nat -> 0 <= n < 10 ^ Z.of_nat m -> (length (dec_rev k n) <= m)%nat.
Proof.
  revert m n. induction k as [|k IH]; intros m n Hm Hn; [simpl; lia|].
  rewrite dec_rev_S. simpl. destruct (Z.ltb_spec n 10); simpl; [lia|].
  destruct m as [|m]; [lia|]. rewrite Nat2Z.inj_succ, Z.pow_succ_r in Hn by lia.
  destruct m as [|m]; [simpl in Hn; lia|].
  assert (length (dec_rev k (n / 10)) <= S m)%nat; [|lia].
  apply IH; [lia|]. split; [dlia|]. apply Z.div_lt_upper_bound; lia.
Qed.

Lemma length_decimal n : 0 <= n < 2 ^ 31 -> (1 <= length (decimal n) <= 10)%nat.
Proof.
  intros H. unfold decimal. rewrite length_rev. split.
  - pose proof (dec_rev_pos n). lia.
  - apply dec_rev_short; [lia|]. simpl. lia.
Qed.

Lemma string2int_decimal s n :
  0 <= n < 2 ^ 31 -> is_cstr s (decimal n) -> string2int s = Ok n.
Proof.
  intros Hn Hs. unfold string2int. rewrite (strlen_spec _ _ Hs). simpl. f_equal.
  destruct Hs as [_ [r ->]]. rewrite Nat2Z.id, take_app_length.
  unfold decimal. rewrite <- fold_left_rev_right, rev_involutive.
  apply s2i_dec_rev; [done|]. change (Z.of_nat 20) with 20. lia.
Qed.

Lemma sdecimal_nonneg n : 0 <= n -> sdecimal n = decimal n.
Proof. intros H. unfold sdecimal. by rewrite (proj2 (Z.ltb_ge n 0)). Qed.

(** ** The fields of a text *)

(** The reference splitter: fields end at a separator, a separator at the very
    end opens no further field. *)
Fixpoint words_from (w : list Z) (t : list Z) : list (list Z) :=
  match t with
  | [] => [w]
  | c :: t => if is_sep c then w :: (match t with [] => [] | _ => words_from [] t end)
              else words_from (w ++ [c]) t
  end.

Definition words (t : list Z) : list (list Z) :=
  match t with [] => [] | _ => words_from [] t end.

Lemma words_from_word w u t :
  Forall (fun c => is_sep c = false) u -> words_from w (u ++ t) = words_from (w ++ u) t.
Proof.
  revert w. induction u as [|c u IH]; intros w H; simpl.
  - by rewrite app_nil_r.
  - inversion H as [|?? Hc Hu]; subst. rewrite Hc, IH, <- app_assoc by done. done.
Qed.

Lemma words_cons u c t :
  Forall (fun c => is_sep c = false) u -> is_sep c = true ->
  words (u ++ c :: t) = u :: words t.
Proof.
  intros Hu Hc. unfold words.
  destruct (u ++ c :: t) as [|x l] eqn:E; [by destruct u|]. rewrite <- E.
  rewrite words_from_word by done. simpl. rewrite Hc. by destruct t.
Qed.

Lemma words_last u : Forall (fun c => is_sep c = false) u -> u <> [] -> words u = [u].
Proof.
  intros Hu Hne. assert (words u = words_from [] u) as -> by (by destruct u).
  rewrite <- (app_nil_r u) at 1. by rewrite words_from_word.
Qed.

(** ** Writing the rows *)

(** Consecutive stores. *)
Fixpoint wrs (b : block) (off : nat) (l : list Z) : res block :=
  match l with
  | [] => Ok b
  | c :: l => b ← wr b off c; wrs b (S off) l
  end.

Lemma wrs_ok b off l :
  (off + length l <= length b)%nat -> wrs b off l = Ok (splice b off l).
Proof.
  revert b off. induction l as [|c l IH]; intros b off H; simpl in *.
  - by rewrite splice_nil.
  - rewrite wr_ok by lia. simpl. rewrite IH by (rewrite length_insert; lia).
    by rewrite splice_cons by lia.
Qed.

Lemma wrs_inv b off l b' :
  wrs b off l = Ok b' -> (l = [] \/ off + length l <= length b)%nat /\ b' = splice b off l.
Proof.
  revert b off. induction l as [|c l IH]; intros b off; simpl.
  - intros [= <-]. rewrite splice_nil. auto.
  - intros (b1 & (Hl & ->)%wr_inv & (H & ->)%IH)%bind_ok_inv.
    rewrite length_insert in H. split; [|by rewrite splice_cons].
    right. destruct H as [->|H]; simpl; lia.
Qed.

Lemma wrs_fault b off l f : wrs b off l = Fault f -> f = OutOfBounds.
Proof.
  revert b off. induction l as [|c l IH]; intros b off; simpl; [done|].
  unfold wr. case_decide; simpl; [apply IH|congruence].
Qed.

Lemma wrs_app b off l1 l2 :
  wrs b off (l1 ++ l2) = (b ← wrs b off l1; wrs b (off + length l1) l2).
Proof.
  revert b off. induction l1 as [|c l1 IH]; intros b off; simpl.
  - by rewrite Nat.add_0_r.
  - destruct (wr b off c); simpl; [|done]. rewrite IH.
    by replace (S off + length l1)%nat with (off + S (length l1))%nat by lia.
Qed.

(** Field [j] goes, with its terminator, to the start of row [j]. *)
Fixpoint put_rows (tmp_name : block) (j : nat) (ws : list (list Z)) : res block :=
  match ws with
  | [] => Ok tmp_name
  | w :: ws => tmp_name ← wrs tmp_name (20 * j) (w ++ [0]); put_rows tmp_name (S j) ws
  end.

(** The inner loop writes what stands before the first stop. *)
Lemma copy_until_spec stop fuel tmp t pre w r j k nm :
  is_cstr tmp t -> tmp = pre ++ w ++ r ->
  Forall (fun c => stop c = false /\ c <> 0) w ->
  (exists c r', r = c :: r' /\ (stop c = true \/ c = 0)) ->
  (length pre + length w <= length t)%nat -> (length w < fuel)%nat ->
  copy_until stop fuel tmp j (length pre) k nm
  = (nm ← wrs nm (20 * j + k) w; Ok ((length pre + length w)%nat, (k + length w)%nat, nm)).
Proof.
  intros Ht. revert pre k nm fuel. induction w as [|c w IH]; intros pre k nm fuel E Hw Hr Hl Hf;
    (destruct fuel as [|fuel]; [simpl in Hf; lia|]).
  - destruct Hr as (c & r' & -> & Hc). simpl in *. subst tmp.
    rewrite (rd_ok _ _ c) by (rewrite lookup_app_r, Nat.sub_diag by lia; done). simpl.
    destruct (stop c) eqn:Es; simpl; [by rewrite !Nat.add_0_r|].
    destruct Hc as [?| ->]; [done|]. rewrite (strlen_spec _ _ Ht). simpl.
    rewrite (proj2 (Z.ltb_ge _ _)); [by rewrite !Nat.add_0_r|].
    destruct Ht as [Hnz [r2 E2]].
    destruct (decide (length t <= length pre)%nat) as [|N]; [lia|exfalso].
    assert (t !! length pre = Some 0) as Hlk.
    { rewrite <- (lookup_app_l t (0 :: r2)) by lia. rewrite <- E2.
      rewrite lookup_app_r, Nat.sub_diag by lia. done. }
    rewrite Forall_lookup in Hnz. by apply (Hnz _ _ Hlk).
  - inversion Hw as [|?? [Hs Hz] Hw']; subst. simpl in Hl, Hf.
    cbn [copy_until]. rewrite (rd_ok _ _ c) by (rewrite lookup_app_r, Nat.sub_diag by lia; done).
    cbn [mbind res_bind]. rewrite Hs. cbn [negb]. rewrite (strlen_spec _ _ Ht).
    cbn [mbind res_bind wrs app]. rewrite (proj2 (Z.ltb_lt _ _)) by lia.
    destruct (wr nm (20 * j + k) c) as [nm'|]; cbn [mbind res_bind]; [|done].
    replace (S (length pre)) with (length (pre ++ [c])) by (rewrite length_app; simpl; lia).
    rewrite (IH (pre ++ [c])); try done.
    + replace (20 * j + S k)%nat with (S (20 * j + k)) by lia.
      destruct (wrs nm' _ w); simpl; [|done]. rewrite length_app. simpl. do 3 f_equal; lia.
    + by rewrite <- app_assoc.
    + rewrite length_app. simpl. lia.
    + lia.
Qed.

(** A text splits into a first word and what follows it. *)
Lemma first_word t :
  exists u rest, t = u ++ rest /\ Forall (fun c => is_sep c = false) u /\
    (rest = [] \/ exists c r, rest = c :: r /\ is_sep c = true).
Proof.
  induction t as [|c t (u & rest & -> & Hu & Hr)].
  - exists [], []. auto.
  - destruct (is_sep c) eqn:E.
    + exists [], (c :: u ++ rest). split; [done|]. split; [done|]. eauto.
    + exists (c :: u), rest. split; [done|]. split; [by constructor|done].
Qed.

(** The outer loop writes the fields of what is left of the text. *)
Lemma tok_loop_spec fuel tmp t pre suf j nm :
  is_cstr tmp t -> t = pre ++ suf -> (length suf < fuel)%nat ->
  tok_loop fuel tmp (length pre) j nm = put_rows nm j (words suf).
Proof.
  intros Ht. revert pre suf j nm. induction fuel as [|fuel IH]; intros pre suf j nm E Hf; [lia|].
  cbn [tok_loop]. rewrite (strlen_spec _ _ Ht). cbn [mbind res_bind].
  destruct suf as [|x suf'] eqn:Es.
  - rewrite (proj2 (Z.ltb_ge _ _)) by (subst t; rewrite length_app; simpl; lia). done.
  - rewrite <- Es in *. assert (Hpos : (0 < length suf)%nat) by (subst suf; simpl; lia).
    clear x suf' Es.
    rewrite (proj2 (Z.ltb_lt _ _)) by (subst t; rewrite length_app; lia).
    destruct (first_word suf) as (u & rest & Esuf & Hu & Hrest).
    destruct (id Ht) as [Hnz [r Etmp]].
    assert (Hu' : Forall (fun c => is_sep c = false /\ c <> 0) u).
    { subst t suf. apply Forall_app in Hnz as [_ Hnz]. apply Forall_app in Hnz as [Hnz _].
      by apply Forall_both. }
    unfold tok_word. rewrite (copy_until_spec is_sep _ tmp t pre u (rest ++ 0 :: r)); try done.
    + rewrite Nat.add_0_l. destruct Hrest as [->|(c & r2 & -> & Hc)].
      * rewrite app_nil_r in Esuf. subst suf.
        rewrite (words_last u); [|done|by intros ->; simpl in Hpos; lia].
        cbn [put_rows]. rewrite wrs_app. rewrite !Nat.add_0_r.
        destruct (wrs nm (20 * j) u) as [nm1|]; cbn [mbind res_bind]; [|done].
        cbn [wrs]. destruct (wr nm1 (20 * j + length u) 0) as [nm2|]; cbn [mbind res_bind]; [|done].
        destruct fuel as [|fuel]; [lia|]. cbn [tok_loop].
        rewrite (strlen_spec _ _ Ht). cbn [mbind res_bind].
        by rewrite (proj2 (Z.ltb_ge _ _)) by (subst t; rewrite length_app; lia).
      * subst suf. rewrite (words_cons u c r2) by done.
        cbn [put_rows]. rewrite wrs_app. rewrite !Nat.add_0_r.
        destruct (wrs nm (20 * j) u) as [nm1|]; cbn [mbind res_bind]; [|done].
        cbn [wrs]. destruct (wr nm1 (20 * j + length u) 0) as [nm2|]; cbn [mbind res_bind]; [|done].
        replace (S (length pre + length u)) with (length (pre ++ u ++ [c]))
          by (rewrite !length_app; simpl; lia).
        apply IH; [by rewrite E, <- !app_assoc|].
        rewrite length_app in Hf. simpl in Hf. lia.
    + rewrite Etmp, E, Esuf. by rewrite <- !app_assoc.
    + destruct Hrest as [->|(c & r2 & -> & Hc)]; simpl; eauto.
    + subst t suf. rewrite !length_app. lia.
    + subst tmp t suf. rewrite !length_app. lia.
Qed.

Lemma tokenize_words tmp t nm : is_cstr tmp t -> tokenize tmp nm = put_rows nm 0 (words t).
Proof.
  intros Ht. unfold tokenize. apply (tok_loop_spec _ tmp t [] t); try done.
  destruct Ht as [_ [r ->]]. rewrite length_app. simpl. lia.
Qed.

(** ** Reading the rows back *)

(** Short fields land in their own rows. *)
Lemma put_rows_fit nm j ws :
  Forall (fun w => length w <= 19)%nat ws -> (20 * (j + length ws) <= length nm)%nat ->
  exists nm', put_rows nm j ws = Ok nm' /\ length nm' = length nm /\
    take (20 * j) nm' = take (20 * j) nm /\
    forall m w, ws !! m = Some w -> exists r, row nm' (j + m) = w ++ 0 :: r.
Proof.
  revert nm j. induction ws as [|w ws IH]; intros nm j Hs Hl; cbn [put_rows].
  - exists nm. split; [done|]. split; [done|]. split; [done|]. intros m w Hm. by rewrite lookup_nil in Hm.
  - inversion Hs as [|?? Hw Hs']; subst. cbn [length] in Hl.
    assert (Hfit : (20 * j + length (w ++ [0%Z]) <= length nm)%nat) by (rewrite length_app; simpl; lia).
    rewrite wrs_ok by done. cbn [mbind res_bind].
    destruct (IH (splice nm (20 * j) (w ++ [0])) (S j)) as (nm' & -> & Hlen & Htake & Hrows);
      [done|rewrite length_splice by done; lia|].
    rewrite length_splice in Hlen by done.
    exists nm'. split; [done|]. split; [done|]. split.
    + apply (f_equal (take (20 * j))) in Htake. rewrite !take_take, !Nat.min_l in Htake by lia.
      rewrite Htake. unfold splice. rewrite take_app_length'; [done|].
      rewrite length_take. lia.
    + intros [|m] v Hv; simpl in Hv; simplify_eq.
      * rewrite Nat.add_0_r. unfold row.
        assert (exists r, drop (20 * j) (take (20 * S j) nm') = v ++ 0 :: r) as [r Hr].
        { rewrite Htake. replace (20 * S j)%nat with (20 * j + 20)%nat by lia.
          rewrite <- take_drop_commute, drop_splice by done.
          rewrite take_app_ge by (rewrite length_app; simpl; lia).
          rewrite <- app_assoc. simpl. eauto. }
        exists (r ++ drop (20 * S j) nm').
        rewrite <- (take_drop (20 * S j) nm') at 1. rewrite drop_app_le.
        -- by rewrite Hr, <- app_assoc.
        -- rewrite length_take. lia.
      * replace (j + S m)%nat with (S j + m)%nat by lia. eauto.
Qed.

(** What a six-field text leaves in the rows. *)
Lemma tokenize_fit tmp t nm ws :
  is_cstr tmp t -> words t = ws -> Forall (fun w => length w <= 19)%nat ws ->
  Forall (Forall (fun c => c <> 0)) ws -> (20 * length ws <= length nm)%nat ->
  exists nm', tokenize tmp nm = Ok nm' /\
    forall m w, ws !! m = Some w -> is_cstr (row nm' m) w.
Proof.
  intros Ht Hws Hs Hnz Hl. rewrite (tokenize_words tmp t) by done. rewrite Hws.
  destruct (put_rows_fit nm 0 ws) as (nm' & -> & _ & _ & Hr); [done|simpl; lia|].
  exists nm'. split; [done|]. intros m w Hm.
  destruct (Hr m w Hm) as [r E]. simpl in E. split; [|by exists r].
  rewrite Forall_lookup in Hnz. eauto.
Qed.

(** ** The text of a request *)

(** A name as it can travel: not empty, no separator, no NUL. *)
Definition fname (n : list Z) : Prop :=
  n <> [] /\ Forall (fun c => is_sep c = false /\ c <> 0) n.

Definition join5 (a b c d e : list Z) : list Z :=
  a ++ [32] ++ b ++ [32] ++ c ++ [32] ++ d ++ [32] ++ e.

Definition req_text (verb : list Z) (ino : Z) (name : list Z) (ino_parent : Z)
    (name_parent : list Z) (last : list Z) : list Z :=
  join5 verb (sdecimal ino) name (sdecimal ino_parent) name_parent ++ [32] ++ last.

Lemma fname_nosep n : fname n -> Forall (fun c => is_sep c = false) n.
Proof. intros [_ H]. rewrite Forall_lookup in *. intros i c Hc. by destruct (H i c Hc). Qed.

Lemma fname_nz n : fname n -> Forall (fun c => c <> 0) n.
Proof. intros [_ H]. rewrite Forall_lookup in *. intros i c Hc. by destruct (H i c Hc). Qed.

Lemma fname_decimal n : fname (decimal n).
Proof.
  split.
  - intros E. apply (f_equal length) in E. unfold decimal in E. rewrite length_rev in E.
    pose proof (dec_rev_pos n). simpl length in E at 2. lia.
  - apply Forall_lookup. intros i c Hc.
    apply list_elem_of_lookup_2, decimal_digit in Hc.
    unfold is_sep. rewrite !(proj2 (Z.eqb_neq c _)) by lia. split; [done|lia].
Qed.

Lemma words_join5 a b c d e r :
  fname a -> fname b -> fname c -> fname d ->
  words (join5 a b c d e ++ r) = a :: b :: c :: d :: words (e ++ r).
Proof.
  intros Ha Hb Hc Hd. unfold join5. rewrite <- !app_assoc. simpl.
  do 4 (rewrite words_cons by (try apply fname_nosep; done)). done.
Qed.

(** Client side: the text fits and is followed by zeros. *)
Lemma memset_1024 buf :
  length buf = 1024%nat -> memset buf 0 0 1024 = Ok (replicate 1024 0).
Proof. intros H. rewrite <- H. rewrite memset_all. by rewrite u8_small by lia. Qed.

(** A zeroed 1024-byte buffer after [n] bytes of [b] arrived in it. *)
Definition received (b : block) (n : Z) : block :=
  take (Z.to_nat n) b ++ replicate (1024 - Z.to_nat n) 0.

Lemma received_text t n :
  n = Z.of_nat (length t) -> (length t < 1024)%nat ->
  received (splice (replicate 1024 0) 0 (t ++ [0])) n = t ++ replicate (1024 - length t) 0.
Proof.
  intros -> H. unfold received. rewrite Nat2Z.id. f_equal.
  unfold splice. rewrite take_0. simpl. rewrite <- app_assoc. by rewrite take_app_length.
Qed.

Lemma is_cstr_received t :
  Forall (fun c => c <> 0) t -> (length t < 1024)%nat ->
  is_cstr (t ++ replicate (1024 - length t) 0) t.
Proof.
  intros Hnz Hl. split; [done|].
  destruct (1024 - length t)%nat as [|m] eqn:E; [lia|]. simpl. eauto.
Qed.

Lemma length_sdecimal z : - 2 ^ 31 <= z < 2 ^ 31 -> (length (sdecimal z) <= 11)%nat.
Proof.
  intros H. unfold sdecimal, decimal.
  destruct (Z.ltb_spec z 0); [rewrite length_cons|]; rewrite length_rev.
  - assert (length (dec_rev 20 (- z)) <= 10)%nat; [|lia]. apply dec_rev_short; [lia|]. simpl. lia.
  - assert (length (dec_rev 20 z) <= 10)%nat; [|lia]. apply dec_rev_short; [lia|]. simpl. lia.
Qed.

(** ** What the clients send *)

Section client.
Variable pointer : block -> block * nat -> Z -> va -> printf_spec -> res (block * nat).
Context (nm nmp : block) (n np : list Z).
Context (Hn : is_cstr nm n) (Hnp : is_cstr nmp np).
Context (Hln : (length n <= 255)%nat) (Hlnp : (length np <= 255)%nat).

Lemma length_req_text verb ino inop last :
  (length (req_text verb (s32 ino) n (s32 inop) np last)
   <= length verb + length last + 537)%nat.
Proof using Hln Hlnp.
  unfold req_text, join5. rewrite !length_app. cbn [length].
  pose proof (length_sdecimal _ (s32_range ino)).
  pose proof (length_sdecimal _ (s32_range inop)). lia.
Qed.

Lemma sprintf_six verb v ino inop last l :
  is_cstr verb v -> length v = 2%nat -> is_cstr last l ->
  (length (req_text v (s32 ino) n (s32 inop) np l) < 1024)%nat ->
  sprintf pointer (replicate 1024 0) (lit "%s %d %s %d %s %s")
    [VStr (Some verb); VWord ino; VStr (Some nm); VWord inop; VStr (Some nmp); VStr (Some last)]
  = Ok (splice (replicate 1024 0) 0 (req_text v (s32 ino) n (s32 inop) np l ++ [0]),
        Z.of_nat (length (req_text v (s32 ino) n (s32 inop) np l))).
Proof using Hn Hnp Hln Hlnp.
  intros Hv Hlv Hl Hlen.
  assert (length l < 1024)%nat by (unfold req_text in Hlen; rewrite !length_app in Hlen; lia).
  eapply sprintf_fit; [vm_compute; reflexivity| |rewrite length_replicate; lia|].
  - unfold req_text, join5. rewrite <- !app_assoc.
    repeat (constructor; try eassumption; try lia).
    rewrite <- (app_nil_r l). constructor; [done|lia|constructor].
  - rewrite length_replicate. vm_compute. discriminate.
Qed.

Lemma sprintf_six_overflow verb v ino inop last l :
  is_cstr verb v -> length v = 2%nat -> is_cstr last l -> Z.of_nat (length l) < 2 ^ 31 ->
  (1024 <= length (req_text v (s32 ino) n (s32 inop) np l))%nat ->
  sprintf pointer (replicate 1024 0) (lit "%s %d %s %d %s %s")
    [VStr (Some verb); VWord ino; VStr (Some nm); VWord inop; VStr (Some nmp); VStr (Some last)]
  = Fault OutOfBounds.
Proof using Hn Hnp Hln Hlnp.
  intros Hv Hlv Hl Hll Hlen.
  eapply sprintf_overflow; [vm_compute; reflexivity| |rewrite length_replicate; exact Hlen|].
  - unfold req_text, join5. rewrite <- !app_assoc.
    repeat (constructor; try eassumption; try lia).
    rewrite <- (app_nil_r l). constructor; [done|lia|constructor].
  - rewrite length_replicate. vm_compute. reflexivity.
Qed.
End client.

(** The last field of a create or remove request. *)
Definition mode_text (mode : Z) : list Z := if mode =? 0 then bytes "0000" else bytes "1111".
Definition mode_value (mode : Z) : Z := if mode =? 0 then 0 else 1111.

Definition verb_ok (verb : string) : Prop :=
  length (bytes verb) = 2%nat /\ fname (bytes verb).

Lemma build_request_ok pointer verb buf ino nm n inop nmp np mode :
  length buf = 1024%nat -> verb_ok verb -> is_cstr nm n -> is_cstr nmp np ->
  (length n <= 255)%nat -> (length np <= 255)%nat ->
  let t := req_text (bytes verb) (s32 ino) n (s32 inop) np (mode_text mode) in
  (length t < 1024)%nat /\
  build_request pointer verb buf ino nm inop nmp mode
  = Ok (splice (replicate 1024 0) 0 (t ++ [0]), Z.of_nat (length t)).
Proof.
  intros Hb [Hv2 Hv] Hn Hnp Hl Hlp t.
  assert (Hm : is_cstr (if negb (mode =? 0) then lit "1111" else lit "0000") (mode_text mode)).
  { unfold mode_text. destruct (mode =? 0); apply is_cstr_lit; repeat constructor; done. }
  assert (length (mode_text mode) = 4%nat) by (unfold mode_text; by destruct (mode =? 0)).
  assert (Ht : (length t < 1024)%nat).
  { pose proof (length_req_text n np Hl Hlp (bytes verb) ino inop (mode_text mode)).
    unfold t. lia. }
  split; [done|]. unfold build_request. rewrite memset_1024 by done. cbn [mbind res_bind].
  apply sprintf_six; try done. by apply is_cstr_lit, fname_nz.
Qed.

(** ** What the server reads *)

Lemma words_req v ino n inop np l :
  fname v -> fname n -> fname np -> fname l -> 0 <= ino -> 0 <= inop ->
  words (req_text v ino n inop np l) = [v; decimal ino; n; decimal inop; np; l].
Proof.
  intros Hv Hn Hnp Hl Hi Hip. unfold req_text. rewrite !sdecimal_nonneg by done.
  rewrite words_join5 by (done || apply fname_decimal).
  change (np ++ [32] ++ l) with (np ++ 32 :: l).
  rewrite words_cons by (try apply fname_nosep; done).
  rewrite words_last; [done|by apply fname_nosep|by destruct Hl].
Qed.

Lemma req_text_nz v ino n inop np l :
  Forall (fun c => c <> 0) v -> Forall (fun c => c <> 0) n -> Forall (fun c => c <> 0) np ->
  Forall (fun c => c <> 0) l -> 0 <= ino -> 0 <= inop ->
  Forall (fun c => c <> 0) (req_text v ino n inop np l).
Proof.
  intros Hv Hn Hnp Hl Hi Hip. unfold req_text, join5. rewrite !sdecimal_nonneg by done.
  rewrite !Forall_app.
  repeat split; try done; try (by apply fname_nz, fname_decimal); repeat constructor; done.
Qed.

Lemma strcpy_cstring dest src t :
  is_cstr src t -> (length t < length dest)%nat ->
  exists dest', strcpy dest 0 src = Ok dest' /\ cstring dest' = Some t.
Proof.
  intros Hs Hl. rewrite (strcpy_ok _ _ _ t) by (done || lia).
  eexists; split; [done|]. apply cstring_is_cstr. unfold splice. simpl.
  rewrite <- app_assoc. simpl. apply is_cstr_app. by destruct Hs.
Qed.

Lemma parse_request_text buf tmp_name name name_parent v ino n inop np l lv :
  is_cstr buf (req_text v ino n inop np l) ->
  length tmp_name = 120%nat -> length name = 20%nat -> length name_parent = 20%nat ->
  fname v -> fname n -> fname np -> fname l ->
  (length v <= 19)%nat -> (length n <= 19)%nat -> (length np <= 19)%nat -> (length l <= 19)%nat ->
  0 <= ino < 2 ^ 31 -> 0 <= inop < 2 ^ 31 ->
  (forall s, is_cstr s l -> string2int s = Ok lv) ->
  parse_request buf tmp_name name name_parent = Ok (mkReq ino n inop np lv).
Proof.
  intros Hb Ht Hna Hnp Fv Fn Fp Fl Lv Ln Lp Ll Hi Hip Hlv.
  pose proof (length_decimal _ Hi). pose proof (length_decimal _ Hip).
  destruct (tokenize_fit buf _ tmp_name [v; decimal ino; n; decimal inop; np; l] Hb)
    as (nm' & E & Hrows).
  - apply words_req; tauto || lia.
  - rewrite !Forall_cons_iff, Forall_nil_iff. lia.
  - rewrite !Forall_cons_iff, Forall_nil_iff. pose proof fname_decimal.
    repeat split; by apply fname_nz.
  - simpl. lia.
  - unfold parse_request. rewrite E. cbn [mbind res_bind].
    rewrite (string2int_decimal _ ino Hi (Hrows 1%nat _ eq_refl)). cbn [mbind res_bind].
    rewrite (string2int_decimal _ inop Hip (Hrows 3%nat _ eq_refl)). cbn [mbind res_bind].
    rewrite (Hlv _ (Hrows 5%nat _ eq_refl)). cbn [mbind res_bind].
    destruct (strcpy_cstring name _ n (Hrows 2%nat _ eq_refl)) as (? & -> & Ec1); [lia|].
    cbn [mbind res_bind].
    destruct (strcpy_cstring name_parent _ np (Hrows 4%nat _ eq_refl)) as (? & -> & Ec2); [lia|].
    cbn [mbind res_bind]. by rewrite Ec1, Ec2.
Qed.

Lemma string2int_mode mode s : is_cstr s (mode_text mode) -> string2int s = Ok (mode_value mode).
Proof.
  intros Hs. unfold string2int. rewrite (strlen_spec _ _ Hs). cbn [mbind res_bind].
  destruct Hs as [_ [r ->]]. rewrite Nat2Z.id, take_app_length.
  unfold mode_text, mode_value. by destruct (mode =? 0).
Qed.

Lemma mode_text_fname mode : fname (mode_text mode).
Proof.
  unfold mode_text, bytes. destruct (mode =? 0); (split; [done|]); cbn;
    rewrite !Forall_cons_iff, Forall_nil_iff; done.
Qed.

(** C26: Round trip of create and remove requests: what the client formats is what
    the server parses, whatever was in the automatic arrays, for names of 1 to 19 characters
    without the blanks, carriage returns and line feeds that separate the fields. *)
Theorem request_roundtrip pointer verb buf ino nm n inop nmp np mode
    tmp_name name name_parent :
  length buf = 1024%nat -> verb_ok verb -> is_cstr nm n -> is_cstr nmp np ->
  fname n -> fname np -> (length n <= 19)%nat -> (length np <= 19)%nat ->
  0 <= ino < 2 ^ 31 -> 0 <= inop < 2 ^ 31 ->
  length tmp_name = 120%nat -> length name = 20%nat -> length name_parent = 20%nat ->
  exists msg len,
    build_request pointer verb buf ino nm inop nmp mode = Ok (msg, len) /\
    parse_request (received msg len) tmp_name name name_parent
    = Ok (mkReq ino n inop np (mode_value mode)).
Proof.
  intros Hb Hv Hn Hnp Fn Fp Ln Lp Hi Hip Ht Hna Hnap.
  destruct (build_request_ok pointer verb buf ino nm n inop nmp np mode) as [Hl E];
    try done; [lia..|].
  eexists _, _. split; [exact E|]. rewrite !s32_small in * by lia.
  destruct Hv as [Hv2 Fv]. pose proof (mode_text_fname mode) as Fm.
  assert (length (mode_text mode) = 4%nat) by (unfold mode_text; by destruct (mode =? 0)).
  rewrite received_text by done.
  eapply parse_request_text with (l := mode_text mode) (v := bytes verb); try done; try lia.
  - apply is_cstr_received; [|done].
    apply req_text_nz; try (by apply fname_nz); lia.
  - intros s Hs. by apply string2int_mode.
Qed.

(** ** Names that do not fit a row *)

Lemma strlen_fault s f : strlen s = Fault f -> f = OutOfBounds.
Proof.
  revert f. induction s as [|c s IH]; intros f; simpl; [congruence|].
  destruct (c =? 0); [done|]. destruct (strlen s) as [|e] eqn:E; simpl; [done|].
  intros [= <-]. eauto.
Qed.

Lemma string2int_fault s f : string2int s = Fault f -> f = OutOfBounds.
Proof.
  unfold string2int. destruct (strlen s) eqn:E; simpl; [done|].
  intros [= <-]. by eapply strlen_fault.
Qed.

Lemma put_rows_fault nm j ws f : put_rows nm j ws = Fault f -> f = OutOfBounds.
Proof.
  revert nm j. induction ws as [|w ws IH]; intros nm j; simpl; [done|].
  destruct (wrs nm _ _) eqn:E; simpl; [apply IH|]. intros [= <-]. by eapply wrs_fault.
Qed.

(** Later rows are written behind earlier ones. *)
Lemma put_rows_take nm j ws nm' :
  put_rows nm j ws = Ok nm' -> take (20 * j) nm' = take (20 * j) nm.
Proof.
  revert nm j. induction ws as [|w ws IH]; intros nm j; cbn [put_rows].
  - by intros [= <-].
  - intros (nm1 & (Hl & ->)%wrs_inv & H%IH)%bind_ok_inv.
    apply (f_equal (take (20 * j))) in H. rewrite !take_take, !Nat.min_l in H by lia.
    rewrite H. unfold splice. destruct Hl as [Hl|Hl]; [by destruct w|].
    rewrite take_app_length'; [done|]. rewrite length_take. lia.
Qed.

(** A row of a long field is its first twenty characters, with no terminator. *)
Lemma put_rows_long nm j ws nm' m w :
  put_rows nm j ws = Ok nm' -> ws !! m = Some w -> (20 <= length w)%nat ->
  take 20 (row nm' (j + m)) = take 20 w.
Proof.
  revert nm j m. induction ws as [|v ws IH]; intros nm j m; cbn [put_rows]; [done|].
  intros (nm1 & (Hl & ->)%wrs_inv & H)%bind_ok_inv Hm Hw.
  destruct m as [|m]; simpl in Hm; simplify_eq.
  - destruct Hl as [Hl|Hl]; [by destruct w|]. rewrite length_app in Hl. simpl in Hl.
    apply put_rows_take in H. unfold row. rewrite Nat.add_0_r, take_drop_commute.
    replace (20 * j + 20)%nat with (20 * S j)%nat by lia. rewrite H.
    replace (20 * S j)%nat with (20 * j + 20)%nat by lia.
    rewrite <- take_drop_commute, drop_splice by (rewrite length_app; simpl; lia).
    rewrite <- app_assoc. by rewrite take_app_le by lia.
  - replace (j + S m)%nat with (S j + m)%nat by lia. eauto.
Qed.

Lemma strcpy_unterminated dest off src :
  (off < length dest)%nat -> Forall (fun c => c <> 0) (take (length dest - off) src) ->
  strcpy dest off src = Fault OutOfBounds.
Proof.
  revert dest off. induction src as [|c src IH]; intros dest off Hoff H; simpl; [done|].
  destruct (length dest - off)%nat as [|k] eqn:Ek; [lia|]. simpl in H.
  apply Forall_cons_iff in H as [Hc H]. rewrite wr_ok by lia. cbn [mbind res_bind].
  rewrite (proj2 (Z.eqb_neq c 0)) by done.
  destruct k as [|k].
  - destruct src as [|c' src]; simpl; [done|]. by rewrite wr_oob by (rewrite length_insert; lia).
  - apply IH; rewrite length_insert; [lia|]. by replace (length dest - S off)%nat with (S k) by lia.
Qed.

Lemma strcpy_fault dest off src f : strcpy dest off src = Fault f -> f = OutOfBounds.
Proof.
  revert dest off. induction src as [|c src IH]; intros dest off; simpl; [congruence|].
  unfold wr. case_decide; simpl; [|congruence]. destruct (c =? 0); [done|apply IH].
Qed.

(** C39: Whatever the arrays hold, parsing a request whose name or parent name has
    twenty characters or more leaves the arrays' bounds. *)
Theorem parse_request_long buf tmp_name name name_parent v ino n inop np l :
  is_cstr buf (req_text v ino n inop np l) ->
  length name = 20%nat -> length name_parent = 20%nat ->
  fname v -> fname n -> fname np -> fname l -> 0 <= ino -> 0 <= inop ->
  (20 <= length n \/ 20 <= length np)%nat ->
  parse_request buf tmp_name name name_parent = Fault OutOfBounds.
Proof.
  intros Hb Hna Hnp Fv Fn Fp Fl Hi Hip Hlong.
  unfold parse_request. rewrite (tokenize_words _ _ _ Hb), words_req by done.
  destruct (put_rows tmp_name 0 _) as [nm'|f] eqn:E; cbn [mbind res_bind];
    [|by rewrite (put_rows_fault _ _ _ _ E)].
  do 3 (match goal with |- (?x ≫= _) = _ => destruct x eqn:Es end;
    cbn [mbind res_bind]; [clear Es|by rewrite (string2int_fault _ _ Es)]).
  destruct (decide (20 <= length n)%nat) as [Hln|Hln].
  - rewrite (strcpy_unterminated name); [done|lia|].
    pose proof (put_rows_long _ 0 _ _ 2 n E eq_refl Hln) as Hr. simpl Nat.add in Hr.
    rewrite Hna, Nat.sub_0_r, Hr. apply Forall_take. by apply fname_nz.
  - destruct (strcpy name _ _) as [name'|f] eqn:Ec; cbn [mbind res_bind];
      [|by rewrite (strcpy_fault _ _ _ _ Ec)].
    rewrite (strcpy_unterminated name_parent); [done|lia|].
    assert (Hlp : (20 <= length np)%nat) by lia.
    pose proof (put_rows_long _ 0 _ _ 4 np E eq_refl Hlp) as Hr. simpl Nat.add in Hr.
    rewrite Hnp, Nat.sub_0_r, Hr. apply Forall_take. by apply fname_nz.
Qed.

(** ** Write requests *)

(** The payload without its line ends. *)
Definition flat (l : list Z) : list Z := List.filter (fun c => negb (is_eol c)) l.

Definition fields (ws : list (list Z)) : list Z := concat (map (fun w => w ++ [32]) ws).

Lemma put_rows_app nm j ws1 ws2 :
  put_rows nm j (ws1 ++ ws2) = (nm ← put_rows nm j ws1; put_rows nm (j + length ws1) ws2).
Proof.
  revert nm j. induction ws1 as [|w ws1 IH]; intros nm j; cbn [app put_rows length].
  - by rewrite Nat.add_0_r.
  - destruct (wrs nm (20 * j) (w ++ [0])); cbn [mbind res_bind]; [|done].
    rewrite IH. by replace (S j + length ws1)%nat with (j + S (length ws1))%nat by lia.
Qed.

(** A copying loop that meets a stop inside the text. *)
Lemma copy_until_stop stop tmp t pre u c suf j k nm :
  is_cstr tmp t -> t = pre ++ u ++ c :: suf -> Forall (fun x => stop x = false) u -> stop c = true ->
  copy_until stop (S (length tmp)) tmp j (length pre) k nm
  = (nm ← wrs nm (20 * j + k) u; Ok ((length pre + length u)%nat, (k + length u)%nat, nm)).
Proof.
  intros Ht Et Hu Hc. destruct (id Ht) as [Hnz [r Etmp]].
  apply (copy_until_spec stop _ tmp t pre u (c :: suf ++ 0 :: r)); try done.
  - rewrite Etmp, Et. by rewrite <- !app_assoc.
  - subst t. rewrite !Forall_app in Hnz. apply Forall_both; tauto.
  - eauto.
  - subst t. rewrite !length_app. lia.
  - subst tmp t. rewrite !length_app. simpl. lia.
Qed.

(** A copying loop that runs to the end of the text. *)
Lemma copy_until_end stop tmp t pre u j k nm :
  is_cstr tmp t -> t = pre ++ u -> Forall (fun x => stop x = false) u ->
  copy_until stop (S (length tmp)) tmp j (length pre) k nm
  = (nm ← wrs nm (20 * j + k) u; Ok ((length pre + length u)%nat, (k + length u)%nat, nm)).
Proof.
  intros Ht Et Hu. destruct (id Ht) as [Hnz [r Etmp]].
  apply (copy_until_spec stop _ tmp t pre u (0 :: r)); try done.
  - rewrite Etmp, Et. by rewrite <- !app_assoc.
  - subst t. rewrite Forall_app in Hnz. apply Forall_both; tauto.
  - eauto.
  - subst t. rewrite !length_app. lia.
  - subst tmp t. rewrite !length_app. simpl. lia.
Qed.

Lemma wtok_head_spec fuel tmp t pre ws suf j nm :
  is_cstr tmp t -> t = pre ++ fields ws ++ suf -> Forall fname ws -> ws <> [] ->
  (j + length ws = 5)%nat -> (length ws < fuel)%nat ->
  wtok_head fuel tmp (length pre) j nm
  = (nm ← put_rows nm j ws; Ok ((length pre + length (fields ws))%nat, 5%nat, nm)).
Proof.
  intros Ht. revert pre ws j nm. induction fuel as [|fuel IH]; intros pre ws j nm Et Hws Hne Hj Hf; [lia|].
  destruct ws as [|w ws]; [done|]. apply Forall_cons_iff in Hws as [Fw Hws].
  unfold fields in *. cbn [map concat] in *.
  assert (Et' : t = pre ++ w ++ 32 :: (concat (map (fun w => w ++ [32]) ws) ++ suf))
    by (rewrite Et, <- !app_assoc; done).
  cbn [wtok_head]. rewrite (strlen_spec _ _ Ht). cbn [mbind res_bind].
  rewrite (proj2 (Z.ltb_lt _ _)) by (rewrite Et', !length_app; simpl; lia).
  unfold tok_word. rewrite (copy_until_stop is_sep tmp t pre w 32 _ j 0 nm Ht Et')
    by (done || by apply fname_nosep).
  cbn [put_rows]. rewrite wrs_app, !Nat.add_0_r.
  destruct (wrs nm (20 * j) w) as [nm1|]; cbn [mbind res_bind wrs]; [|done]. rewrite Nat.add_0_l.
  destruct (wr nm1 (20 * j + length w) 0) as [nm2|]; cbn [mbind res_bind]; [|done].
  cbn [length] in *. destruct ws as [|w' ws].
  - cbn [length] in Hj. rewrite (proj2 (Nat.eqb_eq (S j) 5)) by lia.
    cbn [put_rows mbind res_bind]. do 3 f_equal; [|lia]. rewrite !length_app. simpl. lia.
  - cbn [length] in Hj. rewrite (proj2 (Nat.eqb_neq (S j) 5)) by lia.
    replace (S (length pre + length w)) with (length (pre ++ w ++ [32]))
      by (rewrite !length_app; simpl; lia).
    rewrite (IH (pre ++ w ++ [32]) (w' :: ws)); try done.
    + destruct (put_rows nm2 (S j) (w' :: ws)); cbn [mbind res_bind]; [|done].
      do 3 f_equal. rewrite !length_app. simpl. lia.
    + rewrite Et', <- !app_assoc. done.
    + simpl in *. lia.
    + simpl in *. lia.
Qed.

(** A terminator is overwritten by what follows it. *)
Lemma wr_wrs nm i l : (nm ← wr nm i 0; wrs nm i (l ++ [0])) = wrs nm i (l ++ [0]).
Proof.
  destruct (decide (i < length nm)%nat) as [H|H].
  - rewrite wr_ok by done. cbn [mbind res_bind].
    destruct l as [|c l]; cbn [app wrs];
      rewrite !wr_ok by (rewrite ?length_insert; lia); cbn [mbind res_bind];
      by rewrite list_insert_insert_eq.
  - rewrite wr_oob by lia. destruct l; cbn [app wrs]; by rewrite wr_oob by lia.
Qed.

Lemma first_line t :
  exists u rest, t = u ++ rest /\ Forall (fun c => is_eol c = false) u /\
    (rest = [] \/ exists c r, rest = c :: r /\ is_eol c = true).
Proof.
  induction t as [|c t (u & rest & -> & Hu & Hr)].
  - exists [], []. auto.
  - destruct (is_eol c) eqn:E.
    + exists [], (c :: u ++ rest). split; [done|]. split; [done|]. eauto.
    + exists (c :: u), rest. split; [done|]. split; [by constructor|done].
Qed.

Lemma flat_line u : Forall (fun c => is_eol c = false) u -> flat u = u.
Proof.
  unfold flat. induction u as [|c u IH]; intros H; [done|].
  apply Forall_cons_iff in H as [Hc H]. simpl. rewrite Hc. simpl. by rewrite IH.
Qed.

Lemma flat_app l1 l2 : flat (l1 ++ l2) = flat l1 ++ flat l2.
Proof. apply List.filter_app. Qed.

(** The payload loop writes the payload without its line ends. *)
Lemma wtok_payload_spec fuel tmp t pre suf j k nm :
  is_cstr tmp t -> t = pre ++ suf -> (length suf < fuel)%nat ->
  wtok_payload fuel tmp j (length pre) k nm
  = match suf with [] => Ok nm | _ => wrs nm (20 * j + k) (flat suf ++ [0]) end.
Proof.
  intros Ht. revert pre suf k nm. induction fuel as [|fuel IH]; intros pre suf k nm Et Hf; [lia|].
  cbn [wtok_payload]. rewrite (strlen_spec _ _ Ht). cbn [mbind res_bind].
  destruct suf as [|x suf'] eqn:Es.
  { by rewrite (proj2 (Z.ltb_ge _ _)) by (subst t; rewrite length_app; simpl; lia). }
  rewrite <- Es in *.
  replace (match suf with [] => Ok nm | _ => wrs nm (20 * j + k) (flat suf ++ [0]) end)
    with (wrs nm (20 * j + k) (flat suf ++ [0])) by (by rewrite Es).
  assert (Hpos : (0 < length suf)%nat) by (subst suf; simpl; lia). clear x suf' Es.
  rewrite (proj2 (Z.ltb_lt _ _)) by (subst t; rewrite length_app; lia).
  destruct (first_line suf) as (u & rest & Esuf & Hu & [->|(c & r & -> & Hc)]).
  - rewrite app_nil_r in Esuf. subst u. unfold wtok_line.
    rewrite (copy_until_end is_eol tmp t pre suf) by done.
    rewrite (flat_line suf), wrs_app by done.
    destruct (wrs nm (20 * j + k) suf) as [nm1|]; cbn [mbind res_bind wrs]; [|done].
    rewrite Nat.add_assoc.
    destruct (wr nm1 _ 0) as [nm2|]; cbn [mbind res_bind]; [|done].
    destruct fuel as [|fuel]; [lia|]. cbn [wtok_payload].
    rewrite (strlen_spec _ _ Ht). cbn [mbind res_bind].
    by rewrite (proj2 (Z.ltb_ge _ _)) by (subst t; rewrite length_app; lia).
  - unfold wtok_line. subst suf. rewrite (copy_until_stop is_eol tmp t pre u c r) by done.
    rewrite flat_app, (flat_line u), <- app_assoc, wrs_app by done.
    destruct (wrs nm (20 * j + k) u) as [nm1|]; cbn [mbind res_bind]; [|done].
    rewrite Nat.add_assoc. unfold flat. cbn [List.filter]. rewrite Hc. cbn [negb].
    replace (S (length pre + length u)) with (length (pre ++ u ++ [c]))
      by (rewrite !length_app; simpl; lia).
    destruct (wr nm1 (20 * j + k + length u) 0) as [nm2|f] eqn:Ew; cbn [mbind res_bind].
    + rewrite (IH _ r); [|by rewrite Et, <- !app_assoc|rewrite length_app in Hf; simpl in Hf; lia].
      destruct r as [|y r].
      * cbn [List.filter app wrs]. by rewrite Ew.
      * rewrite Nat.add_assoc. rewrite <- (wr_wrs nm1), Ew. done.
    + rewrite <- (wr_wrs nm1), Ew. done.
Qed.

(** The whole splitter of rdma_write. *)
Lemma wtokenize_spec tmp ws suf nm :
  is_cstr tmp (fields ws ++ suf) -> Forall fname ws -> length ws = 5%nat -> suf <> [] ->
  wtokenize tmp nm = put_rows nm 0 (ws ++ [flat suf]).
Proof.
  intros Ht Hws H5 Hsuf. unfold wtokenize.
  destruct (id Ht) as [_ [r E]].
  pose proof (wtok_head_spec (S (length tmp)) tmp _ [] ws suf 0 nm Ht) as Hh.
  simpl length in Hh. rewrite Hh; try done; [|by intros ->|].
  - rewrite put_rows_app, H5. simpl Nat.add.
    destruct (put_rows nm 0 ws) as [nm1|]; cbn [mbind res_bind put_rows]; [|done].
    rewrite (wtok_payload_spec _ tmp _ (fields ws) suf) by (done || subst tmp; rewrite !length_app; simpl; lia).
    rewrite Nat.add_0_r. destruct suf; [done|].
    by destruct (wrs nm1 (20 * 5) _).
  - subst tmp. rewrite !length_app. simpl.
    assert (length ws <= length (fields ws))%nat; [|lia].
    clear. unfold fields. induction ws; simpl; [lia|]. rewrite !length_app. simpl. lia.
Qed.

Lemma req_text_fields v ino n inop np l :
  req_text v ino n inop np l = fields [v; sdecimal ino; n; sdecimal inop; np] ++ l.
Proof. unfold req_text, join5, fields. cbn [map concat]. by rewrite app_nil_r, <- !app_assoc. Qed.

(** The rows of a write request, when the payload fits its row. *)
Lemma parse_write_text buf tmp_name name name_parent message v ino n inop np p :
  is_cstr buf (req_text v ino n inop np p) ->
  length tmp_name = 120%nat -> length name = 20%nat -> length name_parent = 20%nat ->
  length message = 1024%nat -> fname v -> fname n -> fname np ->
  (length v <= 19)%nat -> (length n <= 19)%nat -> (length np <= 19)%nat ->
  0 <= ino < 2 ^ 31 -> 0 <= inop < 2 ^ 31 ->
  p <> [] -> (length (flat p) <= 19)%nat ->
  parse_write buf tmp_name name name_parent message
  = Ok (mkReq ino n inop np 0, splice message 0 (flat p ++ [0])).
Proof.
  intros Hb Ht Hna Hnp Hm Fv Fn Fp Lv Ln Lp Hi Hip Hne Hfl.
  pose proof (length_decimal _ Hi). pose proof (length_decimal _ Hip).
  pose proof (proj1 Hb) as Hnz. rewrite req_text_fields, !sdecimal_nonneg in Hb, Hnz by lia.
  apply Forall_app in Hnz as [_ Hnz].
  assert (Hfnz : Forall (fun c => c <> 0) (flat p)).
  { rewrite List.Forall_forall in *. intros c [Hc _]%List.filter_In. auto. }
  pose proof fname_decimal as Fd.
  unfold parse_write. rewrite (wtokenize_spec _ [v; decimal ino; n; decimal inop; np] p) by (done || by forall_list).
  set (ws := [v; decimal ino; n; decimal inop; np] ++ [flat p]).
  destruct (put_rows_fit tmp_name 0 ws) as (nm' & -> & _ & _ & Hr);
    [unfold ws; simpl; rewrite !Forall_cons_iff, Forall_nil_iff; lia|simpl; lia|].
  assert (Hc : forall m w, ws !! m = Some w -> is_cstr (row nm' m) w).
  { intros m w Hw. destruct (Hr m w Hw) as [r E]. split; [|by exists r].
    assert (Forall (Forall (fun c => c <> 0)) ws) as Hall.
    { unfold ws. simpl. rewrite !Forall_cons_iff, Forall_nil_iff.
      repeat split; try done; by apply fname_nz. }
    rewrite Forall_lookup in Hall. eauto. }
  cbn [mbind res_bind].
  rewrite (string2int_decimal _ ino Hi (Hc 1%nat _ eq_refl)). cbn [mbind res_bind].
  rewrite (string2int_decimal _ inop Hip (Hc 3%nat _ eq_refl)). cbn [mbind res_bind].
  destruct (strcpy_cstring name _ n (Hc 2%nat _ eq_refl)) as (? & -> & Ec1); [lia|].
  cbn [mbind res_bind].
  destruct (strcpy_cstring name_parent _ np (Hc 4%nat _ eq_refl)) as (? & -> & Ec2); [lia|].
  cbn [mbind res_bind].
  rewrite (strcpy_ok message 0 _ (flat p) (Hc 5%nat _ eq_refl)) by lia.
  cbn [mbind res_bind]. by rewrite Ec1, Ec2.
Qed.

(** A payload of more than nineteen characters leaves [tmp_name]. *)
Theorem parse_write_long buf tmp_name name name_parent message v ino n inop np p :
  is_cstr buf (req_text v ino n inop np p) -> length tmp_name = 120%nat ->
  fname v -> fname n -> fname np -> 0 <= ino -> 0 <= inop -> (20 <= length (flat p))%nat ->
  parse_write buf tmp_name name name_parent message = Fault OutOfBounds.
Proof.
  intros Hb Ht Fv Fn Fp Hi Hip Hfl. rewrite req_text_fields, !sdecimal_nonneg in Hb by done.
  pose proof fname_decimal as Fd. unfold parse_write.
  rewrite (wtokenize_spec _ [v; decimal ino; n; decimal inop; np] p); [|done|by forall_list|done|by intros ->; simpl in Hfl; lia].
  destruct (put_rows tmp_name 0 _) as [nm'|f] eqn:E; cbn [mbind res_bind];
    [exfalso|by rewrite (put_rows_fault _ _ _ _ E)].
  rewrite put_rows_app in E. apply bind_ok_inv in E as (nm1 & E1 & E2).
  cbn [put_rows length Nat.add] in E2.
  apply bind_ok_inv in E2 as (nm2 & (Hl & _)%wrs_inv & _).
  assert (length nm1 = length tmp_name).
  { clear -E1. revert E1. generalize [v; decimal ino; n; decimal inop; np], 0%nat.
    intros ws. revert tmp_name. induction ws as [|w ws IH]; intros tmp_name j; cbn [put_rows].
    - by intros [= ->].
    - intros (b & (Hl & ->)%wrs_inv & E%IH)%bind_ok_inv. rewrite E.
      destruct Hl as [Hl|Hl]; [by destruct w|]. by apply length_splice. }
  destruct Hl as [Hl|Hl]; [by destruct (flat p)|]. rewrite length_app in Hl. simpl in Hl. lia.
Qed.

Lemma build_write_ok pointer buf ino nm n inop nmp np message p :
  length buf = 1024%nat -> is_cstr nm n -> is_cstr nmp np -> is_cstr message p ->
  (length n <= 255)%nat -> (length np <= 255)%nat ->
  let t := req_text (bytes "WR") (s32 ino) n (s32 inop) np p in
  (length t < 1024)%nat ->
  build_write pointer buf ino nm inop nmp message
  = Ok (splice (replicate 1024 0) 0 (t ++ [0]), Z.of_nat (length t)).
Proof.
  intros Hb Hn Hnp Hm Hl Hlp t Ht. unfold build_write. rewrite memset_1024 by done.
  cbn [mbind res_bind]. apply sprintf_six; try done. apply is_cstr_lit. by repeat constructor.
Qed.

(** Round trip of write requests: the server's [message] is the payload
    without its line ends. *)
Theorem write_roundtrip pointer buf ino nm n inop nmp np msg p tmp_name name name_parent message :
  length buf = 1024%nat -> is_cstr nm n -> is_cstr nmp np -> is_cstr msg p ->
  fname n -> fname np -> (length n <= 19)%nat -> (length np <= 19)%nat ->
  0 <= ino < 2 ^ 31 -> 0 <= inop < 2 ^ 31 -> p <> [] ->
  (length (flat p) <= 19)%nat -> (length p <= 900)%nat ->
  length tmp_name = 120%nat -> length name = 20%nat -> length name_parent = 20%nat ->
  length message = 1024%nat ->
  exists b len,
    build_write pointer buf ino nm inop nmp msg = Ok (b, len) /\
    parse_write (received b len) tmp_name name name_parent message
    = Ok (mkReq ino n inop np 0, splice message 0 (flat p ++ [0])).
Proof.
  intros Hb Hn Hnp Hm Fn Fp Ln Lp Hi Hip Hne Hfl Hpl Ht Hna Hnap Hme.
  assert (Hlen : (length (req_text (bytes "WR") (s32 ino) n (s32 inop) np p) < 1024)%nat).
  { unfold req_text, join5. rewrite !length_app. cbn [length].
    pose proof (length_sdecimal _ (s32_range ino)).
    pose proof (length_sdecimal _ (s32_range inop)).
    change (length (bytes "WR")) with 2%nat. lia. }
  eexists _, _. split; [apply build_write_ok; try done; lia|].
  rewrite !s32_small in * by lia. rewrite received_text by done.
  assert (Fv : fname (bytes "WR")) by (split; [done|by repeat constructor]).
  apply (parse_write_text _ tmp_name name name_parent message (bytes "WR")); try done;
    [|change (length (bytes "WR")) with 2%nat; lia].
  apply is_cstr_received; [|done].
  apply req_text_nz; try (by apply fname_nz); [by destruct Hm|lia..].
Qed.

(** ** Read requests *)

Definition read_text (ino : Z) (name : list Z) (ino_parent : Z) (name_parent : list Z) : list Z :=
  join5 (bytes "RD") (sdecimal ino) name (sdecimal ino_parent) name_parent.

Lemma fname_RD : fname (bytes "RD").
Proof. split; [done|by repeat constructor]. Qed.

Lemma length_read_text ino n inop np :
  (length n <= 255)%nat -> (length np <= 255)%nat ->
  (length (read_text (s32 ino) n (s32 inop) np) < 1024)%nat.
Proof.
  intros Hn Hnp. unfold read_text, join5. rewrite !length_app. cbn [length].
  change (length (bytes "RD")) with 2%nat.
  pose proof (length_sdecimal _ (s32_range ino)). pose proof (length_sdecimal _ (s32_range inop)). lia.
Qed.

Lemma build_read_ok pointer buf ino nm n inop nmp np :
  length buf = 1024%nat -> is_cstr nm n -> is_cstr nmp np ->
  (length n <= 255)%nat -> (length np <= 255)%nat ->
  let t := read_text (s32 ino) n (s32 inop) np in
  build_read pointer buf ino nm inop nmp
  = Ok (splice (replicate 1024 0) 0 (t ++ [0]), Z.of_nat (length t)).
Proof.
  intros Hb Hn Hnp Hl Hlp. cbv zeta. pose proof (length_read_text ino n inop np Hl Hlp) as Ht.
  unfold build_read. rewrite memset_1024 by done. rewrite bind_ok.
  eapply sprintf_fit; [vm_compute; reflexivity| |rewrite length_replicate; lia|].
  - unfold read_text, join5. constructor; [apply is_cstr_lit; by repeat constructor|done|].
    repeat (constructor; try eassumption; try lia).
    rewrite <- (app_nil_r np). constructor; [done|lia|constructor].
  - rewrite length_replicate. vm_compute. discriminate.
Qed.

Lemma read_text_nz ino n inop np :
  fname n -> fname np -> 0 <= ino -> 0 <= inop ->
  Forall (fun c => c <> 0) (read_text ino n inop np).
Proof.
  intros Fn Fp Hi Hip. unfold read_text, join5. rewrite !sdecimal_nonneg by done.
  rewrite !Forall_app.
  repeat split; try done; try (by apply fname_nz); try (by apply fname_nz, fname_decimal);
    repeat constructor; done.
Qed.

Lemma parse_read_text buf tmp_name name name_parent ino n inop np :
  is_cstr buf (read_text ino n inop np) ->
  length tmp_name = 100%nat -> length name = 20%nat -> length name_parent = 20%nat ->
  fname n -> fname np -> (length n <= 19)%nat -> (length np <= 19)%nat ->
  0 <= ino < 2 ^ 31 -> 0 <= inop < 2 ^ 31 ->
  parse_read buf tmp_name name name_parent = Ok (mkReq ino n inop np 0).
Proof.
  intros Hb Ht Hna Hnp Fn Fp Ln Lp Hi Hip.
  pose proof (length_decimal _ Hi). pose proof (length_decimal _ Hip). pose proof fname_RD as FR.
  destruct (tokenize_fit buf _ tmp_name [bytes "RD"; decimal ino; n; decimal inop; np] Hb)
    as (nm' & E & Hrows).
  - unfold read_text. rewrite !sdecimal_nonneg by lia. rewrite <- (app_nil_r (join5 _ _ _ _ _)).
    rewrite words_join5 by (done || apply fname_decimal). rewrite app_nil_r.
    rewrite words_last; [done|by apply fname_nosep|by destruct Fp].
  - rewrite !Forall_cons_iff, Forall_nil_iff. change (length (bytes "RD")) with 2%nat. lia.
  - rewrite !Forall_cons_iff, Forall_nil_iff. pose proof fname_decimal.
    repeat split; by apply fname_nz.
  - simpl. lia.
  - unfold parse_read. rewrite E, bind_ok.
    rewrite (string2int_decimal _ ino Hi (Hrows 1%nat _ eq_refl)), bind_ok.
    rewrite (string2int_decimal _ inop Hip (Hrows 3%nat _ eq_refl)), bind_ok.
    destruct (strcpy_cstring name _ n (Hrows 2%nat _ eq_refl)) as (? & -> & Ec1); [lia|].
    rewrite bind_ok.
    destruct (strcpy_cstring name_parent _ np (Hrows 4%nat _ eq_refl)) as (? & -> & Ec2); [lia|].
    rewrite bind_ok. by rewrite Ec1, Ec2.
Qed.

(** Round trip of read requests. *)
Theorem read_roundtrip pointer buf ino nm n inop nmp np tmp_name name name_parent :
  length buf = 1024%nat -> is_cstr nm n -> is_cstr nmp np ->
  fname n -> fname np -> (length n <= 19)%nat -> (length np <= 19)%nat ->
  0 <= ino < 2 ^ 31 -> 0 <= inop < 2 ^ 31 ->
  length tmp_name = 100%nat -> length name = 20%nat -> length name_parent = 20%nat ->
  exists msg len,
    build_read pointer buf ino nm inop nmp = Ok (msg, len) /\
    parse_read (received msg len) tmp_name name name_parent = Ok (mkReq ino n inop np 0).
Proof.
  intros Hb Hn Hnp Fn Fp Ln Lp Hi Hip Ht Hna Hnap.
  pose proof (length_read_text ino n inop np ltac:(lia) ltac:(lia)) as Hl.
  eexists _, _. split; [apply build_read_ok; try done; lia|].
  rewrite !s32_small in * by lia. rewrite received_text by done.
  apply parse_read_text; try done. apply is_cstr_received; [|done]. apply read_text_nz; done || lia.
Qed.

(** ** The two halves of the number format *)

(** The tokenizer of the server is the reference splitter: field [j] of the text
    lands in row [j] of the array, with its terminator. *)
Theorem tokenize_refines tmp t tmp_name :
  is_cstr tmp t -> tokenize tmp tmp_name = put_rows tmp_name 0 (words t).
Proof. apply tokenize_words. Qed.

(** A number that the client prints with [%d] is the number string2int reads, as
    long as it is not negative. *)
Theorem number_roundtrip pointer buf z :
  0 <= z < 2 ^ 31 -> (11 < length buf)%nat -> Z.of_nat (length buf) <= INT_MAX ->
  exists b len, sprintf pointer buf (lit "%d") [VWord z] = Ok (b, len) /\ string2int b = Ok z.
Proof.
  intros Hz Hb Hm. pose proof (length_sdecimal (s32 z) (s32_range z)) as Hl.
  eexists _, _. split.
  - apply (sprintf_fit pointer buf (lit "%d") [FInt] [VWord z] (sdecimal (s32 z) ++ []));
      [vm_compute; reflexivity|repeat constructor|rewrite app_nil_r; lia|done].
  - rewrite app_nil_r, s32_small, sdecimal_nonneg by lia.
    apply string2int_decimal; [done|]. unfold splice. rewrite take_0. cbn [app].
    rewrite <- app_assoc. apply is_cstr_app, fname_nz, fname_decimal.
Qed.
