(* ===== verification/Ksocket.v ===== *)
(** * ksocket: sockets inside the kernel

    src/wjfs/ksocket-0.0.2/src/ksocket.c wraps the kernel's socket layer.  The
    socket layer itself is not modelled: its answers are an oracle that may
    depend on everything that was called before, and the model records the
    calls.  Addresses are bytes; [inet_addr] and [inet_ntoa] are the scanner and
    the formatter of lib/vsprintf.c on dotted quads. *)

From S2P Require Import Prelude KString KScan KFormat Wire.

(** ** inet_addr and inet_ntoa *)

(** The four [int]s start with arbitrary values, [char addr[4]] keeps the low
    byte of each and the result is the little-endian word. *)
Definition scanned_int (out : list scanned) (junk : list Z) (k : nat) : Z :=
  match out !! k with
  | Some (SInt z) => z
  | _ => nth k junk 0
  end.

Definition inet_addr (ip : block) (junk : list Z) : res Z :=
  '(_, out) ← vsscanf ip (lit "%d.%d.%d.%d");
  let addr k := u8 (scanned_int out junk k) in
  Ok (addr 0%nat + 256 * addr 1%nat + 65536 * addr 2%nat + 16777216 * addr 3%nat).

(** [kmalloc] says whether the allocation of the 16 bytes succeeds; there is no
    text without it. *)
Definition inet_ntoa pointer (kmalloc : bool) (s_addr : Z) : res (option block) :=
  if negb kmalloc then Ok None else
  str_ip ← memset (replicate 16 0) 0 0 16;
  '(str_ip, _) ← sprintf pointer str_ip (lit "%d.%d.%d.%d")
    [VWord (Z.land s_addr 255); VWord (Z.land (Z.shiftr s_addr 8) 255);
     VWord (Z.land (Z.shiftr s_addr 16) 255); VWord (Z.land (Z.shiftr s_addr 24) 255)];
  Ok (Some str_ip).

(** htons and ntohs on this little-endian machine. *)
Definition htons (x : Z) : Z := Z.land x 255 * 256 + Z.land (Z.shiftr x 8) 255.

(** ** The wrappers *)

(** A call into the socket layer. *)
Inductive call : Type :=
  | CSockCreate (family type protocol : Z) (sk : nat)
  | CBind (sk : nat) (addr : block) (len : Z)
  | CListen (sk : nat) (backlog : Z)
  | CConnect (sk : nat) (addr : block) (len flags : Z)
  | CAccept (sk new_sk : nat) (flags : Z)
  | CGetname (sk : nat) (peer : Z)
  | CRecvmsg (sk : nat) (name : option block) (namelen length flags : Z)
  | CSendmsg (sk : nat) (data : block) (name : option block) (flags : Z)
  | CShutdown (sk : nat) (how : Z)
  | COpsRelease (sk : nat)
  | CSockRelease (sk : nat)
  | CSetsockopt (sk : nat) (level optname : Z)
  | CSockSetsockopt (sk : nat) (level optname : Z).

(** The calls so far (newest first), the next socket, the address limit of the
    task ([true] for KERNEL_DS). *)
Record world : Type := mkW {
  w_trace : list call;
  w_next : nat;
  w_ds : bool;
}.

(** The kinds of the sockets: family, type, protocol. *)
Record sock_kind : Type := mkKind { k_family : Z; k_type : Z; k_protocol : Z }.

Definition SOMAXCONN := 128.
Definition SOL_SOCKET := 1.

Section wrappers.
(** The socket layer: the integer a call returns, the bytes a receive
    delivers, the name a getname or receive stores, and what a socket is. *)
Variable answer : list call -> call -> Z.
Variable delivered : list call -> call -> block.
Variable named : list call -> call -> block.
Variable kind : nat -> sock_kind.

Definition W (A : Type) : Type := world -> A * world.

#[local] Instance W_ret : MRet W := fun A a w => (a, w).
#[local] Instance W_bind : MBind W := fun A B f m w => let '(a, w) := m w in f a w.

Definition do_call (c : call) : W Z := fun w =>
  (answer (w_trace w) c, mkW (c :: w_trace w) (w_next w) (w_ds w)).
Definition do_recv (c : call) : W (Z * block * block) := fun w =>
  ((answer (w_trace w) c, delivered (w_trace w) c, named (w_trace w) c),
   mkW (c :: w_trace w) (w_next w) (w_ds w)).
Definition get_fs : W bool := fun w => (w_ds w, w).
Definition set_fs (b : bool) : W unit := fun w => (tt, mkW (w_trace w) (w_next w) b).

(** sock_create stores a socket on success. *)
Definition sock_create (family type protocol : Z) : W (Z * option nat) := fun w =>
  let sk := w_next w in
  let c := CSockCreate family type protocol sk in
  let ret := answer (w_trace w) c in
  if ret <? 0 then ((ret, None), mkW (c :: w_trace w) (w_next w) (w_ds w))
  else ((ret, Some sk), mkW (c :: w_trace w) (S (w_next w)) (w_ds w)).

Definition ksocket (domain type protocol : Z) : W (option nat) :=
  '(ret, sk) ← sock_create domain type protocol;
  mret (if ret <? 0 then None else sk).

Definition kbind (sk : nat) (address : block) (address_len : Z) : W Z :=
  do_call (CBind sk address address_len).

Definition klisten (sk : nat) (backlog : Z) : W Z :=
  do_call (CListen sk (if SOMAXCONN <? u32 backlog then SOMAXCONN else backlog)).

Definition kconnect (sk : nat) (address : block) (address_len : Z) : W Z :=
  do_call (CConnect sk address address_len 0).

(** kaccept; [address] tells whether the caller wants the peer's name. *)
Definition kaccept (sk : nat) (address : bool) : W (option (nat * block)) :=
  let k := kind sk in
  '(ret, new_sk) ← sock_create (k_family k) (k_type k) (k_protocol k);
  if ret <? 0 then mret None else
  match new_sk with
  | None => mret None
  | Some new_sk =>
      ret ← do_call (CAccept sk new_sk 0);
      if ret <? 0 then do_call (CSockRelease new_sk);; mret None
      else if address then
        '(ret, _, name) ← do_recv (CGetname new_sk 2);
        if ret <? 0 then do_call (CSockRelease new_sk);; mret None
        else mret (Some (new_sk, name))
      else mret (Some (new_sk, []))
  end.

Definition krecv (sk : nat) (length flags : Z) : W (Z * block) :=
  old_fs ← get_fs;
  set_fs true;;
  '(ret, data, _) ← do_recv (CRecvmsg sk None 0 length flags);
  set_fs old_fs;;
  mret (ret, data).

Definition ksend (sk : nat) (buffer : block) (len : Z) (flags : Z) : W Z :=
  old_fs ← get_fs;
  set_fs true;;
  ret ← do_call (CSendmsg sk (take (Z.to_nat len) buffer) None flags);
  set_fs old_fs;;
  mret ret.

Definition kshutdown (sk : option nat) (how : Z) : W Z :=
  match sk with Some sk => do_call (CShutdown sk how) | None => mret 0 end.

Definition kclose (sk : nat) : W Z :=
  ret ← do_call (COpsRelease sk);
  do_call (CSockRelease sk);;
  mret ret.

Definition krecvfrom (sk : nat) (length flags : Z) (address : bool) : W (Z * block * block) :=
  old_fs ← get_fs;
  set_fs true;;
  '(len, data, name) ← do_recv (CRecvmsg sk (if address then Some [] else None) 128 length flags);
  set_fs old_fs;;
  mret (len, data, if address then name else []).

(** ksendto: without [dest_addr] the name of the message is whatever the stack
    holds. *)
Definition ksendto (sk : nat) (message : block) (length flags : Z) (dest_addr : option block)
    (junk : option block) : W Z :=
  old_fs ← get_fs;
  set_fs true;;
  ret ← do_call (CSendmsg sk (take (Z.to_nat length) message)
                   (match dest_addr with Some a => Some a | None => junk end) flags);
  set_fs old_fs;;
  mret ret.

Definition kgetsockname (sk : nat) : W (Z * block) :=
  '(ret, _, name) ← do_recv (CGetname sk 0); mret (ret, name).

Definition kgetpeername (sk : nat) : W (Z * block) :=
  '(ret, _, name) ← do_recv (CGetname sk 1); mret (ret, name).

Definition ksetsockopt (sk : nat) (level optname : Z) : W Z :=
  old_fs ← get_fs;
  set_fs true;;
  ret ← (if level =? SOL_SOCKET then do_call (CSockSetsockopt sk level optname)
         else do_call (CSetsockopt sk level optname));
  set_fs old_fs;;
  mret ret.

Definition kgetsockopt : W Z := mret (- ENOSYS).

(** ** Properties of the wrappers *)

(** A failed accept leaves no socket behind: whatever it created it released,
    and a successful one hands out a socket that is not released. *)
Theorem kaccept_no_leak sk address w :
  let '(r, w') := kaccept sk address w in
  exists calls, w_trace w' = calls ++ w_trace w /\ w_ds w' = w_ds w /\
  match r with
  | Some (new, _) => new = w_next w /\ w_next w' = S (w_next w) /\ CSockRelease new ∉ calls
  | None => w_next w' = w_next w \/
            (w_next w' = S (w_next w) /\ CSockRelease (w_next w) ∈ calls)
  end.
Proof.
  unfold kaccept, sock_create, mbind, W_bind, do_call, do_recv, mret, W_ret.
  destruct w as [tr n ds]. simpl.
  destruct (answer tr _ <? 0) eqn:E1; simpl; rewrite E1; simpl.
  { eexists [_]. split; [done|]. auto. }
  destruct (answer _ (CAccept _ _ _) <? 0) eqn:E2; simpl.
  { eexists [_; _; _]. split; [done|]. split; [done|]. right. set_solver. }
  destruct address; simpl.
  - destruct (answer _ (CGetname _ _) <? 0) eqn:E3; simpl.
    + eexists [_; _; _; _]. split; [done|]. split; [done|]. right. set_solver.
    + eexists [_; _; _]. split; [done|]. split; [done|]. set_solver.
  - eexists [_; _]. split; [done|]. split; [done|]. set_solver.
Qed.

(** klisten passes a backlog between 0 and SOMAXCONN, negative ones included. *)
Theorem klisten_backlog sk backlog w :
  - 2 ^ 31 <= backlog < 2 ^ 31 ->
  exists b, w_trace (snd (klisten sk backlog w)) = CListen sk b :: w_trace w /\
    0 <= b <= SOMAXCONN /\ (0 <= backlog <= SOMAXCONN -> b = backlog).
Proof.
  intros Hb. unfold klisten, do_call, SOMAXCONN. simpl. eexists. split; [done|].
  destruct (Z.ltb_spec 128 (u32 backlog)) as [H|H].
  - split; [lia|]. intros Hb'. rewrite u32_small in H; lia.
  - split; [|done]. unfold u32 in H. pose proof (Z.mod_pos_bound backlog (2 ^ 32)).
    assert (0 <= backlog \/ backlog < 0) as [|Hn] by lia; [rewrite Z.mod_small in H; lia|].
    assert (backlog mod 2 ^ 32 = backlog + 2 ^ 32) as E; [|lia].
    rewrite <- (Z_mod_plus_full backlog 1), Z.mul_1_l. apply Z.mod_small. lia.
Qed.

(** The wrappers that lift the address limit put back the one they found,
    whatever the socket layer answers. *)
Theorem address_limit_restored sk buf len flags level optname dest junk w :
  w_ds (snd (krecv sk len flags w)) = w_ds w /\
  w_ds (snd (ksend sk buf len flags w)) = w_ds w /\
  w_ds (snd (krecvfrom sk len flags dest w)) = w_ds w /\
  w_ds (snd (ksendto sk buf len flags junk junk w)) = w_ds w /\
  w_ds (snd (ksetsockopt sk level optname w)) = w_ds w.
Proof.
  destruct w as [tr n ds].
  unfold krecv, ksend, krecvfrom, ksendto, ksetsockopt, mbind, W_bind, do_call, do_recv, get_fs,
    set_fs, mret, W_ret. simpl. by destruct (level =? SOL_SOCKET).
Qed.
End wrappers.

(** ** Dotted quads *)

Lemma strtoul_digits ds r c acc :
  Forall (fun d => 48 <= d <= 57) ds -> isxdigit c = false ->
  strtoul_loop (ds ++ c :: r) 10 acc
  = Ok (fold_left (fun v d => u32 (v * 10 + (d - 48))) ds acc, c :: r).
Proof.
  intros Hds Hc. revert acc. induction Hds as [|d ds Hd Hds IH]; intros acc; simpl.
  - by rewrite Hc.
  - assert (Hx : isxdigit d = true).
    { rewrite isxdigit_spec by (unfold byteP; lia).
      rewrite (proj2 (Z.leb_le 48 d)), (proj2 (Z.leb_le d 57)) by lia. done. }
    assert (Hv : digit_value d = d - 48).
    { unfold digit_value. rewrite isdigit_spec by (unfold byteP; lia).
      by rewrite (proj2 (Z.leb_le 48 d)), (proj2 (Z.leb_le d 57)) by lia. }
    rewrite Hx, Hv, (proj2 (Z.leb_gt 10 (d - 48))) by lia. apply IH.
Qed.

Lemma u32_dec_rev k n :
  0 <= n < 2 ^ 32 -> n < 10 ^ Z.of_nat k ->
  fold_right (fun d v => u32 (v * 10 + (d - 48))) 0 (dec_rev k n) = n.
Proof.
  revert n. induction k as [|k IH]; intros n Hn Hk.
  - change (10 ^ Z.of_nat 0) with 1 in Hk. simpl. lia.
  - rewrite dec_rev_S. cbn [fold_right].
    assert (fold_right (fun d v => u32 (v * 10 + (d - 48))) 0
              (if n <? 10 then [] else dec_rev k (n / 10)) = n / 10) as ->.
    { destruct (Z.ltb_spec n 10); [simpl; dlia|].
      rewrite Nat2Z.inj_succ, Z.pow_succ_r in Hk by lia.
      apply IH; [dlia|]. apply Z.div_lt_upper_bound; lia. }
    rewrite u32_small; dlia.
Qed.

Lemma strtoul_decimal n c r :
  0 <= n < 2 ^ 32 -> isxdigit c = false ->
  simple_strtoul (decimal n ++ c :: r) 10 = Ok (n, c :: r).
Proof.
  intros Hn Hc. unfold simple_strtoul. change (10 =? 0) with false. cbn [mbind res_bind].
  change (10 =? 16) with false. cbn [mbind res_bind].
  rewrite strtoul_digits by (done || apply Forall_lookup; intros i d Hd;
    apply (decimal_digit n), list_elem_of_lookup; eauto).
  do 2 f_equal. unfold decimal. rewrite <- fold_left_rev_right, rev_involutive.
  apply u32_dec_rev; [done|]. change (Z.of_nat 20) with 20. lia.
Qed.

Lemma decimal_head n : exists d ds, decimal n = d :: ds /\ 48 <= d <= 57.
Proof.
  destruct (decimal n) as [|d ds] eqn:E; [by destruct (fname_decimal n)|].
  exists d, ds. split; [done|]. apply (decimal_digit n). rewrite E. by left.
Qed.

(** Evaluate a comparison of literals. *)
Ltac decide_eqb :=
  match goal with
  | |- context [Zpos ?a =? ?b] =>
      let v := eval vm_compute in (Zpos a =? b) in
      match v with
      | true => change (Zpos a =? b) with true
      | false => change (Zpos a =? b) with false
      end
  end.

(** One [%d] of a format, at a number that is followed by something else. *)
Lemma scan_d fuel buf n c r fmt num out :
  0 <= n < 2 ^ 31 -> isxdigit c = false ->
  vsscanf_loop (S fuel) buf (decimal n ++ c :: r) (37 :: 100 :: fmt) num out
  = vsscanf_loop fuel buf (c :: r) fmt (num + 1) (out ++ [SInt n]).
Proof.
  intros Hn Hc. destruct (decimal_head n) as (d & ds & Ed & Hd).
  assert (Hsp : isspace d = false).
  { rewrite isspace_spec by (unfold byteP; lia).
    rewrite (proj2 (Z.leb_gt d 13)), (proj2 (Z.eqb_neq d 32)), (proj2 (Z.eqb_neq d 160)) by lia.
    by rewrite andb_false_r. }
  assert (Hdig : isdigit d = true).
  { rewrite isdigit_spec by (unfold byteP; lia).
    by rewrite (proj2 (Z.leb_le 48 d)), (proj2 (Z.leb_le d 57)) by lia. }
  assert (Hst : simple_strtol (decimal n ++ c :: r) 10 = Ok (n, c :: r)).
  { unfold simple_strtol. rewrite Ed. cbn [app]. unfold rd at 1. cbn [lookup list_lookup mbind res_bind].
    rewrite (proj2 (Z.eqb_neq d 45)) by lia. change (d :: ds ++ c :: r) with ((d :: ds) ++ c :: r).
    rewrite <- Ed, strtoul_decimal by (done || lia). cbn [mbind res_bind].
    by rewrite s32_small by lia. }
  rewrite Ed in Hst |- *. cbn [app] in *.
  assert (Hrd : rd (d :: ds ++ c :: r) 0 = Ok d) by done.
  assert (Hd0 : (d =? 0) = false) by (apply Z.eqb_neq; lia).
  assert (Hd45 : (d =? 45) = false) by (apply Z.eqb_neq; lia).
  cbn [vsscanf_loop].
  repeat first
    [ progress change (rd (37 :: 100 :: fmt) 0) with (Ok 37)
    | progress change (drop 1 (37 :: 100 :: fmt)) with (100 :: fmt)
    | progress change (rd (100 :: fmt) 0) with (Ok 100)
    | progress change (drop 1 (100 :: fmt)) with fmt
    | progress change (isspace 37) with false | progress change (isdigit 100) with false
    | progress change (scan_qualifier (100 :: fmt)) with (Ok (-1, 100 :: fmt))
    | progress change (scan_store (-1) true (d :: ds ++ c :: r) 10)
        with (simple_strtol (d :: ds ++ c :: r) 10)
    | rewrite Hrd | rewrite Hd0 | rewrite Hd45 | rewrite Hsp | rewrite Hdig | rewrite Hst
    | decide_eqb | progress cbn [mbind res_bind negb andb orb skip_spaces] ].
  done.
Qed.

(** A literal dot. *)
Lemma scan_dot fuel buf r fmt num out :
  vsscanf_loop (S fuel) buf (46 :: r) (46 :: fmt) num out
  = vsscanf_loop fuel buf r fmt num out.
Proof. reflexivity. Qed.

Definition octet (x : Z) (k : Z) : Z := x / 2 ^ (8 * k) mod 256.

Lemma land_octet x k : 0 <= k -> Z.land (Z.shiftr x (8 * k)) 255 = octet x k.
Proof.
  intros Hk. unfold octet. rewrite Z.shiftr_div_pow2 by lia.
  change 255 with (Z.ones 8). by rewrite Z.land_ones by lia.
Qed.

Lemma octet_range x k : 0 <= octet x k < 256.
Proof. apply Z.mod_pos_bound. lia. Qed.

(** The text of an address. *)
Definition quad (x : Z) : list Z :=
  decimal (octet x 0) ++ [46] ++ decimal (octet x 1) ++ [46] ++
  decimal (octet x 2) ++ [46] ++ decimal (octet x 3).

Lemma length_octet x k : (1 <= length (decimal (octet x k)) <= 3)%nat.
Proof.
  pose proof (octet_range x k). unfold decimal. rewrite length_rev. split.
  - pose proof (dec_rev_pos (octet x k)). lia.
  - apply dec_rev_short; [lia|]. change (10 ^ Z.of_nat 3) with 1000. lia.
Qed.

Lemma length_quad x : (length (quad x) <= 15)%nat.
Proof.
  unfold quad. rewrite !length_app. simpl.
  pose proof (length_octet x 0). pose proof (length_octet x 1).
  pose proof (length_octet x 2). pose proof (length_octet x 3). lia.
Qed.

Lemma quad_nz x : Forall (fun c => c <> 0) (quad x).
Proof.
  unfold quad. rewrite !Forall_app.
  repeat split; try (by repeat constructor); apply fname_nz, fname_decimal.
Qed.

Lemma quad_renders x :
  renders [FInt; FLit [46]; FInt; FLit [46]; FInt; FLit [46]; FInt]
    [VWord (octet x 0); VWord (octet x 1); VWord (octet x 2); VWord (octet x 3)] (quad x).
Proof.
  assert (forall k, decimal (octet x k) = sdecimal (s32 (octet x k))) as E.
  { intros k. pose proof (octet_range x k). by rewrite s32_small, sdecimal_nonneg by lia. }
  unfold quad. rewrite !E, <- (app_nil_r (sdecimal (s32 (octet x 3)))).
  repeat constructor.
Qed.

Lemma quad_items :
  fmt_items (2 * length (lit "%d.%d.%d.%d") + 2) (lit "%d.%d.%d.%d") spec0
  = Some [FInt; FLit [46]; FInt; FLit [46]; FInt; FLit [46]; FInt].
Proof. vm_compute. reflexivity. Qed.

Lemma sprintf_quad pointer x :
  sprintf pointer (replicate 16 0) (lit "%d.%d.%d.%d")
    [VWord (octet x 0); VWord (octet x 1); VWord (octet x 2); VWord (octet x 3)]
  = Ok (splice (replicate 16 0) 0 (quad x ++ [0]), Z.of_nat (length (quad x))).
Proof.
  apply (sprintf_fit pointer _ _ _ _ _ quad_items (quad_renders x)); rewrite length_replicate.
  - pose proof (length_quad x). lia.
  - unfold INT_MAX. lia.
Qed.

Lemma inet_ntoa_text pointer x :
  inet_ntoa pointer true x = Ok (Some (splice (replicate 16 0) 0 (quad x ++ [0]))).
Proof.
  unfold inet_ntoa. cbn [negb].
  assert (memset (replicate 16 0) 0 0 16 = Ok (replicate 16 0)) as -> by (vm_compute; reflexivity).
  rewrite bind_ok.
  pose proof (land_octet x 1) as E1. pose proof (land_octet x 2) as E2.
  pose proof (land_octet x 3) as E3. rewrite Z.mul_1_r in E1.
  replace (8 * 2) with 16 in E2 by lia. replace (8 * 3) with 24 in E3 by lia.
  rewrite E1, E2, E3 by lia.
  assert (Z.land x 255 = octet x 0) as ->
    by (rewrite <- land_octet, Z.mul_0_r, Z.shiftr_0_r by lia; done).
  by rewrite sprintf_quad, bind_ok.
Qed.

Lemma inet_addr_quad b x junk :
  0 <= x < 2 ^ 32 -> is_cstr b (quad x) -> inet_addr b junk = Ok x.
Proof.
  intros Hx [_ [r ->]]. unfold inet_addr, vsscanf. unfold quad. rewrite <- !app_assoc.
  change (lit "%d.%d.%d.%d") with [37; 100; 46; 37; 100; 46; 37; 100; 46; 37; 100; 0].
  change (S (length [37; 100; 46; 37; 100; 46; 37; 100; 46; 37; 100; 0])) with 13%nat.
  pose proof (octet_range x 0). pose proof (octet_range x 1).
  pose proof (octet_range x 2). pose proof (octet_range x 3).
  do 3 (cbn [app]; rewrite scan_d by (done || lia); rewrite scan_dot).
  rewrite scan_d by (done || lia). cbn [app].
  change (vsscanf_loop 6 ?b (0 :: r) [0] ?n ?o) with (Ok (n, o)).
  cbn [mbind res_bind]. unfold scanned_int. cbn [lookup list_lookup].
  unfold u8. f_equal. unfold octet in *.
  change (8 * 0) with 0. change (8 * 1) with 8. change (8 * 2) with 16. change (8 * 3) with 24.
  change (2 ^ 0) with 1. change (2 ^ 8) with 256. change (2 ^ 16) with 65536.
  change (2 ^ 24) with 16777216. rewrite Z.div_1_r, !Z.mod_mod by lia. dlia.
Qed.

(** C31: With memory inet_ntoa makes a text that stays within its 16 bytes and that
    inet_addr reads back as the same address; without memory it returns no text. *)
Theorem inet_roundtrip pointer x junk :
  0 <= x < 2 ^ 32 ->
  (exists str, inet_ntoa pointer true x = Ok (Some str) /\ length str = 16%nat /\ inet_addr str junk = Ok x) /\
  inet_ntoa pointer false x = Ok None.
Proof.
  intros Hx. split; [|done]. pose proof (length_quad x) as Hl. eexists. split; [apply inet_ntoa_text|].
  split; [by rewrite length_splice by (rewrite length_app, length_replicate; simpl; lia)|].
  apply inet_addr_quad; [done|]. unfold splice. simpl. rewrite <- app_assoc.
  apply is_cstr_app, quad_nz.
Qed.
