(* ===== verification/MapTable.v ===== *)
(** * reg_ino_mapp_table: which local inode stands for which remote one

    [struct reg_ino_mapp_table] of wjfs.h is kept as its 52 bytes, so that a
    [strcpy] into one member that runs into the next is modelled as the
    compiler lays it out:

    - [name] 0..15, [local_ino] 16..19, [rdma_ino] 20..23,
      [local_parent_ino] 24..27, [rdma_parent_ino] 28..31,
      [ip] 32..47, [used] 48..51.

    The table is a list of 1024 such entries; the loops of the source over
    [i < 1024] are recursions over that list. *)

From S2P Require Import Prelude KString.

(** ** Members *)

Definition le32 (z : Z) : list Z :=
  [z mod 256; (z / 256) mod 256; (z / 65536) mod 256; (z / 16777216) mod 256].

Definition put32 (b : block) (off : nat) (z : Z) : res block :=
  if decide (off + 4 <= length b)%nat then Ok (splice b off (le32 (u32 z)))
  else Fault OutOfBounds.

Definition get32 (b : block) (off : nat) : res Z :=
  match take 4 (drop off b) with
  | [a; b; c; d] => Ok (s32 (a + 256 * b + 65536 * c + 16777216 * d))
  | _ => Fault OutOfBounds
  end.

Definition entry_size : nat := 52.
Definition table_size : nat := 1024.

Definition o_name : nat := 0.
Definition o_local_ino : nat := 16.
Definition o_rdma_ino : nat := 20.
Definition o_local_parent_ino : nat := 24.
Definition o_rdma_parent_ino : nat := 28.
Definition o_ip : nat := 32.
Definition o_used : nat := 48.

Abbreviation table := (list block).

(** ** Operations *)

(** wjfs_fill_super: [reg_ino_mapp_table[i].used = 0] for all [i]. *)
Fixpoint table_reset (t : table) : res table :=
  match t with
  | [] => Ok []
  | e :: t => e ← put32 e o_used 0; t ← table_reset t; Ok (e :: t)
  end.

(** wjfs.c: is_my_file; [ino] is the dentry's [i_ino], an [unsigned long]. *)
Fixpoint is_my_file (t : table) (ino : Z) : res bool :=
  match t with
  | [] => Ok true
  | e :: t =>
      used ← get32 e o_used;
      if used =? 1 then
        local_ino ← get32 e o_local_ino;
        if u32 local_ino =? ino then Ok false else is_my_file t ino
      else is_my_file t ino
  end.

(** rdma_create: find a free entry and mark it; [i] is 1024 when there is
    none. *)
Fixpoint free_slot (t : table) : res (table * nat) :=
  match t with
  | [] => Ok ([], 0%nat)
  | e :: t =>
      used ← get32 e o_used;
      if used =? 0 then e ← put32 e o_used 1; Ok (e :: t, 0%nat)
      else '(t, i) ← free_slot t; Ok (e :: t, S i)
  end.

(** One assignment to a member of entry [i]. *)
Definition on_entry (t : table) (i : nat) (f : block -> res block) : res table :=
  match t !! i with
  | Some e => e ← f e; Ok (<[i := e]> t)
  | None => Fault OutOfBounds
  end.

(** rdma_create: the six assignments after the search. *)
Definition table_record (t : table) (name : block) (local rdma local_parent rdma_parent : Z)
    (ip : block) : res table :=
  '(t, i) ← free_slot t;
  t ← on_entry t i (fun e => strcpy e o_name name);
  t ← on_entry t i (fun e => put32 e o_local_ino local);
  t ← on_entry t i (fun e => put32 e o_rdma_ino rdma);
  t ← on_entry t i (fun e => put32 e o_local_parent_ino local_parent);
  t ← on_entry t i (fun e => put32 e o_rdma_parent_ino rdma_parent);
  on_entry t i (fun e => strcpy e o_ip ip).

(** rdma_remove: the entry of a remote inode gives the local numbers and
    becomes free; [(0, 0)] when there is none. *)
Fixpoint table_take (t : table) (ino ino_parent : Z) : res (table * (Z * Z)) :=
  match t with
  | [] => Ok ([], (0, 0))
  | e :: t =>
      used ← get32 e o_used;
      hit ← (if used =? 1 then
               r ← get32 e o_rdma_ino; p ← get32 e o_rdma_parent_ino;
               Ok ((r =? ino) && (p =? ino_parent))
             else Ok false);
      if (hit : bool) then
        my_ino ← get32 e o_local_ino;
        my_parent ← get32 e o_local_parent_ino;
        e ← put32 e o_used 0;
        Ok (e :: t, (my_ino, my_parent))
      else '(t, r) ← table_take t ino ino_parent; Ok (e :: t, r)
  end.

(** wjfs_client_read, wjfs_client_write: from the local numbers to the remote
    ones; [(0, 0)] when there is no entry. *)
Fixpoint table_remote (t : table) (ino ino_parent : Z) : res (Z * Z) :=
  match t with
  | [] => Ok (0, 0)
  | e :: t =>
      used ← get32 e o_used;
      hit ← (if used =? 1 then
               l ← get32 e o_local_ino; p ← get32 e o_local_parent_ino;
               Ok ((l =? ino) && (p =? ino_parent))
             else Ok false);
      if (hit : bool) then
        r ← get32 e o_rdma_ino; p ← get32 e o_rdma_parent_ino; Ok (r, p)
      else table_remote t ino ino_parent
  end.

(** ** The abstract table *)

(** What an entry says. *)
Record link : Type := mkLink {
  l_local : Z;
  l_rdma : Z;
  l_local_parent : Z;
  l_rdma_parent : Z;
}.

#[global] Instance link_eq_dec : EqDecision link.
Proof. solve_decision. Defined.

Definition entry_link (e : block) : res (option link) :=
  used ← get32 e o_used;
  if used =? 1 then
    l ← get32 e o_local_ino; r ← get32 e o_rdma_ino;
    lp ← get32 e o_local_parent_ino; rp ← get32 e o_rdma_parent_ino;
    Ok (Some (mkLink l r lp rp))
  else Ok None.

(** The table as slots that hold a link or nothing. *)
Fixpoint links (t : table) : res (list (option link)) :=
  match t with
  | [] => Ok []
  | e :: t => l ← entry_link e; ls ← links t; Ok (l :: ls)
  end.

(** An entry: 52 bytes, [used] is 0 or 1. *)
Definition entry_wf (e : block) : Prop :=
  length e = entry_size /\
  (get32 e o_used = Ok 0 \/ get32 e o_used = Ok 1).

Definition table_wf (t : table) : Prop := length t = table_size /\ Forall entry_wf t.

(** The operations on the abstract table. *)
Definition link_local (ino : Z) (o : option link) : bool :=
  match o with Some l => u32 (l_local l) =? ino | None => false end.

Definition spec_mine (ls : list (option link)) (ino : Z) : bool :=
  negb (existsb (link_local ino) ls).

Fixpoint spec_add (ls : list (option link)) (l : link) : option (list (option link)) :=
  match ls with
  | [] => None
  | None :: ls => Some (Some l :: ls)
  | o :: ls => cons o <$> spec_add ls l
  end.

Fixpoint spec_take (ls : list (option link)) (r p : Z) : list (option link) * (Z * Z) :=
  match ls with
  | [] => ([], (0, 0))
  | Some l :: ls =>
      if (l_rdma l =? r) && (l_rdma_parent l =? p)
      then (None :: ls, (l_local l, l_local_parent l))
      else let '(ls, a) := spec_take ls r p in (Some l :: ls, a)
  | None :: ls => let '(ls, a) := spec_take ls r p in (None :: ls, a)
  end.

Fixpoint spec_remote (ls : list (option link)) (i p : Z) : Z * Z :=
  match ls with
  | [] => (0, 0)
  | Some l :: ls =>
      if (l_local l =? i) && (l_local_parent l =? p)
      then (l_rdma l, l_rdma_parent l) else spec_remote ls i p
  | None :: ls => spec_remote ls i p
  end.

(** ** Reading and writing members *)

Lemma get32_ext b b' off :
  (forall i, (i < 4)%nat -> b !! (off + i)%nat = b' !! (off + i)%nat) ->
  get32 b off = get32 b' off.
Proof.
  intros H. unfold get32. replace (take 4 (drop off b)) with (take 4 (drop off b')); [done|].
  apply list_eq. intros i. destruct (decide (i < 4)%nat).
  - rewrite !lookup_take_lt, !lookup_drop by done. symmetry. auto.
  - by rewrite !lookup_take_ge by lia.
Qed.

Lemma get32_splice_ne b off t o :
  (off + length t <= length b)%nat -> (o + 4 <= off \/ off + length t <= o)%nat ->
  get32 (splice b off t) o = get32 b o.
Proof. intros Hl Ho. apply get32_ext. intros i Hi. apply splice_lookup_old; lia. Qed.

Lemma le32_sum z :
  0 <= z < 2 ^ 32 ->
  z mod 256 + 256 * (z / 256 mod 256) + 65536 * (z / 65536 mod 256)
  + 16777216 * (z / 16777216 mod 256) = z.
Proof. intros H. dlia. Qed.

Lemma get32_splice_eq b off z :
  (off + 4 <= length b)%nat -> get32 (splice b off (le32 (u32 z))) off = Ok (s32 z).
Proof.
  intros Hl. unfold get32. rewrite drop_splice by (simpl; lia).
  unfold le32. cbn [app take]. rewrite le32_sum by apply u32_range. by rewrite s32_u32.
Qed.

Lemma get32_ok b off : (off + 4 <= length b)%nat -> exists z, get32 b off = Ok z /\ s32 z = z.
Proof.
  intros H. unfold get32.
  assert (length (take 4 (drop off b)) = 4%nat) as E by (rewrite length_take, length_drop; lia).
  destruct (take 4 (drop off b)) as [|a [|c [|d [|e [|]]]]]; try done.
  eexists; split; [done|]. apply s32_small, s32_range.
Qed.

Lemma put32_ok b off z :
  (off + 4 <= length b)%nat -> put32 b off z = Ok (splice b off (le32 (u32 z))).
Proof. intros H. unfold put32. by rewrite decide_True. Qed.

(** Reads over writes, and lengths of written entries. *)
Ltac entry_simpl :=
  repeat first
    [ rewrite get32_splice_eq by (rewrite ?length_splice; simpl; lia)
    | rewrite get32_splice_ne by (rewrite ?length_splice; simpl; lia)
    | rewrite length_splice by (rewrite ?length_splice; simpl; lia) ].

(** ** Refinement *)

Lemma links_Forall2 t ls : links t = Ok ls <-> Forall2 (fun e o => entry_link e = Ok o) t ls.
Proof.
  revert ls. induction t as [|e t IH]; intros ls; simpl.
  - split; [by intros [= <-]|]. by inversion 1.
  - split.
    + intros (o & Ho & (ls' & Hls & [= <-])%bind_ok_inv)%bind_ok_inv.
      constructor; [done|]. by apply IH.
    + inversion 1 as [|? o ? ls' Ho Hls]; subst. rewrite Ho. simpl.
      apply IH in Hls. by rewrite Hls.
Qed.

(** What a well-formed entry's members read as, by its link. *)
Lemma entry_cases e o :
  entry_wf e -> entry_link e = Ok o ->
  match o with
  | None => get32 e o_used = Ok 0
  | Some l => get32 e o_used = Ok 1 /\ get32 e o_local_ino = Ok (l_local l) /\
      get32 e o_rdma_ino = Ok (l_rdma l) /\ get32 e o_local_parent_ino = Ok (l_local_parent l) /\
      get32 e o_rdma_parent_ino = Ok (l_rdma_parent l)
  end.
Proof.
  intros [Hl Hu]. unfold entry_link.
  destruct Hu as [Hu|Hu]; rewrite Hu; simpl; [by intros [= <-]|].
  intros (l & -> & (r & -> & (lp & -> & (rp & -> & [= <-])%bind_ok_inv)%bind_ok_inv)%bind_ok_inv)%bind_ok_inv.
  done.
Qed.

Lemma entry_link_ok e : entry_wf e -> exists o, entry_link e = Ok o.
Proof.
  intros [Hl [Hu|Hu]]; unfold entry_link; rewrite Hu; simpl; [eauto|].
  unfold entry_size in Hl.
  destruct (get32_ok e o_local_ino) as (? & -> & _); [unfold o_local_ino; lia|].
  destruct (get32_ok e o_rdma_ino) as (? & -> & _); [unfold o_rdma_ino; lia|].
  destruct (get32_ok e o_local_parent_ino) as (? & -> & _); [unfold o_local_parent_ino; lia|].
  destruct (get32_ok e o_rdma_parent_ino) as (? & -> & _); [unfold o_rdma_parent_ino; lia|].
  simpl. eauto.
Qed.

Lemma links_total t : Forall entry_wf t -> exists ls, links t = Ok ls /\ length ls = length t.
Proof.
  induction 1 as [|e t He Ht (ls & E & Hl)]; simpl; [by exists []|].
  destruct (entry_link_ok e He) as [o ->]. rewrite E. simpl. eexists; split; [done|]. simpl. lia.
Qed.

(** After the reset of wjfs_fill_super no entry is used, whatever was there. *)
Lemma table_reset_spec t :
  Forall (fun e => length e = entry_size) t ->
  exists t', table_reset t = Ok t' /\ length t' = length t /\ Forall entry_wf t' /\
    links t' = Ok (replicate (length t) None).
Proof.
  induction 1 as [|e t He Ht (t' & E & Hl & Hwf & Hls)]; [by exists []|]. unfold entry_size in He.
  cbn [table_reset]. rewrite put32_ok, bind_ok by (unfold o_used; lia). rewrite E, bind_ok.
  eexists. split; [done|]. cbn [length]. split; [by rewrite Hl|].
  assert (Hu : get32 (splice e o_used (le32 (u32 0))) o_used = Ok 0)
    by (apply get32_splice_eq; unfold o_used; lia).
  split.
  - constructor; [|done]. split; [|by left].
    rewrite length_splice by (unfold o_used; simpl; lia). done.
  - cbn [links]. unfold entry_link. rewrite Hu, bind_ok. change (0 =? 1) with false. cbn iota.
    by rewrite bind_ok, Hls, bind_ok.
Qed.

Section refine.
Context (t : table) (ls : list (option link)).
Context (Hwf : Forall entry_wf t) (Hls : Forall2 (fun e o => entry_link e = Ok o) t ls).

Lemma is_my_file_spec ino : is_my_file t ino = Ok (spec_mine ls ino).
Proof using Hwf Hls.
  induction Hls as [|e o t' ls' Ho Hls' IH]; [done|].
  apply Forall_cons_iff in Hwf as [He Ht]. specialize (IH Ht Hls').
  pose proof (entry_cases _ _ He Ho) as Hc. unfold spec_mine in *. simpl.
  destruct o as [l|].
  - destruct Hc as (-> & -> & _). simpl. rewrite IH. by destruct (u32 (l_local l) =? ino).
  - rewrite Hc. simpl. by rewrite IH.
Qed.

Lemma table_remote_spec i p : table_remote t i p = Ok (spec_remote ls i p).
Proof using Hwf Hls.
  induction Hls as [|e o t' ls' Ho Hls' IH]; [done|].
  apply Forall_cons_iff in Hwf as [He Ht]. specialize (IH Ht Hls').
  pose proof (entry_cases _ _ He Ho) as Hc. simpl. destruct o as [l|].
  - destruct Hc as (-> & -> & -> & -> & ->). simpl. by case_match.
  - rewrite Hc. simpl. by rewrite IH.
Qed.

Lemma entry_clear e l :
  entry_wf e -> entry_link e = Ok (Some l) ->
  exists e', put32 e o_used 0 = Ok e' /\ entry_wf e' /\ entry_link e' = Ok None.
Proof using.
  intros [Hl Hu] _. unfold entry_size in Hl. rewrite put32_ok by (unfold o_used; lia).
  eexists; split; [done|]. unfold entry_wf, entry_link, o_used. entry_simpl.
  change (s32 0) with 0. simpl. auto.
Qed.

Lemma table_take_spec r p :
  exists t', table_take t r p = Ok (t', snd (spec_take ls r p)) /\ Forall entry_wf t' /\
    length t' = length t /\
    Forall2 (fun e o => entry_link e = Ok o) t' (fst (spec_take ls r p)).
Proof using Hwf Hls.
  induction Hls as [|e o t' ls' Ho Hls' IH]; [by exists []|].
  apply Forall_cons_iff in Hwf as [He Ht]. specialize (IH Ht Hls').
  destruct IH as (t2 & E2 & Hwf2 & Hl2 & H2).
  pose proof (entry_cases _ _ He Ho) as Hc. simpl.
  destruct (spec_take ls' r p) as [ls2 a] eqn:Es. simpl in *. destruct o as [l|].
  - destruct Hc as (-> & -> & -> & -> & ->). simpl. case_match; simpl.
    + destruct (entry_clear e l He Ho) as (e' & -> & He' & Hlk). simpl.
      eexists; split; [done|]. split; [by constructor|]. split; [done|]. by constructor.
    + rewrite E2. simpl. eexists; split; [done|].
      split; [by constructor|]. split; [simpl; lia|]. by constructor.
  - rewrite Hc. simpl. rewrite E2. simpl. eexists; split; [done|].
    split; [by constructor|]. split; [simpl; lia|]. by constructor.
Qed.

Lemma free_slot_spec :
  (exists i e, t !! i = Some e /\ ls !! i = Some None /\
     free_slot t = Ok (<[i := splice e o_used (le32 (u32 1))]> t, i) /\
     forall l, spec_add ls l = Some (<[i := Some l]> ls)) \/
  (free_slot t = Ok (t, length t) /\ forall l, spec_add ls l = None).
Proof using Hwf Hls.
  induction Hls as [|e o t' ls' Ho Hls' IH]; [by right|].
  apply Forall_cons_iff in Hwf as [He Ht]. specialize (IH Ht Hls').
  pose proof (entry_cases _ _ He Ho) as Hc. simpl. destruct o as [l|].
  - destruct Hc as (-> & _). simpl.
    destruct IH as [(i & e' & Hi & Hn & -> & Ha)|[-> Ha]]; simpl.
    + left. exists (S i), e'. split; [done|]. split; [done|]. split; [done|].
      intros l'. simpl. by rewrite Ha.
    + right. split; [done|]. intros l'. by rewrite Ha.
  - rewrite Hc. simpl. left. exists 0%nat, e.
    destruct He as [Hl _]. unfold entry_size in Hl.
    rewrite put32_ok by (unfold o_used; lia). simpl. eauto.
Qed.
End refine.

Lemma on_entry_eq t i e f :
  t !! i = Some e -> on_entry t i f = (e' ← f e; Ok (<[i := e']> t)).
Proof. intros H. unfold on_entry. by rewrite H. Qed.

Lemma put32_step e off z :
  (off + 4 <= length e)%nat ->
  exists e', put32 e off z = Ok e' /\ length e' = length e /\ get32 e' off = Ok (s32 z) /\
    forall o, (o + 4 <= off \/ off + 4 <= o)%nat -> get32 e' o = get32 e o.
Proof.
  intros H. eexists. split; [by apply put32_ok|]. split; [by apply length_splice|].
  split; [by apply get32_splice_eq|]. intros o Ho. apply get32_splice_ne; simpl; lia.
Qed.

Lemma strcpy_step e off src t :
  is_cstr src t -> (off + length t + 1 <= length e)%nat ->
  exists e', strcpy e off src = Ok e' /\ length e' = length e /\
    forall o, (o + 4 <= off \/ off + length t + 1 <= o)%nat -> get32 e' o = get32 e o.
Proof.
  intros Hs H. eexists. split; [by apply (strcpy_ok _ _ _ t)|].
  split; [apply length_splice; rewrite length_app; simpl; lia|].
  intros o Ho. apply get32_splice_ne; rewrite length_app; simpl; lia.
Qed.

(** Filling the entry found by [free_slot]: a name of 16 to 19 characters runs
    over [local_ino], which is assigned afterwards. *)
Lemma entry_fill e name n local rdma local_parent rdma_parent ip a :
  length e = entry_size -> is_cstr name n -> (length n <= 19)%nat ->
  is_cstr ip a -> (length a <= 15)%nat ->
  exists e1 e2 e3 e4 e5 e6,
    strcpy (splice e o_used (le32 (u32 1))) o_name name = Ok e1 /\
    put32 e1 o_local_ino local = Ok e2 /\ put32 e2 o_rdma_ino rdma = Ok e3 /\
    put32 e3 o_local_parent_ino local_parent = Ok e4 /\
    put32 e4 o_rdma_parent_ino rdma_parent = Ok e5 /\ strcpy e5 o_ip ip = Ok e6 /\
    entry_wf e6 /\
    entry_link e6
    = Ok (Some (mkLink (s32 local) (s32 rdma) (s32 local_parent) (s32 rdma_parent))).
Proof.
  unfold entry_size, entry_wf, entry_link, o_name, o_local_ino, o_rdma_ino, o_local_parent_ino,
    o_rdma_parent_ino, o_ip, o_used.
  intros Hl Hn Hln Ha Hla.
  assert (Hu : get32 (splice e 48 (le32 (u32 1))) 48 = Ok 1) by (apply get32_splice_eq; lia).
  assert (Hl0 : length (splice e 48 (le32 (u32 1))) = 52%nat)
    by (rewrite length_splice by (simpl; lia); done).
  revert Hu Hl0. generalize (splice e 48 (le32 (u32 1))). intros e0 Hu Hl0.
  destruct (strcpy_step e0 0 name n Hn) as (e1 & E1 & L1 & G1); [lia|].
  destruct (put32_step e1 16 local) as (e2 & E2 & L2 & W2 & G2); [lia|].
  destruct (put32_step e2 20 rdma) as (e3 & E3 & L3 & W3 & G3); [lia|].
  destruct (put32_step e3 24 local_parent) as (e4 & E4 & L4 & W4 & G4); [lia|].
  destruct (put32_step e4 28 rdma_parent) as (e5 & E5 & L5 & W5 & G5); [lia|].
  destruct (strcpy_step e5 32 ip a Ha) as (e6 & E6 & L6 & G6); [lia|].
  assert (Hused : get32 e6 48 = Ok 1) by (rewrite G6, G5, G4, G3, G2, G1 by lia; done).
  exists e1, e2, e3, e4, e5, e6. split_and!; try done; [rewrite L6, L5, L4, L3, L2, L1; done|by right|].
  rewrite Hused. simpl.
  rewrite (G6 16%nat), (G5 16%nat), (G4 16%nat), (G3 16%nat), W2 by lia. simpl.
  rewrite (G6 20%nat), (G5 20%nat), (G4 20%nat), W3 by lia. simpl.
  rewrite (G6 24%nat), (G5 24%nat), W4 by lia. simpl.
  by rewrite (G6 28%nat), W5 by lia.
Qed.

Lemma table_record_spec t ls name n local rdma local_parent rdma_parent ip a :
  Forall entry_wf t -> Forall2 (fun e o => entry_link e = Ok o) t ls ->
  is_cstr name n -> (length n <= 19)%nat -> is_cstr ip a -> (length a <= 15)%nat ->
  match spec_add ls (mkLink (s32 local) (s32 rdma) (s32 local_parent) (s32 rdma_parent)) with
  | Some ls' => exists t', table_record t name local rdma local_parent rdma_parent ip = Ok t' /\
      Forall entry_wf t' /\ length t' = length t /\
      Forall2 (fun e o => entry_link e = Ok o) t' ls'
  | None => table_record t name local rdma local_parent rdma_parent ip = Fault OutOfBounds
  end.
Proof.
  intros Hwf Hls Hn Hln Ha Hla. unfold table_record.
  destruct (free_slot_spec t ls Hwf Hls) as [(i & e & Hi & Hlsi & -> & Hadd)|[-> Hadd]];
    rewrite Hadd; cbn [mbind res_bind].
  - assert (He : entry_wf e) by (rewrite Forall_lookup in Hwf; eauto).
    assert (Hlt : (i < length t)%nat) by (by eapply lookup_lt_Some).
    destruct (entry_fill e name n local rdma local_parent rdma_parent ip a)
      as (e1 & e2 & e3 & e4 & e5 & e6 & E1 & E2 & E3 & E4 & E5 & E6 & Hwf6 & Hlk6);
      [by destruct He|done..|].
    do 6 (erewrite on_entry_eq by (apply list_lookup_insert_eq; rewrite ?length_insert; done);
      rewrite ?E1, ?E2, ?E3, ?E4, ?E5, ?E6; cbn [mbind res_bind]; rewrite ?list_insert_insert_eq).
    eexists; split; [done|]. split; [|split].
    + by apply Forall_insert.
    + by rewrite length_insert.
    + by apply Forall2_insert.
  - unfold on_entry. by rewrite lookup_ge_None_2 by lia.
Qed.

(** ** The table as a whole *)

Lemma spec_add_mine ls l ls' ino :
  spec_add ls l = Some ls' -> spec_mine ls' ino = spec_mine ls ino && negb (u32 (l_local l) =? ino).
Proof.
  unfold spec_mine. revert ls'. induction ls as [|[o|] ls IH]; intros ls'; simpl; [done| |].
  - intros (ls1 & E & ->)%fmap_Some. simpl. specialize (IH _ E).
    destruct (u32 (l_local o) =? ino); simpl; [done|]. exact IH.
  - intros [= <-]. simpl. by destruct (u32 (l_local l) =? ino), (existsb _ ls).
Qed.

Lemma spec_add_remote ls l ls' :
  spec_add ls l = Some ls' ->
  Forall (fun o => match o with
    | Some k => l_local k <> l_local l \/ l_local_parent k <> l_local_parent l
    | None => True end) ls ->
  spec_remote ls' (l_local l) (l_local_parent l) = (l_rdma l, l_rdma_parent l).
Proof.
  revert ls'. induction ls as [|[o|] ls IH]; intros ls'; simpl; [done| |].
  - intros (ls1 & E & ->)%fmap_Some [Ho H]%Forall_cons_iff. simpl.
    destruct (Z.eqb_spec (l_local o) (l_local l)), (Z.eqb_spec (l_local_parent o) (l_local_parent l));
      simpl; auto. naive_solver.
  - intros [= <-] _. simpl. by rewrite !Z.eqb_refl.
Qed.

Lemma spec_add_take ls l ls' :
  spec_add ls l = Some ls' ->
  Forall (fun o => match o with
    | Some k => l_rdma k <> l_rdma l \/ l_rdma_parent k <> l_rdma_parent l
    | None => True end) ls ->
  spec_take ls' (l_rdma l) (l_rdma_parent l) = (ls, (l_local l, l_local_parent l)).
Proof.
  revert ls'. induction ls as [|[o|] ls IH]; intros ls'; simpl; [done| |].
  - intros (ls1 & E & ->)%fmap_Some [Ho H]%Forall_cons_iff. simpl. rewrite (IH _ E H).
    destruct (Z.eqb_spec (l_rdma o) (l_rdma l)), (Z.eqb_spec (l_rdma_parent o) (l_rdma_parent l));
      simpl; auto. naive_solver.
  - intros [= <-] _. simpl. by rewrite !Z.eqb_refl.
Qed.

(** No link of the table has these remote numbers, or these local ones. *)
Definition fresh_link (ls : list (option link)) (l : link) : Prop :=
  Forall (fun o => match o with
    | Some k => (l_rdma k <> l_rdma l \/ l_rdma_parent k <> l_rdma_parent l) /\
                (l_local k <> l_local l \/ l_local_parent k <> l_local_parent l)
    | None => True end) ls.

(** C27: Recording a link and removing it again: the file is remote in between, its
    numbers translate both ways, and the links are those of before. *)
Theorem table_link_roundtrip t ls name n local rdma local_parent rdma_parent ip a ls' :
  table_wf t -> links t = Ok ls -> is_cstr name n -> (length n <= 19)%nat ->
  is_cstr ip a -> (length a <= 15)%nat ->
  let l := mkLink (s32 local) (s32 rdma) (s32 local_parent) (s32 rdma_parent) in
  spec_add ls l = Some ls' -> fresh_link ls l ->
  exists t1 t2,
    table_record t name local rdma local_parent rdma_parent ip = Ok t1 /\ table_wf t1 /\
    is_my_file t1 (u32 (s32 local)) = Ok false /\
    table_remote t1 (s32 local) (s32 local_parent) = Ok (s32 rdma, s32 rdma_parent) /\
    table_take t1 (s32 rdma) (s32 rdma_parent) = Ok (t2, (s32 local, s32 local_parent)) /\
    table_wf t2 /\ links t2 = Ok ls.
Proof.
  intros [Hlen Hwf] Hls%links_Forall2 Hn Hln Ha Hla l Hadd Hfresh.
  pose proof (table_record_spec t ls name n local rdma local_parent rdma_parent ip a
    Hwf Hls Hn Hln Ha Hla) as H.
  fold l in H. rewrite Hadd in H. destruct H as (t1 & -> & Hwf1 & Hl1 & Hls1).
  assert (Hr : Forall (fun o => match o with
    | Some k => l_rdma k <> l_rdma l \/ l_rdma_parent k <> l_rdma_parent l
    | None => True end) ls).
  { eapply List.Forall_impl; [|exact Hfresh]. by intros [k|]; [intros [? _]|]. }
  assert (Hlo : Forall (fun o => match o with
    | Some k => l_local k <> l_local l \/ l_local_parent k <> l_local_parent l
    | None => True end) ls).
  { eapply List.Forall_impl; [|exact Hfresh]. by intros [k|]; [intros [_ ?]|]. }
  destruct (table_take_spec t1 ls' Hwf1 Hls1 (s32 rdma) (s32 rdma_parent))
    as (t2 & Htake & Hwf2 & Hl2 & Hls2).
  pose proof (spec_add_take _ _ _ Hadd Hr) as Htk. simpl in Htk. rewrite Htk in Htake, Hls2.
  exists t1, t2. split; [done|]. split; [split; [lia|done]|]. split.
  { rewrite (is_my_file_spec _ _ Hwf1 Hls1), (spec_add_mine _ _ _ _ Hadd). simpl.
    by rewrite Z.eqb_refl, andb_false_r. }
  split. { rewrite (table_remote_spec _ _ Hwf1 Hls1). f_equal. by apply (spec_add_remote _ _ _ Hadd). }
  split; [done|]. split; [split; [lia|done]|]. by apply links_Forall2.
Qed.

(** C37: A full table: the search ends at index 1024, one past the table, and the
    assignment to that entry leaves it. *)
Theorem table_full_overflow t ls name n local rdma local_parent rdma_parent ip a :
  table_wf t -> links t = Ok ls -> is_cstr name n -> (length n <= 19)%nat ->
  is_cstr ip a -> (length a <= 15)%nat -> Forall (fun o => o <> None) ls ->
  table_record t name local rdma local_parent rdma_parent ip = Fault OutOfBounds.
Proof.
  intros [Hlen Hwf] Hls%links_Forall2 Hn Hln Ha Hla Hfull.
  pose proof (table_record_spec t ls name n local rdma local_parent rdma_parent ip a
    Hwf Hls Hn Hln Ha Hla) as H.
  assert (forall l, spec_add ls l = None) as E; [|by rewrite E in H].
  clear -Hfull. intros l. induction Hfull as [|[o|] ls Ho H IH]; simpl; [done|by rewrite IH|done].
Qed.

(** is_my_file says that a file belongs to this node exactly when no used entry
    of the table has its number. *)
Theorem is_my_file_correct t ls ino :
  table_wf t -> links t = Ok ls ->
  exists mine, is_my_file t ino = Ok mine /\
    (mine = true <-> forall l, Some l ∈ ls -> u32 (l_local l) <> ino).
Proof.
  intros [_ Hwf] Hls. exists (spec_mine ls ino).
  split; [apply (is_my_file_spec _ _ Hwf (proj1 (links_Forall2 _ _) Hls))|].
  unfold spec_mine. rewrite negb_true_iff, <- not_true_iff_false, existsb_exists. split.
  - intros H l Hl El. apply H. exists (Some l). split; [by apply list_elem_of_In|]. by apply Z.eqb_eq.
  - intros H ([l|] & Hl & El); [|done]. apply (H l); [by apply list_elem_of_In|]. by apply Z.eqb_eq.
Qed.
