(* ===== verification/Vfs.v ===== *)
(** * Kernel objects: inodes, dentries and the functions wjfs calls on them

    Memory is a pair of finite maps from pointers to objects.  A pointer is a
    number that is never reused, so an access to a freed object is a fault.
    [dcache_lock], [d_lock] and [i_mutex] serialise the functions below in the
    kernel; the model runs each of them as one step.  Audit, fsnotify, LSM and
    quota hooks do not change the modelled state and are left out.

    The dentry hash table is the list [d_hash] of hashed dentries, most recent
    first: [hlist_add_head_rcu] adds at the head of a bucket and all dentries
    of one parent and name share a bucket, so the first match in [d_hash] is
    the first match in the bucket.  [d_alias] is not empty exactly when
    [d_inode] is not [NULL]. *)

From S2P Require Import Prelude KString MapTable.

(** ** Mode bits (include/linux/stat.h) *)

Definition S_IFMT := 61440.    (* 0170000 *)
Definition S_IFSOCK := 49152.  (* 0140000 *)
Definition S_IFLNK := 40960.   (* 0120000 *)
Definition S_IFREG := 32768.   (* 0100000 *)
Definition S_IFBLK := 24576.   (* 0060000 *)
Definition S_IFDIR := 16384.   (* 0040000 *)
Definition S_IFCHR := 8192.    (* 0020000 *)
Definition S_IFIFO := 4096.    (* 0010000 *)
Definition S_ISUID := 2048.    (* 0004000 *)
Definition S_IXGRP := 8.       (* 00010 *)
Definition S_ISGID := 1024.    (* 0002000 *)
Definition S_ISVTX := 512.     (* 0001000 *)
Definition S_IALLUGO := 4095.  (* 07777 *)
Definition S_IRWXUGO := 511.   (* 0777 *)
Definition S_IRUGO := 292.     (* 0444 *)
Definition S_IXUGO := 73.      (* 0111 *)
Definition S_IRWXU := 448.     (* 0700 *)

Definition ifmt (mode type : Z) : bool := Z.land mode S_IFMT =? type.
Definition S_ISDIR (mode : Z) : bool := ifmt mode S_IFDIR.

(** ** Objects *)

Inductive iops := empty_iops | wjfs_file_iops | wjfs_dir_iops | page_symlink_iops.
Inductive fops := empty_fops | wjfs_file_fops | simple_dir_fops
  | def_chr_fops | def_blk_fops | def_fifo_fops | bad_sock_fops.

#[global] Instance iops_eq_dec : EqDecision iops.
Proof. solve_decision. Defined.
#[global] Instance fops_eq_dec : EqDecision fops.
Proof. solve_decision. Defined.

Record inode : Type := mkInode {
  i_ino : Z;
  i_mode : Z;
  i_uid : Z;
  i_gid : Z;
  i_nlink : Z;
  i_count : Z;
  i_dead : bool;                (* i_flags & S_DEAD *)
  i_rdev : Z;
  i_op : iops;
  i_fop : fops;
  i_atime : Z; i_mtime : Z; i_ctime : Z;
  i_size : Z;
  i_pages : gmap nat block;     (* the page cache of i_data *)
}.

Record dentry : Type := mkDentry {
  d_count : Z;
  d_hashed : bool;              (* not DCACHE_UNHASHED *)
  d_inode : option nat;
  d_parent : nat;
  d_name : list Z;              (* d_name.name without its NUL *)
  d_subdirs : list nat;
  d_op : bool;                  (* simple_dentry_operations or NULL *)
  d_lru : bool;
}.

(** The credentials of the running task. *)
Record cred : Type := mkCred {
  fsuid : Z;
  fsgid : Z;
  groups : list Z;
  cap_dac_override : bool;
  cap_dac_read_search : bool;
  cap_fowner : bool;
  cap_mknod : bool;
  cap_fsetid : bool;
}.

(** The static variables of the module. *)
Record globals : Type := mkGlobals {
  g_rroot_dentry : option nat;
  g_a_dentry : option nat;
  g_table : table;              (* reg_ino_mapp_table *)
  g_read_k : Z;                 (* static int k of wjfs_read *)
}.

(** What the network did and will do: the answers of [ksocket] and [kconnect]
    (an exhausted list answers yes), what was sent, newest first, as address,
    port in network order and bytes, and what each [krecv] will deliver. *)
Record net : Type := mkNet {
  n_socket : list bool;
  n_connect : list bool;
  n_sent : list (Z * Z * list Z);
  n_reply : list (list Z);
}.

Record kstate : Type := mkK {
  inodes : gmap nat inode;
  dentries : gmap nat dentry;
  fresh : nat;
  d_hash : list nat;
  last_ino : Z;                 (* static unsigned int of new_inode *)
  mem : list bool;              (* answers of the allocator; then yes *)
  now : Z;                      (* CURRENT_TIME *)
  cur : cred;
  glob : globals;
  network : net;
}.

(** ** Updates *)

Definition set_attr (mode uid gid : Z) (i : inode) : inode :=
  mkInode (i_ino i) mode uid gid (i_nlink i) (i_count i) (i_dead i) (i_rdev i) (i_op i)
    (i_fop i) (i_atime i) (i_mtime i) (i_ctime i) (i_size i) (i_pages i).
Definition set_links (nlink count : Z) (i : inode) : inode :=
  mkInode (i_ino i) (i_mode i) (i_uid i) (i_gid i) nlink count (i_dead i) (i_rdev i) (i_op i)
    (i_fop i) (i_atime i) (i_mtime i) (i_ctime i) (i_size i) (i_pages i).
Definition set_dead (b : bool) (i : inode) : inode :=
  mkInode (i_ino i) (i_mode i) (i_uid i) (i_gid i) (i_nlink i) (i_count i) b (i_rdev i)
    (i_op i) (i_fop i) (i_atime i) (i_mtime i) (i_ctime i) (i_size i) (i_pages i).
Definition set_ops (rdev : Z) (op : iops) (fop : fops) (i : inode) : inode :=
  mkInode (i_ino i) (i_mode i) (i_uid i) (i_gid i) (i_nlink i) (i_count i) (i_dead i) rdev op
    fop (i_atime i) (i_mtime i) (i_ctime i) (i_size i) (i_pages i).
Definition set_times (a m c : Z) (i : inode) : inode :=
  mkInode (i_ino i) (i_mode i) (i_uid i) (i_gid i) (i_nlink i) (i_count i) (i_dead i)
    (i_rdev i) (i_op i) (i_fop i) a m c (i_size i) (i_pages i).
Definition set_data (size : Z) (pages : gmap nat block) (i : inode) : inode :=
  mkInode (i_ino i) (i_mode i) (i_uid i) (i_gid i) (i_nlink i) (i_count i) (i_dead i)
    (i_rdev i) (i_op i) (i_fop i) (i_atime i) (i_mtime i) (i_ctime i) size pages.

Definition set_mtime_ctime (t : Z) (i : inode) : inode := set_times (i_atime i) t t i.
Definition set_ctime (t : Z) (i : inode) : inode := set_times (i_atime i) (i_mtime i) t i.

Definition set_d_count (c : Z) (d : dentry) : dentry :=
  mkDentry c (d_hashed d) (d_inode d) (d_parent d) (d_name d) (d_subdirs d) (d_op d) (d_lru d).
Definition set_d_hashed (b : bool) (d : dentry) : dentry :=
  mkDentry (d_count d) b (d_inode d) (d_parent d) (d_name d) (d_subdirs d) (d_op d) (d_lru d).
Definition set_d_inode (i : option nat) (d : dentry) : dentry :=
  mkDentry (d_count d) (d_hashed d) i (d_parent d) (d_name d) (d_subdirs d) (d_op d) (d_lru d).
Definition set_d_parent (p : nat) (d : dentry) : dentry :=
  mkDentry (d_count d) (d_hashed d) (d_inode d) p (d_name d) (d_subdirs d) (d_op d) (d_lru d).
Definition set_d_subdirs (l : list nat) (d : dentry) : dentry :=
  mkDentry (d_count d) (d_hashed d) (d_inode d) (d_parent d) (d_name d) l (d_op d) (d_lru d).
Definition set_d_op (b : bool) (d : dentry) : dentry :=
  mkDentry (d_count d) (d_hashed d) (d_inode d) (d_parent d) (d_name d) (d_subdirs d) b (d_lru d).
Definition set_d_lru (b : bool) (d : dentry) : dentry :=
  mkDentry (d_count d) (d_hashed d) (d_inode d) (d_parent d) (d_name d) (d_subdirs d) (d_op d) b.

Definition with_inodes (m : gmap nat inode) (s : kstate) : kstate :=
  mkK m (dentries s) (fresh s) (d_hash s) (last_ino s) (mem s) (now s) (cur s) (glob s) (network s).
Definition with_dentries (m : gmap nat dentry) (s : kstate) : kstate :=
  mkK (inodes s) m (fresh s) (d_hash s) (last_ino s) (mem s) (now s) (cur s) (glob s) (network s).
Definition with_hash (h : list nat) (s : kstate) : kstate :=
  mkK (inodes s) (dentries s) (fresh s) h (last_ino s) (mem s) (now s) (cur s) (glob s) (network s).
Definition with_glob (g : globals) (s : kstate) : kstate :=
  mkK (inodes s) (dentries s) (fresh s) (d_hash s) (last_ino s) (mem s) (now s) (cur s) g (network s).
Definition with_net (n : net) (s : kstate) : kstate :=
  mkK (inodes s) (dentries s) (fresh s) (d_hash s) (last_ino s) (mem s) (now s) (cur s) (glob s) n.

(** ** The monad: state and faults *)

Definition M (A : Type) : Type := kstate -> res (A * kstate).

#[global] Instance M_ret : MRet M := fun A a s => Ok (a, s).
#[global] Instance M_bind : MBind M := fun A B f m s =>
  match m s with Ok (a, s) => f a s | Fault e => Fault e end.

Definition fail {A} (f : fault) : M A := fun _ => Fault f.
Definition gets {A} (f : kstate -> A) : M A := fun s => Ok (f s, s).
Definition modify (f : kstate -> kstate) : M unit := fun s => Ok (tt, f s).
Definition lift {A} (r : res A) : M A := fun s =>
  match r with Ok a => Ok (a, s) | Fault e => Fault e end.

Definition get_inode (r : nat) : M inode := fun s =>
  match inodes s !! r with Some i => Ok (i, s) | None => Fault BadPointer end.
Definition get_dentry (r : nat) : M dentry := fun s =>
  match dentries s !! r with Some d => Ok (d, s) | None => Fault BadPointer end.
Definition upd_inode (r : nat) (f : inode -> inode) : M unit := fun s =>
  match inodes s !! r with
  | Some i => Ok (tt, with_inodes (<[r := f i]> (inodes s)) s)
  | None => Fault BadPointer
  end.
Definition upd_dentry (r : nat) (f : dentry -> dentry) : M unit := fun s =>
  match dentries s !! r with
  | Some d => Ok (tt, with_dentries (<[r := f d]> (dentries s)) s)
  | None => Fault BadPointer
  end.

(** A possibly null inode pointer, dereferenced. *)
Definition deref (p : option nat) : M nat :=
  match p with Some r => mret r | None => fail NullDeref end.

(** One answer of the allocator. *)
Definition alloc : M bool := fun s =>
  match mem s with
  | [] => Ok (true, s)
  | b :: m => Ok (b, mkK (inodes s) (dentries s) (fresh s) (d_hash s) (last_ino s) m (now s)
                       (cur s) (glob s) (network s))
  end.

(** A dentry pointer as functions return it: [NULL], an object, [ERR_PTR]. *)
Inductive dptr : Type := DNull | DPtr (d : nat) | DErr (e : Z).

(** ** fs/inode.c and include/linux/fs.h *)

(** inode_init_always: every member wjfs_get_inode does not set itself. *)
Definition inode_init_always : inode :=
  mkInode 0 0 0 0 1 1 false 0 empty_iops empty_fops 0 0 0 0 ∅.

(** new_inode: the number comes from a counter shared by all file systems. *)
Definition new_inode : M (option nat) := fun s =>
  match alloc s with
  | Ok (false, s) => Ok (None, s)
  | Ok (true, s) =>
      let ino := u32 (last_ino s + 1) in
      let i := inode_init_always in
      let i := mkInode ino (i_mode i) (i_uid i) (i_gid i) (i_nlink i) (i_count i) (i_dead i)
                 (i_rdev i) (i_op i) (i_fop i) (i_atime i) (i_mtime i) (i_ctime i) (i_size i)
                 (i_pages i) in
      Ok (Some (fresh s),
          mkK (<[fresh s := i]> (inodes s)) (dentries s) (S (fresh s)) (d_hash s) ino (mem s)
            (now s) (cur s) (glob s) (network s))
  | Fault e => Fault e
  end.

Definition inc_nlink (r : nat) : M unit :=
  upd_inode r (fun i => set_links (u32 (i_nlink i + 1)) (i_count i) i).
Definition drop_nlink (r : nat) : M unit :=
  upd_inode r (fun i => set_links (u32 (i_nlink i - 1)) (i_count i) i).

(** iput with [drop_inode = generic_delete_inode]: the last reference frees the
    inode and its pages. *)
Definition iput (r : nat) : M unit :=
  i ← get_inode r;
  let c := i_count i - 1 in
  if c =? 0 then modify (fun s => with_inodes (delete r (inodes s)) s)
  else upd_inode r (fun i => set_links (i_nlink i) c i).

(** init_special_inode *)
Definition init_special_inode (r : nat) (mode rdev : Z) : M unit :=
  upd_inode r (fun i =>
    let i := set_attr mode (i_uid i) (i_gid i) i in
    if ifmt mode S_IFCHR then set_ops rdev (i_op i) def_chr_fops i
    else if ifmt mode S_IFBLK then set_ops rdev (i_op i) def_blk_fops i
    else if ifmt mode S_IFIFO then set_ops (i_rdev i) (i_op i) def_fifo_fops i
    else if ifmt mode S_IFSOCK then set_ops (i_rdev i) (i_op i) bad_sock_fops i
    else i).

(** ** fs/dcache.c and include/linux/dcache.h *)

Definition atomic_inc_d (r : nat) : M unit := upd_dentry r (fun d => set_d_count (d_count d + 1) d).
Definition atomic_dec_d (r : nat) : M unit := upd_dentry r (fun d => set_d_count (d_count d - 1) d).

(** dget: [BUG_ON(!atomic_read(&dentry->d_count))]. *)
Definition dget (r : nat) : M unit :=
  d ← get_dentry r;
  if d_count d =? 0 then fail BugOn else atomic_inc_d r.

Definition DNAME_INLINE_LEN := 40.

(** d_alloc: one allocation, two for a long name; the child goes to the front
    of the parent's list and holds a reference to the parent. *)
Definition d_alloc (parent : option nat) (name : list Z) : M (option nat) :=
  a ← alloc;
  if negb a then mret None else
  b ← (if DNAME_INLINE_LEN - 1 <? Z.of_nat (length name) then alloc else mret true);
  if negb b then mret None else
  r ← gets fresh;
  match parent with
  | Some p =>
      dget p;;
      modify (fun s => mkK (inodes s)
        (<[r := mkDentry 1 false None p name [] false false]> (dentries s)) (S r) (d_hash s)
        (last_ino s) (mem s) (now s) (cur s) (glob s) (network s));;
      upd_dentry p (fun d => set_d_subdirs (r :: d_subdirs d) d);;
      mret (Some r)
  | None =>
      modify (fun s => mkK (inodes s)
        (<[r := mkDentry 1 false None r name [] false false]> (dentries s)) (S r) (d_hash s)
        (last_ino s) (mem s) (now s) (cur s) (glob s) (network s));;
      mret (Some r)
  end.

(** d_instantiate: [BUG_ON(!list_empty(&entry->d_alias))]. *)
Definition d_instantiate (entry : nat) (i : option nat) : M unit :=
  d ← get_dentry entry;
  match d_inode d with
  | Some _ => fail BugOn
  | None => upd_dentry entry (set_d_inode i)
  end.

(** d_alloc_root: the name is / and the parent is the dentry itself. *)
Definition d_alloc_root (root_inode : option nat) : M (option nat) :=
  match root_inode with
  | None => mret None
  | Some i =>
      res ← d_alloc None [47];
      match res with
      | None => mret None
      | Some r => upd_dentry r (set_d_parent r);; d_instantiate r (Some i);; mret (Some r)
      end
  end.

Definition d_rehash (entry : nat) : M unit :=
  upd_dentry entry (set_d_hashed true);; modify (fun s => with_hash (entry :: d_hash s) s).

Definition d_add (entry : nat) (i : option nat) : M unit :=
  d_instantiate entry i;; d_rehash entry.

Definition d_drop (r : nat) : M unit :=
  d ← get_dentry r;
  if d_hashed d then
    upd_dentry r (set_d_hashed false);;
    modify (fun s => with_hash (List.filter (fun x => negb (x =? r)%nat) (d_hash s)) s)
  else mret tt.

Definition dentry_iput (r : nat) : M unit :=
  d ← get_dentry r;
  match d_inode d with
  | Some i => upd_dentry r (set_d_inode None);; iput i
  | None => mret tt
  end.

(** d_kill: the result is the parent, [None] for a root. *)
Definition d_kill (r : nat) : M (option nat) :=
  d ← get_dentry r;
  (if (d_parent d =? r)%nat then mret tt
   else upd_dentry (d_parent d) (fun p =>
          set_d_subdirs (List.filter (fun x => negb (x =? r)%nat) (d_subdirs p)) p));;
  dentry_iput r;;
  modify (fun s => with_dentries (delete r (dentries s)) s);;
  mret (if (d_parent d =? r)%nat then None else Some (d_parent d)).

(** dput: each turn of the loop frees one dentry and moves to its parent, so
    the number of dentries bounds the turns.  [d_delete] of
    simple_dentry_operations is simple_delete_dentry, which returns 1. *)
Fixpoint dput_loop (fuel : nat) (r : nat) : M unit :=
  match fuel with
  | O => fail OutOfFuel
  | S fuel =>
      atomic_dec_d r;;
      d ← get_dentry r;
      if negb (d_count d =? 0) then mret tt
      else if d_op d then
        d_drop r;;
        p ← d_kill r;
        match p with Some p => dput_loop fuel p | None => mret tt end
      else if negb (d_hashed d) then
        p ← d_kill r;
        match p with Some p => dput_loop fuel p | None => mret tt end
      else upd_dentry r (set_d_lru true)
  end.

Definition dput (r : nat) : M unit := fun s => dput_loop (S (size (dentries s))) r s.

(** __d_lookup: the first hashed dentry with this parent and name. *)
Fixpoint d_lookup_in (h : list nat) (m : gmap nat dentry) (parent : nat) (name : list Z)
  : option nat :=
  match h with
  | [] => None
  | r :: h =>
      match m !! r with
      | Some d => if (d_parent d =? parent)%nat && d_hashed d && bool_decide (d_name d = name)
                  then Some r else d_lookup_in h m parent name
      | None => d_lookup_in h m parent name
      end
  end.

Definition d_lookup (parent : nat) (name : list Z) : M (option nat) :=
  r ← gets (fun s => d_lookup_in (d_hash s) (dentries s) parent name);
  match r with Some r => atomic_inc_d r;; mret (Some r) | None => mret None end.

(** d_delete *)
Definition d_delete (r : nat) : M unit :=
  d ← get_dentry r;
  ir ← deref (d_inode d);
  _ ← get_inode ir;
  if d_count d =? 1 then dentry_iput r else d_drop r.

(** ** fs/namei.c: permissions *)

Definition MAY_EXEC := 1.
Definition MAY_WRITE := 2.
Definition MAY_READ := 4.

(** wjfs mounts have no ACLs, so [check_acl] is [NULL]. *)
Definition acl_permission_check (c : cred) (i : inode) (mask : Z) : Z :=
  let mask := Z.land mask (Z.lor MAY_READ (Z.lor MAY_WRITE MAY_EXEC)) in
  let mode :=
    if fsuid c =? i_uid i then Z.shiftr (i_mode i) 6
    else if (i_gid i =? fsgid c) || existsb (Z.eqb (i_gid i)) (groups c)
         then Z.shiftr (i_mode i) 3 else i_mode i in
  if Z.land mask (Z.lnot mode) =? 0 then 0 else - EACCES.

Definition execute_ok (i : inode) : bool :=
  negb (Z.land (i_mode i) S_IXUGO =? 0) || S_ISDIR (i_mode i).

Definition generic_permission (c : cred) (i : inode) (mask : Z) : Z :=
  let ret := acl_permission_check c i mask in
  if negb (ret =? - EACCES) then ret
  else if ((Z.land mask MAY_EXEC =? 0) || execute_ok i) && cap_dac_override c then 0
  else
    let mask := Z.land mask (Z.lor MAY_READ (Z.lor MAY_WRITE MAY_EXEC)) in
    if ((mask =? MAY_READ) || (S_ISDIR (i_mode i) && (Z.land mask MAY_WRITE =? 0)))
       && cap_dac_read_search c then 0
    else - EACCES.

(** The mount is writable and no inode of wjfs is immutable or has its own
    permission method. *)
Definition inode_permission (r : nat) (mask : Z) : M Z :=
  i ← get_inode r; c ← gets cur; mret (generic_permission c i mask).

(** ** fs/namei.c: lookup *)

(** The methods the VFS calls through [i_op]; [None] is a null method. *)
Class InodeOps := {
  op_lookup : iops -> option (nat -> nat -> M dptr);
  op_create : iops -> option (nat -> nat -> Z -> M Z);
  op_mkdir : iops -> option (nat -> nat -> Z -> M Z);
  op_unlink : iops -> option (nat -> nat -> M Z);
  op_rmdir : iops -> option (nat -> nat -> M Z);
  op_mknod : iops -> option (nat -> nat -> Z -> Z -> M Z);
  op_rename : iops -> option (nat -> nat -> nat -> nat -> M Z);
}.

Section namei.
Context `{InodeOps}.

Definition lookup_hash_ (name : list Z) (base : nat) : M dptr :=
  b ← get_dentry base;
  dentry ← d_lookup base name;
  match dentry with
  | Some r => mret (DPtr r)
  | None =>
      ir ← deref (d_inode b);
      i ← get_inode ir;
      if i_dead i then mret (DErr (- ENOENT)) else
      new ← d_alloc (Some base) name;
      match new with
      | None => mret (DErr (- ENOMEM))
      | Some new =>
          match op_lookup (i_op i) with
          | None => fail NullDeref
          | Some lookup =>
              dentry ← lookup ir new;
              match dentry with
              | DNull => mret (DPtr new)
              | d => dput new;; mret d
              end
          end
      end
  end.

(** __lookup_one_len on the [len] bytes of [name]; the hash value is the
    bucket, which the model does not need. *)
Definition lookup_one_len_check (name : list Z) : Z :=
  if (length name =? 0)%nat then - EACCES
  else if existsb (fun c => (c =? 47) || (c =? 0)) name then - EACCES
  else 0.

Definition lookup_one_len (name : list Z) (base : nat) : M dptr :=
  let err := lookup_one_len_check name in
  if negb (err =? 0) then mret (DErr err) else
  b ← get_dentry base;
  ir ← deref (d_inode b);
  err ← inode_permission ir MAY_EXEC;
  if negb (err =? 0) then mret (DErr err) else
  lookup_hash_ name base.

(** may_create, vfs_create, vfs_mkdir *)
Definition may_create (dir child : nat) : M Z :=
  c ← get_dentry child;
  match d_inode c with
  | Some _ => mret (- EEXIST)
  | None =>
      i ← get_inode dir;
      if i_dead i then mret (- ENOENT)
      else inode_permission dir (Z.lor MAY_WRITE MAY_EXEC)
  end.

Definition vfs_create (dir dentry : nat) (mode : Z) : M Z :=
  error ← may_create dir dentry;
  if negb (error =? 0) then mret error else
  i ← get_inode dir;
  match op_create (i_op i) with
  | None => mret (- EACCES)
  | Some create => create dir dentry (Z.lor (Z.land mode S_IALLUGO) S_IFREG)
  end.

Definition vfs_mkdir (dir dentry : nat) (mode : Z) : M Z :=
  error ← may_create dir dentry;
  if negb (error =? 0) then mret error else
  i ← get_inode dir;
  match op_mkdir (i_op i) with
  | None => mret (- EPERM)
  | Some mkdir => mkdir dir dentry (Z.land mode (Z.lor S_IRWXUGO S_ISVTX))
  end.
End namei.

(** ** fs/libfs.c *)

Definition simple_positive (d : dentry) : bool :=
  match d_inode d with Some _ => d_hashed d | None => false end.

Fixpoint no_positive (l : list nat) : M bool :=
  match l with
  | [] => mret true
  | r :: l => d ← get_dentry r; if simple_positive d then mret false else no_positive l
  end.

Definition simple_empty (r : nat) : M bool :=
  d ← get_dentry r; no_positive (d_subdirs d).

(** simple_unlink: three times are set, the link count drops, the dentry loses
    the reference that pinned it. *)
Definition simple_unlink (dir dentry : nat) : M unit :=
  d ← get_dentry dentry;
  ir ← deref (d_inode d);
  t ← gets now;
  upd_inode dir (set_mtime_ctime t);;
  upd_inode ir (set_ctime t);;
  drop_nlink ir;;
  dput dentry.

(** ** Running the monad *)

Lemma M_bind_ok {A B} (m : M A) (f : A -> M B) s a s' :
  m s = Ok (a, s') -> (m ≫= f) s = f a s'.
Proof. unfold mbind, M_bind. by intros ->. Qed.

Lemma M_bind_inv {A B} (m : M A) (f : A -> M B) s b s2 :
  (m ≫= f) s = Ok (b, s2) -> exists a s1, m s = Ok (a, s1) /\ f a s1 = Ok (b, s2).
Proof. unfold mbind, M_bind. destruct (m s) as [[a s1]|]; [eauto|done]. Qed.

Lemma M_bind_fault {A B} (m : M A) (f : A -> M B) s e :
  m s = Fault e -> (m ≫= f) s = Fault e.
Proof. unfold mbind, M_bind. by intros ->. Qed.

Lemma get_dentry_ok r d s : dentries s !! r = Some d -> get_dentry r s = Ok (d, s).
Proof. unfold get_dentry. by intros ->. Qed.

Lemma get_inode_ok r i s : inodes s !! r = Some i -> get_inode r s = Ok (i, s).
Proof. unfold get_inode. by intros ->. Qed.

Lemma upd_dentry_ok r d f s :
  dentries s !! r = Some d ->
  upd_dentry r f s = Ok (tt, with_dentries (<[r := f d]> (dentries s)) s).
Proof. unfold upd_dentry. by intros ->. Qed.

Lemma upd_inode_ok r i f s :
  inodes s !! r = Some i ->
  upd_inode r f s = Ok (tt, with_inodes (<[r := f i]> (inodes s)) s).
Proof. unfold upd_inode. by intros ->. Qed.

(** Run the leading statement of a monadic goal [m s = r]. *)
Ltac run_step :=
  first
    [ erewrite M_bind_ok by (apply get_dentry_ok; eassumption)
    | erewrite M_bind_ok by (apply get_inode_ok; eassumption)
    | erewrite M_bind_ok by (apply upd_dentry_ok; eassumption)
    | erewrite M_bind_ok by (apply upd_inode_ok; eassumption)
    | erewrite M_bind_ok by reflexivity ].
