(* ===== verification/Syscalls.v ===== *)
(** * The system calls above the inode operations

    fs/namei.c from the point where the path walk has found the directory: the
    last component is a plain name without a trailing slash, the mount is
    writable and nothing is mounted on the dentry.  IS_APPEND, IS_IMMUTABLE and
    IS_SWAPFILE are false for every inode of wjfs and no security module
    refuses.  shrink_dcache_parent finds nothing to free: dput frees a dentry of
    wjfs at once, since simple_dentry_operations deletes. *)

From S2P Require Import Prelude KString MapTable Vfs.

Section syscalls.
Context `{InodeOps}.

(** lookup_hash *)
Definition lookup_hash (name : list Z) (base : nat) : M dptr :=
  b ← get_dentry base;
  ir ← deref (d_inode b);
  err ← inode_permission ir MAY_EXEC;
  if negb (err =? 0) then mret (DErr err) else lookup_hash_ name base.

(** lookup_create: a negative dentry, or an error. *)
Definition lookup_create (name : list Z) (base : nat) : M dptr :=
  dentry ← lookup_hash name base;
  match dentry with
  | DPtr r =>
      d ← get_dentry r;
      match d_inode d with
      | Some _ => dput r;; mret (DErr (- EEXIST))
      | None => mret (DPtr r)
      end
  | e => mret e
  end.

(** vfs_mknod *)
Definition vfs_mknod (dir dentry : nat) (mode dev : Z) : M Z :=
  error ← may_create dir dentry;
  if negb (error =? 0) then mret error else
  c ← gets cur;
  if (ifmt mode S_IFCHR || ifmt mode S_IFBLK) && negb (cap_mknod c) then mret (- EPERM) else
  i ← get_inode dir;
  match op_mknod (i_op i) with
  | None => mret (- EPERM)
  | Some mknod => mknod dir dentry mode dev
  end.

Definition may_mknod (mode : Z) : Z :=
  let fmt := Z.land mode S_IFMT in
  if (fmt =? S_IFREG) || (fmt =? S_IFCHR) || (fmt =? S_IFBLK) || (fmt =? S_IFIFO)
     || (fmt =? S_IFSOCK) || (fmt =? 0) then 0
  else if fmt =? S_IFDIR then - EPERM else - EINVAL.

(** new_decode_dev: 20 bits of minor number below the major number. *)
Definition new_decode_dev (dev : Z) : Z :=
  let major := Z.shiftr (Z.land dev 0xfff00) 8 in
  let minor := Z.lor (Z.land dev 0xff) (Z.land (Z.shiftr dev 12) 0xfff00) in
  Z.lor (Z.shiftl major 20) minor.

(** The end of mknodat and mkdirat: the dentry is given back. *)
Definition on_new (parent : nat) (name : list Z) (make : nat -> nat -> M Z) : M Z :=
  dentry ← lookup_create name parent;
  match dentry with
  | DErr e => mret e
  | DNull => fail NullDeref
  | DPtr r =>
      p ← get_dentry parent;
      dir ← deref (d_inode p);
      error ← make dir r;
      dput r;;
      mret error
  end.

(** sys_mknodat *)
Definition sys_mknodat (parent : nat) (name : list Z) (mode dev umask : Z) : M Z :=
  if S_ISDIR mode then mret (- EPERM) else
  on_new parent name (fun dir r =>
    let mode := Z.land mode (Z.lnot umask) in
    let error := may_mknod mode in
    if negb (error =? 0) then mret error else
    let fmt := Z.land mode S_IFMT in
    if (fmt =? 0) || (fmt =? S_IFREG) then vfs_create dir r mode
    else if (fmt =? S_IFCHR) || (fmt =? S_IFBLK) then vfs_mknod dir r mode (new_decode_dev dev)
    else vfs_mknod dir r mode 0).

(** sys_mkdirat *)
Definition sys_mkdirat (parent : nat) (name : list Z) (mode umask : Z) : M Z :=
  on_new parent name (fun dir r => vfs_mkdir dir r (Z.land mode (Z.lnot umask))).

(** check_sticky, may_delete *)
Definition check_sticky (c : cred) (dir inode : inode) : bool :=
  if Z.land (i_mode dir) S_ISVTX =? 0 then false
  else if i_uid inode =? fsuid c then false
  else if i_uid dir =? fsuid c then false
  else negb (cap_fowner c).

Definition may_delete (dir victim : nat) (isdir : bool) : M Z :=
  v ← get_dentry victim;
  match d_inode v with
  | None => mret (- ENOENT)
  | Some ir =>
      p ← get_dentry (d_parent v);
      if negb (bool_decide (d_inode p = Some dir)) then fail BugOn else
      error ← inode_permission dir (Z.lor MAY_WRITE MAY_EXEC);
      if negb (error =? 0) then mret error else
      di ← get_inode dir;
      i ← get_inode ir;
      c ← gets cur;
      if check_sticky c di i then mret (- EPERM)
      else if isdir && negb (S_ISDIR (i_mode i)) then mret (- ENOTDIR)
      else if isdir && (d_parent v =? victim)%nat then mret (- EBUSY)
      else if negb isdir && S_ISDIR (i_mode i) then mret (- EISDIR)
      else if i_dead di then mret (- ENOENT)
      else mret 0
  end.

(** vfs_unlink *)
Definition vfs_unlink (dir dentry : nat) : M Z :=
  error ← may_delete dir dentry false;
  if negb (error =? 0) then mret error else
  i ← get_inode dir;
  match op_unlink (i_op i) with
  | None => mret (- EPERM)
  | Some unlink =>
      error ← unlink dir dentry;
      (if error =? 0 then d_delete dentry else mret tt);;
      mret error
  end.

(** dentry_unhash *)
Definition dentry_unhash (dentry : nat) : M unit :=
  dget dentry;;
  d ← get_dentry dentry;
  if d_count d =? 2 then d_drop dentry else mret tt.

(** vfs_rmdir *)
Definition vfs_rmdir (dir dentry : nat) : M Z :=
  error ← may_delete dir dentry true;
  if negb (error =? 0) then mret error else
  i ← get_inode dir;
  match op_rmdir (i_op i) with
  | None => mret (- EPERM)
  | Some rmdir =>
      dentry_unhash dentry;;
      error ← rmdir dir dentry;
      (if error =? 0 then
         d ← get_dentry dentry;
         ir ← deref (d_inode d);
         upd_inode ir (set_dead true)
       else mret tt);;
      (if error =? 0 then d_delete dentry else mret tt);;
      dput dentry;;
      mret error
  end.

(** do_unlinkat: the inode is held across the call. *)
Definition do_unlinkat (parent : nat) (name : list Z) : M Z :=
  dentry ← lookup_hash name parent;
  match dentry with
  | DErr e => mret e
  | DNull => fail NullDeref
  | DPtr r =>
      d ← get_dentry r;
      (match d_inode d with
       | Some ir => upd_inode ir (fun i => set_links (i_nlink i) (i_count i + 1) i)
       | None => mret tt
       end);;
      p ← get_dentry parent;
      dir ← deref (d_inode p);
      error ← vfs_unlink dir r;
      dput r;;
      (match d_inode d with Some ir => iput ir | None => mret tt end);;
      mret error
  end.

(** do_rmdir *)
Definition do_rmdir (parent : nat) (name : list Z) : M Z :=
  dentry ← lookup_hash name parent;
  match dentry with
  | DErr e => mret e
  | DNull => fail NullDeref
  | DPtr r =>
      p ← get_dentry parent;
      dir ← deref (d_inode p);
      error ← vfs_rmdir dir r;
      dput r;;
      mret error
  end.
End syscalls.
