(* ===== verification/Tree.v ===== *)
(** * The dentry tree: searches, genocide and unmount

    wjfs.c walks the tree below the root dentry in three places:
    find_from_all_dentry and find_dentry_by_ino (recursive searches by name and
    by inode number) and wjfs_d_genocide (an iterative walk with two [goto]s that
    drops one reference of every positive dentry).  fs/dcache.c walks it once
    more at unmount, in shrink_dcache_for_umount_subtree, and stops the kernel
    when a dentry is still in use. *)

From S2P Require Import Prelude KString MapTable Vfs.

(** ** Definitions *)

(** The two searches of wjfs.c are the same recursion with different tests.
    The fuel bounds the depth; a tree of [n] dentries needs at most [n]. *)
Section search.
Variable test : nat -> M bool.

Fixpoint search (fuel : nat) (dentry : nat) : M (option nat) :=
  match fuel with
  | O => fail OutOfFuel
  | S fuel =>
      d ← get_dentry dentry;
      (fix loop (l : list nat) : M (option nat) :=
         match l with
         | [] => mret None
         | sub :: l =>
             sd ← get_dentry sub;
             match d_inode sd with
             | None => loop l
             | Some ir =>
                 i ← get_inode ir;
                 if i_mode i =? 0 then loop l else
                 found ← (if S_ISDIR (i_mode i) then
                   ans ← search fuel sub;
                   match ans with
                   | Some a => b ← test a; mret (if (b : bool) then Some a else None)
                   | None => mret None
                   end
                 else mret None);
                 match found with
                 | Some a => mret (Some a)
                 | None => b ← test sub; if (b : bool) then mret (Some sub) else loop l
                 end
             end
         end) (d_subdirs d)
  end.
End search.

(** find_from_all_dentry: [!strcmp(dentry->d_name.name, name_parent)]. *)
Definition name_test (name_parent : block) (r : nat) : M bool :=
  d ← get_dentry r; c ← lift (strcmp (d_name d ++ [0]) name_parent); mret (c =? 0).

Definition find_from_all_dentry (dentry : nat) (name_parent : block) : M (option nat) :=
  fun s => search (name_test name_parent) (size (dentries s)) dentry s.

(** find_dentry_by_ino: [dentry->d_inode->i_ino == ino], an [unsigned long]
    against an [int]. *)
Definition ino_test (ino : Z) (r : nat) : M bool :=
  d ← get_dentry r; ir ← deref (d_inode d); i ← get_inode ir; mret (i_ino i =? u32 ino).

Definition find_dentry_by_ino (dentry : nat) (ino : Z) : M (option nat) :=
  fun s => search (ino_test ino) (size (dentries s)) dentry s.

(** What follows [x] in a list: [x->d_u.d_child.next] up to the list head. *)
Fixpoint after (x : nat) (l : list nat) : list nat :=
  match l with
  | [] => []
  | y :: l => if (y =? x)%nat then l else after x l
  end.

(** wjfs_d_genocide: [next] is the rest of the child list that is being
    walked. *)
Fixpoint genocide_loop (fuel : nat) (root this_parent : nat) (next : list nat) : M unit :=
  match fuel with
  | O => fail OutOfFuel
  | S fuel =>
      match next with
      | r :: next =>
          d ← get_dentry r;
          if negb (d_hashed d) || (match d_inode d with Some _ => false | None => true end)
          then genocide_loop fuel root this_parent next
          else match d_subdirs d with
               | _ :: _ => genocide_loop fuel root r (d_subdirs d)
               | [] => atomic_dec_d r;; genocide_loop fuel root this_parent next
               end
      | [] =>
          if negb (this_parent =? root)%nat then
            d ← get_dentry this_parent;
            p ← get_dentry (d_parent d);
            atomic_dec_d this_parent;;
            genocide_loop fuel root (d_parent d) (after this_parent (d_subdirs p))
          else mret tt
      end
  end.

Definition wjfs_d_genocide (root : nat) : M unit := fun s =>
  match dentries s !! root with
  | Some d => genocide_loop (2 * size (dentries s) + 1) root root (d_subdirs d) s
  | None => Fault BadPointer
  end.

(** shrink_dcache_for_umount_subtree: descend to the first leaf, then consume
    leaves upwards. *)
Fixpoint drop_all (l : list nat) : M unit :=
  match l with
  | [] => mret tt
  | r :: l => upd_dentry r (set_d_lru false);; d_drop r;; drop_all l
  end.

(** [consume = false] is the descending [while] at [r], [consume = true] the
    body of the [do] loop at [r]. *)
Fixpoint umount_loop (fuel : nat) (consume : bool) (r : nat) : M unit :=
  match fuel with
  | O => fail OutOfFuel
  | S fuel =>
      d ← get_dentry r;
      if negb consume then
        match d_subdirs d with
        | c :: _ => drop_all (d_subdirs d);; umount_loop fuel false c
        | [] => umount_loop fuel true r
        end
      else if negb (d_count d =? 0) then fail BugOn
      else if (d_parent d =? r)%nat then
        dentry_iput r;; modify (fun s => with_dentries (delete r (dentries s)) s)
      else
        let p := d_parent d in
        atomic_dec_d p;;
        upd_dentry p (fun d =>
          set_d_subdirs (List.filter (fun x => negb (x =? r)%nat) (d_subdirs d)) d);;
        dentry_iput r;;
        modify (fun s => with_dentries (delete r (dentries s)) s);;
        pd ← get_dentry p;
        match d_subdirs pd with
        | [] => umount_loop fuel true p
        | c :: _ => umount_loop fuel false c
        end
  end.

Definition umount_subtree (root : nat) : M unit := fun s =>
  umount_loop (2 * size (dentries s)) false root s.

Definition shrink_dcache_for_umount (root : nat) : M unit :=
  atomic_dec_d root;;
  d ← get_dentry root;
  if negb (d_parent d =? root)%nat then fail BugOn else
  upd_dentry root (set_d_lru false);;
  d_drop root;;
  umount_subtree root.

(** wjfs_kill_litter_super and the part of kill_anon_super that takes the
    dentries apart. *)
Definition wjfs_kill_litter_super (s_root : option nat) : M unit :=
  match s_root with
  | Some r => wjfs_d_genocide r;; shrink_dcache_for_umount r
  | None => mret tt
  end.

(** ** The shape of the tree *)

#[local] Set Warnings "-register-all".

Inductive tree : Type := Node (r : nat) (ch : list tree).

Definition troot (t : tree) : nat := let 'Node r _ := t in r.
Definition tch (t : tree) : list tree := let 'Node _ ch := t in ch.

Section tree_ind.
Variable P : tree -> Prop.
Hypothesis Hnode : forall r ch, Forall P ch -> P (Node r ch).

Fixpoint tree_rect_all (t : tree) : P t :=
  match t with
  | Node r ch => Hnode r ch
      ((fix go (l : list tree) : Forall P l :=
          match l with
          | [] => List.Forall_nil P
          | x :: l => @List.Forall_cons tree P x l (tree_rect_all x) (go l)
          end) ch)
  end.
End tree_ind.

(** The dentries of a tree. *)
Fixpoint refs (t : tree) : list nat :=
  let 'Node r ch := t in r :: concat (map refs ch).

Definition refs_list (ts : list tree) : list nat := concat (map refs ts).

(** The map holds the tree below parent [p]. *)
Inductive rep (m : gmap nat dentry) (p : nat) : tree -> Prop :=
  | rep_node r ch d :
      m !! r = Some d -> d_parent d = p -> d_subdirs d = map troot ch ->
      Forall (rep m r) ch -> rep m p (Node r ch).

Record tree_at (m : gmap nat dentry) (t : tree) : Prop := {
  ta_rep : rep m (troot t) t;
  ta_nodup : NoDup (refs t);
}.

Lemma rep_inv m p t :
  rep m p t -> exists d, m !! troot t = Some d /\ d_parent d = p /\
    d_subdirs d = map troot (tch t) /\ Forall (rep m (troot t)) (tch t).
Proof. inversion 1; subst; simpl; eauto 10. Qed.

Lemma refs_root t : troot t ∈ refs t.
Proof. destruct t. simpl. set_solver. Qed.

Lemma refs_unfold t : refs t = troot t :: refs_list (tch t).
Proof. by destruct t. Qed.

Lemma refs_child c ts : c ∈ ts -> refs c ⊆ refs_list ts.
Proof.
  intros H x Hx. unfold refs_list. rewrite list_elem_of_In, in_concat.
  exists (refs c). rewrite <- !list_elem_of_In. split; [|done].
  by apply list_elem_of_fmap_2.
Qed.

(** [rep] does not look at reference counts. *)
Definition same_shape (d d' : dentry) : Prop :=
  d_parent d = d_parent d' /\ d_subdirs d = d_subdirs d' /\ d_inode d = d_inode d' /\
  d_hashed d = d_hashed d' /\ d_name d = d_name d'.

Definition shape_eq (m m' : gmap nat dentry) : Prop :=
  forall r, match m !! r, m' !! r with
       | Some d, Some d' => same_shape d d'
       | None, None => True
       | _, _ => False
       end.

#[global] Instance shape_eq_equiv : Equivalence shape_eq.
Proof.
  split.
  - intros m r. by destruct (m !! r).
  - intros m m' H r. specialize (H r). destruct (m !! r), (m' !! r); try done.
    destruct H as (? & ? & ? & ? & ?). by repeat split.
  - intros m1 m2 m3 H1 H2 r. specialize (H1 r). specialize (H2 r).
    destruct (m1 !! r), (m2 !! r), (m3 !! r); try done.
    unfold same_shape in *. intuition congruence.
Qed.

Lemma rep_shape m m' : shape_eq m m' -> forall t p, rep m p t -> rep m' p t.
Proof.
  intros Hs t. induction t as [r ch IH] using tree_rect_all. intros p Hr.
  inversion Hr as [? ? d Hm Hp Hsub Hch]; subst. specialize (Hs r). rewrite Hm in Hs.
  destruct (m' !! r) as [d'|] eqn:Hm'; [|done]. destruct Hs as (? & ? & _).
  apply rep_node with d'; [done|congruence|congruence|].
  rewrite Forall_lookup in *. eauto.
Qed.

#[global] Instance rep_proper : Proper (shape_eq ==> eq ==> eq ==> iff) rep.
Proof.
  intros m m' Hm p p' <- t t' <-. split; apply rep_shape; [done|]. by symmetry.
Qed.

(** Dropping one reference of each dentry of a list. *)
Definition dec_count (d : dentry) : dentry := set_d_count (d_count d - 1) d.
Definition dec_all (l : list nat) (m : gmap nat dentry) : gmap nat dentry :=
  foldl (fun m r => alter dec_count r m) m l.

Lemma dec_all_app l1 l2 m : dec_all (l1 ++ l2) m = dec_all l2 (dec_all l1 m).
Proof. apply foldl_app. Qed.

Lemma dec_all_shape l m : shape_eq m (dec_all l m).
Proof.
  revert m. induction l as [|r l IH]; intros m; simpl; [reflexivity|].
  transitivity (alter dec_count r m); [|apply IH].
  intros x. destruct (decide (r = x)) as [->|Hne].
  - rewrite lookup_alter_eq. destruct (m !! x); simpl; [by repeat split|done].
  - rewrite lookup_alter_ne by done. destruct (m !! x); [by repeat split|done].
Qed.

Lemma dec_all_lookup l m r :
  dec_all l m !! r
  = (fun d => set_d_count (d_count d - Z.of_nat (length (List.filter (Nat.eqb r) l))) d) <$> m !! r.
Proof.
  revert m. induction l as [|x l IH]; intros m; simpl.
  - destruct (m !! r) as [[]|]; simpl; [|done]. unfold set_d_count. simpl. do 2 f_equal. lia.
  - rewrite IH. destruct (Nat.eqb_spec r x) as [->|Hne].
    + rewrite lookup_alter_eq. destruct (m !! x) as [[]|]; simpl; [|done].
      unfold set_d_count, dec_count. simpl. do 2 f_equal. lia.
    + by rewrite lookup_alter_ne by done.
Qed.

Lemma atomic_dec_d_ok r d s :
  dentries s !! r = Some d ->
  atomic_dec_d r s = Ok (tt, with_dentries (dec_all [r] (dentries s)) s).
Proof.
  intros H. unfold atomic_dec_d. rewrite (upd_dentry_ok _ _ _ _ H). do 3 f_equal. simpl.
  symmetry. apply map_eq. intros x. destruct (decide (r = x)) as [->|Hne].
  - by rewrite lookup_alter_eq, lookup_insert_eq, H.
  - by rewrite lookup_alter_ne, lookup_insert_ne by done.
Qed.

(** ** wjfs_d_genocide *)

(** The walk enters hashed positive dentries only; a dentry loses its reference
    after all those below it. *)
Definition alive (m : gmap nat dentry) (r : nat) : bool :=
  match m !! r with Some d => simple_positive d | None => false end.

Fixpoint victims (m : gmap nat dentry) (t : tree) : list nat :=
  let 'Node r ch := t in if alive m r then concat (map (victims m) ch) ++ [r] else [].

Definition victims_list (m : gmap nat dentry) (ts : list tree) : list nat :=
  concat (map (victims m) ts).

Lemma alive_shape m m' r : shape_eq m m' -> alive m r = alive m' r.
Proof.
  intros H. specialize (H r). unfold alive, simple_positive.
  destruct (m !! r), (m' !! r); try done. destruct H as (_ & _ & -> & -> & _). done.
Qed.

Lemma victims_shape m m' : shape_eq m m' -> forall t, victims m t = victims m' t.
Proof.
  intros H t. induction t as [r ch IH] using tree_rect_all. simpl.
  rewrite (alive_shape _ _ r H). destruct (alive m' r); [|done]. do 2 f_equal.
  apply map_ext_in. intros c Hc. rewrite List.Forall_forall in IH. auto.
Qed.

Lemma victims_list_shape m m' ts : shape_eq m m' -> victims_list m ts = victims_list m' ts.
Proof. intros H. unfold victims_list. f_equal. apply map_ext. by apply victims_shape. Qed.

Lemma victims_refs m t : forall r, r ∈ victims m t -> r ∈ refs t.
Proof.
  induction t as [x ch IH] using tree_rect_all. intros r. simpl.
  destruct (alive m x); [|by intros ?%not_elem_of_nil].
  rewrite elem_of_app, list_elem_of_singleton, elem_of_cons. intros [H| ->]; [right|by left].
  rewrite list_elem_of_In, in_concat in *. destruct H as (l & Hl & Hr).
  apply in_map_iff in Hl as (c & <- & Hc). exists (refs c). split; [by apply in_map|].
  rewrite List.Forall_forall in IH. apply list_elem_of_In, (IH c); [done|]. by apply list_elem_of_In.
Qed.

(** Steps of the loop. *)
Fixpoint gcost (m : gmap nat dentry) (t : tree) : nat :=
  let 'Node r ch := t in
  if alive m r then match ch with [] => 1 | _ => 2 + list_sum (map (gcost m) ch) end else 1.

Definition gcost_list (m : gmap nat dentry) (ts : list tree) : nat := list_sum (map (gcost m) ts).

Lemma gcost_refs m t : (gcost m t <= 2 * length (refs t))%nat.
Proof.
  induction t as [r ch IH] using tree_rect_all. simpl. destruct (alive m r); [|lia].
  assert (list_sum (map (gcost m) ch) <= 2 * length (concat (map refs ch)))%nat.
  { induction IH as [|c ch Hc _ IHl]; simpl; [lia|]. rewrite length_app. lia. }
  destruct ch; simpl in *; lia.
Qed.

Lemma gcost_list_refs m ts : (gcost_list m ts <= 2 * length (refs_list ts))%nat.
Proof.
  unfold gcost_list, refs_list. induction ts as [|t ts IH]; simpl; [lia|].
  rewrite length_app. pose proof (gcost_refs m t). lia.
Qed.

Lemma gcost_shape m m' : shape_eq m m' -> forall t, gcost m t = gcost m' t.
Proof.
  intros H t. induction t as [r ch IH] using tree_rect_all. simpl.
  rewrite (alive_shape _ _ r H). destruct (alive m' r); [|done]. destruct ch as [|c ch]; [done|].
  do 3 f_equal. apply map_ext_in. intros x Hx. rewrite List.Forall_forall in IH. auto.
Qed.

Lemma gcost_list_shape m m' ts : shape_eq m m' -> gcost_list m ts = gcost_list m' ts.
Proof. intros H. unfold gcost_list. f_equal. apply map_ext. by apply gcost_shape. Qed.

Lemma after_app x pre l : x ∉ pre -> after x (pre ++ x :: l) = l.
Proof.
  induction pre as [|y pre IH]; simpl; intros H.
  - by rewrite Nat.eqb_refl.
  - rewrite not_elem_of_cons in H. destruct H as [Hne H].
    rewrite (proj2 (Nat.eqb_neq y x)) by done. auto.
Qed.

Lemma refs_list_cons c ts : refs_list (c :: ts) = refs c ++ refs_list ts.
Proof. done. Qed.

Lemma refs_list_roots ts : NoDup (refs_list ts) -> NoDup (map troot ts).
Proof.
  unfold refs_list. induction ts as [|c ts IH]; simpl; intros Hnd; [constructor|].
  apply list.NoDup_app in Hnd as (_ & Hd & Hnd). constructor; [|auto].
  intros Hin. apply list_elem_of_fmap in Hin as (c' & Hc' & Hin).
  apply (Hd (troot c)); [apply refs_root|]. rewrite Hc'.
  apply (refs_child c' ts Hin). apply refs_root.
Qed.

Lemma with_dentries_twice m m' s : with_dentries m (with_dentries m' s) = with_dentries m s.
Proof. done. Qed.

Lemma with_dentries_same s : with_dentries (dentries s) s = s.
Proof. by destruct s. Qed.

Section walk.
Context (m : gmap nat dentry) (root : nat).

(** State [s] after the walk dropped the references of [l]. *)
Definition dropped (l : list nat) (s : kstate) : kstate :=
  with_dentries (dec_all l (dentries s)) s.

Lemma dropped_shape l s : shape_eq m (dentries s) -> shape_eq m (dentries (dropped l s)).
Proof. intros H. simpl. etransitivity; [exact H|apply dec_all_shape]. Qed.

Lemma dropped_app l1 l2 s : dropped l2 (dropped l1 s) = dropped (l1 ++ l2) s.
Proof. unfold dropped. simpl. by rewrite dec_all_app. Qed.

Lemma dropped_nil s : dropped [] s = s.
Proof. apply with_dentries_same. Qed.

Lemma shape_lookup s r d :
  shape_eq m (dentries s) -> m !! r = Some d ->
  exists d', dentries s !! r = Some d' /\ same_shape d d'.
Proof. intros H Hm. specialize (H r). rewrite Hm in H. destruct (dentries s !! r); [eauto|done]. Qed.

(** What the walk does with one child of [p]. *)
Definition walks (c : tree) : Prop := forall fuel p pd pre post s,
  shape_eq m (dentries s) -> rep m p c -> NoDup (refs c) -> root ∉ refs c ->
  m !! p = Some pd -> d_subdirs pd = pre ++ troot c :: post -> troot c ∉ pre ->
  genocide_loop (gcost m c + fuel) root p (troot c :: post) s
  = genocide_loop fuel root p post (dropped (victims m c) s).

Lemma walks_list r rd ts : forall fuel pre s,
  Forall walks ts -> shape_eq m (dentries s) -> Forall (rep m r) ts ->
  NoDup (refs_list ts) -> root ∉ refs_list ts ->
  m !! r = Some rd -> d_subdirs rd = pre ++ map troot ts -> NoDup (pre ++ map troot ts) ->
  genocide_loop (gcost_list m ts + fuel) root r (map troot ts) s
  = genocide_loop fuel root r [] (dropped (victims_list m ts) s).
Proof.
  induction ts as [|c ts IH]; intros fuel pre s Hw Hs Hrep Hnd Hroot Hr Hsub Hnds.
  - simpl. by rewrite dropped_nil.
  - apply Forall_cons_iff in Hw as [Hc Hw]. apply Forall_cons_iff in Hrep as [Hrc Hrep].
    unfold refs_list in Hnd, Hroot. cbn [map concat] in *. apply list.NoDup_app in Hnd as (Hndc & _ & Hnd).
    rewrite not_elem_of_app in Hroot. destruct Hroot as [Hrootc Hroot].
    change (gcost_list m (c :: ts)) with (gcost m c + gcost_list m ts)%nat.
    rewrite <- Nat.add_assoc.
    rewrite (Hc _ r rd pre (map troot ts)); try done.
    + rewrite (IH fuel (pre ++ [troot c])); try done.
      * by rewrite dropped_app.
      * by apply dropped_shape.
      * by rewrite <- app_assoc.
      * by rewrite <- app_assoc.
    + apply list.NoDup_app in Hnds as (_ & Hd & _). intros Hin. apply (Hd _ Hin). set_solver.
Qed.

(** After the last child, the walk goes up and on behind the dentry it comes from. *)
Lemma ascend_ok fuel r d pd pre post s :
  shape_eq m (dentries s) -> m !! r = Some d -> m !! d_parent d = Some pd -> d_subdirs pd = pre ++ r :: post ->
  r ∉ pre -> r <> root ->
  genocide_loop (S fuel) root r [] s = genocide_loop fuel root (d_parent d) post (dropped [r] s).
Proof using.
  intros Hs Hr Hp Hsub Hpre Hne. cbn [genocide_loop]. rewrite (proj2 (Nat.eqb_neq r root)) by done. cbn [negb].
  destruct (shape_lookup s r d Hs Hr) as (d1 & Hr1 & Epar1 & _).
  destruct (shape_lookup s (d_parent d) pd Hs Hp) as (pd1 & Hp1 & _ & Esub1 & _).
  erewrite M_bind_ok by (by apply get_dentry_ok). rewrite <- Epar1.
  erewrite M_bind_ok by (by apply get_dentry_ok).
  erewrite M_bind_ok by (by eapply atomic_dec_d_ok). by rewrite <- Esub1, Hsub, after_app by done.
Qed.

Lemma walks_all c : walks c.
Proof.
  induction c as [r ch IH] using tree_rect_all.
  intros fuel p pd pre post s Hs Hrep Hnd Hroot Hp Hsub Hpre. simpl troot in *.
  inversion Hrep as [? ? d Hr Hpar Hdsub Hch]; subst.
  destruct (shape_lookup s r d Hs Hr) as (d' & Hr' & Hsh).
  assert (Ealive : alive m r = simple_positive d') by
    (rewrite (alive_shape _ _ r Hs); unfold alive; by rewrite Hr').
  destruct Hsh as (Epar & Esub & Eino & Ehash & _).
  cbn [gcost victims]. rewrite Ealive. unfold simple_positive.
  destruct (d_hashed d') eqn:Eh; [destruct (d_inode d') as [ir|] eqn:Ei|].
  - (* entered *)
    destruct ch as [|c0 ch0] eqn:Ech.
    + (* leaf *)
      cbn [Nat.add genocide_loop]. erewrite M_bind_ok by (by apply get_dentry_ok).
      rewrite Eh, Ei, <- Esub, Hdsub. cbn [negb orb map].
      by erewrite M_bind_ok by (by eapply atomic_dec_d_ok).
    + rewrite <- Ech in *.
      replace (2 + list_sum (map (gcost m) ch))%nat with (S (gcost_list m ch + 1))
        by (unfold gcost_list; lia).
      cbn [Nat.add genocide_loop]. erewrite M_bind_ok by (by apply get_dentry_ok).
      rewrite Eh, Ei, <- Esub, Hdsub. cbn [negb orb].
      replace (match map troot ch with
        | [] => atomic_dec_d r;; genocide_loop (gcost_list m ch + 1 + fuel) root (d_parent d) post
        | _ :: _ => genocide_loop (gcost_list m ch + 1 + fuel) root r (map troot ch)
        end) with (genocide_loop (gcost_list m ch + 1 + fuel) root r (map troot ch))
        by (rewrite Ech; done).
      simpl in Hnd, Hroot. apply list.NoDup_cons in Hnd as [Hnr Hnd].
      rewrite not_elem_of_cons in Hroot. destruct Hroot as [Hne Hroot].
      rewrite <- Nat.add_assoc.
      assert (Hndr : NoDup (map troot ch)) by (by apply refs_list_roots).
      rewrite (walks_list r d ch (1 + fuel) [] s); try done.
      erewrite (ascend_ok fuel r d pd pre post) by (try done; by apply dropped_shape).
      by rewrite dropped_app.
  - (* negative *)
    cbn [Nat.add genocide_loop]. erewrite M_bind_ok by (by apply get_dentry_ok).
    rewrite Eh, Ei. cbn [negb orb]. by rewrite dropped_nil.
  - (* unhashed *)
    destruct (d_inode d'); cbn [Nat.add genocide_loop];
      erewrite M_bind_ok by (by apply get_dentry_ok); rewrite Eh; cbn [negb orb];
      by rewrite dropped_nil.
Qed.
End walk.

Lemma rep_refs m t : forall p r, rep m p t -> r ∈ refs t -> is_Some (m !! r).
Proof.
  induction t as [x ch IH] using tree_rect_all. intros p r Hrep.
  inversion Hrep as [? ? d Hm _ _ Hch]; subst. simpl.
  rewrite elem_of_cons. intros [->|H]; [eauto|].
  rewrite list_elem_of_In, in_concat in H. destruct H as (l & Hl & Hr).
  apply in_map_iff in Hl as (c & <- & Hc). rewrite List.Forall_forall in IH, Hch.
  eapply IH; [done|by apply Hch|]. by apply list_elem_of_In.
Qed.

Lemma refs_size m t p : rep m p t -> NoDup (refs t) -> (length (refs t) <= size m)%nat.
Proof.
  intros Hrep Hnd. rewrite <- (size_list_to_set (C := gset nat) _ Hnd), <- (size_dom (D := gset nat)).
  apply subseteq_size. intros r Hr%elem_of_list_to_set. apply elem_of_dom. by eapply rep_refs.
Qed.

Lemma genocide_dropped s t :
  tree_at (dentries s) t ->
  wjfs_d_genocide (troot t) s = Ok (tt, dropped (victims_list (dentries s) (tch t)) s).
Proof.
  intros [Hrep Hnd]. pose proof (refs_size _ _ _ Hrep Hnd) as Hsz.
  destruct (rep_inv _ _ _ Hrep) as (d & Hd & _ & Hsub & Hch).
  unfold wjfs_d_genocide. rewrite Hd, Hsub. rewrite refs_unfold in Hnd, Hsz.
  apply list.NoDup_cons in Hnd as [Hroot Hnd]. simpl in Hsz.
  pose proof (gcost_list_refs (dentries s) (tch t)) as Hcost.
  replace (2 * size (dentries s) + 1)%nat with
    (gcost_list (dentries s) (tch t) + S (2 * size (dentries s) - gcost_list (dentries s) (tch t)))%nat
    by lia.
  rewrite (walks_list _ (troot t) (troot t) d (tch t) _ []); try done.
  - cbn [genocide_loop]. by rewrite Nat.eqb_refl.
  - apply Forall_lookup. intros. apply walks_all.
  - by apply refs_list_roots.
Qed.

Lemma victims_list_refs m ts x : x ∈ victims_list m ts -> x ∈ refs_list ts.
Proof.
  unfold victims_list, refs_list. rewrite !list_elem_of_In, !in_concat.
  intros (l & Hl & Hx). apply in_map_iff in Hl as (c & <- & Hc).
  exists (refs c). split; [by apply in_map|].
  apply list_elem_of_In. eapply victims_refs. by apply list_elem_of_In.
Qed.

Lemma victims_list_nodup_if m ts :
  Forall (fun t => NoDup (refs t) -> NoDup (victims m t)) ts ->
  NoDup (refs_list ts) -> NoDup (victims_list m ts).
Proof.
  induction 1 as [|c ts Hc _ IH]; intros Hnd; [constructor|].
  apply list.NoDup_app in Hnd as (Hn1 & Hd & Hn2). apply list.NoDup_app. split; [auto|].
  split; [|by apply IH]. intros x Hx Hx'.
  apply (Hd x); [by eapply victims_refs|by eapply victims_list_refs].
Qed.

Lemma victims_nodup m t : NoDup (refs t) -> NoDup (victims m t).
Proof.
  induction t as [r ch IH] using tree_rect_all. simpl. intros [Hr Hnd]%list.NoDup_cons.
  destruct (alive m r); [|constructor].
  apply list.NoDup_app. split; [by apply victims_list_nodup_if|]. split; [|apply NoDup_singleton].
  intros x Hx ->%list_elem_of_singleton. apply Hr. by eapply victims_list_refs.
Qed.

Lemma victims_list_nodup m ts : NoDup (refs_list ts) -> NoDup (victims_list m ts).
Proof. apply victims_list_nodup_if, Forall_lookup. intros. by apply victims_nodup. Qed.

Lemma count_occ_nodup r l :
  NoDup l -> length (List.filter (Nat.eqb r) l) = if bool_decide (r ∈ l) then 1%nat else 0%nat.
Proof.
  induction 1 as [|x l Hx Hl IH]; simpl; [done|].
  destruct (Nat.eqb_spec r x) as [->|Hne]; simpl; rewrite IH.
  - rewrite bool_decide_false by done. by rewrite bool_decide_true by set_solver.
  - f_equal. rewrite (bool_decide_ext (r ∈ l) (r ∈ x :: l)) by set_solver. done.
Qed.

(** The two gotos of wjfs_d_genocide visit every dentry that hangs below the root
    by hashed positive dentries, and take exactly one reference from each;
    every other dentry and the rest of memory stay as they are. *)
Theorem genocide_drops_each_once s t :
  tree_at (dentries s) t ->
  exists m', wjfs_d_genocide (troot t) s = Ok (tt, with_dentries m' s) /\
    forall r, m' !! r
      = (fun d => if bool_decide (r ∈ victims_list (dentries s) (tch t))
                  then set_d_count (d_count d - 1) d else d) <$> dentries s !! r.
Proof.
  intros Ht. exists (dec_all (victims_list (dentries s) (tch t)) (dentries s)).
  split; [by apply genocide_dropped|]. intros r. rewrite dec_all_lookup.
  destruct Ht as [_ Hnd]. rewrite refs_unfold in Hnd. apply list.NoDup_cons in Hnd as [_ Hnd].
  rewrite count_occ_nodup by (by apply victims_list_nodup).
  destruct (dentries s !! r) as [[]|]; simpl; [|done]. f_equal.
  case_bool_decide; unfold set_d_count; simpl; f_equal; lia.
Qed.

(** ** The searches *)

(** The inode a search looks at: the one of a positive dentry whose mode is not
    zero. *)
Definition node_inode (s : kstate) (r : nat) : option inode :=
  d ← dentries s !! r; ir ← d_inode d; i ← inodes s !! ir;
  if i_mode i =? 0 then None else Some i.

(** The dentries a search tests, in its order: what a directory holds comes
    before the directory. *)
Fixpoint cands (s : kstate) (t : tree) : list nat :=
  let 'Node r ch := t in
  match node_inode s r with
  | Some i => (if S_ISDIR (i_mode i) then concat (map (cands s) ch) else []) ++ [r]
  | None => []
  end.

Definition cands_list (s : kstate) (ts : list tree) : list nat := concat (map (cands s) ts).

(** Every inode pointer in the tree points to an inode. *)
Definition inodes_ok (s : kstate) (l : list nat) : Prop :=
  forall r d ir, r ∈ l -> dentries s !! r = Some d -> d_inode d = Some ir ->
    is_Some (inodes s !! ir).

Section search_spec.
Context (s : kstate) (test : nat -> M bool) (f : nat -> bool).

Lemma find_app (P : nat -> bool) l1 l2 :
  List.find P (l1 ++ l2) = match List.find P l1 with Some x => Some x | None => List.find P l2 end.
Proof. induction l1 as [|x l1 IH]; simpl; [done|]. by destruct (P x). Qed.

(** What the search does with a directory: it searches below it, and tests what it finds once
    more. *)
Lemma search_below fuel rc (dir : bool) l :
  (dir = true -> search test fuel rc s = Ok (List.find f l, s)) ->
  (dir = true -> forall x, x ∈ l -> test x s = Ok (f x, s)) ->
  (if dir then
     ans ← search test fuel rc;
     match ans with
     | Some a => b ← test a; mret (if (b : bool) then Some a else None)
     | None => mret None
     end
   else mret None) s = Ok (List.find f (if dir then l else []), s).
Proof using.
  intros E Ht. destruct dir; [|done]. erewrite M_bind_ok by (by apply E).
  destruct (List.find f l) as [a|] eqn:Ea; [|done]. apply List.find_some in Ea as [Hin Hfa].
  erewrite M_bind_ok by (by apply Ht, list_elem_of_In). by rewrite Hfa.
Qed.

Lemma search_cands t : forall fuel p,
  rep (dentries s) p t -> inodes_ok s (refs t) -> (length (refs t) <= fuel)%nat ->
  (forall r, r ∈ cands_list s (tch t) -> test r s = Ok (f r, s)) ->
  search test fuel (troot t) s = Ok (List.find f (cands_list s (tch t)), s).
Proof.
  induction t as [r ch IH] using tree_rect_all. intros fuel p Hrep Hi Hf Ht.
  destruct fuel as [|fuel]; [simpl in Hf; lia|].
  inversion Hrep as [? ? d Hr _ Hsub Hch]; subst. cbn [search troot tch] in *.
  erewrite M_bind_ok by (by apply get_dentry_ok). rewrite Hsub. clear Hsub Hr Hrep.
  assert (Hi' : inodes_ok s (refs_list ch)).
  { intros x dx ir Hx. apply Hi. simpl. by apply elem_of_cons; right. }
  assert (Hf' : (length (refs_list ch) <= fuel)%nat) by (simpl in Hf; unfold refs_list; lia).
  clear Hi Hf. induction ch as [|c ch IHch]; [done|].
  apply Forall_cons_iff in IH as [IHc IH]. apply Forall_cons_iff in Hch as [Hc Hch].
  unfold refs_list, cands_list in *. cbn [map concat] in *.
  rewrite length_app in Hf'. rewrite find_app.
  destruct (rep_inv _ _ _ Hc) as (dc & Hdc & _ & _ & _).
  erewrite M_bind_ok by (by apply get_dentry_ok).
  assert (Hrest : inodes_ok s (concat (map refs ch))).
  { intros x dx ir Hx. apply Hi'. rewrite elem_of_app. by right. }
  assert (Htr : forall x, x ∈ concat (map (cands s) ch) -> test x s = Ok (f x, s)).
  { intros x Hx. apply Ht. rewrite elem_of_app. by right. }
  assert (Hfr : (length (concat (map refs ch)) <= fuel)%nat) by lia.
  specialize (IHch IH Htr Hch Hrest Hfr).
  destruct c as [rc cch]. cbn [troot cands] in *. unfold node_inode in Ht |- *.
  rewrite Hdc in *. cbn [mbind option_bind] in *.
  destruct (d_inode dc) as [ir|] eqn:Eir; cbn [mbind option_bind] in *; cycle 1.
  { cbn [List.find]. apply IHch. }
  destruct (Hi' rc dc ir) as [i Hir]; [set_solver|done|done|].
  erewrite M_bind_ok by (by apply get_inode_ok). rewrite Hir in *. cbn [mbind option_bind] in *.
  destruct (i_mode i =? 0) eqn:Em.
  { cbn [List.find]. apply IHch. }
  rewrite find_app.
  erewrite M_bind_ok.
  2: { apply (search_below fuel rc (S_ISDIR (i_mode i)) (concat (map (cands s) cch))); intros Ed; rewrite Ed in *.
    - apply (IHc fuel r); [done| |simpl in Hf' |- *; lia|].
      + intros x dx irx Hx. apply Hi'. set_solver.
      + intros x Hx. apply Ht. rewrite !elem_of_app. left. left. exact Hx.
    - intros x Hx. apply Ht. rewrite !elem_of_app. by left; left. }
  destruct (List.find f (if S_ISDIR (i_mode i) then concat (map (cands s) cch) else [])) as [a|];
    [done|].
  erewrite M_bind_ok by (apply Ht; rewrite !elem_of_app; left; right; by apply list_elem_of_singleton).
  cbn [List.find]. destruct (f rc); [done|]. apply IHch.
Qed.
End search_spec.

Lemma cands_inode s t : forall r, r ∈ cands s t -> is_Some (node_inode s r).
Proof.
  induction t as [x ch IH] using tree_rect_all. intros r. cbn [cands].
  destruct (node_inode s x) as [i|] eqn:E; [|by intros ?%not_elem_of_nil].
  rewrite elem_of_app, list_elem_of_singleton. intros [H| ->]; [|by rewrite E].
  destruct (S_ISDIR (i_mode i)); [|by apply not_elem_of_nil in H].
  rewrite list_elem_of_In, in_concat in H. destruct H as (l & Hl & Hr).
  apply in_map_iff in Hl as (c & <- & Hc). rewrite List.Forall_forall in IH.
  apply (IH c Hc). by apply list_elem_of_In.
Qed.

Lemma cands_list_inode s ts r : r ∈ cands_list s ts -> is_Some (node_inode s r).
Proof.
  unfold cands_list. rewrite list_elem_of_In, in_concat. intros (l & Hl & Hr).
  apply in_map_iff in Hl as (c & <- & Hc). eapply cands_inode. by apply list_elem_of_In.
Qed.

Lemma node_inode_inv s r i :
  node_inode s r = Some i ->
  exists d ir, dentries s !! r = Some d /\ d_inode d = Some ir /\ inodes s !! ir = Some i /\ i_mode i <> 0.
Proof.
  unfold node_inode. intros (d & Hd & (ir & Hir & (i' & Hi & H)%bind_Some)%bind_Some)%bind_Some.
  destruct (Z.eqb_spec (i_mode i') 0); simplify_eq. eauto 10.
Qed.

Definition ino_is (s : kstate) (ino : Z) (r : nat) : bool :=
  match node_inode s r with Some i => i_ino i =? u32 ino | None => false end.

Definition name_is (s : kstate) (n : list Z) (r : nat) : bool :=
  match dentries s !! r with Some d => bool_decide (d_name d = n) | None => false end.

Section searches.
Context (s : kstate) (t : tree) (Ht : tree_at (dentries s) t) (Hi : inodes_ok s (refs t)).

Lemma find_by_ino_eq ino :
  find_dentry_by_ino (troot t) ino s = Ok (List.find (ino_is s ino) (cands_list s (tch t)), s).
Proof using Ht Hi.
  destruct Ht as [Hrep Hnd]. unfold find_dentry_by_ino.
  eapply search_cands; [exact Hrep|done|by eapply refs_size|].
  intros r Hr. destruct (cands_list_inode _ _ _ Hr) as [i Hn].
  unfold ino_is, ino_test. rewrite Hn.
  destruct (node_inode_inv _ _ _ Hn) as (d & ir & Hd & Hir & Hino & _).
  erewrite M_bind_ok by (by apply get_dentry_ok). rewrite Hir.
  erewrite M_bind_ok by reflexivity. by erewrite M_bind_ok by (by apply get_inode_ok).
Qed.

Lemma find_by_name_eq name n :
  is_cstr name n ->
  (forall r d, r ∈ cands_list s (tch t) -> dentries s !! r = Some d -> Forall (fun c => c <> 0) (d_name d)) ->
  find_from_all_dentry (troot t) name s = Ok (List.find (name_is s n) (cands_list s (tch t)), s).
Proof using Ht Hi.
  intros Hn Hnames. destruct Ht as [Hrep Hnd]. unfold find_from_all_dentry.
  eapply search_cands; [exact Hrep|done|by eapply refs_size|].
  intros r Hr. destruct (cands_list_inode _ _ _ Hr) as [i Hni].
  destruct (node_inode_inv _ _ _ Hni) as (d & ir & Hd & _).
  unfold name_is, name_test. rewrite Hd. erewrite M_bind_ok by (by apply get_dentry_ok).
  destruct (strcmp_eq (d_name d ++ [0]) name (d_name d) n) as (c & Hc & Hiff);
    [apply is_cstr_app; eauto|done|].
  erewrite M_bind_ok by (unfold lift; by rewrite Hc). unfold mret, M_ret. do 2 f_equal.
  destruct (Z.eqb_spec c 0); case_bool_decide; naive_solver.
Qed.
End searches.

(** C28: find_dentry_by_ino returns, changes nothing, and finds a dentry with the
    number exactly when the searched part of the tree has one. *)
Theorem find_dentry_by_ino_correct s t ino :
  tree_at (dentries s) t -> inodes_ok s (refs t) ->
  exists o, find_dentry_by_ino (troot t) ino s = Ok (o, s) /\
    match o with
    | Some r => r ∈ cands_list s (tch t) /\ exists i, node_inode s r = Some i /\ i_ino i = u32 ino
    | None => forall r i, r ∈ cands_list s (tch t) -> node_inode s r = Some i -> i_ino i <> u32 ino
    end.
Proof.
  intros Ht Hi. eexists. split; [by apply find_by_ino_eq|].
  destruct (List.find _ _) as [r|] eqn:E.
  - apply List.find_some in E as [Hin Hr]. split; [by apply list_elem_of_In|].
    unfold ino_is in Hr. destruct (node_inode s r) as [i|]; [|done].
    exists i. split; [done|]. by apply Z.eqb_eq.
  - intros r i Hin Hn. pose proof (List.find_none _ _ E r) as H.
    unfold ino_is in H. rewrite Hn in H. apply Z.eqb_neq, H. by apply list_elem_of_In.
Qed.

(** find_from_all_dentry: the same for names. *)
Theorem find_from_all_dentry_correct s t name n :
  tree_at (dentries s) t -> inodes_ok s (refs t) -> is_cstr name n ->
  (forall r d, r ∈ cands_list s (tch t) -> dentries s !! r = Some d -> Forall (fun c => c <> 0) (d_name d)) ->
  exists o, find_from_all_dentry (troot t) name s = Ok (o, s) /\
    match o with
    | Some r => r ∈ cands_list s (tch t) /\ exists d, dentries s !! r = Some d /\ d_name d = n
    | None => forall r d, r ∈ cands_list s (tch t) -> dentries s !! r = Some d -> d_name d <> n
    end.
Proof.
  intros Ht Hi Hn Hnames. eexists. split; [by apply find_by_name_eq|].
  destruct (List.find _ _) as [r|] eqn:E.
  - apply List.find_some in E as [Hin Hr]. split; [by apply list_elem_of_In|].
    unfold name_is in Hr. destruct (dentries s !! r) as [d|]; [|done].
    exists d. split; [done|]. by apply bool_decide_eq_true in Hr.
  - intros r d Hin Hd. pose proof (List.find_none _ _ E r) as H.
    unfold name_is in H. rewrite Hd in H. apply list_elem_of_In, H in Hin.
    by apply bool_decide_eq_false in Hin.
Qed.
