(* ===== verification/Umount.v ===== *)
(** * Unmounting takes the tree apart

    shrink_dcache_for_umount_subtree stops the kernel on a dentry whose count is
    not zero.  The theorems here say when that does not happen: when, after
    wjfs_d_genocide, every dentry is held by its children only. *)

From S2P Require Import Prelude KString MapTable Vfs Tree.

(** ** Releasing inodes *)

(** [iput] on the map of inodes. *)
Definition iput_map (ir : nat) (m : gmap nat inode) : gmap nat inode :=
  match m !! ir with
  | Some i => if i_count i - 1 =? 0 then delete ir m
              else <[ir := set_links (i_nlink i) (i_count i - 1) i]> m
  | None => m
  end.

Definition iputs (l : list nat) (m : gmap nat inode) : gmap nat inode :=
  foldl (fun m ir => iput_map ir m) m l.

(** The list releases no inode more often than it is held. *)
Definition held (m : gmap nat inode) (l : list nat) : Prop :=
  forall ir, ir ∈ l -> exists i, m !! ir = Some i /\
    Z.of_nat (length (List.filter (Nat.eqb ir) l)) <= i_count i.

Lemma iput_ok r i s :
  inodes s !! r = Some i -> iput r s = Ok (tt, with_inodes (iput_map r (inodes s)) s).
Proof.
  intros H. unfold iput. erewrite M_bind_ok by (by apply get_inode_ok).
  unfold iput_map. rewrite H. destruct (i_count i - 1 =? 0); [done|].
  by rewrite (upd_inode_ok _ _ _ _ H).
Qed.

Lemma held_head m ir l : held m (ir :: l) -> exists i, m !! ir = Some i.
Proof. intros H. destruct (H ir) as (i & Hi & _); [by left|eauto]. Qed.

Lemma held_step m ir l : held m (ir :: l) -> held (iput_map ir m) l.
Proof.
  intros H x Hx. destruct (H x) as (i & Hi & Hc); [by right|]. cbn [List.filter] in Hc.
  unfold iput_map. destruct (decide (x = ir)) as [->|Hne].
  - rewrite Nat.eqb_refl in Hc. cbn [length] in Hc. rewrite Hi.
    assert (1 <= Z.of_nat (length (List.filter (Nat.eqb ir) l))).
    { destruct (List.filter (Nat.eqb ir) l) as [|y l'] eqn:E; [|simpl; lia].
      exfalso. assert (In ir (List.filter (Nat.eqb ir) l)) as Hin; [|by rewrite E in Hin].
      apply List.filter_In. split; [by apply list_elem_of_In|apply Nat.eqb_refl]. }
    rewrite (proj2 (Z.eqb_neq _ _)) by lia. rewrite lookup_insert_eq.
    eexists. split; [done|]. simpl. lia.
  - rewrite (proj2 (Nat.eqb_neq x ir)) in Hc by done. exists i. split; [|done].
    destruct (m !! ir) as [j|]; [|done].
    destruct (i_count j - 1 =? 0); [by rewrite lookup_delete_ne|by rewrite lookup_insert_ne].
Qed.

Lemma held_app m l1 l2 : held m (l1 ++ l2) -> held (iputs l1 m) l2.
Proof.
  revert m. induction l1 as [|ir l1 IH]; intros m H; simpl in *; [done|]. by apply IH, held_step.
Qed.

Lemma held_app_l m l1 l2 : held m (l1 ++ l2) -> held m l1.
Proof.
  intros H ir Hir. destruct (H ir) as (i & Hi & Hc); [set_solver|]. exists i. split; [done|].
  rewrite List.filter_app, length_app in Hc. lia.
Qed.

Lemma iputs_app l1 l2 m : iputs (l1 ++ l2) m = iputs l2 (iputs l1 m).
Proof. apply foldl_app. Qed.

(** ** What the walk needs and leaves *)

#[local] Set Warnings "-register-all".

(** Every dentry of the tree is held by its children only. *)
Inductive uready (m : gmap nat dentry) (p : nat) : tree -> Prop :=
  | uready_node r ch d :
      m !! r = Some d -> d_parent d = p -> d_subdirs d = map troot ch ->
      d_count d = Z.of_nat (length ch) -> Forall (uready m r) ch -> uready m p (Node r ch).

(** The inode of a dentry, and those of a tree in the order of their release. *)
Definition dino (m : gmap nat dentry) (r : nat) : list nat :=
  match m !! r with Some d => match d_inode d with Some ir => [ir] | None => [] end | None => [] end.

Fixpoint tinodes (m : gmap nat dentry) (t : tree) : list nat :=
  let 'Node r ch := t in concat (map (tinodes m) ch) ++ dino m r.

Definition tinodes_list (m : gmap nat dentry) (ts : list tree) : list nat :=
  concat (map (tinodes m) ts).

(** Same parent, children, count and inode. *)
Definition core_eq (d d' : dentry) : Prop :=
  d_parent d = d_parent d' /\ d_subdirs d = d_subdirs d' /\ d_count d = d_count d' /\
  d_inode d = d_inode d'.

Definition core_on (l : list nat) (m m' : gmap nat dentry) : Prop :=
  forall r d, r ∈ l -> m !! r = Some d -> exists d', m' !! r = Some d' /\ core_eq d d'.

Lemma core_on_sub l l' m m' : l ⊆ l' -> core_on l' m m' -> core_on l m m'.
Proof. intros Hs H r d Hr. apply H. by apply Hs. Qed.

Lemma uready_core m m' t : forall p, core_on (refs t) m m' -> uready m p t -> uready m' p t.
Proof.
  induction t as [r ch IH] using tree_rect_all. intros p Hc Hu.
  inversion Hu as [? ? d Hr Hp Hsub Hcnt Hch]; subst.
  destruct (Hc r d) as (d' & Hr' & E1 & E2 & E3 & E4); [simpl; by left|done|].
  apply uready_node with d'; [done|congruence..|].
  rewrite List.Forall_forall in *. intros c Hin. apply (IH c Hin); [|by apply Hch].
  eapply core_on_sub; [|exact Hc]. intros x Hx. simpl. right.
  apply (refs_child c ch); [by apply list_elem_of_In|done].
Qed.

Lemma dino_core m m' r d : m !! r = Some d -> core_on [r] m m' -> dino m' r = dino m r.
Proof.
  intros Hr Hc. destruct (Hc r d) as (d' & Hr' & _ & _ & _ & E); [by left|done|].
  unfold dino. by rewrite Hr, Hr', E.
Qed.

Lemma tinodes_core m m' t :
  forall p, core_on (refs t) m m' -> uready m p t -> tinodes m' t = tinodes m t.
Proof.
  induction t as [r ch IH] using tree_rect_all. intros p Hc Hu.
  inversion Hu as [? ? d Hr Hp Hsub Hcnt Hch]; subst. simpl. f_equal.
  - f_equal. apply map_ext_in. intros c Hin. rewrite List.Forall_forall in *.
    apply (IH c Hin r); [|by apply Hch].
    eapply core_on_sub; [|exact Hc]. intros x Hx. simpl. right.
    apply (refs_child c ch); [by apply list_elem_of_In|done].
  - apply (dino_core _ _ _ d Hr). eapply core_on_sub; [|exact Hc].
    intros x ->%list_elem_of_singleton. simpl. by left.
Qed.

(** ** The steps *)

Lemma d_drop_ok r d s :
  dentries s !! r = Some d ->
  exists s', d_drop r s = Ok (tt, s') /\ inodes s' = inodes s /\
    dentries s' = <[r := set_d_hashed false d]> (dentries s).
Proof.
  intros H. unfold d_drop. erewrite M_bind_ok by (by apply get_dentry_ok).
  destruct (d_hashed d) eqn:E.
  - erewrite M_bind_ok by (by apply upd_dentry_ok). eexists. split; [done|]. done.
  - eexists. split; [done|]. split; [done|]. rewrite insert_id; [done|].
    destruct d. simpl in E. subst. done.
Qed.

(** Unhashing a list of dentries keeps everything [uready] speaks of. *)
Lemma drop_all_ok l : forall s,
  (forall r, r ∈ l -> is_Some (dentries s !! r)) ->
  exists s', drop_all l s = Ok (tt, s') /\ inodes s' = inodes s /\
    (forall r, r ∉ l -> dentries s' !! r = dentries s !! r) /\
    forall r d, dentries s !! r = Some d -> exists d', dentries s' !! r = Some d' /\ core_eq d d'.
Proof.
  induction l as [|x l IH]; intros s Hl; cbn [drop_all].
  - eexists. split; [done|]. split; [done|]. split; [done|]. intros r d Hr. by exists d.
  - destruct (Hl x) as [d Hx]; [by left|].
    erewrite M_bind_ok by (by apply upd_dentry_ok).
    destruct (d_drop_ok x (set_d_lru false d) (with_dentries (<[x := set_d_lru false d]> (dentries s)) s))
      as (s1 & E1 & Ei & Ed); [apply lookup_insert_eq|].
    erewrite M_bind_ok by exact E1. simpl in Ei, Ed. rewrite insert_insert_eq in Ed.
    destruct (IH s1) as (s' & E' & Ei' & Hout & Hcore).
    { intros r Hr. rewrite Ed. destruct (decide (x = r)) as [->|Hne].
      - rewrite lookup_insert_eq. eauto.
      - rewrite lookup_insert_ne by done. apply Hl. by right. }
    exists s'. split; [done|]. split; [congruence|]. split.
    + intros r [Hrx Hr]%not_elem_of_cons. rewrite Hout by done. by rewrite Ed, lookup_insert_ne.
    + intros r e Hr. destruct (decide (x = r)) as [->|Hne].
      * destruct (Hcore r (set_d_hashed false (set_d_lru false d))) as (d' & Hd' & Hc);
          [by rewrite Ed, lookup_insert_eq|].
        exists d'. split; [done|]. simplify_eq. destruct Hc as (? & ? & ? & ?). by repeat split.
      * apply (Hcore r e). by rewrite Ed, lookup_insert_ne.
Qed.

(** The dentry is released: its inode loses a reference, it is freed. *)
Lemma release_ok r d s :
  dentries s !! r = Some d -> held (inodes s) (dino (dentries s) r) ->
  (dentry_iput r;; modify (fun s => with_dentries (delete r (dentries s)) s)) s
  = Ok (tt, with_dentries (delete r (dentries s))
              (with_inodes (iputs (dino (dentries s) r) (inodes s)) s)).
Proof.
  intros Hr Hh. unfold dino in *. rewrite Hr in *. unfold dentry_iput.
  destruct (d_inode d) as [ir|] eqn:E.
  - destruct (held_head _ _ _ Hh) as [i Hi].
    erewrite M_bind_ok; cycle 1.
    { erewrite M_bind_ok by (by apply get_dentry_ok). rewrite E.
      erewrite M_bind_ok by (by apply upd_dentry_ok). by apply (iput_ok ir i). }
    unfold modify. simpl. rewrite delete_insert_eq. done.
  - erewrite M_bind_ok; [|erewrite M_bind_ok by (by apply get_dentry_ok); rewrite E; reflexivity].
    unfold modify. simpl. by destruct s.
Qed.

(** Where the walk goes when a child of [p] is gone. *)
Definition resume (fuel : nat) (p : nat) : M unit :=
  pd ← get_dentry p;
  match d_subdirs pd with
  | [] => umount_loop fuel true p
  | c :: _ => umount_loop fuel false c
  end.

(** After the subtree [t] under [p]: its dentries are gone, their inodes
    released, [p] has one child and one reference less. *)
Definition consumed (t : tree) (p : nat) (rest : list nat) (s s' : kstate) : Prop :=
  inodes s' = iputs (tinodes (dentries s) t) (inodes s) /\
  (forall r, r ∈ refs t -> dentries s' !! r = None) /\
  (forall r, r ∉ refs t -> r <> p -> dentries s' !! r = dentries s !! r) /\
  exists pd, dentries s !! p = Some pd /\
    dentries s' !! p = Some (set_d_subdirs rest (set_d_count (d_count pd - 1) pd)).

(** Consuming a dentry without children. *)
Lemma consume_leaf fuel p pd r d rest s :
  dentries s !! r = Some d -> d_parent d = p -> p <> r -> d_count d = 0 ->
  dentries s !! p = Some pd -> d_subdirs pd = r :: rest -> r ∉ rest ->
  held (inodes s) (dino (dentries s) r) ->
  exists s', umount_loop (S fuel) true r s = resume fuel p s' /\
    inodes s' = iputs (dino (dentries s) r) (inodes s) /\
    dentries s' = delete r (<[p := set_d_subdirs rest (set_d_count (d_count pd - 1) pd)]> (dentries s)).
Proof.
  intros Hr Hp Hne Hc Hpd Hsub Hrest Hh. cbn [umount_loop].
  erewrite M_bind_ok by (by apply get_dentry_ok). cbn [negb].
  rewrite Hc, Z.eqb_refl, Hp, (proj2 (Nat.eqb_neq p r)) by done. cbn [negb].
  erewrite M_bind_ok by (by apply upd_dentry_ok).
  erewrite M_bind_ok by (apply upd_dentry_ok, lookup_insert_eq).
  cbn [dentries with_dentries d_subdirs set_d_count]. rewrite insert_insert_eq.
  set (pd' := set_d_subdirs _ _).
  assert (Epd : pd' = set_d_subdirs rest (set_d_count (d_count pd - 1) pd)).
  { unfold pd'. f_equal. rewrite Hsub. simpl. rewrite Nat.eqb_refl. simpl.
    clear -Hrest. induction rest as [|x l IH]; [done|]. simpl.
    apply not_elem_of_cons in Hrest as [Hx Hl]. rewrite (proj2 (Nat.eqb_neq x r)) by done.
    simpl. f_equal. by apply IH. }
  set (s1 := with_dentries _ (with_dentries _ s)).
  assert (Hr1 : dentries s1 !! r = Some d) by (simpl; by rewrite lookup_insert_ne).
  assert (Hd1 : dino (dentries s1) r = dino (dentries s) r) by (unfold dino; by rewrite Hr1, Hr).
  pose proof (release_ok r d s1 Hr1) as Hrel. rewrite Hd1 in Hrel. specialize (Hrel Hh).
  unfold mbind, M_bind in Hrel |- *.
  destruct (dentry_iput r s1) as [[[] s2]|]; [|done].
  unfold modify in *. exists (with_dentries (delete r (dentries s2)) s2).
  split; [done|]. inversion Hrel as [[Hi Hd]]. simpl. by rewrite Hi, Hd, Epd.
Qed.

(** ** The walk *)

Definition consumes (t : tree) : Prop := forall fuel p pd rest s,
  uready (dentries s) p t -> NoDup (refs t) -> p ∉ refs t ->
  dentries s !! p = Some pd -> d_subdirs pd = troot t :: rest -> troot t ∉ rest ->
  held (inodes s) (tinodes (dentries s) t) ->
  exists s', umount_loop (2 * length (refs t) + fuel) false (troot t) s = resume fuel p s' /\
    consumed t p rest s s'.

Lemma core_on_same l m m' : (forall r, r ∈ l -> m' !! r = m !! r) -> core_on l m m'.
Proof. intros H r d Hr Hd. exists d. rewrite H by done. by repeat split. Qed.

(** Dentries that did not change, in the terms the walk uses. *)
Lemma uready_list_same m m' r ts :
  (forall x, x ∈ refs_list ts -> m' !! x = m !! x) ->
  Forall (uready m r) ts -> Forall (uready m' r) ts /\ tinodes_list m' ts = tinodes_list m ts.
Proof.
  intros Hs Hu. split.
  - rewrite List.Forall_forall in *. intros c Hc. eapply uready_core; [|by apply Hu].
    apply core_on_same. intros x Hx. apply Hs. apply (refs_child c ts); [by apply list_elem_of_In|done].
  - unfold tinodes_list. f_equal. apply map_ext_in. intros c Hc. rewrite List.Forall_forall in Hu.
    eapply tinodes_core; [|by apply Hu].
    apply core_on_same. intros x Hx. apply Hs. apply (refs_child c ts); [by apply list_elem_of_In|done].
Qed.

(** The first children [ts] of [r], with the children [more] behind them. *)
Lemma consume_some r more ts : forall fuel s d,
  Forall consumes ts -> Forall (uready (dentries s) r) ts -> NoDup (refs_list ts) ->
  r ∉ refs_list ts -> (forall x, x ∈ refs_list ts -> x ∉ more) ->
  dentries s !! r = Some d -> d_subdirs d = map troot ts ++ more ->
  held (inodes s) (tinodes_list (dentries s) ts) ->
  exists s', resume (2 * length (refs_list ts) + fuel) r s = resume fuel r s' /\
    inodes s' = iputs (tinodes_list (dentries s) ts) (inodes s) /\
    (forall x, x ∈ refs_list ts -> dentries s' !! x = None) /\
    (forall x, x ∉ refs_list ts -> x <> r -> dentries s' !! x = dentries s !! x) /\
    dentries s' !! r = Some (set_d_subdirs more (set_d_count (d_count d - Z.of_nat (length ts)) d)).
Proof.
  induction ts as [|c ts IH]; intros fuel s d Hc Hu Hnd Hr Hmore Hd Hsub Hh.
  - exists s. split; [done|]. split; [done|]. split; [by intros x ?%not_elem_of_nil|]. split; [done|].
    rewrite Hd. destruct d. simpl in Hsub. subst. unfold set_d_count, set_d_subdirs. simpl.
    do 2 f_equal. lia.
  - apply Forall_cons_iff in Hc as [Hcc Hc]. apply Forall_cons_iff in Hu as [Huc Hu].
    unfold refs_list, tinodes_list in *. cbn [map concat app] in *.
    apply list.NoDup_app in Hnd as (Hndc & Hdisj & Hnd).
    apply not_elem_of_app in Hr as [Hrc Hr].
    assert (Hroot : troot c ∉ map troot ts ++ more).
    { intros [Hin|Hin]%elem_of_app; [|apply (Hmore (troot c)); [apply elem_of_app; left; apply refs_root|done]].
      apply list_elem_of_fmap in Hin as (c' & Hc' & Hin).
      apply (Hdisj (troot c)); [apply refs_root|]. rewrite Hc'. apply (refs_child c' ts Hin), refs_root. }
    unfold resume at 1. erewrite M_bind_ok by (by apply get_dentry_ok). rewrite Hsub.
    rewrite length_app. replace (2 * (length (refs c) + length (concat (map refs ts))) + fuel)%nat
      with (2 * length (refs c) + (2 * length (concat (map refs ts)) + fuel))%nat by lia.
    destruct (Hcc (2 * length (concat (map refs ts)) + fuel)%nat r d (map troot ts ++ more) s)
      as (s1 & -> & Ei & Egone & Esame & pd & Hpd & Er1); try done; [by eapply held_app_l|].
    simplify_eq.
    assert (Hsame : forall x, x ∈ refs_list ts -> dentries s1 !! x = dentries s !! x).
    { intros x Hx. apply Esame; [|by intros ->]. intros Hx'. by apply (Hdisj x). }
    destruct (uready_list_same _ _ r ts Hsame Hu) as [Hu1 Et1].
    assert (Hmore' : forall x, x ∈ concat (map refs ts) -> x ∉ more)
      by (intros x Hx; apply Hmore, elem_of_app; by right).
    destruct (IH fuel s1 _ Hc Hu1 Hnd Hr Hmore' Er1) as (s' & E' & Ei' & Egone' & Esame' & Er').
    + done.
    + unfold tinodes_list in Et1. rewrite Et1, Ei. by apply held_app.
    + exists s'. split; [exact E'|]. split.
      { unfold tinodes_list in Et1. rewrite Ei', Et1, Ei. by rewrite iputs_app. }
      split; [|split].
      * intros x [Hx|Hx]%elem_of_app; [|by apply Egone'].
        destruct (decide (x = r)) as [->|Hne]; [done|].
        rewrite Esame' by (done || intros Hx'; by apply (Hdisj x)). by apply Egone.
      * intros x [Hx1 Hx2]%not_elem_of_app Hne. rewrite Esame' by done. by apply Esame.
      * rewrite Er'. unfold set_d_count, set_d_subdirs. simpl. do 2 f_equal. lia.
Qed.

Lemma consume_list r ts fuel s d :
  Forall consumes ts -> Forall (uready (dentries s) r) ts -> NoDup (refs_list ts) ->
  r ∉ refs_list ts -> dentries s !! r = Some d -> d_subdirs d = map troot ts ->
  held (inodes s) (tinodes_list (dentries s) ts) ->
  exists s', resume (2 * length (refs_list ts) + fuel) r s = umount_loop fuel true r s' /\
    inodes s' = iputs (tinodes_list (dentries s) ts) (inodes s) /\
    (forall x, x ∈ refs_list ts -> dentries s' !! x = None) /\
    (forall x, x ∉ refs_list ts -> x <> r -> dentries s' !! x = dentries s !! x) /\
    dentries s' !! r = Some (set_d_subdirs [] (set_d_count (d_count d - Z.of_nat (length ts)) d)).
Proof.
  intros Hc Hu Hnd Hr Hd Hsub Hh.
  destruct (consume_some r [] ts fuel s d) as (s' & E & H1 & H2 & H3 & H4); try done;
    [by intros x _ ?%not_elem_of_nil|by rewrite app_nil_r|].
  exists s'. split_and!; try done. rewrite E. unfold resume. by erewrite M_bind_ok by (by apply get_dentry_ok).
Qed.

Lemma uready_there m r ch c : Forall (uready m r) ch -> c ∈ ch -> is_Some (m !! troot c).
Proof.
  intros Hch Hc. rewrite List.Forall_forall in Hch. apply list_elem_of_In in Hc.
  specialize (Hch c Hc). inversion Hch; subst; simpl; eauto.
Qed.

(** Descending: the children are unhashed, then the first of them is next. *)
Lemma descend r ch d fuel s :
  dentries s !! r = Some d -> d_subdirs d = map troot ch -> r ∉ refs_list ch ->
  (forall c, c ∈ ch -> is_Some (dentries s !! troot c)) ->
  exists s1, umount_loop (S fuel) false r s = resume fuel r s1 /\ inodes s1 = inodes s /\
    (forall x, x ∉ refs_list ch -> dentries s1 !! x = dentries s !! x) /\
    core_on (refs_list ch) (dentries s) (dentries s1).
Proof.
  intros Hr Hdsub Hnr Hch.
  cbn [umount_loop]. erewrite M_bind_ok by (by apply get_dentry_ok). cbn [negb].
  rewrite Hdsub. destruct ch as [|c0 ch].
  - exists s. unfold resume. erewrite M_bind_ok by (by apply get_dentry_ok). rewrite Hdsub.
    split; [done|]. split; [done|]. split; [done|]. by apply core_on_same.
  - destruct (drop_all_ok (map troot (c0 :: ch)) s) as (s1 & E1 & Ei1 & Eout & Ecore).
    { intros x Hx. apply list_elem_of_fmap in Hx as (c & -> & Hc). by apply Hch. }
    assert (Hroots : forall x, x ∉ refs_list (c0 :: ch) -> x ∉ map troot (c0 :: ch)).
    { intros x Hx Hin. apply Hx. apply list_elem_of_fmap in Hin as (c & -> & Hc).
      apply (refs_child c (c0 :: ch) Hc), refs_root. }
    exists s1. cbn [map] in E1 |- *. erewrite M_bind_ok by exact E1.
    unfold resume. erewrite M_bind_ok by (apply get_dentry_ok; rewrite Eout by auto; done).
    rewrite Hdsub. split; [done|]. split; [done|]. split; [auto|]. intros x dx _ Hx. eauto.
Qed.

(** The children after the descent. *)
Lemma descend_children m m' r ch :
  core_on (refs_list ch) m m' -> Forall (uready m r) ch ->
  Forall (uready m' r) ch /\ tinodes_list m' ch = tinodes_list m ch.
Proof.
  intros Hc Hch. rewrite List.Forall_forall in Hch. split.
  - rewrite List.Forall_forall. intros c Hin. eapply uready_core; [|by apply Hch].
    eapply core_on_sub; [|exact Hc]. by apply refs_child, list_elem_of_In.
  - unfold tinodes_list. f_equal. apply map_ext_in. intros c Hin.
    eapply tinodes_core; [|by apply Hch].
    eapply core_on_sub; [|exact Hc]. by apply refs_child, list_elem_of_In.
Qed.

Lemma consume_tree t : consumes t.
Proof.
  induction t as [r ch IH] using tree_rect_all.
  intros fuel p pd rest s Hu Hnd Hp Hpd Hsub Hrest Hh. cbn [troot] in *.
  inversion Hu as [? ? d Hr Hpar Hdsub Hcnt Hch]; subst p.
  rewrite refs_unfold in *. cbn [troot tch length] in *.
  apply list.NoDup_cons in Hnd as [Hnr Hnd]. apply not_elem_of_cons in Hp as [Hpr Hp].
  replace (2 * S (length (refs_list ch)) + fuel)%nat
    with (S (2 * length (refs_list ch) + S fuel)) by lia.
  destruct (descend r ch d (2 * length (refs_list ch) + S fuel) s) as (s1 & -> & Ei1 & Eout & Ecore);
    try done; [by intros c; apply (uready_there _ r)|].
  assert (Hr1 : dentries s1 !! r = Some d) by (by rewrite Eout).
  destruct (descend_children _ _ r ch Ecore Hch) as [Hu1 Et1].
  (* the children *)
  cbn [tinodes] in Hh. fold (tinodes_list (dentries s) ch) in Hh.
  destruct (consume_list r ch (S fuel) s1 d IH Hu1 Hnd Hnr Hr1 Hdsub)
    as (s2 & -> & Ei2 & Egone2 & Esame2 & Er2).
  { rewrite Et1, Ei1. by eapply held_app_l. }
  (* the dentry itself *)
  assert (Hp2 : dentries s2 !! d_parent d = Some pd) by (rewrite Esame2, Eout by done; done).
  assert (Hdino : dino (dentries s2) r = dino (dentries s) r) by (unfold dino; by rewrite Er2, Hr).
  destruct (consume_leaf fuel (d_parent d) pd r _ rest s2 Er2)
    as (s' & -> & Ei' & Ed'); try done; [simpl; lia|by rewrite Hdino, Ei2, Et1, Ei1; apply held_app|].
  exists s'. split; [done|]. split.
  { rewrite Ei', Hdino, Ei2, Et1, Ei1. cbn [tinodes]. by rewrite iputs_app. }
  split; [|split].
  - intros x Hx. rewrite Ed'. destruct (decide (r = x)) as [<-|Hne]; [by rewrite lookup_delete_eq|].
    rewrite lookup_delete_ne by done. simpl in Hx. apply elem_of_cons in Hx as [->|Hx]; [done|].
    rewrite lookup_insert_ne by (intros <-; done). by apply Egone2.
  - intros x [Hxr Hx]%not_elem_of_cons Hxp.
    rewrite Ed', lookup_delete_ne, lookup_insert_ne by done. by rewrite Esame2, Eout.
  - exists pd. split; [done|]. by rewrite Ed', lookup_delete_ne, lookup_insert_eq by done.
Qed.

(** ** Unmounting after wjfs_d_genocide *)

Lemma tinodes_ext m m' t :
  (forall r, r ∈ refs t -> dino m' r = dino m r) -> tinodes m' t = tinodes m t.
Proof.
  induction t as [r ch IH] using tree_rect_all. intros H. cbn [tinodes]. f_equal.
  - f_equal. apply map_ext_in. intros c Hc. rewrite List.Forall_forall in IH.
    apply (IH c Hc). intros x Hx. apply H. simpl. right.
    apply (refs_child c ch); [by apply list_elem_of_In|done].
  - apply H. simpl. by left.
Qed.

(** The references on a dentry that are neither its children's nor the one
    wjfs_mknod took: those of open files, working directories and path walks. *)
Definition users (m : gmap nat dentry) (r : nat) : Z :=
  match m !! r with
  | Some d => d_count d - Z.of_nat (length (d_subdirs d)) - 1
  | None => 0
  end.

(** Nobody uses the node. *)
Definition idle (m : gmap nat dentry) : Prop := forall r, users m r = 0.

Lemma idle_count m r d :
  idle m -> m !! r = Some d -> d_count d = Z.of_nat (length (d_subdirs d)) + 1.
Proof. intros Hi Hr. specialize (Hi r). unfold users in Hi. rewrite Hr in Hi. lia. Qed.

(** At rest every dentry is hashed and positive. *)
Inductive pinned (m : gmap nat dentry) (p : nat) : tree -> Prop :=
  | pinned_node r ch d :
      m !! r = Some d -> d_parent d = p -> d_subdirs d = map troot ch ->
      simple_positive d = true ->
      Forall (pinned m r) ch -> pinned m p (Node r ch).

Lemma pinned_rep m t : forall p, pinned m p t -> rep m p t.
Proof.
  induction t as [r ch IH] using tree_rect_all. intros p Hp. inversion Hp as [? ? d]; subst.
  apply rep_node with d; [done..|]. rewrite List.Forall_forall in *. auto.
Qed.

Lemma pinned_victims m t : forall p r, pinned m p t -> r ∈ refs t -> r ∈ victims m t.
Proof.
  induction t as [x ch IH] using tree_rect_all. intros p r Hp Hr.
  inversion Hp as [? ? d Hx _ _ Hpos Hch]; subst. cbn [victims refs] in *.
  unfold alive. rewrite Hx, Hpos. apply elem_of_cons in Hr as [->|Hr]; [set_solver|].
  apply elem_of_app. left. rewrite list_elem_of_In, in_concat in *.
  destruct Hr as (l & Hl & Hr). apply in_map_iff in Hl as (c & <- & Hc).
  exists (victims m c). split; [by apply in_map|]. rewrite List.Forall_forall in IH, Hch.
  apply list_elem_of_In, (IH c Hc x); [by apply Hch|by apply list_elem_of_In].
Qed.

Lemma pinned_uready m V t : forall p,
  idle m -> NoDup V -> (forall r, r ∈ refs t -> r ∈ V) -> pinned m p t -> uready (dec_all V m) p t.
Proof.
  induction t as [r ch IH] using tree_rect_all. intros p Hidle HV Hin Hp.
  inversion Hp as [? ? d Hr Hpar Hsub _ Hch]; subst.
  pose proof (idle_count _ _ _ Hidle Hr) as Hcnt. rewrite Hsub, length_map in Hcnt.
  apply uready_node with (set_d_count (d_count d - 1) d); try done.
  - rewrite dec_all_lookup, Hr, count_occ_nodup by done. simpl.
    by rewrite bool_decide_true by (apply Hin; simpl; by left).
  - simpl. lia.
  - rewrite List.Forall_forall in *. intros c Hc. apply (IH c Hc); [done|done| |by apply Hch].
    intros x Hx. apply Hin. simpl. right. apply (refs_child c ch); [by apply list_elem_of_In|done].
Qed.

(** A mounted tree at rest: a root that is its own parent, pinned children. *)
Record resting (m : gmap nat dentry) (t : tree) : Prop := {
  rs_nodup : NoDup (refs t);
  rs_root : exists d, m !! troot t = Some d /\ d_parent d = troot t /\
    d_subdirs d = map troot (tch t);
  rs_children : Forall (pinned m (troot t)) (tch t);
}.

Lemma resting_tree_at m t : resting m t -> tree_at m t.
Proof.
  intros [Hnd (d & Hd & Hp & Hs) Hch]. split; [|done].
  destruct t as [r ch]. apply rep_node with d; [done..|].
  rewrite List.Forall_forall in *. intros c Hc. by apply pinned_rep, Hch.
Qed.

(** Consuming the root, when its children are gone. *)
Lemma consume_root fuel r d s :
  dentries s !! r = Some d -> d_parent d = r -> d_count d = 0 ->
  held (inodes s) (dino (dentries s) r) ->
  umount_loop (S fuel) true r s
  = Ok (tt, with_dentries (delete r (dentries s))
              (with_inodes (iputs (dino (dentries s) r) (inodes s)) s)).
Proof.
  intros Hr Hp Hc Hh. cbn [umount_loop]. erewrite M_bind_ok by (by apply get_dentry_ok).
  cbn [negb]. rewrite Hc, Z.eqb_refl, Hp, Nat.eqb_refl. cbn [negb]. by apply (release_ok r d).
Qed.

Lemma umount_subtree_clean s t d :
  dentries s !! troot t = Some d -> d_parent d = troot t -> d_subdirs d = map troot (tch t) ->
  d_count d = Z.of_nat (length (tch t)) -> Forall (uready (dentries s) (troot t)) (tch t) ->
  NoDup (refs t) -> held (inodes s) (tinodes (dentries s) t) ->
  (length (refs t) <= size (dentries s))%nat ->
  exists s', umount_subtree (troot t) s = Ok (tt, s') /\
    inodes s' = iputs (tinodes (dentries s) t) (inodes s) /\
    (forall r, r ∈ refs t -> dentries s' !! r = None) /\
    (forall r, r ∉ refs t -> dentries s' !! r = dentries s !! r).
Proof.
  destruct t as [root ch]. cbn [troot tch refs tinodes].
  fold (refs_list ch). fold (tinodes_list (dentries s) ch).
  intros Hd Hp Hsub Hcnt Hu [Hnr Hnd]%list.NoDup_cons Hh Hsz. cbn [length] in Hsz.
  unfold umount_subtree.
  replace (2 * size (dentries s))%nat with
    (S (2 * length (refs_list ch) + S (2 * size (dentries s) - 2 * length (refs_list ch) - 2)))%nat by lia.
  set (k := (2 * size (dentries s) - 2 * length (refs_list ch) - 2)%nat).
  destruct (descend root ch d (2 * length (refs_list ch) + S k) s) as (s1 & -> & Ei1 & Eout & Ecore);
    try done; [by intros c; apply (uready_there _ root)|].
  destruct (descend_children _ _ root ch Ecore Hu) as [Hu1 Et1].
  assert (Hr1 : dentries s1 !! root = Some d) by (by rewrite Eout).
  assert (Hall : Forall consumes ch) by (apply Forall_lookup; intros; apply consume_tree).
  destruct (consume_list root ch (S k) s1 d Hall Hu1 Hnd Hnr Hr1 Hsub)
    as (s2 & -> & Ei2 & Egone2 & Esame2 & Er2).
  { rewrite Et1, Ei1. by eapply held_app_l. }
  assert (Hdino : dino (dentries s2) root = dino (dentries s) root)
    by (unfold dino; by rewrite Er2, Hd).
  rewrite (consume_root k root _ s2 Er2); [|done|simpl; lia|].
  - eexists. split; [done|]. simpl. rewrite Hdino, Ei2, Et1, Ei1, iputs_app. split; [done|]. split.
    + intros r [->|Hr]%elem_of_cons; [by rewrite lookup_delete_eq|].
      rewrite lookup_delete_ne by (by intros ->). by apply Egone2.
    + intros r [Hne Hr]%not_elem_of_cons. rewrite lookup_delete_ne by done.
      by rewrite Esame2, Eout.
  - rewrite Hdino, Ei2, Et1, Ei1. by apply held_app.
Qed.

Lemma dec_all_notin V m r : r ∉ V -> dec_all V m !! r = m !! r.
Proof.
  intros H. rewrite dec_all_lookup.
  assert (List.filter (Nat.eqb r) V = []) as ->.
  { induction V as [|x V IH]; simpl; [done|]. apply not_elem_of_cons in H as [Hx HV].
    rewrite (proj2 (Nat.eqb_neq r x)) by done. auto. }
  destruct (m !! r) as [[]|]; simpl; [|done]. unfold set_d_count. simpl. do 2 f_equal. lia.
Qed.

Lemma dino_dec_all V m r : dino (dec_all V m) r = dino m r.
Proof. unfold dino. rewrite dec_all_lookup. by destruct (m !! r). Qed.

Lemma size_dec_all V m : size (dec_all V m) = size m.
Proof.
  rewrite <- !(size_dom (D := gset nat)). f_equal. apply set_eq. intros r.
  rewrite !elem_of_dom, dec_all_lookup. by destruct (m !! r).
Qed.

(** The children of the root, once wjfs_d_genocide has dropped their references. *)
Lemma children_uready m m' r ch :
  idle m -> NoDup (victims_list m ch) -> r ∉ refs_list ch -> Forall (pinned m r) ch ->
  (forall x, x <> r -> m' !! x = dec_all (victims_list m ch) m !! x) -> Forall (uready m' r) ch.
Proof.
  intros Hidle HV Hnr Hch Hm. rewrite List.Forall_forall in *. intros c Hc.
  assert (Hcl : refs c ⊆ refs_list ch) by (by apply refs_child, list_elem_of_In).
  eapply uready_core; [|apply (pinned_uready m (victims_list m ch)); [done|done| |by apply Hch]].
  - apply core_on_same. intros x Hx. apply Hm. intros ->. by apply Hnr, Hcl.
  - intros x Hx. unfold victims_list. rewrite list_elem_of_In, in_concat.
    exists (victims m c). split; [by apply in_map|].
    apply list_elem_of_In. eapply pinned_victims; [by apply Hch|done].
Qed.

(** The steps up to the walk that frees the dentries: wjfs_d_genocide and the
    root's own reference. *)
Lemma kill_litter_walk s t d :
  tree_at (dentries s) t -> dentries s !! troot t = Some d ->
  let V := victims_list (dentries s) (tch t) in
  exists s4, wjfs_kill_litter_super (Some (troot t)) s = umount_subtree (troot t) s4 /\
    inodes s4 = inodes s /\ (forall r, r <> troot t -> dentries s4 !! r = dec_all V (dentries s) !! r) /\
    dentries s4 !! troot t = Some (set_d_hashed false (set_d_lru false (dec_count d))) /\
    tinodes (dentries s4) t = tinodes (dentries s) t /\ (length (refs t) <= size (dentries s4))%nat.
Proof.
  intros Hta Hd V. pose proof (ta_nodup _ _ Hta) as Hnd. destruct (rep_inv _ _ _ (ta_rep _ _ Hta)) as (d' & Hd' & Hp & _ & _).
  rewrite Hd in Hd'. injection Hd' as <-.
  pose proof Hnd as Hnd'. rewrite refs_unfold in Hnd'. apply list.NoDup_cons in Hnd' as [Hnr _].
  cbn [wjfs_kill_litter_super]. erewrite M_bind_ok by (by apply genocide_dropped). fold V.
  assert (Hroot : troot t ∉ V) by (intros Hin%victims_list_refs; done).
  set (s1 := dropped V s).
  assert (Hd1 : dentries s1 !! troot t = Some d) by (simpl; by rewrite dec_all_notin).
  unfold shrink_dcache_for_umount.
  erewrite M_bind_ok by (by eapply atomic_dec_d_ok). simpl.
  set (s2 := with_dentries _ s1).
  assert (Hd2 : dentries s2 !! troot t = Some (dec_count d))
    by (simpl in *; by rewrite lookup_alter_eq, Hd1).
  erewrite M_bind_ok by (by apply get_dentry_ok).
  rewrite (proj2 (Nat.eqb_eq _ _)) by (by simpl). cbn [negb].
  erewrite M_bind_ok by (by apply upd_dentry_ok).
  set (s3 := with_dentries _ s2).
  destruct (d_drop_ok (troot t) (set_d_lru false (dec_count d)) s3) as (s4 & E4 & Ei4 & Ed4);
    [apply lookup_insert_eq|].
  erewrite M_bind_ok by exact E4. exists s4.
  assert (Hd4 : forall r, r <> troot t -> dentries s4 !! r = dec_all V (dentries s) !! r).
  { intros r Hne. rewrite Ed4. simpl. by rewrite !lookup_insert_ne, lookup_alter_ne by done. }
  assert (Hr4 : dentries s4 !! troot t = Some (set_d_hashed false (set_d_lru false (dec_count d))))
    by (by rewrite Ed4, lookup_insert_eq).
  split_and!; try done.
  - apply tinodes_ext. intros r _. rewrite <- (dino_dec_all V (dentries s) r).
    destruct (decide (r = troot t)) as [->|Hne]; unfold dino; [|by rewrite Hd4].
    by rewrite Hr4, dec_all_notin, Hd.
  - rewrite Ed4. unfold s3, s2, s1. simpl. rewrite insert_insert_eq.
    etransitivity; [by eapply refs_size; [apply ta_rep|]|].
    rewrite <- (size_dec_all V (dentries s)), <- !(size_dom (D := gset nat)).
    apply subseteq_size. rewrite dom_insert, dom_alter. set_solver.
Qed.

(** Unmounting a tree at rest: wjfs_d_genocide takes the pinning references, the
    unmount walk finds every dentry unused, frees all of them and releases
    their inodes, and nothing else changes. *)
Lemma umount_clean s t :
  resting (dentries s) t -> idle (dentries s) -> held (inodes s) (tinodes (dentries s) t) ->
  exists s', wjfs_kill_litter_super (Some (troot t)) s = Ok (tt, s') /\
    inodes s' = iputs (tinodes (dentries s) t) (inodes s) /\
    (forall r, r ∈ refs t -> dentries s' !! r = None) /\
    (forall r, r ∉ refs t -> dentries s' !! r = dentries s !! r).
Proof.
  intros Hrest Hidle Hh. pose proof (resting_tree_at _ _ Hrest) as Hta.
  destruct Hrest as [Hnd (d & Hd & Hp & Hsub) Hch].
  pose proof (idle_count _ _ _ Hidle Hd) as Hcnt. rewrite Hsub, length_map in Hcnt.
  pose proof Hnd as Hnd'. rewrite refs_unfold in Hnd'. apply list.NoDup_cons in Hnd' as [Hnr Hndl].
  destruct (kill_litter_walk s t d Hta Hd) as (s4 & -> & Hin4 & Hd4 & Hr4 & Ht4 & Hsz).
  assert (HV : NoDup (victims_list (dentries s) (tch t))) by (by apply victims_list_nodup).
  assert (Hu4 : Forall (uready (dentries s4) (troot t)) (tch t)) by (by eapply children_uready).
  destruct (umount_subtree_clean s4 t _ Hr4) as (s' & E' & Ei' & Egone & Esame); try done.
  - simpl. lia.
  - by rewrite Ht4, Hin4.
  - exists s'. split; [done|]. rewrite Ei', Ht4, Hin4. split; [done|]. split; [done|].
    intros r Hr. rewrite Esame by done. rewrite refs_unfold in Hr. apply not_elem_of_cons in Hr as [Hne Hr].
    rewrite Hd4 by done. apply dec_all_notin. by intros ?%victims_list_refs.
Qed.
