(* ===== verification/Stuck.v ===== *)
(** * Unmounting that stops

    shrink_dcache_for_umount_subtree meets a dentry that somebody else than its
    children holds: it stops the kernel.  So it does when wjfs_d_genocide has left
    out one dentry of the tree because it was unhashed. *)

From S2P Require Import Prelude KString MapTable Vfs Tree Umount.

#[local] Set Warnings "-register-all".

(** The first dentry in the order of the walk whose count its children do not
    explain; what is behind it is of no account. *)
Inductive ustuck (m : gmap nat dentry) : tree -> Prop :=
  | ustuck_here r ch d :
      m !! r = Some d -> d_subdirs d = map troot ch -> d_count d <> Z.of_nat (length ch) ->
      Forall (uready m r) ch -> ustuck m (Node r ch)
  | ustuck_below r ch1 c ch2 d :
      m !! r = Some d -> d_subdirs d = map troot (ch1 ++ c :: ch2) ->
      Forall (uready m r) ch1 -> ustuck m c -> ustuck m (Node r (ch1 ++ c :: ch2)).

(** ** The walk *)

Lemma ustuck_core m m' t : core_on (refs t) m m' -> ustuck m t -> ustuck m' t.
Proof.
  intros Hc Hs. induction Hs as [r ch d Hr Hsub Hcnt Hch|r ch1 c ch2 d Hr Hsub Hch _ IH].
  - destruct (Hc r d) as (d' & Hr' & _ & E2 & E3 & _); [simpl; by left|done|].
    apply ustuck_here with d'; [done|congruence..|].
    apply (descend_children m); [|done]. eapply core_on_sub; [|exact Hc]. intros x Hx. simpl. by right.
  - destruct (Hc r d) as (d' & Hr' & _ & E2 & E3 & _); [simpl; by left|done|].
    assert (Hsub1 : core_on (refs_list (ch1 ++ c :: ch2)) m m').
    { eapply core_on_sub; [|exact Hc]. intros x Hx. simpl. by right. }
    apply ustuck_below with d'; [done|congruence| |].
    + apply (descend_children m); [|done]. eapply core_on_sub; [|exact Hsub1].
      unfold refs_list. rewrite map_app, concat_app. intros x Hx. apply elem_of_app. by left.
    + apply IH. eapply core_on_sub; [|exact Hsub1]. apply refs_child, elem_of_app. right. by left.
Qed.

Lemma tinodes_on m m' t :
  (forall x, x ∈ refs t -> is_Some (m !! x)) -> core_on (refs t) m m' -> tinodes m' t = tinodes m t.
Proof.
  intros Ht Hc. apply tinodes_ext. intros x Hx. destruct (Ht x Hx) as [d Hd].
  apply (dino_core _ _ _ d Hd). eapply core_on_sub; [|exact Hc]. by intros y ->%list_elem_of_singleton.
Qed.

Lemma refs_list_app ts ts' : refs_list (ts ++ ts') = refs_list ts ++ refs_list ts'.
Proof. unfold refs_list. by rewrite map_app, concat_app. Qed.

Lemma tinodes_list_app m ts ts' : tinodes_list m (ts ++ ts') = tinodes_list m ts ++ tinodes_list m ts'.
Proof. unfold tinodes_list. by rewrite map_app, concat_app. Qed.

Lemma stuck_here fuel r ch d s :
  NoDup (refs_list ch) -> r ∉ refs_list ch -> held (inodes s) (tinodes_list (dentries s) ch) ->
  dentries s !! r = Some d -> d_subdirs d = map troot ch -> d_count d <> Z.of_nat (length ch) ->
  Forall (uready (dentries s) r) ch ->
  umount_loop (S (2 * length (refs_list ch) + S fuel)) false r s = Fault BugOn.
Proof.
  intros Hnd Hnr Hh Hr Hsub Hcnt Hch.
  destruct (descend r ch d (2 * length (refs_list ch) + S fuel) s) as (s1 & -> & Ei1 & Eout & Ecore);
    try done; [by intros c; apply (uready_there _ r)|].
  assert (Hr1 : dentries s1 !! r = Some d) by (by rewrite Eout).
  destruct (descend_children _ _ r ch Ecore Hch) as [Hu1 Et1].
  destruct (consume_list r ch (S fuel) s1 d) as (s2 & -> & _ & _ & _ & Er2); try done.
  { apply Forall_lookup. intros. apply consume_tree. }
  { by rewrite Et1, Ei1. }
  cbn [umount_loop]. erewrite M_bind_ok by (by apply get_dentry_ok). cbn [negb d_count set_d_subdirs set_d_count].
  by rewrite (proj2 (Z.eqb_neq _ 0)) by lia.
Qed.

Definition stops (t : tree) : Prop := forall fuel s,
  ustuck (dentries s) t -> NoDup (refs t) -> (forall x, x ∈ refs t -> is_Some (dentries s !! x)) ->
  held (inodes s) (tinodes (dentries s) t) ->
  umount_loop (2 * length (refs t) + fuel) false (troot t) s = Fault BugOn.

Lemma stuck_below fuel r ch1 c ch2 d s :
  stops c -> NoDup (refs_list (ch1 ++ c :: ch2)) -> r ∉ refs_list (ch1 ++ c :: ch2) ->
  (forall x, x ∈ refs_list (ch1 ++ c :: ch2) -> is_Some (dentries s !! x)) ->
  held (inodes s) (tinodes_list (dentries s) (ch1 ++ c :: ch2)) ->
  dentries s !! r = Some d -> d_subdirs d = map troot (ch1 ++ c :: ch2) ->
  Forall (uready (dentries s) r) ch1 -> ustuck (dentries s) c ->
  umount_loop (S (2 * length (refs_list (ch1 ++ c :: ch2)) + fuel)) false r s = Fault BugOn.
Proof.
  intros Hstop Hnd Hnr Hthere Hh Hr Hsub Hch Hst.
  destruct (descend r (ch1 ++ c :: ch2) d (2 * length (refs_list (ch1 ++ c :: ch2)) + fuel) s)
    as (s1 & -> & Ei1 & Eout & Ecore); try done.
  { intros x Hx. apply Hthere, (refs_child x _ Hx), refs_root. }
  rewrite refs_list_app, refs_list_cons, !length_app in *. set (n := length (refs_list ch2)).
  rewrite tinodes_list_app in Hh.
  apply list.NoDup_app in Hnd as (Hnd1 & Hdisj & Hnd). apply list.NoDup_app in Hnd as (Hndc & _ & _).
  apply not_elem_of_app in Hnr as [Hnr1 Hnr]. pose proof Hnr as [Hnrc _]%not_elem_of_app.
  assert (Hr1 : dentries s1 !! r = Some d) by (rewrite Eout; [done|rewrite elem_of_app; tauto]).
  assert (Ecore1 : core_on (refs_list ch1) (dentries s) (dentries s1))
    by (eapply core_on_sub; [|exact Ecore]; intros x Hx; apply elem_of_app; by left).
  assert (Ecorec : core_on (refs c) (dentries s) (dentries s1))
    by (eapply core_on_sub; [|exact Ecore]; intros x Hx; rewrite !elem_of_app; auto).
  destruct (descend_children _ _ r ch1 Ecore1 Hch) as [Hu1 Et1].
  replace (2 * (length (refs_list ch1) + (length (refs c) + n)) + fuel)%nat
    with (2 * length (refs_list ch1) + (2 * length (refs c) + (2 * n + fuel)))%nat by lia.
  destruct (consume_some r (map troot (c :: ch2)) ch1 (2 * length (refs c) + (2 * n + fuel)) s1 d)
    as (s2 & -> & Ei2 & _ & Esame2 & Er2); try done.
  { apply Forall_lookup. intros. apply consume_tree. }
  { intros x Hx Hin. apply list_elem_of_fmap in Hin as (y & -> & Hy). apply (Hdisj _ Hx).
    apply (refs_child y (c :: ch2) Hy), refs_root. }
  { by rewrite Hsub, map_app. }
  { rewrite Et1, Ei1. by eapply held_app_l. }
  unfold resume. erewrite M_bind_ok by (by apply get_dentry_ok). cbn [d_subdirs set_d_subdirs map].
  assert (Hc2 : forall x, x ∈ refs c -> dentries s2 !! x = dentries s1 !! x).
  { intros x Hx. apply Esame2; [|by intros ->]. intros Hx1. apply (Hdisj _ Hx1). rewrite elem_of_app. by left. }
  assert (Ecore2 : core_on (refs c) (dentries s) (dentries s2)).
  { intros x dx Hx Hdx. destruct (Ecorec x dx Hx Hdx) as (d' & Hd' & He). exists d'. by rewrite Hc2. }
  apply Hstop; [by eapply ustuck_core|done| |].
  - intros x Hx. destruct (Hthere x) as [dx Hdx]; [rewrite !elem_of_app; auto|].
    destruct (Ecore2 x dx Hx Hdx) as (d' & Hd' & _). by rewrite Hd'.
  - rewrite (tinodes_on (dentries s) _ c), Ei2, Et1, Ei1; [|intros x Hx; apply Hthere; rewrite !elem_of_app; auto|done].
    apply held_app_l with (tinodes_list (dentries s) ch2). by apply held_app.
Qed.

Lemma stuck_tree t : stops t.
Proof.
  induction t as [r ch IH] using tree_rect_all. intros fuel s Hst Hnd Hthere Hh. cbn [troot].
  rewrite refs_unfold in *. cbn [troot tch length] in *. apply list.NoDup_cons in Hnd as [Hnr Hnd].
  cbn [tinodes] in Hh. apply held_app_l in Hh. fold (tinodes_list (dentries s) ch) in Hh.
  replace (2 * S (length (refs_list ch)) + fuel)%nat with (S (2 * length (refs_list ch) + S fuel)) by lia.
  inversion Hst as [? ? d Hr Hsub Hcnt Hch|? ch1 c ch2 d Hr Hsub Hch Hc]; subst.
  - by eapply stuck_here.
  - apply Forall_app in IH as [_ IH]. apply Forall_cons_iff in IH as [IH _].
    eapply stuck_below; try done. intros x Hx. apply Hthere. by right.
Qed.

(** ** A dentry that wjfs_d_genocide left out *)

(** The tree [m] as the walk meets it in [m'], at [x]. *)
Definition let_go (m m' : gmap nat dentry) (x : nat) : Prop :=
  forall d, m !! x = Some d -> exists d', m' !! x = Some d' /\ d_parent d' = d_parent d /\
    d_subdirs d' = d_subdirs d /\ d_count d' = Z.of_nat (length (d_subdirs d)).

Lemma let_go_uready m m' t : forall p,
  pinned m p t -> (forall x, x ∈ refs t -> let_go m m' x) -> uready m' p t.
Proof.
  induction t as [r ch IH] using tree_rect_all. intros p Hp Hl.
  inversion Hp as [? ? d Hr Hpar Hsub _ Hch]; subst.
  destruct (Hl r (refs_root (Node r ch)) d Hr) as (d' & Hr' & E1 & E2 & E3).
  apply uready_node with d'; [done|congruence..| |].
  { by rewrite E3, Hsub, length_map. }
  rewrite List.Forall_forall in *. intros c Hc. apply (IH c Hc); [by apply Hch|].
  intros x Hx. apply Hl. rewrite refs_unfold. right. apply (refs_child c ch); [by apply list_elem_of_In|done].
Qed.

Lemma let_go_list m m' p ch :
  Forall (pinned m p) ch -> (forall x, x ∈ refs_list ch -> let_go m m' x) -> Forall (uready m' p) ch.
Proof.
  intros Hp Hl. rewrite List.Forall_forall in *. intros c Hc. eapply let_go_uready; [by apply Hp|].
  intros x Hx. apply Hl, (refs_child c ch); [by apply list_elem_of_In|done].
Qed.

Section kept.
Context (m m' : gmap nat dentry) (r : nat) (d d' : dentry).
Context (Hr : m !! r = Some d) (Hleaf : d_subdirs d = []).
Context (Hr' : m' !! r = Some d') (Hsub' : d_subdirs d' = []) (Hcnt : d_count d' <> 0).

(** The child under which [r] lies: the ones before it are ready. *)
Lemma kept_among p ch :
  Forall (fun c => forall p, pinned m p c -> NoDup (refs c) -> r ∈ refs c ->
    (forall x, x ∈ refs c -> x <> r -> let_go m m' x) -> ustuck m' c) ch ->
  Forall (pinned m p) ch -> NoDup (refs_list ch) -> r ∈ refs_list ch ->
  (forall x, x ∈ refs_list ch -> x <> r -> let_go m m' x) ->
  exists ch1 c ch2, ch = ch1 ++ c :: ch2 /\ Forall (uready m' p) ch1 /\ ustuck m' c.
Proof using.
  clear. intros IH Hp Hnd Hin Hl.
  assert (exists c, c ∈ ch /\ r ∈ refs c) as (c & Hc & Hrc).
  { unfold refs_list in Hin. rewrite list_elem_of_In, in_concat in Hin. destruct Hin as (l & Hl' & Hx).
    apply in_map_iff in Hl' as (c & <- & Hc). exists c. by rewrite !list_elem_of_In. }
  apply list_elem_of_split in Hc as (ch1 & ch2 & ->). exists ch1, c, ch2. split; [done|].
  rewrite refs_list_app, refs_list_cons in *. apply list.NoDup_app in Hnd as (_ & Hdisj & Hnd).
  apply list.NoDup_app in Hnd as (Hndc & _ & _).
  apply Forall_app in IH as [_ IH]. apply Forall_cons_iff in IH as [IH _].
  apply Forall_app in Hp as [Hp1 Hp]. apply Forall_cons_iff in Hp as [Hpc _]. split.
  - apply (let_go_list m); [done|]. intros x Hx. apply Hl; [rewrite elem_of_app; by left|].
    intros ->. apply (Hdisj _ Hx). rewrite elem_of_app. by left.
  - apply (IH p); try done. intros x Hx. apply Hl. rewrite !elem_of_app. auto.
Qed.

Lemma kept_stuck t : forall p,
  pinned m p t -> NoDup (refs t) -> r ∈ refs t ->
  (forall x, x ∈ refs t -> x <> r -> let_go m m' x) -> ustuck m' t.
Proof using Hr Hleaf Hr' Hsub' Hcnt.
  induction t as [x ch IH] using tree_rect_all. intros p Hp Hnd Hin Hl.
  inversion Hp as [? ? dx Hx Hpar Hsub _ Hch]; subst. rewrite refs_unfold in *. cbn [troot tch] in *.
  apply list.NoDup_cons in Hnd as [Hnr Hnd]. destruct (decide (x = r)) as [->|Hne].
  - assert (ch = []) as -> by (assert (dx = d) by congruence; subst dx; rewrite Hleaf in Hsub; by destruct ch).
    by apply ustuck_here with d'.
  - apply elem_of_cons in Hin as [Hin|Hin]; [congruence|].
    destruct (Hl x) with (d := dx) as (d1 & H1 & _ & E2 & _); [by left|done|done|].
    destruct (kept_among x ch IH Hch Hnd Hin) as (ch1 & c & ch2 & -> & Hu & Hs).
    { intros y Hy. apply Hl. by right. }
    apply ustuck_below with d1; [done|congruence|done|done].
Qed.
End kept.

(** ** One leaf unhashed *)

Lemma rep_insert m r d d' t : forall p,
  rep m p t -> m !! r = Some d -> d_parent d' = d_parent d -> d_subdirs d' = d_subdirs d -> rep (<[r := d']> m) p t.
Proof.
  induction t as [x ch IH] using tree_rect_all. intros p Hp Hr E1 E2.
  inversion Hp as [? ? dx Hx Hpar Hsub Hch]; subst.
  assert (Hall : Forall (rep (<[r := d']> m) x) ch) by (rewrite List.Forall_forall in *; auto).
  destruct (decide (r = x)) as [->|Hne].
  - assert (dx = d) by congruence. subst dx. apply rep_node with d'; [apply lookup_insert_eq|congruence..|done].
  - apply rep_node with dx; [by rewrite lookup_insert_ne|done..].
Qed.

Lemma victims_alive m t x : x ∈ victims m t -> alive m x = true.
Proof.
  induction t as [y ch IH] using tree_rect_all. cbn [victims].
  destruct (alive m y) eqn:E; [|by intros ?%not_elem_of_nil].
  rewrite elem_of_app, list_elem_of_singleton. intros [H| ->]; [|done].
  rewrite list_elem_of_In, in_concat in H. destruct H as (l & Hl & Hx).
  apply in_map_iff in Hl as (c & <- & Hc). rewrite List.Forall_forall in IH. apply (IH c Hc).
  by apply list_elem_of_In.
Qed.

Section unhash.
Context (m : gmap nat dentry) (r : nat) (d : dentry) (Hr : m !! r = Some d) (Hleaf : d_subdirs d = []).

#[local] Abbreviation mu := (<[r := set_d_hashed false d]> m).

(** wjfs_d_genocide passes over the leaf, and over nothing else. *)
Lemma victims_unhashed t : forall p x, pinned m p t -> x ∈ refs t -> x <> r -> x ∈ victims mu t.
Proof using Hr Hleaf.
  induction t as [y ch IH] using tree_rect_all. intros p x Hp Hx Hne.
  inversion Hp as [? ? dy Hy _ Hsub Hpos Hch]; subst. cbn [victims refs] in *.
  destruct (decide (y = r)) as [->|Hyr].
  - assert (dy = d) by congruence. subst dy. rewrite Hleaf in Hsub. destruct ch; [|done].
    cbn in Hx. by apply list_elem_of_singleton in Hx.
  - unfold alive. rewrite lookup_insert_ne, Hy, Hpos by done.
    apply elem_of_cons in Hx as [->|Hx]; [set_solver|]. apply elem_of_app. left.
    rewrite list_elem_of_In, in_concat in *. destruct Hx as (l & Hl & Hx).
    apply in_map_iff in Hl as (c & <- & Hc). exists (victims mu c). split; [by apply in_map|].
    rewrite List.Forall_forall in IH, Hch. apply list_elem_of_In, (IH c Hc y); [by apply Hch| |done].
    by apply list_elem_of_In.
Qed.

Lemma not_victim ts : r ∉ victims_list mu ts.
Proof using.
  clear Hr Hleaf.
  intros Hin. unfold victims_list in Hin. rewrite list_elem_of_In, in_concat in Hin. destruct Hin as (l & Hl & Hx).
  apply in_map_iff in Hl as (c & <- & _). apply list_elem_of_In, victims_alive in Hx.
  unfold alive, simple_positive in Hx. rewrite lookup_insert_eq in Hx. cbn in Hx. by destruct (d_inode d).
Qed.

Lemma dropped_unhashed p ts x :
  idle m -> Forall (pinned m p) ts -> NoDup (refs_list ts) -> x ∈ refs_list ts -> x <> r ->
  let_go m (dec_all (victims_list mu ts) mu) x.
Proof using Hr Hleaf.
  intros Hidle Hp Hnd Hx Hne dx Hdx.
  assert (Hin : x ∈ victims_list mu ts).
  { unfold victims_list, refs_list in *. rewrite list_elem_of_In, in_concat in *. destruct Hx as (l & Hl & Hx).
    apply in_map_iff in Hl as (c & <- & Hc). exists (victims mu c). split; [by apply in_map|].
    rewrite List.Forall_forall in Hp. apply list_elem_of_In, (victims_unhashed c p); [by apply Hp| |done].
    by apply list_elem_of_In. }
  assert (HV : NoDup (victims_list mu ts)) by (by apply victims_list_nodup).
  exists (set_d_count (d_count dx - 1) dx). split; [|split; [done|split; [done|]]].
  - rewrite dec_all_lookup, lookup_insert_ne, Hdx, count_occ_nodup by done. simpl.
    by rewrite bool_decide_true.
  - simpl. rewrite (idle_count _ _ _ Hidle Hdx). lia.
Qed.
End unhash.

(** A tree at rest of which one leaf was unhashed: the unmount walk stops on it. *)
Lemma unhashed_stops s s' t r d :
  resting (dentries s) t -> idle (dentries s) -> held (inodes s) (tinodes (dentries s) t) ->
  r ∈ refs t -> r <> troot t -> dentries s !! r = Some d -> d_subdirs d = [] ->
  dentries s' = <[r := set_d_hashed false d]> (dentries s) -> inodes s' = inodes s ->
  wjfs_kill_litter_super (Some (troot t)) s' = Fault BugOn.
Proof.
  intros Hrest Hidle Hh Hin Hne Hr Hleaf Ed' Ei'. pose proof (resting_tree_at _ _ Hrest) as [Hrep Hnd].
  destruct Hrest as [_ (rd & Hrd & Hp & Hsub) Hch].
  pose proof Hnd as Hnd'. rewrite refs_unfold in Hnd', Hin. apply list.NoDup_cons in Hnd' as [Hnr Hndl].
  apply elem_of_cons in Hin as [Hin|Hin]; [done|].
  assert (Hta : tree_at (dentries s') t) by (split; [|done]; rewrite Ed'; by apply (rep_insert _ r d)).
  assert (Hrd' : dentries s' !! troot t = Some rd) by (by rewrite Ed', lookup_insert_ne).
  destruct (kill_litter_walk s' t rd Hta Hrd') as (s4 & -> & Ei4 & Hd4 & Hr4 & Ht4 & Hsz).
  rewrite Ed' in Hd4. unfold umount_subtree.
  replace (2 * size (dentries s4))%nat with (2 * length (refs t) + (2 * size (dentries s4) - 2 * length (refs t)))%nat by lia.
  assert (Hlg : forall x, x ∈ refs_list (tch t) -> x <> r -> let_go (dentries s) (dentries s4) x).
  { intros x Hx Hxr dx Hdx. rewrite Hd4 by (intros ->; done). by eapply dropped_unhashed. }
  assert (Hr4' : dentries s4 !! r = Some (set_d_hashed false d))
    by (rewrite Hd4, dec_all_notin by (done || by eapply not_victim); apply lookup_insert_eq).
  apply stuck_tree; [|done| |].
  - destruct t as [root ch]. cbn [troot tch] in *.
    destruct (kept_among (dentries s) (dentries s4) r root ch) as (ch1 & c & ch2 & -> & Hu & Hs); try done.
    { apply Forall_lookup. intros ? c _ p. eapply kept_stuck; try done.
      simpl. rewrite (idle_count _ _ _ Hidle Hr), Hleaf. done. }
    by eapply ustuck_below.
  - intros x Hx. rewrite refs_unfold in Hx. apply elem_of_cons in Hx as [->|Hx]; [by rewrite Hr4|].
    destruct (decide (x = r)) as [->|Hxr]; [by rewrite Hr4'|].
    destruct (rep_refs _ t _ x Hrep) as [dx Hdx]; [rewrite refs_unfold; by right|].
    destruct (Hlg x Hx Hxr dx Hdx) as (d' & -> & _). done.
  - rewrite Ht4, Ei4, Ei'. assert (tinodes (dentries s') t = tinodes (dentries s) t) as ->; [|done].
    apply tinodes_ext. intros x _. rewrite Ed'. unfold dino. destruct (decide (r = x)) as [<-|].
    + by rewrite lookup_insert_eq, Hr.
    + by rewrite lookup_insert_ne.
Qed.
