(* ===== verification/Ops.v ===== *)
(** * The inode operations of wjfs

    wjfs.c (wjfs_get_inode and the methods of wjfs_dir_inode_operations), the
    creation functions of wjfs_create.c and the two removal functions of
    wjfs_remove.c that run on behalf of a remote node, with the client functions
    that tell the other node.  [printk] is left out. *)

From S2P Require Import Prelude KString KScan KFormat Wire Ksocket MapTable Vfs Tree.

(** ** wjfs_get_inode *)

Definition wjfs_get_inode (mode dev : Z) : M (option nat) :=
  r ← new_inode;
  match r with
  | None => mret None
  | Some r =>
      c ← gets cur;
      t ← gets now;
      upd_inode r (fun i => set_times t t t (set_attr mode (fsuid c) (fsgid c) i));;
      (let fmt := Z.land mode S_IFMT in
       if fmt =? S_IFREG then
         upd_inode r (fun i => set_ops (i_rdev i) wjfs_file_iops wjfs_file_fops i)
       else if fmt =? S_IFDIR then
         upd_inode r (fun i => set_ops (i_rdev i) wjfs_dir_iops simple_dir_fops i);;
         inc_nlink r
       else if fmt =? S_IFLNK then
         upd_inode r (fun i => set_ops (i_rdev i) page_symlink_iops (i_fop i) i)
       else init_special_inode r mode dev);;
      mret (Some r)
  end.

(** The part wjfs_mknod and wjfs_mknod_rdma share: the inode is attached to the
    dentry, which gets one more reference. *)
Definition mknod_attach (dir dentry : nat) (mode dev : Z) : M (option nat * Z) :=
  _ ← get_dentry dentry;
  r ← wjfs_get_inode mode dev;
  match r with
  | None => mret (None, - ENOSPC)
  | Some r =>
      di ← get_inode dir;
      (if negb (Z.land (i_mode di) S_ISGID =? 0) then
         upd_inode r (fun i =>
           set_attr (if S_ISDIR mode then Z.lor (i_mode i) S_ISGID else i_mode i)
             (i_uid i) (i_gid di) i)
       else mret tt);;
      d_instantiate dentry (Some r);;
      dget dentry;;
      t ← gets now;
      upd_inode dir (set_mtime_ctime t);;
      mret (Some r, 0)
  end.

(** ** Talking to the other node *)

Definition test_ip : block := lit "192.168.124.134".
Definition test_port : Z := 8078.

Definition net_socket : M bool := fun s =>
  let n := network s in
  match n_socket n with
  | [] => Ok (true, s)
  | b :: l => Ok (b, with_net (mkNet l (n_connect n) (n_sent n) (n_reply n)) s)
  end.

Definition net_connect : M bool := fun s =>
  let n := network s in
  match n_connect n with
  | [] => Ok (true, s)
  | b :: l => Ok (b, with_net (mkNet (n_socket n) l (n_sent n) (n_reply n)) s)
  end.

Definition net_send (addr port : Z) (buf : block) (len : Z) : M unit :=
  modify (fun s =>
    let n := network s in
    with_net (mkNet (n_socket n) (n_connect n)
                ((addr, port, take (Z.to_nat len) buf) :: n_sent n) (n_reply n)) s).

(** [krecv] of at most [length] bytes into a buffer: nothing arrives when the
    peer sent nothing. *)
Definition net_recv (dest : block) (length : nat) : M block := fun s =>
  let n := network s in
  match n_reply n with
  | [] => Ok (dest, s)
  | t :: l => Ok (splice dest 0 (take length t),
                  with_net (mkNet (n_socket n) (n_connect n) (n_sent n) l) s)
  end.

(** The arrays on the stack of the running function, as it finds them. *)
Record autos : Type := mkAutos {
  a_buf : block;          (* char buf[1024] *)
  a_message : block;      (* char message[1024] *)
  a_tmp_name : block;     (* char tmp_name[6][20], the first 100 bytes in rdma_read *)
  a_name : block;         (* char name[20] *)
  a_name_parent : block;  (* char name_parent[20] *)
  a_abcd : list Z;        (* int a, b, c, d of inet_addr *)
  a_page : block;         (* a page fresh from the allocator *)
}.

Definition autos_ok (a : autos) : Prop :=
  length (a_buf a) = 1024%nat /\ length (a_message a) = 1024%nat /\
  length (a_tmp_name a) = 120%nat /\ length (a_name a) = 20%nat /\
  length (a_name_parent a) = 20%nat /\ length (a_page a) = 4096%nat.

Section clients.
Variable pointer : block -> block * nat -> Z -> va -> printf_spec -> res (block * nat).
Variable stack : autos.

(** The common start of the four client functions: no address when the socket
    or the connection failed.  The text of inet_ntoa, if there is one, is printed
    and freed. *)
Definition client_connect (ip : block) : M (option Z) :=
  addr ← lift (inet_addr ip (a_abcd stack));
  ok ← net_socket;
  if negb ok then mret None else
  ok ← net_connect;
  if negb ok then mret None else
  kmalloc ← alloc;
  _ ← lift (inet_ntoa pointer kmalloc addr);
  mret (Some addr).

Definition wjfs_client_create (ip : block) (port ino : Z) (name : block) (ino_parent : Z)
    (name_parent : block) (mode : Z) : M Z :=
  c ← client_connect ip;
  match c with
  | None => mret (-1)
  | Some addr =>
      '(buf, len) ← lift (build_request pointer "CR" (a_buf stack) ino name ino_parent
                            name_parent mode);
      net_send addr (htons port) buf len;;
      mret 0
  end.

Definition wjfs_client_remove (ip : block) (port ino : Z) (name : block) (ino_parent : Z)
    (name_parent : block) (mode : Z) : M Z :=
  c ← client_connect ip;
  match c with
  | None => mret (-1)
  | Some addr =>
      '(buf, len) ← lift (build_request pointer "RM" (a_buf stack) ino name ino_parent
                            name_parent mode);
      net_send addr (htons port) buf len;;
      mret 0
  end.

Definition wjfs_client_write (ip : block) (port ino : Z) (name : block) (ino_parent : Z)
    (name_parent message : block) : M Z :=
  c ← client_connect ip;
  match c with
  | None => mret (-1)
  | Some addr =>
      t ← gets (fun s => g_table (glob s));
      '(my_rdma_ino, my_rdma_parent_ino) ← lift (table_remote t (s32 ino) (s32 ino_parent));
      '(buf, len) ← lift (build_write pointer (a_buf stack) my_rdma_ino name
                            my_rdma_parent_ino name_parent message);
      net_send addr (htons port) buf len;;
      mret 0
  end.

(** wjfs_client_read; the result is the caller's [message] afterwards. *)
Definition wjfs_client_read (ip : block) (port ino : Z) (name : block) (ino_parent : Z)
    (name_parent message : block) : M (Z * block) :=
  c ← client_connect ip;
  match c with
  | None => mret (-1, message)
  | Some addr =>
      t ← gets (fun s => g_table (glob s));
      '(my_rdma_ino, my_rdma_parent_ino) ← lift (table_remote t (s32 ino) (s32 ino_parent));
      '(buf, len) ← lift (build_read pointer (a_buf stack) my_rdma_ino name
                            my_rdma_parent_ino name_parent);
      net_send addr (htons port) buf len;;
      message ← lift (memset message 0 0 1024);
      message ← net_recv message 1024;
      mret (0, message)
  end.

(** What a method tells the other node about a dentry: the numbers and names
    of the file and of its directory. *)
Definition about_dentry (dentry : nat) : M (list Z * Z * list Z) :=
  d ← get_dentry dentry;
  p ← get_dentry (d_parent d);
  pir ← deref (d_inode p);
  pi ← get_inode pir;
  mret (d_name d, i_ino pi, d_name p).

(** wjfs_mknod: [inode->i_ino] is read even when there is no inode. *)
Definition wjfs_mknod (dir dentry : nat) (mode dev : Z) : M Z :=
  '(inode, err) ← mknod_attach dir dentry mode dev;
  ir ← deref inode;
  i ← get_inode ir;
  '(name, ino_parent, name_parent) ← about_dentry dentry;
  wjfs_client_create test_ip test_port (i_ino i) (name ++ [0]) ino_parent
    (name_parent ++ [0]) (if S_ISDIR mode then 1 else 0);;
  mret err.

Definition wjfs_mkdir (dir dentry : nat) (mode : Z) : M Z :=
  retval ← wjfs_mknod dir dentry (Z.lor mode S_IFDIR) 0;
  (if retval =? 0 then inc_nlink dir else mret tt);;
  mret retval.

Definition wjfs_create (dir dentry : nat) (mode : Z) : M Z :=
  wjfs_mknod dir dentry (Z.lor mode S_IFREG) 0.

(** is_my_file; the inode is looked at only for a used entry. *)
Fixpoint any_used (t : table) : res bool :=
  match t with
  | [] => Ok false
  | e :: t => u ← get32 e o_used; if u =? 1 then Ok true else any_used t
  end.

Definition dentry_is_mine (dentry : nat) : M bool :=
  d ← get_dentry dentry;
  t ← gets (fun s => g_table (glob s));
  match d_inode d with
  | Some ir => i ← get_inode ir; lift (is_my_file t (i_ino i))
  | None => u ← lift (any_used t); if (u : bool) then fail NullDeref else mret true
  end.

(** wjfs_unlink, wjfs_rmdir: only the owner's node deletes. *)
Definition wjfs_unlink (dir dentry : nat) : M Z :=
  mine ← dentry_is_mine dentry;
  if negb mine then mret 0 else
  simple_unlink dir dentry;;
  d ← get_dentry dentry;
  ir ← deref (d_inode d);
  i ← get_inode ir;
  '(name, ino_parent, name_parent) ← about_dentry dentry;
  wjfs_client_remove test_ip test_port (i_ino i) (name ++ [0]) ino_parent
    (name_parent ++ [0]) 0;;
  mret 0.

Definition wjfs_rmdir (dir dentry : nat) : M Z :=
  mine ← dentry_is_mine dentry;
  if negb mine then mret 0 else
  empty ← simple_empty dentry;
  if negb empty then mret (- ENOTEMPTY) else
  d ← get_dentry dentry;
  ir ← deref (d_inode d);
  drop_nlink ir;;
  simple_unlink dir dentry;;
  drop_nlink dir;;
  d ← get_dentry dentry;
  ir ← deref (d_inode d);
  i ← get_inode ir;
  '(name, ino_parent, name_parent) ← about_dentry dentry;
  wjfs_client_remove test_ip test_port (i_ino i) (name ++ [0]) ino_parent
    (name_parent ++ [0]) 1;;
  mret 0.
End clients.

(** ** The other methods *)

Definition NAME_MAX := 255.

(** wjfs_lookup: a name that is not cached becomes a hashed negative dentry. *)
Definition wjfs_lookup (dir dentry : nat) : M dptr :=
  d ← get_dentry dentry;
  c ← lift (strcmp (d_name d ++ [0]) (lit "a"));
  (if c =? 0 then
     modify (fun s => let g := glob s in
       with_glob (mkGlobals (g_rroot_dentry g) (Some dentry) (g_table g) (g_read_k g)) s)
   else mret tt);;
  if NAME_MAX <? Z.of_nat (length (d_name d)) then mret (DErr (- ENAMETOOLONG)) else
  upd_dentry dentry (set_d_op true);;
  d_add dentry None;;
  mret DNull.

(** wjfs_rename: the counterpart of simple_rename. *)
Definition wjfs_rename (old_dir old_dentry new_dir new_dentry : nat) : M Z :=
  od ← get_dentry old_dentry;
  ir ← deref (d_inode od);
  i ← get_inode ir;
  let they_are_dirs := S_ISDIR (i_mode i) in
  empty ← simple_empty new_dentry;
  if negb empty then mret (- ENOTEMPTY) else
  nd ← get_dentry new_dentry;
  (match d_inode nd with
   | Some _ =>
       simple_unlink new_dir new_dentry;;
       if they_are_dirs then drop_nlink old_dir else mret tt
   | None =>
       if they_are_dirs then drop_nlink old_dir;; inc_nlink new_dir else mret tt
   end);;
  t ← gets now;
  upd_inode ir (set_ctime t);;
  upd_inode new_dir (set_mtime_ctime t);;
  upd_inode old_dir (set_mtime_ctime t);;
  mret 0.

(** wjfs_link *)
Definition wjfs_link (old_dentry dir dentry : nat) : M Z :=
  od ← get_dentry old_dentry;
  ir ← deref (d_inode od);
  t ← gets now;
  upd_inode dir (set_mtime_ctime t);;
  upd_inode ir (set_ctime t);;
  inc_nlink ir;;
  upd_inode ir (fun i => set_links (i_nlink i) (i_count i + 1) i);;
  dget dentry;;
  d_instantiate dentry (Some ir);;
  mret 0.

(** wjfs_symlink, a trigger for debugging: the result, and whether it starts
    another thread of wjfs_server; a link named "table" prints the table. *)
Definition wjfs_symlink (dir dentry : nat) : M (Z * bool) :=
  d ← get_dentry dentry;
  c ← lift (strcmp (lit "server") (d_name d ++ [0]));
  mret (0, c =? 0).

(** The method table of wjfs_dir_inode_operations. *)
Definition wjfs_ops pointer stack : InodeOps := {|
  op_lookup := fun o => match o with wjfs_dir_iops => Some wjfs_lookup | _ => None end;
  op_create := fun o =>
    match o with wjfs_dir_iops => Some (wjfs_create pointer stack) | _ => None end;
  op_mkdir := fun o =>
    match o with wjfs_dir_iops => Some (wjfs_mkdir pointer stack) | _ => None end;
  op_unlink := fun o =>
    match o with wjfs_dir_iops => Some (wjfs_unlink pointer stack) | _ => None end;
  op_rmdir := fun o =>
    match o with wjfs_dir_iops => Some (wjfs_rmdir pointer stack) | _ => None end;
  op_mknod := fun o =>
    match o with wjfs_dir_iops => Some (wjfs_mknod pointer stack) | _ => None end;
  op_rename := fun o => match o with wjfs_dir_iops => Some wjfs_rename | _ => None end;
|}.
