(* ===== verification/PageIo.v ===== *)
(** * File contents: the page cache of an inode

    get_file_message (wjfs_read.c) and put_file_message (wjfs_write.c) reach the
    first page of a file directly, through the write_begin / write_end pair of
    fs/libfs.c.  A page is 4096 bytes; every page in [i_pages] is up to date, a
    page that is added gets its contents before anything else sees it. *)

From S2P Require Import Prelude KString KScan KFormat Wire Ksocket MapTable Vfs Tree Ops.

Definition PAGE_CACHE_SHIFT := 12.
Definition PAGE_CACHE_SIZE := 4096.

(** grab_cache_page_write_begin: the page of the index, or a new one that is
    not up to date; [None] when there is no memory. *)
Definition grab_cache_page (ir : nat) (index : nat) (fresh_page : block)
  : M (option (block * bool)) :=
  i ← get_inode ir;
  match i_pages i !! index with
  | Some p => mret (Some (p, true))
  | None => a ← alloc; if (a : bool) then mret (Some (fresh_page, false)) else mret None
  end.

(** simple_write_begin with simple_prepare_write: a page that is not up to date
    is zeroed around the range that will be written. *)
Definition simple_write_begin (ir : nat) (pos len : Z) (fresh_page : block)
  : M (Z * option block) :=
  let index := Z.to_nat (u32 (Z.shiftr pos PAGE_CACHE_SHIFT)) in
  let from := Z.land pos (PAGE_CACHE_SIZE - 1) in
  g ← grab_cache_page ir index fresh_page;
  match g with
  | None => mret (- ENOMEM, None)
  | Some (page, uptodate) =>
      let to := u32 (from + len) in
      page ← (if negb uptodate && negb (u32 (to - from) =? PAGE_CACHE_SIZE) then
                p ← lift (memset page 0 0 (Z.to_nat from));
                lift (memset p (Z.to_nat to) 0 (Z.to_nat (PAGE_CACHE_SIZE - to)))
              else mret page);
      mret (0, Some page)
  end.

(** simple_write_end with simple_commit_write. *)
Definition simple_write_end (ir : nat) (pos len copied : Z) (page : block) : M Z :=
  let index := Z.to_nat (u32 (Z.shiftr pos PAGE_CACHE_SHIFT)) in
  let from := Z.land pos (PAGE_CACHE_SIZE - 1) in
  page ← (if copied <? len
          then lift (memset page (Z.to_nat (from + copied)) 0 (Z.to_nat (len - copied)))
          else mret page);
  let end_ := Z.of_nat index * PAGE_CACHE_SIZE + (from + copied) in
  upd_inode ir (fun i =>
    set_data (if i_size i <? end_ then end_ else i_size i) (<[index := page]> (i_pages i)) i);;
  mret copied.

Section messages.
Variable stack : autos.

(** put_file_message: the file's first bytes become [message]; the result of
    simple_write_begin is not looked at. *)
Definition put_file_message (dentry : nat) (message : block) : M Z :=
  d ← get_dentry dentry;
  ir ← deref (d_inode d);
  bytes ← lift (strlen message);
  '(_, page) ← simple_write_begin ir 0 bytes (a_page stack);
  match page with
  | None => fail BadPointer
  | Some page =>
      page ← lift (memcpy page 0 message (Z.to_nat bytes));
      simple_write_end ir 0 bytes bytes page;;
      mret 0
  end.

(** get_file_message: the caller's [message] afterwards. *)
Definition get_file_message (dentry : nat) (message : block) : M block :=
  d ← get_dentry dentry;
  ir ← deref (d_inode d);
  i ← get_inode ir;
  let page := i_pages i !! 0%nat in
  let isize := i_size i in
  if isize =? 0 then mret message else
  let end_index := Z.shiftr (isize - 1) PAGE_CACHE_SHIFT in
  let nr := if u32 end_index =? 0 then Z.land (isize - 1) (PAGE_CACHE_SIZE - 1) + 1
            else PAGE_CACHE_SIZE in
  match page with
  | None => fail NullDeref
  | Some page =>
      buf ← lift (memcpy (a_buf stack) 0 page (Z.to_nat nr));
      _ ← lift (strlen buf);
      lift (strcpy message 0 buf)
  end.
End messages.
