(* ===== verification/FileMap.v ===== *)
(** * Reading and writing a file of this node

    generic_file_aio_read and generic_file_aio_write of mm/filemap.c, which
    wjfs_file_operations names as aio_read and aio_write, over the address space
    operations of wjfs_aops: simple_readpage, simple_write_begin and
    simple_write_end.  wjfs_read and wjfs_write pass one segment.

    A file that is read or written this way is a regular file, opened without
    O_SYNC; O_DIRECT cannot be set, since wjfs_aops has no direct_IO.  The
    backing device has no readahead.  The user's buffer is an object; the bytes
    outside it cannot be reached, which is what EFAULT reports. *)

From S2P Require Import Prelude KString KScan KFormat Wire Ksocket MapTable Vfs Tree Ops PageIo.

Definition EFAULT := 14.
Definition EFBIG := 27.
Definition MAX_NON_LFS := 2 ^ 31 - 1.
Definition MAX_LFS_FILESIZE := 2 ^ 43 - 1.

(** struct file: the dentry it was opened by and the flags that matter here. *)
Record file : Type := mkFile {
  f_dentry : nat;
  f_read : bool;         (* f_mode & FMODE_READ *)
  f_write : bool;        (* f_mode & FMODE_WRITE *)
  f_append : bool;       (* O_APPEND *)
  f_largefile : bool;    (* O_LARGEFILE *)
  f_noatime : bool;      (* O_NOATIME *)
}.

#[global] Instance file_eq_dec : EqDecision file.
Proof. solve_decision. Defined.

(** What the calls depend on besides the file: the limit RLIMIT_FSIZE ([None] is
    RLIM_INFINITY) and the flags of the mount. *)
Record io_env : Type := mkEnv {
  e_limit : option Z;
  e_noatime : bool;
  e_nodiratime : bool;
  e_relatime : bool;
  e_readonly : bool;
}.

Section filemap.
Context (env : io_env) (fresh_page : block).

(** ** Times and privileges *)

Definition tv_sec (t : Z) : Z := t / 10 ^ 9.

Definition relatime_need_update (i : inode) (now : Z) : bool :=
  if negb (e_relatime env) then true
  else if i_atime i <=? i_mtime i then true
  else if i_atime i <=? i_ctime i then true
  else 24 * 60 * 60 <=? s32 (tv_sec now - tv_sec (i_atime i)).

(** touch_atime; no inode of wjfs has S_NOATIME. *)
Definition touch_atime (ir : nat) : M unit :=
  i ← get_inode ir;
  if e_noatime env then mret tt
  else if e_nodiratime env && S_ISDIR (i_mode i) then mret tt
  else
    now ← gets now;
    if negb (relatime_need_update i now) then mret tt
    else if i_atime i =? now then mret tt
    else if e_readonly env then mret tt
    else upd_inode ir (set_times now (i_mtime i) (i_ctime i)).

Definition file_accessed (f : file) (ir : nat) : M unit :=
  if f_noatime f then mret tt else touch_atime ir.

(** file_update_time: times that are [now] already stay so. *)
Definition file_update_time (ir : nat) : M unit :=
  now ← gets now;
  if e_readonly env then mret tt else upd_inode ir (set_mtime_ctime now).

(** should_remove_suid: which of the two bits go. *)
Definition should_remove_suid (c : cred) (mode : Z) : bool * bool :=
  let suid := negb (Z.land mode S_ISUID =? 0) in
  let sgid := negb (Z.land mode S_ISGID =? 0) && negb (Z.land mode S_IXGRP =? 0) in
  if (suid || sgid) && negb (cap_fsetid c) && ifmt mode S_IFREG then (suid, sgid)
  else (false, false).

(** file_remove_suid, with the part of notify_change and inode_setattr that a
    removal reaches: ATTR_FORCE skips the permission checks. *)
Definition file_remove_suid (ir : nat) : M Z :=
  c ← gets cur;
  i ← get_inode ir;
  let '(suid, sgid) := should_remove_suid c (i_mode i) in
  if suid || sgid then
    let mode := if suid then Z.land (i_mode i) (Z.lnot S_ISUID) else i_mode i in
    let mode := if sgid then Z.land mode (Z.lnot S_ISGID) else mode in
    let mode := if negb ((i_gid i =? fsgid c) || existsb (Z.eqb (i_gid i)) (groups c))
                   && negb (cap_fsetid c)
                then Z.land mode (Z.lnot S_ISGID) else mode in
    upd_inode ir (set_attr mode (i_uid i) (i_gid i));; mret 0
  else mret 0.

(** ** Reading *)

(** read_descriptor_t: the user's buffer with the offset reached in it. *)
Record read_desc : Type := mkDesc {
  d_buf : block;
  d_off : Z;
  d_left : Z;        (* desc->count *)
  d_written : Z;
  d_error : Z;
}.

(** file_read_actor: the new descriptor and the number of bytes copied. *)
Definition file_read_actor (d : read_desc) (page : block) (offset size : Z)
  : res (read_desc * Z) :=
  let size := if d_left d <? size then d_left d else size in
  let left := Z.max 0 (d_off d + size - Z.of_nat (length (d_buf d))) in
  let copied := size - left in
  buf ← memcpy (d_buf d) (Z.to_nat (d_off d)) (drop (Z.to_nat offset) page) (Z.to_nat copied);
  Ok (mkDesc buf (d_off d + copied) (d_left d - copied) (d_written d + copied)
        (if left =? 0 then d_error d else - EFAULT), copied).

(** The page of an index: found, or made by readpage, which clears it. *)
Definition read_page (ir : nat) (index : Z) : M (option block) :=
  i ← get_inode ir;
  match i_pages i !! Z.to_nat index with
  | Some p => mret (Some p)
  | None =>
      a ← alloc;
      if (a : bool) then
        let page := replicate 4096 0 in
        upd_inode ir (set_data (i_size i) (<[Z.to_nat index := page]> (i_pages i)));;
        mret (Some page)
      else mret None
  end.

(** do_generic_file_read; every turn that does not end the loop copies at least
    one byte. *)
Fixpoint read_loop (fuel : nat) (ir : nat) (index offset : Z) (d : read_desc)
  : M (read_desc * Z) :=
  match fuel with
  | O => fail OutOfFuel
  | S fuel =>
      let out d index offset := mret (d, Z.shiftl index PAGE_CACHE_SHIFT + offset) in
      page ← read_page ir index;
      match page with
      | None => out (mkDesc (d_buf d) (d_off d) (d_left d) (d_written d) (- ENOMEM)) index offset
      | Some page =>
          i ← get_inode ir;
          let isize := i_size i in
          let end_index := u32 (Z.shiftr (isize - 1) PAGE_CACHE_SHIFT) in
          if (isize =? 0) || (end_index <? index) then out d index offset else
          let nr := if index =? end_index then Z.land (isize - 1) (PAGE_CACHE_SIZE - 1) + 1
                    else PAGE_CACHE_SIZE in
          if (index =? end_index) && (nr <=? offset) then out d index offset else
          let nr := nr - offset in
          '(d, ret) ← lift (file_read_actor d page offset nr);
          let offset := offset + ret in
          let index := u32 (index + Z.shiftr offset PAGE_CACHE_SHIFT) in
          let offset := Z.land offset (PAGE_CACHE_SIZE - 1) in
          if (ret =? nr) && negb (d_left d =? 0) then read_loop fuel ir index offset d
          else out d index offset
      end
  end.

Definition do_generic_file_read (f : file) (ir : nat) (ppos : Z) (d : read_desc)
  : M (read_desc * Z) :=
  let index := u32 (Z.shiftr ppos PAGE_CACHE_SHIFT) in
  let offset := Z.land ppos (PAGE_CACHE_SIZE - 1) in
  r ← read_loop (S (Z.to_nat (d_left d))) ir index offset d;
  file_accessed f ir;;
  mret r.

(** generic_segment_checks of one segment whose addresses are the user's. *)
Definition generic_segment_checks (len : Z) : Z := if s32 len <? 0 then - EINVAL else 0.

(** generic_file_aio_read: the result, the position and the user's buffer. *)
Definition generic_file_aio_read (f : file) (buf : block) (len pos : Z) : M (Z * Z * block) :=
  let retval := generic_segment_checks len in
  if negb (retval =? 0) then mret (retval, pos, buf)
  else if len =? 0 then mret (0, pos, buf)
  else
    d ← get_dentry (f_dentry f);
    ir ← deref (d_inode d);
    '(desc, pos) ← do_generic_file_read f ir pos (mkDesc buf 0 len 0 0);
    mret (if negb (d_error desc =? 0) && (d_written desc =? 0) then d_error desc
          else d_written desc, pos, d_buf desc).

(** ** Writing *)

(** generic_write_checks of a file that is no block device: the error, the
    position and the number of bytes. *)
Definition generic_write_checks (f : file) (size pos count : Z) : Z * Z * Z :=
  if pos <? 0 then (- EINVAL, pos, count) else
  let pos := if f_append f then size else pos in
  let over := match e_limit env with Some limit => limit <=? pos | None => false end in
  if over then (- EFBIG, pos, count) else
  let count := match e_limit env with
               | Some limit => if u32 (limit - pos) <? count then u32 (limit - pos) else count
               | None => count
               end in
  let small := (MAX_NON_LFS <? pos + count) && negb (f_largefile f) in
  if small && (MAX_NON_LFS <=? pos) then (- EFBIG, pos, count) else
  let count := if small && (u32 (MAX_NON_LFS - pos) <? count) then u32 (MAX_NON_LFS - pos) else count in
  if (MAX_LFS_FILESIZE <=? pos) && (negb (count =? 0) || (MAX_LFS_FILESIZE <? pos))
  then (- EFBIG, pos, count)
  else (0, pos, if MAX_LFS_FILESIZE <? pos + count then u32 (MAX_LFS_FILESIZE - pos) else count).

(** generic_perform_write; [off] is the offset of the iterator in the user's
    buffer and [count] what is left of it. *)
Fixpoint generic_perform_write (fuel : nat) (ir : nat) (buf : block) (off count pos written : Z)
  : M Z :=
  match fuel with
  | O => fail OutOfFuel
  | S fuel =>
      let offset := Z.land pos (PAGE_CACHE_SIZE - 1) in
      let bytes := Z.min (PAGE_CACHE_SIZE - offset) count in
      let done_ status := mret (if written =? 0 then status else written) in
      if Z.of_nat (length buf) <? off + bytes then done_ (- EFAULT) else
      '(status, page) ← simple_write_begin ir pos bytes fresh_page;
      if negb (status =? 0) then done_ status else
      page ← (match page with Some p => mret p | None => fail NullDeref end);
      page ← lift (memcpy page (Z.to_nat offset) (drop (Z.to_nat off) buf) (Z.to_nat bytes));
      copied ← simple_write_end ir pos bytes bytes page;
      if copied <? 0 then done_ copied
      else if copied =? 0 then generic_perform_write fuel ir buf off count pos written
      else
        let count := count - copied in
        if negb (count =? 0)
        then generic_perform_write fuel ir buf (off + copied) count (pos + copied) (written + copied)
        else mret (written + copied)
  end.

(** generic_file_buffered_write with [written] = 0: the result and [*ppos]. *)
Definition generic_file_buffered_write (ir : nat) (buf : block) (count pos ppos : Z) : M (Z * Z) :=
  status ← generic_perform_write (S (Z.to_nat count)) ir buf 0 count pos 0;
  mret (status, if 0 <=? status then pos + status else ppos).

(** __generic_file_aio_write *)
Definition generic_file_aio_write_ (f : file) (ir : nat) (buf : block) (len ppos : Z) : M (Z * Z) :=
  let err := generic_segment_checks len in
  if negb (err =? 0) then mret (err, ppos) else
  i ← get_inode ir;
  let '(err, pos, count) := generic_write_checks f (i_size i) ppos len in
  if negb (err =? 0) then mret (err, ppos) else
  if count =? 0 then mret (0, ppos) else
  err ← file_remove_suid ir;
  if negb (err =? 0) then mret (err, ppos) else
  file_update_time ir;;
  generic_file_buffered_write ir buf count pos ppos.

(** generic_file_aio_write; generic_write_sync has nothing to do. *)
Definition generic_file_aio_write (f : file) (buf : block) (len pos : Z) : M (Z * Z) :=
  d ← get_dentry (f_dentry f);
  ir ← deref (d_inode d);
  generic_file_aio_write_ f ir buf len pos.
End filemap.
