(* ===== verification/Server.v ===== *)
(** * The server: requests of the other node

    rdma_create, rdma_remove, rdma_read and rdma_write carry out one request;
    wjfs_server receives them one connection at a time. *)

From S2P Require Import Prelude KString KScan KFormat Wire Ksocket MapTable Vfs Tree Ops.
From S2P Require Import PageIo.

Section server.
Variable pointer : block -> block * nat -> Z -> va -> printf_spec -> res (block * nat).
Variable stack : autos.

#[local] Instance ops : InodeOps := wjfs_ops pointer stack.

Definition the_root : M nat :=
  r ← gets (fun s => g_rroot_dentry (glob s)); deref r.

(** wjfs_create_by_name.  [IS_ERR] is applied to the address of the local
    variable, so the error branch is dead; the count is read through the
    pointer before the test. *)
Definition wjfs_create_by_name (name : block) (mode : Z) (parent : option nat) : M (Z * nat) :=
  parent ← match parent with Some p => mret p | None => the_root end;
  len ← lift (strlen name);
  dentry ← lookup_one_len (take (Z.to_nat len) name) parent;
  match dentry with
  | DNull => fail NullDeref
  | DErr _ => fail BadPointer
  | DPtr r =>
      _ ← get_dentry r;
      p ← get_dentry parent;
      pir ← deref (d_inode p);
      '(_, error) ← mknod_attach pir r
        (Z.lor mode (if Z.land mode S_IFMT =? S_IFDIR then S_IFDIR else S_IFREG)) 0;
      mret (error, r)
  end.

(** wjfs_create_file with [data] and [fops] null. *)
Definition wjfs_create_file (name : block) (mode : Z) (parent : option nat) : M (option nat) :=
  '(error, r) ← wjfs_create_by_name name mode parent;
  if negb (error =? 0) then mret None
  else _ ← get_dentry r; mret (Some r).

Definition wjfs_create_dir (name : block) (parent : option nat) : M (option nat) :=
  wjfs_create_file name (Z.lor S_IFDIR (Z.lor S_IRWXU (Z.lor S_IRUGO S_IXUGO))) parent.

(** rdma_create; [ip] is the text of the peer's address, [None] when
    inet_ntoa had no memory. *)
Definition rdma_create (buf : block) (ip : option block) : M unit :=
  q ← lift (parse_request buf (a_tmp_name stack) (a_name stack) (a_name_parent stack));
  root ← the_root;
  rd ← get_dentry root;
  c ← lift (strcmp (d_name rd ++ [0]) (r_name_parent q ++ [0]));
  parent ← (if c =? 0 then mret (Some root)
            else find_from_all_dentry root (r_name_parent q ++ [0]));
  parent ← deref parent;
  pd ← get_dentry parent;
  pir ← deref (d_inode pd);
  pi ← get_inode pir;
  new ← (if negb (r_mode q =? 0) then wjfs_create_dir (r_name q ++ [0]) (Some parent)
         else wjfs_create_file (r_name q ++ [0]) (Z.lor S_IFREG S_IRUGO) (Some parent));
  new ← deref new;
  atomic_dec_d new;;
  nd ← get_dentry new;
  nir ← deref (d_inode nd);
  ni ← get_inode nir;
  t ← gets (fun s => g_table (glob s));
  t ← lift (match ip with
            | Some ip => table_record t (d_name nd ++ [0]) (i_ino ni) (r_ino q) (i_ino pi)
                           (r_ino_parent q) ip
            | None => Fault NullDeref
            end);
  modify (fun s => let g := glob s in
    with_glob (mkGlobals (g_rroot_dentry g) (g_a_dentry g) t (g_read_k g)) s).

(** wjfs_rmdir_rdma, wjfs_unlink_rdma *)
Definition wjfs_rmdir_rdma (dir dentry : nat) : M Z :=
  empty ← simple_empty dentry;
  if negb empty then mret (- ENOTEMPTY) else
  d ← get_dentry dentry;
  ir ← deref (d_inode d);
  drop_nlink ir;;
  simple_unlink dir dentry;;
  drop_nlink dir;;
  mret 0.

Definition wjfs_unlink_rdma (dir dentry : nat) : M Z :=
  simple_unlink dir dentry;; mret 0.

(** rdma_remove: the entry is freed whether or not the dentry is found. *)
Definition rdma_remove (buf : block) : M unit :=
  q ← lift (parse_request buf (a_tmp_name stack) (a_name stack) (a_name_parent stack));
  t ← gets (fun s => g_table (glob s));
  '(t, (my_ino, _)) ← lift (table_take t (r_ino q) (r_ino_parent q));
  modify (fun s => let g := glob s in
    with_glob (mkGlobals (g_rroot_dentry g) (g_a_dentry g) t (g_read_k g)) s);;
  root ← the_root;
  found ← find_dentry_by_ino root my_ino;
  match found with
  | None => mret tt
  | Some r =>
      d ← get_dentry r;
      p ← get_dentry (d_parent d);
      pir ← deref (d_inode p);
      (if negb (r_mode q =? 0) then wjfs_rmdir_rdma pir r else wjfs_unlink_rdma pir r);;
      mret tt
  end.

(** rdma_read: the request buffer is overwritten with the contents. *)
Definition rdma_read (buf : block) : M block :=
  q ← lift (parse_read buf (take 100 (a_tmp_name stack)) (a_name stack) (a_name_parent stack));
  root ← the_root;
  found ← find_dentry_by_ino root (r_ino q);
  match found with
  | None => mret buf
  | Some r =>
      message ← get_file_message stack r (a_message stack);
      buf ← lift (memset buf 0 0 1024);
      lift (strcpy buf 0 message)
  end.

(** rdma_write *)
Definition rdma_write (buf : block) : M unit :=
  '(q, message) ← lift (parse_write buf (a_tmp_name stack) (a_name stack)
                          (a_name_parent stack) (a_message stack));
  root ← the_root;
  found ← find_dentry_by_ino root (r_ino q);
  match found with
  | None => mret tt
  | Some r => put_file_message stack r message;; mret tt
  end.

(** The body of the loop of wjfs_server for one connection: [None] is the
    break on "quit", otherwise the bytes sent back.  The four tests are
    separate [if]s on the same buffer. *)
Definition starts (buf : block) (t : string) : M bool :=
  c ← lift (memcmp buf (lit t) (length (bytes t))); mret (c =? 0).

Definition server_step (addr : Z) (msg : list Z) : M (option (list Z)) :=
  kmalloc ← alloc;
  tmp ← lift (inet_ntoa pointer kmalloc addr);
  let buf := splice (replicate 1024 0) 0 (take 1024 msg) in
  quit ← starts buf "quit";
  if (quit : bool) then mret None else
  is_rd ← starts buf "RD";
  '(buf, out) ← (if (is_rd : bool) then
                   buf ← rdma_read buf;
                   n ← lift (strlen buf);
                   mret (buf, take (Z.to_nat n) buf)
                 else mret (buf, []));
  is_wr ← starts buf "WR";
  (if (is_wr : bool) then rdma_write buf else mret tt);;
  is_cr ← starts buf "CR";
  (if (is_cr : bool) then rdma_create buf tmp else mret tt);;
  is_rm ← starts buf "RM";
  (if (is_rm : bool) then rdma_remove buf else mret tt);;
  mret (Some out).

(** The loop of wjfs_server: the connections in order, up to "quit", which ends
    the server with 0, or to the failing accept that the end of the list stands
    for, which ends it with -1.  The second result is what was sent back on each
    connection. *)
Fixpoint server_run (conns : list (Z * list Z)) : M (Z * list (list Z)) :=
  match conns with
  | [] => mret (-1, [])
  | (addr, msg) :: conns =>
      r ← server_step addr msg;
      match r with
      | None => mret (0, [])
      | Some out => '(ret, outs) ← server_run conns; mret (ret, out :: outs)
      end
  end.

(** wjfs_server: [bind] and [listen] are what kbind and klisten return. *)
Definition wjfs_server (bind listen : Z) (conns : list (Z * list Z)) : M (Z * list (list Z)) :=
  ok ← net_socket;
  if negb ok then mret (-1, []) else
  if bind <? 0 then mret (-1, []) else
  if listen <? 0 then mret (-1, []) else
  server_run conns.
End server.
