(* ===== verification/Node.v ===== *)
(** * What the operations do to a node

    The effect of the creation and removal functions on a node's memory, as
    equations on the maps of dentries and inodes, and the invariant of a node
    at rest that they keep. *)

From S2P Require Import Prelude KString KScan KFormat Wire Ksocket MapTable Vfs Tree Ops.
From S2P Require Import PageIo Server Umount.

(** ** Creating a dentry *)

(** The state after [d_alloc] of a child of [p] and wjfs_lookup on it. *)
Definition child_dentry (p : nat) (n : list Z) : dentry :=
  mkDentry 1 true None p n [] true false.

Definition add_sub (r : nat) (pd : dentry) : dentry :=
  set_d_subdirs (r :: d_subdirs pd) (set_d_count (d_count pd + 1) pd).

Definition note_a (n : list Z) (r : nat) (g : globals) : globals :=
  if bool_decide (n = [97])
  then mkGlobals (g_rroot_dentry g) (Some r) (g_table g) (g_read_k g) else g.

Definition looked_up (p : nat) (pd : dentry) (n : list Z) (s : kstate) : kstate :=
  mkK (inodes s)
    (<[fresh s := child_dentry p n]> (<[p := add_sub (fresh s) pd]> (dentries s)))
    (S (fresh s)) (fresh s :: d_hash s) (last_ino s) (mem s) (now s) (cur s)
    (note_a n (fresh s) (glob s)) (network s).

Lemma alloc_ok s : mem s = [] -> alloc s = Ok (true, s).
Proof. unfold alloc. by intros ->. Qed.

Lemma d_alloc_ok p pd n s :
  mem s = [] -> dentries s !! p = Some pd -> d_count pd <> 0 -> fresh s <> p ->
  d_alloc (Some p) n s = Ok (Some (fresh s),
    mkK (inodes s)
      (<[p := add_sub (fresh s) pd]>
        (<[fresh s := mkDentry 1 false None p n [] false false]>
          (<[p := set_d_count (d_count pd + 1) pd]> (dentries s))))
      (S (fresh s)) (d_hash s) (last_ino s) (mem s) (now s) (cur s) (glob s) (network s)).
Proof.
  intros Hm Hp Hc Hf. unfold d_alloc.
  erewrite M_bind_ok by (by apply alloc_ok). cbn [negb].
  erewrite M_bind_ok; cycle 1.
  { instantiate (1 := s). instantiate (1 := true). by destruct (_ <? _); [apply alloc_ok|]. }
  cbn [negb]. erewrite M_bind_ok by reflexivity.
  erewrite M_bind_ok; cycle 1.
  { unfold dget. erewrite M_bind_ok by (by apply get_dentry_ok).
    rewrite (proj2 (Z.eqb_neq _ 0)) by done. by apply upd_dentry_ok. }
  erewrite M_bind_ok by reflexivity.
  erewrite M_bind_ok; cycle 1.
  { apply (upd_dentry_ok p (set_d_count (d_count pd + 1) pd)). simpl.
    rewrite lookup_insert_ne by done. apply lookup_insert_eq. }
  done.
Qed.

Lemma strcmp_a n : Forall (fun c => c <> 0) n ->
  exists c, strcmp (n ++ [0]) (lit "a") = Ok c /\ (c =? 0) = bool_decide (n = [97]).
Proof.
  intros Hn. destruct (strcmp_eq (n ++ [0]) (lit "a") n [97]) as (c & E & Hc);
    [by apply is_cstr_app|apply is_cstr_lit; by repeat constructor|].
  exists c. split; [done|]. destruct (Z.eqb_spec c 0); case_bool_decide; naive_solver.
Qed.

(** wjfs_lookup on a fresh dentry. *)
Lemma wjfs_lookup_ok dir r d s :
  dentries s !! r = Some d -> d_inode d = None -> Forall (fun c => c <> 0) (d_name d) ->
  Z.of_nat (length (d_name d)) <= NAME_MAX ->
  wjfs_lookup dir r s = Ok (DNull,
    mkK (inodes s) (<[r := set_d_hashed true (set_d_inode None (set_d_op true d))]> (dentries s))
      (fresh s) (r :: d_hash s) (last_ino s) (mem s) (now s) (cur s)
      (note_a (d_name d) r (glob s)) (network s)).
Proof.
  intros Hr Hi Hn Hl. unfold wjfs_lookup.
  erewrite M_bind_ok by (by apply get_dentry_ok).
  destruct (strcmp_a _ Hn) as (c & Ec & Hc).
  erewrite M_bind_ok by (unfold lift; by rewrite Ec). rewrite Hc.
  set (s1 := with_glob (note_a (d_name d) r (glob s)) s).
  erewrite M_bind_ok; cycle 1.
  { instantiate (1 := s1). instantiate (1 := tt).
    unfold s1, note_a. case_bool_decide; [done|]. by destruct s. }
  rewrite (proj2 (Z.ltb_ge _ _)) by done.
  assert (Hr1 : dentries s1 !! r = Some d) by done.
  erewrite M_bind_ok by (by apply upd_dentry_ok).
  erewrite M_bind_ok; [reflexivity|]. unfold d_add.
  erewrite M_bind_ok; cycle 1.
  { unfold d_instantiate.
    erewrite M_bind_ok by (apply get_dentry_ok; simpl; apply lookup_insert_eq).
    simpl. rewrite Hi. apply upd_dentry_ok. simpl. apply lookup_insert_eq. }
  unfold d_rehash.
  erewrite M_bind_ok by (apply upd_dentry_ok; simpl; apply lookup_insert_eq).
  unfold modify. simpl. by rewrite !insert_insert_eq.
Qed.

Section ops.
Variable pointer : block -> block * nat -> Z -> va -> printf_spec -> res (block * nat).
Variable stack : autos.

#[local] Instance node_ops : InodeOps := wjfs_ops pointer stack.

(** A name the VFS accepts as one component. *)
Definition component (n : list Z) : Prop :=
  n <> [] /\ Forall (fun c => c <> 0 /\ c <> 47) n /\ (length n <= 255)%nat.

Lemma component_check n : component n -> lookup_one_len_check n = 0.
Proof using.
  intros (Hne & Hn & _). unfold lookup_one_len_check.
  destruct n as [|c n]; [done|]. rewrite (proj2 (Nat.eqb_neq _ 0)) by done.
  destruct (existsb _ (c :: n)) eqn:E; [|done]. apply existsb_exists in E as (x & Hx & Hx').
  rewrite List.Forall_forall in Hn. destruct (Hn x Hx) as [H0 H47].
  rewrite (proj2 (Z.eqb_neq x 47)), (proj2 (Z.eqb_neq x 0)) in Hx' by done. done.
Qed.

(** A directory in which a name can be looked up. *)
Record dir_ready (s : kstate) (p : nat) (pd : dentry) (pir : nat) (pi : inode) : Prop := {
  dr_dentry : dentries s !! p = Some pd;
  dr_count : d_count pd <> 0;
  dr_inode : d_inode pd = Some pir;
  dr_lookup : inodes s !! pir = Some pi;
  dr_dead : i_dead pi = false;
  dr_ops : i_op pi = wjfs_dir_iops;
  dr_perm : generic_permission (cur s) pi MAY_EXEC = 0;
  dr_fresh : (p < fresh s)%nat;
}.

Lemma lookup_hash_miss p pd pir pi n s :
  mem s = [] -> dir_ready s p pd pir pi -> component n ->
  d_lookup_in (d_hash s) (dentries s) p n = None ->
  lookup_hash_ n p s = Ok (DPtr (fresh s), looked_up p pd n s).
Proof using.
  intros Hm [Hp Hc Hi Hpi Hdead Hops Hperm Hf] Hn Hmiss. unfold lookup_hash_.
  erewrite M_bind_ok by (by apply get_dentry_ok).
  erewrite M_bind_ok; cycle 1.
  { unfold d_lookup. erewrite M_bind_ok by reflexivity. rewrite Hmiss. reflexivity. }
  rewrite Hi. erewrite M_bind_ok by reflexivity.
  erewrite M_bind_ok by (by apply get_inode_ok). rewrite Hdead.
  erewrite M_bind_ok by (apply d_alloc_ok; [done|done|done|lia]).
  rewrite Hops. cbn [op_lookup node_ops wjfs_ops]. destruct Hn as (_ & Hnz & Hl).
  erewrite M_bind_ok; cycle 1.
  { apply wjfs_lookup_ok with (d := mkDentry 1 false None p n [] false false); try done.
    - simpl. rewrite lookup_insert_ne by lia. apply lookup_insert_eq.
    - simpl. rewrite Forall_lookup in *. intros i c Hic. by destruct (Hnz i c Hic).
    - simpl. unfold NAME_MAX. lia. }
  unfold mret, M_ret, looked_up. simpl. do 3 f_equal.
  map_solve.
Qed.

(** A directory may be searched by whom its permissions let. *)
Lemma dir_may_search p pd pir pi s :
  dir_ready s p pd pir pi -> inode_permission pir MAY_EXEC s = Ok (0, s).
Proof using.
  intros [_ _ _ Hpi _ _ Hperm _]. unfold inode_permission.
  erewrite M_bind_ok by (by apply get_inode_ok).
  erewrite M_bind_ok by reflexivity. rewrite Hperm. reflexivity.
Qed.

Lemma lookup_miss p pd pir pi n s :
  mem s = [] -> dir_ready s p pd pir pi -> component n ->
  d_lookup_in (d_hash s) (dentries s) p n = None ->
  lookup_one_len n p s = Ok (DPtr (fresh s), looked_up p pd n s).
Proof using.
  intros Hm Hdr Hn Hmiss. pose proof Hdr as [Hp _ Hi _ _ _ _ _]. unfold lookup_one_len.
  rewrite component_check by done. change (negb (0 =? 0)) with false. cbn iota.
  erewrite M_bind_ok by (by apply get_dentry_ok). rewrite Hi.
  erewrite M_bind_ok by reflexivity.
  erewrite M_bind_ok by (by eapply dir_may_search).
  change (negb (0 =? 0)) with false. cbn iota. by eapply lookup_hash_miss.
Qed.

(** The inode wjfs_get_inode makes for a regular file or a directory. *)
Definition made_inode (s : kstate) (mode : Z) : inode :=
  let dir := S_ISDIR mode in
  mkInode (u32 (last_ino s + 1)) mode (fsuid (cur s)) (fsgid (cur s))
    (if dir then 2 else 1) 1 false 0
    (if dir then wjfs_dir_iops else wjfs_file_iops)
    (if dir then simple_dir_fops else wjfs_file_fops) (now s) (now s) (now s) 0 ∅.

Definition with_new_inode (i : inode) (s : kstate) : kstate :=
  mkK (<[fresh s := i]> (inodes s)) (dentries s) (S (fresh s)) (d_hash s)
    (u32 (last_ino s + 1)) (mem s) (now s) (cur s) (glob s) (network s).

Lemma wjfs_get_inode_ok mode s :
  mem s = [] -> Z.land mode S_IFMT = S_IFREG \/ Z.land mode S_IFMT = S_IFDIR ->
  wjfs_get_inode mode 0 s = Ok (Some (fresh s), with_new_inode (made_inode s mode) s).
Proof using.
  intros Hm Hmode. unfold wjfs_get_inode.
  erewrite M_bind_ok by (unfold new_inode; rewrite alloc_ok by done; reflexivity).
  cbn iota. erewrite M_bind_ok by reflexivity. erewrite M_bind_ok by reflexivity.
  erewrite M_bind_ok by (apply upd_inode_ok; simpl; apply lookup_insert_eq).
  unfold made_inode, with_new_inode, S_ISDIR, ifmt. destruct Hmode as [->| ->].
  - change (S_IFREG =? S_IFREG) with true. change (S_IFREG =? S_IFDIR) with false. cbn iota.
    erewrite M_bind_ok by (apply upd_inode_ok; simpl; apply lookup_insert_eq).
    unfold mret, M_ret. simpl. by rewrite !insert_insert_eq.
  - change (S_IFDIR =? S_IFREG) with false. change (S_IFDIR =? S_IFDIR) with true. cbn iota.
    erewrite M_bind_ok; cycle 1.
    { erewrite M_bind_ok by (apply upd_inode_ok; simpl; apply lookup_insert_eq).
      unfold inc_nlink. apply upd_inode_ok. simpl. apply lookup_insert_eq. }
    unfold mret, M_ret. simpl. by rewrite !insert_insert_eq.
Qed.

(** What a new inode takes from a set-group-id directory. *)
Definition inherit (pi : inode) (mode : Z) (i : inode) : inode :=
  if negb (Z.land (i_mode pi) S_ISGID =? 0)
  then set_attr (if S_ISDIR mode then Z.lor (i_mode i) S_ISGID else i_mode i)
         (i_uid i) (i_gid pi) i
  else i.

Definition attached (pir : nat) (pi : inode) (r : nat) (d : dentry) (mode : Z) (s : kstate)
  : kstate :=
  mkK (<[pir := set_mtime_ctime (now s) pi]>
        (<[fresh s := inherit pi mode (made_inode s mode)]> (inodes s)))
    (<[r := set_d_count (d_count d + 1) (set_d_inode (Some (fresh s)) d)]> (dentries s))
    (S (fresh s)) (d_hash s) (u32 (last_ino s + 1)) (mem s) (now s) (cur s) (glob s) (network s).

Lemma mknod_attach_ok pir pi r d mode s :
  mem s = [] -> Z.land mode S_IFMT = S_IFREG \/ Z.land mode S_IFMT = S_IFDIR ->
  inodes s !! pir = Some pi -> (pir < fresh s)%nat ->
  dentries s !! r = Some d -> d_inode d = None -> d_count d <> 0 ->
  mknod_attach pir r mode 0 s = Ok ((Some (fresh s), 0), attached pir pi r d mode s).
Proof using.
  intros Hm Hmode Hpi Hlt Hr Hi Hc. unfold mknod_attach.
  erewrite M_bind_ok by (by apply get_dentry_ok).
  erewrite M_bind_ok by (by apply wjfs_get_inode_ok). cbn iota.
  set (s1 := with_new_inode _ s).
  assert (Hpi1 : inodes s1 !! pir = Some pi) by (simpl; by rewrite lookup_insert_ne by lia).
  erewrite M_bind_ok by (by apply get_inode_ok).
  set (s2 := with_inodes (<[fresh s := inherit pi mode (made_inode s mode)]> (inodes s)) s1).
  erewrite M_bind_ok; cycle 1.
  { instantiate (1 := s2). instantiate (1 := tt). unfold s2, inherit.
    destruct (negb (Z.land (i_mode pi) S_ISGID =? 0)); [|done].
    erewrite upd_inode_ok by (simpl; apply lookup_insert_eq). simpl. by rewrite insert_insert_eq. }
  assert (Hr2 : dentries s2 !! r = Some d) by done.
  erewrite M_bind_ok; cycle 1.
  { unfold d_instantiate. erewrite M_bind_ok by (by apply get_dentry_ok). rewrite Hi.
    by apply upd_dentry_ok. }
  erewrite M_bind_ok; cycle 1.
  { unfold dget. erewrite M_bind_ok by (apply get_dentry_ok; simpl; apply lookup_insert_eq).
    simpl. rewrite (proj2 (Z.eqb_neq _ 0)) by done.
    apply upd_dentry_ok. simpl. apply lookup_insert_eq. }
  erewrite M_bind_ok by reflexivity.
  erewrite M_bind_ok; cycle 1.
  { apply (upd_inode_ok pir pi). simpl. by rewrite lookup_insert_ne by lia. }
  unfold mret, M_ret, attached. simpl. by rewrite insert_insert_eq.
Qed.

(** ** wjfs_create_file and wjfs_create_dir *)

(** A node after a dentry named [n] was made under [p] and its extra reference
    given back: dentry [fresh s], inode [S (fresh s)]. *)
Definition created (p : nat) (pd : dentry) (pir : nat) (pi : inode) (n : list Z) (mode : Z)
    (count : Z) (s : kstate) : kstate :=
  mkK (<[pir := set_mtime_ctime (now s) pi]>
        (<[S (fresh s) := inherit pi mode (made_inode s mode)]> (inodes s)))
    (<[fresh s := mkDentry count true (Some (S (fresh s))) p n [] true false]>
      (<[p := add_sub (fresh s) pd]> (dentries s)))
    (S (S (fresh s))) (fresh s :: d_hash s) (u32 (last_ino s + 1)) (mem s) (now s) (cur s)
    (note_a n (fresh s) (glob s)) (network s).

Lemma create_by_name_ok name n mode p pd pir pi s :
  mem s = [] -> dir_ready s p pd pir pi -> component n -> is_cstr name n ->
  (pir < fresh s)%nat ->
  d_lookup_in (d_hash s) (dentries s) p n = None ->
  Z.land mode S_IFMT = S_IFREG \/ Z.land mode S_IFMT = S_IFDIR ->
  wjfs_create_by_name pointer stack name mode (Some p) s
  = Ok ((0, fresh s), created p pd pir pi n mode 2 s).
Proof using.
  intros Hm Hdr Hn Hname Hlt Hmiss Hmode. unfold wjfs_create_by_name.
  erewrite M_bind_ok by reflexivity.
  erewrite M_bind_ok by (unfold lift; by rewrite (strlen_spec _ _ Hname)).
  assert (Etake : take (Z.to_nat (Z.of_nat (length n))) name = n).
  { rewrite Nat2Z.id. destruct Hname as [_ [r ->]]. by rewrite take_app_length. }
  rewrite Etake. erewrite M_bind_ok by (by eapply lookup_miss). cbn iota.
  destruct Hdr as [Hp Hc Hi Hpi Hdead Hops Hperm Hf].
  set (s1 := looked_up p pd n s).
  assert (Hr1 : dentries s1 !! fresh s = Some (child_dentry p n)) by (simpl; apply lookup_insert_eq).
  assert (Hp1 : dentries s1 !! p = Some (add_sub (fresh s) pd))
    by (simpl; rewrite lookup_insert_ne by lia; apply lookup_insert_eq).
  erewrite M_bind_ok by (by apply get_dentry_ok).
  erewrite M_bind_ok by (by apply get_dentry_ok).
  erewrite M_bind_ok by (simpl; rewrite Hi; reflexivity).
  assert (Emode : Z.lor mode (if Z.land mode S_IFMT =? S_IFDIR then S_IFDIR else S_IFREG) = mode).
  { destruct Hmode as [E|E]; rewrite E.
    - change (S_IFREG =? S_IFDIR) with false. cbn iota.
      rewrite <- E. apply Z.bits_inj'. intros k _. rewrite Z.lor_spec, Z.land_spec.
      by destruct (Z.testbit mode k).
    - change (S_IFDIR =? S_IFDIR) with true. cbn iota.
      rewrite <- E. apply Z.bits_inj'. intros k _. rewrite Z.lor_spec, Z.land_spec.
      by destruct (Z.testbit mode k). }
  rewrite Emode.
  erewrite M_bind_ok by (apply (mknod_attach_ok pir pi (fresh s) (child_dentry p n)); try done; simpl; lia).
  unfold mret, M_ret, attached, created. simpl. by rewrite insert_insert_eq.
Qed.

Lemma create_file_ok name n mode p pd pir pi s :
  mem s = [] -> dir_ready s p pd pir pi -> component n -> is_cstr name n ->
  (pir < fresh s)%nat ->
  d_lookup_in (d_hash s) (dentries s) p n = None ->
  Z.land mode S_IFMT = S_IFREG \/ Z.land mode S_IFMT = S_IFDIR ->
  wjfs_create_file pointer stack name mode (Some p) s
  = Ok (Some (fresh s), created p pd pir pi n mode 2 s).
Proof using.
  intros. unfold wjfs_create_file. erewrite M_bind_ok by (by eapply create_by_name_ok).
  cbn iota beta. change (negb (0 =? 0)) with false. cbn iota.
  by erewrite M_bind_ok by (apply get_dentry_ok; simpl; apply lookup_insert_eq).
Qed.

(** ** rdma_create *)

(** The parent the server works in: the root when the name is the root's,
    otherwise the first dentry of that name the search meets. *)
Definition resolves (s : kstate) (np : list Z) (p : nat) : Prop :=
  exists root rd, g_rroot_dentry (glob s) = Some root /\ dentries s !! root = Some rd /\
    Forall (fun c => c <> 0) (d_name rd) /\
    ((d_name rd = np /\ p = root) \/
     (d_name rd <> np /\ find_from_all_dentry root (np ++ [0]) s = Ok (Some p, s))).

Definition link_mode (mode : Z) : Z := if mode =? 0 then 33060 else 16877.

Definition set_table (t : table) (s : kstate) : kstate :=
  with_glob (mkGlobals (g_rroot_dentry (glob s)) (g_a_dentry (glob s)) t (g_read_k (glob s))) s.

Lemma resolve_step s np p :
  resolves s np p -> Forall (fun c => c <> 0) np ->
  exists root rd, g_rroot_dentry (glob s) = Some root /\ dentries s !! root = Some rd /\
  exists c, strcmp (d_name rd ++ [0]) (np ++ [0]) = Ok c /\
    (if c =? 0 then mret (Some root) else find_from_all_dentry root (np ++ [0])) s = Ok (Some p, s).
Proof using.
  intros (root & rd & Hg & Hrd & Hnz & Hres) Hnp. exists root, rd. split; [done|]. split; [done|].
  destruct (strcmp_eq (d_name rd ++ [0]) (np ++ [0]) (d_name rd) np) as (c & E & Hc);
    [by apply is_cstr_app..|].
  exists c. split; [done|]. destruct Hres as [[En ->]|[En Ef]].
  - by rewrite (proj2 (Z.eqb_eq c 0)) by (by apply Hc).
  - by rewrite (proj2 (Z.eqb_neq c 0)) by (by rewrite Hc).
Qed.

(** One request to create: a link to the remote file, its table entry, and
    nothing else. *)
Lemma rdma_create_ok buf ino n inop np mode p pd pir pi ip t' s :
  parse_request buf (a_tmp_name stack) (a_name stack) (a_name_parent stack)
    = Ok (mkReq ino n inop np mode) ->
  mem s = [] -> resolves s np p -> Forall (fun c => c <> 0) np ->
  dir_ready s p pd pir pi -> component n -> (pir < fresh s)%nat ->
  d_lookup_in (d_hash s) (dentries s) p n = None ->
  table_record (g_table (glob s)) (n ++ [0]) (u32 (last_ino s + 1)) ino (i_ino pi) inop ip = Ok t' ->
  rdma_create pointer stack buf (Some ip) s
  = Ok (tt, set_table t' (created p pd pir pi n (link_mode mode) 1 s)).
Proof using.
  intros Hq Hm Hres Hnp Hdr Hn Hlt Hmiss Ht. unfold rdma_create.
  erewrite M_bind_ok by (unfold lift; by rewrite Hq). cbn [r_name_parent r_mode r_name r_ino r_ino_parent].
  destruct (resolve_step s np p Hres Hnp) as (root & rd & Hg & Hrd & c & Ec & Ep).
  erewrite M_bind_ok; cycle 1.
  { unfold the_root. erewrite M_bind_ok by reflexivity. rewrite Hg. reflexivity. }
  erewrite M_bind_ok by (by apply get_dentry_ok).
  erewrite M_bind_ok by (unfold lift; by rewrite Ec).
  erewrite M_bind_ok by exact Ep. erewrite M_bind_ok by reflexivity.
  pose proof Hdr as [Hp Hc Hi Hpi Hdead Hops Hperm Hf].
  erewrite M_bind_ok by (by apply get_dentry_ok). rewrite Hi.
  erewrite M_bind_ok by reflexivity. erewrite M_bind_ok by (by apply get_inode_ok).
  assert (Hname : is_cstr (n ++ [0]) n).
  { apply is_cstr_app. destruct Hn as (_ & Hn & _). rewrite Forall_lookup in *.
    intros i x Hx. by destruct (Hn i x Hx). }
  erewrite M_bind_ok; cycle 1.
  { instantiate (1 := created p pd pir pi n (link_mode mode) 2 s).
    instantiate (1 := Some (fresh s)). unfold link_mode, wjfs_create_dir.
    destruct (mode =? 0); cbn [negb].
    - change (Z.lor S_IFREG S_IRUGO) with 33060. eapply create_file_ok; try done. by left.
    - change (Z.lor S_IFDIR (Z.lor S_IRWXU (Z.lor S_IRUGO S_IXUGO))) with 16877.
      eapply create_file_ok; try done. by right. }
  erewrite M_bind_ok by reflexivity.
  erewrite M_bind_ok by (apply upd_dentry_ok; simpl; apply lookup_insert_eq).
  erewrite M_bind_ok by (apply get_dentry_ok; simpl; apply lookup_insert_eq).
  erewrite M_bind_ok by reflexivity.
  erewrite M_bind_ok; cycle 1.
  { apply get_inode_ok. simpl. rewrite lookup_insert_ne by lia. apply lookup_insert_eq. }
  erewrite M_bind_ok by reflexivity.
  assert (Eino : i_ino (inherit pi (link_mode mode) (made_inode s (link_mode mode)))
                 = u32 (last_ino s + 1)).
  { unfold inherit. by destruct (negb _). }
  assert (Etab : g_table (note_a n (fresh s) (glob s)) = g_table (glob s)).
  { unfold note_a. by case_bool_decide. }
  erewrite M_bind_ok by (unfold lift; cbn [glob with_dentries created d_name]; rewrite Etab;
    cbn [d_name set_d_count]; rewrite Eino, Ht; reflexivity).
  unfold modify, set_table, created. simpl. rewrite insert_insert_eq. unfold set_d_count. simpl.
  done.
Qed.
End ops.
