(* ===== verification/FileData.v ===== *)
(** * What reads and writes of a file do to its bytes

    A file as a function from positions to bytes, zero where no page is cached;
    generic_file_aio_read delivers a slice of it and generic_file_aio_write
    changes one, over any number of pages. *)

From S2P Require Import Prelude KString KScan KFormat Wire Ksocket MapTable Vfs Tree Ops PageIo.
From S2P Require Import FileMap Server Umount Node.

(** ** The bytes of a file *)

Definition byte_at (i : inode) (k : Z) : Z :=
  match i_pages i !! Z.to_nat (k / 4096) with
  | Some p => default 0 (p !! Z.to_nat (k mod 4096))
  | None => 0
  end.

Definition slice (i : inode) (pos : Z) (n : nat) : list Z :=
  map (fun j => byte_at i (pos + Z.of_nat j)) (seq 0 n).

(** Pages have their size, and what lies behind the end of the file is zero. *)
Record data_ok (i : inode) : Prop := {
  do_pages : forall x p, i_pages i !! x = Some p -> length p = 4096%nat;
  do_size : 0 <= i_size i <= MAX_LFS_FILESIZE;
  do_tail : forall k, i_size i <= k -> byte_at i k = 0;
}.

Lemma data_ok_same i i' : data_ok i -> i_size i' = i_size i -> i_pages i' = i_pages i -> data_ok i'.
Proof.
  intros [H1 H2 H3] Es Ep. split; rewrite ?Es, ?Ep; [done..|].
  intros k Hk. unfold byte_at. rewrite Ep. by apply H3.
Qed.

Lemma data_ok_new i : i_size i = 0 -> i_pages i = ∅ -> data_ok i.
Proof.
  intros Es Ep. split; rewrite ?Es, ?Ep; [intros x p; by rewrite lookup_empty|unfold MAX_LFS_FILESIZE; lia|].
  intros k _. unfold byte_at. by rewrite Ep, lookup_empty.
Qed.

(** Every inode of a node has well-formed data. *)
Definition files_ok (s : kstate) : Prop := map_Forall (fun _ i => data_ok i) (inodes s).

Lemma files_ok_insert s ir i :
  files_ok s -> data_ok i -> files_ok (with_inodes (<[ir := i]> (inodes s)) s).
Proof. intros Hs Hi. by apply map_Forall_insert_2. Qed.

Lemma shift12 z : Z.shiftr z PAGE_CACHE_SHIFT = z / 4096.
Proof. unfold PAGE_CACHE_SHIFT. by rewrite Z.shiftr_div_pow2 by lia. Qed.

Lemma land4095 z : Z.land z (PAGE_CACHE_SIZE - 1) = z mod 4096.
Proof. unfold PAGE_CACHE_SIZE. change (4096 - 1) with (Z.ones 12). by rewrite Z.land_ones by lia. Qed.

Lemma shiftl12 z : Z.shiftl z PAGE_CACHE_SHIFT = z * 4096.
Proof. unfold PAGE_CACHE_SHIFT. by rewrite Z.shiftl_mul_pow2 by lia. Qed.

Lemma page_of index offset :
  0 <= offset < 4096 -> (index * 4096 + offset) / 4096 = index /\ (index * 4096 + offset) mod 4096 = offset.
Proof.
  intros H. rewrite Z.add_comm, Z.div_add, Z.mod_add by lia.
  by rewrite Z.div_small, Z.mod_small by lia.
Qed.

Lemma length_slice i pos n : length (slice i pos n) = n.
Proof. unfold slice. by rewrite length_map, length_seq. Qed.

Lemma slice_lookup i pos n j :
  (j < n)%nat -> slice i pos n !! j = Some (byte_at i (pos + Z.of_nat j)).
Proof.
  intros Hj. unfold slice. rewrite list_lookup_fmap, lookup_seq_lt by done. done.
Qed.

Lemma slice_app i pos a b : slice i pos (a + b) = slice i pos a ++ slice i (pos + Z.of_nat a) b.
Proof.
  apply list_eq. intros j. destruct (decide (j < a)%nat).
  - rewrite lookup_app_l by (rewrite length_slice; lia). by rewrite !slice_lookup by lia.
  - rewrite lookup_app_r by (rewrite length_slice; lia). rewrite length_slice.
    destruct (decide (j < a + b)%nat).
    + rewrite !slice_lookup by lia. do 2 f_equal. lia.
    + rewrite !lookup_ge_None_2; [done|rewrite length_slice; lia..].
Qed.

Lemma slice_ext i i' pos n :
  0 <= pos -> (forall k, 0 <= k -> byte_at i' k = byte_at i k) -> slice i' pos n = slice i pos n.
Proof. intros Hp H. unfold slice. apply map_ext. intros j. apply H. lia. Qed.

Lemma slice_page i p index offset n :
  i_pages i !! Z.to_nat index = Some p -> length p = 4096%nat -> 0 <= index -> 0 <= offset ->
  offset + Z.of_nat n <= 4096 ->
  take n (drop (Z.to_nat offset) p) = slice i (index * 4096 + offset) n.
Proof.
  intros Hp Hl Hi Ho Hn. apply list_eq. intros j. destruct (decide (j < n)%nat).
  - rewrite slice_lookup, lookup_take_lt, lookup_drop by lia.
    unfold byte_at. rewrite <- Z.add_assoc.
    destruct (page_of index (offset + Z.of_nat j)) as [-> ->]; [lia|]. rewrite Hp.
    destruct (lookup_lt_is_Some_2 p (Z.to_nat offset + j)) as [c Hc]; [lia|].
    replace (Z.to_nat (offset + Z.of_nat j)) with (Z.to_nat offset + j)%nat by lia. by rewrite Hc.
  - rewrite !lookup_ge_None_2; [done|rewrite length_slice; lia|rewrite length_take; lia].
Qed.

Lemma with_inodes_id ir i s : inodes s !! ir = Some i -> with_inodes (<[ir := i]> (inodes s)) s = s.
Proof. intros H. rewrite insert_id by done. by destruct s. Qed.

Lemma with_inodes_twice ir i1 i2 s :
  with_inodes (<[ir := i2]> (<[ir := i1]> (inodes s))) s = with_inodes (<[ir := i2]> (inodes s)) s.
Proof. by rewrite insert_insert_eq. Qed.

(** ** Reading *)

(** The same file with other pages cached. *)
Definition cached (i i' : inode) : Prop :=
  i' = set_data (i_size i) (i_pages i') i /\ (forall k, 0 <= k -> byte_at i' k = byte_at i k) /\
  data_ok i'.

Lemma set_data_id i : set_data (i_size i) (i_pages i) i = i.
Proof. by destruct i. Qed.

Lemma cached_refl i : data_ok i -> cached i i.
Proof. intros H. split; [by rewrite set_data_id|done]. Qed.

Lemma cached_trans i1 i2 i3 : cached i1 i2 -> cached i2 i3 -> cached i1 i3.
Proof.
  intros (E1 & B1 & _) (E2 & B2 & D). split; [|split; [|done]].
  - rewrite E2. rewrite E1. done.
  - intros k Hk. by rewrite B2, B1.
Qed.

Lemma cached_size i i' : cached i i' -> i_size i' = i_size i.
Proof. intros (-> & _). done. Qed.

(** A page of zeros in place of none changes no byte. *)
Lemma cache_zero i x :
  data_ok i -> i_pages i !! x = None ->
  cached i (set_data (i_size i) (<[x := replicate 4096 0]> (i_pages i)) i).
Proof.
  intros [Hp Hs Ht] Hx. set (i' := set_data _ _ i).
  assert (Hb : forall k, byte_at i' k = byte_at i k).
  { intros k. unfold byte_at, i'. cbn [i_pages set_data]. destruct (decide (Z.to_nat (k / 4096) = x)) as [E|E].
    - rewrite E, lookup_insert_eq, Hx. pose proof (Z.mod_pos_bound k 4096 ltac:(lia)).
      by rewrite lookup_replicate_2 by lia.
    - by rewrite lookup_insert_ne by done. }
  split; [done|]. split; [intros k _; apply Hb|]. split.
  - intros y p. unfold i'. cbn [i_pages set_data]. rewrite lookup_insert_Some. intros [[_ <-]|[_ H]]; [apply length_replicate|eauto].
  - done.
  - intros k Hk. rewrite Hb. by apply Ht.
Qed.

Lemma read_page_ok ir i index s :
  inodes s !! ir = Some i -> data_ok i -> mem s = [] ->
  exists p i', read_page ir index s = Ok (Some p, with_inodes (<[ir := i']> (inodes s)) s) /\
    cached i i' /\ i_pages i' !! Z.to_nat index = Some p.
Proof.
  intros Hi Hd Hm. unfold read_page. erewrite M_bind_ok by (by apply get_inode_ok).
  destruct (i_pages i !! Z.to_nat index) as [p|] eqn:E.
  - exists p, i. rewrite with_inodes_id by done. split; [done|]. split; [by apply cached_refl|done].
  - erewrite M_bind_ok by (by apply alloc_ok). cbn iota.
    erewrite M_bind_ok by (by apply upd_inode_ok).
    eexists _, _. split; [reflexivity|]. split; [by apply cache_zero|]. simpl. apply lookup_insert_eq.
Qed.

Lemma read_actor_ok d page offset size n :
  0 <= d_off d -> 0 <= offset -> n = Z.min (d_left d) size -> 0 <= n ->
  d_off d + n <= Z.of_nat (length (d_buf d)) -> offset + n <= Z.of_nat (length page) ->
  file_read_actor d page offset size
  = Ok (mkDesc (splice (d_buf d) (Z.to_nat (d_off d)) (take (Z.to_nat n) (drop (Z.to_nat offset) page)))
          (d_off d + n) (d_left d - n) (d_written d + n) (d_error d), n).
Proof.
  intros Ho Hof Hn Hn0 Hfit Hpage. unfold file_read_actor.
  assert (Es : (if d_left d <? size then d_left d else size) = n) by (destruct (Z.ltb_spec (d_left d) size); lia).
  rewrite Es. rewrite Z.max_l by lia. rewrite Z.sub_0_r. set (src := drop (Z.to_nat offset) page).
  rewrite memcpy_take by (unfold src; rewrite ?length_drop; lia). done.
Qed.

Lemma end_index_eq size :
  0 < size <= MAX_LFS_FILESIZE -> u32 (Z.shiftr (size - 1) PAGE_CACHE_SHIFT) = (size - 1) / 4096.
Proof. unfold MAX_LFS_FILESIZE. intros H. rewrite shift12, u32_small; [done|]. dlia. Qed.

(** What a page of the file holds. *)
Lemma page_bytes size index :
  0 < size -> index <= (size - 1) / 4096 ->
  (if index =? (size - 1) / 4096 then (size - 1) mod 4096 + 1 else PAGE_CACHE_SIZE)
  = Z.min 4096 (size - index * 4096).
Proof. unfold PAGE_CACHE_SIZE. intros H1 H2. destruct (Z.eqb_spec index ((size - 1) / 4096)); dlia. Qed.

Lemma page_cut size index offset :
  0 < size -> index <= (size - 1) / 4096 -> 0 <= offset < 4096 ->
  (index =? (size - 1) / 4096) && (Z.min 4096 (size - index * 4096) <=? offset)
  = (size <=? index * 4096 + offset).
Proof.
  intros Hs Hi Ho. destruct (Z.eqb_spec index ((size - 1) / 4096)); cbn [andb];
    [destruct (Z.leb_spec (Z.min 4096 (size - index * 4096)) offset)|];
    destruct (Z.leb_spec size (index * 4096 + offset)); try done; dlia.
Qed.

(** What the descriptor and the position are after [n] bytes from [pos] on. *)
Definition delivered (i : inode) (pos n : Z) (d : read_desc) : read_desc :=
  mkDesc (splice (d_buf d) (Z.to_nat (d_off d)) (slice i pos (Z.to_nat n)))
    (d_off d + n) (d_left d - n) (d_written d + n) (d_error d).

Lemma delivered_0 i pos d : delivered i pos 0 d = d.
Proof.
  unfold delivered. change (slice i pos (Z.to_nat 0)) with (@nil Z).
  rewrite splice_nil, !Z.add_0_r, Z.sub_0_r. by destruct d.
Qed.

Lemma delivered_add i i' pos a b d :
  0 <= pos -> 0 <= a -> 0 <= b -> 0 <= d_off d -> d_off d + a + b <= Z.of_nat (length (d_buf d)) ->
  cached i i' ->
  delivered i' (pos + a) b (delivered i pos a d) = delivered i pos (a + b) d.
Proof.
  intros Hp Ha Hb Ho Hl (_ & B & _). unfold delivered. simpl. f_equal; [|lia..].
  rewrite (slice_ext i i') by (lia || done). rewrite (Z2Nat.inj_add a b), slice_app by lia.
  rewrite <- splice_app by (rewrite !length_slice; lia). rewrite length_slice.
  f_equal; [lia|]. f_equal. lia.
Qed.

(** One page copied. *)
Lemma copy_page i i' p index offset nr d c :
  cached i i' -> i_pages i' !! Z.to_nat index = Some p -> 0 <= index -> 0 <= offset ->
  0 <= d_off d -> d_off d + d_left d <= Z.of_nat (length (d_buf d)) -> nr <= 4096 ->
  c = Z.min (d_left d) (nr - offset) -> 0 < c ->
  file_read_actor d p offset (nr - offset) = Ok (delivered i (index * 4096 + offset) c d, c).
Proof.
  intros (Ei & B & Hd) Hp Hx Ho Hoff Hb Hnr Hcd Hc. pose proof (do_pages _ Hd _ _ Hp) as Hpl.
  erewrite read_actor_ok with (n := c); [|lia..].
  rewrite (slice_page i' p index offset) by (try done; lia).
  unfold delivered. do 4 f_equal. apply slice_ext; [lia|done].
Qed.

(** The position after [c] more bytes, as index and offset. *)
Lemma next_position index offset c :
  0 <= index -> 0 <= offset -> 0 <= c -> index * 4096 + offset + c < 2 ^ 44 ->
  u32 (index + Z.shiftr (offset + c) PAGE_CACHE_SHIFT) * 4096 + Z.land (offset + c) (PAGE_CACHE_SIZE - 1)
  = index * 4096 + offset + c.
Proof. intros H1 H2 H3 H4. rewrite shift12, land4095, u32_small; dlia. Qed.

(** The loop, from any position of the file. *)
Lemma read_loop_ok fuel ir i index offset d s :
  inodes s !! ir = Some i -> data_ok i -> mem s = [] -> 0 <= index -> 0 <= offset < 4096 ->
  0 <= d_off d -> 0 < d_left d -> d_off d + d_left d <= Z.of_nat (length (d_buf d)) ->
  (Z.to_nat (d_left d) < fuel)%nat ->
  let pos := index * 4096 + offset in
  let n := Z.min (d_left d) (Z.max 0 (i_size i - pos)) in
  exists i', cached i i' /\
    read_loop fuel ir index offset d s
    = Ok ((delivered i pos n d, pos + n), with_inodes (<[ir := i']> (inodes s)) s).
Proof.
  revert i index offset d s. induction fuel as [|fuel IH]; intros i index offset d s Hi Hd Hm Hx Ho Hoff Hl Hb Hf; [lia|].
  intros pos n. cbn [read_loop].
  destruct (read_page_ok ir i index s Hi Hd Hm) as (p & i1 & E1 & C1 & Hp).
  erewrite M_bind_ok by exact E1. cbn iota.
  erewrite M_bind_ok by (apply get_inode_ok; simpl; apply lookup_insert_eq). cbv zeta.
  rewrite (cached_size _ _ C1). pose proof (do_size _ Hd) as Hs.
  assert (Hnone : n = 0 -> exists i', cached i i' /\
    (mret (d, Z.shiftl index PAGE_CACHE_SHIFT + offset) : M _) (with_inodes (<[ir := i1]> (inodes s)) s)
    = Ok ((delivered i pos n d, pos + n), with_inodes (<[ir := i']> (inodes s)) s)).
  { intros ->. exists i1. by rewrite shiftl12, delivered_0, Z.add_0_r. }
  destruct (Z.eqb_spec (i_size i) 0) as [Ez|Ez]; cbn [orb]; [apply Hnone; unfold n, pos; lia|].
  rewrite end_index_eq by lia.
  destruct (Z.ltb_spec ((i_size i - 1) / 4096) index) as [Hlt|Hge]; [apply Hnone; unfold n, pos; dlia|].
  rewrite land4095, page_bytes by lia.
  rewrite page_cut by lia. fold pos. destruct (Z.leb_spec (i_size i) pos) as [Hcut|Hcut]; [apply Hnone; unfold n, pos in *; lia|].
  set (nr := Z.min 4096 (i_size i - index * 4096)). set (c := Z.min (d_left d) (nr - offset)).
  assert (Hc : 0 < c) by (unfold c, nr, pos in *; lia).
  erewrite M_bind_ok.
  2: { unfold lift. rewrite (copy_page i i1 p index offset nr d c) by (try done; unfold nr; lia). reflexivity. }
  cbn iota beta. fold pos. change (d_left (delivered i pos c d)) with (d_left d - c).
  assert (Hpos' : pos + c < 2 ^ 44) by (unfold MAX_LFS_FILESIZE in *; unfold pos, c, nr in *; lia).
  pose proof (next_position index offset c Hx ltac:(lia) ltac:(lia) Hpos') as Epos. fold pos in Epos.
  set (index' := u32 (index + _)) in *. set (offset' := Z.land _ _) in *.
  assert (Hstop : n = c -> exists i', cached i i' /\
    (mret (delivered i pos c d, Z.shiftl index' PAGE_CACHE_SHIFT + offset') : M _)
      (with_inodes (<[ir := i1]> (inodes s)) s)
    = Ok ((delivered i pos n d, pos + n), with_inodes (<[ir := i']> (inodes s)) s)).
  { intros ->. exists i1. rewrite shiftl12, Epos. done. }
  destruct (Z.eqb_spec c (nr - offset)) as [En|En]; cbn [andb]; [|apply Hstop; unfold n, c, pos, nr in *; lia].
  destruct (Z.eqb_spec (d_left d - c) 0) as [El|El]; cbn [negb]; [apply Hstop; unfold n, c, pos, nr in *; lia|].
  destruct (IH i1 index' offset' (delivered i pos c d) (with_inodes (<[ir := i1]> (inodes s)) s))
    as (i2 & C2 & E2); try done.
  - simpl. apply lookup_insert_eq.
  - apply C1.
  - apply u32_range.
  - unfold offset'. rewrite land4095. apply Z.mod_pos_bound. lia.
  - simpl. lia.
  - simpl. unfold c in *. lia.
  - simpl. rewrite length_splice by (rewrite length_slice; unfold c in *; lia). lia.
  - simpl. lia.
  - exists i2. split; [by eapply cached_trans|].
    etrans; [exact E2|]. rewrite Epos, (cached_size _ _ C1). simpl. rewrite insert_insert_eq.
    rewrite delivered_add by (try done; unfold n, c, pos, nr in *; lia).
    do 3 f_equal; [f_equal|]; unfold n, c, pos, nr in *; lia.
Qed.

(** The same file read from: other pages cached, and another access time. *)
Record seen (i i' : inode) : Prop := {
  sn_same : i' = set_times (i_atime i') (i_mtime i) (i_ctime i) (set_data (i_size i) (i_pages i') i);
  sn_bytes : forall k, 0 <= k -> byte_at i' k = byte_at i k;
  sn_ok : data_ok i';
}.

Lemma data_ok_times a m c i : data_ok i -> data_ok (set_times a m c i).
Proof. by intros []. Qed.

Lemma cached_seen a i i' : cached i i' -> seen i (set_times a (i_mtime i') (i_ctime i') i').
Proof.
  intros (E & B & D). split; [|exact B|by apply data_ok_times]. rewrite E. done.
Qed.

Section data.
Context (env : io_env) (fresh_page : block).

Lemma file_accessed_ok f ir i s :
  inodes s !! ir = Some i ->
  exists a, file_accessed env f ir s
    = Ok (tt, with_inodes (<[ir := set_times a (i_mtime i) (i_ctime i) i]> (inodes s)) s).
Proof.
  intros Hi.
  assert (Hno : exists a, (mret tt : M unit) s
    = Ok (tt, with_inodes (<[ir := set_times a (i_mtime i) (i_ctime i) i]> (inodes s)) s)).
  { exists (i_atime i). rewrite with_inodes_id; [done|]. rewrite Hi. by destruct i. }
  unfold file_accessed, touch_atime. destruct (f_noatime f); [done|].
  erewrite M_bind_ok by (by apply get_inode_ok).
  destruct (e_noatime env); [done|]. destruct (e_nodiratime env && _); [done|].
  erewrite M_bind_ok by reflexivity. destruct (negb _); [done|]. destruct (_ =? _); [done|].
  destruct (e_readonly env); [done|]. eexists. by rewrite (upd_inode_ok _ _ _ _ Hi).
Qed.

Lemma do_read_ok f ir i pos d s :
  inodes s !! ir = Some i -> data_ok i -> mem s = [] -> 0 <= pos < 2 ^ 44 ->
  0 <= d_off d -> 0 < d_left d -> d_off d + d_left d <= Z.of_nat (length (d_buf d)) ->
  let n := Z.min (d_left d) (Z.max 0 (i_size i - pos)) in
  exists i', seen i i' /\
    do_generic_file_read env f ir pos d s
    = Ok ((delivered i pos n d, pos + n), with_inodes (<[ir := i']> (inodes s)) s).
Proof.
  intros Hi Hd Hm Hp Ho Hl Hb n. unfold do_generic_file_read.
  rewrite shift12, land4095, u32_small by dlia.
  destruct (read_loop_ok (S (Z.to_nat (d_left d))) ir i (pos / 4096) (pos mod 4096) d s)
    as (i1 & C & E); try done; try lia; [dlia|dlia|].
  replace (pos / 4096 * 4096 + pos mod 4096) with pos in E by dlia. fold n in E.
  erewrite M_bind_ok by exact E.
  destruct (file_accessed_ok f ir i1 (with_inodes (<[ir := i1]> (inodes s)) s)) as (a & Ea);
    [simpl; apply lookup_insert_eq|].
  erewrite M_bind_ok by exact Ea. eexists. split; [by apply (cached_seen a)|].
  simpl. by rewrite insert_insert_eq.
Qed.

(** generic_file_aio_read of a buffer that holds [len] bytes. *)
Lemma aio_read_ok f dt ir i buf len pos s :
  dentries s !! f_dentry f = Some dt -> d_inode dt = Some ir -> inodes s !! ir = Some i -> data_ok i ->
  mem s = [] -> 0 <= pos < 2 ^ 44 -> 0 <= len < 2 ^ 31 -> len <= Z.of_nat (length buf) ->
  let n := Z.min len (Z.max 0 (i_size i - pos)) in
  exists i', seen i i' /\
    generic_file_aio_read env f buf len pos s
    = Ok ((n, pos + n, splice buf 0 (slice i pos (Z.to_nat n))), with_inodes (<[ir := i']> (inodes s)) s).
Proof.
  intros Hdt Hir Hi Hd Hm Hp Hl Hb n. unfold generic_file_aio_read, generic_segment_checks.
  rewrite s32_small by lia. rewrite (proj2 (Z.ltb_ge _ _)) by lia. change (negb (0 =? 0)) with false. cbn iota.
  destruct (Z.eqb_spec len 0) as [E0|E0].
  - exists i. split; [split; [by destruct i|done..]|]. rewrite with_inodes_id by done.
    assert (En : n = 0) by (unfold n; lia). rewrite En, Z.add_0_r.
    change (slice i pos (Z.to_nat 0)) with (@nil Z). by rewrite splice_nil.
  - erewrite M_bind_ok by (by apply get_dentry_ok). rewrite Hir. erewrite M_bind_ok by reflexivity.
    destruct (do_read_ok f ir i pos (mkDesc buf 0 len 0 0) s) as (i' & C & E); try done; simpl; try lia.
    exists i'. split; [done|]. erewrite M_bind_ok by exact E. done.
Qed.

(** ** Writing *)

(** [data] written at [pos]. *)
Record patched (i : inode) (pos : Z) (data : list Z) (i' : inode) : Prop := {
  pt_same : i' = set_data (Z.max (i_size i) (pos + Z.of_nat (length data))) (i_pages i') i;
  pt_in : forall j c, data !! j = Some c -> byte_at i' (pos + Z.of_nat j) = c;
  pt_out : forall k, 0 <= k -> k < pos \/ pos + Z.of_nat (length data) <= k -> byte_at i' k = byte_at i k;
  pt_ok : data_ok i';
}.

Lemma patched_app i1 i2 i3 pos a b :
  0 <= pos -> patched i1 pos a i2 -> patched i2 (pos + Z.of_nat (length a)) b i3 -> patched i1 pos (a ++ b) i3.
Proof.
  intros Hp [E1 I1 O1 _] [E2 I2 O2 D2]. split; [| | |done].
  - etrans; [exact E2|]. generalize (i_pages i3). intros ps. rewrite E1, length_app. unfold set_data. simpl.
    f_equal. lia.
  - intros j c Hj. apply lookup_app_Some in Hj as [Hj|[Hl Hj]].
    + pose proof (lookup_lt_Some _ _ _ Hj). rewrite O2 by lia. by apply I1.
    + rewrite <- (I2 _ _ Hj). f_equal. lia.
  - intros k Hk Hout. rewrite length_app in Hout. rewrite O2, O1 by lia. done.
Qed.

(** The page simple_write_begin hands out. *)
Definition begun (i : inode) (pos n : Z) : block :=
  match i_pages i !! Z.to_nat (pos / 4096) with
  | Some p => p
  | None =>
      let from := Z.to_nat (pos mod 4096) in
      if n =? 4096 then fresh_page
      else splice (splice fresh_page 0 (replicate from 0)) (from + Z.to_nat n)
             (replicate (4096 - (from + Z.to_nat n)) 0)
  end.

Hypothesis Hfresh : length fresh_page = 4096%nat.

Lemma length_begun i pos n :
  data_ok i -> 0 <= n -> pos mod 4096 + n <= 4096 -> length (begun i pos n) = 4096%nat.
Proof using Hfresh.
  intros Hd Hn Hto. unfold begun. destruct (i_pages i !! _) as [p|] eqn:E; [by apply (do_pages _ Hd _ _ E)|].
  pose proof (Z.mod_pos_bound pos 4096 ltac:(lia)).
  destruct (Z.eqb_spec n 4096); [done|].
  rewrite !length_splice; rewrite ?length_splice, ?length_replicate; try rewrite length_replicate; lia.
Qed.

(** Around the range the page is what the file was. *)
Lemma begun_around i pos n k :
  0 <= n -> pos mod 4096 + n <= 4096 -> 0 <= pos -> 0 <= k -> k / 4096 = pos / 4096 ->
  k < pos \/ pos + n <= k ->
  default 0 (begun i pos n !! Z.to_nat (k mod 4096)) = byte_at i k.
Proof using Hfresh.
  intros Hn Hto Hp Hk Ek Hout. unfold begun, byte_at. rewrite Ek.
  destruct (i_pages i !! Z.to_nat (pos / 4096)); [done|].
  destruct (Z.eqb_spec n 4096); [dlia|].
  pose proof (Z.mod_pos_bound pos 4096 ltac:(lia)). pose proof (Z.mod_pos_bound k 4096 ltac:(lia)).
  set (from := Z.to_nat (pos mod 4096)). set (x := Z.to_nat (k mod 4096)).
  assert (Hx : (x < from \/ from + Z.to_nat n <= x < 4096)%nat) by (unfold x, from; dlia).
  assert (Hl : length (splice fresh_page 0 (replicate from 0)) = 4096%nat)
    by (rewrite length_splice; rewrite ?length_replicate; lia).
  destruct Hx as [Hx|Hx].
  - rewrite splice_lookup_old by (rewrite ?length_replicate; lia).
    rewrite (splice_lookup_new _ 0 _ x) by (rewrite ?length_replicate; lia).
    by rewrite lookup_replicate_2.
  - replace x with (from + Z.to_nat n + (x - (from + Z.to_nat n)))%nat by lia.
    rewrite splice_lookup_new by (rewrite ?length_replicate; lia).
    rewrite lookup_replicate_2 by lia. done.
Qed.

Lemma write_begin_at ir i pos n s :
  inodes s !! ir = Some i -> mem s = [] -> 0 <= pos < 2 ^ 44 -> 0 <= n -> pos mod 4096 + n <= 4096 ->
  simple_write_begin ir pos n fresh_page s = Ok ((0, Some (begun i pos n)), s).
Proof using Hfresh.
  intros Hi Hm Hp Hn Hto. unfold simple_write_begin, grab_cache_page, begun.
  pose proof (Z.mod_pos_bound pos 4096 ltac:(lia)).
  rewrite shift12, land4095. rewrite (u32_small (pos / 4096)), (u32_small (pos mod 4096 + n)) by dlia.
  replace (pos mod 4096 + n - pos mod 4096) with n by lia. rewrite !(u32_small n) by lia.
  unfold PAGE_CACHE_SIZE.
  destruct (i_pages i !! Z.to_nat (pos / 4096)) as [p|] eqn:E.
  - erewrite M_bind_ok; [|erewrite M_bind_ok by (by apply get_inode_ok); by rewrite E].
    cbn iota beta. cbn [negb andb]. by erewrite M_bind_ok by reflexivity.
  - erewrite M_bind_ok; [|erewrite M_bind_ok by (by apply get_inode_ok); rewrite E;
      erewrite M_bind_ok by (by apply alloc_ok); reflexivity].
    cbn iota beta. cbn [negb andb].
    destruct (Z.eqb_spec n 4096) as [->|E']; cbn [negb]; [by erewrite M_bind_ok by reflexivity|].
    erewrite M_bind_ok; [reflexivity|].
    erewrite M_bind_ok by (unfold lift; rewrite memset_spec by lia; reflexivity).
    unfold lift. rewrite memset_spec by (rewrite length_splice; rewrite ?length_replicate; lia).
    change (u8 0) with 0. do 4 f_equal; lia.
Qed.

(** The file with one page written to. *)
Definition page_written (i : inode) (pos : Z) (data : list Z) : inode :=
  let n := Z.of_nat (length data) in
  set_data (Z.max (i_size i) (pos + n))
    (<[Z.to_nat (pos / 4096) := splice (begun i pos n) (Z.to_nat (pos mod 4096)) data]> (i_pages i)) i.

Lemma write_end_at ir i pos data s :
  inodes s !! ir = Some i -> 0 <= pos < 2 ^ 44 ->
  let n := Z.of_nat (length data) in
  simple_write_end ir pos n n (splice (begun i pos n) (Z.to_nat (pos mod 4096)) data) s
  = Ok (n, with_inodes (<[ir := page_written i pos data]> (inodes s)) s).
Proof.
  intros Hi Hp n. unfold simple_write_end. rewrite shift12, land4095, u32_small by dlia.
  rewrite Z.ltb_irrefl. erewrite M_bind_ok by reflexivity.
  erewrite M_bind_ok by (by apply upd_inode_ok). unfold mret, M_ret. do 3 f_equal.
  unfold page_written. fold n. do 2 f_equal. unfold PAGE_CACHE_SIZE.
  replace (Z.of_nat (Z.to_nat (pos / 4096)) * 4096 + (pos mod 4096 + n)) with (pos + n) by dlia.
  destruct (Z.ltb_spec (i_size i) (pos + n)); lia.
Qed.

Lemma page_written_patched i pos data :
  data_ok i -> 0 <= pos -> pos + Z.of_nat (length data) <= MAX_LFS_FILESIZE ->
  pos mod 4096 + Z.of_nat (length data) <= 4096 ->
  patched i pos data (page_written i pos data).
Proof using Hfresh.
  intros Hd Hp Hmax Hto. set (n := Z.of_nat (length data)) in *.
  pose proof (Z.mod_pos_bound pos 4096 ltac:(lia)) as Hm.
  assert (Hlb : length (begun i pos n) = 4096%nat) by (apply length_begun; [done|lia..]).
  assert (Hlen : (Z.to_nat (pos mod 4096) + length data <= length (begun i pos n))%nat) by lia.
  assert (Hout : forall k, 0 <= k -> k < pos \/ pos + n <= k -> byte_at (page_written i pos data) k = byte_at i k).
  { intros k Hk Ho. unfold byte_at at 1, page_written. cbn [i_pages set_data]. fold n.
    destruct (decide (k / 4096 = pos / 4096)) as [E|E].
    - rewrite E, lookup_insert_eq, splice_lookup_old by (try done; dlia).
      apply begun_around; try done; lia.
    - rewrite lookup_insert_ne by (dlia). done. }
  split; [done| |done|split].
  - intros j c Hj. pose proof (lookup_lt_Some _ _ _ Hj).
    unfold byte_at, page_written. cbn [i_pages set_data]. fold n.
    replace ((pos + Z.of_nat j) / 4096) with (pos / 4096) by dlia. rewrite lookup_insert_eq.
    replace (Z.to_nat ((pos + Z.of_nat j) mod 4096)) with (Z.to_nat (pos mod 4096) + j)%nat by dlia.
    rewrite splice_lookup_new by (done || lia). by rewrite Hj.
  - intros x p. unfold page_written. cbn [i_pages set_data]. rewrite lookup_insert_Some.
    intros [[_ <-]|[_ H']]; [by rewrite length_splice|by apply (do_pages _ Hd _ _ H')].
  - pose proof (do_size _ Hd). simpl. fold n. lia.
  - intros k Hk. cbn [i_size page_written set_data] in Hk. fold n in Hk. pose proof (do_size _ Hd).
    rewrite Hout by lia. apply (do_tail _ Hd). lia.
Qed.

(** The loop over the pages of the range. *)
Lemma perform_write_ok fuel ir i buf off count pos w s :
  inodes s !! ir = Some i -> data_ok i -> mem s = [] -> 0 <= pos -> 0 < count -> 0 <= off -> 0 <= w ->
  off + count <= Z.of_nat (length buf) -> pos + count <= MAX_LFS_FILESIZE -> (Z.to_nat count <= fuel)%nat ->
  exists i', patched i pos (take (Z.to_nat count) (drop (Z.to_nat off) buf)) i' /\
    generic_perform_write fresh_page fuel ir buf off count pos w s
    = Ok (w + count, with_inodes (<[ir := i']> (inodes s)) s).
Proof using Hfresh.
  revert i off count pos w s. induction fuel as [|fuel IH];
    intros i off count pos w s Hi Hd Hm Hp Hc Ho Hw Hb Hmax Hf; [lia|]. cbn [generic_perform_write].
  rewrite land4095. unfold PAGE_CACHE_SIZE. pose proof (Z.mod_pos_bound pos 4096 ltac:(lia)) as Hmod.
  set (n := Z.min (4096 - pos mod 4096) count).
  set (data := take (Z.to_nat n) (drop (Z.to_nat off) buf)).
  assert (Hn : Z.of_nat (length data) = n) by (unfold data; rewrite length_take, length_drop; lia).
  assert (Hp44 : 0 <= pos < 2 ^ 44) by (unfold MAX_LFS_FILESIZE in *; lia).
  rewrite (proj2 (Z.ltb_ge _ _)) by lia.
  erewrite M_bind_ok by (apply write_begin_at; try done; lia). cbn iota beta.
  change (negb (0 =? 0)) with false. cbn iota.
  erewrite M_bind_ok by reflexivity.
  erewrite M_bind_ok.
  2: { unfold lift. rewrite memcpy_take; [reflexivity|rewrite length_drop; lia|].
       rewrite length_begun by (try done; lia). lia. }
  fold data. rewrite <- Hn.
  erewrite M_bind_ok by (by apply write_end_at). rewrite Hn.
  rewrite (proj2 (Z.ltb_ge _ _)), (proj2 (Z.eqb_neq _ _)) by lia.
  assert (P1 : patched i pos data (page_written i pos data)) by (apply page_written_patched; try done; lia).
  destruct (Z.eqb_spec (count - n) 0) as [E|E]; cbn [negb].
  - eexists. split; [|unfold mret, M_ret; do 3 f_equal; lia].
    replace count with n by lia. done.
  - destruct (IH (page_written i pos data) (off + n) (count - n) (pos + n) (w + n)
      (with_inodes (<[ir := page_written i pos data]> (inodes s)) s)) as (i' & P2 & E2); try done; try lia.
    + simpl. apply lookup_insert_eq.
    + apply P1.
    + exists i'. split.
      * replace (Z.to_nat count) with (Z.to_nat n + Z.to_nat (count - n))%nat by lia.
        rewrite <- take_take_drop.
        eapply patched_app; [done|exact P1|]. fold data. rewrite Hn.
        rewrite drop_drop, <- Z2Nat.inj_add by lia. done.
      * etrans; [exact E2|]. simpl. rewrite insert_insert_eq. do 2 f_equal. lia.
Qed.

Lemma write_checks_ok f size pos len pos' count :
  0 <= size <= MAX_LFS_FILESIZE -> 0 <= len < 2 ^ 31 ->
  generic_write_checks env f size pos len = (0, pos', count) ->
  0 <= pos' /\ 0 <= count <= len /\ pos' + count <= MAX_LFS_FILESIZE.
Proof using.
  clear Hfresh. unfold generic_write_checks, MAX_LFS_FILESIZE, EINVAL, EFBIG. intros Hs Hl.
  destruct (Z.ltb_spec pos 0); [intros; simplify_eq|].
  set (p := if f_append f then size else pos). assert (Hp : 0 <= p) by (unfold p; destruct (f_append f); lia).
  destruct (match e_limit env with Some _ => _ | None => _ end); [intros; simplify_eq|].
  set (c1 := match e_limit env with Some _ => _ | None => _ end).
  assert (Hc1 : 0 <= c1 <= len).
  { unfold c1. destruct (e_limit env) as [l|]; [|lia]. pose proof (u32_range (l - p)).
    destruct (Z.ltb_spec (u32 (l - p)) len); lia. }
  destruct (_ && (MAX_NON_LFS <=? p)); [intros; simplify_eq|].
  set (c2 := if _ && _ then _ else c1).
  assert (Hc2 : 0 <= c2 <= len).
  { unfold c2. pose proof (u32_range (MAX_NON_LFS - p)).
    destruct (Z.ltb_spec (u32 (MAX_NON_LFS - p)) c1); rewrite ?andb_false_r; [|lia].
    destruct ((MAX_NON_LFS <? p + c1) && negb (f_largefile f)); simpl; lia. }
  clearbody c1 c2 p. destruct (Z.leb_spec (2 ^ 43 - 1) p) as [Hle|Hlt]; cbn [andb].
  - destruct (Z.eqb_spec c2 0) as [E0|E0]; cbn [negb orb]; [|intros; simplify_eq].
    destruct (Z.ltb_spec (2 ^ 43 - 1) p); [intros; simplify_eq|].
    rewrite (proj2 (Z.ltb_ge _ (p + c2))) by lia. intros. simplify_eq. lia.
  - destruct (Z.ltb_spec (2 ^ 43 - 1) (p + c2)); [rewrite u32_small by lia|]; intros; simplify_eq; lia.
Qed.

(** A write that no limit cuts. *)
Lemma write_checks_plain f size pos len :
  0 <= pos -> 0 <= len -> e_limit env = None ->
  let pos' := if f_append f then size else pos in
  pos' + len <= MAX_NON_LFS -> generic_write_checks env f size pos len = (0, pos', len).
Proof using.
  clear Hfresh. intros Hp Hl Hlim pos' Hsum.
  unfold generic_write_checks, MAX_NON_LFS, MAX_LFS_FILESIZE in *. rewrite Hlim.
  rewrite (proj2 (Z.ltb_ge pos 0)) by done. fold pos'.
  rewrite (proj2 (Z.ltb_ge (2 ^ 31 - 1) (pos' + len))) by done. cbn [andb].
  rewrite (proj2 (Z.leb_gt (2 ^ 43 - 1) pos')) by lia. cbn [andb].
  by rewrite (proj2 (Z.ltb_ge (2 ^ 43 - 1) (pos' + len))) by lia.
Qed.

(** What a write leaves: [data] at [pos], the times of the write, and no set-user-ID
    bit unless the caller may keep it. *)
Record wrote (c : cred) (t : Z) (i : inode) (pos : Z) (data : list Z) (i' : inode) : Prop := {
  w_size : i_size i' = Z.max (i_size i) (pos + Z.of_nat (length data));
  w_in : forall j b, data !! j = Some b -> byte_at i' (pos + Z.of_nat j) = b;
  w_out : forall k, 0 <= k -> k < pos \/ pos + Z.of_nat (length data) <= k -> byte_at i' k = byte_at i k;
  w_ok : data_ok i';
  w_same : i' = set_data (i_size i') (i_pages i')
                  (set_times (i_atime i) (i_mtime i') (i_ctime i') (set_attr (i_mode i') (i_uid i) (i_gid i) i));
  w_time : e_readonly env = false -> i_mtime i' = t /\ i_ctime i' = t;
  w_kind : Z.land (i_mode i') S_IFMT = Z.land (i_mode i) S_IFMT;
  w_suid : cap_fsetid c = false -> ifmt (i_mode i) S_IFREG = true -> Z.land (i_mode i') S_ISUID = 0;
}.

Lemma land_kept x y a : Z.land x a = 0 -> Z.land (Z.land x y) a = 0.
Proof. intros H. by rewrite <- Z.land_assoc, (Z.land_comm y), Z.land_assoc, H, Z.land_0_l. Qed.

Lemma land_cleared x a : Z.land (Z.land x (Z.lnot a)) a = 0.
Proof. rewrite <- Z.land_assoc, (Z.land_comm (Z.lnot a)), Z.land_lnot_diag. apply Z.land_0_r. Qed.

Lemma land_other x a b : Z.land (Z.lnot a) b = b -> Z.land (Z.land x (Z.lnot a)) b = Z.land x b.
Proof. intros H. by rewrite <- Z.land_assoc, H. Qed.

Lemma remove_suid_ok ir i s :
  inodes s !! ir = Some i ->
  exists m, file_remove_suid ir s
    = Ok (0, with_inodes (<[ir := set_attr m (i_uid i) (i_gid i) i]> (inodes s)) s) /\
    (cap_fsetid (cur s) = false -> ifmt (i_mode i) S_IFREG = true -> Z.land m S_ISUID = 0) /\
    Z.land m S_IFMT = Z.land (i_mode i) S_IFMT.
Proof.
  intros Hi. unfold file_remove_suid. erewrite M_bind_ok by reflexivity.
  erewrite M_bind_ok by (by apply get_inode_ok). unfold should_remove_suid.
  assert (Hkeep : (cap_fsetid (cur s) = false -> ifmt (i_mode i) S_IFREG = true ->
                   Z.land (i_mode i) S_ISUID = 0) ->
    exists m, (mret 0 : M Z) s
    = Ok (0, with_inodes (<[ir := set_attr m (i_uid i) (i_gid i) i]> (inodes s)) s) /\
    (cap_fsetid (cur s) = false -> ifmt (i_mode i) S_IFREG = true -> Z.land m S_ISUID = 0) /\
    Z.land m S_IFMT = Z.land (i_mode i) S_IFMT).
  { intros H. exists (i_mode i). split; [|done]. rewrite with_inodes_id; [done|]. rewrite Hi. by destruct i. }
  set (suid := negb (Z.land (i_mode i) S_ISUID =? 0)). set (sgid := negb _ && negb _).
  destruct (cap_fsetid (cur s)) eqn:Ef; rewrite ?andb_false_r; [by apply Hkeep|].
  destruct (ifmt (i_mode i) S_IFREG) eqn:Er; rewrite ?andb_false_r; [|by apply Hkeep].
  cbn [negb andb]. rewrite !andb_true_r.
  assert (Hs : suid = false -> Z.land (i_mode i) S_ISUID = 0).
  { unfold suid. destruct (Z.eqb_spec (Z.land (i_mode i) S_ISUID) 0); naive_solver. }
  destruct (suid || sgid) eqn:Eo; cbn iota beta; rewrite ?Eo; [|apply Hkeep; intros; apply Hs; by destruct suid].
  erewrite M_bind_ok by (by apply upd_inode_ok). eexists. split; [reflexivity|]. split; cycle 1.
  { repeat case_match; by rewrite ?land_other. }
  intros _ _. assert (H1 : Z.land (if suid then Z.land (i_mode i) (Z.lnot S_ISUID) else i_mode i) S_ISUID = 0)
    by (destruct suid; [apply land_cleared|by apply Hs]).
  revert H1. generalize (if suid then Z.land (i_mode i) (Z.lnot S_ISUID) else i_mode i). clearbody sgid.
  intros m0 H1. destruct sgid; repeat case_match; by repeat apply land_kept.
Qed.

(** generic_file_aio_write of a buffer that holds [len] bytes. *)
Lemma aio_write_ok f dt ir i buf len ppos pos count s :
  dentries s !! f_dentry f = Some dt -> d_inode dt = Some ir -> inodes s !! ir = Some i -> data_ok i ->
  mem s = [] -> 0 <= len < 2 ^ 31 -> len <= Z.of_nat (length buf) ->
  generic_write_checks env f (i_size i) ppos len = (0, pos, count) -> 0 < count ->
  exists i', wrote (cur s) (now s) i pos (take (Z.to_nat count) buf) i' /\
    generic_file_aio_write env fresh_page f buf len ppos s
    = Ok ((count, pos + count), with_inodes (<[ir := i']> (inodes s)) s).
Proof using Hfresh.
  intros Hdt Hir Hi Hd Hm Hl Hb Hck Hc. pose proof (do_size _ Hd) as Hs.
  destruct (write_checks_ok _ _ _ _ _ _ Hs Hl Hck) as (Hp & Hcl & Hmax).
  unfold generic_file_aio_write. erewrite M_bind_ok by (by apply get_dentry_ok). rewrite Hir.
  erewrite M_bind_ok by reflexivity. unfold generic_file_aio_write_, generic_segment_checks.
  rewrite s32_small by lia. rewrite (proj2 (Z.ltb_ge _ _)) by lia. change (negb (0 =? 0)) with false. cbn iota.
  erewrite M_bind_ok by (by apply get_inode_ok). rewrite Hck. change (negb (0 =? 0)) with false. cbn iota.
  rewrite (proj2 (Z.eqb_neq _ _)) by lia.
  destruct (remove_suid_ok ir i s Hi) as (m & Em & Hsuid & Hkind). erewrite M_bind_ok by exact Em.
  change (negb (0 =? 0)) with false. cbn iota.
  set (i1 := set_attr m (i_uid i) (i_gid i) i) in *.
  set (i2 := if e_readonly env then i1 else set_mtime_ctime (now s) i1).
  assert (Et : file_update_time env ir (with_inodes (<[ir := i1]> (inodes s)) s)
               = Ok (tt, with_inodes (<[ir := i2]> (inodes s)) s)).
  { unfold file_update_time. erewrite M_bind_ok by reflexivity. unfold i2. destruct (e_readonly env); [done|].
    erewrite upd_inode_ok by (simpl; apply lookup_insert_eq). simpl. by rewrite insert_insert_eq. }
  erewrite M_bind_ok by exact Et. unfold generic_file_buffered_write.
  assert (Hd2 : data_ok i2) by (unfold i2; destruct (e_readonly env); by destruct Hd).
  destruct (perform_write_ok (S (Z.to_nat count)) ir i2 buf 0 count pos 0
    (with_inodes (<[ir := i2]> (inodes s)) s)) as (i' & [E I O D] & Ew); try done; try lia;
    [simpl; apply lookup_insert_eq|].
  erewrite M_bind_ok by exact Ew. exists i'. change (drop (Z.to_nat 0) buf) with buf in *.
  assert (Hs2 : i_size i2 = i_size i) by (unfold i2; by destruct (e_readonly env)).
  assert (Hb2 : forall k, byte_at i2 k = byte_at i k) by (unfold i2; by destruct (e_readonly env)).
  split.
  - split; [by rewrite E, <- Hs2|done|intros; rewrite <- Hb2; by apply O|done| | | |].
    + rewrite E at 1. unfold i2. destruct (e_readonly env); rewrite E; done.
    + intros Hro. rewrite E. unfold i2. by rewrite Hro.
    + rewrite E. unfold i2. by destruct (e_readonly env).
    + intros H1 H2. rewrite E. unfold i2. destruct (e_readonly env); by apply Hsuid.
  - simpl. rewrite insert_insert_eq. rewrite (proj2 (Z.leb_le _ _)) by lia. done.
Qed.
End data.
