(* ===== verification/Inv.v ===== *)
(** * The invariant of a node at rest

    Between two requests the dentries of a node form one tree, each pinned by
    the reference its creation took, each with an inode of its own.  Creating
    and removing links keeps it so, and unmounting then leaves nothing. *)

From S2P Require Import Prelude KString KScan KFormat Wire Ksocket MapTable Vfs Tree Ops.
From S2P Require Import PageIo Server Umount Node.

(** ** Adding a leaf *)

Fixpoint add_child (p new : nat) (t : tree) : tree :=
  let 'Node r ch := t in
  Node r ((if (r =? p)%nat then [Node new []] else []) ++ map (add_child p new) ch).

Lemma troot_add p new t : troot (add_child p new t) = troot t.
Proof. by destruct t. Qed.

Lemma map_troot_add p new ts : map troot (map (add_child p new) ts) = map troot ts.
Proof. rewrite map_map. apply map_ext. apply troot_add. Qed.

Lemma add_child_notin p new t : p ∉ refs t -> add_child p new t = t.
Proof.
  induction t as [r ch IH] using tree_rect_all. cbn [refs add_child].
  intros [Hne Hch]%not_elem_of_cons. rewrite (proj2 (Nat.eqb_neq r p)) by done. cbn [app]. f_equal.
  transitivity (map (fun x : tree => x) ch); [|apply map_id].
  apply map_ext_in. intros c Hc. rewrite List.Forall_forall in IH. apply (IH c Hc).
  intros Hin. apply Hch. apply (refs_child c ch); [by apply list_elem_of_In|done].
Qed.

Lemma add_child_list_notin p new ts : p ∉ refs_list ts -> map (add_child p new) ts = ts.
Proof.
  intros H. transitivity (map (fun x : tree => x) ts); [|apply map_id].
  apply map_ext_in. intros c Hc. apply add_child_notin. intros Hin. apply H.
  apply (refs_child c ts); [by apply list_elem_of_In|done].
Qed.

(** The dentries of the larger tree. *)
Lemma refs_add p new t :
  NoDup (refs t) -> p ∈ refs t -> refs (add_child p new t) ≡ₚ new :: refs t.
Proof.
  induction t as [r ch IH] using tree_rect_all. cbn [refs add_child]. fold (refs_list ch).
  intros [Hr Hnd]%list.NoDup_cons Hp. destruct (Nat.eqb_spec r p) as [->|Hne].
  - cbn [app map concat refs]. fold (refs_list (map (add_child p new) ch)).
    rewrite add_child_list_notin by done. apply Permutation_swap.
  - cbn [app]. fold (refs_list (map (add_child p new) ch)).
    apply elem_of_cons in Hp as [?|Hp]; [congruence|].
    rewrite Permutation_swap. apply Permutation_skip. clear Hr Hne.
    induction IH as [|c ch Hc _ IHch]; [by apply not_elem_of_nil in Hp|].
    cbn [map]. rewrite !refs_list_cons in *. apply list.NoDup_app in Hnd as (Hnc & Hd & Hnd).
    destruct (decide (p ∈ refs c)) as [Hpc|Hpc].
    + rewrite (add_child_list_notin p new ch) by (intros ?; by apply (Hd p)).
      by rewrite (Hc Hnc Hpc).
    + apply elem_of_app in Hp as [?|Hp]; [done|].
      rewrite (add_child_notin p new c) by done. rewrite (IHch Hnd Hp).
      by rewrite Permutation_middle.
Qed.

Lemma in_refs_add p new t x :
  NoDup (refs t) -> p ∈ refs t -> x ∈ refs (add_child p new t) <-> x = new \/ x ∈ refs t.
Proof. intros Hnd Hp. rewrite (refs_add p new t Hnd Hp). apply elem_of_cons. Qed.

Lemma nodup_add p new t :
  NoDup (refs t) -> p ∈ refs t -> new ∉ refs t -> NoDup (refs (add_child p new t)).
Proof. intros Hnd Hp Hn. rewrite (refs_add p new t Hnd Hp). by constructor. Qed.

Section add.
Context (m : gmap nat dentry) (p new : nat) (pd nd : dentry).
Context (Hp : m !! p = Some pd) (Hnew : m !! new = None) (Hne : p <> new).
Context (Hnd : d_parent nd = p /\ d_subdirs nd = [] /\ simple_positive nd = true /\ d_count nd = 1).

Definition grown : gmap nat dentry := <[new := nd]> (<[p := add_sub new pd]> m).

Lemma users_grown r : users grown r = users m r.
Proof using Hp Hnew Hne Hnd.
  destruct Hnd as (_ & E2 & _ & E4). unfold users, grown. rewrite !lookup_insert.
  repeat case_decide; simplify_eq; [by rewrite Hnew, E2, E4| |done]. rewrite Hp. simpl. lia.
Qed.

Lemma grown_other r d : m !! r = Some d -> r <> p -> grown !! r = Some d.
Proof using Hnew.
  intros Hr Hrp. unfold grown. rewrite lookup_insert_ne by congruence.
  by rewrite lookup_insert_ne by congruence.
Qed.

Lemma pinned_new q : q = p -> pinned grown q (Node new []).
Proof using Hnd.
  intros ->. destruct Hnd as (E1 & E2 & E3 & E4).
  apply pinned_node with nd; try done. unfold grown. by rewrite lookup_insert_eq.
Qed.

Lemma pinned_add t : forall q, pinned m q t -> pinned grown q (add_child p new t).
Proof using Hp Hnew Hne Hnd.
  induction t as [r ch IH] using tree_rect_all. intros q Hq.
  inversion Hq as [? ? d Hr Hpar Hsub Hpos Hch]; subst. cbn [add_child].
  assert (Hch' : Forall (pinned grown r) (map (add_child p new) ch)).
  { rewrite List.Forall_forall in *. intros x (c & <- & Hc)%in_map_iff. auto. }
  destruct (Nat.eqb_spec r p) as [->|Hrp]; simplify_eq.
  - apply pinned_node with (add_sub new pd); try done.
    + unfold grown. rewrite lookup_insert_ne by done. by rewrite lookup_insert_eq.
    + simpl. by rewrite Hsub, map_troot_add.
    + apply Forall_app. split; [|done]. constructor; [by apply pinned_new|done].
  - apply pinned_node with d; try done.
    + by apply grown_other.
    + cbn [app]. by rewrite map_troot_add.
Qed.

Lemma resting_add t :
  resting m t -> p ∈ refs t -> (forall r, r ∈ refs t -> is_Some (m !! r)) ->
  resting grown (add_child p new t).
Proof using Hp Hnew Hne Hnd.
  intros [Hn (d & Hd & Hpar & Hsub) Hch] Hpt Hdom. split.
  - apply nodup_add; try done. intros Hin. destruct (Hdom new Hin). congruence.
  - rewrite troot_add. destruct t as [r ch]. cbn [troot tch add_child] in *.
    destruct (Nat.eqb_spec r p) as [->|Hrp]; simplify_eq.
    + exists (add_sub new pd). split; [|split; [done|]].
      * unfold grown. rewrite lookup_insert_ne by done. by rewrite lookup_insert_eq.
      * simpl. by rewrite Hsub, map_troot_add.
    + exists d. split; [by apply grown_other|]. split; [done|]. cbn [app].
      by rewrite map_troot_add.
  - rewrite troot_add. destruct t as [r ch]. cbn [troot tch add_child] in *.
    apply Forall_app. split.
    + destruct (Nat.eqb_spec r p) as [->|]; [|done]. constructor; [by apply pinned_new|done].
    + rewrite List.Forall_forall in *. intros x (c & <- & Hc)%in_map_iff. by apply pinned_add, Hch.
Qed.
End add.

(** ** The invariant *)

(** Regular files and directories are all there is, and the methods of an inode
    are the ones wjfs_get_inode gives to its type. *)
Definition typed (i : inode) : Prop :=
  (ifmt (i_mode i) S_IFDIR = true /\ i_op i = wjfs_dir_iops /\ i_fop i = simple_dir_fops) \/
  (ifmt (i_mode i) S_IFREG = true /\ i_op i = wjfs_file_iops /\ i_fop i = wjfs_file_fops).

Lemma reg_not_dir i : ifmt (i_mode i) S_IFREG = true -> S_ISDIR (i_mode i) = false.
Proof. unfold S_ISDIR, ifmt. rewrite Z.eqb_eq, Z.eqb_neq. by intros ->. Qed.

Lemma typed_dir i : typed i -> S_ISDIR (i_mode i) = true -> i_op i = wjfs_dir_iops /\ i_fop i = simple_dir_fops.
Proof. intros [(_ & H)|[H%reg_not_dir _]] Hd; [done|congruence]. Qed.

Lemma typed_reg i :
  typed i -> S_ISDIR (i_mode i) = false ->
  ifmt (i_mode i) S_IFREG = true /\ i_op i = wjfs_file_iops /\ i_fop i = wjfs_file_fops.
Proof. intros [[H _]|H] Hd; [|done]. unfold S_ISDIR in Hd. congruence. Qed.

Lemma typed_same i i' :
  Z.land (i_mode i') S_IFMT = Z.land (i_mode i) S_IFMT -> i_op i' = i_op i -> i_fop i' = i_fop i ->
  typed i -> typed i'.
Proof. unfold typed, ifmt. by intros -> -> ->. Qed.

(** The inode of a dentry at rest: alive, held by this dentry only, a directory
    if it has children. *)
Definition inode_ok (s : kstate) (d : dentry) : Prop :=
  exists ir i, d_inode d = Some ir /\ inodes s !! ir = Some i /\ i_count i = 1 /\
    i_mode i <> 0 /\ i_dead i = false /\
    (d_subdirs d <> [] -> S_ISDIR (i_mode i) = true) /\ typed i.

(** What the VFS keeps as a name. *)
Definition name_ok (n : list Z) : Prop := Forall (fun c => c <> 0) n /\ (length n <= 255)%nat.

Record node_ok (s : kstate) (t : tree) : Prop := {
  nk_rest : resting (dentries s) t;
  nk_users : forall r, 0 <= users (dentries s) r;
  nk_dom : forall r, is_Some (dentries s !! r) <-> r ∈ refs t;
  nk_fresh : forall r, r ∈ refs t -> (r < fresh s)%nat;
  nk_ifresh : forall ir, is_Some (inodes s !! ir) -> (ir < fresh s)%nat;
  nk_inode : forall r d, dentries s !! r = Some d -> inode_ok s d;
  nk_inj : forall r1 r2 d1 d2 ir, dentries s !! r1 = Some d1 -> dentries s !! r2 = Some d2 ->
    d_inode d1 = Some ir -> d_inode d2 = Some ir -> r1 = r2;
  nk_names : forall r d, dentries s !! r = Some d -> name_ok (d_name d);
  nk_dop : forall r d, dentries s !! r = Some d -> r <> troot t -> d_op d = true;
  nk_hash : forall r, r ∈ d_hash s <-> r ∈ refs t /\ r <> troot t;
  nk_uniq : forall r1 r2 d1 d2, dentries s !! r1 = Some d1 -> dentries s !! r2 = Some d2 ->
    r1 <> troot t -> r2 <> troot t -> d_parent d1 = d_parent d2 -> d_name d1 = d_name d2 -> r1 = r2;
  nk_root : g_rroot_dentry (glob s) = Some (troot t);
  nk_table : table_wf (g_table (glob s));
}.

(** Nobody has taken or given back a reference. *)
Definition same_users (s s' : kstate) : Prop := forall r, users (dentries s') r = users (dentries s) r.

#[global] Instance same_users_preorder : PreOrder same_users.
Proof. split; [done|]. intros s1 s2 s3 H1 H2 r. by rewrite H2. Qed.

Lemma same_users_idle s s' : same_users s s' -> idle (dentries s) -> idle (dentries s').
Proof. intros Hs Hi r. by rewrite Hs. Qed.

Lemma pinned_positive m t : forall q r, pinned m q t -> r ∈ refs t ->
  exists d, m !! r = Some d /\ simple_positive d = true.
Proof.
  induction t as [x ch IH] using tree_rect_all. intros q r Hq Hr.
  inversion Hq as [? ? d Hx _ _ Hpos Hch]; subst. cbn [refs] in Hr.
  apply elem_of_cons in Hr as [->|Hr]; [by exists d|].
  rewrite list_elem_of_In, in_concat in Hr. destruct Hr as (l & Hl & Hr).
  apply in_map_iff in Hl as (c & <- & Hc). rewrite List.Forall_forall in IH, Hch.
  apply (IH c Hc x); [by apply Hch|by apply list_elem_of_In].
Qed.

Lemma node_positive s t r d :
  node_ok s t -> dentries s !! r = Some d -> r <> troot t ->
  r ∈ refs_list (tch t) /\ simple_positive d = true.
Proof.
  intros Hok Hd Hr. assert (r ∈ refs t) as Hin by (apply (nk_dom _ _ Hok); eauto).
  rewrite refs_unfold in Hin. apply elem_of_cons in Hin as [|Hin]; [done|]. split; [done|].
  unfold refs_list in Hin. rewrite list_elem_of_In, in_concat in Hin.
  destruct Hin as (l & Hl & Hrl). apply in_map_iff in Hl as (c & <- & Hc).
  destruct (nk_rest _ _ Hok) as [_ _ Hch]. rewrite List.Forall_forall in Hch.
  destruct (pinned_positive _ c _ r (Hch c Hc)) as (d' & Hd' & E); [by apply list_elem_of_In|].
  by simplify_eq.
Qed.

(** A name that a lookup does not find is not in the directory. *)
Definition free_name (s : kstate) (t : tree) (p : nat) (n : list Z) : Prop :=
  forall x d, dentries s !! x = Some d -> x <> troot t -> d_parent d = p -> d_name d <> n.

Lemma d_lookup_miss h m p n x d :
  d_lookup_in h m p n = None -> x ∈ h -> m !! x = Some d -> d_hashed d = true -> d_parent d = p ->
  d_name d <> n.
Proof.
  induction h as [|y h IH]; [by intros _ H%not_elem_of_nil|]. cbn [d_lookup_in].
  intros Hm Hx Hd Hh Hp En. apply elem_of_cons in Hx as [->|Hx].
  - rewrite Hd, Hh, Hp, Nat.eqb_refl, bool_decide_eq_true_2 in Hm by done. done.
  - destruct (m !! y); [case_match; [done|]|]; by eapply IH.
Qed.

Lemma miss_free s t p n :
  node_ok s t -> d_lookup_in (d_hash s) (dentries s) p n = None -> free_name s t p n.
Proof.
  intros Hok Hm x d Hd Hx Hp. destruct (node_positive _ _ _ _ Hok Hd Hx) as [_ Hpos].
  eapply d_lookup_miss; try done; [apply (nk_hash _ _ Hok); split; [|done]; apply (nk_dom _ _ Hok); eauto|].
  unfold simple_positive in Hpos. by destruct (d_inode d).
Qed.

Lemma tinodes_perm m t : tinodes m t ≡ₚ concat (map (dino m) (refs t)).
Proof.
  induction t as [r ch IH] using tree_rect_all. cbn [tinodes refs map concat].
  rewrite Permutation_app_comm. apply Permutation_app_head.
  induction IH as [|c ch Hc _ IHch]; [done|]. cbn [map concat].
  by rewrite Hc, IHch, map_app, concat_app.
Qed.

Lemma tinodes_nodup s t : node_ok s t -> NoDup (tinodes (dentries s) t).
Proof.
  intros Hok. rewrite tinodes_perm. pose proof (rs_nodup _ _ (nk_rest _ _ Hok)) as Hnd.
  induction (refs t) as [|r l IH]; [constructor|].
  apply list.NoDup_cons in Hnd as [Hr Hnd]. cbn [map concat]. apply list.NoDup_app. split; [|split].
  - unfold dino. destruct (dentries s !! r) as [d|]; [|constructor].
    destruct (d_inode d); [apply NoDup_singleton|constructor].
  - intros ir Hir Hin. rewrite list_elem_of_In, in_concat in Hin.
    destruct Hin as (l' & Hl' & Hir'). apply in_map_iff in Hl' as (r' & <- & Hr').
    apply list_elem_of_In in Hir', Hr'. unfold dino in Hir, Hir'.
    destruct (dentries s !! r) as [d|] eqn:Ed; [|by apply not_elem_of_nil in Hir].
    destruct (dentries s !! r') as [d'|] eqn:Ed'; [|by apply not_elem_of_nil in Hir'].
    destruct (d_inode d) as [x|] eqn:Ei; [|by apply not_elem_of_nil in Hir].
    destruct (d_inode d') as [y|] eqn:Ei'; [|by apply not_elem_of_nil in Hir'].
    apply list_elem_of_singleton in Hir, Hir'. subst.
    apply Hr. by rewrite (nk_inj _ _ Hok _ _ _ _ _ Ed Ed' Ei Ei').
  - by apply IH.
Qed.

Lemma elem_tinodes s t ir :
  node_ok s t ->
  ir ∈ tinodes (dentries s) t <-> exists r d, dentries s !! r = Some d /\ d_inode d = Some ir.
Proof.
  intros Hok. rewrite tinodes_perm, list_elem_of_In, in_concat. split.
  - intros (l & Hl & Hin). apply in_map_iff in Hl as (r & <- & Hr).
    apply list_elem_of_In in Hin. unfold dino in Hin.
    destruct (dentries s !! r) as [d|] eqn:Ed; [|by apply not_elem_of_nil in Hin].
    destruct (d_inode d) eqn:Ei; [|by apply not_elem_of_nil in Hin].
    apply list_elem_of_singleton in Hin. subst. eauto.
  - intros (r & d & Hd & Hir). exists (dino (dentries s) r). split.
    + apply in_map, list_elem_of_In, (nk_dom _ _ Hok). eauto.
    + unfold dino. rewrite Hd, Hir. by left.
Qed.

Lemma tinodes_single s t ir :
  node_ok s t -> ir ∈ tinodes (dentries s) t -> exists i, inodes s !! ir = Some i /\ i_count i = 1.
Proof.
  intros Hok (r & d & Hd & Hir)%elem_tinodes; [|done].
  destruct (nk_inode _ _ Hok _ _ Hd) as (ir' & i & Ei & Hi & Hc & _). simplify_eq. eauto.
Qed.

Lemma node_ok_held s t : node_ok s t -> held (inodes s) (tinodes (dentries s) t).
Proof.
  intros Hok ir Hir. destruct (tinodes_single _ _ _ Hok Hir) as (i & Hi & Hc).
  exists i. split; [done|]. rewrite count_occ_nodup by (by apply (tinodes_nodup s t)).
  rewrite Hc. case_bool_decide; simpl; lia.
Qed.

(** Releasing inodes that are held once frees them and no others. *)
Lemma iputs_single l : forall m,
  NoDup l -> (forall ir, ir ∈ l -> exists i, m !! ir = Some i /\ i_count i = 1) ->
  forall ir, iputs l m !! ir = if decide (ir ∈ l) then None else m !! ir.
Proof.
  induction l as [|x l IH]; intros m Hnd Hm ir; [done|].
  apply list.NoDup_cons in Hnd as [Hx Hnd]. cbn [iputs foldl]. fold (iputs l (iput_map x m)).
  destruct (Hm x) as (i & Hi & Hc); [by left|].
  assert (Em : iput_map x m = delete x m) by (unfold iput_map; by rewrite Hi, Hc).
  rewrite Em, IH; [|done|].
  - destruct (decide (ir ∈ l)) as [Hl|Hl]; [by rewrite decide_True by (by right)|].
    destruct (decide (ir = x)) as [->|Hne].
    + rewrite decide_True by (by left). apply lookup_delete_eq.
    + rewrite decide_False by (by intros [|]%elem_of_cons). by rewrite lookup_delete_ne.
  - intros y Hy. destruct (Hm y) as (j & Hj & Hcj); [by right|]. exists j.
    rewrite lookup_delete_ne; [done|]. by intros ->.
Qed.

(** The invariant is all that unmounting needs. *)
Lemma unmount_clean s t :
  node_ok s t -> idle (dentries s) ->
  exists s', wjfs_kill_litter_super (g_rroot_dentry (glob s)) s = Ok (tt, s') /\
    dentries s' = ∅ /\
    forall ir, inodes s' !! ir
      = if decide (ir ∈ tinodes (dentries s) t) then None else inodes s !! ir.
Proof.
  intros Hok Hidle. rewrite (nk_root _ _ Hok).
  destruct (umount_clean s t (nk_rest _ _ Hok) Hidle (node_ok_held _ _ Hok))
    as (s' & E & Hi & Hgone & Hsame).
  exists s'. split; [done|]. split.
  - apply map_empty. intros r. destruct (decide (r ∈ refs t)) as [Hr|Hr]; [by apply Hgone|].
    rewrite Hsame by done. destruct (dentries s !! r) eqn:E'; [|done].
    exfalso. apply Hr, (nk_dom _ _ Hok). by rewrite E'.
  - intros ir. rewrite Hi. apply iputs_single; [by apply (tinodes_nodup s t)|].
    intros ir'. by apply tinodes_single.
Qed.

(** C24: Unmounting a node at rest that nobody uses succeeds, leaves no dentry, frees the inode of
    every dentry and no other. *)
Theorem node_unmount s t :
  node_ok s t -> idle (dentries s) ->
  exists s', wjfs_kill_litter_super (g_rroot_dentry (glob s)) s = Ok (tt, s') /\
    dentries s' = ∅ /\
    (forall r d ir, dentries s !! r = Some d -> d_inode d = Some ir -> inodes s' !! ir = None) /\
    (forall ir, (forall r d, dentries s !! r = Some d -> d_inode d <> Some ir) ->
      inodes s' !! ir = inodes s !! ir).
Proof.
  intros Hok Hidle. destruct (unmount_clean s t Hok Hidle) as (s' & E & Hd & Hi).
  exists s'. split; [done|]. split; [done|]. split.
  - intros r d ir Hr Hir. rewrite Hi, decide_True; [done|]. apply elem_tinodes; eauto.
  - intros ir Hno. rewrite Hi, decide_False; [done|].
    intros (r & d & Hr & Hir)%elem_tinodes; [|done]. by apply (Hno r d).
Qed.

(** ** Creating a link keeps the invariant *)

Lemma note_a_glob n r g :
  g_rroot_dentry (note_a n r g) = g_rroot_dentry g /\ g_table (note_a n r g) = g_table g.
Proof. unfold note_a. by case_bool_decide. Qed.

Lemma lor_nonzero a b : a <> 0 -> Z.lor a b <> 0.
Proof. intros Ha H%Z.lor_eq_0_iff. tauto. Qed.

(** ** Attaching an entry keeps the invariant *)

(** What changes in the inode of the directory: times and link count. *)
Definition same_role (i i' : inode) : Prop :=
  i_ino i' = i_ino i /\ i_mode i' = i_mode i /\ i_count i' = i_count i /\ i_dead i' = i_dead i /\
  i_op i' = i_op i /\ i_fop i' = i_fop i.

(** The dentry [r] with the inode [ir] becomes a child of [p]. *)
Section attach.
Context (s s' : kstate) (t : tree) (p : nat) (pd : dentry) (pir : nat) (pi : inode).
Context (r : nat) (nd : dentry) (ir : nat) (ni : inode).
Context (Hok : node_ok s t) (Hp : dentries s !! p = Some pd) (Hpir : d_inode pd = Some pir).
Context (Hpi : inodes s !! pir = Some pi) (Hdir : S_ISDIR (i_mode pi) = true).
Context (Hr : dentries s !! r = None) (Hfree : forall x d, dentries s !! x = Some d -> d_inode d <> Some ir).
Context (Hnd : d_parent nd = p /\ d_subdirs nd = [] /\ simple_positive nd = true /\ d_count nd = 1).
Context (Hndi : d_inode nd = Some ir) (Hndn : name_ok (d_name nd)) (Hndo : d_op nd = true).
Context (Hni : i_count ni = 1 /\ i_mode ni <> 0 /\ i_dead ni = false /\ typed ni).
Context (Ed : dentries s' = grown (dentries s) p r pd nd) (Ei : inodes s' !! ir = Some ni).
Context (Eo : forall j i, j <> ir -> inodes s !! j = Some i -> exists i', inodes s' !! j = Some i' /\ same_role i i').
Context (Hf : (fresh s <= fresh s')%nat) (Hrf : (r < fresh s')%nat).
Context (Hif : forall j, is_Some (inodes s' !! j) -> (j < fresh s')%nat).
Context (Hh : forall x, x ∈ d_hash s' <-> x = r \/ x ∈ d_hash s) (Hfn : free_name s t p (d_name nd)).
Context (Hg : g_rroot_dentry (glob s') = g_rroot_dentry (glob s)) (Ht : table_wf (g_table (glob s'))).

Lemma attach_ne : p <> r.
Proof using Hp Hr. clear - Hp Hr. intros ->. congruence. Qed.

Lemma attach_lookup x d :
  dentries s' !! x = Some d ->
  (x = r /\ d = nd) \/ (x <> r /\ exists d0, dentries s !! x = Some d0 /\ d_inode d = d_inode d0 /\
    d_name d = d_name d0 /\ d_op d = d_op d0 /\ d_parent d = d_parent d0 /\ (x = p \/ d = d0)).
Proof using Hp Hr Ed.
  pose proof attach_ne. clear - Hp Hr Ed H. rewrite Ed. unfold grown. rewrite !lookup_insert.
  repeat case_decide; simplify_eq; intros; simplify_eq; [by left|right..]; split; try done; eauto 10.
Qed.

Lemma attach_inode x d : dentries s' !! x = Some d -> inode_ok s' d.
Proof using Hok Hp Hpir Hpi Hdir Hr Hfree Hnd Hndi Hni Ed Ei Eo.
  intros [[-> ->]|(Hx & d0 & Hd0 & E1 & _ & _ & _ & Hor)]%attach_lookup.
  - exists ir, ni. destruct Hni as (N1 & N2 & N3 & N4), Hnd as (_ & Esub & _). by rewrite Esub.
  - destruct (nk_inode _ _ Hok _ _ Hd0) as (j & i & Ej & Hj & Hc & Hm & Hdd & Hsub & Hop).
    assert (Hne : j <> ir) by (intros ->; by apply (Hfree _ _ Hd0)).
    destruct (Eo _ _ Hne Hj) as (i' & Hi' & _ & R2 & R3 & R4 & R5 & R6).
    exists j, i'. rewrite R2, R3, R4. split_and!; try done; [congruence| |by apply (typed_same i); rewrite ?R2].
    intros Hs. destruct Hor as [-> | ->]; [|by apply Hsub]. simplify_eq. done.
Qed.

Lemma attach_node_ok : node_ok s' (add_child p r t).
Proof using Hok Hp Hpir Hpi Hdir Hr Hfree Hnd Hndi Hndn Hndo Hni Ed Ei Eo Hf Hrf Hif Hh Hfn Hg Ht.
  pose proof (rs_nodup _ _ (nk_rest _ _ Hok)) as Hnodup. pose proof attach_ne as Hne.
  assert (Hpt : p ∈ refs t) by (apply (nk_dom _ _ Hok); eauto).
  assert (Hin : forall x, x ∈ refs (add_child p r t) <-> x = r \/ x ∈ refs t)
    by (intros; by apply in_refs_add).
  split.
  - rewrite Ed. apply resting_add; try done; [apply (nk_rest _ _ Hok)|].
    intros x Hx. by apply (nk_dom _ _ Hok).
  - intros x. rewrite Ed, users_grown by done. apply (nk_users _ _ Hok).
  - intros x. rewrite Hin, <- (nk_dom _ _ Hok), Ed. unfold grown. rewrite !lookup_insert.
    repeat case_decide; simplify_eq; split; try naive_solver.
  - intros x. rewrite Hin. intros [->|Hx]; [done|]. apply (nk_fresh _ _ Hok) in Hx. lia.
  - done.
  - apply attach_inode.
  - intros r1 r2 d1 d2 j H1 H2 E1 E2.
    apply attach_lookup in H1 as [[-> ->]|(? & e1 & F1 & G1 & _)];
      apply attach_lookup in H2 as [[-> ->]|(? & e2 & F2 & G2 & _)]; try done.
    + exfalso. apply (Hfree _ _ F2). congruence.
    + exfalso. apply (Hfree _ _ F1). congruence.
    + eapply (nk_inj _ _ Hok); [done|done|by rewrite <- G1|by rewrite <- G2].
  - intros x d [[-> ->]|(_ & d0 & Hd0 & _ & E & _)]%attach_lookup; [done|].
    rewrite E. by apply (nk_names _ _ Hok x).
  - rewrite troot_add. intros x d Hx Hxr.
    apply attach_lookup in Hx as [[-> ->]|(_ & d0 & Hd0 & _ & _ & E & _)]; [done|].
    rewrite E. by apply (nk_dop _ _ Hok x).
  - intros x. rewrite Hin, Hh, (nk_hash _ _ Hok), troot_add.
    assert (r <> troot t); [|naive_solver]. intros ->.
    destruct (rs_root _ _ (nk_rest _ _ Hok)) as (rd & Hrd & _). congruence.
  - rewrite troot_add. intros r1 r2 d1 d2 H1 H2 N1 N2 Ep En. destruct Hnd as [Epar _].
    apply attach_lookup in H1 as [[-> ->]|(? & e1 & F1 & _ & G1 & _ & P1 & _)];
      apply attach_lookup in H2 as [[-> ->]|(? & e2 & F2 & _ & G2 & _ & P2 & _)]; try done.
    + destruct (Hfn _ _ F2 N2); congruence.
    + destruct (Hfn _ _ F1 N1); congruence.
    + eapply (nk_uniq _ _ Hok); [done|done|done|done|congruence|congruence].
  - rewrite troot_add, Hg. apply (nk_root _ _ Hok).
  - done.
Qed.
End attach.

Section create.
Context (s : kstate) (t : tree) (p : nat) (pd : dentry) (pir : nat) (pi : inode).
Context (n : list Z) (mode : Z) (t' : table).
Context (Hok : node_ok s t) (Hp : dentries s !! p = Some pd) (Hpir : d_inode pd = Some pir).
Context (Hpi : inodes s !! pir = Some pi) (Hdir : S_ISDIR (i_mode pi) = true).
Context (Hn : name_ok n) (Ht' : table_wf t').
Context (Hmode : Z.land mode S_IFMT = S_IFREG \/ Z.land mode S_IFMT = S_IFDIR).
Context (Hmiss : d_lookup_in (d_hash s) (dentries s) p n = None).

#[local] Abbreviation s' := (set_table t' (created p pd pir pi n mode 1 s)).
#[local] Abbreviation r := (fresh s).
#[local] Abbreviation nd := (mkDentry 1 true (Some (S (fresh s))) p n [] true false).

Lemma create_fresh : dentries s !! r = None /\ inodes s !! S r = None /\ p <> r /\ (pir < r)%nat.
Proof using Hok Hp Hpi.
  assert (p < r)%nat by (apply (nk_fresh _ _ Hok), (nk_dom _ _ Hok); eauto).
  assert (pir < r)%nat by (apply (nk_ifresh _ _ Hok); eauto).
  split; [|split; [|split; [lia|done]]].
  - apply eq_None_not_Some. intros H'. apply (nk_dom _ _ Hok), (nk_fresh _ _ Hok) in H'. lia.
  - apply eq_None_not_Some. intros H'. apply (nk_ifresh _ _ Hok) in H'. lia.
Qed.

Lemma create_dentries : dentries s' = grown (dentries s) p r pd nd.
Proof using. done. Qed.

(** What the new state says about a dentry. *)
Lemma create_lookup x d :
  dentries s' !! x = Some d ->
  (x = r /\ d = nd) \/ (x = p /\ d = add_sub r pd) \/
  (x <> r /\ x <> p /\ dentries s !! x = Some d).
Proof using Hok Hp Hpi.
  clear Hmode Hdir Hn Ht' Hpir Hmiss. destruct create_fresh as (_ & _ & Hne & _). simpl.
  rewrite !lookup_insert. repeat case_decide; naive_solver.
Qed.

Lemma made_typed : typed (made_inode s mode).
Proof using Hmode.
  unfold typed, made_inode, S_ISDIR, ifmt. cbn [i_mode i_op i_fop].
  destruct Hmode as [-> | ->]; [by right|by left].
Qed.

Lemma new_inode_mode :
  let i := inherit pi mode (made_inode s mode) in
  i_count i = 1 /\ i_mode i <> 0 /\ i_dead i = false /\ typed i.
Proof using Hmode.
  assert (Hm : mode <> 0) by (intros ->; destruct Hmode as [E|E]; vm_compute in E; discriminate).
  pose proof made_typed as Ht. unfold inherit. destruct (negb _); cbv zeta; [|by split_and!].
  split; [done|]. split; [|split; [done|]].
  - cbn [i_mode set_attr made_inode]. case_match; [|done]. by apply lor_nonzero.
  - eapply typed_same; [..|exact Ht]; try done. cbn [i_mode set_attr made_inode].
    case_match; [|done]. rewrite Z.land_lor_distr_l. change (Z.land S_ISGID S_IFMT) with 0. apply Z.lor_0_r.
Qed.

Lemma create_users : same_users s s'.
Proof using Hok Hp Hpi.
  clear Hmode Hdir Hn Ht' Hpir Hmiss. destruct create_fresh as (Hr & _ & Hne & _).
  intros x. by apply users_grown.
Qed.

Lemma create_node_ok : node_ok s' (add_child p r t).
Proof using Hok Hp Hpi Hpir Hdir Hn Ht' Hmode Hmiss.
  destruct create_fresh as (Hr & Hir & Hne & Hlt). destruct (note_a_glob n r (glob s)) as [Hg1 Hg2].
  apply (attach_node_ok s s' t p pd pir pi r nd (S r) (inherit pi mode (made_inode s mode))); try done.
  - intros x d Hd E. destruct (nk_inode _ _ Hok _ _ Hd) as (j & i & Ej & Hj & _).
    assert (j < r)%nat by (apply (nk_ifresh _ _ Hok); eauto). simplify_eq; lia.
  - apply new_inode_mode.
  - simpl. rewrite lookup_insert_ne by lia. apply lookup_insert_eq.
  - intros j i Hj Hi. simpl. destruct (decide (j = pir)) as [->|].
    + rewrite lookup_insert_eq. simplify_eq. by eexists.
    + rewrite !lookup_insert_ne by done. by exists i.
  - simpl. lia.
  - simpl. lia.
  - intros j. simpl. rewrite !lookup_insert. repeat case_decide; [lia|lia|].
    intros Hi. apply (nk_ifresh _ _ Hok) in Hi. lia.
  - intros x. simpl. by rewrite elem_of_cons.
  - by apply miss_free.
Qed.
End create.

(** ** Serving a create request *)

Lemma node_count s t r d :
  node_ok s t -> dentries s !! r = Some d -> Z.of_nat (length (d_subdirs d)) + 1 <= d_count d.
Proof.
  intros Hok Hd. pose proof (nk_users _ _ Hok r) as H. unfold users in H. rewrite Hd in H. lia.
Qed.

(** A task with CAP_DAC_OVERRIDE, as kernel threads are, may search every
    directory, and change it. *)
Lemma root_may_search c i mask :
  cap_dac_override c = true -> S_ISDIR (i_mode i) = true -> generic_permission c i mask = 0.
Proof.
  intros Hc Hd. unfold generic_permission.
  assert (acl_permission_check c i mask = 0 \/ acl_permission_check c i mask = - EACCES)
    as [-> | ->]; [|done|].
  - unfold acl_permission_check. destruct (_ =? 0); auto.
  - change (negb (- EACCES =? - EACCES)) with false. cbn iota.
    unfold execute_ok. by rewrite Hd, Hc, !orb_true_r.
Qed.

Lemma node_dir_ready s t p pd pir pi :
  node_ok s t -> dentries s !! p = Some pd -> d_inode pd = Some pir -> inodes s !! pir = Some pi ->
  S_ISDIR (i_mode pi) = true -> generic_permission (cur s) pi MAY_EXEC = 0 -> dir_ready s p pd pir pi.
Proof.
  intros Hok Hp Hi Hpi Hdir Hx.
  destruct (nk_inode _ _ Hok _ _ Hp) as (ir & i & Ei & Hii & Hc & Hm & Hdd & Hsub & Hop). simplify_eq.
  split; try done; [pose proof (node_count _ _ _ _ Hok Hp); lia|by apply typed_dir|].
  apply (nk_fresh _ _ Hok), (nk_dom _ _ Hok). eauto.
Qed.

(** Who may change a directory may search it. *)
Lemma change_search c i :
  S_ISDIR (i_mode i) = true -> generic_permission c i (Z.lor MAY_WRITE MAY_EXEC) = 0 ->
  generic_permission c i MAY_EXEC = 0.
Proof.
  intros Hd. unfold generic_permission, execute_ok. rewrite Hd, !orb_true_r. cbn [andb].
  destruct (cap_dac_override c).
  - intros _. destruct (negb _) eqn:E; [|done]. revert E. unfold acl_permission_check.
    by destruct (Z.land _ (Z.lnot _) =? 0).
  - change (Z.land (Z.lor MAY_WRITE MAY_EXEC) (Z.lor MAY_READ (Z.lor MAY_WRITE MAY_EXEC))) with 3.
    change ((3 =? MAY_READ) || (Z.land 3 MAY_WRITE =? 0)) with false. cbn [andb]. cbv zeta.
    unfold acl_permission_check.
    change (Z.land (Z.lor MAY_WRITE MAY_EXEC) (Z.lor MAY_READ (Z.lor MAY_WRITE MAY_EXEC))) with (Z.lor 2 1).
    change (Z.land MAY_EXEC (Z.lor MAY_READ (Z.lor MAY_WRITE MAY_EXEC))) with 1.
    set (m := if fsuid c =? i_uid i then _ else _).
    destruct (Z.eqb_spec (Z.land (Z.lor 2 1) (Z.lnot m)) 0) as [E|E]; [|done].
    rewrite Z.land_lor_distr_l in E. apply Z.lor_eq_0_iff in E as [_ ->]. done.
Qed.

(** Names that travel and that the VFS takes. *)
Definition link_name (n : list Z) : Prop := fname n /\ 47 ∉ n /\ (length n <= 19)%nat.

Lemma link_name_component n : link_name n -> component n.
Proof.
  intros ([Hne Hn] & H47 & Hl). split; [done|]. split; [|lia].
  rewrite Forall_lookup in *. intros i c Hc. destruct (Hn i c Hc) as [_ Hz]. split; [done|].
  intros ->. apply H47. by eapply list_elem_of_lookup_2.
Qed.

Section serve.
Variable pointer : block -> block * nat -> Z -> va -> printf_spec -> res (block * nat).
Variable stack : autos.

(** What the server reads from a create or remove request. *)
Lemma parse_served buf v ino n inop np mode :
  autos_ok stack -> is_cstr buf (req_text v ino n inop np (mode_text mode)) ->
  fname v -> (length v <= 19)%nat -> fname n -> (length n <= 19)%nat ->
  fname np -> (length np <= 19)%nat -> 0 <= ino < 2 ^ 31 -> 0 <= inop < 2 ^ 31 ->
  parse_request buf (a_tmp_name stack) (a_name stack) (a_name_parent stack)
  = Ok (mkReq ino n inop np (mode_value mode)).
Proof using.
  intros (_ & _ & A3 & A4 & A5 & _) Hbuf Fv Lv Fn Ln Fp Lp Hi Hip.
  assert (length (mode_text mode) = 4%nat) by (unfold mode_text; by destruct (mode =? 0)).
  eapply parse_request_text; try done; [apply mode_text_fname|lia|].
  intros s0 Hs0. by apply string2int_mode.
Qed.

(** A well-formed create request on a node at rest: the server adds one link
    below the directory of that name, records it in the first free table
    entry, and the node is at rest again. *)
Lemma create_served s t buf v ino n inop np mode p pd pir pi ip a ls ls' :
  node_ok s t -> autos_ok stack -> mem s = [] -> cap_dac_override (cur s) = true ->
  is_cstr buf (req_text v ino n inop np (mode_text mode)) ->
  fname v -> (length v <= 19)%nat -> link_name n -> fname np -> (length np <= 19)%nat ->
  0 <= ino < 2 ^ 31 -> 0 <= inop < 2 ^ 31 ->
  resolves s np p -> dentries s !! p = Some pd -> d_inode pd = Some pir ->
  inodes s !! pir = Some pi -> S_ISDIR (i_mode pi) = true ->
  d_lookup_in (d_hash s) (dentries s) p n = None ->
  is_cstr ip a -> (length a <= 15)%nat -> links (g_table (glob s)) = Ok ls ->
  spec_add ls (mkLink (s32 (u32 (last_ino s + 1))) ino (s32 (i_ino pi)) inop) = Some ls' ->
  exists s', rdma_create pointer stack buf (Some ip) s = Ok (tt, s') /\
    node_ok s' (add_child p (fresh s) t) /\
    (exists t', s' = set_table t' (created p pd pir pi n (link_mode (mode_value mode)) 1 s)) /\
    links (g_table (glob s')) = Ok ls'.
Proof using.
  intros Hok Ha Hm Hcap Hbuf Fv Lv Hn Fp Lp Hi Hip Hres Hp Hpir Hpi Hdir Hmiss Hipa Hla Hls Hadd.
  pose proof Hn as (Fn & _ & Ln).
  pose proof (nk_table _ _ Hok) as [Htl Htw].
  pose proof (parse_served buf v ino n inop np mode Ha Hbuf Fv Lv Fn Ln Fp Lp Hi Hip) as Hq.
  pose proof (table_record_spec (g_table (glob s)) ls (n ++ [0]) n (u32 (last_ino s + 1)) ino
    (i_ino pi) inop ip a Htw (proj1 (links_Forall2 _ _) Hls)) as Hrec.
  rewrite (s32_small ino), (s32_small inop), Hadd in Hrec by lia.
  destruct Hrec as (t' & Et' & Htw' & Htl' & Hls'); try done; [by apply is_cstr_app, fname_nz|].
  assert (Hwf' : table_wf t') by (split; [lia|done]).
  eexists. split; [|split; [|split]].
  - eapply rdma_create_ok; try done; [by apply fname_nz|eapply node_dir_ready; try done; by apply root_may_search|
      by apply link_name_component|by apply (nk_ifresh _ _ Hok)].
  - apply create_node_ok; try done; [split; [by apply fname_nz|lia]|].
    unfold link_mode, mode_value. by destruct (mode =? 0); [left|right].
  - eauto.
  - simpl. by apply links_Forall2.
Qed.
End serve.
