(* ===== verification/Remove.v ===== *)
(** * Removing a link

    The effect of simple_unlink on a leaf of the tree, the invariant of the node
    afterwards, and the remove request that rdma_remove serves. *)

From S2P Require Import Prelude KString KScan KFormat Wire Ksocket MapTable Vfs Tree Ops.
From S2P Require Import PageIo Server Umount Node Inv.

(** ** simple_unlink on a leaf *)

Definition drop_sub (r : nat) (pd : dentry) : dentry :=
  set_d_count (d_count pd - 1)
    (set_d_subdirs (List.filter (fun x => negb (x =? r)%nat) (d_subdirs pd)) pd).

(** The node without dentry [r] and its inode [ir]; [pi'] is what became of the
    directory's inode. *)
Definition removed (r ir p : nat) (pd : dentry) (pir : nat) (pi' : inode) (s : kstate) : kstate :=
  mkK (delete ir (<[pir := pi']> (inodes s))) (delete r (<[p := drop_sub r pd]> (dentries s)))
    (fresh s) (List.filter (fun x => negb (x =? r)%nat) (d_hash s)) (last_ino s) (mem s) (now s)
    (cur s) (glob s) (network s).

(** A dentry that only its creation pins, with an inode of its own. *)
Record leaf (s : kstate) (r : nat) (d : dentry) (ir : nat) (i : inode) (p : nat) (pd : dentry)
    (pir : nat) (pi : inode) : Prop := {
  lf_dentry : dentries s !! r = Some d;
  lf_count : d_count d = 1;
  lf_hashed : d_hashed d = true;
  lf_op : d_op d = true;
  lf_inode : d_inode d = Some ir;
  lf_subdirs : d_subdirs d = [];
  lf_i : inodes s !! ir = Some i;
  lf_icount : i_count i = 1;
  lf_parent : d_parent d = p;
  lf_ne : p <> r;
  lf_p : dentries s !! p = Some pd;
  lf_pcount : d_count pd <> 1;
  lf_pir : d_inode pd = Some pir;
  lf_pi : inodes s !! pir = Some pi;
  lf_ine : pir <> ir;
}.

(** The inodes after a dentry gave up its reference, the last one, to [ir]. *)
Definition iput_last (ir : option nat) (m : gmap nat inode) : gmap nat inode :=
  match ir with Some ir => delete ir m | None => m end.

Definition last_iput (s : kstate) (d : dentry) : Prop :=
  forall ir, d_inode d = Some ir -> exists i, inodes s !! ir = Some i /\ i_count i = 1.

Lemma d_kill_last r d p pd s :
  dentries s !! r = Some d -> last_iput s d -> d_parent d = p -> p <> r -> dentries s !! p = Some pd ->
  d_kill r s
  = Ok (Some p, with_inodes (iput_last (d_inode d) (inodes s))
          (with_dentries (delete r (<[p := set_d_subdirs
             (List.filter (fun x => negb (x =? r)%nat) (d_subdirs pd)) pd]> (dentries s))) s)).
Proof.
  intros Hr Hi Hp Hne Hpd. unfold d_kill.
  erewrite M_bind_ok by (by apply get_dentry_ok). rewrite Hp, (proj2 (Nat.eqb_neq p r)) by done.
  erewrite M_bind_ok by (by apply upd_dentry_ok).
  unfold dentry_iput. destruct (d_inode d) as [ir|] eqn:Eir.
  - destruct (Hi ir Eir) as (i & Hii & Hic). erewrite M_bind_ok; cycle 1.
    { erewrite M_bind_ok by (apply get_dentry_ok; simpl; by rewrite lookup_insert_ne by done).
      rewrite Eir.
      erewrite M_bind_ok by (apply upd_dentry_ok; simpl; by rewrite lookup_insert_ne by done).
      unfold iput. erewrite M_bind_ok by (by apply get_inode_ok). rewrite Hic.
      change (1 - 1 =? 0) with true. cbn iota. reflexivity. }
    erewrite M_bind_ok by reflexivity. unfold mret, M_ret, with_inodes, with_dentries. simpl.
    do 3 f_equal. map_solve.
  - erewrite M_bind_ok; cycle 1.
    { erewrite M_bind_ok by (apply get_dentry_ok; simpl; by rewrite lookup_insert_ne by done).
      rewrite Eir. reflexivity. }
    erewrite M_bind_ok by reflexivity. done.
Qed.

(** dput of the last reference to a dentry that the file system pins. *)
Lemma dput_last r d p pd s :
  dentries s !! r = Some d -> d_count d = 1 -> d_op d = true ->
  (d_hashed d = false -> List.filter (fun x => negb (x =? r)%nat) (d_hash s) = d_hash s) ->
  last_iput s d -> d_parent d = p -> p <> r -> dentries s !! p = Some pd -> d_count pd <> 1 ->
  dput r s
  = Ok (tt, mkK (iput_last (d_inode d) (inodes s)) (delete r (<[p := drop_sub r pd]> (dentries s)))
              (fresh s) (List.filter (fun x => negb (x =? r)%nat) (d_hash s)) (last_ino s) (mem s)
              (now s) (cur s) (glob s) (network s)).
Proof.
  intros Hr Hc Hop Hh Hi Hp Hne Hpd Hpc.
  assert (Hsize : exists k, size (dentries s) = S k).
  { destruct (size (dentries s)) as [|k] eqn:E; [|eauto].
    apply map_size_empty_inv in E. by rewrite E in Hr. }
  destruct Hsize as [k Hk]. unfold dput. rewrite Hk. cbn [dput_loop]. unfold atomic_dec_d at 1.
  erewrite M_bind_ok by (by apply upd_dentry_ok).
  erewrite M_bind_ok by (apply get_dentry_ok; simpl; apply lookup_insert_eq).
  cbn [d_count set_d_count d_op]. rewrite Hc, Hop. change (negb (1 - 1 =? 0)) with false. cbn iota.
  set (h := List.filter _ (d_hash s)) in *. set (d1 := set_d_hashed false (set_d_count (1 - 1) d)).
  assert (E : d_drop r (with_dentries (<[r := set_d_count (1 - 1) d]> (dentries s)) s)
              = Ok (tt, with_hash h (with_dentries (<[r := d1]> (dentries s)) s))).
  { unfold d_drop. erewrite M_bind_ok by (apply get_dentry_ok; simpl; apply lookup_insert_eq).
    cbn [d_hashed set_d_count]. destruct (d_hashed d) eqn:Eh.
    - erewrite M_bind_ok by (apply upd_dentry_ok; simpl; apply lookup_insert_eq).
      unfold modify. simpl. by rewrite insert_insert_eq.
    - rewrite Hh by done. unfold d1, mret, M_ret, with_hash, with_dentries. simpl. do 4 f_equal.
      destruct d; simpl in *; by subst. }
  erewrite M_bind_ok by exact E.
  erewrite M_bind_ok; cycle 1.
  { apply (d_kill_last r d1 p pd); try done; [simpl; apply lookup_insert_eq|].
    simpl. by rewrite lookup_insert_ne by done. }
  cbn iota. unfold atomic_dec_d.
  erewrite M_bind_ok by (apply upd_dentry_ok; simpl; rewrite lookup_delete_ne by done; apply lookup_insert_eq).
  erewrite M_bind_ok by (apply get_dentry_ok; simpl; apply lookup_insert_eq).
  cbn [d_count set_d_count set_d_subdirs].
  rewrite (proj2 (Z.eqb_neq _ 0)) by lia. cbn [negb]. unfold mret, M_ret. simpl. do 2 f_equal.
  unfold drop_sub, with_dentries. simpl. f_equal. map_solve.
Qed.

(** dput of the last reference to a dentry that was never hashed. *)
Lemma dput_unhashed r d p pd s :
  dentries s !! r = Some d -> d_count d = 1 -> d_op d = false -> d_hashed d = false ->
  d_inode d = None -> d_parent d = p -> p <> r -> dentries s !! p = Some pd -> d_count pd <> 1 ->
  dput r s = Ok (tt, with_dentries (delete r (<[p := drop_sub r pd]> (dentries s))) s).
Proof.
  intros Hr Hc Hop Hh Hi Hp Hne Hpd Hpc.
  assert (Hsize : exists k, size (dentries s) = S k).
  { destruct (size (dentries s)) as [|k] eqn:E; [|eauto].
    apply map_size_empty_inv in E. by rewrite E in Hr. }
  destruct Hsize as [k Hk]. unfold dput. rewrite Hk. cbn [dput_loop]. unfold atomic_dec_d at 1.
  erewrite M_bind_ok by (by apply upd_dentry_ok).
  erewrite M_bind_ok by (apply get_dentry_ok; simpl; apply lookup_insert_eq).
  cbn [d_count set_d_count d_op d_hashed]. rewrite Hc, Hop, Hh. change (negb (1 - 1 =? 0)) with false.
  cbn [negb]. cbn iota. erewrite M_bind_ok; cycle 1.
  { apply (d_kill_last r (set_d_count (1 - 1) d) p pd); try done; [simpl; apply lookup_insert_eq| |].
    - intros ir E. simpl in E. congruence.
    - simpl. by rewrite lookup_insert_ne by done. }
  cbn iota. unfold atomic_dec_d.
  erewrite M_bind_ok by (apply upd_dentry_ok; simpl; rewrite lookup_delete_ne by done; apply lookup_insert_eq).
  erewrite M_bind_ok by (apply get_dentry_ok; simpl; apply lookup_insert_eq).
  cbn [d_count set_d_count set_d_subdirs].
  rewrite (proj2 (Z.eqb_neq _ 0)) by lia. cbn [negb]. unfold mret, M_ret. simpl. rewrite Hi.
  do 2 f_equal. unfold drop_sub, with_dentries, with_inodes. simpl. f_equal. map_solve.
Qed.

Section unlink.
Context (s : kstate) (r : nat) (d : dentry) (ir : nat) (i : inode) (p : nat) (pd : dentry).
Context (pir : nat) (pi : inode) (Hleaf : leaf s r d ir i p pd pir pi).

(** dput of the last reference, in a state that differs in the inodes only. *)
Lemma dput_leaf m i' :
  m !! ir = Some i' -> i_count i' = 1 ->
  dput r (with_inodes m s)
  = Ok (tt, mkK (delete ir m) (delete r (<[p := drop_sub r pd]> (dentries s))) (fresh s)
              (List.filter (fun x => negb (x =? r)%nat) (d_hash s)) (last_ino s) (mem s) (now s)
              (cur s) (glob s) (network s)).
Proof using Hleaf.
  intros Hm Hi'. destruct Hleaf as [Hr Hc Hh Hop Hir _ _ _ Hp Hne Hpd Hpc _ _ _].
  erewrite (dput_last r d p pd); try done; [simpl; by rewrite Hir|by rewrite Hh|].
  intros x Hx. rewrite Hir in Hx. injection Hx as <-. by exists i'.
Qed.

Lemma simple_unlink_leaf :
  simple_unlink pir r s = Ok (tt, removed r ir p pd pir (set_mtime_ctime (now s) pi) s).
Proof using Hleaf.
  pose proof Hleaf as [Hr Hc Hh Hop Hir _ Hi Hic Hp Hne Hpd Hpc _ Hpi Hine]. unfold simple_unlink.
  erewrite M_bind_ok by (by apply get_dentry_ok). rewrite Hir.
  erewrite M_bind_ok by reflexivity. erewrite M_bind_ok by reflexivity.
  erewrite M_bind_ok by (by apply upd_inode_ok).
  erewrite M_bind_ok by (apply upd_inode_ok; simpl; by rewrite lookup_insert_ne by done).
  unfold drop_nlink. erewrite M_bind_ok by (apply upd_inode_ok; simpl; apply lookup_insert_eq).
  set (m := <[ir := _]> _).
  change (with_inodes m _) with (with_inodes m s).
  erewrite dput_leaf; [|unfold m; apply lookup_insert_eq|done].
  do 2 f_equal. unfold removed. f_equal. unfold m. simpl. map_solve.
Qed.

(** The two functions rdma_remove calls. *)
Lemma unlink_rdma_leaf :
  wjfs_unlink_rdma pir r s = Ok (0, removed r ir p pd pir (set_mtime_ctime (now s) pi) s).
Proof using Hleaf. unfold wjfs_unlink_rdma. by erewrite M_bind_ok by apply simple_unlink_leaf. Qed.
End unlink.

(** A changed inode that keeps its reference count is as good a leaf. *)
Lemma leaf_with_inode s r d ir i p pd pir pi i' :
  leaf s r d ir i p pd pir pi -> i_count i' = 1 ->
  leaf (with_inodes (<[ir := i']> (inodes s)) s) r d ir i' p pd pir pi.
Proof.
  intros [] Hc. split; try done; simpl; [apply lookup_insert_eq|by rewrite lookup_insert_ne].
Qed.

(** wjfs_rmdir_rdma also drops a link count of the directory above. *)
Lemma rmdir_rdma_leaf s r d ir i p pd pir pi :
  leaf s r d ir i p pd pir pi ->
  wjfs_rmdir_rdma pir r s
  = Ok (0, removed r ir p pd pir
             (set_links (u32 (i_nlink pi - 1)) (i_count pi) (set_mtime_ctime (now s) pi)) s).
Proof.
  intros Hleaf. pose proof Hleaf as [Hr _ _ _ Hir Hsub Hi Hic _ _ _ _ _ _ Hine].
  unfold wjfs_rmdir_rdma. erewrite M_bind_ok; cycle 1.
  { unfold simple_empty. erewrite M_bind_ok by (by apply get_dentry_ok). by rewrite Hsub. }
  cbn [negb]. erewrite M_bind_ok by (by apply get_dentry_ok). rewrite Hir.
  erewrite M_bind_ok by reflexivity. unfold drop_nlink at 1.
  erewrite M_bind_ok by (by apply upd_inode_ok).
  erewrite M_bind_ok by (eapply simple_unlink_leaf, leaf_with_inode; done).
  unfold drop_nlink. erewrite M_bind_ok; cycle 1.
  { apply upd_inode_ok. simpl. rewrite lookup_delete_ne by done. apply lookup_insert_eq. }
  unfold mret, M_ret. do 2 f_equal. unfold removed, with_inodes. simpl. f_equal. map_solve.
Qed.

(** ** The tree without a leaf *)

Definition not_root (x : nat) (c : tree) : bool := negb (troot c =? x)%nat.

Fixpoint del (x : nat) (t : tree) : tree :=
  let 'Node r ch := t in Node r (concat (map (fun c => if not_root x c then [del x c] else []) ch)).

Lemma del_node x r ch : del x (Node r ch) = Node r (map (del x) (List.filter (not_root x) ch)).
Proof.
  cbn [del]. f_equal. induction ch as [|c ch IH]; [done|]. cbn [map concat List.filter].
  destruct (not_root x c); cbn [map]; [by rewrite <- IH|done].
Qed.

Lemma troot_del x t : troot (del x t) = troot t.
Proof. by destruct t. Qed.

Lemma map_troot_del x ts :
  map troot (map (del x) (List.filter (not_root x) ts))
  = List.filter (fun y => negb (y =? x)%nat) (map troot ts).
Proof.
  induction ts as [|c ts IH]; [done|]. cbn [map List.filter]. unfold not_root at 1.
  destruct (troot c =? x)%nat; cbn [negb map]; [done|]. by rewrite troot_del, IH.
Qed.

Section del.
Context (m : gmap nat dentry) (x p : nat) (xd pd : dentry).
Context (Hx : m !! x = Some xd) (Hpar : d_parent xd = p) (Hleaf : d_subdirs xd = []).
Context (Hp : m !! p = Some pd) (Hne : p <> x).
Context (Hin : x ∈ d_subdirs pd) (Hnd : NoDup (d_subdirs pd)).

Definition pruned : gmap nat dentry := delete x (<[p := drop_sub x pd]> m).

Lemma pinned_leaf q c : pinned m q c -> troot c = x -> c = Node x [] /\ q = p.
Proof using Hx Hpar Hleaf.
  clear Hnd Hin Hne Hp pd. intros Hc <-. inversion Hc as [r ch d Hr Hq Hsub]; subst. cbn [troot] in *. simplify_eq.
  rewrite Hleaf in Hsub. by destruct ch.
Qed.

Lemma filter_one l :
  x ∈ l -> NoDup l -> S (length (List.filter (fun y => negb (y =? x)%nat) l)) = length l.
Proof using.
  induction l as [|y l IH]; [by intros ?%not_elem_of_nil|].
  intros Hxl [Hy Hl]%list.NoDup_cons. cbn [List.filter].
  destruct (Nat.eqb_spec y x) as [->|Hyx]; cbn [negb length].
  - f_equal. clear -Hy. induction l as [|z l IH]; [done|].
    apply not_elem_of_cons in Hy as [Hz Hy]. cbn [List.filter].
    rewrite (proj2 (Nat.eqb_neq z x)) by done. cbn [negb length]. by rewrite IH.
  - f_equal. apply IH; [|done]. by apply elem_of_cons in Hxl as [|].
Qed.

Lemma filter_none (P : tree -> Prop) ts :
  (forall c, c ∈ ts -> troot c <> x) -> List.filter (not_root x) ts = ts.
Proof using.
  induction ts as [|c ts IH]; [done|]. intros H. cbn [List.filter]. unfold not_root at 1.
  rewrite (proj2 (Nat.eqb_neq _ _)) by (apply H; by left). cbn [negb].
  rewrite IH; [done|]. intros c' Hc'. apply H. by right.
Qed.

(** A dentry of the tree and its children, after the leaf is gone. *)
Lemma pruned_node r d ch :
  m !! r = Some d -> r <> x -> d_subdirs d = map troot ch -> Forall (pinned m r) ch ->
  let ch' := List.filter (not_root x) ch in
  exists d', pruned !! r = Some d' /\ d_parent d' = d_parent d /\
    simple_positive d' = simple_positive d /\
    d_subdirs d' = map troot (map (del x) ch').
Proof using Hx Hpar Hp Hne Hin Hnd Hleaf.
  intros Hr Hrx Hsub Hch ch'. unfold pruned. rewrite lookup_delete_ne by done.
  destruct (decide (r = p)) as [->|Hrp].
  - simplify_eq. rewrite lookup_insert_eq. eexists. split; [done|]. split; [done|].
    split; [done|]. unfold ch' in *. simpl. by rewrite map_troot_del, Hsub.
  - rewrite lookup_insert_ne by done. exists d.
    assert (E : ch' = ch).
    { apply (filter_none (pinned m r)). intros c Hc Hcx. rewrite List.Forall_forall in Hch.
      destruct (pinned_leaf r c) as [_ ?]; [by apply Hch, list_elem_of_In|done|done]. }
    assert (E' : map troot (map (del x) ch) = map troot ch).
    { rewrite map_map. apply map_ext. apply troot_del. }
    rewrite E, E'. done.
Qed.

Lemma pinned_del t : forall q, pinned m q t -> troot t <> x -> pinned pruned q (del x t).
Proof using Hx Hpar Hp Hne Hin Hnd Hleaf.
  induction t as [r ch IH] using tree_rect_all. intros q Hq Hrx. cbn [troot] in Hrx.
  inversion Hq as [? ? d Hr Hqp Hsub Hpos Hch]; subst.
  destruct (pruned_node r d ch) as (d' & Hd' & E1 & E2 & E3); try done.
  rewrite del_node. apply pinned_node with d'; try done; [congruence|].
  rewrite List.Forall_forall in *. intros c' (c & <- & [Hc Hcx]%List.filter_In)%in_map_iff.
  apply IH; [done|by apply Hch|]. unfold not_root in Hcx.
  intros E. by rewrite E, Nat.eqb_refl in Hcx.
Qed.

Lemma refs_del t : forall q, pinned m q t -> troot t <> x ->
  refs (del x t) = List.filter (fun y => negb (y =? x)%nat) (refs t).
Proof using Hx Hpar Hleaf.
  clear Hnd Hin Hne Hp pd. pose proof pinned_leaf as Hpl. induction t as [r ch IH] using tree_rect_all. intros q Hq Hrx. cbn [troot] in Hrx.
  inversion Hq as [? ? d Hr Hqp Hsub Hpos Hch]; subst. rewrite del_node. cbn [refs List.filter].
  rewrite (proj2 (Nat.eqb_neq r x)) by done. cbn [negb]. f_equal. clear Hsub Hq.
  induction ch as [|c ch IHch]; [done|]. apply Forall_cons_iff in IH as [IHc IH].
  apply Forall_cons_iff in Hch as [Hc Hch]. cbn [List.filter map concat]. unfold not_root at 1.
  rewrite List.filter_app. destruct (Nat.eqb_spec (troot c) x) as [E|E]; cbn [negb map concat].
  - destruct (Hpl r c Hc E) as [-> _]. cbn [refs map concat List.filter].
    rewrite Nat.eqb_refl. cbn [negb app]. by apply IHch.
  - rewrite (IHc r Hc E). f_equal. by apply IHch.
Qed.

(** The same for a root whose children are pinned. *)
Lemma refs_del_root r ch :
  Forall (pinned m r) ch -> r <> x ->
  refs (del x (Node r ch)) = List.filter (fun y => negb (y =? x)%nat) (refs (Node r ch)).
Proof using Hx Hpar Hleaf.
  clear Hnd Hin Hne Hp pd. intros Hch Hrx. rewrite del_node. cbn [refs List.filter].
  rewrite (proj2 (Nat.eqb_neq r x)) by done. cbn [negb]. f_equal.
  induction ch as [|c ch IHch]; [done|]. apply Forall_cons_iff in Hch as [Hc Hch].
  cbn [List.filter map concat]. unfold not_root at 1. rewrite List.filter_app.
  destruct (Nat.eqb_spec (troot c) x) as [E|E]; cbn [negb map concat].
  - destruct (pinned_leaf r c Hc E) as [-> _]. cbn [refs map concat List.filter].
    rewrite Nat.eqb_refl. cbn [negb app]. by apply IHch.
  - rewrite (refs_del c r Hc E). f_equal. by apply IHch.
Qed.

Lemma users_pruned r : users m x = 0 -> users pruned r = users m r.
Proof using Hp Hne Hin Hnd.
  clear Hx Hpar Hleaf xd. intros Hx0. unfold users, pruned in *. rewrite lookup_delete, lookup_insert.
  repeat case_decide; subst; [done| |done]. rewrite Hp. simpl.
  pose proof (filter_one _ Hin Hnd). lia.
Qed.

Lemma resting_del t :
  resting m t -> troot t <> x -> resting pruned (del x t).
Proof using Hx Hpar Hp Hne Hin Hnd Hleaf.
  intros [Hn (d & Hd & Hdp & Hsub) Hch] Hrx. destruct t as [r ch]. cbn [troot tch] in *.
  destruct (pruned_node r d ch) as (d' & Hd' & E1 & _ & E3); try done.
  split.
  - rewrite refs_del_root by done. by apply NoDup_ListNoDup, List.NoDup_filter, NoDup_ListNoDup.
  - rewrite del_node. exists d'. cbn [troot tch]. split_and!; try done. congruence.
  - rewrite del_node. cbn [troot tch]. rewrite List.Forall_forall in *.
    intros c' (c & <- & [Hc Hcx]%List.filter_In)%in_map_iff. apply pinned_del; [by apply Hch|].
    unfold not_root in Hcx. intros E. by rewrite E, Nat.eqb_refl in Hcx.
Qed.
End del.

(** ** Where a dentry hangs *)

Lemma rep_up m t : forall q r, rep m q t -> NoDup (refs t) -> r ∈ refs_list (tch t) ->
  exists d pd, m !! r = Some d /\ m !! d_parent d = Some pd /\ r ∈ d_subdirs pd /\
    NoDup (d_subdirs pd) /\ d_parent d <> r.
Proof.
  induction t as [x ch IH] using tree_rect_all. intros q r Hrep Hnd Hr. cbn [tch] in Hr.
  inversion Hrep as [? ? xd Hx _ Hsub Hch]; subst. cbn [refs] in Hnd. fold (refs_list ch) in Hnd.
  apply list.NoDup_cons in Hnd as [Hxn Hnd].
  pose proof Hr as Hr'. unfold refs_list in Hr'. rewrite list_elem_of_In, in_concat in Hr'.
  destruct Hr' as (l & Hl & Hrl). apply in_map_iff in Hl as (c & <- & Hc).
  apply list_elem_of_In in Hrl. rewrite List.Forall_forall in IH, Hch.
  rewrite refs_unfold in Hrl. apply elem_of_cons in Hrl as [->|Hrl].
  - destruct (rep_inv _ _ _ (Hch c Hc)) as (d & Hd & Hpar & _).
    exists d, xd. rewrite Hpar, Hsub. split; [done|]. split; [done|]. split; [|split].
    + by apply list_elem_of_In, in_map.
    + by apply refs_list_roots.
    + intros ->. done.
  - apply (IH c Hc x); [by apply Hch| |done].
    clear -Hnd Hc. induction ch as [|c' ch IH]; [done|]. unfold refs_list in Hnd. cbn [map concat] in Hnd.
    apply list.NoDup_app in Hnd as (H1 & _ & H2). destruct Hc as [->|Hc]; [done|by apply IH].
Qed.

(** Every dentry but the root is seen by the searches of a node at rest. *)
Lemma node_tree s t : node_ok s t -> tree_at (dentries s) t /\ inodes_ok s (refs t).
Proof.
  intros Hok. split; [apply resting_tree_at, (nk_rest _ _ Hok)|].
  intros r d ir _ Hd Hir. destruct (nk_inode _ _ Hok _ _ Hd) as (ir' & i & E & Hi & _).
  simplify_eq. eauto.
Qed.

Lemma node_node_inode s t r d :
  node_ok s t -> dentries s !! r = Some d ->
  exists ir i, d_inode d = Some ir /\ inodes s !! ir = Some i /\ node_inode s r = Some i /\
    (d_subdirs d <> [] -> S_ISDIR (i_mode i) = true).
Proof.
  intros Hok Hd. destruct (nk_inode _ _ Hok _ _ Hd) as (ir & i & E & Hi & _ & Hm & _ & Hdir & _).
  exists ir, i. split_and!; try done. unfold node_inode. rewrite Hd. cbn [mbind option_bind].
  rewrite E. cbn [mbind option_bind]. rewrite Hi. cbn [mbind option_bind].
  by rewrite (proj2 (Z.eqb_neq _ 0)).
Qed.

Lemma cands_all s t0 t : forall q, node_ok s t0 -> rep (dentries s) q t -> refs t ⊆ cands s t.
Proof.
  induction t as [x ch IH] using tree_rect_all. intros q Hok Hrep r Hr.
  inversion Hrep as [? ? xd Hx _ Hsub Hch]; subst.
  destruct (node_node_inode _ _ _ _ Hok Hx) as (ir & i & _ & _ & Hni & Hdir).
  cbn [cands refs] in *. rewrite Hni. rewrite elem_of_app, list_elem_of_singleton.
  apply elem_of_cons in Hr as [->|Hr]; [by right|]. left.
  rewrite list_elem_of_In, in_concat in Hr. destruct Hr as (l & Hl & Hrl).
  apply in_map_iff in Hl as (c & <- & Hc).
  rewrite Hdir by (rewrite Hsub; by destruct ch). rewrite List.Forall_forall in IH, Hch.
  rewrite list_elem_of_In, in_concat. exists (cands s c). split; [by apply in_map|].
  apply list_elem_of_In. apply (IH c Hc x Hok (Hch c Hc)). by apply list_elem_of_In.
Qed.

Lemma node_cands s t : node_ok s t -> refs_list (tch t) ⊆ cands_list s (tch t).
Proof.
  intros Hok r Hr. destruct (node_tree _ _ Hok) as [[Hrep _] _].
  destruct (rep_inv _ _ _ Hrep) as (d & _ & _ & _ & Hch).
  unfold refs_list, cands_list in *. rewrite list_elem_of_In, in_concat in *.
  destruct Hr as (l & Hl & Hrl). apply in_map_iff in Hl as (c & <- & Hc).
  exists (cands s c). split; [by apply in_map|]. rewrite List.Forall_forall in Hch.
  apply list_elem_of_In. apply (cands_all s t c (troot t) Hok (Hch c Hc)). by apply list_elem_of_In.
Qed.

(** No other dentry below the root has the inode number of [r]. *)
Definition numbered (s : kstate) (ino : Z) (r : nat) : Prop :=
  forall x i, node_inode s x = Some i -> i_ino i = ino -> x = r.

(** find_dentry_by_ino finds the dentry with a number only it has. *)
Lemma node_find_ino s t r d ir i ino :
  node_ok s t -> dentries s !! r = Some d -> r <> troot t -> d_inode d = Some ir ->
  inodes s !! ir = Some i -> i_ino i = u32 ino -> numbered s (u32 ino) r ->
  find_dentry_by_ino (troot t) ino s = Ok (Some r, s).
Proof.
  intros Hok Hd Hr Hir Hi Hino Hnum. destruct (node_tree _ _ Hok) as [Ht Hio].
  rewrite find_by_ino_eq by done. do 2 f_equal.
  destruct (node_node_inode _ _ _ _ Hok Hd) as (ir' & i' & E1 & E2 & Hni & _). simplify_eq.
  assert (Hrc : r ∈ cands_list s (tch t)).
  { apply (node_cands _ _ Hok). assert (r ∈ refs t) as Hin by (apply (nk_dom _ _ Hok); eauto).
    rewrite refs_unfold in Hin. by apply elem_of_cons in Hin as [|]. }
  destruct (List.find _ _) as [x|] eqn:E.
  - apply List.find_some in E as [_ Hx]. unfold ino_is in Hx.
    destruct (node_inode s x) as [xi|] eqn:Ex; [|done]. apply Z.eqb_eq in Hx.
    by rewrite (Hnum x xi Ex Hx).
  - apply list_elem_of_In in Hrc. pose proof (List.find_none _ _ E r Hrc) as H.
    unfold ino_is in H. rewrite Hni, Hino, Z.eqb_refl in H. done.
Qed.

(** ** The invariant without the leaf *)

Lemma node_parent s t r d : node_ok s t -> dentries s !! r = Some d -> r <> troot t -> d_parent d <> r.
Proof.
  intros Hok Hd Hr. destruct (node_positive _ _ _ _ Hok Hd Hr) as [Hin _].
  destruct (node_tree _ _ Hok) as [[Hrep Hnd] _].
  destruct (rep_up _ _ _ r Hrep Hnd Hin) as (d' & pd & Hd' & _ & _ & _ & Hne). by simplify_eq.
Qed.

(** A dentry without children is a leaf that can go. *)
Lemma node_leaf s t r d :
  node_ok s t -> dentries s !! r = Some d -> r <> troot t -> d_subdirs d = [] ->
  users (dentries s) r = 0 ->
  exists ir i pd pir pi, leaf s r d ir i (d_parent d) pd pir pi /\
    r ∈ d_subdirs pd /\ NoDup (d_subdirs pd).
Proof.
  intros Hok Hd Hr Hsub Hu. destruct (node_positive _ _ _ _ Hok Hd Hr) as [Hin Hpos].
  destruct (node_tree _ _ Hok) as [[Hrep Hnd] _].
  destruct (rep_up _ _ _ r Hrep Hnd Hin) as (d' & pd & Hd' & Hpd & Hrs & Hns & Hne). simplify_eq.
  destruct (nk_inode _ _ Hok _ _ Hd) as (ir & i & Hir & Hi & Hic & _).
  destruct (nk_inode _ _ Hok _ _ Hpd) as (pir & pi & Hpir & Hpi & _).
  exists ir, i, pd, pir, pi. split; [|done]. split; try done.
  - unfold users in Hu. rewrite Hd, Hsub in Hu. simpl in Hu. lia.
  - unfold simple_positive in Hpos. by rewrite Hir in Hpos.
  - by apply (nk_dop _ _ Hok r).
  - pose proof (node_count _ _ _ _ Hok Hpd) as Hc. destruct (d_subdirs pd); [by apply not_elem_of_nil in Hrs|].
    cbn [length] in Hc. lia.
  - intros ->. apply Hne. by eapply (nk_inj _ _ Hok).
Qed.

Section remove.
Context (s : kstate) (t : tree) (r : nat) (d : dentry) (ir : nat) (i : inode) (pd : dentry).
Context (pir : nat) (pi pi' : inode) (t' : table).
Context (Hok : node_ok s t) (Hr : r <> troot t) (Hleaf : leaf s r d ir i (d_parent d) pd pir pi).
Context (Hin : r ∈ d_subdirs pd) (Hnd : NoDup (d_subdirs pd)).
Context (Hpi' : same_role pi pi') (Ht' : table_wf t').

#[local] Abbreviation s' := (set_table t' (removed r ir (d_parent d) pd pir pi' s)).

Lemma removed_lookup x xd :
  dentries s' !! x = Some xd ->
  x <> r /\ ((x = d_parent d /\ xd = drop_sub r pd) \/ (x <> d_parent d /\ dentries s !! x = Some xd)).
Proof using.
  clear Ht' Hpi' Hnd Hin Hleaf Hr Hok.
  simpl. rewrite lookup_delete, lookup_insert. repeat case_decide; naive_solver.
Qed.

Lemma removed_old x xd :
  dentries s' !! x = Some xd ->
  x <> r /\ exists xd0, dentries s !! x = Some xd0 /\ d_name xd = d_name xd0 /\
    d_inode xd = d_inode xd0 /\ d_op xd = d_op xd0 /\ d_parent xd = d_parent xd0 /\
    d_subdirs xd ⊆ d_subdirs xd0.
Proof using Hleaf.
  intros [Hxr [[-> ->]|[_ Hx]]]%removed_lookup; (split; [done|]).
  - exists pd. split; [by apply (lf_p _ _ _ _ _ _ _ _ _ Hleaf)|]. split_and!; try done.
    intros y Hy. simpl in Hy. apply list_elem_of_In in Hy. apply List.filter_In in Hy as [Hy _].
    by apply list_elem_of_In.
  - by exists xd.
Qed.

Lemma removed_inode x xd : dentries s' !! x = Some xd -> inode_ok s' xd.
Proof using Hok Hleaf Hpi'.
  intros (Hxr & xd0 & Hx & _ & Ei & _ & _ & Hsub)%removed_old.
  destruct (nk_inode _ _ Hok _ _ Hx) as (j & ji & Ej & Hj & Hc & Hm & Hdd & Hdir & Hop).
  destruct Hleaf as [Lr _ _ _ Lir _ _ _ _ _ Lp _ Lpir Lpi Line].
  assert (j <> ir) by (intros ->; apply Hxr; by eapply (nk_inj _ _ Hok)).
  assert (Hsub' : d_subdirs xd <> [] -> d_subdirs xd0 <> []).
  { intros Hxs E. rewrite E in Hsub. apply Hxs. destruct (d_subdirs xd) as [|y l]; [done|].
    destruct (not_elem_of_nil y). apply Hsub. by left. }
  unfold inode_ok. rewrite Ei. exists j. simpl. rewrite lookup_delete_ne by done.
  destruct (decide (j = pir)) as [->|Hjp].
  - rewrite lookup_insert_eq. destruct Hpi' as (_ & Em & Ec & Ed & Eo & Ef). simplify_eq.
    exists pi'. rewrite Em, Ec, Ed. split_and!; auto. apply (typed_same ji); congruence.
  - rewrite lookup_insert_ne by done. exists ji. split_and!; auto.
Qed.

Lemma in_refs_del x : x ∈ refs (del r t) <-> x <> r /\ x ∈ refs t.
Proof using Hok Hr Hleaf.
  destruct Hleaf as [Lr _ _ _ _ Lsub _ _ _ _ _ _ _ _ _].
  pose proof (rs_children _ _ (nk_rest _ _ Hok)) as Hch. destruct t as [y ch]. cbn [troot tch] in *.
  rewrite (refs_del_root (dentries s) r (d_parent d) d) by done.
  rewrite !list_elem_of_In, List.filter_In. destruct (Nat.eqb_spec x r); naive_solver.
Qed.

Lemma users_removed x : users (dentries s') x = users (dentries s) x.
Proof using Hleaf Hin Hnd.
  pose proof Hleaf as [Lr Lc _ _ _ Lsub _ _ _ Lne Lp _ _ _ _].
  apply users_pruned; try done. unfold users. by rewrite Lr, Lc, Lsub.
Qed.

Lemma remove_node_ok : node_ok s' (del r t).
Proof using Hok Hr Hleaf Hin Hnd Hpi' Ht'.
  pose proof in_refs_del as Hdel. pose proof removed_old as Hold.
  pose proof removed_inode as Hino.
  pose proof Hleaf as [Lr _ _ _ Lir Lsub _ _ _ Lne Lp _ Lpir _ _].
  split.
  - simpl. apply (resting_del (dentries s) r (d_parent d) d pd); try done.
    apply (nk_rest _ _ Hok).
  - intros x. rewrite users_removed. apply (nk_users _ _ Hok).
  - intros x. rewrite Hdel, <- (nk_dom _ _ Hok). simpl. rewrite lookup_delete, lookup_insert.
    repeat case_decide; simplify_eq; naive_solver.
  - intros x Hx. apply (nk_fresh _ _ Hok). by apply Hdel in Hx as [_ Hx].
  - intros j Hj. apply (nk_ifresh _ _ Hok). simpl in Hj. rewrite lookup_delete, lookup_insert in Hj.
    repeat case_decide; [by destruct Hj| |done]. subst j.
    exists pi. by apply (lf_pi _ _ _ _ _ _ _ _ _ Hleaf).
  - apply Hino.
  - intros r1 r2 d1 d2 j (_ & e1 & H1 & _ & E1 & _)%Hold (_ & e2 & H2 & _ & E2 & _)%Hold Hj1 Hj2.
    rewrite E1 in Hj1. rewrite E2 in Hj2. by eapply (nk_inj _ _ Hok).
  - intros x xd (_ & e & He & -> & _)%Hold. by eapply (nk_names _ _ Hok).
  - rewrite troot_del. intros x xd (_ & e & He & _ & _ & -> & _)%Hold Hx. by eapply (nk_dop _ _ Hok).
  - intros x. simpl. rewrite list_elem_of_In, List.filter_In, <- list_elem_of_In, (nk_hash _ _ Hok), Hdel,
      troot_del. destruct (Nat.eqb_spec x r); naive_solver.
  - rewrite troot_del. intros r1 r2 d1 d2 (_ & e1 & H1 & N1 & _ & _ & P1 & _)%Hold
      (_ & e2 & H2 & N2 & _ & _ & P2 & _)%Hold R1 R2 Ep En.
    eapply (nk_uniq _ _ Hok); [done|done|done|done|congruence|congruence].
  - rewrite troot_del. apply (nk_root _ _ Hok).
  - done.
Qed.
End remove.
