(* ===== verification/Serve.v ===== *)
(** * Serving one request

    wjfs_server hands a request to the function of its verb; what create and
    remove requests do to a node at rest, and what they leave of it. *)

From S2P Require Import Prelude KString KScan KFormat Wire Ksocket MapTable Vfs Tree Ops.
From S2P Require Import PageIo Server Umount Node Inv Remove.

Section serve.
Variable pointer : block -> block * nat -> Z -> va -> printf_spec -> res (block * nat).
Variable stack : autos.

(** ** Dispatch *)

Lemma recv_buffer t :
  (length t < 1024)%nat ->
  splice (replicate 1024 0) 0 (take 1024 t) = t ++ replicate (1024 - length t) 0.
Proof using.
  intros H. rewrite take_ge by lia. unfold splice. rewrite take_0. cbn [app].
  by rewrite Nat.add_0_l, drop_replicate.
Qed.

(** The text of the peer's address, as wjfs_server passes it on. *)
Definition peer_text (addr : Z) : block := splice (replicate 16 0) 0 (quad addr ++ [0]).

Lemma peer_text_cstr addr : is_cstr (peer_text addr) (quad addr).
Proof using.
  unfold peer_text, splice. rewrite take_0. cbn [app]. rewrite <- app_assoc.
  apply is_cstr_app, quad_nz.
Qed.

(** The five tests on a buffer that starts with two letters and a space. *)
Definition tests (b : block) (wr cr rm : bool) : Prop :=
  forall s, starts b "quit" s = Ok (false, s) /\ starts b "RD" s = Ok (false, s) /\
    starts b "WR" s = Ok (wr, s) /\ starts b "CR" s = Ok (cr, s) /\ starts b "RM" s = Ok (rm, s).

(** A request whose verb is CR, RM or WR goes to one function only. *)
Lemma server_dispatch addr c1 c2 u s s' :
  let t := c1 :: c2 :: 32 :: u in
  let buf := t ++ replicate (1024 - length t) 0 in
  (length t < 1024)%nat -> mem s = [] ->
  (c1, c2) = (67, 82) /\ rdma_create pointer stack buf (Some (peer_text addr)) s = Ok (tt, s') \/
  (c1, c2) = (82, 77) /\ rdma_remove stack buf s = Ok (tt, s') \/
  (c1, c2) = (87, 82) /\ rdma_write stack buf s = Ok (tt, s') ->
  server_step pointer stack addr t s = Ok (Some [], s').
Proof using.
  intros t buf Hl Hm Hc. unfold server_step.
  erewrite M_bind_ok by (by apply alloc_ok).
  erewrite M_bind_ok by (unfold lift; by rewrite inet_ntoa_text).
  rewrite recv_buffer by done. fold buf. fold (peer_text addr).
  assert (Eb : exists w, buf = c1 :: c2 :: 32 :: w) by (unfold buf, t; simpl; eauto).
  destruct Eb as [w Eb].
  assert (Ht : tests buf (c1 =? 87) (c1 =? 67) ((c1 =? 82) && (c2 =? 77))).
  { rewrite Eb. intros s0. by destruct Hc as [[E _]|[[E _]|[E _]]]; injection E as -> ->. }
  clearbody buf.
  erewrite M_bind_ok by apply Ht. cbn iota. erewrite M_bind_ok by apply Ht. cbn iota.
  erewrite M_bind_ok by reflexivity. cbn iota beta.
  destruct Hc as [[E Hc]|[[E Hc]|[E Hc]]]; injection E as -> ->; cbn in Ht;
    (erewrite M_bind_ok by apply Ht); cbn iota;
    (erewrite M_bind_ok by (exact Hc || reflexivity));
    (erewrite M_bind_ok by apply Ht); cbn iota;
    (erewrite M_bind_ok by (exact Hc || reflexivity));
    (erewrite M_bind_ok by apply Ht); cbn iota;
    by erewrite M_bind_ok by (exact Hc || reflexivity).
Qed.

(** ** rdma_remove *)

Lemma node_ok_table s t t' : node_ok s t -> table_wf t' -> node_ok (set_table t' s) t.
Proof using. intros [] Ht'. by split. Qed.

(** The directory's inode after a remove request. *)
Definition after_remove (mode : Z) (now : Z) (pi : inode) : inode :=
  if mode =? 0 then set_mtime_ctime now pi
  else set_links (u32 (i_nlink pi - 1)) (i_count pi) (set_mtime_ctime now pi).

Lemma after_remove_role mode now pi : same_role pi (after_remove mode now pi).
Proof using. unfold after_remove. by destruct (mode =? 0). Qed.

Lemma rdma_remove_ok buf ino n inop np mode s t r d ir i pd pir pi t' my my_parent :
  parse_request buf (a_tmp_name stack) (a_name stack) (a_name_parent stack)
    = Ok (mkReq ino n inop np mode) ->
  node_ok s t -> table_take (g_table (glob s)) ino inop = Ok (t', (my, my_parent)) ->
  table_wf t' -> r <> troot t -> leaf s r d ir i (d_parent d) pd pir pi ->
  i_ino i = u32 my -> numbered s (u32 my) r ->
  rdma_remove stack buf s
  = Ok (tt, set_table t' (removed r ir (d_parent d) pd pir (after_remove mode (now s) pi) s)).
Proof using.
  intros Hq Hok Htake Ht' Hr Hleaf Hino Hnum. unfold rdma_remove.
  erewrite M_bind_ok by (unfold lift; by rewrite Hq). cbn [r_ino r_ino_parent r_mode].
  erewrite M_bind_ok by reflexivity.
  erewrite M_bind_ok by (unfold lift; by rewrite Htake). cbn iota beta.
  erewrite M_bind_ok by reflexivity. fold (set_table t' s).
  pose proof (node_ok_table _ _ _ Hok Ht') as Hok'.
  erewrite M_bind_ok; cycle 1.
  { unfold the_root. erewrite M_bind_ok by reflexivity.
    change (g_rroot_dentry (glob (set_table t' s))) with (g_rroot_dentry (glob s)).
    rewrite (nk_root _ _ Hok). reflexivity. }
  assert (Hleaf' : leaf (set_table t' s) r d ir i (d_parent d) pd pir pi) by (destruct Hleaf; by split).
  pose proof Hleaf as [Lr _ _ _ Lir _ Li _ _ _ Lp _ Lpir _ _].
  erewrite M_bind_ok by (by apply (node_find_ino _ t r d ir i)). cbn iota.
  erewrite M_bind_ok by (by apply get_dentry_ok).
  erewrite M_bind_ok by (by apply get_dentry_ok). rewrite Lpir.
  erewrite M_bind_ok by reflexivity. unfold after_remove.
  destruct (mode =? 0); cbn [negb].
  - by erewrite M_bind_ok by (by eapply unlink_rdma_leaf).
  - by erewrite M_bind_ok by (by eapply rmdir_rdma_leaf).
Qed.
End serve.

(** ** A remove request on a node at rest *)

Lemma remove_served stack s t buf v ino n inop np mode r d i my my_parent ls ls' :
  node_ok s t -> autos_ok stack -> is_cstr buf (req_text v ino n inop np (mode_text mode)) ->
  fname v -> (length v <= 19)%nat -> fname n -> (length n <= 19)%nat ->
  fname np -> (length np <= 19)%nat -> 0 <= ino < 2 ^ 31 -> 0 <= inop < 2 ^ 31 ->
  links (g_table (glob s)) = Ok ls -> spec_take ls ino inop = (ls', (my, my_parent)) ->
  dentries s !! r = Some d -> r <> troot t -> d_subdirs d = [] -> users (dentries s) r = 0 ->
  node_inode s r = Some i -> i_ino i = u32 my -> numbered s (u32 my) r ->
  exists ir pd pir pi t', leaf s r d ir i (d_parent d) pd pir pi /\
    let s' := set_table t' (removed r ir (d_parent d) pd pir
                              (after_remove (mode_value mode) (now s) pi) s) in
    rdma_remove stack buf s = Ok (tt, s') /\ node_ok s' (del r t) /\
    links (g_table (glob s')) = Ok ls' /\ same_users s s'.
Proof.
  intros Hok Ha Hbuf Fv Lv Fn Ln Fp Lp Hi Hip Hls Htake Hd Hr Hsub Hu Hni Hino Hnum.
  pose proof (parse_served stack buf v ino n inop np mode Ha Hbuf Fv Lv Fn Ln Fp Lp Hi Hip) as Hq.
  destruct (nk_table _ _ Hok) as [Htl Htw].
  destruct (table_take_spec _ _ Htw (proj1 (links_Forall2 _ _) Hls) ino inop)
    as (t' & Et & Htw' & Htl' & Hls'). rewrite Htake in Et, Hls'. cbn [fst snd] in Et, Hls'.
  destruct (node_leaf _ _ _ _ Hok Hd Hr Hsub Hu) as (ir & i' & pd & pir & pi & Hleaf & Hin & Hnd).
  assert (i' = i) as ->.
  { destruct (node_inode_inv _ _ _ Hni) as (d' & ir' & E1 & E2 & E3 & _).
    pose proof (lf_inode _ _ _ _ _ _ _ _ _ Hleaf). pose proof (lf_i _ _ _ _ _ _ _ _ _ Hleaf).
    by simplify_eq. }
  assert (Hwf' : table_wf t') by (split; [lia|done]).
  exists ir, pd, pir, pi, t'. split; [done|]. cbv zeta. split; [|split; [|split]].
  - by eapply rdma_remove_ok.
  - apply remove_node_ok with i pi; try done. apply after_remove_role.
  - simpl. by apply links_Forall2.
  - intros x. by eapply (users_removed s r d ir i pd pir pi).
Qed.

(** ** The requests as messages *)

Lemma length_req_text19 v ino n inop np l :
  length v = 2%nat -> (length n <= 19)%nat -> (length np <= 19)%nat -> (length l <= 4)%nat ->
  (length (req_text v (s32 ino) n (s32 inop) np l) < 1024)%nat.
Proof.
  intros Hv Hn Hnp Hl.
  pose proof (length_req_text n np ltac:(lia) ltac:(lia) v ino inop l). lia.
Qed.

(** A request as the other node sends it. *)
Definition message (verb : string) (ino : Z) (n : list Z) (inop : Z) (np : list Z) (mode : Z)
  : list Z := req_text (bytes verb) ino n inop np (mode_text mode).

Lemma message_fits verb ino n inop np mode :
  verb_ok verb -> fname n -> (length n <= 19)%nat -> fname np -> (length np <= 19)%nat ->
  0 <= ino < 2 ^ 31 -> 0 <= inop < 2 ^ 31 ->
  let m := message verb ino n inop np mode in
  (length m < 1024)%nat /\ is_cstr (m ++ replicate (1024 - length m) 0) m.
Proof.
  intros [Hv Fv] Fn Ln Fp Lp Hi Hip m.
  assert (Hl : (length m < 1024)%nat).
  { unfold m, message. rewrite <- (s32_small ino), <- (s32_small inop) by lia.
    apply length_req_text19; try done. unfold mode_text. by destruct (mode =? 0). }
  split; [done|]. apply is_cstr_received; [|done].
  apply req_text_nz; try (by apply fname_nz); [|lia..]. apply fname_nz, mode_text_fname.
Qed.

Lemma verb_CR : verb_ok "CR".
Proof. split; [done|]. split; [done|by repeat constructor]. Qed.

Lemma verb_RM : verb_ok "RM".
Proof. split; [done|]. split; [done|by repeat constructor]. Qed.

(** A remove request on a node at rest takes the link out of the tree and out of
    the table and frees its inode; the directory only loses this entry. *)
Theorem remove_request pointer stack s t addr ino n inop np mode r d i my my_parent ls ls' :
  node_ok s t -> autos_ok stack -> mem s = [] ->
  fname n -> (length n <= 19)%nat -> fname np -> (length np <= 19)%nat ->
  0 <= ino < 2 ^ 31 -> 0 <= inop < 2 ^ 31 ->
  links (g_table (glob s)) = Ok ls -> spec_take ls ino inop = (ls', (my, my_parent)) ->
  dentries s !! r = Some d -> r <> troot t -> d_subdirs d = [] -> users (dentries s) r = 0 ->
  node_inode s r = Some i -> i_ino i = u32 my -> numbered s (u32 my) r ->
  exists s' ir, server_step pointer stack addr (message "RM" ino n inop np mode) s = Ok (Some [], s') /\
    node_ok s' (del r t) /\ links (g_table (glob s')) = Ok ls' /\
    dentries s' !! r = None /\ d_inode d = Some ir /\ inodes s' !! ir = None /\
    (forall x, x <> r -> x <> d_parent d -> dentries s' !! x = dentries s !! x) /\
    (d_subdirs <$> dentries s' !! d_parent d)
      = List.filter (fun x => negb (x =? r)%nat) <$> (d_subdirs <$> dentries s !! d_parent d).
Proof.
  intros Hok Ha Hm Fn Ln Fp Lp Hi Hip Hls Htake Hd Hr Hsub Hu Hni Hino Hnum.
  destruct (message_fits "RM" ino n inop np mode verb_RM Fn Ln Fp Lp Hi Hip) as [Hlen Hbuf].
  destruct verb_RM as [_ Fv].
  destruct (remove_served stack s t _ _ ino n inop np mode r d i my my_parent ls ls' Hok Ha Hbuf Fv)
    as (ir & pd & pir & pi & t' & Hleaf & Hrun & Hok' & Hls' & _); try done;
    [change (length (bytes "RM")) with 2%nat; lia|].
  pose proof Hleaf as [_ _ _ _ Lir _ _ _ _ Lne Lp' _ _ _ _].
  eexists _, ir. split; [eapply server_dispatch; [exact Hlen|done|right; left; split; [done|exact Hrun]]|].
  split; [done|]. split; [done|]. simpl. split; [apply lookup_delete_eq|]. split; [done|].
  split; [apply lookup_delete_eq|]. split.
  - intros x Hxr Hxp. by rewrite lookup_delete_ne, lookup_insert_ne by done.
  - rewrite lookup_delete_ne, lookup_insert_eq by done. by rewrite Lp'.
Qed.

(** ** A link that is made and removed *)

Lemma del_add p r t : r ∉ refs t -> del r (add_child p r t) = t.
Proof.
  induction t as [x ch IH] using tree_rect_all. cbn [refs add_child]. fold (refs_list ch).
  intros [Hx Hch]%not_elem_of_cons. rewrite del_node, List.filter_app.
  assert (E : List.filter (not_root r) (if (x =? p)%nat then [Node r []] else []) = []).
  { destruct (x =? p)%nat; [|done]. cbn [List.filter not_root troot]. unfold not_root. cbn [troot].
    by rewrite Nat.eqb_refl. }
  rewrite E. cbn [app]. f_equal. clear E Hx.
  induction ch as [|c ch IHch]; [done|]. apply Forall_cons_iff in IH as [IHc IH].
  rewrite refs_list_cons, elem_of_app in Hch. cbn [map List.filter]. unfold not_root at 1.
  rewrite troot_add, (proj2 (Nat.eqb_neq _ _)); cycle 1.
  { intros E. apply Hch. left. rewrite <- E. apply refs_root. }
  cbn [negb map]. rewrite IHc, IHch by (try done; tauto). done.
Qed.

(** The children of a dentry of a tree. *)
Lemma rep_child m t : forall q r d x,
  rep m q t -> r ∈ refs t -> m !! r = Some d -> x ∈ d_subdirs d ->
  x ∈ refs_list (tch t) /\ exists xd, m !! x = Some xd /\ d_parent xd = r.
Proof.
  induction t as [y ch IH] using tree_rect_all. intros q r d x Hrep Hr Hd Hx.
  inversion Hrep as [? ? yd Hy _ Hsub Hch]; subst. cbn [refs tch] in *. fold (refs_list ch) in *.
  rewrite List.Forall_forall in IH, Hch. apply elem_of_cons in Hr as [->|Hr].
  - simplify_eq. rewrite Hsub in Hx. apply list_elem_of_In, in_map_iff in Hx as (c & <- & Hc).
    split; [apply (refs_child c ch); [by apply list_elem_of_In|apply refs_root]|].
    destruct (rep_inv _ _ _ (Hch c Hc)) as (cd & Hcd & Hpar & _). eauto.
  - unfold refs_list in Hr. rewrite list_elem_of_In, in_concat in Hr. destruct Hr as (l & Hl & Hrl).
    apply in_map_iff in Hl as (c & <- & Hc).
    destruct (IH c Hc y r d x) as [Hin Hxd]; [by apply Hch|by apply list_elem_of_In|done|done|].
    split; [|done]. apply (refs_child c ch); [by apply list_elem_of_In|]. rewrite refs_unfold. by right.
Qed.

Lemma sub_refs m t q r d : rep m q t -> r ∈ refs t -> m !! r = Some d -> d_subdirs d ⊆ refs t.
Proof.
  intros Hrep Hr Hd x Hx. destruct (rep_child _ _ _ _ _ _ Hrep Hr Hd Hx) as [Hin _].
  rewrite refs_unfold. by right.
Qed.

Lemma node_child s t r d x :
  node_ok s t -> dentries s !! r = Some d -> x ∈ d_subdirs d ->
  exists xd, dentries s !! x = Some xd /\ d_parent xd = r /\ simple_positive xd = true /\ x <> r /\
    x <> troot t.
Proof.
  intros Hok Hd Hx. destruct (node_tree _ _ Hok) as [[Hrep Hnd] _].
  assert (Hr : r ∈ refs t) by (apply (nk_dom _ _ Hok); eauto).
  destruct (rep_child _ _ _ _ _ _ Hrep Hr Hd Hx) as (Hin & xd & Hxd & Hpar).
  assert (Hxt : x <> troot t).
  { intros ->. rewrite refs_unfold in Hnd. by apply list.NoDup_cons in Hnd as [Hn _]. }
  exists xd. split; [done|]. split; [done|]. split; [by apply (node_positive _ _ _ _ Hok Hxd)|].
  split; [|done]. intros ->. by apply (node_parent _ _ _ _ Hok Hxd).
Qed.

Lemma filter_notin (r : nat) l : r ∉ l -> List.filter (fun x => negb (x =? r)%nat) l = l.
Proof.
  induction l as [|x l IH]; [done|]. intros [Hx Hl]%not_elem_of_cons. cbn [List.filter].
  rewrite (proj2 (Nat.eqb_neq x r)) by done. cbn [negb]. by rewrite IH.
Qed.

Lemma drop_add_sub r pd : r ∉ d_subdirs pd -> drop_sub r (add_sub r pd) = pd.
Proof.
  intros H. destruct pd. unfold drop_sub, add_sub, set_d_count, set_d_subdirs in *. simpl in *.
  rewrite Nat.eqb_refl. cbn [negb]. rewrite filter_notin by done. f_equal. lia.
Qed.

(** The numbers of a node after a creation are the old ones and the new one. *)
Lemma created_node_inode s t p pd pir pi n mode t' x xi :
  node_ok s t -> dentries s !! p = Some pd -> d_inode pd = Some pir -> inodes s !! pir = Some pi ->
  node_inode (set_table t' (created p pd pir pi n mode 1 s)) x = Some xi ->
  x = fresh s \/ exists xi0, node_inode s x = Some xi0 /\ i_ino xi0 = i_ino xi.
Proof.
  intros Hok Hp Hpir Hpi (d & ir & Hd & Hir & Hino & Hmode)%node_inode_inv.
  destruct (create_lookup s t p pd pir pi n mode t' Hok Hp Hpi x d Hd) as [[-> ->]|Hx]; [by left|right].
  assert (exists d0, dentries s !! x = Some d0 /\ d_inode d0 = Some ir) as (d0 & Hd0 & Hir0).
  { destruct Hx as [[-> ->]|(_ & _ & Hx)]; eauto. }
  destruct (node_node_inode _ _ _ _ Hok Hd0) as (j & i0 & E1 & E2 & E3 & _). simplify_eq.
  exists i0. split; [done|].
  assert (ir < fresh s)%nat by (apply (nk_ifresh _ _ Hok); eauto).
  simpl in Hino. destruct (decide (ir = pir)) as [->|Hne].
  - rewrite lookup_insert_eq in Hino. by simplify_eq.
  - rewrite !lookup_insert_ne in Hino by lia. by simplify_eq.
Qed.

(** The remove request for a link that was just made undoes the creation. *)
Lemma undo_create stack s t buf v ino n inop np mode p pd pir pi t1 ls ls' :
  let m := mode_value mode in
  let s1 := set_table t1 (created p pd pir pi n (link_mode m) 1 s) in
  node_ok s t -> autos_ok stack -> is_cstr buf (req_text v ino n inop np (mode_text mode)) ->
  fname v -> (length v <= 19)%nat -> link_name n -> fname np -> (length np <= 19)%nat ->
  0 <= ino < 2 ^ 31 -> 0 <= inop < 2 ^ 31 ->
  dentries s !! p = Some pd -> d_inode pd = Some pir -> inodes s !! pir = Some pi ->
  node_ok s1 (add_child p (fresh s) t) -> links t1 = Ok ls' ->
  spec_take ls' ino inop = (ls, (s32 (u32 (last_ino s + 1)), s32 (i_ino pi))) ->
  (forall x i, node_inode s x = Some i -> i_ino i <> u32 (last_ino s + 1)) ->
  exists s2, rdma_remove stack buf s1 = Ok (tt, s2) /\ node_ok s2 t /\
    dentries s2 = dentries s /\ d_hash s2 = d_hash s /\ links (g_table (glob s2)) = Ok ls /\
    inodes s2 = <[pir := after_remove m (now s) pi]> (inodes s).
Proof.
  intros m s1 Hok Ha Hbuf Fv Lv (Fn & _ & Ln) Fp Lp Hi Hip Hp Hpir Hpi Hok1 Hls1 Htake Hnum.
  set (r := fresh s) in *. set (i := inherit pi (link_mode m) (made_inode s (link_mode m))).
  assert (Hpr : (p < r)%nat) by (apply (nk_fresh _ _ Hok), (nk_dom _ _ Hok); eauto).
  assert (Hpirr : (pir < r)%nat) by (apply (nk_ifresh _ _ Hok); eauto).
  assert (Hrt : r ∉ refs t) by (intros H%(nk_fresh _ _ Hok); unfold r in H; lia).
  assert (Hd1 : dentries s1 !! r = Some (mkDentry 1 true (Some (S r)) p n [] true false))
    by (simpl; apply lookup_insert_eq).
  assert (Hi1 : inodes s1 !! S r = Some i)
    by (simpl; rewrite lookup_insert_ne by lia; apply lookup_insert_eq).
  destruct (node_node_inode _ _ _ _ Hok1 Hd1) as (j & i' & E & Hj & Hni & _). simpl in E.
  injection E as <-. rewrite Hi1 in Hj. injection Hj as <-.
  assert (Ei : i_ino i = u32 (s32 (u32 (last_ino s + 1)))).
  { rewrite u32_s32, u32_u32. unfold i, inherit. by destruct (negb _). }
  assert (Hnum1 : numbered s1 (u32 (s32 (u32 (last_ino s + 1)))) r).
  { intros x xi Hx Hxi. rewrite u32_s32, u32_u32 in Hxi.
    destruct (created_node_inode _ _ _ _ _ _ _ _ _ _ _ Hok Hp Hpir Hpi Hx) as [->|(x0 & H0 & E0)];
      [done|]. exfalso. apply (Hnum _ _ H0). congruence. }
  assert (Hroot : r <> troot (add_child p r t)).
  { rewrite troot_add. intros ->. apply Hrt, refs_root. }
  assert (Hu : users (dentries s1) r = 0) by (unfold users; by rewrite Hd1).
  destruct (remove_served stack s1 _ buf v ino n inop np mode r _ i _ _ ls' ls Hok1 Ha Hbuf Fv Lv Fn Ln
    Fp Lp Hi Hip Hls1 Htake Hd1 Hroot eq_refl Hu Hni Ei Hnum1)
    as (ir & pd' & pir' & pi' & t2 & Hleaf & E2 & Hok2 & Hls2 & _).
  pose proof Hleaf as [_ _ _ _ Lir _ _ _ _ _ Lp' _ Lpir Lpi _]. simpl in Lp', Lir, Lpi.
  rewrite lookup_insert_ne, lookup_insert_eq in Lp' by lia. injection Lp' as <-.
  simpl in Lpir. rewrite Hpir in Lpir. injection Lpir as <-. injection Lir as <-.
  rewrite lookup_insert_eq in Lpi. injection Lpi as <-.
  rewrite del_add in Hok2 by done.
  assert (Hrs : r ∉ d_subdirs pd).
  { intros Hin. apply Hrt. destruct (node_tree _ _ Hok) as [[Hrep _] _].
    eapply (sub_refs _ t (troot t) p pd); try done. apply (nk_dom _ _ Hok). eauto. }
  eexists. split; [exact E2|]. split; [done|]. split; [|split; [|split; [done|]]]; simpl.
  - rewrite drop_add_sub by done. apply map_eq. intros x.
    destruct (create_fresh s t p pd pir pi Hok Hp Hpi) as (Hr0 & _).
    repeat first [rewrite lookup_insert | rewrite lookup_delete].
    repeat case_decide; simplify_eq; done.
  - rewrite Nat.eqb_refl. cbn [negb]. apply filter_notin. intros Hin. apply (nk_hash _ _ Hok) in Hin. by destruct Hin.
  - destruct (create_fresh s t p pd pir pi Hok Hp Hpi) as (_ & Hr0 & _). apply map_eq. intros x.
    repeat first [rewrite lookup_insert | rewrite lookup_delete].
    repeat case_decide; simplify_eq; try done; try lia.
Qed.

(** C14: A request to create and the request to remove it again leave the dentries,
    the hash table and the links of the node as they were; of the inodes only
    the directory's differs, by its times and, when the link is a directory, by
    one link count that the creation never took. *)
Theorem link_lifecycle pointer stack s t addr ino n inop np mode p pd pir pi ls ls' :
  node_ok s t -> autos_ok stack -> mem s = [] -> cap_dac_override (cur s) = true ->
  link_name n -> fname np -> (length np <= 19)%nat -> 0 <= ino < 2 ^ 31 -> 0 <= inop < 2 ^ 31 ->
  resolves s np p -> dentries s !! p = Some pd -> d_inode pd = Some pir ->
  inodes s !! pir = Some pi -> S_ISDIR (i_mode pi) = true ->
  d_lookup_in (d_hash s) (dentries s) p n = None ->
  links (g_table (glob s)) = Ok ls ->
  spec_add ls (mkLink (s32 (u32 (last_ino s + 1))) ino (s32 (i_ino pi)) inop) = Some ls' ->
  Forall (fun o => match o with
    | Some k => l_rdma k <> ino \/ l_rdma_parent k <> inop | None => True end) ls ->
  (forall x i, node_inode s x = Some i -> i_ino i <> u32 (last_ino s + 1)) ->
  exists s1 s2,
    server_step pointer stack addr (message "CR" ino n inop np mode) s = Ok (Some [], s1) /\
    node_ok s1 (add_child p (fresh s) t) /\ links (g_table (glob s1)) = Ok ls' /\
    server_step pointer stack addr (message "RM" ino n inop np mode) s1 = Ok (Some [], s2) /\
    node_ok s2 t /\ dentries s2 = dentries s /\ d_hash s2 = d_hash s /\
    links (g_table (glob s2)) = Ok ls /\
    inodes s2 = <[pir := after_remove (mode_value mode) (now s) pi]> (inodes s).
Proof.
  intros Hok Ha Hm Hcap Hn Fp Lp Hi Hip Hres Hp Hpir Hpi Hdir Hmiss Hls Hadd Hfr Hnum.
  pose proof Hn as (Fn & _ & Ln).
  destruct (message_fits "CR" ino n inop np mode verb_CR Fn Ln Fp Lp Hi Hip) as [Hlen Hbuf].
  destruct (message_fits "RM" ino n inop np mode verb_RM Fn Ln Fp Lp Hi Hip) as [Hlen2 Hbuf2].
  destruct verb_CR as [_ Fv]. destruct verb_RM as [_ Fv2].
  destruct (create_served pointer stack s t _ _ ino n inop np mode p pd pir pi (peer_text addr)
    (quad addr) ls ls' Hok Ha Hm Hcap Hbuf Fv) as (s1 & E1 & Hok1 & [t1 Es1] & Hls1); try done;
    [change (length (bytes "CR")) with 2%nat; lia|apply peer_text_cstr|apply length_quad|].
  subst s1. pose proof (spec_add_take _ _ _ Hadd Hfr) as Htake. simpl in Htake.
  destruct (undo_create stack s t _ _ ino n inop np mode p pd pir pi t1 ls ls' Hok Ha Hbuf2 Fv2)
    as (s2 & E2 & Hok2 & Hd2 & Hh2 & Hls2 & Hi2); try done;
    [change (length (bytes "RM")) with 2%nat; lia|].
  eexists _, s2. split; [|split; [exact Hok1|split; [exact Hls1|split; [|done]]]].
  - eapply server_dispatch; [exact Hlen|done|]. left. split; [done|exact E1].
  - eapply server_dispatch; [exact Hlen2|done|]. right. left. split; [done|exact E2].
Qed.
