(* ===== verification/View.v ===== *)
(** * The names of a node

    What a node shows of itself: for each dentry the directory it is in, its name,
    the number of its inode and whether that is a directory.  The operations that make
    and remove entries, as changes of these. *)

From S2P Require Import Prelude KString KScan KFormat Wire Ksocket MapTable Vfs Tree Ops.
From S2P Require Import PageIo Server Umount Node Inv Remove Serve.

Record ent : Type := mkEnt {
  e_parent : nat;
  e_name : list Z;
  e_ino : Z;
  e_dir : bool;
}.

Definition view (s : kstate) (r : nat) : option ent :=
  d ← dentries s !! r; i ← node_inode s r;
  Some (mkEnt (d_parent d) (d_name d) (i_ino i) (S_ISDIR (i_mode i))).

Lemma view_some s r e :
  view s r = Some e <->
  exists d ir i, dentries s !! r = Some d /\ d_inode d = Some ir /\ inodes s !! ir = Some i /\ i_mode i <> 0 /\
    e = mkEnt (d_parent d) (d_name d) (i_ino i) (S_ISDIR (i_mode i)).
Proof.
  unfold view. split.
  - intros (d & Hd & (i & Hi & [= <-])%bind_Some)%bind_Some.
    destruct (node_inode_inv _ _ _ Hi) as (d' & ir & Hd' & Hir & Hino & Hm). simplify_eq. eauto 10.
  - intros (d & ir & i & Hd & Hir & Hi & Hm & ->). unfold node_inode. rewrite Hd. simpl. rewrite Hir. simpl.
    rewrite Hi. simpl. by rewrite (proj2 (Z.eqb_neq _ 0)).
Qed.

Lemma view_none s r : dentries s !! r = None -> view s r = None.
Proof. unfold view. by intros ->. Qed.

Lemma view_dentry s r e :
  view s r = Some e -> exists d, dentries s !! r = Some d /\ d_parent d = e_parent e /\ d_name d = e_name e.
Proof. intros (d & ir & i & Hd & _ & _ & _ & ->)%view_some. eauto. Qed.

Lemma node_view s t r d :
  node_ok s t -> dentries s !! r = Some d ->
  exists i, node_inode s r = Some i /\
    view s r = Some (mkEnt (d_parent d) (d_name d) (i_ino i) (S_ISDIR (i_mode i))).
Proof.
  intros Hok Hd. destruct (node_node_inode _ _ _ _ Hok Hd) as (ir & i & _ & _ & Hni & _).
  exists i. split; [done|]. unfold view. rewrite Hd. simpl. by rewrite Hni.
Qed.

Lemma view_inode s r e :
  view s r = Some e -> exists i, node_inode s r = Some i /\ i_ino i = e_ino e /\ S_ISDIR (i_mode i) = e_dir e.
Proof.
  unfold view. intros (d & Hd & (i & Hi & [= <-])%bind_Some)%bind_Some. eauto.
Qed.

(** Two states show the same of [r] when its dentry and inode agree in what counts. *)
Lemma view_kept s s' t r :
  node_ok s t ->
  (forall d, dentries s !! r = Some d -> exists d', dentries s' !! r = Some d' /\
     d_parent d' = d_parent d /\ d_name d' = d_name d /\ d_inode d' = d_inode d) ->
  (forall d ir i, dentries s !! r = Some d -> d_inode d = Some ir -> inodes s !! ir = Some i ->
     exists i', inodes s' !! ir = Some i' /\ i_ino i' = i_ino i /\ i_mode i' = i_mode i) ->
  (dentries s !! r = None -> dentries s' !! r = None) ->
  view s' r = view s r.
Proof.
  intros Hok Hd Hi Hn. destruct (dentries s !! r) as [d|] eqn:E; [|by rewrite !view_none by auto].
  destruct (Hd d eq_refl) as (d' & Hd' & Ep & En & Ei).
  destruct (nk_inode _ _ Hok _ _ E) as (ir & i & Hir & Hino & _ & Hm & _).
  destruct (Hi d ir i eq_refl Hir Hino) as (i' & Hi' & E1 & E2).
  transitivity (Some (mkEnt (d_parent d) (d_name d) (i_ino i) (S_ISDIR (i_mode i)))); [|symmetry];
    apply view_some; [exists d', ir, i'|by exists d, ir, i]. rewrite Ep, En, E1, E2. split_and!; congruence.
Qed.

(** ** An entry more or less *)

(** The node has one entry more, with the next inode number. *)
Definition grows (s s' : kstate) (r : nat) (e : ent) : Prop :=
  (forall x, view s' x = if decide (x = r) then Some e else view s x) /\
  last_ino s' = u32 (last_ino s + 1).

Definition shrinks (s s' : kstate) (r : nat) : Prop :=
  (forall x, view s' x = if decide (x = r) then None else view s x) /\
  last_ino s' = last_ino s.

Lemma inherit_fmt pi mode i : Z.land (i_mode (inherit pi mode i)) S_IFMT = Z.land (i_mode i) S_IFMT.
Proof.
  unfold inherit. case_match; [|done]. cbn [i_mode set_attr]. case_match; [|done].
  rewrite Z.land_lor_distr_l. change (Z.land S_ISGID S_IFMT) with 0. apply Z.lor_0_r.
Qed.


Lemma created_grows s t p pd pir pi n mode count :
  node_ok s t -> dentries s !! p = Some pd -> inodes s !! pir = Some pi ->
  Z.land mode S_IFMT = S_IFREG \/ Z.land mode S_IFMT = S_IFDIR ->
  grows s (created p pd pir pi n mode count s) (fresh s) (mkEnt p n (u32 (last_ino s + 1)) (S_ISDIR mode)).
Proof.
  intros Hok Hp Hpi Hm. split; [|done]. intros x.
  assert (Hpl : (pir < fresh s)%nat) by (apply (nk_ifresh _ _ Hok); eauto).
  case_decide as Ex; [subst x; apply view_some; simpl|].
  - eexists _, _, (inherit pi mode (made_inode s mode)). rewrite lookup_insert_eq. split; [done|]. split; [done|].
    rewrite lookup_insert_ne, lookup_insert_eq by lia. split; [done|].
    pose proof (inherit_fmt pi mode (made_inode s mode)) as Hf. cbn [i_mode made_inode] in Hf. split.
    + intros E. rewrite E in Hf. change (Z.land 0 S_IFMT) with 0 in Hf. by destruct Hm as [Hm|Hm]; rewrite Hm in Hf.
    + cbn [d_parent d_name]. f_equal; [unfold inherit; by destruct (negb _)|].
      unfold S_ISDIR, ifmt. cbn [i_mode made_inode]. by rewrite Hf.
  - apply (view_kept _ _ t); [done|..]; simpl.
    + intros d Hd. rewrite lookup_insert_ne by done. rewrite lookup_insert. case_decide; simplify_eq; eauto.
    + intros d ir i _ _ Hi. assert ((ir < fresh s)%nat) by (apply (nk_ifresh _ _ Hok); eauto).
      rewrite lookup_insert. case_decide; simplify_eq; [eauto|]. rewrite lookup_insert_ne by lia. eauto.
    + intros Hd. rewrite lookup_insert_ne by done. rewrite lookup_insert_ne; [done|congruence].
Qed.

(** A change of an inode that keeps number and mode shows nothing. *)
Lemma grows_inode s s' r e t ir i i' :
  node_ok s' t -> inodes s' !! ir = Some i -> i_ino i' = i_ino i -> i_mode i' = i_mode i ->
  grows s s' r e -> grows s (with_inodes (<[ir := i']> (inodes s')) s') r e.
Proof.
  intros Hok Hi En Em [Hv Hl]. split; [|done]. intros x. rewrite <- Hv. apply (view_kept _ _ t); simpl; [done|..]; eauto.
  intros d jr j _ _ Hj. rewrite lookup_insert. case_decide; simplify_eq; eauto.
Qed.

Lemma removed_shrinks s t r d ir i p pd pir pi pi' :
  node_ok s t -> leaf s r d ir i p pd pir pi -> i_ino pi' = i_ino pi -> i_mode pi' = i_mode pi ->
  shrinks s (removed r ir p pd pir pi' s) r.
Proof.
  intros Hok [Hr _ _ _ Hir _ Hi _ _ Hne Hp _ Hpir Hpi Hine] En Em. split; [|done]. intros x.
  case_decide as Ex; [subst x; apply view_none; simpl; apply lookup_delete_eq|].
  apply (view_kept _ _ t); [done|..]; simpl.
  - intros y Hy. rewrite lookup_delete_ne, lookup_insert by done. case_decide; simplify_eq; eauto.
  - intros y jr j Hy Hjr Hj. assert (jr <> ir).
    { intros ->. destruct Ex. by eapply (nk_inj _ _ Hok). }
    rewrite lookup_delete_ne, lookup_insert by done. case_decide; simplify_eq; eauto.
  - intros Hy. rewrite lookup_delete_ne by done. rewrite lookup_insert_ne; [done|congruence].
Qed.
