(* ===== verification/Mirror.v ===== *)
(** * Two nodes that show the same tree

    The abstract specification of the cluster: every entry of one node stands for
    one entry of the other, with the same name, the same kind and the same place, and
    the table of the node that does not own it says which.  Making and removing an
    entry on both nodes keeps it so. *)

From S2P Require Import Prelude KString KScan KFormat Wire Ksocket MapTable Vfs Tree Ops.
From S2P Require Import PageIo Server Umount Node Inv Remove Serve View.

(** ** The table as a set of links *)

(** No link is in the table twice. *)
Definition once (ls : list (option link)) : Prop :=
  forall i j l, ls !! i = Some (Some l) -> ls !! j = Some (Some l) -> i = j.

Lemma once_tail o ls : once (o :: ls) -> once ls.
Proof. intros H i j l Hi Hj. by injection (H (S i) (S j) l Hi Hj). Qed.

Lemma once_head l ls : once (Some l :: ls) -> Some l ∉ ls.
Proof. intros H [i Hi]%list_elem_of_lookup. by specialize (H 0%nat (S i) l eq_refl Hi). Qed.

Lemma once_cons o ls : once ls -> (forall l, o = Some l -> Some l ∉ ls) -> once (o :: ls).
Proof.
  intros H Ho [|i] [|j] l Hi Hj; simpl in *; simplify_eq; [done|..].
  - by destruct (Ho l eq_refl); eapply list_elem_of_lookup_2.
  - by destruct (Ho l eq_refl); eapply list_elem_of_lookup_2.
  - f_equal. by eapply H.
Qed.

Lemma spec_add_some ls l : None ∈ ls -> exists ls', spec_add ls l = Some ls'.
Proof.
  induction ls as [|o ls IH]; [by intros H%not_elem_of_nil|].
  intros H. destruct o as [l'|]; simpl; [|eauto]. apply elem_of_cons in H as [|H]; [done|].
  destruct (IH H) as (ls' & ->). simpl. eauto.
Qed.

Lemma spec_add_elem ls l ls' l' :
  spec_add ls l = Some ls' -> Some l' ∈ ls' <-> l' = l \/ Some l' ∈ ls.
Proof.
  revert ls'. induction ls as [|[m|] ls IH]; simpl; [done|..].
  - intros ls' (ls1 & E & ->)%fmap_Some. rewrite !elem_of_cons, (IH _ E). naive_solver.
  - intros ls' [= <-]. rewrite !elem_of_cons. naive_solver.
Qed.

Lemma spec_add_once ls l ls' : spec_add ls l = Some ls' -> once ls -> Some l ∉ ls -> once ls'.
Proof.
  revert ls'. induction ls as [|[m|] ls IH]; simpl; [done|..]; intros ls'.
  - intros (ls1 & E & ->)%fmap_Some Ho Hl. rewrite not_elem_of_cons in Hl. destruct Hl as [Hne Hl].
    apply once_cons; [by eapply IH; [|eapply once_tail|]|].
    intros m' [= <-]. rewrite (spec_add_elem _ _ _ _ E). intros [->|Hm]; [done|]. by apply once_head in Ho.
  - intros [= <-] Ho Hl. rewrite not_elem_of_cons in Hl. apply once_cons; [by eapply once_tail|].
    intros l' [= <-]. apply Hl.
Qed.

(** Taking the only link with these numbers. *)
Lemma spec_take_only ls l :
  Some l ∈ ls -> once ls ->
  (forall l', Some l' ∈ ls -> l_rdma l' = l_rdma l -> l' = l) ->
  exists ls', spec_take ls (l_rdma l) (l_rdma_parent l) = (ls', (l_local l, l_local_parent l)) /\
    once ls' /\ forall l', Some l' ∈ ls' <-> Some l' ∈ ls /\ l' <> l.
Proof.
  induction ls as [|[m|] ls IH]; intros Hl Ho Honly; [by apply not_elem_of_nil in Hl|..]; cbn [spec_take].
  - destruct (decide (m = l)) as [->|Hne].
    + rewrite !Z.eqb_refl. exists (None :: ls). split; [done|].
      split; [apply once_cons; [by eapply once_tail|done]|]. intros l'. rewrite !elem_of_cons.
      pose proof (once_head _ _ Ho). naive_solver.
    + apply elem_of_cons in Hl as [|Hl]; [congruence|].
      destruct (Z.eqb_spec (l_rdma m) (l_rdma l)) as [E|_]; [by rewrite (Honly m) in Hne by (done || left)|].
      destruct (IH Hl (once_tail _ _ Ho)) as (ls' & -> & Ho' & Hin); [intros l' Hl'; apply Honly; by right|].
      cbn [andb]. exists (Some m :: ls'). split; [done|]. split.
      * apply once_cons; [done|]. intros m' [= <-]. rewrite Hin. intros [Hm _]. by apply once_head in Ho.
      * intros l'. rewrite !elem_of_cons, Hin. naive_solver.
  - apply elem_of_cons in Hl as [|Hl]; [done|].
    destruct (IH Hl (once_tail _ _ Ho)) as (ls' & -> & Ho' & Hin); [intros l' Hl'; apply Honly; by right|].
    exists (None :: ls'). split; [done|]. split; [by apply once_cons|].
    intros l'. rewrite !elem_of_cons, Hin. naive_solver.
Qed.

Lemma spec_mine_iff ls n : spec_mine ls n = true <-> forall l, Some l ∈ ls -> u32 (l_local l) <> n.
Proof.
  unfold spec_mine. rewrite negb_true_iff, <- not_true_iff_false, existsb_exists. split.
  - intros H l Hl E. apply H. exists (Some l). split; [by apply list_elem_of_In|]. simpl. by apply Z.eqb_eq.
  - intros H (o & Ho & E). destruct o as [l|]; [|done]. apply list_elem_of_In in Ho. apply (H l Ho). by apply Z.eqb_eq.
Qed.

(** ** The relation *)

(** The number of an entry and the directory it is in. *)
Definition ino (s : kstate) (r : nat) : Z := match view s r with Some e => e_ino e | None => 0 end.
Definition up (s : kstate) (r : nat) : nat := match view s r with Some e => e_parent e | None => r end.

(** What the table of [s'] says of its entry [y], which stands for the entry [x] of
    [s]. *)
Definition link_of (s s' : kstate) (x y : nat) : link :=
  mkLink (ino s' y) (ino s x) (ino s' (up s' y)) (ino s (up s x)).

Record mirror (R : nat -> nat -> Prop) (sA : kstate) (tA : tree) (lsA : list (option link))
    (sB : kstate) (tB : tree) (lsB : list (option link)) : Prop := {
  mi_root : R (troot tA) (troot tB);
  mi_left : forall x, is_Some (view sA x) -> exists y, R x y;
  mi_right : forall y, is_Some (view sB y) -> exists x, R x y;
  mi_fun : forall x y y', R x y -> R x y' -> y = y';
  mi_inj : forall x x' y, R x y -> R x' y -> x = x';
  mi_same : forall x y, R x y -> exists e f, view sA x = Some e /\ view sB y = Some f /\
    e_name e = e_name f /\ e_dir e = e_dir f /\ R (e_parent e) (e_parent f);
  mi_linksA : forall l, Some l ∈ lsA -> exists x y, R x y /\ x <> troot tA /\ l = link_of sB sA y x;
  mi_linksB : forall l, Some l ∈ lsB -> exists x y, R x y /\ x <> troot tA /\ l = link_of sA sB x y;
  mi_owner : forall x y, R x y -> x <> troot tA ->
    (Some (link_of sA sB x y) ∈ lsB /\ spec_mine lsA (ino sA x) = true) \/
    (Some (link_of sB sA y x) ∈ lsA /\ spec_mine lsB (ino sB y) = true);
  mi_onceA : once lsA;
  mi_onceB : once lsB;
}.

(** The numbers of a node: each entry has one of its own, none above the last. *)
Record numbers_ok (s : kstate) : Prop := {
  nm_range : forall r e, view s r = Some e -> 0 <= e_ino e <= last_ino s;
  nm_inj : forall r r' e e', view s r = Some e -> view s r' = Some e' -> e_ino e = e_ino e' -> r = r';
  nm_last : 0 <= last_ino s < 2 ^ 31;
}.

Lemma mirror_roots R sA tA lsA sB tB lsB x y :
  mirror R sA tA lsA sB tB lsB -> R x y -> x <> troot tA <-> y <> troot tB.
Proof.
  intros [Hr _ _ Hf Hi _ _ _ _ _ _] Hxy. split; intros Hne ->; apply Hne.
  - by eapply Hi.
  - by eapply Hf.
Qed.

Lemma mirror_sym R sA tA lsA sB tB lsB :
  mirror R sA tA lsA sB tB lsB -> mirror (fun y x => R x y) sB tB lsB sA tA lsA.
Proof.
  intros Hm. pose proof Hm as [Hr Hl Hri Hf Hi Hs HA HB Ho H1 H2].
  split; try done; [eauto|eauto| | | |].
  - intros x y Hxy. destruct (Hs _ _ Hxy) as (e & f & ? & ? & ? & ? & ?). exists f, e. by split_and!.
  - intros l Hl'. destruct (HB l Hl') as (x & y & Hxy & Hne & ->). exists y, x. split; [done|].
    split; [by apply (mirror_roots _ _ _ _ _ _ _ _ _ Hm Hxy)|done].
  - intros l Hl'. destruct (HA l Hl') as (x & y & Hxy & Hne & ->). exists y, x. split; [done|].
    split; [by apply (mirror_roots _ _ _ _ _ _ _ _ _ Hm Hxy)|done].
  - intros y x Hxy Hne. destruct (Ho x y Hxy); [by apply (mirror_roots _ _ _ _ _ _ _ _ _ Hm Hxy)|tauto..].
Qed.

Lemma ino_view s s' r : view s' r = view s r -> ino s' r = ino s r.
Proof. unfold ino. by intros ->. Qed.

Lemma up_view s s' r : view s' r = view s r -> up s' r = up s r.
Proof. unfold up. by intros ->. Qed.

(** The place of a pair is a pair. *)
Lemma mirror_up R sA tA lsA sB tB lsB x y :
  mirror R sA tA lsA sB tB lsB -> R x y -> R (up sA x) (up sB y).
Proof.
  intros Hm Hxy. destruct (mi_same _ _ _ _ _ _ _ Hm _ _ Hxy) as (e & f & He & Hf & _ & _ & Hp).
  unfold up. by rewrite He, Hf.
Qed.

(** A link says the same when nothing is shown differently of the pair and its
    place. *)
Lemma link_of_same s s' r r' x y :
  view r x = view s x -> view r (up s x) = view s (up s x) ->
  view r' y = view s' y -> view r' (up s' y) = view s' (up s' y) -> link_of r r' x y = link_of s s' x y.
Proof.
  intros H1 H2 H3 H4. unfold link_of. rewrite (up_view _ _ _ H1), (up_view _ _ _ H3).
  by rewrite (ino_view _ _ _ H1), (ino_view _ _ _ H2), (ino_view _ _ _ H3), (ino_view _ _ _ H4).
Qed.

Lemma ino_range s r : numbers_ok s -> 0 <= ino s r <= last_ino s.
Proof.
  intros [Hr _ Hl]. unfold ino. destruct (view s r) as [e|] eqn:E; [by eapply Hr|lia].
Qed.

Lemma ino_inj s r r' :
  numbers_ok s -> is_Some (view s r) -> is_Some (view s r') -> ino s r = ino s r' -> r = r'.
Proof.
  intros Hn [e He] [e' He']. unfold ino. rewrite He, He'. by eapply (nm_inj _ Hn).
Qed.

Lemma mirror_some R sA tA lsA sB tB lsB x y :
  mirror R sA tA lsA sB tB lsB -> R x y -> is_Some (view sA x) /\ is_Some (view sB y).
Proof.
  intros Hm Hxy. destruct (mi_same _ _ _ _ _ _ _ Hm _ _ Hxy) as (e & f & He & Hf & _). eauto.
Qed.

Lemma numbers_grow s s' r p n dir :
  numbers_ok s -> last_ino s + 1 < 2 ^ 31 -> grows s s' r (mkEnt p n (u32 (last_ino s + 1)) dir) ->
  numbers_ok s'.
Proof.
  intros [Hr Hi Hl] Hb [Hv Hn]. rewrite u32_small in Hv, Hn by lia. split.
  - intros x e. rewrite Hv, Hn. case_decide; [intros [= <-]; simpl; lia|]. intros He%Hr. lia.
  - intros x x' e e'. rewrite !Hv. repeat case_decide; subst; [done|..].
    + intros [= <-] He'%Hr; simpl in *; lia.
    + intros He%Hr [= <-]; simpl in *; lia.
    + by apply Hi.
  - lia.
Qed.

Lemma numbers_shrink s s' r : numbers_ok s -> shrinks s s' r -> numbers_ok s'.
Proof.
  intros [Hr Hi Hl] [Hv Hn]. split; [| |by rewrite Hn].
  - intros x e. rewrite Hv, Hn. case_decide; [done|]. by apply Hr.
  - intros x x' e e'. rewrite !Hv. repeat case_decide; try done. by apply Hi.
Qed.

(** ** Making an entry on both nodes *)

Section grow.
Context (R : nat -> nat -> Prop) (sA : kstate) (tA : tree) (lsA : list (option link)).
Context (sB : kstate) (tB : tree) (lsB : list (option link)) (Hm : mirror R sA tA lsA sB tB lsB).
Context (HnA : numbers_ok sA) (HnB : numbers_ok sB).
Context (sA' sB' : kstate) (tA' tB' : tree) (x y q p : nat) (c : list Z) (dir : bool).
Context (HA : grows sA sA' x (mkEnt q c (u32 (last_ino sA + 1)) dir)).
Context (HB : grows sB sB' y (mkEnt p c (u32 (last_ino sB + 1)) dir)).
Context (Hx : view sA x = None) (Hy : view sB y = None) (Hqp : R q p).
Context (HlA : last_ino sA + 1 < 2 ^ 31) (HlB : last_ino sB + 1 < 2 ^ 31).

Definition paired (a b : nat) : Prop := R a b \/ (a = x /\ b = y).

Lemma old_pair a b : R a b -> a <> x /\ b <> y.
Proof using Hm Hx Hy.
  intros Hab. destruct (mirror_some _ _ _ _ _ _ _ _ _ Hm Hab) as [H1 H2].
  split; intros ->; [rewrite Hx in H1|rewrite Hy in H2]; by apply is_Some_None in H1 || apply is_Some_None in H2.
Qed.

Lemma old_view a b : R a b -> view sA' a = view sA a /\ view sB' b = view sB b.
Proof using Hm HA HB Hx Hy.
  intros Hab. destruct (old_pair a b Hab) as [H1 H2]. destruct HA as [HvA _], HB as [HvB _].
  by rewrite HvA, HvB, !decide_False.
Qed.

Lemma old_link a b :
  R a b -> link_of sA' sB' a b = link_of sA sB a b /\ link_of sB' sA' b a = link_of sB sA b a.
Proof using Hm HA HB Hx Hy.
  intros Hab. destruct (old_view a b Hab) as [H1 H2].
  destruct (old_view _ _ (mirror_up _ _ _ _ _ _ _ _ _ Hm Hab)) as [H3 H4].
  split; by apply link_of_same.
Qed.

Lemma new_view :
  view sA' x = Some (mkEnt q c (last_ino sA + 1) dir) /\ view sB' y = Some (mkEnt p c (last_ino sB + 1) dir).
Proof using HA HB HlA HlB HnA HnB.
  destruct HA as [HvA _], HB as [HvB _]. destruct HnA as [_ _ ?], HnB as [_ _ ?].
  rewrite HvA, HvB, !decide_True, !u32_small by (done || lia). done.
Qed.

Lemma new_link :
  link_of sA' sB' x y = mkLink (last_ino sB + 1) (last_ino sA + 1) (ino sB p) (ino sA q).
Proof using Hm HA HB Hx Hy Hqp HlA HlB HnA HnB.
  destruct new_view as [H1 H2]. destruct (old_view q p Hqp) as [H3 H4]. unfold link_of.
  assert (up sA' x = q /\ up sB' y = p) as [-> ->] by (unfold up; by rewrite H1, H2).
  rewrite (ino_view _ _ _ H3), (ino_view _ _ _ H4). unfold ino at 1 2. by rewrite H1, H2.
Qed.

(** The links of a node carry numbers it has given. *)
Lemma link_local_old l : Some l ∈ lsB -> 0 <= l_local l <= last_ino sB.
Proof using Hm HnB.
  intros (a & b & _ & _ & ->)%(mi_linksB _ _ _ _ _ _ _ Hm). simpl. by apply ino_range.
Qed.

Lemma link_local_oldA l : Some l ∈ lsA -> 0 <= l_local l <= last_ino sA.
Proof using Hm HnA.
  intros (a & b & _ & _ & ->)%(mi_linksA _ _ _ _ _ _ _ Hm). simpl. by apply ino_range.
Qed.

Context (lsB' : list (option link)).
Context (Hadd : spec_add lsB (mkLink (last_ino sB + 1) (last_ino sA + 1) (ino sB p) (ino sA q)) = Some lsB').

Lemma grown_owner a b :
  paired a b -> a <> troot tA ->
  (Some (link_of sA' sB' a b) ∈ lsB' /\ spec_mine lsA (ino sA' a) = true) \/
  (Some (link_of sB' sA' b a) ∈ lsA /\ spec_mine lsB' (ino sB' b) = true).
Proof using Hm HA HB Hx Hy Hqp HlA HlB HnA HnB Hadd.
  destruct HnA as [_ _ ?], HnB as [_ _ ?].
  intros [Hab|[-> ->]] Hne.
  - destruct (old_view a b Hab) as [H1 H2]. destruct (old_link a b Hab) as [-> ->].
    rewrite (ino_view _ _ _ H1), (ino_view _ _ _ H2).
    destruct (mi_owner _ _ _ _ _ _ _ Hm a b Hab Hne) as [[Hl Hmine]|[Hl Hmine]]; [left|right]; split; try done.
    + rewrite (spec_add_elem _ _ _ _ Hadd). by right.
    + rewrite spec_mine_iff in Hmine |- *. intros l. rewrite (spec_add_elem _ _ _ _ Hadd).
      intros [->|Hl']; [|by apply Hmine]. simpl. pose proof (ino_range sB b HnB). rewrite u32_small by lia. lia.
  - left. rewrite new_link. split; [rewrite (spec_add_elem _ _ _ _ Hadd); by left|].
    apply spec_mine_iff. intros l Hl. pose proof (link_local_oldA l Hl). rewrite u32_small by lia.
    destruct new_view as [H1 _]. unfold ino. rewrite H1. simpl. lia.
Qed.

Context (EtA : troot tA' = troot tA) (EtB : troot tB' = troot tB).

Lemma mirror_grows : mirror paired sA' tA' lsA sB' tB' lsB'.
Proof using Hm HA HB Hx Hy Hqp HlA HlB HnA HnB Hadd EtA EtB.
  destruct new_view as [HxA HyB]. pose proof (mi_root _ _ _ _ _ _ _ Hm) as Hroot.
  destruct (old_pair _ _ Hroot) as [Hxr _].
  split; rewrite ?EtA, ?EtB.
  - by left.
  - intros a. destruct HA as [HvA _]. rewrite HvA. case_decide; [exists y; by right|].
    intros (b & Hb)%(mi_left _ _ _ _ _ _ _ Hm). exists b. by left.
  - intros b. destruct HB as [HvB _]. rewrite HvB. case_decide; [exists x; by right|].
    intros (a & Ha)%(mi_right _ _ _ _ _ _ _ Hm). exists a. by left.
  - intros a b b' [Hab|[-> ->]] [Hab'|[E ->]]; try done; [by eapply (mi_fun _ _ _ _ _ _ _ Hm)|..].
    + subst. by destruct (old_pair _ _ Hab).
    + by destruct (old_pair _ _ Hab').
  - intros a a' b [Hab|[-> ->]] [Hab'|[-> E]]; try done; [by eapply (mi_inj _ _ _ _ _ _ _ Hm)|..].
    + subst. by destruct (old_pair _ _ Hab).
    + by destruct (old_pair _ _ Hab').
  - intros a b [Hab|[-> ->]].
    + destruct (old_view _ _ Hab) as [-> ->].
      destruct (mi_same _ _ _ _ _ _ _ Hm _ _ Hab) as (e & f & ? & ? & ? & ? & ?).
      exists e, f. split_and!; try done. by left.
    + eexists _, _. split; [exact HxA|]. split; [exact HyB|]. split_and!; try done. by left.
  - intros l (a & b & Hab & Hne & ->)%(mi_linksA _ _ _ _ _ _ _ Hm). exists a, b.
    destruct (old_link a b Hab) as [_ ->]. split; [by left|done].
  - intros l [->|Hl]%(spec_add_elem _ _ _ _ Hadd).
    + exists x, y. rewrite new_link. split; [by right|done].
    + destruct (mi_linksB _ _ _ _ _ _ _ Hm l Hl) as (a & b & Hab & Hne & ->). exists a, b.
      destruct (old_link a b Hab) as [-> _]. split; [by left|done].
  - apply grown_owner.
  - apply (mi_onceA _ _ _ _ _ _ _ Hm).
  - eapply spec_add_once; [exact Hadd|apply (mi_onceB _ _ _ _ _ _ _ Hm)|].
    intros Hl%link_local_old. simpl in Hl. lia.
Qed.
End grow.

(** ** Removing an entry from both nodes *)

Section shrink.
Context (R : nat -> nat -> Prop) (sA : kstate) (tA : tree) (lsA : list (option link)).
Context (sB : kstate) (tB : tree) (lsB : list (option link)) (Hm : mirror R sA tA lsA sB tB lsB).
Context (HnA : numbers_ok sA) (HnB : numbers_ok sB).
Context (sA' sB' : kstate) (tA' tB' : tree) (x y : nat) (Hxy : R x y) (Hne : x <> troot tA).
Context (HA : shrinks sA sA' x) (HB : shrinks sB sB' y).
Context (Hleaf : forall a e, view sA a = Some e -> e_parent e <> x).
Context (Hlink : Some (link_of sA sB x y) ∈ lsB) (EtA : troot tA' = troot tA) (EtB : troot tB' = troot tB).

(** The link is the only one with its number. *)
Lemma only_link l : Some l ∈ lsB -> l_rdma l = l_rdma (link_of sA sB x y) -> l = link_of sA sB x y.
Proof using Hm HnA Hxy.
  intros (a & b & Hab & _ & ->)%(mi_linksB _ _ _ _ _ _ _ Hm). simpl. intros E.
  destruct (mirror_some _ _ _ _ _ _ _ _ _ Hm Hab) as [Ha _].
  destruct (mirror_some _ _ _ _ _ _ _ _ _ Hm Hxy) as [Hx _].
  assert (a = x) as -> by (by apply (ino_inj sA)).
  by rewrite (mi_fun _ _ _ _ _ _ _ Hm x b y).
Qed.

Lemma take_link :
  exists lsB', spec_take lsB (ino sA x) (ino sA (up sA x)) = (lsB', (ino sB y, ino sB (up sB y))) /\
    once lsB' /\ forall l, Some l ∈ lsB' <-> Some l ∈ lsB /\ l <> link_of sA sB x y.
Proof using Hm HnA Hxy Hlink.
  apply (spec_take_only lsB (link_of sA sB x y)); [done|apply (mi_onceB _ _ _ _ _ _ _ Hm)|apply only_link].
Qed.

Definition unpaired (a b : nat) : Prop := R a b /\ a <> x.

Lemma kept_pair a b : unpaired a b -> R a b /\ a <> x /\ b <> y.
Proof using Hm Hxy.
  intros [Hab Ha]. split_and!; try done. intros ->. apply Ha. by eapply (mi_inj _ _ _ _ _ _ _ Hm).
Qed.

Lemma kept_view a b : unpaired a b -> view sA' a = view sA a /\ view sB' b = view sB b.
Proof using Hm Hxy HA HB.
  intros (_ & H1 & H2)%kept_pair. destruct HA as [HvA _], HB as [HvB _]. by rewrite HvA, HvB, !decide_False.
Qed.

Lemma kept_up a b : unpaired a b -> unpaired (up sA a) (up sB b).
Proof using Hm Hleaf.
  intros [Hab Ha]. split; [by eapply mirror_up|].
  destruct (mi_same _ _ _ _ _ _ _ Hm _ _ Hab) as (e & f & He & _). unfold up. rewrite He. by eapply Hleaf.
Qed.

Lemma kept_link a b :
  unpaired a b -> link_of sA' sB' a b = link_of sA sB a b /\ link_of sB' sA' b a = link_of sB sA b a.
Proof using Hm Hxy HA HB Hleaf.
  intros Hab. destruct (kept_view a b Hab) as [H1 H2]. destruct (kept_view _ _ (kept_up a b Hab)) as [H3 H4].
  split; by apply link_of_same.
Qed.

(** Another pair has another link. *)
Lemma kept_other a b : unpaired a b -> link_of sA sB a b <> link_of sA sB x y.
Proof using Hm HnA Hxy.
  intros [Hab Ha]. intros [= _ E _ _]. destruct (mirror_some _ _ _ _ _ _ _ _ _ Hm Hab) as [H1 _].
  destruct (mirror_some _ _ _ _ _ _ _ _ _ Hm Hxy) as [H2 _]. by apply Ha, (ino_inj sA).
Qed.

(** The entry is not a link of its own node: nothing of the table goes there. *)
Lemma not_mine_here :
  spec_mine lsA (ino sA x) = true -> forall a b, R a b -> Some (link_of sB sA b a) ∈ lsA -> a <> x.
Proof using HnA.
  intros Hmine a b Hab Hl ->. rewrite spec_mine_iff in Hmine. apply (Hmine _ Hl). simpl.
  pose proof (ino_range sA x HnA). pose proof (nm_last _ HnA). clear Hne EtA EtB. apply u32_small. lia.
Qed.

Context (Hmine : spec_mine lsA (ino sA x) = true) (lsB' : list (option link)).
Context (Honce : once lsB') (HlsB : forall l, Some l ∈ lsB' <-> Some l ∈ lsB /\ l <> link_of sA sB x y).

Lemma mirror_shrinks : mirror unpaired sA' tA' lsA sB' tB' lsB'.
Proof using Hm HnA HnB Hxy Hne HA HB Hleaf EtA EtB Hmine Honce HlsB.
  pose proof (mi_root _ _ _ _ _ _ _ Hm) as Hroot. split; rewrite ?EtA, ?EtB.
  - by split.
  - intros a. destruct HA as [HvA _]. rewrite HvA. case_decide; [by intros []%is_Some_None|].
    intros (b & Hb)%(mi_left _ _ _ _ _ _ _ Hm). by exists b.
  - intros b. destruct HB as [HvB _]. rewrite HvB. case_decide as E; [by intros []%is_Some_None|].
    intros (a & Ha)%(mi_right _ _ _ _ _ _ _ Hm). exists a. split; [done|]. intros ->. apply E.
    by eapply (mi_fun _ _ _ _ _ _ _ Hm).
  - intros a b b' [H1 _] [H2 _]. by eapply (mi_fun _ _ _ _ _ _ _ Hm).
  - intros a a' b [H1 _] [H2 _]. by eapply (mi_inj _ _ _ _ _ _ _ Hm).
  - intros a b Hab. destruct (kept_view a b Hab) as [-> ->]. pose proof (kept_up a b Hab) as Hup.
    destruct Hab as [Hab _]. destruct (mi_same _ _ _ _ _ _ _ Hm _ _ Hab) as (e & f & He & Hf & ? & ? & ?).
    exists e, f. unfold up in Hup. rewrite He, Hf in Hup. done.
  - intros l Hl. destruct (mi_linksA _ _ _ _ _ _ _ Hm l Hl) as (a & b & Hab & Hn & ->). exists a, b.
    assert (Hu : unpaired a b) by (split; [done|by eapply not_mine_here]).
    split; [done|]. by destruct (kept_link a b Hu) as [_ ->].
  - intros l [Hl Hd]%HlsB. destruct (mi_linksB _ _ _ _ _ _ _ Hm l Hl) as (a & b & Hab & Hn & ->). exists a, b.
    assert (Hu : unpaired a b).
    { split; [done|]. intros ->. by rewrite (mi_fun _ _ _ _ _ _ _ Hm x b y) in Hd. }
    split; [done|]. by destruct (kept_link a b Hu) as [-> _].
  - intros a b Hu Hn. destruct (kept_view a b Hu) as [H1 H2]. destruct (kept_link a b Hu) as [-> ->].
    rewrite (ino_view _ _ _ H1), (ino_view _ _ _ H2).
    destruct (mi_owner _ _ _ _ _ _ _ Hm a b) as [[Hl Hmi]|[Hl Hmi]]; [apply Hu|done|left|right]; split; try done.
    + apply HlsB. split; [done|]. by apply kept_other.
    + rewrite spec_mine_iff in Hmi |- *. intros l [Hl' _]%HlsB. by apply Hmi.
  - apply (mi_onceA _ _ _ _ _ _ _ Hm).
  - done.
Qed.
End shrink.

(** Only what the nodes show counts. *)
Lemma mirror_ext R sA tA lsA sB tB lsB sA' :
  mirror R sA tA lsA sB tB lsB -> (forall x, view sA' x = view sA x) -> mirror R sA' tA lsA sB tB lsB.
Proof.
  intros Hm Hv. pose proof Hm as [Hr Hl Hri Hf Hi Hs HA HB Ho H1 H2].
  assert (Hlk : forall x y, link_of sA' sB x y = link_of sA sB x y /\ link_of sB sA' y x = link_of sB sA y x).
  { intros x y. split; apply link_of_same; auto. }
  split; try done.
  - intros x. rewrite Hv. apply Hl.
  - intros x y Hxy. rewrite Hv. by apply Hs.
  - intros l (x & y & Hxy & Hn & ->)%HA. exists x, y. by destruct (Hlk x y) as [_ ->].
  - intros l (x & y & Hxy & Hn & ->)%HB. exists x, y. by destruct (Hlk x y) as [-> _].
  - intros x y Hxy Hn. destruct (Hlk x y) as [-> ->]. rewrite (ino_view _ _ _ (Hv x)). by apply Ho.
Qed.
