(* ===== verification/Contents.v ===== *)
(** * What files contain

    put_file_message and get_file_message against the abstract contents of a
    file, and the read and write requests that use them. *)

From S2P Require Import Prelude KString KScan KFormat Wire Ksocket MapTable Vfs Tree Ops.
From S2P Require Import PageIo Server Umount Node Inv Remove Serve.

(** ** The contents of a small file *)

(** A file of at most one page: the page is there when there are bytes. *)
Record file_ok (i : inode) : Prop := {
  fl_size : 0 <= i_size i <= PAGE_CACHE_SIZE;
  fl_page : forall p, i_pages i !! 0%nat = Some p -> length p = 4096%nat;
  fl_there : i_pages i !! 0%nat = None -> i_size i = 0;
}.

Definition contents (i : inode) : list Z :=
  take (Z.to_nat (i_size i)) (default [] (i_pages i !! 0%nat)).

Lemma length_contents i : file_ok i -> length (contents i) = Z.to_nat (i_size i).
Proof.
  intros [Hs Hp Ht]. unfold contents. rewrite length_take.
  destruct (i_pages i !! 0%nat) as [p|] eqn:E; cbn [default from_option id].
  - rewrite (Hp p) by done. unfold PAGE_CACHE_SIZE in Hs. lia.
  - rewrite Ht by done. done.
Qed.

(** ** Writing *)

(** The page after the first [length m] bytes were written. *)
Definition written_page (fresh_page : block) (i : inode) (m : list Z) : block :=
  match i_pages i !! 0%nat with
  | Some p => splice p 0 m
  | None => m ++ replicate (4096 - length m) 0
  end.

Definition written (fresh_page : block) (m : list Z) (i : inode) : inode :=
  set_data (Z.max (i_size i) (Z.of_nat (length m)))
    (<[0%nat := written_page fresh_page i m]> (i_pages i)) i.

Lemma written_page_length fp i m :
  file_ok i -> (length m <= 4096)%nat -> length (written_page fp i m) = 4096%nat.
Proof.
  intros [_ Hp _] Hm. unfold written_page. destruct (i_pages i !! 0%nat) as [p|].
  - rewrite length_splice; [by apply Hp|]. rewrite (Hp p) by done. lia.
  - rewrite length_app, length_replicate. lia.
Qed.

Lemma written_ok fp i m : file_ok i -> (length m <= 4096)%nat -> file_ok (written fp m i).
Proof.
  intros Hi Hm. pose proof (fl_size _ Hi) as Hs. unfold PAGE_CACHE_SIZE in Hs. split; simpl.
  - unfold PAGE_CACHE_SIZE. lia.
  - rewrite lookup_insert_eq. intros p [= <-]. by apply written_page_length.
  - by rewrite lookup_insert_eq.
Qed.

(** A write replaces the start and keeps the rest: nothing is cut off. *)
Lemma contents_written fp i m :
  file_ok i -> (length m <= 4096)%nat ->
  contents (written fp m i) = m ++ drop (length m) (contents i).
Proof.
  intros Hi Hm. pose proof (fl_size _ Hi) as Hs. unfold PAGE_CACHE_SIZE in Hs.
  unfold contents, written. simpl. rewrite lookup_insert_eq. cbn [default from_option id].
  unfold written_page. destruct (i_pages i !! 0%nat) as [p|] eqn:E; cbn [default from_option id].
  - pose proof (fl_page _ Hi p E) as Hp. unfold splice. rewrite take_0. cbn [app].
    rewrite take_app, take_ge by lia. f_equal. rewrite Nat.add_0_l, skipn_firstn_comm. f_equal. lia.
  - rewrite (fl_there _ Hi E). change (Z.to_nat 0) with 0%nat. rewrite take_0, drop_nil, app_nil_r.
    replace (Z.to_nat (Z.max 0 (Z.of_nat (length m)))) with (length m) by lia.
    by rewrite take_app_length.
Qed.

(** The page simple_write_begin hands out: the cached one, or a new one zeroed
    behind the range. *)
Definition begun_page (fresh_page : block) (i : inode) (n : nat) : block :=
  match i_pages i !! 0%nat with
  | Some p => p
  | None => if (n =? 4096)%nat then fresh_page else splice fresh_page n (replicate (4096 - n) 0)
  end.

Lemma begun_page_length fp i n :
  file_ok i -> length fp = 4096%nat -> (n <= 4096)%nat -> length (begun_page fp i n) = 4096%nat.
Proof.
  intros Hf Hfp Hn. unfold begun_page. destruct (i_pages i !! 0%nat) eqn:E; [by apply (fl_page _ Hf)|].
  destruct (n =? 4096)%nat; [done|]. rewrite length_splice; [done|]. rewrite length_replicate. lia.
Qed.

Lemma begun_written fp i m :
  length fp = 4096%nat -> (length m <= 4096)%nat ->
  splice (begun_page fp i (length m)) 0 m = written_page fp i m.
Proof.
  intros Hfp Hl. unfold begun_page, written_page. destruct (i_pages i !! 0%nat); [done|].
  destruct (Nat.eqb_spec (length m) 4096) as [E'|E'].
  - rewrite E'. unfold splice. rewrite take_0, Nat.add_0_l, drop_ge by lia. done.
  - unfold splice at 1. rewrite take_0, Nat.add_0_l. cbn [app]. f_equal.
    rewrite drop_splice by (rewrite length_replicate; lia). rewrite length_replicate.
    rewrite drop_ge by lia. by rewrite app_nil_r.
Qed.

Lemma write_begin_ok fp ir i n s :
  inodes s !! ir = Some i -> mem s = [] -> length fp = 4096%nat -> (n <= 4096)%nat ->
  simple_write_begin ir 0 (Z.of_nat n) fp s = Ok ((0, Some (begun_page fp i n)), s).
Proof.
  intros Hi Hmem Hfp Hn. unfold simple_write_begin, grab_cache_page.
  change (Z.to_nat (u32 (Z.shiftr 0 PAGE_CACHE_SHIFT))) with 0%nat.
  change (Z.land 0 (PAGE_CACHE_SIZE - 1)) with 0. rewrite Z.add_0_l, Z.sub_0_r.
  rewrite !(u32_small (Z.of_nat n)) by lia.
  unfold begun_page. destruct (i_pages i !! 0%nat) as [p|] eqn:E.
  - erewrite M_bind_ok; [|erewrite M_bind_ok by (by apply get_inode_ok); by rewrite E].
    cbn iota beta. cbn [negb andb]. by erewrite M_bind_ok by reflexivity.
  - erewrite M_bind_ok; [|erewrite M_bind_ok by (by apply get_inode_ok); rewrite E;
      erewrite M_bind_ok by (by apply alloc_ok); reflexivity].
    cbn iota beta. cbn [negb andb]. change (Z.to_nat 0) with 0%nat.
    destruct (Nat.eqb_spec n 4096) as [->|E'].
    + change (Z.of_nat 4096 =? PAGE_CACHE_SIZE) with true. cbn [negb].
      by erewrite M_bind_ok by reflexivity.
    + rewrite (proj2 (Z.eqb_neq _ _)) by (unfold PAGE_CACHE_SIZE; lia). cbn [negb].
      erewrite M_bind_ok; [reflexivity|]. erewrite M_bind_ok by reflexivity.
      unfold lift. rewrite Nat2Z.id, memset_spec by (unfold PAGE_CACHE_SIZE; lia).
      do 4 f_equal. unfold PAGE_CACHE_SIZE. lia.
Qed.

Lemma put_ok stack r d ir i message m s :
  dentries s !! r = Some d -> d_inode d = Some ir -> inodes s !! ir = Some i -> file_ok i ->
  mem s = [] -> length (a_page stack) = 4096%nat -> is_cstr message m -> (length m <= 4096)%nat ->
  put_file_message stack r message s
  = Ok (0, with_inodes (<[ir := written (a_page stack) m i]> (inodes s)) s).
Proof.
  intros Hd Hir Hi Hf Hmem Hpage Hm Hl. unfold put_file_message.
  erewrite M_bind_ok by (by apply get_dentry_ok). rewrite Hir. erewrite M_bind_ok by reflexivity.
  erewrite M_bind_ok by (unfold lift; by rewrite (strlen_spec _ _ Hm)).
  erewrite M_bind_ok by (by apply write_begin_ok). cbn iota beta.
  pose proof (begun_page_length _ i (length m) Hf Hpage Hl) as Hb.
  assert (Hcopy : memcpy (begun_page (a_page stack) i (length m)) 0 message
                    (Z.to_nat (Z.of_nat (length m))) = Ok (written_page (a_page stack) i m)).
  { rewrite <- begun_written, Nat2Z.id by done. destruct Hm as [_ [rest ->]]. apply memcpy_spec. lia. }
  erewrite M_bind_ok by (unfold lift; by rewrite Hcopy).
  unfold simple_write_end. rewrite Z.ltb_irrefl. erewrite M_bind_ok; [reflexivity|].
  erewrite M_bind_ok by reflexivity.
  erewrite M_bind_ok by (by apply upd_inode_ok). unfold mret, M_ret. do 3 f_equal.
  unfold written. do 2 f_equal.
  change (Z.to_nat (u32 (Z.shiftr 0 PAGE_CACHE_SHIFT))) with 0%nat.
  change (Z.land 0 (PAGE_CACHE_SIZE - 1)) with 0. simpl Z.of_nat.
  rewrite Z.mul_0_l, !Z.add_0_l. destruct (Z.ltb_spec (i_size i) (Z.of_nat (length m))); lia.
Qed.

(** ** Reading *)

(** The bytes behind the contents in [char buf[1024]] of get_file_message. *)
Definition junk_after (stack : autos) (i : inode) : list Z := drop (length (contents i)) (a_buf stack).

(** The text in front of the first NUL, if there is one. *)
Fixpoint up_to_nul (l : list Z) : option (list Z) :=
  match l with
  | [] => None
  | c :: l => if c =? 0 then Some [] else cons c <$> up_to_nul l
  end.

Lemma up_to_nul_app t l : Forall (fun c => c <> 0) t -> up_to_nul (t ++ l) = app t <$> up_to_nul l.
Proof.
  induction 1 as [|c t Hc _ IH]; [cbn; by destruct (up_to_nul l)|]. cbn [app up_to_nul].
  rewrite (proj2 (Z.eqb_neq c 0)) by done. rewrite IH. by destruct (up_to_nul l).
Qed.

Lemma up_to_nul_cstr l c : up_to_nul l = Some c <-> is_cstr l c.
Proof.
  split.
  - revert c. induction l as [|x l IH]; intros c; [done|]. cbn [up_to_nul].
    destruct (Z.eqb_spec x 0) as [->|Hx]; [intros [= <-]; split; [done|by exists l]|].
    destruct (up_to_nul l) as [c'|]; [|done]. intros [= <-]. destruct (IH c' eq_refl) as [Hc' [r ->]].
    split; [by constructor|by exists r].
  - intros [Hc [r ->]]. rewrite up_to_nul_app by done. change (Some (c ++ []) = Some c). by rewrite app_nil_r.
Qed.

Lemma strlen_runs_on l : up_to_nul l = None -> strlen l = Fault OutOfBounds.
Proof.
  induction l as [|c l IH]; [done|]. cbn [up_to_nul strlen]. destruct (c =? 0); [done|].
  destruct (up_to_nul l); [done|]. intros _. by rewrite IH.
Qed.

(** get_file_message terminates nothing: the string it hands out runs on into
    whatever the array held. *)
Lemma get_copied stack r d ir i message s :
  dentries s !! r = Some d -> d_inode d = Some ir -> inodes s !! ir = Some i -> file_ok i ->
  0 < i_size i <= 1024 -> length (a_buf stack) = 1024%nat ->
  let buf := contents i ++ junk_after stack i in
  get_file_message stack r message s = (_ ← lift (strlen buf); lift (strcpy message 0 buf)) s.
Proof.
  intros Hd Hir Hi Hf Hsize Hbuf buf. unfold get_file_message.
  erewrite M_bind_ok by (by apply get_dentry_ok). rewrite Hir. erewrite M_bind_ok by reflexivity.
  erewrite M_bind_ok by (by apply get_inode_ok).
  rewrite (proj2 (Z.eqb_neq _ 0)) by lia.
  assert (Eend : Z.shiftr (i_size i - 1) PAGE_CACHE_SHIFT = 0).
  { unfold PAGE_CACHE_SHIFT. rewrite Z.shiftr_div_pow2 by lia. apply Z.div_small. lia. }
  rewrite Eend. change (u32 0 =? 0) with true. cbn iota.
  assert (Enr : Z.land (i_size i - 1) (PAGE_CACHE_SIZE - 1) + 1 = i_size i).
  { change (PAGE_CACHE_SIZE - 1) with (Z.ones 12). rewrite Z.land_ones, Z.mod_small by lia. lia. }
  rewrite Enr. pose proof (length_contents i Hf) as Hlc. unfold buf, junk_after, contents in *.
  destruct (i_pages i !! 0%nat) as [p|] eqn:E; cbn [default from_option id] in *;
    [|pose proof (fl_there _ Hf E); lia].
  set (n := Z.to_nat (i_size i)) in *.
  assert (Hcopy : memcpy (a_buf stack) 0 p n = Ok (splice (a_buf stack) 0 (take n p))).
  { rewrite <- (take_drop n p) at 1. rewrite <- Hlc at 3. apply memcpy_spec. lia. }
  erewrite M_bind_ok by (unfold lift; by rewrite Hcopy). unfold splice. by rewrite take_0, Nat.add_0_l.
Qed.

(** The array has 1024 bytes, so the text is shorter. *)
Lemma cstr_in_array stack i c :
  autos_ok stack -> file_ok i -> 0 < i_size i <= 1024 ->
  is_cstr (contents i ++ junk_after stack i) c -> (length c < 1024)%nat.
Proof.
  intros (A1 & _) Hf Hsz [_ [r Hc]]. apply (f_equal length) in Hc. unfold junk_after in Hc.
  rewrite !length_app, length_drop, length_contents, A1 in Hc by done. simpl in Hc. lia.
Qed.

Lemma get_ok stack r d ir i message c s :
  dentries s !! r = Some d -> d_inode d = Some ir -> inodes s !! ir = Some i -> file_ok i ->
  0 < i_size i <= 1024 -> length (a_buf stack) = 1024%nat ->
  is_cstr (contents i ++ junk_after stack i) c -> (length c < length message)%nat ->
  get_file_message stack r message s = Ok (splice message 0 (c ++ [0]), s).
Proof.
  intros Hd Hir Hi Hf Hsize Hbuf Hc Hl. rewrite (get_copied stack r d ir i) by done.
  erewrite M_bind_ok by (unfold lift; by rewrite (strlen_spec _ _ Hc)).
  unfold lift. by rewrite (strcpy_ok _ _ _ c) by (done || lia).
Qed.

(** Without a NUL in the array strlen reads past its end. *)
Lemma get_runs_on stack r d ir i message s :
  dentries s !! r = Some d -> d_inode d = Some ir -> inodes s !! ir = Some i -> file_ok i ->
  0 < i_size i <= 1024 -> length (a_buf stack) = 1024%nat ->
  up_to_nul (contents i ++ junk_after stack i) = None ->
  get_file_message stack r message s = Fault OutOfBounds.
Proof.
  intros Hd Hir Hi Hf Hsize Hbuf Hn. rewrite (get_copied stack r d ir i) by done.
  apply M_bind_fault. unfold lift. by rewrite strlen_runs_on.
Qed.

(** ** Writing and reading back *)

(** What put_file_message writes is what the file then contains, over the start
    of the old contents, and what get_file_message reads back, followed by the
    rest of the file and by whatever lies behind it in the reader's array. *)
Theorem put_get_roundtrip stack r d ir i message m out c s :
  dentries s !! r = Some d -> d_inode d = Some ir -> inodes s !! ir = Some i -> file_ok i ->
  mem s = [] -> autos_ok stack -> is_cstr message m -> m <> [] -> (length m <= 1024)%nat ->
  i_size i <= 1024 ->
  let all := m ++ drop (length m) (contents i) in
  is_cstr (all ++ drop (length all) (a_buf stack)) c -> (length c < length out)%nat ->
  exists s' i', put_file_message stack r message s = Ok (0, s') /\
    inodes s' = <[ir := i']> (inodes s) /\ dentries s' = dentries s /\
    file_ok i' /\ contents i' = all /\
    get_file_message stack r out s' = Ok (splice out 0 (c ++ [0]), s') /\ take (length m) c = m.
Proof.
  intros Hd Hir Hi Hf Hmem (A1 & _ & _ & _ & _ & A6) Hm Hne Hl Hsize all Hc Hlc.
  pose proof (written_ok (a_page stack) i m Hf ltac:(lia)) as Hf'.
  pose proof (contents_written (a_page stack) i m Hf ltac:(lia)) as Ec.
  assert (Hpos : (0 < length m)%nat) by (destruct m; [done|simpl; lia]).
  eexists _, (written (a_page stack) m i). split; [by eapply put_ok; try done; lia|].
  split; [done|]. split; [done|]. split; [done|]. split; [done|]. split.
  - eapply get_ok; try done.
    + simpl. apply lookup_insert_eq.
    + simpl. lia.
    + unfold junk_after. by rewrite Ec.
  - unfold all in Hc. rewrite <- app_assoc in Hc.
    destruct (is_cstr_prefix m _ c (proj1 Hm) Hc) as (c' & -> & _). by rewrite take_app_length.
Qed.

Lemma memcpy_overflow dest off src n :
  (off <= length dest)%nat -> (length dest < off + n)%nat -> (n <= length src)%nat ->
  memcpy dest off src n = Fault OutOfBounds.
Proof.
  revert dest off src. induction n as [|n IH]; intros dest off src Ho Hn Hs; [lia|].
  destruct src as [|c src]; [simpl in Hs; lia|]. cbn [memcpy].
  destruct (decide (off < length dest)%nat).
  - rewrite wr_ok, bind_ok by done. apply IH; rewrite ?length_insert; simpl in Hs; lia.
  - by rewrite wr_oob by lia.
Qed.

(** C38: A file of more than 1024 bytes whose first page is cached does not fit the array of
    get_file_message. *)
Theorem get_file_overflow stack r d ir i message p s :
  dentries s !! r = Some d -> d_inode d = Some ir -> inodes s !! ir = Some i ->
  i_pages i !! 0%nat = Some p -> length p = 4096%nat -> 1024 < i_size i < 2 ^ 43 ->
  length (a_buf stack) = 1024%nat ->
  get_file_message stack r message s = Fault OutOfBounds.
Proof.
  intros Hd Hir Hi Hp Hlp Hsize Hbuf. unfold get_file_message.
  erewrite M_bind_ok by (by apply get_dentry_ok). rewrite Hir. erewrite M_bind_ok by reflexivity.
  erewrite M_bind_ok by (by apply get_inode_ok).
  rewrite (proj2 (Z.eqb_neq _ 0)) by lia. rewrite Hp.
  set (nr := if u32 _ =? 0 then _ else _).
  assert (Hnr : 1024 < nr <= 4096).
  { unfold nr, PAGE_CACHE_SHIFT. rewrite Z.shiftr_div_pow2 by lia.
    change (PAGE_CACHE_SIZE - 1) with (Z.ones 12). rewrite Z.land_ones by lia.
    rewrite u32_small by dlia. unfold PAGE_CACHE_SIZE.
    destruct (Z.eqb_spec ((i_size i - 1) / 2 ^ 12) 0) as [E|E]; [|lia].
    rewrite Z.mod_small; dlia. }
  apply M_bind_fault. unfold lift. by rewrite memcpy_overflow by lia.
Qed.

(** ** Write requests *)

(** Replacing an inode by one that plays the same role keeps the invariant. *)
Lemma node_ok_kind s t ir i i' :
  node_ok s t -> inodes s !! ir = Some i ->
  (i_mode i <> 0 -> i_mode i' <> 0) -> Z.land (i_mode i') S_IFMT = Z.land (i_mode i) S_IFMT ->
  i_count i' = i_count i -> i_dead i' = i_dead i -> i_op i' = i_op i -> i_fop i' = i_fop i ->
  node_ok (with_inodes (<[ir := i']> (inodes s)) s) t.
Proof.
  intros Hok Hi En Em Ec Ed Eo Ef. split; try apply Hok.
  - intros j. simpl. rewrite lookup_insert. case_decide; [subst; intros _; apply (nk_ifresh _ _ Hok); eauto|apply (nk_ifresh _ _ Hok)].
  - intros r d Hd. destruct (nk_inode _ _ Hok r d Hd) as (j & ji & E & Hj & Hc & Hm & Hdd & Hsub & Hop).
    exists j. simpl. rewrite lookup_insert. case_decide; [subst j; simplify_eq|by exists ji].
    exists i'. rewrite Ec, Ed. split_and!; auto; [|by apply (typed_same i)]. unfold S_ISDIR, ifmt. by rewrite Em.
Qed.

Lemma node_ok_inode s t ir i i' :
  node_ok s t -> inodes s !! ir = Some i -> same_role i i' ->
  node_ok (with_inodes (<[ir := i']> (inodes s)) s) t.
Proof. intros Hok Hi (_ & Em & Ec & Ed & Eo & Ef). apply (node_ok_kind s t ir i); congruence. Qed.

Lemma written_role fp m i : same_role i (written fp m i).
Proof. done. Qed.

(** A file as the requests name it: a dentry below the root with a number that
    only it has. *)
Record served_file (s : kstate) (t : tree) (ino : Z) (r : nat) (d : dentry) (ir : nat) (i : inode)
  : Prop := {
  sf_dentry : dentries s !! r = Some d;
  sf_below : r <> troot t;
  sf_inode : d_inode d = Some ir;
  sf_i : inodes s !! ir = Some i;
  sf_ino : i_ino i = ino;
  sf_range : 0 <= ino < 2 ^ 31;
  sf_numbered : numbered s ino r;
  sf_file : file_ok i;
}.

Lemma find_served s t ino r d ir i :
  node_ok s t -> served_file s t ino r d ir i ->
  (root ← the_root; find_dentry_by_ino root ino) s = Ok (Some r, s).
Proof.
  intros Hok [Hd Hb Hir Hi Hino Hr Hnum _].
  erewrite M_bind_ok by (unfold the_root; erewrite M_bind_ok by reflexivity;
    rewrite (nk_root _ _ Hok); reflexivity).
  assert (u32 ino = ino) as Eu by (apply u32_small; lia).
  eapply node_find_ino; try done; by rewrite Eu.
Qed.

Section io.
Variable pointer : block -> block * nat -> Z -> va -> printf_spec -> res (block * nat).
Context (stack : autos) (Ha : autos_ok stack).

Lemma rdma_write_ok buf ino n inop np message m s t r d ir i :
  parse_write buf (a_tmp_name stack) (a_name stack) (a_name_parent stack) (a_message stack)
    = Ok (mkReq ino n inop np 0, message) ->
  node_ok s t -> mem s = [] -> served_file s t ino r d ir i ->
  is_cstr message m -> (length m <= 4096)%nat ->
  rdma_write stack buf s
  = Ok (tt, with_inodes (<[ir := written (a_page stack) m i]> (inodes s)) s).
Proof using Ha.
  intros Hq Hok Hmem Hsf Hm Hl. pose proof (find_served _ _ _ _ _ _ _ Hok Hsf) as Hfind.
  unfold rdma_write. erewrite M_bind_ok by (unfold lift; by rewrite Hq). cbn iota beta.
  cbn [r_ino]. apply M_bind_inv in Hfind as (root & s1 & Hroot & Hfind).
  erewrite M_bind_ok by exact Hroot. erewrite M_bind_ok by exact Hfind. cbn iota.
  destruct Ha as (_ & _ & _ & _ & _ & A6). destruct Hsf as [Hd _ Hir Hi _ _ _ Hf].
  by erewrite M_bind_ok by (by eapply put_ok).
Qed.

(** ** Read requests *)

(** The number leads to the file, and get_file_message is called. *)
Lemma rdma_read_found buf ino n inop np s t r d ir i :
  parse_read buf (take 100 (a_tmp_name stack)) (a_name stack) (a_name_parent stack)
    = Ok (mkReq ino n inop np 0) ->
  node_ok s t -> served_file s t ino r d ir i ->
  rdma_read stack buf s
  = (message ← get_file_message stack r (a_message stack);
     buf ← lift (memset buf 0 0 1024); lift (strcpy buf 0 message)) s.
Proof using.
  intros Hq Hok Hsf. pose proof (find_served _ _ _ _ _ _ _ Hok Hsf) as Hfind.
  unfold rdma_read. erewrite M_bind_ok by (unfold lift; by rewrite Hq). cbn [r_ino].
  apply M_bind_inv in Hfind as (root & s1 & Hroot & Hfind).
  erewrite M_bind_ok by exact Hroot. erewrite M_bind_ok by exact Hfind. cbn iota.
  assert (s1 = s) as ->; [|done].
  unfold the_root in Hroot. by erewrite M_bind_ok in Hroot by reflexivity;
    rewrite (nk_root _ _ Hok) in Hroot; injection Hroot.
Qed.

Lemma rdma_read_ok buf ino n inop np s t r d ir i c :
  parse_read buf (take 100 (a_tmp_name stack)) (a_name stack) (a_name_parent stack)
    = Ok (mkReq ino n inop np 0) -> length buf = 1024%nat ->
  node_ok s t -> served_file s t ino r d ir i -> 0 < i_size i <= 1024 ->
  is_cstr (contents i ++ junk_after stack i) c -> (length c < 1024)%nat ->
  rdma_read stack buf s = Ok (splice (replicate 1024 0) 0 (c ++ [0]), s).
Proof using Ha.
  intros Hq Hb Hok Hsf Hsize Hc Hl. erewrite rdma_read_found by done.
  destruct Ha as (A1 & A2 & _). destruct Hsf as [Hd _ Hir Hi _ _ _ Hf].
  erewrite M_bind_ok by (eapply get_ok; try done; by rewrite A2).
  erewrite M_bind_ok by (unfold lift; by rewrite memset_1024).
  unfold lift. rewrite (strcpy_ok _ _ _ c); [done| |rewrite length_replicate; lia].
  unfold splice. rewrite take_0. cbn [app]. rewrite <- app_assoc. apply is_cstr_app, (proj1 Hc).
Qed.
End io.

Lemma fname_WR : fname (bytes "WR").
Proof. split; [done|by repeat constructor]. Qed.

(** The message of a write request and what the server reads in it. *)
Lemma write_message stack ino n inop np p :
  autos_ok stack -> fname n -> (length n <= 19)%nat -> fname np -> (length np <= 19)%nat ->
  0 <= ino < 2 ^ 31 -> 0 <= inop < 2 ^ 31 ->
  Forall (fun c => c <> 0) p -> p <> [] -> (length p <= 900)%nat -> (length (flat p) <= 19)%nat ->
  let t := req_text (bytes "WR") ino n inop np p in
  (length t < 1024)%nat /\
  parse_write (t ++ replicate (1024 - length t) 0) (a_tmp_name stack) (a_name stack)
    (a_name_parent stack) (a_message stack)
  = Ok (mkReq ino n inop np 0, splice (a_message stack) 0 (flat p ++ [0])).
Proof.
  intros (_ & A2 & A3 & A4 & A5 & _) Fn Ln Fp Lp Hi Hip Hnz Hne Hlp Hfl t.
  assert (Hl : (length t < 1024)%nat).
  { unfold t, req_text, join5. rewrite !length_app. cbn [length].
    pose proof (length_sdecimal ino ltac:(lia)). pose proof (length_sdecimal inop ltac:(lia)).
    change (length (bytes "WR")) with 2%nat. lia. }
  split; [done|]. pose proof fname_WR as FW.
  eapply (parse_write_text _ _ _ _ _ (bytes "WR")); try done;
    [|change (length (bytes "WR")) with 2%nat; lia].
  apply is_cstr_received; [|done]. apply req_text_nz; try (by apply fname_nz); done || lia.
Qed.

(** The state after a write request. *)
Lemma server_write pointer stack s t addr ino n inop np p r d ir i :
  node_ok s t -> autos_ok stack -> mem s = [] -> served_file s t ino r d ir i ->
  fname n -> (length n <= 19)%nat -> fname np -> (length np <= 19)%nat -> 0 <= inop < 2 ^ 31 ->
  Forall (fun c => c <> 0) p -> p <> [] -> (length p <= 900)%nat -> (length (flat p) <= 19)%nat ->
  let i' := written (a_page stack) (flat p) i in
  let s' := with_inodes (<[ir := i']> (inodes s)) s in
  server_step pointer stack addr (req_text (bytes "WR") ino n inop np p) s = Ok (Some [], s') /\
  node_ok s' t /\ file_ok i' /\
  contents i' = flat p ++ drop (length (flat p)) (contents i) /\
  (length (req_text (bytes "WR") ino n inop np p) < 1024)%nat.
Proof.
  intros Hok Ha Hm Hsf Fn Ln Fp Lp Hip Hnz Hne Hlp Hfl i' s'.
  pose proof (sf_range _ _ _ _ _ _ _ Hsf) as Hi. pose proof (sf_file _ _ _ _ _ _ _ Hsf) as Hf.
  destruct (write_message stack ino n inop np p Ha Fn Ln Fp Lp Hi Hip Hnz Hne Hlp Hfl) as [Hlen Hq].
  assert (Hmsg : is_cstr (splice (a_message stack) 0 (flat p ++ [0])) (flat p)).
  { unfold splice. rewrite take_0. cbn [app]. rewrite <- app_assoc. apply is_cstr_app.
    rewrite List.Forall_forall in *. intros c [Hc _]%List.filter_In. auto. }
  pose proof (rdma_write_ok stack Ha _ _ _ _ _ _ (flat p) _ _ _ _ _ _ Hq Hok Hm Hsf Hmsg ltac:(lia)) as E.
  split; [|split; [|split; [|split; [|done]]]].
  - eapply server_dispatch; [exact Hlen|done|]. right. right. split; [done|exact E].
  - eapply node_ok_inode; [done|apply (sf_i _ _ _ _ _ _ _ Hsf)|apply written_role].
  - apply written_ok; [done|lia].
  - apply contents_written; [done|lia].
Qed.

(** A write request on a node at rest: the payload, without its line ends,
    becomes the start of the file; nothing else of the node changes. *)
Theorem write_request pointer stack s t addr ino n inop np p r d ir i :
  node_ok s t -> autos_ok stack -> mem s = [] -> served_file s t ino r d ir i ->
  fname n -> (length n <= 19)%nat -> fname np -> (length np <= 19)%nat -> 0 <= inop < 2 ^ 31 ->
  Forall (fun c => c <> 0) p -> p <> [] -> (length p <= 900)%nat -> (length (flat p) <= 19)%nat ->
  exists s' i',
    server_step pointer stack addr (req_text (bytes "WR") ino n inop np p) s = Ok (Some [], s') /\
    node_ok s' t /\ s' = with_inodes (<[ir := i']> (inodes s)) s /\ file_ok i' /\
    contents i' = flat p ++ drop (length (flat p)) (contents i).
Proof.
  intros Hok Ha Hm Hsf Fn Ln Fp Lp Hip Hnz Hne Hlp Hfl.
  destruct (server_write pointer stack s t addr ino n inop np p r d ir i Hok Ha Hm Hsf Fn Ln Fp Lp
    Hip Hnz Hne Hlp Hfl) as (E & Hok' & Hf & Hc & _). eauto 8.
Qed.

(** Contents that wjfs_server does not take for another request. *)
Definition inert (c : list Z) : Prop :=
  take 2 c <> bytes "WR" /\ take 2 c <> bytes "CR" /\ take 2 c <> bytes "RM".

Lemma starts_contents c v s :
  (length c < 1024)%nat -> length (bytes v) = 2%nat -> Forall (fun x => x <> 0) (bytes v) ->
  take 2 c <> bytes v -> starts (splice (replicate 1024 0) 0 (c ++ [0])) v s = Ok (false, s).
Proof.
  intros Hl Hv Hnz Hc. unfold starts. rewrite Hv.
  set (b := splice _ _ _).
  assert (Eb : b = c ++ replicate (1024 - length c) 0).
  { unfold b, splice. rewrite take_0. cbn [app]. rewrite <- app_assoc, length_app, drop_replicate.
    cbn [length app]. f_equal. by replace (1024 - length c)%nat with (S (1024 - (0 + (length c + 1))))%nat by lia. }
  destruct (memcmp_eq b (lit v) 2) as (x & E & Hx).
  { rewrite Eb, length_app, length_replicate. lia. }
  { unfold lit. rewrite length_app. cbn [length]. lia. }
  erewrite M_bind_ok by (unfold lift; by rewrite E). unfold mret, M_ret. do 2 f_equal.
  apply Z.eqb_neq. intros ->. apply Hc. symmetry. pose proof (proj1 Hx eq_refl) as E2.
  unfold lit in E2. rewrite (take_app_length' (bytes v)) in E2 by done. rewrite <- E2, Eb.
  apply take_app_le. destruct (decide (2 <= length c)%nat); [done|]. exfalso.
  rewrite <- E2, Eb, Forall_lookup in Hnz. apply (Hnz (length c) 0); [|done].
  rewrite lookup_take_lt by lia. rewrite lookup_app_r by lia. rewrite Nat.sub_diag.
  apply lookup_replicate. lia.
Qed.

(** What wjfs_server does after its test for a read request. *)
Definition rest_of_step pointer stack (buf : block) (tmp : option block) (out : list Z) : M (option (list Z)) :=
  is_wr ← starts buf "WR";
  (if (is_wr : bool) then rdma_write stack buf else mret tt);;
  is_cr ← starts buf "CR";
  (if (is_cr : bool) then rdma_create pointer stack buf tmp else mret tt);;
  is_rm ← starts buf "RM";
  (if (is_rm : bool) then rdma_remove stack buf else mret tt);;
  mret (Some out).

Lemma rest_out pointer stack buf tmp out s :
  rest_of_step pointer stack buf tmp out s = (_ ← rest_of_step pointer stack buf tmp []; mret (Some out)) s.
Proof. unfold rest_of_step, mbind, M_bind, mret, M_ret. repeat (case_match; simplify_eq/=; try done). Qed.

(** A read request on a node at rest: the contents of the file, up to the first
    NUL of the array they were copied to, are sent back and take the place of the
    request; without a NUL the copy runs off the array. *)
Lemma server_read_rest pointer stack s t addr ino n inop np r d ir i :
  node_ok s t -> autos_ok stack -> mem s = [] -> served_file s t ino r d ir i ->
  fname n -> (length n <= 19)%nat -> fname np -> (length np <= 19)%nat -> 0 <= inop < 2 ^ 31 ->
  0 < i_size i <= 1024 ->
  server_step pointer stack addr (read_text ino n inop np) s
  = match up_to_nul (contents i ++ junk_after stack i) with
    | Some c => rest_of_step pointer stack (splice (replicate 1024 0) 0 (c ++ [0])) (Some (peer_text addr)) c s
    | None => Fault OutOfBounds
    end.
Proof.
  intros Hok Ha Hm Hsf Fn Ln Fp Lp Hip Hsize. pose proof (sf_range _ _ _ _ _ _ _ Hsf) as Hi.
  assert (Hlen : (length (read_text ino n inop np) < 1024)%nat).
  { pose proof (length_read_text ino n inop np ltac:(lia) ltac:(lia)) as H.
    by rewrite !s32_small in H by lia. }
  set (msg := read_text ino n inop np) in *. set (buf := msg ++ replicate (1024 - length msg) 0).
  assert (Hq : parse_read buf (take 100 (a_tmp_name stack)) (a_name stack) (a_name_parent stack)
               = Ok (mkReq ino n inop np 0)).
  { destruct Ha as (_ & _ & A3 & A4 & A5 & _). apply parse_read_text; try done;
      [|rewrite length_take; lia]. apply is_cstr_received; [|done]. apply read_text_nz; done || lia. }
  assert (Hb : length buf = 1024%nat) by (unfold buf; rewrite length_app, length_replicate; lia).
  unfold server_step. erewrite M_bind_ok by (by apply alloc_ok).
  erewrite M_bind_ok by (unfold lift; by rewrite inet_ntoa_text).
  rewrite recv_buffer by done. fold buf. fold (peer_text addr).
  assert (Eb : exists w, buf = 82 :: 68 :: w) by (eexists; reflexivity). destruct Eb as [w Eb].
  assert (Hquit : starts buf "quit" s = Ok (false, s)) by (by rewrite Eb).
  assert (Hrd : starts buf "RD" s = Ok (true, s)) by (by rewrite Eb).
  clearbody buf. erewrite M_bind_ok by exact Hquit. cbn iota. erewrite M_bind_ok by exact Hrd. cbn iota.
  destruct (up_to_nul _) as [c|] eqn:Ec; cycle 1.
  { apply M_bind_fault, M_bind_fault. erewrite rdma_read_found by done. destruct Ha as (A1 & _), Hsf as [Hd _ Hir Hii _ _ _ Hf].
    apply M_bind_fault. by eapply get_runs_on. }
  apply up_to_nul_cstr in Ec. pose proof (cstr_in_array stack i c Ha (sf_file _ _ _ _ _ _ _ Hsf) Hsize Ec) as Hlc.
  pose proof (rdma_read_ok stack Ha buf ino n inop np s t r d ir i c Hq Hb Hok Hsf Hsize Ec Hlc) as E.
  set (out := splice (replicate 1024 0) 0 (c ++ [0])) in *.
  assert (Hout : is_cstr out c).
  { unfold out, splice. rewrite take_0. cbn [app]. rewrite <- app_assoc. apply is_cstr_app, (proj1 Ec). }
  erewrite M_bind_ok; cycle 1.
  { erewrite M_bind_ok by exact E.
    erewrite M_bind_ok by (unfold lift; by rewrite (strlen_spec _ _ Hout)). reflexivity. }
  cbn iota beta. rewrite Nat2Z.id.
  assert (take (length c) out = c) as ->; [|done].
  destruct Hout as [_ [rest ->]]. by rewrite take_app_length.
Qed.

(** Contents that are no request: they are sent back and nothing changes. *)
Lemma server_read pointer stack s t addr ino n inop np r d ir i c :
  node_ok s t -> autos_ok stack -> mem s = [] -> served_file s t ino r d ir i ->
  fname n -> (length n <= 19)%nat -> fname np -> (length np <= 19)%nat -> 0 <= inop < 2 ^ 31 ->
  0 < i_size i <= 1024 -> is_cstr (contents i ++ junk_after stack i) c -> (length c < 1024)%nat ->
  inert c ->
  server_step pointer stack addr (read_text ino n inop np) s = Ok (Some c, s).
Proof.
  intros Hok Ha Hm Hsf Fn Ln Fp Lp Hip Hsize Hc Hlc (W & C & R).
  erewrite server_read_rest by done. rewrite (proj2 (up_to_nul_cstr _ _) Hc). unfold rest_of_step.
  erewrite M_bind_ok by (by apply starts_contents; [..|by repeat constructor|]). cbn iota.
  erewrite M_bind_ok by reflexivity.
  erewrite M_bind_ok by (by apply starts_contents; [..|by repeat constructor|]). cbn iota.
  erewrite M_bind_ok by reflexivity.
  erewrite M_bind_ok by (by apply starts_contents; [..|by repeat constructor|]). cbn iota.
  by erewrite M_bind_ok by reflexivity.
Qed.
