(* ===== verification/Truncate.v ===== *)
(** * Changing the attributes of a file

    fs/attr.c and do_truncate of fs/open.c, on inodes without a setattr and
    without a truncate method, which every inode of wjfs is, down to the pages
    that mm/truncate.c removes.  IS_IMMUTABLE, IS_APPEND and IS_SWAPFILE are
    false for an inode of wjfs; nobody maps the file or has a page of it locked
    or under writeback. *)

From S2P Require Import Prelude KString KScan KFormat Wire Ksocket MapTable Vfs Tree Ops.
From S2P Require Import PageIo FileMap Server Umount Node FileData Inv Contents.

Definition is_owner_or_cap (c : cred) (i : inode) : bool := (fsuid c =? i_uid i) || cap_fowner c.

Definition in_group_p (c : cred) (gid : Z) : bool := (gid =? fsgid c) || existsb (Z.eqb gid) (groups c).

(** struct iattr of the callers modelled here: a member is there when its bit is
    set in ia_valid; [ia_stamp] is ATTR_MTIME with ATTR_CTIME. *)
Record iattr : Type := mkIattr {
  ia_size : option Z;
  ia_stamp : bool;
  ia_mode : option Z;
  ia_kill_suid : bool;
  ia_kill_sgid : bool;
  ia_force : bool;
}.

Definition set_ia_mode (m : option Z) (a : iattr) : iattr :=
  mkIattr (ia_size a) (ia_stamp a) m (ia_kill_suid a) (ia_kill_sgid a) (ia_force a).

(** inode_change_ok: the error and the attributes, whose mode may lose a bit. *)
Definition inode_change_ok (c : cred) (i : inode) (a : iattr) : Z * iattr :=
  if ia_force a then (0, a) else
  match ia_mode a with
  | Some m =>
      if negb (is_owner_or_cap c i) then (- EPERM, a)
      else if negb (in_group_p c (i_gid i)) && negb (cap_fsetid c)
           then (0, set_ia_mode (Some (Z.land m (Z.lnot S_ISGID))) a)
           else (0, a)
  | None => (0, a)
  end.

Section attr.
Context (env : io_env).

(** inode_newsize_ok; s_maxbytes is what wjfs_fill_super sets. *)
Definition inode_newsize_ok (i : inode) (offset : Z) : Z :=
  if i_size i <? offset then
    if match e_limit env with Some limit => limit <? offset | None => false end then - EFBIG
    else if MAX_LFS_FILESIZE <? offset then - EFBIG else 0
  else 0.

(** truncate_inode_pages: the loops remove the pages from [start] on; the page in
    which [lstart] lies is cleared behind it. *)
Definition truncate_inode_pages (ir : nat) (lstart : Z) : M unit :=
  i ← get_inode ir;
  let start := u32 (Z.shiftr (lstart + PAGE_CACHE_SIZE - 1) PAGE_CACHE_SHIFT) in
  let partial := Z.land lstart (PAGE_CACHE_SIZE - 1) in
  if (size (i_pages i) =? 0)%nat then mret tt else
  let kept := filter (fun x => Z.of_nat (fst x) < start) (i_pages i) in
  kept ← (if partial =? 0 then mret kept else
          match kept !! Z.to_nat (start - 1) with
          | Some page =>
              page ← lift (memset page (Z.to_nat partial) 0 (Z.to_nat (PAGE_CACHE_SIZE - partial)));
              mret (<[Z.to_nat (start - 1) := page]> kept)
          | None => mret kept
          end);
  upd_inode ir (fun i => set_data (i_size i) kept i).

Definition vmtruncate (ir : nat) (offset : Z) : M Z :=
  i ← get_inode ir;
  let error := inode_newsize_ok i offset in
  if negb (error =? 0) then mret error else
  upd_inode ir (fun i => set_data offset (i_pages i) i);;
  truncate_inode_pages ir offset;;
  mret error.

Definition inode_setattr (ir : nat) (a : iattr) : M Z :=
  i ← get_inode ir;
  error ← (match ia_size a with
           | Some n => if negb (n =? i_size i) then vmtruncate ir n else mret 0
           | None => mret 0
           end);
  if negb (error =? 0) then mret error else
  t ← gets now;
  c ← gets cur;
  (if ia_stamp a then upd_inode ir (set_mtime_ctime t) else mret tt);;
  (match ia_mode a with
   | Some m =>
       upd_inode ir (fun i =>
         set_attr (if negb (in_group_p c (i_gid i)) && negb (cap_fsetid c)
                   then Z.land m (Z.lnot S_ISGID) else m) (i_uid i) (i_gid i) i)
   | None => mret tt
   end);;
  mret 0.

(** notify_change *)
Definition notify_change (ir : nat) (a : iattr) : M Z :=
  i ← get_inode ir;
  c ← gets cur;
  if (ia_kill_suid a || ia_kill_sgid a) && bool_decide (is_Some (ia_mode a)) then fail BugOn else
  let a := if ia_kill_suid a && negb (Z.land (i_mode i) S_ISUID =? 0)
           then set_ia_mode (Some (Z.land (i_mode i) (Z.lnot S_ISUID))) a else a in
  let sgid := Z.lor S_ISGID S_IXGRP in
  let a := if ia_kill_sgid a && (Z.land (i_mode i) sgid =? sgid)
           then set_ia_mode (Some (Z.land (default (i_mode i) (ia_mode a)) (Z.lnot S_ISGID))) a else a in
  match ia_size a, ia_stamp a, ia_mode a, ia_force a with
  | None, false, None, false => mret 0
  | _, _, _, _ =>
      let '(error, a) := inode_change_ok c i a in
      if negb (error =? 0) then mret error else inode_setattr ir a
  end.

(** do_truncate of the inode of a dentry; [stamp] is the mask ATTR_MTIME with
    ATTR_CTIME, ATTR_OPEN and the file change nothing here. *)
Definition do_truncate (ir : nat) (length : Z) (stamp : bool) : M Z :=
  if length <? 0 then mret (- EINVAL) else
  c ← gets cur;
  i ← get_inode ir;
  let '(suid, sgid) := should_remove_suid c (i_mode i) in
  notify_change ir (mkIattr (Some length) stamp None suid sgid (suid || sgid)).
End attr.

(** ** What a truncation leaves *)

(** The file cut to [n] bytes, or extended to [n] with zeros, by [c] at time [t]. *)
Record cut (c : cred) (t : Z) (stamp : bool) (i : inode) (n : Z) (i' : inode) : Prop := {
  ct_size : i_size i' = n;
  ct_bytes : forall k, 0 <= k -> byte_at i' k = if k <? n then byte_at i k else 0;
  ct_ok : data_ok i';
  ct_same : i' = set_data n (i_pages i')
                   (set_times (i_atime i) (i_mtime i') (i_ctime i') (set_attr (i_mode i') (i_uid i) (i_gid i) i));
  ct_time : i_mtime i' = (if stamp then t else i_mtime i) /\ i_ctime i' = (if stamp then t else i_ctime i);
  ct_kind : Z.land (i_mode i') S_IFMT = Z.land (i_mode i) S_IFMT;
  ct_suid : cap_fsetid c = false -> ifmt (i_mode i) S_IFREG = true -> Z.land (i_mode i') S_ISUID = 0;
}.

(** The pages below position [n]. *)
Definition pages_cut (n : Z) (ps ps' : gmap nat block) : Prop :=
  forall k, 0 <= k ->
    match ps' !! Z.to_nat (k / 4096) with Some p => default 0 (p !! Z.to_nat (k mod 4096)) | None => 0 end
    = if k <? n then match ps !! Z.to_nat (k / 4096) with
                     | Some p => default 0 (p !! Z.to_nat (k mod 4096)) | None => 0 end
      else 0.

Lemma truncate_start n : 0 <= n <= MAX_LFS_FILESIZE ->
  u32 (Z.shiftr (n + PAGE_CACHE_SIZE - 1) PAGE_CACHE_SHIFT) = (n + 4095) / 4096.
Proof.
  intros Hn. rewrite shift12. unfold PAGE_CACHE_SIZE, MAX_LFS_FILESIZE in *.
  replace (n + 4096 - 1) with (n + 4095) by lia. apply u32_small.
  split; [apply Z.div_pos; lia|]. apply Z.div_lt_upper_bound; lia.
Qed.

Lemma cleared_page p from :
  length p = 4096%nat -> 0 <= from < 4096 ->
  exists p', memset p (Z.to_nat from) 0 (Z.to_nat (PAGE_CACHE_SIZE - from)) = Ok p' /\ length p' = 4096%nat /\
    forall j, 0 <= j < 4096 ->
      default 0 (p' !! Z.to_nat j) = if j <? from then default 0 (p !! Z.to_nat j) else 0.
Proof.
  intros Hl Hf. unfold PAGE_CACHE_SIZE. eexists. split; [apply memset_spec; lia|].
  split; [rewrite length_splice; rewrite ?length_replicate; lia|].
  intros j Hj. unfold splice. rewrite length_replicate. destruct (Z.ltb_spec j from).
  - rewrite lookup_app_l by (rewrite length_take; lia). by rewrite lookup_take_lt by lia.
  - rewrite lookup_app_r by (rewrite length_take; lia). rewrite length_take.
    rewrite lookup_app_l by (rewrite length_replicate; lia).
    by rewrite lookup_replicate_2 by lia.
Qed.

(** The page of a position, where [n] ends in page [n / 4096]. *)
Lemma page_below n k : 0 <= k -> 0 <= n -> n mod 4096 = 0 -> k / 4096 < (n + 4095) / 4096 <-> k < n.
Proof.
  intros Hk Hn Hm. pose proof (Z.div_mod n 4096 ltac:(lia)) as En. rewrite Hm, Z.add_0_r in En.
  rewrite En at 1. rewrite Z.mul_comm, Z.div_add_l, Z.add_0_r by lia.
  pose proof (Z.div_mod k 4096 ltac:(lia)). pose proof (Z.mod_pos_bound k 4096 ltac:(lia)). lia.
Qed.

Lemma last_page n : 0 <= n -> n mod 4096 <> 0 -> (n + 4095) / 4096 = n / 4096 + 1.
Proof.
  intros Hn Hm. pose proof (Z.div_mod n 4096 ltac:(lia)). pose proof (Z.mod_pos_bound n 4096 ltac:(lia)).
  replace (n + 4095) with (n mod 4096 - 1 + (n / 4096 + 1) * 4096) by lia.
  rewrite Z.div_add, Z.div_small by lia. lia.
Qed.

Lemma kept_lookup (ps : gmap nat block) start x :
  0 <= x -> filter (fun y => Z.of_nat (fst y) < start) ps !! Z.to_nat x
  = if x <? start then ps !! Z.to_nat x else None.
Proof.
  intros Hx. rewrite map_lookup_filter. destruct (ps !! Z.to_nat x) as [p|]; cbn [mbind option_bind]; [|by case_match].
  destruct (Z.ltb_spec x start); [by rewrite option_guard_True by (simpl; lia)|by rewrite option_guard_False by (simpl; lia)].
Qed.

(** Nothing of the last page is kept, or all of it. *)
Lemma cut_whole n (ps : gmap nat block) :
  0 <= n -> n mod 4096 = 0 -> pages_cut n ps (filter (fun y => Z.of_nat (fst y) < (n + 4095) / 4096) ps).
Proof.
  intros Hn Hm k Hk. rewrite kept_lookup by (apply Z.div_pos; lia).
  pose proof (page_below n k Hk Hn Hm). destruct (Z.ltb_spec (k / 4096) ((n + 4095) / 4096)), (Z.ltb_spec k n); try done; lia.
Qed.

Lemma cut_inside n (ps : gmap nat block) :
  0 <= n -> n mod 4096 <> 0 -> ps !! Z.to_nat (n / 4096) = None ->
  pages_cut n ps (filter (fun y => Z.of_nat (fst y) < (n + 4095) / 4096) ps).
Proof.
  intros Hn Hm Hnone k Hk. rewrite kept_lookup by (apply Z.div_pos; lia). rewrite last_page by done.
  pose proof (Z.div_mod n 4096 ltac:(lia)). pose proof (Z.mod_pos_bound n 4096 ltac:(lia)).
  pose proof (Z.div_mod k 4096 ltac:(lia)). pose proof (Z.mod_pos_bound k 4096 ltac:(lia)).
  destruct (Z.ltb_spec (k / 4096) (n / 4096 + 1)), (Z.ltb_spec k n); try done; [|lia].
  assert (k / 4096 = n / 4096) as -> by lia. by rewrite Hnone.
Qed.

Lemma cut_page n (ps : gmap nat block) p p' :
  0 <= n -> n mod 4096 <> 0 -> ps !! Z.to_nat (n / 4096) = Some p ->
  (forall j, 0 <= j < 4096 ->
     default 0 (p' !! Z.to_nat j) = if j <? n mod 4096 then default 0 (p !! Z.to_nat j) else 0) ->
  pages_cut n ps (<[Z.to_nat (n / 4096) := p']> (filter (fun y => Z.of_nat (fst y) < (n + 4095) / 4096) ps)).
Proof.
  intros Hn Hm Hp Hp' k Hk. rewrite last_page by done.
  pose proof (Z.div_mod n 4096 ltac:(lia)). pose proof (Z.mod_pos_bound n 4096 ltac:(lia)).
  pose proof (Z.div_mod k 4096 ltac:(lia)). pose proof (Z.mod_pos_bound k 4096 ltac:(lia)).
  assert (0 <= k / 4096) by (apply Z.div_pos; lia). assert (0 <= n / 4096) by (apply Z.div_pos; lia).
  destruct (decide (k / 4096 = n / 4096)) as [E|E].
  - rewrite E, lookup_insert_eq, Hp, Hp' by lia.
    destruct (Z.ltb_spec (k mod 4096) (n mod 4096)), (Z.ltb_spec k n); try done; lia.
  - rewrite lookup_insert_ne, kept_lookup by lia.
    destruct (Z.ltb_spec (k / 4096) (n / 4096 + 1)), (Z.ltb_spec k n); try done; lia.
Qed.

Lemma truncate_pages_ok ir i n s :
  inodes s !! ir = Some i -> (forall x p, i_pages i !! x = Some p -> length p = 4096%nat) ->
  0 <= n <= MAX_LFS_FILESIZE ->
  exists ps, truncate_inode_pages ir n s
    = Ok (tt, with_inodes (<[ir := set_data (i_size i) ps i]> (inodes s)) s) /\
    pages_cut n (i_pages i) ps /\ (forall x p, ps !! x = Some p -> length p = 4096%nat).
Proof.
  intros Hi Hl Hn. unfold truncate_inode_pages. erewrite M_bind_ok by (by apply get_inode_ok).
  rewrite truncate_start, land4095 by done. destruct (Nat.eqb_spec (size (i_pages i)) 0) as [H0|H0].
  { exists (i_pages i). rewrite with_inodes_id by (rewrite Hi; by destruct i). split; [done|]. split; [|done].
    intros k Hk. apply map_size_empty_inv in H0. rewrite H0, lookup_empty. by destruct (k <? n). }
  set (kept := filter _ (i_pages i)).
  assert (Hkl : forall x p, kept !! x = Some p -> length p = 4096%nat).
  { intros x p [Hx _]%map_lookup_filter_Some. by eapply Hl. }
  destruct (Z.eqb_spec (n mod 4096) 0) as [Hm|Hm].
  { exists kept. erewrite M_bind_ok by reflexivity. rewrite (upd_inode_ok _ _ _ _ Hi).
    split; [done|]. split; [|done]. apply cut_whole; [lia|done]. }
  assert (Z.to_nat ((n + 4095) / 4096 - 1) = Z.to_nat (n / 4096)) as -> by (rewrite last_page by (done || lia); lia).
  assert (Hk : kept !! Z.to_nat (n / 4096) = i_pages i !! Z.to_nat (n / 4096)).
  { unfold kept. rewrite kept_lookup by (apply Z.div_pos; lia). rewrite last_page by (done || lia).
    by rewrite (proj2 (Z.ltb_lt _ _)) by lia. }
  rewrite Hk. destruct (i_pages i !! Z.to_nat (n / 4096)) as [p|] eqn:Hp.
  - destruct (cleared_page p (n mod 4096)) as (p' & Ep & Hlp & Hp'); [by eapply Hl|apply Z.mod_pos_bound; lia|].
    erewrite M_bind_ok; cycle 1.
    { erewrite M_bind_ok by (unfold lift; by rewrite Ep). reflexivity. }
    rewrite (upd_inode_ok _ _ _ _ Hi). eexists. split; [done|]. split; [by eapply cut_page; [lia|..]|].
    intros x q. rewrite lookup_insert. case_decide; [by intros [= <-]|apply Hkl].
  - erewrite M_bind_ok by reflexivity. rewrite (upd_inode_ok _ _ _ _ Hi). exists kept. split; [done|].
    split; [|done]. apply cut_inside; [lia|done..].
Qed.

Lemma vmtruncate_ok env ir i n s :
  inodes s !! ir = Some i -> data_ok i -> 0 <= n -> inode_newsize_ok env i n = 0 ->
  exists ps, vmtruncate env ir n s = Ok (0, with_inodes (<[ir := set_data n ps i]> (inodes s)) s) /\
    pages_cut n (i_pages i) ps /\ (forall x p, ps !! x = Some p -> length p = 4096%nat) /\ n <= MAX_LFS_FILESIZE.
Proof.
  intros Hi Hd Hn He.
  assert (Hmax : n <= MAX_LFS_FILESIZE).
  { unfold inode_newsize_ok in He. pose proof (do_size _ Hd). destruct (Z.ltb_spec (i_size i) n); [|lia].
    destruct (match e_limit env with Some _ => _ | None => _ end); [done|].
    destruct (Z.ltb_spec MAX_LFS_FILESIZE n); [done|lia]. }
  unfold vmtruncate. erewrite M_bind_ok by (by apply get_inode_ok). rewrite He.
  change (negb (0 =? 0)) with false. cbn iota. erewrite M_bind_ok by (by apply upd_inode_ok).
  destruct (truncate_pages_ok ir (set_data n (i_pages i) i) n (with_inodes (<[ir := set_data n (i_pages i) i]> (inodes s)) s))
    as (ps & E & Hc & Hl); [simpl; apply lookup_insert_eq|apply (do_pages _ Hd)|lia|].
  exists ps. erewrite M_bind_ok by exact E. simpl. by rewrite insert_insert_eq.
Qed.

(** The whole of the file that is kept, when the size stays. *)
Lemma same_cut i : data_ok i -> pages_cut (i_size i) (i_pages i) (i_pages i).
Proof.
  intros Hd k Hk. destruct (Z.ltb_spec k (i_size i)); [done|]. exact (do_tail _ Hd k ltac:(lia)).
Qed.

Definition resized (i : inode) (n : Z) (ps : gmap nat block) : Prop :=
  pages_cut n (i_pages i) ps /\ (forall x p, ps !! x = Some p -> length p = 4096%nat) /\ n <= MAX_LFS_FILESIZE.

Lemma setattr_size_ok env ir i n stamp mo b1 b2 b3 s :
  inodes s !! ir = Some i -> data_ok i -> 0 <= n -> inode_newsize_ok env i n = 0 ->
  exists ps, resized i n ps /\
    inode_setattr env ir (mkIattr (Some n) stamp mo b1 b2 b3) s
    = Ok (0, with_inodes (<[ir :=
        let i1 := set_data n ps i in
        let i2 := if stamp : bool then set_mtime_ctime (now s) i1 else i1 in
        match mo with
        | Some m => set_attr (if negb (in_group_p (cur s) (i_gid i)) && negb (cap_fsetid (cur s))
                              then Z.land m (Z.lnot S_ISGID) else m) (i_uid i) (i_gid i) i2
        | None => i2
        end]> (inodes s)) s).
Proof.
  intros Hi Hd Hn He. unfold inode_setattr. erewrite M_bind_ok by (by apply get_inode_ok).
  cbn [ia_size ia_stamp ia_mode].
  assert (exists ps, resized i n ps /\ (if negb (n =? i_size i) then vmtruncate env ir n else mret 0) s
    = Ok (0, with_inodes (<[ir := set_data n ps i]> (inodes s)) s)) as (ps & Hr & E).
  { destruct (Z.eqb_spec n (i_size i)) as [->|Hne]; cbn [negb].
    - exists (i_pages i). split; [split; [by apply same_cut|split; [apply (do_pages _ Hd)|apply (do_size _ Hd)]]|].
      rewrite with_inodes_id; [done|]. rewrite Hi. by destruct i.
    - destruct (vmtruncate_ok env ir i n s Hi Hd Hn He) as (ps & E & Hr). by exists ps. }
  exists ps. split; [done|]. erewrite M_bind_ok by exact E. change (negb (0 =? 0)) with false. cbn iota.
  erewrite M_bind_ok by reflexivity. erewrite M_bind_ok by reflexivity. cbn [now cur with_inodes].
  erewrite (M_bind_ok _ _ _ tt (with_inodes (<[ir := if stamp then set_mtime_ctime (now s) (set_data n ps i)
                                                     else set_data n ps i]> (inodes s)) s)); cycle 1.
  { destruct stamp; [|done]. erewrite upd_inode_ok by (simpl; apply lookup_insert_eq). simpl. by rewrite insert_insert_eq. }
  cbv zeta. destruct mo as [m|]; [|by erewrite M_bind_ok by reflexivity].
  erewrite M_bind_ok by (apply upd_inode_ok; simpl; apply lookup_insert_eq). simpl. rewrite insert_insert_eq.
  by destruct stamp.
Qed.

Lemma setattr_refused env ir i n stamp mo b1 b2 b3 s :
  inodes s !! ir = Some i -> inode_newsize_ok env i n <> 0 ->
  inode_setattr env ir (mkIattr (Some n) stamp mo b1 b2 b3) s = Ok (inode_newsize_ok env i n, s).
Proof.
  intros Hi He. unfold inode_setattr. erewrite M_bind_ok by (by apply get_inode_ok). cbn [ia_size].
  assert (n <> i_size i) by (intros ->; apply He; unfold inode_newsize_ok; by rewrite Z.ltb_irrefl).
  rewrite (proj2 (Z.eqb_neq _ _)) by done. cbn [negb]. erewrite M_bind_ok; cycle 1.
  { unfold vmtruncate. erewrite M_bind_ok by (by apply get_inode_ok).
    rewrite (proj2 (Z.eqb_neq _ 0)) by done. reflexivity. }
  by rewrite (proj2 (Z.eqb_neq _ 0)) by done.
Qed.

(** notify_change of a size and the set-ID bits: inode_setattr, with a mode where a
    bit has to go. *)
Lemma notify_sets env ir i n stamp k1 k2 s :
  inodes s !! ir = Some i ->
  exists mo, notify_change env ir (mkIattr (Some n) stamp None k1 k2 (k1 || k2)) s
    = inode_setattr env ir (mkIattr (Some n) stamp mo k1 k2 (k1 || k2)) s /\
    Z.land (default (i_mode i) mo) S_IFMT = Z.land (i_mode i) S_IFMT /\
    (Z.land (i_mode i) S_ISUID = 0 \/ k1 = true -> Z.land (default (i_mode i) mo) S_ISUID = 0).
Proof.
  intros Hi. unfold notify_change. erewrite M_bind_ok by (by apply get_inode_ok). erewrite M_bind_ok by reflexivity.
  cbn [ia_mode ia_kill_suid ia_kill_sgid]. rewrite bool_decide_eq_false_2, andb_false_r by (by intros []).
  set (both := _ =? Z.lor S_ISGID S_IXGRP). clearbody both. unfold set_ia_mode.
  destruct (Z.eqb_spec (Z.land (i_mode i) S_ISUID) 0) as [Hs|Hs];
    destruct k1, k2, both; cbn [negb andb ia_size ia_stamp ia_mode ia_kill_suid ia_kill_sgid ia_force default
      from_option id inode_change_ok orb]; (eexists; split; [reflexivity|]; cbn [default from_option id];
      rewrite ?land_other by done; split; [done|]); intros [Hz|Hz]; try done;
      repeat first [assumption|apply land_cleared|apply land_kept].
Qed.

Lemma truncate_sets env ir i n stamp s :
  inodes s !! ir = Some i -> 0 <= n ->
  exists mo b1 b2 b3, do_truncate env ir n stamp s = inode_setattr env ir (mkIattr (Some n) stamp mo b1 b2 b3) s /\
    let m := default (i_mode i) mo in
    Z.land m S_IFMT = Z.land (i_mode i) S_IFMT /\
    (cap_fsetid (cur s) = false -> ifmt (i_mode i) S_IFREG = true -> Z.land m S_ISUID = 0).
Proof.
  intros Hi Hn. unfold do_truncate. rewrite (proj2 (Z.ltb_ge _ _)) by lia.
  erewrite M_bind_ok by reflexivity. erewrite M_bind_ok by (by apply get_inode_ok).
  destruct (should_remove_suid (cur s) (i_mode i)) as [k1 k2] eqn:Ek.
  destruct (notify_sets env ir i n stamp k1 k2 s Hi) as (mo & E & Hk & Hz). exists mo. eexists _, _, _.
  split; [exact E|]. split; [done|]. intros Hf Hr. apply Hz. unfold should_remove_suid in Ek.
  rewrite Hf, Hr, andb_true_r in Ek. cbn [negb] in Ek. rewrite andb_true_r in Ek.
  destruct (Z.eqb_spec (Z.land (i_mode i) S_ISUID) 0); [by left|]. cbn [negb orb] in Ek. right. by injection Ek.
Qed.

(** do_truncate: the error of inode_newsize_ok without a change, or the file cut. *)
Lemma do_truncate_ok env ir i n stamp s :
  inodes s !! ir = Some i -> data_ok i -> 0 <= n ->
  let e := inode_newsize_ok env i n in
  exists i', do_truncate env ir n stamp s = Ok (e, with_inodes (<[ir := i']> (inodes s)) s) /\
    (e <> 0 -> i' = i) /\ (e = 0 -> cut (cur s) (now s) stamp i n i').
Proof.
  intros Hi Hd Hn e. destruct (truncate_sets env ir i n stamp s Hi Hn) as (mo & b1 & b2 & b3 & E & Hk & Hz).
  destruct (decide (e = 0)) as [H0|H0].
  - destruct (setattr_size_ok env ir i n stamp mo b1 b2 b3 s Hi Hd Hn H0) as (ps & (Hc & Hl & Hm) & E1).
    eexists. rewrite E, E1, H0. split; [done|]. split; [done|]. intros _. set (i' := match mo with Some _ => _ | None => _ end).
    assert (Hmode : Z.land (i_mode i') S_IFMT = Z.land (default (i_mode i) mo) S_IFMT /\
                    (Z.land (default (i_mode i) mo) S_ISUID = 0 -> Z.land (i_mode i') S_ISUID = 0)).
    { unfold i'. destruct mo as [m|], stamp; cbn [default i_mode set_attr set_mtime_ctime set_times set_data]; try done;
        case_match; rewrite ?land_other by done; split; try done; apply land_kept. }
    destruct Hmode as [Hk' Hz'].
    assert (Hp : i_pages i' = ps) by (unfold i'; by destruct mo, stamp).
    assert (Hs : i_size i' = n) by (unfold i'; by destruct mo, stamp).
    assert (Hb : forall k, 0 <= k -> byte_at i' k = if k <? n then byte_at i k else 0).
    { intros k Hk0. unfold byte_at. rewrite Hp. by apply Hc. }
    split; try done.
    + split; rewrite ?Hp, ?Hs; [done|lia|]. intros k Hk0. rewrite Hb by lia. by rewrite (proj2 (Z.ltb_ge _ _)).
    + unfold i'. by destruct mo, stamp.
    + unfold i'. by destruct mo, stamp.
    + congruence.
    + auto.
  - exists i. rewrite E, (setattr_refused _ _ _ _ _ _ _ _ _ _ Hi H0), with_inodes_id by done. done.
Qed.
