(* ===== verification/Options.v ===== *)
(** * Mount options

    lib/parser.c (match_one, match_token, match_number, match_octal) and
    wjfs_parse_options of wjfs.c, with a reference reading of an option string:
    the words between commas, the last well-formed [mode=] word wins. *)

From S2P Require Import Prelude KString KScan MapTable Vfs.

(** ** lib/parser.c *)

Definition MAX_OPT_ARGS : nat := 3.

(** A [substring_t] as its text.  The result is [None] for a mismatch and
    otherwise the arguments found.  Every turn of the loop consumes a
    conversion of the pattern, which bounds the turns. *)
Fixpoint match_loop (fuel : nat) (s p : block) (args : list (list Z))
  : res (option (list (list Z))) :=
  match fuel with
  | O => Fault OutOfFuel
  | S fuel =>
      meta ← strchr p 37;
      match meta with
      | None => c ← strcmp p s; Ok (if c =? 0 then Some args else None)
      | Some k =>
          c ← strncmp p s k;
          if negb (c =? 0) then Ok None else
          let s := drop k s in
          let p := drop (S k) p in
          p0 ← rd p 0;
          '(len, p, literal) ←
            (if isdigit p0 then '(v, p) ← simple_strtoul p 10; Ok (s32 v, p, false)
             else Ok (-1, p, p0 =? 37));
          if (literal : bool) then
            s0 ← rd s 0;
            if negb (s0 =? 37) then Ok None else match_loop fuel (drop 1 s) (drop 1 p) args
          else if (MAX_OPT_ARGS <=? length args)%nat then Ok None
          else
          p0 ← rd p 0;
          let p := drop 1 p in
          to ←
            (if p0 =? 115 then
               n ← strlen s;
               Ok (if n =? 0 then None
                   else Some (drop (Z.to_nat (if (len =? -1) || (n <? u32 len) then n else len)) s))
             else
               end_ ← (if p0 =? 100 then '(_, e) ← simple_strtol s 0; Ok (Some e)
                       else if p0 =? 117 then '(_, e) ← simple_strtoul s 0; Ok (Some e)
                       else if p0 =? 111 then '(_, e) ← simple_strtoul s 8; Ok (Some e)
                       else if p0 =? 120 then '(_, e) ← simple_strtoul s 16; Ok (Some e)
                       else Ok None);
               Ok (match end_ with
                   | Some e => if (length e =? length s)%nat then None else Some e
                   | None => None
                   end));
          match to with
          | None => Ok None
          | Some e => match_loop fuel e p (args ++ [take (length s - length e) s])
          end
      end
  end.

(** match_one: a null pattern matches everything. *)
Definition match_one (s : block) (p : option block) : res (option (list (list Z))) :=
  match p with
  | None => Ok (Some [])
  | Some p => match_loop (S (length p)) s p []
  end.

(** match_token: the first entry of the table that matches. *)
Fixpoint match_token (s : block) (table : list (Z * option block)) : res (Z * list (list Z)) :=
  match table with
  | [] => Fault OutOfBounds
  | (token, pattern) :: table =>
      m ← match_one s pattern;
      match m with Some args => Ok (token, args) | None => match_token s table end
  end.

(** match_number: error code and value; the copy is NUL-terminated. *)
Definition match_number (s : list Z) (base : Z) : M (Z * Z) :=
  a ← alloc;
  if negb a then mret (- ENOMEM, 0) else
  let buf := s ++ [0] in
  '(v, endp) ← lift (simple_strtol buf base);
  mret (if (length endp =? length buf)%nat then - EINVAL else 0, v).

Definition match_octal (s : list Z) : M (Z * Z) := match_number s 8.

(** ** wjfs_parse_options *)

Definition RAMFS_DEFAULT_MODE := 493.  (* 0755 *)
Definition Opt_mode := 0.
Definition Opt_err := 1.

Definition tokens : list (Z * option block) :=
  [(Opt_mode, Some (lit "mode=%o")); (Opt_err, None)].

(** The loop: [strsep] cuts the next option out of the string; the number of
    bytes bounds the number of options. *)
Fixpoint parse_loop (fuel : nat) (b : block) (data : option nat) (mode : Z) : M (Z * Z) :=
  match fuel with
  | O => fail OutOfFuel
  | S fuel =>
      '(p, data, b) ← lift (strsep b data (lit ","));
      match p with
      | None => mret (0, mode)
      | Some p =>
          c ← lift (rd b p);
          if c =? 0 then parse_loop fuel b data mode else
          '(token, args) ← lift (match_token (drop p b) tokens);
          if token =? Opt_mode then
            a ← lift (match args with a :: _ => Ok a | [] => Fault OutOfBounds end);
            '(err, option) ← match_octal a;
            if negb (err =? 0) then mret (- EINVAL, mode)
            else parse_loop fuel b data (Z.land option S_IALLUGO)
          else parse_loop fuel b data mode
      end
  end.

(** Error code and [opts->mode]; [data] is [None] for a null pointer. *)
Definition wjfs_parse_options (data : option block) : M (Z * Z) :=
  match data with
  | None => parse_loop 1 [] None RAMFS_DEFAULT_MODE
  | Some b => parse_loop (S (S (length b))) b (Some 0%nat) RAMFS_DEFAULT_MODE
  end.

(** ** What an option string means *)

Definition oct (c : Z) : bool := (48 <=? c) && (c <=? 55).

Definition octal (ds : list Z) : Z := fold_left (fun v d => v * 8 + (d - 48)) ds 0.

(** The digits of a well-formed [mode=] option. *)
Definition mode_digits (o : list Z) : option (list Z) :=
  let ds := drop 5 o in
  if bool_decide (take 5 o = bytes "mode=") && negb (bool_decide (ds = [])) && forallb oct ds
  then Some ds else None.

Definition mode_step (m : Z) (o : list Z) : Z :=
  match mode_digits o with Some ds => octal ds mod 4096 | None => m end.

(** The words between commas. *)
Fixpoint commas (t : list Z) : list (list Z) :=
  match t with
  | [] => [[]]
  | c :: t =>
      if c =? 44 then [] :: commas t
      else match commas t with w :: ws => (c :: w) :: ws | [] => [[c]] end
  end.

Definition mount_mode (t : list Z) : Z := fold_left mode_step (commas t) RAMFS_DEFAULT_MODE.

(** ** Octal numbers *)

Lemma oct_digit c :
  byteP c -> (if isxdigit c then negb (8 <=? digit_value c) else false) = oct c /\
    (oct c = true -> digit_value c = c - 48).
Proof.
  intros H.
  assert (E : Bool.eqb (if isxdigit c then negb (8 <=? digit_value c) else false) (oct c)
              && (negb (oct c) || (digit_value c =? c - 48)) = true).
  { refine (byte_forall (fun c => Bool.eqb (if isxdigit c then negb (8 <=? digit_value c) else false)
      (oct c) && (negb (oct c) || (digit_value c =? c - 48))) _ c H). vm_compute. reflexivity. }
  apply andb_true_iff in E as [E1 E2]. apply Bool.eqb_prop in E1. split; [done|].
  intros Ho. rewrite Ho in E2. by apply Z.eqb_eq.
Qed.

(** Octal digits and what follows them. *)
Fixpoint span_oct (t : list Z) : list Z * list Z :=
  match t with
  | [] => ([], [])
  | c :: t' => if oct c then let '(a, b) := span_oct t' in (c :: a, b) else ([], t)
  end.

Lemma span_oct_app t : t = fst (span_oct t) ++ snd (span_oct t).
Proof.
  induction t as [|c t IH]; [done|]. simpl. destruct (oct c); [|done].
  destruct (span_oct t). simpl in *. congruence.
Qed.

Lemma span_oct_all t : forallb oct t = true -> span_oct t = (t, []).
Proof.
  induction t as [|c t IH]; [done|]. simpl. intros [-> H]%andb_true_iff. by rewrite (IH H).
Qed.

Lemma span_oct_rest t : forallb oct t = false -> snd (span_oct t) <> [].
Proof.
  induction t as [|c t IH]; [done|]. simpl. destruct (oct c); [|done].
  intros H%IH. by destruct (span_oct t).
Qed.

Definition oct32 (ds : list Z) (acc : Z) : Z := fold_left (fun v d => u32 (v * 8 + (d - 48))) ds acc.

Lemma strtoul_oct t r acc :
  Forall byteP t ->
  strtoul_loop (t ++ 0 :: r) 8 acc
  = Ok (oct32 (fst (span_oct t)) acc, snd (span_oct t) ++ 0 :: r).
Proof.
  intros Ht. revert acc. induction Ht as [|c t Hc Ht IH]; intros acc; [done|].
  cbn [app strtoul_loop span_oct]. destruct (oct_digit c Hc) as [E Ev].
  destruct (isxdigit c); [|by rewrite <- E]. destruct (8 <=? digit_value c) eqn:Ed.
  - by rewrite <- E.
  - rewrite <- E in Ev |- *. cbn [negb]. rewrite IH, Ev by done. by destruct (span_oct t).
Qed.

Lemma land_4095 x : Z.land x 4095 = x mod 4096.
Proof. change 4095 with (Z.ones 12). by rewrite Z.land_ones by lia. Qed.

Lemma oct32_mod ds acc acc' :
  acc mod 4096 = acc' mod 4096 ->
  oct32 ds acc mod 4096 = fold_left (fun v d => v * 8 + (d - 48)) ds acc' mod 4096.
Proof.
  revert acc acc'. induction ds as [|d ds IH]; intros acc acc' E; [done|].
  unfold oct32 in *. cbn [fold_left]. apply IH. unfold u32. dlia.
Qed.

Lemma oct_mode ds : Z.land (s32 (oct32 ds 0)) S_IALLUGO = octal ds mod 4096.
Proof.
  unfold S_IALLUGO, octal. rewrite land_4095, <- (oct32_mod ds 0 0) by done. unfold s32. dlia.
Qed.

(** ** Matching one option *)

Lemma strncmp_eq n : forall cs ct t1 t2,
  is_cstr cs t1 -> is_cstr ct t2 ->
  exists r, strncmp cs ct n = Ok r /\ (r = 0 <-> take n t1 = take n t2).
Proof.
  induction n as [|n IH]; intros cs ct t1 t2 H1 H2; [by exists 0|].
  destruct cs as [|c1 cs]; [destruct H1 as [_ [r Hr]]; by destruct t1|].
  destruct ct as [|c2 ct]; [destruct H2 as [_ [r Hr]]; by destruct t2|].
  apply is_cstr_inv in H1 as [[-> ->]|(Hc1 & t1' & -> & Ht1)];
    apply is_cstr_inv in H2 as [[-> ->]|(Hc2 & t2' & -> & Ht2)]; cbn [strncmp take].
  - by exists 0.
  - rewrite (proj2 (Z.eqb_neq 0 c2)) by done. eexists; split; [done|]. by case_match.
  - rewrite (proj2 (Z.eqb_neq c1 0)) by done. eexists; split; [done|]. by case_match.
  - destruct (Z.eqb_spec c1 c2) as [->|Hne]; cbn [negb].
    + rewrite (proj2 (Z.eqb_neq c2 0)) by done.
      destruct (IH _ _ _ _ Ht1 Ht2) as (r & -> & Hr). exists r. split; [done|].
      rewrite Hr. split; congruence.
    + eexists; split; [done|]. case_match; naive_solver.
Qed.

(** simple_strtoul to base 8 stops behind the octal digits, and not at the end of the text when
    another character follows them. *)
Lemma strtoul_octal ds r :
  Forall byteP ds -> exists v, simple_strtoul (ds ++ 0 :: r) 8 = Ok (v, snd (span_oct ds) ++ 0 :: r).
Proof.
  intros Hds. unfold simple_strtoul. change (8 =? 0) with false. cbn iota. rewrite bind_ok.
  change (8 =? 16) with false. cbn iota. rewrite bind_ok, strtoul_oct by done. eauto.
Qed.

Lemma octal_rest ds :
  Forall (fun c => c <> 0) ds -> forallb oct ds = false -> exists x rest, snd (span_oct ds) = x :: rest /\ x <> 0.
Proof.
  intros Hnz Ef. pose proof (span_oct_app ds) as Hs. pose proof (span_oct_rest ds Ef) as Hr.
  destruct (snd (span_oct ds)) as [|x rest]; [done|]. exists x, rest. split; [done|].
  rewrite List.Forall_forall in Hnz. apply Hnz, list_elem_of_In. rewrite Hs. set_solver.
Qed.

(** The pattern is [mode=%o]: the literal part, then at least one octal digit
    up to the end of the option. *)
Lemma match_mode o r :
  Forall (fun c => 0 < c < 256) o ->
  match_one (o ++ 0 :: r) (Some (lit "mode=%o")) = Ok ((fun ds => [ds]) <$> mode_digits o).
Proof.
  intros Ho.
  assert (Hnz : Forall (fun c => c <> 0) o) by (eapply List.Forall_impl; [|exact Ho]; simpl; lia).
  unfold match_one. change (length (lit "mode=%o")) with 8%nat. cbn [match_loop].
  change (strchr (lit "mode=%o") 37) with (Ok (Some 5%nat)). rewrite bind_ok. cbn iota.
  destruct (strncmp_eq 5 (lit "mode=%o") (o ++ 0 :: r) (bytes "mode=%o") o) as (c & -> & Hc);
    [apply is_cstr_lit; by repeat constructor|by apply is_cstr_app|].
  rewrite bind_ok. unfold mode_digits.
  change (take 5 (bytes "mode=%o")) with (bytes "mode=") in Hc.
  destruct (Z.eqb_spec c 0) as [E|E]; cbn [negb]; cycle 1.
  { by rewrite bool_decide_false by (intros E'; apply E, Hc; done). }
  apply Hc in E. rewrite bool_decide_true by done. cbn [andb].
  assert (Hd : drop 5 (o ++ 0 :: r) = drop 5 o ++ 0 :: r).
  { rewrite drop_app_le; [done|]. apply (f_equal length) in E. rewrite length_take in E.
    change (length (bytes "mode=")) with 5%nat in E. lia. }
  rewrite Hd. change (drop 6 (lit "mode=%o")) with [111; 0].
  change (rd [111; 0] 0) with (Ok 111). rewrite bind_ok. change (isdigit 111) with false.
  cbn iota. rewrite bind_ok. cbn iota beta. change (111 =? 37) with false. cbn iota.
  change (MAX_OPT_ARGS <=? length (@nil (list Z)))%nat with false. cbn iota.
  change (rd [111; 0] 0) with (Ok 111). rewrite bind_ok.
  change (111 =? 115) with false. change (111 =? 100) with false. change (111 =? 117) with false.
  change (111 =? 111) with true. cbn iota. change (drop 1 [111; 0]) with [0].
  set (ds := drop 5 o) in *.
  assert (Hds : Forall byteP ds).
  { apply Forall_drop. eapply List.Forall_impl; [|exact Ho]. unfold byteP. simpl. lia. }
  destruct (strtoul_octal ds r Hds) as (v & ->).
  rewrite bind_ok. cbn iota beta. rewrite bind_ok. cbn iota beta. rewrite bind_ok.
  destruct (forallb oct ds) eqn:Ef.
  - rewrite span_oct_all by done. cbn [fst snd app]. destruct ds as [|d ds'] eqn:Eds.
    + by rewrite Nat.eqb_refl.
    + rewrite (proj2 (Nat.eqb_neq _ _)) by (cbn [length app]; rewrite length_app; cbn [length]; lia).
      cbn iota. change (strchr [0] 37) with (Ok (@None nat)). rewrite bind_ok.
      change (strcmp [0] (0 :: r)) with (Ok 0). rewrite bind_ok. cbn [app fmap option_fmap option_map].
      change (Ok (Some [take (length ((d :: ds') ++ 0 :: r) - length (0 :: r)) ((d :: ds') ++ 0 :: r)])
        = Ok (Some [d :: ds'])).
      by rewrite length_app, Nat.add_sub, take_app_length.
  - rewrite andb_false_r. cbn [fmap option_fmap option_map].
    destruct (_ =? _)%nat; [done|]. change (strchr [0] 37) with (Ok (@None nat)). rewrite bind_ok.
    destruct (octal_rest ds) as (x & rest & -> & Hx); [by apply Forall_drop|done|].
    cbn [app strcmp]. rewrite (proj2 (Z.eqb_neq 0 x)) by done. cbn [negb].
    rewrite bind_ok. by destruct (0 <? x).
Qed.

(** The token of an option, and its argument. *)
Lemma match_token_mode o r :
  Forall (fun c => 0 < c < 256) o ->
  match_token (o ++ 0 :: r) tokens
  = Ok (match mode_digits o with Some ds => (Opt_mode, [ds]) | None => (Opt_err, []) end).
Proof.
  intros Ho. unfold tokens. cbn [match_token]. rewrite match_mode, bind_ok by done.
  by destruct (mode_digits o).
Qed.

Lemma mode_digits_inv o ds :
  mode_digits o = Some ds -> ds <> [] /\ forallb oct ds = true.
Proof.
  unfold mode_digits. destruct (bool_decide (take 5 o = _)); [|done]. cbn [andb].
  destruct (bool_decide_reflect (drop 5 o = [])); [done|]. cbn [negb andb].
  destruct (forallb oct _) eqn:E; [|done]. by intros [= <-].
Qed.

Lemma match_octal_ok ds s :
  mem s = [] -> ds <> [] -> forallb oct ds = true ->
  match_octal ds s = Ok ((0, s32 (oct32 ds 0)), s).
Proof.
  intros Hm Hne Ho. unfold match_octal, match_number.
  erewrite M_bind_ok by (unfold alloc; by rewrite Hm). cbn [negb].
  assert (Hb : Forall byteP ds).
  { rewrite List.Forall_forall. intros c Hc. rewrite forallb_forall in Ho. apply Ho in Hc.
    unfold oct in Hc. apply andb_true_iff in Hc as [H1%Z.leb_le H2%Z.leb_le]. unfold byteP. lia. }
  assert (E : simple_strtol (ds ++ [0]) 8 = Ok (s32 (oct32 ds 0), [0])).
  { unfold simple_strtol. destruct ds as [|d ds]; [done|].
    change (rd ((d :: ds) ++ [0]) 0) with (Ok d). rewrite bind_ok.
    assert (d <> 45) as Hd.
    { intros ->. done. }
    rewrite (proj2 (Z.eqb_neq d 45)) by done. unfold simple_strtoul.
    change (8 =? 0) with false. cbn iota. rewrite bind_ok.
    change (8 =? 16) with false. cbn iota. rewrite bind_ok, strtoul_oct by done.
    by rewrite span_oct_all by done. }
  erewrite M_bind_ok by (unfold lift; by rewrite E). cbn iota beta. unfold mret, M_ret.
  rewrite (proj2 (Nat.eqb_neq _ _)); [done|]. rewrite length_app. cbn [length].
  destruct ds; [done|]. cbn [length]. lia.
Qed.

(** ** The loop *)

Lemma first_comma t : 44 ∉ t \/ exists u v, t = u ++ 44 :: v /\ 44 ∉ u.
Proof.
  induction t as [|c t [H|(u & v & -> & H)]].
  - left. apply not_elem_of_nil.
  - destruct (decide (c = 44)) as [->|]; [right; exists [], t; split; [done|apply not_elem_of_nil]|].
    left. by apply not_elem_of_cons.
  - destruct (decide (c = 44)) as [->|];
      [right; eexists [], _; split; [done|apply not_elem_of_nil]|].
    right. exists (c :: u), v. split; [done|]. by apply not_elem_of_cons.
Qed.

Lemma commas_one t : 44 ∉ t -> commas t = [t].
Proof.
  induction t as [|c t IH]; [done|]. intros [Hc Ht]%not_elem_of_cons. cbn [commas].
  rewrite (proj2 (Z.eqb_neq c 44)) by done. by rewrite IH.
Qed.

Lemma commas_cons u v : 44 ∉ u -> commas (u ++ 44 :: v) = u :: commas v.
Proof.
  induction u as [|c u IH]; [done|]. intros [Hc Hu]%not_elem_of_cons. cbn [app commas].
  rewrite (proj2 (Z.eqb_neq c 44)) by done. by rewrite IH.
Qed.

(** One turn of the loop, after [strsep] cut out the option [o]. *)
Lemma parse_turn fuel b off data o r mode s :
  mem s = [] -> Forall (fun c => 0 < c < 256) o -> drop off b = o ++ 0 :: r ->
  (c ← lift (rd b off);
   if c =? 0 then parse_loop fuel b data mode else
   '(token, args) ← lift (match_token (drop off b) tokens);
   if token =? Opt_mode then
     a ← lift (match args with a :: _ => Ok a | [] => Fault OutOfBounds end);
     '(err, option) ← match_octal a;
     if negb (err =? 0) then mret (- EINVAL, mode)
     else parse_loop fuel b data (Z.land option S_IALLUGO)
   else parse_loop fuel b data mode) s
  = parse_loop fuel b data (mode_step mode o) s.
Proof.
  intros Hm Ho Hb.
  assert (Hrd : rd b off = Ok (default 0 (head o))).
  { apply rd_ok. rewrite <- (Nat.add_0_r off), <- lookup_drop, Hb. by destruct o. }
  erewrite M_bind_ok by (unfold lift; by rewrite Hrd). destruct o as [|c o]; [done|].
  pose proof (Forall_inv Ho) as Hc. simpl in Hc. change (default 0 (head (c :: o))) with c.
  rewrite (proj2 (Z.eqb_neq c 0)) by lia. rewrite Hb.
  erewrite M_bind_ok by (unfold lift; by rewrite match_token_mode). unfold mode_step.
  destruct (mode_digits (c :: o)) as [ds|] eqn:E; cbn iota beta.
  - apply mode_digits_inv in E as [Hne Hoct]. change (Opt_mode =? Opt_mode) with true. cbn iota.
    erewrite M_bind_ok by reflexivity. erewrite M_bind_ok by (by apply match_octal_ok).
    cbn iota beta. change (negb (0 =? 0)) with false. cbn iota. by rewrite oct_mode.
  - done.
Qed.

Lemma parse_loop_ok fuel : forall b off t r mode s,
  mem s = [] -> Forall (fun c => 0 < c < 256) t -> drop off b = t ++ 0 :: r ->
  (length t + 1 < fuel)%nat ->
  parse_loop fuel b (Some off) mode s = Ok ((0, fold_left mode_step (commas t) mode), s).
Proof.
  induction fuel as [|fuel IH]; intros b off t r mode s Hm Ht Hb Hf; [lia|].
  assert (Hcomma : is_cstr (lit ",") [44]) by (apply is_cstr_lit; by repeat constructor).
  assert (Hnz : Forall (fun c => c <> 0) t) by (eapply List.Forall_impl; [|exact Ht]; simpl; lia).
  cbn [parse_loop]. destruct (first_comma t) as [Hno|(u & v & -> & Hu)].
  - assert (E : strsep b (Some off) (lit ",") = Ok (Some off, None, b)).
    { unfold strsep. rewrite (strpbrk_miss _ _ t _ Hcomma); [done|rewrite Hb; by apply is_cstr_app|].
      rewrite List.Forall_forall. intros x Hx [= ->]%list_elem_of_singleton.
      by apply Hno, list_elem_of_In. }
    erewrite M_bind_ok by (unfold lift; by rewrite E). cbn iota beta.
    erewrite parse_turn by done. rewrite commas_one by done. cbn [fold_left].
    destruct fuel as [|fuel]; [lia|]. cbn [parse_loop].
    by erewrite M_bind_ok by reflexivity.
  - apply Forall_app in Ht as [Htu [_ Htv]%Forall_cons_iff].
    apply Forall_app in Hnz as [Hnu _].
    assert (Hlen : (off + length u < length b)%nat).
    { apply (f_equal length) in Hb. rewrite length_drop, !length_app in Hb. cbn [length] in Hb. lia. }
    set (b' := <[(off + length u)%nat := 0]> b).
    assert (E : strsep b (Some off) (lit ",")
                = Ok (Some off, Some (off + length u + 1)%nat, b')).
    { unfold strsep.
      rewrite (strpbrk_hit _ _ u _ 44 (v ++ 0 :: r) Hcomma); [|..|by rewrite Hb, <- app_assoc].
      - rewrite bind_ok, wr_ok by done. by rewrite bind_ok.
      - rewrite List.Forall_forall in *. intros x Hx. split; [by apply Hnu|].
        intros [= ->]%list_elem_of_singleton. by apply Hu, list_elem_of_In.
      - by apply list_elem_of_singleton.
      - done. }
    erewrite M_bind_ok by (unfold lift; by rewrite E). cbn iota beta.
    assert (Hb' : drop off b' = u ++ 0 :: v ++ 0 :: r).
    { unfold b'. rewrite drop_insert_ge by lia. rewrite Hb, <- app_assoc.
      replace (off + length u - off)%nat with (length u + 0)%nat by lia.
      by rewrite insert_app_r. }
    rewrite (parse_turn _ _ _ _ u (v ++ 0 :: r)) by done. rewrite commas_cons by done. cbn [fold_left].
    apply (IH _ _ _ r); [done|done| |rewrite length_app in Hf; cbn [length] in Hf; lia].
    rewrite <- Nat.add_assoc, <- drop_drop, Hb'. rewrite drop_app_ge by lia.
    by replace (length u + 1 - length u)%nat with 1%nat by lia.
Qed.

Lemma parse_options_ok b t s :
  mem s = [] -> is_cstr b t -> Forall byteP t ->
  wjfs_parse_options (Some b) s = Ok ((0, mount_mode t), s).
Proof.
  intros Hm [Hnz [r ->]] Hb. unfold wjfs_parse_options. apply (parse_loop_ok _ _ 0 t r); try done.
  - rewrite List.Forall_forall in *. intros c Hc. specialize (Hnz c Hc). specialize (Hb c Hc).
    unfold byteP in Hb. lia.
  - rewrite length_app. cbn [length]. lia.
Qed.

Lemma mount_mode_range t : 0 <= mount_mode t <= S_IALLUGO.
Proof.
  unfold mount_mode, S_IALLUGO.
  assert (H : 0 <= RAMFS_DEFAULT_MODE <= 4095) by (unfold RAMFS_DEFAULT_MODE; lia). revert H.
  generalize RAMFS_DEFAULT_MODE. induction (commas t) as [|o l IH]; intros m H; [done|].
  cbn [fold_left]. apply IH. unfold mode_step. destruct (mode_digits o); [dlia|done].
Qed.

(** C29: wjfs_parse_options reads every option string without an error: the words
    between commas in order, each well-formed [mode=] word sets the mode, every
    other word is skipped, and the result is a permission mode. *)
Theorem parse_options_spec b t s :
  mem s = [] -> is_cstr b t -> Forall byteP t ->
  wjfs_parse_options (Some b) s
    = Ok ((0, fold_left mode_step (commas t) RAMFS_DEFAULT_MODE), s) /\
  0 <= fold_left mode_step (commas t) RAMFS_DEFAULT_MODE <= S_IALLUGO.
Proof. intros. split; [by apply parse_options_ok|apply (mount_mode_range t)]. Qed.
