(* ===== verification/Mount.v ===== *)
(** * Mounting

    wjfs_fill_super of wjfs.c, and the node it makes. *)

From S2P Require Import Prelude KString KScan KFormat Wire Ksocket MapTable Vfs Tree Ops.
From S2P Require Import PageIo Server Umount Node Inv Options.

(** ** wjfs_fill_super *)

(** The result is the error code and [s_root].  On the failure paths before the
    root inode exists, [iput] gets an uninitialised pointer. *)
Definition wjfs_fill_super (data : option block) : M (Z * option nat) :=
  fsi ← alloc;
  if negb fsi then fail BadPointer else
  '(err, mode) ← wjfs_parse_options data;
  if negb (err =? 0) then fail BadPointer else
  root_inode ← wjfs_get_inode (Z.lor S_IFDIR mode) 0;
  match root_inode with
  | None => mret (- ENOMEM, None)
  | Some ir =>
      root_dentry ← d_alloc_root (Some ir);
      match root_dentry with
      | None => iput ir;; mret (- ENOMEM, None)
      | Some r =>
          t ← gets (fun s => g_table (glob s));
          t ← lift (table_reset t);
          modify (fun s => let g := glob s in
            with_glob (mkGlobals (Some r) (g_a_dentry g) t (g_read_k g)) s);;
          mret (0, Some r)
      end
  end.

(** ** A machine after boot *)

(** The table in the BSS, no objects; [root] credentials. *)
Definition root_cred : cred := mkCred 0 0 [] true true true true true.

Definition boot : kstate :=
  mkK ∅ ∅ 0 [] 0 [] 0 root_cred (mkGlobals None None (replicate 1024 (replicate 52 0)) 1)
    (mkNet [] [] [] []).

Definition stack0 : autos :=
  mkAutos (replicate 1024 0) (replicate 1024 0) (replicate 120 0) (replicate 20 0)
    (replicate 20 0) [0; 0; 0; 0] (replicate 4096 0).

(** ** A mounted node *)

(** A machine on which wjfs is not mounted: no dentries of wjfs, no memory
    shortage, the module's table where the loader put it. *)
Record unmounted (s : kstate) : Prop := {
  um_mem : mem s = [];
  um_dentries : dentries s = ∅;
  um_hash : d_hash s = [];
  um_inodes : forall ir, is_Some (inodes s !! ir) -> (ir < fresh s)%nat;
  um_table : length (g_table (glob s)) = table_size;
  um_entries : Forall (fun e => length e = entry_size) (g_table (glob s));
}.

Definition root_dentry_of (r ir : nat) : dentry := mkDentry 1 false (Some ir) r [47] [] false false.

(** The node wjfs_fill_super makes: the root dentry, its inode, an empty table. *)
Definition mounted_state (mode : Z) (t : table) (s : kstate) : kstate :=
  let r := S (fresh s) in
  mkK (<[fresh s := made_inode s (Z.lor S_IFDIR mode)]> (inodes s))
    (<[r := root_dentry_of r (fresh s)]> (dentries s)) (S r) (d_hash s) (u32 (last_ino s + 1))
    (mem s) (now s) (cur s)
    (mkGlobals (Some r) (g_a_dentry (glob s)) t (g_read_k (glob s))) (network s).

Lemma dir_mode mode : 0 <= mode <= S_IALLUGO -> Z.land (Z.lor S_IFDIR mode) S_IFMT = S_IFDIR.
Proof.
  intros Hm. rewrite Z.land_lor_distr_l. change (Z.land S_IFDIR S_IFMT) with S_IFDIR.
  assert (Z.land mode S_IFMT = 0) as ->; [|done].
  apply Z.bits_inj'. intros k Hk. rewrite Z.bits_0, Z.land_spec.
  destruct (decide (12 <= k)).
  - rewrite (Z.bits_above_log2 mode); [done|lia|].
    destruct (decide (mode = 0)) as [->|]; [simpl; lia|].
    apply Z.log2_lt_pow2; [lia|]. apply Z.lt_le_trans with (2 ^ 12);
      [unfold S_IALLUGO in Hm; lia|]. apply Z.pow_le_mono_r; lia.
  - assert (forallb (fun j => negb (Z.testbit S_IFMT j)) (map Z.of_nat (seq 0 12)) = true)
      as E by done.
    pose proof (below_forall 12 (fun j => negb (Z.testbit S_IFMT j)) E k ltac:(lia)) as E'.
    apply negb_true_iff in E'. by rewrite E', andb_false_r.
Qed.

Lemma fill_super_ok data mode s :
  unmounted s -> wjfs_parse_options data s = Ok ((0, mode), s) -> 0 <= mode <= S_IALLUGO ->
  exists t', table_reset (g_table (glob s)) = Ok t' /\
    wjfs_fill_super data s = Ok ((0, Some (S (fresh s))), mounted_state mode t' s).
Proof.
  intros [Hm Hd Hh Hi Hl He] Hopt Hmode.
  destruct (table_reset_spec _ He) as (t' & Et & _). exists t'. split; [done|].
  pose proof (dir_mode _ Hmode) as Hdir. unfold wjfs_fill_super.
  erewrite M_bind_ok by (by apply alloc_ok). cbn [negb].
  erewrite M_bind_ok by exact Hopt. cbn iota beta. change (negb (0 =? 0)) with false. cbn iota.
  erewrite M_bind_ok by (apply wjfs_get_inode_ok; [done|by right]). cbn iota.
  set (s1 := with_new_inode _ s).
  assert (Ealloc : d_alloc_root (Some (fresh s)) s1 = Ok (Some (S (fresh s)),
    with_dentries (<[S (fresh s) := root_dentry_of (S (fresh s)) (fresh s)]> (dentries s))
      (mkK (inodes s1) (dentries s1) (S (S (fresh s))) (d_hash s) (last_ino s1) (mem s) (now s)
         (cur s) (glob s) (network s)))).
  { unfold d_alloc_root, d_alloc. erewrite M_bind_ok; cycle 1.
    { erewrite M_bind_ok by (by apply alloc_ok). cbn [negb].
      erewrite M_bind_ok by reflexivity. cbn [negb]. erewrite M_bind_ok by reflexivity.
      by erewrite M_bind_ok by reflexivity. }
    cbn iota. erewrite M_bind_ok by (apply upd_dentry_ok; simpl; apply lookup_insert_eq).
    erewrite M_bind_ok; cycle 1.
    { unfold d_instantiate.
      erewrite M_bind_ok by (apply get_dentry_ok; simpl; apply lookup_insert_eq). cbn iota.
      apply upd_dentry_ok; simpl; apply lookup_insert_eq. }
    unfold mret, M_ret. simpl. by rewrite !insert_insert_eq. }
  erewrite M_bind_ok by exact Ealloc. cbn iota.
  erewrite M_bind_ok by reflexivity.
  erewrite M_bind_ok by (unfold lift; simpl; by rewrite Et).
  by erewrite M_bind_ok by reflexivity.
Qed.

Lemma mounted_idle mode t' s : unmounted s -> idle (dentries (mounted_state mode t' s)).
Proof.
  intros Hs x. unfold users. simpl. rewrite (um_dentries _ Hs), lookup_insert.
  case_decide; [done|]. by rewrite lookup_empty.
Qed.

Lemma mounted_node_ok mode t' s :
  unmounted s -> 0 <= mode <= S_IALLUGO -> table_wf t' ->
  node_ok (mounted_state mode t' s) (Node (S (fresh s)) []).
Proof.
  intros [Hm Hd Hh Hi Hl He] Hmode Ht. pose proof (dir_mode _ Hmode) as Hdir.
  assert (Hsd : S_ISDIR (Z.lor S_IFDIR mode) = true) by (unfold S_ISDIR, ifmt; by rewrite Hdir).
  assert (Hone : forall x d, dentries (mounted_state mode t' s) !! x = Some d ->
    x = S (fresh s) /\ d = root_dentry_of (S (fresh s)) (fresh s)).
  { intros x d. simpl. rewrite Hd, lookup_insert_Some, lookup_empty. naive_solver. }
  split.
  - split; [apply NoDup_singleton| |constructor].
    eexists. simpl. split; [apply lookup_insert_eq|done].
  - intros x. by rewrite (mounted_idle mode t' s).
  - intros x. simpl. rewrite Hd, list_elem_of_singleton. split.
    + intros [d Hx]. by apply lookup_insert_Some in Hx as [[-> _]|[_ Hx]].
    + intros ->. rewrite lookup_insert_eq. eauto.
  - intros x. simpl. rewrite list_elem_of_singleton. intros ->. lia.
  - intros ir. simpl. rewrite lookup_insert. case_decide; [lia|]. intros H'%Hi. lia.
  - intros x d [-> ->]%Hone. exists (fresh s), (made_inode s (Z.lor S_IFDIR mode)). simpl.
    rewrite lookup_insert_eq, Hsd. split_and!; try done; [by intros E; rewrite E in Hsd|]. apply made_typed. by right.
  - intros r1 r2 d1 d2 ir [-> _]%Hone [-> _]%Hone. done.
  - intros x d [-> ->]%Hone. split; [by repeat constructor|simpl; lia].
  - intros x d [-> ->]%Hone Hx. done.
  - intros x. simpl. rewrite Hh, list_elem_of_singleton. split; [by intros []%not_elem_of_nil|].
    by intros [-> []].
  - intros r1 r2 d1 d2 [-> _]%Hone [-> _]%Hone. done.
  - done.
  - done.
Qed.

(** What the caller passes as [data]: nothing, or a string. *)
Definition data_text (data : option block) (t : list Z) : Prop :=
  match data with None => t = [] | Some b => is_cstr b t /\ Forall byteP t end.

Lemma parse_data data t s :
  mem s = [] -> data_text data t -> wjfs_parse_options data s = Ok ((0, mount_mode t), s).
Proof.
  intros Hm Hd. destruct data as [b|]; [|by simpl in Hd; subst t].
  destruct Hd. by apply parse_options_ok.
Qed.

(** C25: Mounting on a machine without wjfs succeeds and makes a node at rest whose
    root directory is [/], with the mode the options give and an empty table. *)
Theorem mount_node_ok data t s :
  unmounted s -> data_text data t ->
  exists s' root rd i, wjfs_fill_super data s = Ok ((0, Some root), s') /\
    node_ok s' (Node root []) /\ dentries s' !! root = Some rd /\ d_name rd = [47] /\
    d_inode rd = Some i /\
    i_mode <$> (inodes s' !! i) = Some (Z.lor S_IFDIR (mount_mode t)) /\
    links (g_table (glob s')) = Ok (replicate table_size None).
Proof.
  intros Hs Hd. pose proof (parse_data _ _ s (um_mem _ Hs) Hd) as Hopt.
  pose proof (mount_mode_range t) as Hmode.
  destruct (fill_super_ok data _ s Hs Hopt Hmode) as (t' & Et & E).
  destruct (table_reset_spec _ (um_entries _ Hs)) as (t1 & Et1 & Hl & Hwf & Hls).
  rewrite Et in Et1. injection Et1 as <-.
  rewrite (um_table _ Hs) in Hl, Hls. eexists _, _, _, _. split; [exact E|].
  split; [apply mounted_node_ok; [done|done|split; [lia|done]]|].
  simpl. rewrite !lookup_insert_eq. done.
Qed.
