(* ===== verification/Cluster.v ===== *)
(** * Two nodes

    A file created on one node appears on the other as a link: the request
    wjfs_mknod sends, received by the other node's wjfs_server, makes it. *)

From S2P Require Import Prelude KString KScan KFormat Wire Ksocket MapTable Vfs Tree Ops.
From S2P Require Import PageIo Server Umount Node Inv Remove Serve Options Mount.

(** is_my_file of a dentry answers what the links of the table say. *)
Lemma dentry_is_mine_spec r d ir i ls s :
  dentries s !! r = Some d -> d_inode d = Some ir -> inodes s !! ir = Some i ->
  table_wf (g_table (glob s)) -> links (g_table (glob s)) = Ok ls ->
  dentry_is_mine r s = Ok (spec_mine ls (i_ino i), s).
Proof.
  intros Hd Hir Hi Hwf Hls. unfold dentry_is_mine. erewrite M_bind_ok by (by apply get_dentry_ok).
  erewrite M_bind_ok by reflexivity. rewrite Hir. erewrite M_bind_ok by (by apply get_inode_ok).
  unfold lift. by rewrite (is_my_file_spec _ _ (proj2 Hwf) (proj1 (links_Forall2 _ _) Hls)).
Qed.

Section cluster.
Variable pointer : block -> block * nat -> Z -> va -> printf_spec -> res (block * nat).
Variable stack : autos.

(** ** The creating node *)

(** The address of the other node. *)
Definition test_addr : Z := 2256316608.

Lemma test_ip_addr junk : inet_addr test_ip junk = Ok test_addr.
Proof. vm_compute. reflexivity. Qed.

(** A request leaves the node. *)
Definition sent_one (addr port : Z) (msg : list Z) (s : kstate) : kstate :=
  with_net (mkNet (n_socket (network s)) (n_connect (network s))
              ((addr, port, msg) :: n_sent (network s)) (n_reply (network s))) s.

(** Sockets, connections and memory are there. *)
Definition online (s : kstate) : Prop :=
  n_socket (network s) = [] /\ n_connect (network s) = [] /\ mem s = [].

Lemma client_connect_ok s :
  online s -> client_connect pointer stack test_ip s = Ok (Some test_addr, s).
Proof using.
  intros (H1 & H2 & H3). unfold client_connect.
  erewrite M_bind_ok by (unfold lift; by rewrite test_ip_addr).
  erewrite M_bind_ok by (unfold net_socket; by rewrite H1). cbn [negb].
  erewrite M_bind_ok by (unfold net_connect; by rewrite H2). cbn [negb].
  erewrite M_bind_ok by (by apply alloc_ok).
  by erewrite M_bind_ok by (unfold lift; by rewrite inet_ntoa_text).
Qed.

Lemma take_text t : take (Z.to_nat (Z.of_nat (length t))) (splice (replicate 1024 0) 0 (t ++ [0])) = t.
Proof using.
  rewrite Nat2Z.id. unfold splice. rewrite take_0. cbn [app]. rewrite <- app_assoc.
  by rewrite take_app_length.
Qed.

Lemma client_create_ok ino n inop np mode s :
  online s -> length (a_buf stack) = 1024%nat ->
  Forall (fun c => c <> 0) n -> Forall (fun c => c <> 0) np ->
  (length n <= 255)%nat -> (length np <= 255)%nat ->
  wjfs_client_create pointer stack test_ip test_port ino (n ++ [0]) inop (np ++ [0]) mode s
  = Ok (0, sent_one test_addr (htons test_port)
             (req_text (bytes "CR") (s32 ino) n (s32 inop) np (mode_text mode)) s).
Proof using.
  intros Hon Hb Hn Hnp Hl Hlp. unfold wjfs_client_create.
  erewrite M_bind_ok by (by apply client_connect_ok). cbn iota.
  destruct (build_request_ok pointer "CR" (a_buf stack) ino (n ++ [0]) n inop (np ++ [0]) np mode)
    as [_ E]; try done; [|by apply is_cstr_app|by apply is_cstr_app|].
  { split; [done|]. split; [done|by repeat constructor]. }
  erewrite M_bind_ok by (unfold lift; by rewrite E).
  cbn iota beta. erewrite M_bind_ok by reflexivity. unfold mret, M_ret, sent_one. by rewrite take_text.
Qed.

(** wjfs_mknod on a dentry the VFS looked up: the inode is attached and the
    other node is told. *)
Lemma wjfs_mknod_ok pir pi r d p pd mode s :
  mem s = [] -> online s -> length (a_buf stack) = 1024%nat ->
  Z.land mode S_IFMT = S_IFREG \/ Z.land mode S_IFMT = S_IFDIR ->
  dentries s !! r = Some d -> d_inode d = None -> d_count d <> 0 -> d_parent d = p -> p <> r ->
  dentries s !! p = Some pd -> d_inode pd = Some pir -> inodes s !! pir = Some pi ->
  (pir < fresh s)%nat ->
  Forall (fun c => c <> 0) (d_name d) -> Forall (fun c => c <> 0) (d_name pd) ->
  (length (d_name d) <= 255)%nat -> (length (d_name pd) <= 255)%nat ->
  wjfs_mknod pointer stack pir r mode 0 s
  = Ok (0, sent_one test_addr (htons test_port)
             (req_text (bytes "CR") (s32 (u32 (last_ino s + 1))) (d_name d) (s32 (i_ino pi))
                (d_name pd) (mode_text (if S_ISDIR mode then 1 else 0)))
             (attached pir pi r d mode s)).
Proof using.
  intros Hm Hon Hb Hmode Hr Hri Hrc Hrp Hne Hp Hpi Hpir Hlt Hn Hnp Hl Hlp. unfold wjfs_mknod.
  erewrite M_bind_ok by (by eapply mknod_attach_ok). cbn iota beta.
  erewrite M_bind_ok by reflexivity.
  set (s1 := attached pir pi r d mode s).
  erewrite M_bind_ok; cycle 1.
  { apply get_inode_ok. simpl. rewrite lookup_insert_ne by lia. apply lookup_insert_eq. }
  assert (Eino : i_ino (inherit pi mode (made_inode s mode)) = u32 (last_ino s + 1))
    by (unfold inherit; by destruct (negb _)).
  rewrite Eino.
  erewrite M_bind_ok; cycle 1.
  { unfold about_dentry.
    erewrite M_bind_ok by (apply get_dentry_ok; simpl; apply lookup_insert_eq).
    cbn [d_parent set_d_count set_d_inode]. rewrite Hrp.
    erewrite M_bind_ok by (apply get_dentry_ok; simpl; rewrite lookup_insert_ne by done; exact Hp).
    rewrite Hpi. erewrite M_bind_ok by reflexivity.
    erewrite M_bind_ok by (apply get_inode_ok; simpl; apply lookup_insert_eq). reflexivity. }
  cbn iota beta. cbn [d_name set_d_count set_d_inode i_ino set_mtime_ctime set_times].
  erewrite M_bind_ok by (by apply client_create_ok). done.
Qed.

(** ** The removing node *)

Lemma client_remove_ok ino n inop np mode s :
  online s -> length (a_buf stack) = 1024%nat ->
  Forall (fun c => c <> 0) n -> Forall (fun c => c <> 0) np ->
  (length n <= 255)%nat -> (length np <= 255)%nat ->
  wjfs_client_remove pointer stack test_ip test_port ino (n ++ [0]) inop (np ++ [0]) mode s
  = Ok (0, sent_one test_addr (htons test_port)
             (req_text (bytes "RM") (s32 ino) n (s32 inop) np (mode_text mode)) s).
Proof using.
  intros Hon Hb Hn Hnp Hl Hlp. unfold wjfs_client_remove.
  erewrite M_bind_ok by (by apply client_connect_ok). cbn iota.
  destruct (build_request_ok pointer "RM" (a_buf stack) ino (n ++ [0]) n inop (np ++ [0]) np mode)
    as [_ E]; try done; [apply verb_RM|by apply is_cstr_app|by apply is_cstr_app|].
  erewrite M_bind_ok by (unfold lift; by rewrite E).
  cbn iota beta. erewrite M_bind_ok by reflexivity. unfold mret, M_ret, sent_one. by rewrite take_text.
Qed.

(** The state after simple_unlink of a dentry the VFS still holds: link count
    and times, and the reference that pinned it. *)
Definition unlinked (r : nat) (d : dentry) (ir : nat) (i : inode) (pir : nat) (pi : inode)
    (s : kstate) : kstate :=
  with_dentries (<[r := set_d_count (d_count d - 1) d]> (dentries s))
    (with_inodes (<[ir := set_links (u32 (i_nlink i - 1)) (i_count i) (set_ctime (now s) i)]>
      (<[pir := set_mtime_ctime (now s) pi]> (inodes s))) s).

Lemma simple_unlink_held r d ir i pir pi s :
  dentries s !! r = Some d -> d_count d <> 1 -> d_inode d = Some ir -> inodes s !! ir = Some i ->
  inodes s !! pir = Some pi -> pir <> ir ->
  simple_unlink pir r s = Ok (tt, unlinked r d ir i pir pi s).
Proof using.
  intros Hd Hc Hir Hi Hpi Hne. unfold simple_unlink.
  erewrite M_bind_ok by (by apply get_dentry_ok). rewrite Hir. erewrite M_bind_ok by reflexivity.
  erewrite M_bind_ok by reflexivity. erewrite M_bind_ok by (by apply upd_inode_ok).
  erewrite M_bind_ok by (apply upd_inode_ok; simpl; by rewrite lookup_insert_ne by done).
  unfold drop_nlink. erewrite M_bind_ok by (apply upd_inode_ok; simpl; apply lookup_insert_eq).
  unfold dput. cbn [dput_loop]. unfold atomic_dec_d.
  erewrite M_bind_ok by (by apply upd_dentry_ok).
  erewrite M_bind_ok by (apply get_dentry_ok; simpl; apply lookup_insert_eq).
  cbn [d_count set_d_count]. rewrite (proj2 (Z.eqb_neq _ 0)) by lia. cbn [negb].
  unfold mret, M_ret, unlinked. simpl. by rewrite insert_insert_eq.
Qed.

(** wjfs_unlink of a file of this node: the VFS holds the dentry, and the
    other node is told. *)
Lemma wjfs_unlink_ok r d ir i p pd pir pi ls s :
  online s -> length (a_buf stack) = 1024%nat -> table_wf (g_table (glob s)) ->
  links (g_table (glob s)) = Ok ls -> spec_mine ls (i_ino i) = true ->
  dentries s !! r = Some d -> d_count d <> 1 -> d_inode d = Some ir -> inodes s !! ir = Some i ->
  d_parent d = p -> p <> r -> dentries s !! p = Some pd -> d_inode pd = Some pir ->
  inodes s !! pir = Some pi -> pir <> ir ->
  Forall (fun c => c <> 0) (d_name d) -> Forall (fun c => c <> 0) (d_name pd) ->
  (length (d_name d) <= 255)%nat -> (length (d_name pd) <= 255)%nat ->
  wjfs_unlink pointer stack pir r s
  = Ok (0, sent_one test_addr (htons test_port)
             (req_text (bytes "RM") (s32 (i_ino i)) (d_name d) (s32 (i_ino pi)) (d_name pd)
                (mode_text 0)) (unlinked r d ir i pir pi s)).
Proof using.
  intros Hon Hb Hwf Hls Hmine Hr Hc Hir Hi Hrp Hne Hp Hpir Hpi Hine Hn Hnp Hl Hlp.
  unfold wjfs_unlink. erewrite M_bind_ok by (by eapply dentry_is_mine_spec). rewrite Hmine.
  cbn [negb]. erewrite M_bind_ok by (by eapply simple_unlink_held).
  erewrite M_bind_ok by (apply get_dentry_ok; simpl; apply lookup_insert_eq).
  cbn [d_inode set_d_count]. rewrite Hir. erewrite M_bind_ok by reflexivity.
  erewrite M_bind_ok by (apply get_inode_ok; simpl; apply lookup_insert_eq).
  erewrite M_bind_ok; cycle 1.
  { unfold about_dentry.
    erewrite M_bind_ok by (apply get_dentry_ok; simpl; apply lookup_insert_eq).
    cbn [d_parent set_d_count]. rewrite Hrp.
    erewrite M_bind_ok by (apply get_dentry_ok; simpl; rewrite lookup_insert_ne by done; exact Hp).
    rewrite Hpir. erewrite M_bind_ok by reflexivity.
    erewrite M_bind_ok by (apply get_inode_ok; simpl; rewrite lookup_insert_ne by done;
      apply lookup_insert_eq). reflexivity. }
  cbn iota beta. cbn [d_name set_d_count i_ino set_mtime_ctime set_times set_links set_ctime].
  erewrite M_bind_ok by (by apply client_remove_ok). done.
Qed.
End cluster.

(** ** Both together *)

(** What the creating node needs: a dentry the VFS looked up below a directory,
    with names and numbers that travel. *)
Record creating (s : kstate) (stack : autos) (r : nat) (d : dentry) (pd : dentry) (pir : nat)
    (pi : inode) (mode : Z) : Prop := {
  cr_mem : mem s = [];
  cr_online : online s;
  cr_buf : length (a_buf stack) = 1024%nat;
  cr_mode : Z.land mode S_IFMT = S_IFREG \/ Z.land mode S_IFMT = S_IFDIR;
  cr_dentry : dentries s !! r = Some d;
  cr_negative : d_inode d = None;
  cr_count : d_count d <> 0;
  cr_not_root : d_parent d <> r;
  cr_parent : dentries s !! d_parent d = Some pd;
  cr_pir : d_inode pd = Some pir;
  cr_pi : inodes s !! pir = Some pi;
  cr_old : (pir < fresh s)%nat;
  cr_name : link_name (d_name d);
  cr_pname : fname (d_name pd) /\ (length (d_name pd) <= 19)%nat;
  cr_ino : 0 <= u32 (last_ino s + 1) < 2 ^ 31 /\ 0 <= i_ino pi < 2 ^ 31;
}.

(** A file or directory made on one node becomes a link on the other: the link
    has its name, hangs below the directory with the parent's name, is a
    directory when the file is one, and the table leads from the link's number
    to the file's. *)
Theorem create_replicated pointer stackA stackB sA r d pd pir pi mode
    sB t addr p pdB pirB piB ls ls' :
  creating sA stackA r d pd pir pi mode ->
  node_ok sB t -> autos_ok stackB -> mem sB = [] -> cap_dac_override (cur sB) = true ->
  resolves sB (d_name pd) p -> dentries sB !! p = Some pdB -> d_inode pdB = Some pirB ->
  inodes sB !! pirB = Some piB -> S_ISDIR (i_mode piB) = true ->
  d_lookup_in (d_hash sB) (dentries sB) p (d_name d) = None ->
  links (g_table (glob sB)) = Ok ls ->
  spec_add ls (mkLink (s32 (u32 (last_ino sB + 1))) (u32 (last_ino sA + 1)) (s32 (i_ino piB))
                 (i_ino pi)) = Some ls' ->
  exists sA' msg sB' nd ni,
    wjfs_mknod pointer stackA pir r mode 0 sA = Ok (0, sA') /\
    n_sent (network sA') = (test_addr, htons test_port, msg) :: n_sent (network sA) /\
    server_step pointer stackB addr msg sB = Ok (Some [], sB') /\
    node_ok sB' (add_child p (fresh sB) t) /\
    dentries sB' !! fresh sB = Some nd /\ d_name nd = d_name d /\ d_parent nd = p /\
    d_inode nd = Some (S (fresh sB)) /\ inodes sB' !! S (fresh sB) = Some ni /\
    i_ino ni = u32 (last_ino sB + 1) /\ S_ISDIR (i_mode ni) = S_ISDIR mode /\
    links (g_table (glob sB')) = Ok ls'.
Proof.
  intros [Cm Con Cb Cmode Cr Cneg Cc Cnr Cp Cpir Cpi Cold Cn [Fp Lp] [Ci Cip]]
    Hok Ha HmB Hcap Hres Hp Hpir Hpi Hdir Hmiss Hls Hadd.
  pose proof Cn as (Fn & _ & Ln).
  set (modeB := if S_ISDIR mode then 1 else 0).
  set (msg := message "CR" (u32 (last_ino sA + 1)) (d_name d) (i_ino pi) (d_name pd) modeB).
  destruct (message_fits "CR" (u32 (last_ino sA + 1)) (d_name d) (i_ino pi) (d_name pd) modeB)
    as [Hlen Hbuf]; try done; [apply verb_CR|..]. fold msg in Hlen, Hbuf.
  destruct verb_CR as [_ FCR].
  destruct (create_served pointer stackB sB t (msg ++ replicate (1024 - length msg) 0) (bytes "CR")
    (u32 (last_ino sA + 1)) (d_name d) (i_ino pi) (d_name pd) modeB p pdB pirB piB
    (peer_text addr) (quad addr) ls ls')
    as (sB' & EB & HokB & [t' EsB] & HlsB); try done.
  { change (length (bytes "CR")) with 2%nat. lia. }
  { apply peer_text_cstr. }
  { apply length_quad. }
  pose proof (nk_ifresh _ _ Hok pirB ltac:(eauto)) as Hfr.
  eexists _, msg, sB', _, _. split; [|split; [|split; [|split; [exact HokB|]]]].
  - eapply wjfs_mknod_ok; try done; [by apply fname_nz..|lia|lia].
  - unfold sent_one. simpl. by rewrite !s32_small by lia.
  - eapply server_dispatch; [exact Hlen|done|]. left. split; [done|exact EB].
  - subst sB'. simpl. rewrite lookup_insert_eq. rewrite lookup_insert_ne by lia.
    rewrite lookup_insert_eq. split; [done|]. split; [done|]. split; [done|]. split; [done|].
    split; [done|]. split; [unfold inherit; by destruct (negb _)|]. split; [|done].
    unfold inherit, link_mode, mode_value, modeB. destruct (S_ISDIR mode); simpl;
      destruct (negb _); vm_compute; reflexivity.
Qed.

(** What the removing node needs: a file of its own that the VFS holds. *)
Record unlinking (s : kstate) (stack : autos) (r : nat) (d : dentry) (ir : nat) (i : inode)
    (pd : dentry) (pir : nat) (pi : inode) : Prop := {
  un_online : online s;
  un_buf : length (a_buf stack) = 1024%nat;
  un_table : table_wf (g_table (glob s));
  un_mine : exists ls, links (g_table (glob s)) = Ok ls /\ spec_mine ls (i_ino i) = true;
  un_dentry : dentries s !! r = Some d;
  un_count : d_count d <> 1;
  un_inode : d_inode d = Some ir;
  un_i : inodes s !! ir = Some i;
  un_not_root : d_parent d <> r;
  un_parent : dentries s !! d_parent d = Some pd;
  un_pir : d_inode pd = Some pir;
  un_pi : inodes s !! pir = Some pi;
  un_ne : pir <> ir;
  un_name : fname (d_name d) /\ (length (d_name d) <= 19)%nat;
  un_pname : fname (d_name pd) /\ (length (d_name pd) <= 19)%nat;
  un_ino : 0 <= i_ino i < 2 ^ 31 /\ 0 <= i_ino pi < 2 ^ 31;
}.

(** A file removed on the node that owns it takes its link on the other node
    with it: the dentry, its inode and its table entry. *)
Theorem unlink_replicated pointer stackA stackB sA r d ir i pd pir pi
    sB t addr rB dB iB my my_parent ls ls' :
  unlinking sA stackA r d ir i pd pir pi ->
  node_ok sB t -> autos_ok stackB -> mem sB = [] -> links (g_table (glob sB)) = Ok ls ->
  spec_take ls (i_ino i) (i_ino pi) = (ls', (my, my_parent)) ->
  dentries sB !! rB = Some dB -> rB <> troot t -> d_subdirs dB = [] ->
  users (dentries sB) rB = 0 -> node_inode sB rB = Some iB -> i_ino iB = u32 my -> numbered sB (u32 my) rB ->
  exists sA' msg sB',
    wjfs_unlink pointer stackA pir r sA = Ok (0, sA') /\
    n_sent (network sA') = (test_addr, htons test_port, msg) :: n_sent (network sA) /\
    server_step pointer stackB addr msg sB = Ok (Some [], sB') /\
    node_ok sB' (del rB t) /\ dentries sB' !! rB = None /\
    links (g_table (glob sB')) = Ok ls'.
Proof.
  intros [Uon Ub Ut (lsA & UlA & Um) Ud Uc Uir Ui Unr Up Upir Upi Une [Fn Ln] [Fp Lp] [Hi Hip]]
    Hok Ha HmB Hls Htake Hd Hr Hsub Hu Hni Hino Hnum.
  destruct (message_fits "RM" (i_ino i) (d_name d) (i_ino pi) (d_name pd) 0 verb_RM Fn Ln Fp Lp Hi Hip)
    as [Hlen Hbuf]. destruct verb_RM as [_ Fv].
  destruct (remove_served stackB sB t _ _ (i_ino i) (d_name d) (i_ino pi) (d_name pd) 0 rB dB iB my
    my_parent ls ls' Hok Ha Hbuf Fv) as (irB & pdB & pirB & piB & t' & Hleaf & Hrun & Hok' & Hls' & _);
    try done; [change (length (bytes "RM")) with 2%nat; lia|].
  eexists _, _, _. split; [|split; [|split; [|split; [exact Hok'|split; [|exact Hls']]]]].
  - eapply wjfs_unlink_ok; try done; try (by apply fname_nz); lia.
  - reflexivity.
  - rewrite !s32_small by lia.
    eapply server_dispatch; [exact Hlen|done|]. right. left. split; [done|exact Hrun].
  - simpl. apply lookup_delete_eq.
Qed.
