(* ===== verification/Remote.v ===== *)
(** * Reading and writing a file of the other node

    wjfs_client_write and wjfs_client_read translate the numbers of a link to
    those of the file it stands for; the other node's wjfs_server does the rest. *)

From S2P Require Import Prelude KString KScan KFormat Wire Ksocket MapTable Vfs Tree Ops.
From S2P Require Import PageIo Server Umount Node Inv Remove Serve Contents Options Mount.
From S2P Require Import Cluster.

Section clients.
Variable pointer : block -> block * nat -> Z -> va -> printf_spec -> res (block * nat).
Context (stack : autos) (Hb : length (a_buf stack) = 1024%nat).

(** The state the clients need: a network, and a table that knows the link. *)
Record linked (s : kstate) (ino inop rino rparent : Z) : Prop := {
  lk_online : online s;
  lk_table : table_wf (g_table (glob s));
  lk_link : exists ls, links (g_table (glob s)) = Ok ls /\
    spec_remote ls (s32 ino) (s32 inop) = (rino, rparent);
}.

Lemma linked_remote s ino inop rino rparent :
  linked s ino inop rino rparent ->
  table_remote (g_table (glob s)) (s32 ino) (s32 inop) = Ok (rino, rparent).
Proof using.
  intros [_ [_ Hwf] (ls & Hls & E)].
  by rewrite (table_remote_spec _ _ Hwf (proj1 (links_Forall2 _ _) Hls)), E.
Qed.

Lemma client_write_ok ino n inop np message p rino rparent s :
  linked s ino inop rino rparent ->
  Forall (fun c => c <> 0) n -> Forall (fun c => c <> 0) np ->
  (length n <= 255)%nat -> (length np <= 255)%nat -> is_cstr message p ->
  let t := req_text (bytes "WR") (s32 rino) n (s32 rparent) np p in
  (length t < 1024)%nat ->
  wjfs_client_write pointer stack test_ip test_port ino (n ++ [0]) inop (np ++ [0]) message s
  = Ok (0, sent_one test_addr (htons test_port) t s).
Proof using Hb.
  intros Hlk Hn Hnp Hl Hlp Hm t Ht. unfold wjfs_client_write.
  erewrite M_bind_ok by (apply client_connect_ok, (lk_online _ _ _ _ _ Hlk)). cbn iota.
  erewrite M_bind_ok by reflexivity.
  erewrite M_bind_ok by (unfold lift; by rewrite (linked_remote _ _ _ _ _ Hlk)). cbn iota beta.
  pose proof (build_write_ok pointer (a_buf stack) rino (n ++ [0]) n rparent (np ++ [0]) np message p
    Hb (is_cstr_app n [] Hn) (is_cstr_app np [] Hnp) Hm Hl Hlp Ht) as E.
  erewrite M_bind_ok by (unfold lift; by rewrite E).
  cbn iota beta. erewrite M_bind_ok by reflexivity. unfold mret, M_ret, sent_one. by rewrite take_text.
Qed.

Lemma client_read_ok ino n inop np message rino rparent c replies s :
  linked s ino inop rino rparent ->
  Forall (fun c => c <> 0) n -> Forall (fun c => c <> 0) np ->
  (length n <= 255)%nat -> (length np <= 255)%nat -> length message = 1024%nat ->
  n_reply (network s) = c :: replies -> (length c < 1024)%nat ->
  exists s', wjfs_client_read pointer stack test_ip test_port ino (n ++ [0]) inop (np ++ [0]) message s
    = Ok ((0, c ++ replicate (1024 - length c) 0), s') /\
  n_sent (network s')
    = (test_addr, htons test_port, read_text (s32 rino) n (s32 rparent) np) :: n_sent (network s) /\
  inodes s' = inodes s /\ dentries s' = dentries s /\ glob s' = glob s.
Proof using Hb.
  intros Hlk Hn Hnp Hl Hlp Hm Hrep Hc. unfold wjfs_client_read.
  erewrite M_bind_ok by (apply client_connect_ok, (lk_online _ _ _ _ _ Hlk)). cbn iota.
  erewrite M_bind_ok by reflexivity.
  erewrite M_bind_ok by (unfold lift; by rewrite (linked_remote _ _ _ _ _ Hlk)). cbn iota beta.
  pose proof (build_read_ok pointer (a_buf stack) rino (n ++ [0]) n rparent (np ++ [0]) np
    Hb (is_cstr_app n [] Hn) (is_cstr_app np [] Hnp) Hl Hlp) as E.
  erewrite M_bind_ok by (unfold lift; by rewrite E). cbn iota beta.
  erewrite M_bind_ok by (unfold net_send; rewrite take_text; reflexivity).
  erewrite M_bind_ok by (unfold lift; by rewrite memset_1024).
  erewrite M_bind_ok by (unfold net_recv; simpl; by rewrite Hrep).
  eexists. unfold mret, M_ret. rewrite recv_buffer by done. split; [reflexivity|]. done.
Qed.
End clients.

(** A write through a link reaches the file on the other node: the payload,
    without its line ends, replaces the start of its contents. *)
Theorem remote_write pointer stackA stackB sA ino n inop np message p rparent
    sB t addr r d ir i :
  length (a_buf stackA) = 1024%nat -> linked sA ino inop (i_ino i) rparent ->
  is_cstr message p -> p <> [] -> (length p <= 900)%nat -> (length (flat p) <= 19)%nat ->
  fname n -> (length n <= 19)%nat -> fname np -> (length np <= 19)%nat -> 0 <= rparent < 2 ^ 31 ->
  node_ok sB t -> autos_ok stackB -> mem sB = [] -> served_file sB t (i_ino i) r d ir i ->
  exists sA' msg sB' i',
    wjfs_client_write pointer stackA test_ip test_port ino (n ++ [0]) inop (np ++ [0]) message sA
      = Ok (0, sA') /\
    n_sent (network sA') = (test_addr, htons test_port, msg) :: n_sent (network sA) /\
    server_step pointer stackB addr msg sB = Ok (Some [], sB') /\
    node_ok sB' t /\ inodes sB' !! ir = Some i' /\
    contents i' = flat p ++ drop (length (flat p)) (contents i).
Proof.
  intros HbA Hlk Hm Hne Hlp Hfl Fn Ln Fp Lp Hrp Hok Ha Hmem Hsf.
  pose proof (sf_range _ _ _ _ _ _ _ Hsf) as Hi.
  destruct (server_write pointer stackB sB t addr (i_ino i) n rparent np p r d ir i Hok Ha Hmem Hsf
    Fn Ln Fp Lp Hrp (proj1 Hm) Hne Hlp Hfl) as (E & Hok' & _ & Hc & Hlen).
  eexists _, _, _, _. split.
  { eapply client_write_ok; try done; [by apply fname_nz..|lia|lia|by rewrite !s32_small by lia]. }
  split; [reflexivity|]. rewrite !s32_small by lia. split; [exact E|]. split; [exact Hok'|].
  split; [simpl; apply lookup_insert_eq|exact Hc].
Qed.

(** A read through a link: the request, the answer of the other node to it, and
    what arrives, when that answer is what the network delivers.  The answer is
    the contents of the file, up to the first NUL of the array they pass through. *)
Theorem remote_read pointer stackA stackB sA ino n inop np message rparent
    sB t addr r d ir i c replies :
  length (a_buf stackA) = 1024%nat -> linked sA ino inop (i_ino i) rparent ->
  length message = 1024%nat -> n_reply (network sA) = c :: replies ->
  fname n -> (length n <= 19)%nat -> fname np -> (length np <= 19)%nat -> 0 <= rparent < 2 ^ 31 ->
  node_ok sB t -> autos_ok stackB -> mem sB = [] -> served_file sB t (i_ino i) r d ir i ->
  0 < i_size i <= 1024 -> is_cstr (contents i ++ junk_after stackB i) c -> (length c < 1024)%nat ->
  inert c ->
  exists sA' msg received,
    wjfs_client_read pointer stackA test_ip test_port ino (n ++ [0]) inop (np ++ [0]) message sA
      = Ok ((0, received), sA') /\
    n_sent (network sA') = (test_addr, htons test_port, msg) :: n_sent (network sA) /\
    server_step pointer stackB addr msg sB = Ok (Some c, sB) /\
    length received = 1024%nat /\ is_cstr received c.
Proof.
  intros HbA Hlk Hme Hrep Fn Ln Fp Lp Hrp Hok Ha Hmem Hsf Hsize Hc Hlc Hin.
  pose proof (sf_range _ _ _ _ _ _ _ Hsf) as Hi.
  destruct (client_read_ok pointer stackA HbA ino n inop np message (i_ino i) rparent c replies sA)
    as (sA' & E & Hsent & _); try done; [by apply fname_nz..|lia|lia|].
  rewrite !s32_small in Hsent by lia.
  eexists sA', _, _. split; [exact E|]. split; [exact Hsent|]. split; [|split].
  - by eapply server_read.
  - rewrite length_app, length_replicate. lia.
  - apply is_cstr_received; [by apply (proj1 Hc)|done].
Qed.
