(* ===== verification/FileOps.v ===== *)
(** * wjfs_read and wjfs_write

    The read and write methods of wjfs_file_operations.  A file of this node goes
    through [filp->f_op->aio_read] and [aio_write], the interface [AioOps] below,
    which [wjfs_aio] implements with the functions of [FileMap]; a link goes
    through wjfs_client_read and wjfs_client_write. *)

From S2P Require Import Prelude KString KScan KFormat Wire Ksocket MapTable Vfs Tree Ops.
From S2P Require Import PageIo FileMap FileData Server Umount Node.
From S2P Require Import Inv Remove Serve Contents Options Mount.
From S2P Require Import Cluster Remote.

Definition EIOCBQUEUED := 529.
Definition EIOCBRETRY := 530.

(** What the methods call through the file's operations: the result, the
    position in the kiocb afterwards and, for a read, the user's buffer. *)
Class AioOps := {
  aio_read : file -> block -> Z -> Z -> M (Z * Z * block);
  aio_write : file -> block -> Z -> Z -> M (Z * Z);
  wait_on_sync_kiocb : M Z;
}.

(** The entries of wjfs_file_operations; neither queues a request, so what
    [wait] does is of no account. *)
Definition wjfs_aio (env : io_env) (fresh_page : block) (wait : M Z) : AioOps := {|
  aio_read := generic_file_aio_read env;
  aio_write := generic_file_aio_write env fresh_page;
  wait_on_sync_kiocb := wait;
|}.

Section fileops.
Context `{AioOps}.
Variable pointer : block -> block * nat -> Z -> va -> printf_spec -> res (block * nat).
Variable stack : autos.

(** The retry loops; [fuel] bounds how often the call asks to be repeated. *)
Fixpoint read_retry (fuel : nat) (filp : file) (buf : block) (len pos : Z) : M (Z * Z * block) :=
  match fuel with
  | O => fail OutOfFuel
  | S fuel =>
      '(ret, pos, buf) ← aio_read filp buf len pos;
      if negb (ret =? - EIOCBRETRY) then mret (ret, pos, buf)
      else read_retry fuel filp buf len pos
  end.

Fixpoint write_retry (fuel : nat) (filp : file) (buf : block) (len pos : Z) : M (Z * Z) :=
  match fuel with
  | O => fail OutOfFuel
  | S fuel =>
      '(ret, pos) ← aio_write filp buf len pos;
      if negb (ret =? - EIOCBRETRY) then mret (ret, pos)
      else write_retry fuel filp buf len pos
  end.

(** wjfs_read: the result, [*ppos] and the user's buffer.  For a link the
    static [k] makes every second call return 0. *)
Definition wjfs_read (fuel : nat) (filp : file) (buf : block) (len ppos : Z)
  : M (Z * Z * block) :=
  mine ← dentry_is_mine (f_dentry filp);
  if (mine : bool) then
    '(ret, pos, buf) ← read_retry fuel filp buf len ppos;
    ret ← (if ret =? - EIOCBQUEUED then wait_on_sync_kiocb else mret ret);
    mret (ret, pos, buf)
  else
    message ← lift (memset (a_message stack) 0 0 1024);
    d ← get_dentry (f_dentry filp);
    ir ← deref (d_inode d);
    i ← get_inode ir;
    '(name, ino_parent, name_parent) ← about_dentry (f_dentry filp);
    '(_, message) ← wjfs_client_read pointer stack test_ip test_port (i_ino i) (name ++ [0])
                      ino_parent (name_parent ++ [0]) message;
    buf ← lift (memset buf 0 0 1024);
    buf ← lift (strcpy buf 0 message);
    k ← gets (fun s => g_read_k (glob s));
    ret ← (if negb (Z.rem k 2 =? 0) then lift (strlen buf) else mret 0);
    modify (fun s => let g := glob s in
      with_glob (mkGlobals (g_rroot_dentry g) (g_a_dentry g) (g_table g) (s32 (k + 1))) s);;
    mret (ret, ppos, buf).

(** [for (i = 0; i < len; i++) message[i] = buf[i]] *)
Fixpoint copy_bytes (count i : nat) (message buf : block) : res block :=
  match count with
  | O => Ok message
  | S count =>
      c ← rd buf i;
      message ← wr message i c;
      copy_bytes count (S i) message buf
  end.

(** wjfs_write: the result and [*ppos]. *)
Definition wjfs_write (fuel : nat) (filp : file) (buf : block) (len ppos : Z) : M (Z * Z) :=
  mine ← dentry_is_mine (f_dentry filp);
  if (mine : bool) then
    '(ret, pos) ← write_retry fuel filp buf len ppos;
    ret ← (if ret =? - EIOCBQUEUED then wait_on_sync_kiocb else mret ret);
    mret (ret, pos)
  else
    message ← lift (memset (a_message stack) 0 0 1024);
    message ← lift (copy_bytes (Z.to_nat len) 0 message buf);
    d ← get_dentry (f_dentry filp);
    ir ← deref (d_inode d);
    i ← get_inode ir;
    '(name, ino_parent, name_parent) ← about_dentry (f_dentry filp);
    wjfs_client_write pointer stack test_ip test_port (i_ino i) (name ++ [0]) ino_parent
      (name_parent ++ [0]) message;;
    ret ← lift (strlen message);
    mret (ret, ppos).
End fileops.

(** ** An open link *)

(** A dentry whose number the table maps to file [rino] of the other node. *)
Record open_link (s : kstate) (f : nat) (n : list Z) (np : list Z) (rino rparent : Z) : Prop := {
  ol_online : online s;
  ol_table : table_wf (g_table (glob s));
  ol_at : exists d ir i pd pir pi ls,
    dentries s !! f = Some d /\ d_name d = n /\ d_inode d = Some ir /\ inodes s !! ir = Some i /\
    dentries s !! d_parent d = Some pd /\ d_name pd = np /\ d_inode pd = Some pir /\
    inodes s !! pir = Some pi /\ links (g_table (glob s)) = Ok ls /\
    spec_mine ls (i_ino i) = false /\ spec_remote ls (s32 (i_ino i)) (s32 (i_ino pi)) = (rino, rparent);
}.

Lemma copy_bytes_ok p : forall i message buf,
  take (length p) (drop i buf) = p -> (i + length p <= length message)%nat ->
  copy_bytes (length p) i message buf = Ok (splice message i p).
Proof.
  induction p as [|c p IH]; intros i message buf Hb Hl; cbn [copy_bytes length].
  - by rewrite splice_nil.
  - cbn [length] in *. destruct (drop i buf) as [|x r] eqn:E; [done|].
    cbn [take] in Hb. injection Hb as -> Hb.
    assert (Hi : buf !! i = Some c) by (rewrite <- (Nat.add_0_r i), <- lookup_drop, E; done).
    unfold rd. rewrite Hi. cbn [mbind res_bind]. rewrite wr_ok by lia. cbn [mbind res_bind].
    rewrite IH; [by rewrite splice_cons by lia| |rewrite length_insert; lia].
    replace (S i) with (i + 1)%nat by lia. rewrite <- drop_drop, E. done.
Qed.

Section link.
Context `{AioOps}.
Variable pointer : block -> block * nat -> Z -> va -> printf_spec -> res (block * nat).
Context (stack : autos) (Ha : autos_ok stack).

Lemma open_link_remote s f n np rino rparent :
  open_link s f n np rino rparent ->
  dentry_is_mine f s = Ok (false, s) /\
  exists d ir i ino_parent, dentries s !! f = Some d /\ d_inode d = Some ir /\
    inodes s !! ir = Some i /\ about_dentry f s = Ok ((n, ino_parent, np), s) /\
    linked s (i_ino i) ino_parent rino rparent.
Proof using.
  intros [Hon Hwf (d & ir & i & pd & pir & pi & ls & Hd & Hn & Hir & Hi & Hpd & Hnp & Hpir & Hpi & Hls & Hm & Hr)].
  split.
  - rewrite <- Hm. by eapply dentry_is_mine_spec.
  - exists d, ir, i, (i_ino pi). split_and!; try done; [|split; eauto].
    unfold about_dentry. erewrite M_bind_ok by (by apply get_dentry_ok).
    erewrite M_bind_ok by (by apply get_dentry_ok). rewrite Hpir. erewrite M_bind_ok by reflexivity.
    erewrite M_bind_ok by (by apply get_inode_ok). by rewrite Hn, Hnp.
Qed.

(** Writing through a link sends the bytes and reports all of them written. *)
Lemma link_write_ok fuel s f n np rino rparent buf p ppos :
  open_link s (f_dentry f) n np rino rparent ->
  Forall (fun c => c <> 0) n -> Forall (fun c => c <> 0) np ->
  (length n <= 255)%nat -> (length np <= 255)%nat ->
  take (length p) buf = p -> Forall (fun c => c <> 0) p ->
  let t := req_text (bytes "WR") (s32 rino) n (s32 rparent) np p in
  (length t < 1024)%nat ->
  wjfs_write pointer stack fuel f buf (Z.of_nat (length p)) ppos s
  = Ok ((Z.of_nat (length p), ppos), sent_one test_addr (htons test_port) t s).
Proof using Ha.
  intros Hol Hn Hnp Ln Lnp Hp Hnz t Ht.
  destruct (open_link_remote _ _ _ _ _ _ Hol) as (Hmine & d & ir & i & inop & Hd & Hir & Hi & Hab & Hlk).
  assert (Hpl : (length p < 1024)%nat).
  { unfold t, req_text in Ht. rewrite !length_app in Ht. lia. }
  destruct Ha as (A1 & A2 & _). unfold wjfs_write. erewrite M_bind_ok by exact Hmine. cbn iota.
  erewrite M_bind_ok by (unfold lift; by rewrite memset_1024).
  erewrite M_bind_ok; cycle 1.
  { unfold lift. rewrite Nat2Z.id, (copy_bytes_ok p); [reflexivity|by rewrite drop_0|].
    rewrite length_replicate. lia. }
  assert (Hm : is_cstr (splice (replicate 1024 0) 0 p) p).
  { unfold splice. rewrite take_0, drop_replicate. cbn [app Nat.add]. by apply is_cstr_received. }
  erewrite M_bind_ok by (by apply get_dentry_ok). rewrite Hir. erewrite M_bind_ok by reflexivity.
  erewrite M_bind_ok by (by apply get_inode_ok). erewrite M_bind_ok by exact Hab. cbn iota beta.
  erewrite M_bind_ok by (by eapply client_write_ok).
  by erewrite M_bind_ok by (unfold lift; by rewrite (strlen_spec _ _ Hm)).
Qed.

(** The user's buffer afterwards: 1024 bytes of it are the text and zeros. *)
Definition filled (c : list Z) (ubuf : block) : block :=
  c ++ replicate (1024 - length c) 0 ++ drop 1024 ubuf.

Lemma fill_ok c m ubuf :
  is_cstr m c -> (length c < 1024)%nat -> (1024 <= length ubuf)%nat ->
  (b ← memset ubuf 0 0 1024; strcpy b 0 m) = Ok (filled c ubuf).
Proof using.
  intros Hm Hc Hu. rewrite memset_spec by lia. cbn [mbind res_bind].
  rewrite (strcpy_ok _ _ _ c) by (done || (rewrite length_splice; rewrite ?length_replicate; lia)).
  f_equal. unfold splice, filled. rewrite !take_0, length_replicate, length_app, <- !app_assoc.
  cbn [app length Nat.add]. rewrite drop_app_le, drop_replicate by (rewrite length_replicate; lia).
  f_equal. change (u8 0) with 0.
  by replace (1024 - length c)%nat with (S (1024 - (length c + 1))) by lia.
Qed.

(** Reading through a link: the answer fills the user's buffer, and every
    second call reports the end of the file. *)
Definition next_k (s : kstate) : kstate :=
  with_glob (mkGlobals (g_rroot_dentry (glob s)) (g_a_dentry (glob s)) (g_table (glob s))
    (s32 (g_read_k (glob s) + 1))) s.

Lemma link_read_ok fuel s f n np rino rparent ubuf ulen ppos c replies :
  open_link s (f_dentry f) n np rino rparent ->
  Forall (fun c => c <> 0) n -> Forall (fun c => c <> 0) np ->
  (length n <= 255)%nat -> (length np <= 255)%nat -> (1024 <= length ubuf)%nat ->
  n_reply (network s) = c :: replies -> Forall (fun x => x <> 0) c -> (length c < 1024)%nat ->
  exists s',
    wjfs_read pointer stack fuel f ubuf ulen ppos s
    = Ok ((if Z.rem (g_read_k (glob s)) 2 =? 0 then 0 else Z.of_nat (length c), ppos, filled c ubuf), s') /\
    n_sent (network s')
    = (test_addr, htons test_port, read_text (s32 rino) n (s32 rparent) np) :: n_sent (network s) /\
    g_read_k (glob s') = s32 (g_read_k (glob s) + 1) /\
    inodes s' = inodes s /\ dentries s' = dentries s.
Proof using Ha.
  intros Hol Hn Hnp Ln Lnp Hu Hrep Hnz Hc.
  destruct (open_link_remote _ _ _ _ _ _ Hol) as (Hmine & d & ir & i & inop & Hd & Hir & Hi & Hab & Hlk).
  destruct Ha as (A1 & A2 & _).
  destruct (client_read_ok pointer stack A1 (i_ino i) n inop np (replicate 1024 0) rino rparent c replies s)
    as (s1 & E & Hsent & Ei & Ed & Eg); try done.
  assert (Hm : is_cstr (c ++ replicate (1024 - length c) 0) c) by (by apply is_cstr_received).
  unfold wjfs_read. erewrite M_bind_ok by exact Hmine. cbn iota.
  erewrite M_bind_ok by (unfold lift; by rewrite memset_1024).
  erewrite M_bind_ok by (by apply get_dentry_ok). rewrite Hir. erewrite M_bind_ok by reflexivity.
  erewrite M_bind_ok by (by apply get_inode_ok). erewrite M_bind_ok by exact Hab. cbn iota beta.
  erewrite M_bind_ok by exact E. cbn iota beta.
  pose proof (fill_ok c _ ubuf Hm Hc Hu) as Hfill. apply bind_ok_inv in Hfill as (b & E1 & E2).
  erewrite M_bind_ok by (unfold lift; by rewrite E1).
  erewrite M_bind_ok by (unfold lift; by rewrite E2).
  erewrite M_bind_ok by reflexivity. rewrite Eg.
  exists (next_k s1). unfold next_k. rewrite Eg. split; [|by rewrite <- Ei, <- Ed].
  destruct (Z.rem (g_read_k (glob s)) 2 =? 0); cbn [negb].
  - erewrite M_bind_ok by reflexivity. unfold modify. by erewrite M_bind_ok by (by rewrite Eg).
  - assert (Hf : is_cstr (filled c ubuf) c).
    { unfold filled. replace (1024 - length c)%nat with (S (1023 - length c)) by lia.
      by apply is_cstr_app. }
    erewrite M_bind_ok by (unfold lift; by rewrite (strlen_spec _ _ Hf)).
    unfold modify. by erewrite M_bind_ok by (by rewrite Eg).
Qed.
End link.

(** ** Both nodes *)

(** The file after a change that keeps its role is served as before. *)
Lemma served_changed s t ino r d ir i i' :
  node_ok s t -> served_file s t ino r d ir i -> i_ino i' = i_ino i -> file_ok i' ->
  served_file (with_inodes (<[ir := i']> (inodes s)) s) t ino r d ir i'.
Proof.
  intros Hok [Hd Hb Hir Hi Hino Hrg Hnum Hf] En Hf'. split; try done.
  - simpl. apply lookup_insert_eq.
  - congruence.
  - intros x xi (xd & xir & Hxd & Hxir & Hxi & Hxm)%node_inode_inv Hx. simpl in *.
    destruct (decide (xir = ir)) as [->|Hne]; [by eapply (nk_inj _ _ Hok)|].
    rewrite lookup_insert_ne in Hxi by done. apply (Hnum x xi); [|done].
    unfold node_inode. rewrite Hxd. cbn [mbind option_bind]. rewrite Hxir. cbn [mbind option_bind].
    rewrite Hxi. cbn [mbind option_bind]. by rewrite (proj2 (Z.eqb_neq _ 0)).
Qed.

(** The answer [c] arrives at a node. *)
Definition answered (c : list Z) (s : kstate) : kstate :=
  with_net (mkNet (n_socket (network s)) (n_connect (network s)) (n_sent (network s)) [c]) s.

Lemma open_link_net s r n np rino rparent v :
  open_link s r n np rino rparent -> n_socket v = [] -> n_connect v = [] ->
  open_link (with_net v s) r n np rino rparent.
Proof. intros [(_ & _ & Hm) Ht Hat] H1 H2. by split. Qed.

(** What the other node's array of 1024 bytes held behind [text], up to its first
    NUL: get_file_message copies no NUL behind a text. *)
Definition stale (stack : autos) (text : list Z) : option (list Z) := up_to_nul (drop (length text) (a_buf stack)).

Lemma stale_answer stack i text :
  contents i = text -> Forall (fun c => c <> 0) text ->
  up_to_nul (contents i ++ junk_after stack i) = app text <$> stale stack text.
Proof. intros <- Hnz. unfold junk_after. by rewrite up_to_nul_app. Qed.

Lemma stale_cstr stack text rest :
  autos_ok stack -> Forall (fun c => c <> 0) text -> (length text <= 1024)%nat -> stale stack text = Some rest ->
  Forall (fun c => c <> 0) (text ++ rest) /\ (length (text ++ rest) < 1024)%nat.
Proof.
  intros (A1 & _) Hnz Hl [Hr [junk Ej]]%up_to_nul_cstr. split; [by apply Forall_app|].
  apply (f_equal length) in Ej. rewrite length_drop, A1, length_app in Ej. simpl in Ej. rewrite length_app. lia.
Qed.

(** C3: A new file of the other node is written through its link: a text of at most 19 bytes
    without NULs, not counting its line ends.  Reading through the link then fills the user's
    buffer with the text, without its line ends, followed by what the other node's array held
    behind it up to a NUL, unless this begins with the name of a request; the result is the
    length, or 0 on every second call.  When the array holds no NUL the other node runs off
    it. *)
Theorem link_write_read `{AioOps} pointer stackA stackB fuel sA f n np rparent buf p pos ubuf ulen
    sB t addr r d ir i :
  autos_ok stackA -> open_link sA (f_dentry f) n np (i_ino i) rparent -> 0 <= rparent < 2 ^ 31 ->
  fname n -> (length n <= 19)%nat -> fname np -> (length np <= 19)%nat ->
  take (length p) buf = p -> Forall (fun c => c <> 0) p -> flat p <> [] ->
  (length p <= 900)%nat -> (length (flat p) <= 19)%nat -> (1024 <= length ubuf)%nat ->
  node_ok sB t -> autos_ok stackB -> mem sB = [] -> served_file sB t (i_ino i) r d ir i -> i_size i = 0 ->
  let rd_msg := read_text (i_ino i) n rparent np in
  exists sA1 wr_msg sB1,
    wjfs_write pointer stackA fuel f buf (Z.of_nat (length p)) pos sA
      = Ok ((Z.of_nat (length p), pos), sA1) /\
    n_sent (network sA1) = (test_addr, htons test_port, wr_msg) :: n_sent (network sA) /\
    server_step pointer stackB addr wr_msg sB = Ok (Some [], sB1) /\
    match stale stackB (flat p) with
    | Some rest =>
        let c := flat p ++ rest in
        inert c ->
        server_step pointer stackB addr rd_msg sB1 = Ok (Some c, sB1) /\
        exists sA2,
          wjfs_read pointer stackA fuel f ubuf ulen pos (answered c sA1)
          = Ok ((if Z.rem (g_read_k (glob sA)) 2 =? 0 then 0 else Z.of_nat (length c), pos, filled c ubuf), sA2) /\
          n_sent (network sA2) = (test_addr, htons test_port, rd_msg) :: n_sent (network sA1)
    | None => server_step pointer stackB addr rd_msg sB1 = Fault OutOfBounds
    end.
Proof.
  intros HaA Hol Hrp Fn Ln Fnp Lnp Hp Hnz Hne Hlp Hfl Hu Hok HaB Hm Hsf Hsz rd_msg.
  pose proof (sf_range _ _ _ _ _ _ _ Hsf) as Hi.
  assert (p <> []) by (by intros ->).
  destruct (server_write pointer stackB sB t addr (i_ino i) n rparent np p r d ir i Hok HaB Hm Hsf
    Fn Ln Fnp Lnp Hrp Hnz ltac:(done) Hlp Hfl) as (Ew & Hok1 & Hf1 & Hc1 & Hlen).
  set (i1 := written (a_page stackB) (flat p) i) in *. set (sB1 := with_inodes _ sB) in *.
  assert (Hc0 : contents i = []) by (unfold contents; by rewrite Hsz).
  rewrite Hc0, drop_nil, app_nil_r in Hc1.
  assert (Hfz : Forall (fun c => c <> 0) (flat p)).
  { rewrite List.Forall_forall in *. intros c [Hc _]%List.filter_In. auto. }
  pose proof (length_contents _ Hf1) as Hlc. rewrite Hc1 in Hlc.
  assert (Hpos : (0 < length (flat p))%nat) by (destruct (flat p); [done|simpl; lia]).
  pose proof (served_changed _ _ _ _ _ _ _ i1 Hok Hsf eq_refl Hf1) as Hsf1.
  assert (Hsize : 0 < i_size i1 <= 1024) by (unfold PAGE_CACHE_SIZE in *; lia).
  pose proof (link_write_ok pointer stackA HaA fuel sA f n np (i_ino i) rparent buf p pos Hol) as E1.
  rewrite !s32_small in E1 by lia.
  eexists _, _, sB1. split; [apply E1; try done; [by apply fname_nz..|lia|lia]|].
  split; [reflexivity|]. split; [exact Ew|]. pose proof (stale_answer stackB i1 (flat p) Hc1 Hfz) as Est.
  destruct (stale stackB (flat p)) as [rest|] eqn:Es; cbn [fmap option_fmap option_map] in Est; cycle 1.
  { unfold rd_msg. erewrite server_read_rest by done. by rewrite Est. }
  intros c Hin. destruct (stale_cstr _ _ _ HaB Hfz ltac:(lia) Es) as [Hcz Hcl].
  split; [eapply server_read; try done; by apply up_to_nul_cstr|].
  destruct (link_read_ok pointer stackA HaA fuel
    (answered c (sent_one test_addr (htons test_port)
       (req_text (bytes "WR") (i_ino i) n rparent np p) sA)) f n np (i_ino i) rparent ubuf ulen pos
    c []) as (sA2 & E2 & Hs2 & _); try done; [|by apply fname_nz..|lia|lia|].
  { apply open_link_net; [|by apply (ol_online _ _ _ _ _ _ Hol)..].
    by apply open_link_net; [|apply (ol_online _ _ _ _ _ _ Hol)..]. }
  rewrite !s32_small in Hs2 by lia. by exists sA2.
Qed.

(** ** Buffers of another size *)

Lemma memset_overflow xs off c count :
  (length xs < off + count)%nat -> memset xs off c count = Fault OutOfBounds \/ count = 0%nat.
Proof.
  revert xs off. induction count as [|count IH]; intros xs off Hl; [by right|left]. cbn [memset].
  destruct (decide (off < length xs)%nat); [|by rewrite wr_oob by lia].
  rewrite wr_ok by lia. cbn [mbind res_bind].
  destruct (IH (<[off := u8 c]> xs) (S off)) as [E|E]; [rewrite length_insert; lia|exact E|lia].
Qed.

Lemma copy_bytes_overflow count : forall i message buf,
  (length message < i + count)%nat -> (i <= length message)%nat -> (i + count <= length buf)%nat ->
  copy_bytes count i message buf = Fault OutOfBounds.
Proof.
  induction count as [|count IH]; intros i message buf Hl Hi Hb; [lia|]. cbn [copy_bytes].
  destruct (lookup_lt_is_Some_2 buf i) as [c Hc]; [lia|]. unfold rd. rewrite Hc. cbn [mbind res_bind].
  destruct (decide (i < length message)%nat); [|by rewrite wr_oob by lia].
  rewrite wr_ok by lia. cbn [mbind res_bind]. apply IH; rewrite ?length_insert; lia.
Qed.

(** C40: wjfs_read through a link writes 1024 bytes to the user's buffer, past the end of any
    smaller one. *)
Theorem link_read_short_buffer `{AioOps} pointer stack fuel s f n np rino rparent ubuf ulen ppos c
    replies :
  autos_ok stack -> open_link s (f_dentry f) n np rino rparent ->
  Forall (fun c => c <> 0) n -> Forall (fun c => c <> 0) np ->
  (length n <= 255)%nat -> (length np <= 255)%nat ->
  n_reply (network s) = c :: replies -> (length c < 1024)%nat -> (length ubuf < 1024)%nat ->
  wjfs_read pointer stack fuel f ubuf ulen ppos s = Fault OutOfBounds.
Proof.
  intros (A1 & A2 & _) Hol Hn Hnp Ln Lnp Hrep Hc Hu.
  destruct (open_link_remote _ _ _ _ _ _ Hol) as (Hmine & d & ir & i & inop & Hd & Hir & Hi & Hab & Hlk).
  destruct (client_read_ok pointer stack A1 (i_ino i) n inop np (replicate 1024 0) rino rparent c replies s)
    as (s1 & E & _); try done.
  unfold wjfs_read. erewrite M_bind_ok by exact Hmine. cbn iota.
  erewrite M_bind_ok by (unfold lift; by rewrite memset_1024).
  erewrite M_bind_ok by (by apply get_dentry_ok). rewrite Hir. erewrite M_bind_ok by reflexivity.
  erewrite M_bind_ok by (by apply get_inode_ok). erewrite M_bind_ok by exact Hab. cbn iota beta.
  erewrite M_bind_ok by exact E. cbn iota beta.
  apply M_bind_fault. unfold lift. by destruct (memset_overflow ubuf 0 0 1024) as [-> |]; [lia| |].
Qed.

(** wjfs_write of more than 1024 bytes through a link writes past its array. *)
Theorem link_write_long `{AioOps} pointer stack fuel s f n np rino rparent buf len ppos :
  autos_ok stack -> open_link s (f_dentry f) n np rino rparent ->
  1024 < len <= Z.of_nat (length buf) ->
  wjfs_write pointer stack fuel f buf len ppos s = Fault OutOfBounds.
Proof.
  intros (_ & A2 & _) Hol Hlen.
  destruct (open_link_remote _ _ _ _ _ _ Hol) as (Hmine & _).
  unfold wjfs_write. erewrite M_bind_ok by exact Hmine. cbn iota.
  erewrite M_bind_ok by (unfold lift; by rewrite memset_1024).
  apply M_bind_fault. unfold lift. rewrite copy_bytes_overflow; [done|..];
    rewrite ?length_replicate; lia.
Qed.
