(* ===== verification/LocalIo.v ===== *)
(** * Reading and writing the files of this node

    wjfs_read and wjfs_write of a file that no entry of the map table names: they
    go through generic_file_aio_read and generic_file_aio_write to the page cache,
    where the other node's requests put their bytes too. *)

From S2P Require Import Prelude KString KScan KFormat Wire Ksocket MapTable Vfs Tree Ops.
From S2P Require Import PageIo FileMap FileData Server Umount Node.
From S2P Require Import Inv Remove Serve Contents Options Mount.
From S2P Require Import Cluster Remote FileOps.

(** A file of this node, open by the dentry [f_dentry f]. *)
Record open_file (s : kstate) (f : file) (ir : nat) (i : inode) : Prop := {
  of_at : exists d, dentries s !! f_dentry f = Some d /\ d_inode d = Some ir;
  of_inode : inodes s !! ir = Some i;
  of_data : data_ok i;
  of_memory : mem s = [];
  of_mine : exists ls, table_wf (g_table (glob s)) /\ links (g_table (glob s)) = Ok ls /\
              spec_mine ls (i_ino i) = true;
}.

Section local.
Variable pointer : block -> block * nat -> Z -> va -> printf_spec -> res (block * nat).
Context (stack : autos) (env : io_env) (fresh_page : block) (wait : M Z).
Hypothesis Hfresh : length fresh_page = 4096%nat.

#[local] Instance local_aio : AioOps := wjfs_aio env fresh_page wait.

Lemma open_file_mine s f ir i : open_file s f ir i -> dentry_is_mine (f_dentry f) s = Ok (true, s).
Proof using.
  intros [(d & Hd & Hir) Hi _ _ (ls & Hwf & Hls & Hm)]. rewrite <- Hm. by eapply dentry_is_mine_spec.
Qed.

Lemma open_file_next s f ir i i' :
  open_file s f ir i -> data_ok i' -> i_ino i' = i_ino i ->
  open_file (with_inodes (<[ir := i']> (inodes s)) s) f ir i'.
Proof using.
  intros [Hat Hi _ Hm Hls] Hd E. split; try done; [simpl; apply lookup_insert_eq|by rewrite E].
Qed.

Lemma local_read_ok fuel s f ir i buf len pos :
  open_file s f ir i -> 0 <= pos < 2 ^ 44 -> 0 <= len < 2 ^ 31 -> len <= Z.of_nat (length buf) ->
  let n := Z.min len (Z.max 0 (i_size i - pos)) in
  exists i', seen i i' /\
    wjfs_read pointer stack (S fuel) f buf len pos s
    = Ok ((n, pos + n, splice buf 0 (slice i pos (Z.to_nat n))), with_inodes (<[ir := i']> (inodes s)) s).
Proof using.
  clear Hfresh. intros Hof Hp Hl Hb n. pose proof (open_file_mine _ _ _ _ Hof) as Hmine.
  destruct Hof as [(d & Hd & Hir) Hi Hdata Hm _].
  destruct (aio_read_ok env f d ir i buf len pos s) as (i' & Hseen & E); try done.
  exists i'. split; [done|]. unfold wjfs_read. erewrite M_bind_ok by exact Hmine. cbn iota.
  assert (Hn : 0 <= n) by (unfold n; lia).
  erewrite M_bind_ok; cycle 1.
  { cbn [read_retry]. erewrite M_bind_ok by exact E. cbn iota beta. fold n.
    rewrite (proj2 (Z.eqb_neq _ _)) by (unfold EIOCBRETRY; lia). reflexivity. }
  cbn iota beta. rewrite (proj2 (Z.eqb_neq _ _)) by (unfold EIOCBQUEUED; lia).
  by erewrite M_bind_ok by reflexivity.
Qed.

Lemma local_write_ok fuel s f ir i buf len ppos pos count :
  open_file s f ir i -> 0 <= len < 2 ^ 31 -> len <= Z.of_nat (length buf) ->
  generic_write_checks env f (i_size i) ppos len = (0, pos, count) -> 0 < count ->
  exists i', wrote env (cur s) (now s) i pos (take (Z.to_nat count) buf) i' /\
    wjfs_write pointer stack (S fuel) f buf len ppos s
    = Ok ((count, pos + count), with_inodes (<[ir := i']> (inodes s)) s).
Proof using Hfresh.
  intros Hof Hl Hb Hck Hc. pose proof (open_file_mine _ _ _ _ Hof) as Hmine.
  destruct Hof as [(d & Hd & Hir) Hi Hdata Hm _].
  destruct (aio_write_ok env fresh_page Hfresh f d ir i buf len ppos pos count s) as (i' & Hw & E); try done.
  exists i'. split; [done|]. unfold wjfs_write. erewrite M_bind_ok by exact Hmine. cbn iota.
  erewrite M_bind_ok; cycle 1.
  { cbn [write_retry]. erewrite M_bind_ok by exact E. cbn iota beta.
    rewrite (proj2 (Z.eqb_neq _ _)) by (unfold EIOCBRETRY; lia). reflexivity. }
  cbn iota beta. rewrite (proj2 (Z.eqb_neq _ _)) by (unfold EIOCBQUEUED; lia).
  by erewrite M_bind_ok by reflexivity.
Qed.

Lemma wrote_slice c t i pos data i' : wrote env c t i pos data i' -> slice i' pos (length data) = data.
Proof using.
  clear Hfresh. intros Hw. apply list_eq. intros j. destruct (data !! j) as [b|] eqn:E.
  - rewrite slice_lookup by (by eapply lookup_lt_Some). f_equal. by apply (w_in _ _ _ _ _ _ _ Hw).
  - apply lookup_ge_None. apply lookup_ge_None in E. by rewrite length_slice.
Qed.

(** C12: wjfs_read of a file of this node delivers the bytes of the file from the position on,
    as many as were asked for or as there are, over any number of pages, and moves the
    position by that many; past the end it delivers none.  Of the file only the
    access time and what is cached change. *)
Theorem local_read fuel s f ir i buf len pos :
  open_file s f ir i -> 0 <= pos < 2 ^ 44 -> 0 <= len < 2 ^ 31 -> len <= Z.of_nat (length buf) ->
  let n := Z.min len (Z.max 0 (i_size i - pos)) in
  exists i', seen i i' /\
    wjfs_read pointer stack (S fuel) f buf len pos s
    = Ok ((n, pos + n, splice buf 0 (slice i pos (Z.to_nat n))), with_inodes (<[ir := i']> (inodes s)) s).
Proof using. clear Hfresh. apply local_read_ok. Qed.

(** C11: wjfs_write of a file of this node, as far as generic_write_checks allows it, puts the
    bytes at the position and nothing elsewhere, over any number of pages (a gap
    behind the old end reads as zeros), extends the file to cover them, stamps it
    and takes the set-user-ID bit away from a caller without CAP_FSETID. *)
Theorem local_write fuel s f ir i buf len ppos pos count :
  open_file s f ir i -> 0 <= len < 2 ^ 31 -> len <= Z.of_nat (length buf) ->
  generic_write_checks env f (i_size i) ppos len = (0, pos, count) -> 0 < count ->
  exists i', wrote env (cur s) (now s) i pos (take (Z.to_nat count) buf) i' /\
    wjfs_write pointer stack (S fuel) f buf len ppos s
    = Ok ((count, pos + count), with_inodes (<[ir := i']> (inodes s)) s).
Proof using Hfresh. apply local_write_ok. Qed.

(** C8: What wjfs_write put into a file of this node, wjfs_read gets back from the
    position it was put at. *)
Theorem local_write_read fuel s f ir i buf len ppos pos count ubuf :
  open_file s f ir i -> 0 <= len < 2 ^ 31 -> len <= Z.of_nat (length buf) ->
  generic_write_checks env f (i_size i) ppos len = (0, pos, count) -> 0 < count ->
  count <= Z.of_nat (length ubuf) ->
  exists s1 s2,
    wjfs_write pointer stack (S fuel) f buf len ppos s = Ok ((count, pos + count), s1) /\
    wjfs_read pointer stack (S fuel) f ubuf count pos s1
    = Ok ((count, pos + count, splice ubuf 0 (take (Z.to_nat count) buf)), s2).
Proof using Hfresh.
  intros Hof Hl Hb Hck Hc Hu. pose proof (do_size _ (of_data _ _ _ _ Hof)) as Hs.
  destruct (write_checks_ok _ _ _ _ _ _ _ Hs Hl Hck) as (Hp & Hcl & Hmax).
  destruct (local_write_ok fuel _ _ _ _ _ _ _ _ _ Hof Hl Hb Hck Hc) as (i1 & Hw & E1).
  assert (Hlen : length (take (Z.to_nat count) buf) = Z.to_nat count) by (rewrite length_take; lia).
  pose proof (w_size _ _ _ _ _ _ _ Hw) as Hsz. rewrite Hlen in Hsz.
  assert (Hof1 : open_file (with_inodes (<[ir := i1]> (inodes s)) s) f ir i1).
  { eapply open_file_next; [done|apply Hw|]. by rewrite (w_same _ _ _ _ _ _ _ Hw). }
  unfold MAX_LFS_FILESIZE in Hmax.
  destruct (local_read_ok fuel _ _ _ _ ubuf count pos Hof1) as (i2 & _ & E2); [lia..|].
  replace (Z.min count (Z.max 0 (i_size i1 - pos))) with count in E2 by lia.
  rewrite <- Hlen, (wrote_slice _ _ _ _ _ _ Hw) in E2. eauto.
Qed.
End local.

(** ** The requests of the other node and the calls of this one *)

Lemma contents_slice i n :
  file_ok i -> (n <= Z.to_nat (i_size i))%nat -> take n (contents i) = slice i 0 n.
Proof.
  intros Hf Hn. pose proof (fl_size _ Hf) as Hs. unfold PAGE_CACHE_SIZE in Hs. unfold contents.
  destruct (i_pages i !! 0%nat) as [p|] eqn:E; cbn [default from_option id].
  - rewrite take_take, Nat.min_l by done.
    exact (slice_page i p 0 0 n E (fl_page _ Hf _ E) ltac:(lia) ltac:(lia) ltac:(lia)).
  - rewrite (fl_there _ Hf E) in Hn. assert (n = 0%nat) as -> by (simpl in Hn; lia). done.
Qed.

Lemma written_patched fp i m :
  data_ok i -> length fp = 4096%nat -> (length m <= 4096)%nat -> patched i 0 m (written fp m i).
Proof.
  intros Hd Hfp Hm. assert (E : written fp m i = page_written fp i 0 m).
  { unfold written, page_written. rewrite Z.add_0_l. change (Z.to_nat (0 / 4096)) with 0%nat.
    change (Z.to_nat (0 mod 4096)) with 0%nat. do 2 f_equal.
    rewrite <- begun_written by done. f_equal. unfold begun, begun_page.
    change (Z.to_nat (0 / 4096)) with 0%nat. destruct (i_pages i !! 0%nat); [done|].
    change (Z.to_nat (0 mod 4096)) with 0%nat. rewrite Nat2Z.id.
    destruct (Nat.eqb_spec (length m) 4096), (Z.eqb_spec (Z.of_nat (length m)) 4096); try lia; [done|].
    cbn [replicate]. by rewrite splice_nil, !Nat.add_0_l. }
  rewrite E. apply page_written_patched; try done; unfold MAX_LFS_FILESIZE;
    rewrite ?Z.mod_0_l by lia; lia.
Qed.

(** C9: A write request of the other node puts a payload without NULs, of at most 19 bytes
    without its line ends, into a file of this node of at most one page.  A user of this node
    who reads a page from the start with wjfs_read gets the payload without its line ends, and
    behind it the rest of a longer file. *)
Theorem peer_write_local_read pointer stack env fresh_page wait fuel s t addr ino n inop np p f d ir i
    ubuf len :
  node_ok s t -> autos_ok stack -> served_file s t ino (f_dentry f) d ir i -> open_file s f ir i ->
  fname n -> (length n <= 19)%nat -> fname np -> (length np <= 19)%nat -> 0 <= inop < 2 ^ 31 ->
  Forall (fun c => c <> 0) p -> p <> [] -> (length p <= 900)%nat -> (length (flat p) <= 19)%nat ->
  4096 <= len < 2 ^ 31 -> len <= Z.of_nat (length ubuf) ->
  let text := flat p ++ drop (length (flat p)) (contents i) in
  exists s1 s2,
    server_step pointer stack addr (req_text (bytes "WR") ino n inop np p) s = Ok (Some [], s1) /\
    @wjfs_read (wjfs_aio env fresh_page wait) pointer stack (S fuel) f ubuf len 0 s1
    = Ok ((Z.of_nat (length text), Z.of_nat (length text), splice ubuf 0 text), s2).
Proof.
  intros Hok Ha Hsf Hof Fn Ln Fnp Lnp Hip Hnz Hne Hlp Hfl Hlen Hub text.
  destruct (server_write pointer stack s t addr ino n inop np p _ _ _ _ Hok Ha (of_memory _ _ _ _ Hof) Hsf
    Fn Ln Fnp Lnp Hip Hnz Hne Hlp Hfl) as (E1 & Hok1 & Hf1 & Hc1 & _).
  fold text in Hc1. set (i1 := written (a_page stack) (flat p) i) in *.
  destruct Ha as (_ & _ & _ & _ & _ & Hpage).
  assert (Hd1 : data_ok i1) by (eapply pt_ok, written_patched; [apply Hof|done|lia]).
  pose proof (open_file_next _ _ _ _ i1 Hof Hd1 eq_refl) as Hof1.
  pose proof (fl_size _ Hf1) as Hs1. unfold PAGE_CACHE_SIZE in Hs1.
  pose proof (length_contents _ Hf1) as Hl1. rewrite Hc1 in Hl1.
  destruct (local_read_ok pointer stack env fresh_page wait fuel _ _ _ _ ubuf len 0 Hof1)
    as (i2 & _ & E2); [lia..|].
  replace (Z.min len (Z.max 0 (i_size i1 - 0))) with (Z.of_nat (length text)) in E2 by lia.
  rewrite Nat2Z.id, Z.add_0_l, <- contents_slice in E2 by (done || lia).
  rewrite Hc1, take_ge in E2 by done. eauto.
Qed.

(** A write of text at the start of a small file leaves a small file. *)
Lemma wrote_small env c t i data i' :
  wrote env c t i 0 data i' -> i_size i = 0 -> data <> [] -> Forall (fun b => b <> 0) data ->
  (length data <= 1024)%nat -> file_ok i' /\ contents i' = data.
Proof.
  intros Hw Hs Hne Hnz Hl. pose proof (w_size _ _ _ _ _ _ _ Hw) as Hsz.
  rewrite Hs, Z.add_0_l, Z.max_r in Hsz by lia.
  assert (Hf : file_ok i').
  { split; [unfold PAGE_CACHE_SIZE; lia|apply (do_pages _ (w_ok _ _ _ _ _ _ _ Hw))|].
    intros E. destruct data as [|b data]; [done|]. inversion Hnz as [|? ? Hb _]; subst.
    pose proof (w_in _ _ _ _ _ _ _ Hw 0 b eq_refl) as Hin. unfold byte_at in Hin.
    change (Z.to_nat ((0 + Z.of_nat 0) / 4096)) with 0%nat in Hin. by rewrite E in Hin. }
  split; [done|]. pose proof (length_contents _ Hf) as Hlc. rewrite Hsz, Nat2Z.id in Hlc.
  rewrite <- (take_ge (contents i') (length data)) by lia.
  rewrite contents_slice by (done || lia). by eapply wrote_slice.
Qed.

Lemma wrote_node_ok env s t f ir i pos data i' :
  node_ok s t -> open_file s f ir i -> ifmt (i_mode i) S_IFREG = true ->
  wrote env (cur s) (now s) i pos data i' -> node_ok (with_inodes (<[ir := i']> (inodes s)) s) t.
Proof.
  intros Hok Hof Hreg Hw. pose proof (w_same _ _ _ _ _ _ _ Hw) as Hsame.
  pose proof (w_kind _ _ _ _ _ _ _ Hw) as Hkind.
  apply (node_ok_kind s t ir i); try done; [apply Hof| |by rewrite Hsame..].
  intros _ E. unfold ifmt in Hreg. rewrite <- Hkind, E in Hreg. done.
Qed.

Lemma seen_node_ok s t f ir i i' :
  node_ok s t -> open_file s f ir i -> seen i i' -> node_ok (with_inodes (<[ir := i']> (inodes s)) s) t.
Proof.
  intros Hok Hof [Hsame _ _]. apply (node_ok_inode s t ir i); [done|apply Hof|].
  rewrite Hsame. done.
Qed.

(** C10: A user of this node writes a text of less than 1024 bytes without NULs to a new file
    with wjfs_write.  A read request of the other node is then answered with the text followed
    by what the server's array held behind it up to a NUL, unless this begins with the name of
    a request; when the array holds no NUL the server runs off it.  The node stays at rest. *)
Theorem local_write_peer_read pointer stack env fresh_page wait fuel s t addr ino n inop np f d ir i text :
  node_ok s t -> autos_ok stack -> length fresh_page = 4096%nat ->
  served_file s t ino (f_dentry f) d ir i -> open_file s f ir i -> ifmt (i_mode i) S_IFREG = true ->
  fname n -> (length n <= 19)%nat -> fname np -> (length np <= 19)%nat -> 0 <= inop < 2 ^ 31 ->
  i_size i = 0 -> e_limit env = None -> text <> [] -> Forall (fun b => b <> 0) text ->
  (length text < 1024)%nat ->
  exists s1,
    @wjfs_write (wjfs_aio env fresh_page wait) pointer stack (S fuel) f text (Z.of_nat (length text)) 0 s
    = Ok ((Z.of_nat (length text), Z.of_nat (length text)), s1) /\ node_ok s1 t /\
    match stale stack text with
    | Some rest =>
        inert (text ++ rest) ->
        server_step pointer stack addr (read_text ino n inop np) s1 = Ok (Some (text ++ rest), s1)
    | None => server_step pointer stack addr (read_text ino n inop np) s1 = Fault OutOfBounds
    end.
Proof.
  intros Hok Ha Hfp Hsf Hof Hreg Fn Ln Fnp Lnp Hip Hs0 Hlim Hne Hnz Hl.
  assert (Hpos : (0 < length text)%nat) by (destruct text; [done|simpl; lia]).
  assert (Hck : generic_write_checks env f (i_size i) 0 (Z.of_nat (length text))
                = (0, 0, Z.of_nat (length text))).
  { rewrite write_checks_plain; rewrite ?Hs0; destruct (f_append f); unfold MAX_NON_LFS; (done || lia). }
  destruct (local_write_ok pointer stack env fresh_page wait Hfp fuel s f ir i text
    (Z.of_nat (length text)) 0 0 (Z.of_nat (length text)) Hof) as (i1 & Hw & E1); [lia|lia|done|lia|].
  rewrite Nat2Z.id, take_ge in Hw by done. rewrite Z.add_0_l in E1.
  destruct (wrote_small _ _ _ _ _ _ Hw Hs0 Hne Hnz ltac:(lia)) as [Hf1 Hc1].
  pose proof (w_same _ _ _ _ _ _ _ Hw) as Hsame.
  set (s1 := with_inodes (<[ir := i1]> (inodes s)) s) in *.
  assert (Hino : i_ino i1 = i_ino i) by (by rewrite Hsame).
  pose proof (wrote_node_ok _ _ _ _ _ _ _ _ _ Hok Hof Hreg Hw) as Hok1. fold s1 in Hok1.
  exists s1. split; [exact E1|]. split; [exact Hok1|].
  pose proof (served_changed _ _ _ _ _ _ _ i1 Hok Hsf Hino Hf1) as Hsf1. fold s1 in Hsf1.
  pose proof (length_contents _ Hf1) as Hlc. rewrite Hc1 in Hlc. pose proof (fl_size _ Hf1) as Hsz.
  pose proof (stale_answer stack i1 text Hc1 Hnz) as Est. pose proof (of_memory _ _ _ _ Hof) as Hm.
  destruct (stale stack text) as [rest|] eqn:Es; cbn [fmap option_fmap option_map] in Est; cycle 1.
  { erewrite server_read_rest by (done || lia). by rewrite Est. }
  intros Hin. destruct (stale_cstr _ _ _ Ha Hnz ltac:(lia) Es) as [_ Hcl].
  eapply server_read; try done; [lia|by apply up_to_nul_cstr].
Qed.
