(* ===== verification/Local.v ===== *)
(** * System calls on a node at rest

    Creating and removing a file through the VFS: the node is at rest again
    afterwards, with one entry more or less, and one request has left it. *)

From S2P Require Import Prelude KString KScan KFormat Wire Ksocket MapTable Vfs Syscalls Tree.
From S2P Require Import Umount Ops PageIo Server Node Inv Remove Serve Contents Options.
From S2P Require Import Mount Cluster FileData View.

(** ** Small facts *)

Lemma sent_one_ok s t addr port msg : node_ok s t -> node_ok (sent_one addr port msg s) t.
Proof. intros []. by split. Qed.

Lemma set_table_id s : set_table (g_table (glob s)) s = s.
Proof. destruct s as [? ? ? ? ? ? ? ? [] ?]. reflexivity. Qed.

(** dput of a dentry that others hold. *)
Lemma dput_held r d s :
  dentries s !! r = Some d -> d_count d <> 1 ->
  dput r s = Ok (tt, with_dentries (<[r := set_d_count (d_count d - 1) d]> (dentries s)) s).
Proof.
  intros Hd Hc. unfold dput. cbn [dput_loop]. unfold atomic_dec_d.
  erewrite M_bind_ok by (by apply upd_dentry_ok).
  erewrite M_bind_ok by (apply get_dentry_ok; simpl; apply lookup_insert_eq).
  cbn [d_count set_d_count]. by rewrite (proj2 (Z.eqb_neq _ 0)) by lia.
Qed.

(** A mode of which only the permission bits and the file type are kept. *)
Lemma perm_no_fmt m : Z.land (Z.land m S_IALLUGO) S_IFMT = 0.
Proof. rewrite <- Z.land_assoc. change (Z.land S_IALLUGO S_IFMT) with 0. apply Z.land_0_r. Qed.

Lemma reg_mode m : Z.land (Z.lor (Z.lor (Z.land m S_IALLUGO) S_IFREG) S_IFREG) S_IFMT = S_IFREG.
Proof.
  rewrite <- Z.lor_assoc, Z.lor_diag, Z.land_lor_distr_l, perm_no_fmt. reflexivity.
Qed.

Lemma made_dir_mode m :
  Z.land (Z.lor (Z.land m (Z.lor S_IRWXUGO S_ISVTX)) S_IFDIR) S_IFMT = S_IFDIR.
Proof.
  rewrite Z.land_lor_distr_l, <- Z.land_assoc.
  change (Z.land (Z.lor S_IRWXUGO S_ISVTX) S_IFMT) with 0. by rewrite Z.land_0_r.
Qed.

(** The caller may make and remove entries of a directory. *)
Definition may_change (s : kstate) (pi : inode) : Prop :=
  generic_permission (cur s) pi (Z.lor MAY_WRITE MAY_EXEC) = 0.

Lemma changed_ready s t p pd pir pi :
  node_ok s t -> dentries s !! p = Some pd -> d_inode pd = Some pir -> inodes s !! pir = Some pi ->
  S_ISDIR (i_mode pi) = true -> may_change s pi -> dir_ready s p pd pir pi.
Proof. intros. eapply node_dir_ready; try done. by apply change_search. Qed.

Lemma component_name n : component n -> name_ok n.
Proof. intros (_ & Hnz & Hl). split; [|done]. eapply List.Forall_impl; [|exact Hnz]. simpl. tauto. Qed.

(** ** Creating *)

Section create.
Variable pointer : block -> block * nat -> Z -> va -> printf_spec -> res (block * nat).
Context (stack : autos) (Hbuf : length (a_buf stack) = 1024%nat).

#[local] Instance local_ops : InodeOps := wjfs_ops pointer stack.

Context (s : kstate) (t : tree) (p : nat) (pd : dentry) (pir : nat) (pi : inode) (n : list Z).
Context (Hok : node_ok s t) (Hmem : mem s = []) (Hon : online s).
Context (Hw : may_change s pi).
Context (Hp : dentries s !! p = Some pd) (Hpir : d_inode pd = Some pir).
Context (Hpi : inodes s !! pir = Some pi) (Hdir : S_ISDIR (i_mode pi) = true).
Context (Hn : component n) (Hpn : (length (d_name pd) <= 255)%nat).
Context (Hmiss : d_lookup_in (d_hash s) (dentries s) p n = None).

Lemma lookup_create_miss :
  lookup_create n p s = Ok (DPtr (fresh s), looked_up p pd n s).
Proof using Hok Hmem Hw Hp Hpir Hpi Hdir Hn Hmiss.
  pose proof (changed_ready _ _ _ _ _ _ Hok Hp Hpir Hpi Hdir Hw) as Hdr.
  unfold lookup_create, lookup_hash.
  erewrite M_bind_ok; cycle 1.
  { erewrite M_bind_ok by (by apply get_dentry_ok). rewrite Hpir.
    erewrite M_bind_ok by reflexivity. erewrite M_bind_ok by (by eapply dir_may_search).
    change (negb (0 =? 0)) with false. cbn iota. by eapply lookup_hash_miss. }
  cbn iota. by erewrite M_bind_ok by (apply get_dentry_ok; simpl; apply lookup_insert_eq).
Qed.

(** What the other node is told. *)
Definition told (mode : Z) : list Z :=
  req_text (bytes "CR") (s32 (u32 (last_ino s + 1))) n (s32 (i_ino pi)) (d_name pd)
    (mode_text (if S_ISDIR mode then 1 else 0)).

Lemma may_create_ok : may_create pir (fresh s) (looked_up p pd n s) = Ok (0, looked_up p pd n s).
Proof using Hok Hp Hpir Hpi Hdir Hw.
  pose proof (changed_ready _ _ _ _ _ _ Hok Hp Hpir Hpi Hdir Hw) as Hdr.
  unfold may_create. erewrite M_bind_ok by (apply get_dentry_ok; simpl; apply lookup_insert_eq).
  cbn [d_inode child_dentry]. erewrite M_bind_ok by (by apply get_inode_ok).
  rewrite (dr_dead _ _ _ _ _ Hdr). unfold inode_permission.
  erewrite M_bind_ok by (by apply get_inode_ok). erewrite M_bind_ok by reflexivity.
  cbn [cur looked_up]. by rewrite Hw.
Qed.

(** wjfs_mknod below the VFS, and the reference the VFS gives back. *)
Lemma mknod_looked mode :
  Z.land mode S_IFMT = S_IFREG \/ Z.land mode S_IFMT = S_IFDIR ->
  wjfs_mknod pointer stack pir (fresh s) mode 0 (looked_up p pd n s)
  = Ok (0, sent_one test_addr (htons test_port) (told mode) (created p pd pir pi n mode 2 s)).
Proof using Hbuf Hok Hmem Hon Hp Hpir Hpi Hn Hpn.
  intros Hmode.
  assert (Hpf : (p < fresh s)%nat) by (apply (nk_fresh _ _ Hok), (nk_dom _ _ Hok); eauto).
  assert (Hpirf : (pir < fresh s)%nat) by (apply (nk_ifresh _ _ Hok); eauto).
  destruct Hn as (_ & Hnz & Hnl).
  assert (Hnz' : Forall (fun c => c <> 0) n).
  { eapply List.Forall_impl; [|exact Hnz]. simpl. tauto. }
  erewrite (wjfs_mknod_ok pointer stack pir pi (fresh s) (child_dentry p n) p (add_sub (fresh s) pd));
    try done.
  - do 2 f_equal. unfold attached, created, sent_one, told. simpl. by rewrite insert_insert_eq.
  - simpl. apply lookup_insert_eq.
  - simpl. lia.
  - simpl. rewrite lookup_insert_ne by lia. apply lookup_insert_eq.
  - simpl. lia.
  - simpl. by apply (nk_names _ _ Hok p pd).
Qed.

Lemma put_created mode msg :
  dput (fresh s) (sent_one test_addr (htons test_port) msg (created p pd pir pi n mode 2 s))
  = Ok (tt, sent_one test_addr (htons test_port) msg (created p pd pir pi n mode 1 s)).
Proof using.
  erewrite dput_held; [|simpl; apply lookup_insert_eq|done]. simpl. unfold set_d_count. simpl.
  unfold sent_one, created, with_net, with_dentries. simpl. by rewrite insert_insert_eq.
Qed.

(** The node with the new entry. *)
Lemma created_ok mode msg :
  Z.land mode S_IFMT = S_IFREG \/ Z.land mode S_IFMT = S_IFDIR ->
  node_ok (sent_one test_addr (htons test_port) msg (created p pd pir pi n mode 1 s))
    (add_child p (fresh s) t).
Proof using pointer Hok Hp Hpir Hpi Hdir Hn Hmiss.
  intros Hmode. apply sent_one_ok.
  rewrite <- (set_table_id (created p pd pir pi n mode 1 s)).
  apply create_node_ok; try done.
  - by apply component_name.
  - simpl. destruct (note_a_glob n (fresh s) (glob s)) as [_ ->]. apply (nk_table _ _ Hok).
Qed.

(** vfs_create of the name that was looked up. *)
Lemma vfs_create_ok mode :
  let m' := Z.lor (Z.lor (Z.land mode S_IALLUGO) S_IFREG) S_IFREG in
  vfs_create pir (fresh s) mode (looked_up p pd n s)
  = Ok (0, sent_one test_addr (htons test_port) (told m') (created p pd pir pi n m' 2 s)).
Proof using Hbuf Hok Hmem Hon Hw Hp Hpir Hpi Hdir Hn Hpn.
  intros m'. unfold vfs_create. erewrite M_bind_ok by apply may_create_ok.
  change (negb (0 =? 0)) with false. cbn iota. erewrite M_bind_ok by (by apply get_inode_ok).
  pose proof (changed_ready _ _ _ _ _ _ Hok Hp Hpir Hpi Hdir Hw) as Hdr.
  rewrite (dr_ops _ _ _ _ _ Hdr). cbn [op_create local_ops wjfs_ops]. unfold wjfs_create.
  apply mknod_looked. left. apply reg_mode.
Qed.

(** sys_mknodat of a regular file. *)
Lemma mknodat_ok mode umask :
  let m := Z.land mode (Z.lnot umask) in
  let m' := Z.lor (Z.lor (Z.land m S_IALLUGO) S_IFREG) S_IFREG in
  S_ISDIR mode = false -> Z.land m S_IFMT = 0 \/ Z.land m S_IFMT = S_IFREG ->
  sys_mknodat p n mode 0 umask s
  = Ok (0, sent_one test_addr (htons test_port) (told m') (created p pd pir pi n m' 1 s)).
Proof using Hbuf Hok Hmem Hon Hw Hp Hpir Hpi Hdir Hn Hpn Hmiss.
  intros m m' Hnd Hfmt. unfold sys_mknodat. rewrite Hnd. unfold on_new.
  erewrite M_bind_ok by apply lookup_create_miss. cbn iota.
  assert (Hpf : (p < fresh s)%nat) by (apply (nk_fresh _ _ Hok), (nk_dom _ _ Hok); eauto).
  erewrite M_bind_ok; cycle 1.
  { apply get_dentry_ok. simpl. rewrite lookup_insert_ne by lia. apply lookup_insert_eq. }
  erewrite M_bind_ok by (simpl; rewrite Hpir; reflexivity).
  fold m. assert (Hmk : may_mknod m = 0).
  { unfold may_mknod. by destruct Hfmt as [-> | ->]. }
  rewrite Hmk. change (negb (0 =? 0)) with false. cbn iota.
  assert (Hsel : (Z.land m S_IFMT =? 0) || (Z.land m S_IFMT =? S_IFREG) = true).
  { by destruct Hfmt as [-> | ->]. }
  rewrite Hsel. erewrite M_bind_ok by apply vfs_create_ok.
  by erewrite M_bind_ok by apply put_created.
Qed.

(** sys_mkdirat: the directory above gets a link more. *)
Definition more_links (k : nat) (i : inode) (u : kstate) : kstate :=
  with_inodes (<[k := set_links (u32 (i_nlink i + 1)) (i_count i) i]> (inodes u)) u.

Lemma mkdirat_ok mode umask :
  let m' := Z.lor (Z.land (Z.land mode (Z.lnot umask)) (Z.lor S_IRWXUGO S_ISVTX)) S_IFDIR in
  sys_mkdirat p n mode umask s
  = Ok (0, more_links pir (set_mtime_ctime (now s) pi)
             (sent_one test_addr (htons test_port) (told m') (created p pd pir pi n m' 1 s))).
Proof using Hbuf Hok Hmem Hon Hw Hp Hpir Hpi Hdir Hn Hpn Hmiss.
  intros m'. unfold sys_mkdirat, on_new.
  erewrite M_bind_ok by apply lookup_create_miss. cbn iota.
  assert (Hpf : (p < fresh s)%nat) by (apply (nk_fresh _ _ Hok), (nk_dom _ _ Hok); eauto).
  erewrite M_bind_ok; cycle 1.
  { apply get_dentry_ok. simpl. rewrite lookup_insert_ne by lia. apply lookup_insert_eq. }
  erewrite M_bind_ok by (simpl; rewrite Hpir; reflexivity).
  erewrite M_bind_ok; cycle 1.
  { unfold vfs_mkdir. erewrite M_bind_ok by apply may_create_ok.
    change (negb (0 =? 0)) with false. cbn iota. erewrite M_bind_ok by (by apply get_inode_ok).
    pose proof (changed_ready _ _ _ _ _ _ Hok Hp Hpir Hpi Hdir Hw) as Hdr.
    rewrite (dr_ops _ _ _ _ _ Hdr). cbn [op_mkdir local_ops wjfs_ops]. unfold wjfs_mkdir.
    erewrite M_bind_ok by (apply mknod_looked; right; apply made_dir_mode).
    change (0 =? 0) with true. cbn iota. unfold inc_nlink.
    by erewrite M_bind_ok by (apply upd_inode_ok; simpl; apply lookup_insert_eq). }
  erewrite M_bind_ok; cycle 1.
  { apply dput_held; [simpl; apply lookup_insert_eq|done]. }
  unfold mret, M_ret, more_links, sent_one, created, with_net, with_dentries, with_inodes.
  simpl. unfold set_d_count. simpl. by rewrite !insert_insert_eq.
Qed.
End create.

(** What a system call needs of the node it runs on: at rest, with memory and a
    network. *)
Record fit (stack : autos) (s : kstate) (t : tree) : Prop := {
  ft_buf : length (a_buf stack) = 1024%nat;
  ft_ok : node_ok s t;
  ft_mem : mem s = [];
  ft_online : online s;
}.

(** The same, called by root. *)
Record able (stack : autos) (s : kstate) (t : tree) : Prop := {
  ab_fit : fit stack s t;
  ab_root : cap_dac_override (cur s) = true;
  ab_owner : cap_fowner (cur s) = true;
}.

Lemma ab_ok stack s t : able stack s t -> node_ok s t.
Proof. intros H. apply (ft_ok _ _ _ (ab_fit _ _ _ H)). Qed.

Lemma ab_mem stack s t : able stack s t -> mem s = [].
Proof. intros H. apply (ft_mem _ _ _ (ab_fit _ _ _ H)). Qed.

Lemma ab_online stack s t : able stack s t -> online s.
Proof. intros H. apply (ft_online _ _ _ (ab_fit _ _ _ H)). Qed.

(** A directory of the node. *)
Record directory (s : kstate) (p : nat) (pd : dentry) (pir : nat) (pi : inode) : Prop := {
  dy_dentry : dentries s !! p = Some pd;
  dy_inode : d_inode pd = Some pir;
  dy_i : inodes s !! pir = Some pi;
  dy_dir : S_ISDIR (i_mode pi) = true;
  dy_name : (length (d_name pd) <= 255)%nat;
}.

Lemma root_may_change stack s t p pd pir pi : able stack s t -> directory s p pd pir pi -> may_change s pi.
Proof. intros Hab Hdy. apply root_may_search; [apply (ab_root _ _ _ Hab)|apply Hdy]. Qed.

Lemma root_not_sticky stack s t pi i : able stack s t -> check_sticky (cur s) pi i = false.
Proof. intros Hab. unfold check_sticky. rewrite (ab_owner _ _ _ Hab). by repeat case_match. Qed.

(** An entry below directory [p], its inode and its mode. *)
Definition entry_at (s : kstate) (r : nat) (p : nat) (n : list Z) (ino mode : Z) : Prop :=
  exists d ir i, dentries s !! r = Some d /\ d_parent d = p /\ d_name d = n /\
    d_inode d = Some ir /\ inodes s !! ir = Some i /\ i_ino i = ino /\
    Z.land (i_mode i) S_IFMT = mode.

Lemma created_entry s t p pd pir pi n m msg :
  node_ok s t -> inodes s !! pir = Some pi ->
  Z.land m S_IFMT = S_IFREG \/ Z.land m S_IFMT = S_IFDIR ->
  entry_at (sent_one test_addr (htons test_port) msg (created p pd pir pi n m 1 s)) (fresh s) p n
    (u32 (last_ino s + 1)) (Z.land m S_IFMT).
Proof.
  intros Hok Hpi Hm. assert (pir < fresh s)%nat by (apply (nk_ifresh _ _ Hok); eauto).
  eexists _, (S (fresh s)), _. simpl. rewrite lookup_insert_eq, lookup_insert_ne, lookup_insert_eq by lia.
  split_and!; try done; [unfold inherit; by destruct (negb _)|]. by rewrite inherit_fmt.
Qed.

(** What a call leaves alone besides the tree: memory, the caller, the network, who
    uses what, and that the data of every file is well formed. *)
Record steady (s s' : kstate) : Prop := {
  st_mem : mem s' = mem s;
  st_cur : cur s' = cur s;
  st_socket : n_socket (network s') = n_socket (network s);
  st_connect : n_connect (network s') = n_connect (network s);
  st_users : same_users s s';
  st_files : files_ok s -> files_ok s';
}.

#[global] Instance steady_preorder : PreOrder steady.
Proof.
  split; [by split|]. intros s1 s2 s3 [] []. split; [congruence..|by etransitivity|tauto].
Qed.

Lemma created_files s p pd pir pi n mode :
  files_ok s -> inodes s !! pir = Some pi -> files_ok (created p pd pir pi n mode 1 s).
Proof.
  intros Hf Hpi. apply map_Forall_insert_2.
  - eapply data_ok_same; [exact (Hf _ _ Hpi)|done..].
  - apply map_Forall_insert_2; [|done]. unfold inherit. destruct (negb _); by apply data_ok_new.
Qed.

Lemma removed_files s r ir p pd pir pi pi' :
  files_ok s -> inodes s !! pir = Some pi -> i_size pi' = i_size pi -> i_pages pi' = i_pages pi ->
  files_ok (removed r ir p pd pir pi' s).
Proof.
  intros Hf Hpi Es Ep. apply map_Forall_delete, map_Forall_insert_2; [|done].
  eapply data_ok_same; [exact (Hf _ _ Hpi)|done..].
Qed.

(** The same, with one entry more or less and the table as before. *)
Definition gains (s s' : kstate) (r : nat) (e : ent) : Prop :=
  steady s s' /\ grows s s' r e /\ g_table (glob s') = g_table (glob s).
Definition loses (s s' : kstate) (r : nat) : Prop :=
  steady s s' /\ shrinks s s' r /\ g_table (glob s') = g_table (glob s).

Lemma note_a_table n r g : g_table (note_a n r g) = g_table g.
Proof. unfold note_a. by case_bool_decide. Qed.

(** mknodat of a regular file on a node at rest returns 0, leaves the node at rest with the
    new entry in its directory, and sends the other node one create request. *)
Lemma mknod_local pointer stack s t p pd pir pi n mode umask :
  fit stack s t -> directory s p pd pir pi -> may_change s pi -> component n ->
  d_lookup_in (d_hash s) (dentries s) p n = None ->
  let m := Z.land mode (Z.lnot umask) in
  S_ISDIR mode = false -> Z.land m S_IFMT = 0 \/ Z.land m S_IFMT = S_IFREG ->
  exists s',
    @sys_mknodat (wjfs_ops pointer stack) p n mode 0 umask s = Ok (0, s') /\
    node_ok s' (add_child p (fresh s) t) /\
    entry_at s' (fresh s) p n (u32 (last_ino s + 1)) S_IFREG /\
    gains s s' (fresh s) (mkEnt p n (u32 (last_ino s + 1)) false) /\
    n_sent (network s')
    = (test_addr, htons test_port,
       req_text (bytes "CR") (s32 (u32 (last_ino s + 1))) n (s32 (i_ino pi)) (d_name pd)
         (mode_text 0)) :: n_sent (network s).
Proof.
  intros [Hb Hok Hm Hon] Hdy Hw Hn Hmiss m Hnd Hf. destruct Hdy as [Hp Hpir Hpi Hdir Hl].
  eexists. split; [by eapply mknodat_ok|]. fold m.
  pose proof (reg_mode m) as Hreg. set (m' := Z.lor _ _) in *.
  split; [apply created_ok; try done; by left|].
  split; [rewrite <- Hreg; by apply (created_entry s t); [..|left]|].
  split.
  { split; [split; try done; [by apply (create_users s t p pd pir pi n m' (g_table (glob s)))
                             |intros Hf'; by apply created_files]|].
    split; [|apply note_a_table]. pose proof (created_grows s t p pd pir pi n m' 1 Hok Hp Hpi (or_introl Hreg)) as Hg.
    assert (S_ISDIR m' = false) as Ed by (unfold S_ISDIR, ifmt; by rewrite Hreg). rewrite Ed in Hg. exact Hg. }
  unfold told, sent_one. simpl. do 3 f_equal. unfold S_ISDIR, ifmt. by rewrite Hreg.
Qed.

(** mkdirat on a node at rest returns 0, leaves the node at rest with the new directory, adds
    a link to the directory above and sends the other node one create request. *)
Lemma mkdir_local pointer stack s t p pd pir pi n mode umask :
  fit stack s t -> directory s p pd pir pi -> may_change s pi -> component n ->
  d_lookup_in (d_hash s) (dentries s) p n = None ->
  exists s' pi',
    @sys_mkdirat (wjfs_ops pointer stack) p n mode umask s = Ok (0, s') /\
    node_ok s' (add_child p (fresh s) t) /\
    entry_at s' (fresh s) p n (u32 (last_ino s + 1)) S_IFDIR /\
    inodes s' !! pir = Some pi' /\ i_nlink pi' = u32 (i_nlink pi + 1) /\
    gains s s' (fresh s) (mkEnt p n (u32 (last_ino s + 1)) true) /\
    n_sent (network s')
    = (test_addr, htons test_port,
       req_text (bytes "CR") (s32 (u32 (last_ino s + 1))) n (s32 (i_ino pi)) (d_name pd)
         (mode_text 1)) :: n_sent (network s).
Proof.
  intros [Hb Hok Hm Hon] Hdy Hw Hn Hmiss. destruct Hdy as [Hp Hpir Hpi Hdir Hl].
  eexists _, _. split; [by eapply mkdirat_ok|].
  pose proof (made_dir_mode (Z.land mode (Z.lnot umask))) as Hm'. set (m' := Z.lor _ _) in *.
  assert (pir < fresh s)%nat by (apply (nk_ifresh _ _ Hok); eauto).
  split; [|split; [|split; [|split; [|split]]]].
  - eapply node_ok_inode; [apply created_ok; try done; by right|simpl; apply lookup_insert_eq|done].
  - destruct (created_entry s t p pd pir pi n m' (told s pd pi n m')) as
      (d & ir & i & H1 & H2 & H3 & H4 & H5 & H6 & H7); try done; [by right|].
    simpl in H1. rewrite lookup_insert_eq in H1. injection H1 as <-. injection H4 as <-.
    eexists _, (S (fresh s)), i. simpl. rewrite lookup_insert_eq. split_and!; try done; [|congruence].
    simpl in H5. by rewrite lookup_insert_ne by lia.
  - simpl. apply lookup_insert_eq.
  - done.
  - split; [split; try done; [by apply (create_users s t p pd pir pi n m' (g_table (glob s)))|]|].
    + intros Hf'. apply files_ok_insert; [by apply created_files|].
      eapply data_ok_same; [exact (Hf' _ _ Hpi)|done..].
    + split; [|apply note_a_table].
      pose proof (created_grows s t p pd pir pi n m' 1 Hok Hp Hpi (or_intror Hm')) as Hg.
      assert (S_ISDIR m' = true) as Ed by (unfold S_ISDIR, ifmt; by rewrite Hm'). rewrite Ed in Hg.
      eapply grows_inode; [apply (created_ok pointer s t p pd pir pi n); try done; right; exact Hm'
                          |simpl; apply lookup_insert_eq|done|done|exact Hg].
  - unfold told, sent_one. simpl. do 3 f_equal. unfold S_ISDIR, ifmt. by rewrite Hm'.
Qed.

(** ** Removing *)

Lemma d_lookup_found h m p n r :
  d_lookup_in h m p n = Some r ->
  exists d, m !! r = Some d /\ d_parent d = p /\ d_hashed d = true /\ d_name d = n.
Proof.
  induction h as [|x h IH]; [done|]. cbn [d_lookup_in]. destruct (m !! x) as [d|] eqn:E; [|done].
  destruct ((d_parent d =? p)%nat && d_hashed d && bool_decide (d_name d = n)) eqn:B; [|done].
  intros [= ->]. apply andb_true_iff in B as [[B1%Nat.eqb_eq B2]%andb_true_iff B3%bool_decide_eq_true].
  eauto.
Qed.

Lemma d_lookup_hashed h m p n r : d_lookup_in h m p n = Some r -> r ∈ h.
Proof.
  induction h as [|x h IH]; [done|]. cbn [d_lookup_in]. rewrite elem_of_cons.
  destruct (m !! x); [|auto]. case_match; [intros [= ->]; auto|auto].
Qed.

(** What a lookup finds is below the root and not its own parent. *)
Lemma found_below s t p n r :
  node_ok s t -> d_lookup_in (d_hash s) (dentries s) p n = Some r -> r <> troot t /\ p <> r.
Proof.
  intros Hok Hf. pose proof (d_lookup_hashed _ _ _ _ _ Hf) as [_ Hr]%(nk_hash _ _ Hok).
  split; [done|]. destruct (d_lookup_found _ _ _ _ _ Hf) as (d & Hd & <- & _).
  by apply (node_parent _ _ _ _ Hok Hd).
Qed.

(** may_delete of an entry of the right kind by someone who may change the
    directory. *)
Lemma may_delete_ok pir pi r d p pd ir i isdir s :
  may_change s pi -> check_sticky (cur s) pi i = false ->
  dentries s !! r = Some d -> d_inode d = Some ir -> d_parent d = p -> p <> r ->
  dentries s !! p = Some pd -> d_inode pd = Some pir -> inodes s !! pir = Some pi ->
  inodes s !! ir = Some i -> i_dead pi = false -> S_ISDIR (i_mode i) = isdir ->
  may_delete pir r isdir s = Ok (0, s).
Proof.
  intros Hw Hst Hr Hir Hp Hne Hpd Hpir Hpi Hi Hdead Hkind. unfold may_delete.
  erewrite M_bind_ok by (by apply get_dentry_ok). rewrite Hir, Hp.
  erewrite M_bind_ok by (by apply get_dentry_ok).
  rewrite Hpir, bool_decide_eq_true_2 by done. cbn [negb].
  unfold inode_permission at 1. erewrite M_bind_ok; cycle 1.
  { erewrite M_bind_ok by (by apply get_inode_ok). erewrite M_bind_ok by reflexivity.
    rewrite Hw. reflexivity. }
  change (negb (0 =? 0)) with false. cbn iota.
  erewrite M_bind_ok by (by apply get_inode_ok). erewrite M_bind_ok by (by apply get_inode_ok).
  erewrite M_bind_ok by reflexivity.
  rewrite Hst, Hkind, Hdead, (proj2 (Nat.eqb_neq p r)) by done. by destruct isdir.
Qed.

(** A name that is in the directory. *)
Lemma lookup_hash_found pointer stack s p pd pir pi n r d :
  dir_ready s p pd pir pi -> d_lookup_in (d_hash s) (dentries s) p n = Some r -> dentries s !! r = Some d ->
  @lookup_hash (wjfs_ops pointer stack) n p s
  = Ok (DPtr r, with_dentries (<[r := set_d_count (d_count d + 1) d]> (dentries s)) s).
Proof.
  intros Hdr Hfind Hd. unfold lookup_hash.
  erewrite M_bind_ok by (apply get_dentry_ok, (dr_dentry _ _ _ _ _ Hdr)). rewrite (dr_inode _ _ _ _ _ Hdr).
  erewrite M_bind_ok by reflexivity. erewrite M_bind_ok by (by eapply dir_may_search).
  change (negb (0 =? 0)) with false. cbn iota. unfold lookup_hash_.
  erewrite M_bind_ok by (apply get_dentry_ok, (dr_dentry _ _ _ _ _ Hdr)).
  erewrite M_bind_ok; cycle 1.
  { unfold d_lookup. erewrite M_bind_ok by reflexivity. rewrite Hfind. unfold atomic_inc_d.
    erewrite M_bind_ok by (by apply upd_dentry_ok). reflexivity. }
  reflexivity.
Qed.

Section unlink.
Variable pointer : block -> block * nat -> Z -> va -> printf_spec -> res (block * nat).
Context (stack : autos).
#[local] Instance unlink_ops : InodeOps := wjfs_ops pointer stack.

Context (s : kstate) (t : tree) (p : nat) (pd : dentry) (pir : nat) (pi : inode) (n : list Z).
Context (r : nat) (d : dentry) (ir : nat) (i : inode) (ls : list (option link)).
Context (Hft : fit stack s t) (Hdy : directory s p pd pir pi).
Context (Hw : may_change s pi) (Hst : check_sticky (cur s) pi i = false).
Context (Hfind : d_lookup_in (d_hash s) (dentries s) p n = Some r).
Context (Hleaf : leaf s r d ir i p pd pir pi) (Hfile : S_ISDIR (i_mode i) = false).
Context (Hls : links (g_table (glob s)) = Ok ls) (Hmine : spec_mine ls (i_ino i) = true).
Context (Hnl : (length n <= 255)%nat).

(** The dentry and the inode as do_unlinkat holds them. *)
Definition grabbed : kstate :=
  with_inodes (<[ir := set_links (i_nlink i) (i_count i + 1) i]> (inodes s))
    (with_dentries (<[r := set_d_count (d_count d + 1) d]> (dentries s)) s).

Lemma lookup_hash_hit :
  lookup_hash n p s
  = Ok (DPtr r, with_dentries (<[r := set_d_count (d_count d + 1) d]> (dentries s)) s).
Proof using Hft Hdy Hw Hfind Hleaf.
  destruct Hft as [_ Hok _ _]. destruct Hdy as [Hp Hpir Hpi Hdir _].
  apply (lookup_hash_found _ _ _ _ pd pir pi); [by eapply changed_ready|done|].
  apply (lf_dentry _ _ _ _ _ _ _ _ _ Hleaf).
Qed.

Lemma may_delete_grabbed : may_delete pir r false grabbed = Ok (0, grabbed).
Proof using Hft Hdy Hw Hst Hleaf Hfile.
  destruct Hft as [_ Hok _ _]. destruct Hdy as [Hp Hpir Hpi Hdir _].
  destruct Hleaf as [Lr _ _ _ Lir _ Li _ Lp Lne _ _ _ _ Line].
  pose proof (changed_ready _ _ _ _ _ _ Hok Hp Hpir Hpi Hdir Hw) as Hdr.
  apply (may_delete_ok pir pi r (set_d_count (d_count d + 1) d) p pd ir
    (set_links (i_nlink i) (i_count i + 1) i)); try done;
    [simpl; apply lookup_insert_eq|simpl; by rewrite lookup_insert_ne by done
    |simpl; by rewrite lookup_insert_ne by done|simpl; apply lookup_insert_eq
    |apply (dr_dead _ _ _ _ _ Hdr)].
Qed.

(** What the other node is told. *)
Definition told_gone : list Z :=
  req_text (bytes "RM") (s32 (i_ino i)) n (s32 (i_ino pi)) (d_name pd) (mode_text 0).

#[local] Abbreviation d2 := (set_d_count (d_count d + 1) d).
#[local] Abbreviation i2 := (set_links (i_nlink i) (i_count i + 1) i).

Lemma unlink_grabbed :
  wjfs_unlink pointer stack pir r grabbed
  = Ok (0, sent_one test_addr (htons test_port) told_gone (unlinked r d2 ir i2 pir pi grabbed)).
Proof using Hft Hdy Hfind Hleaf Hls Hmine Hnl.
  destruct Hft as [Hb Hok _ Hon]. destruct Hdy as [Hp Hpir Hpi Hdir Hl].
  destruct (d_lookup_found _ _ _ _ _ Hfind) as (d' & Hd' & _ & _ & En).
  destruct Hleaf as [Lr Lc _ _ Lir _ Li _ Lp Lne _ _ _ _ Line]. simplify_eq.
  pose proof (proj1 (nk_names _ _ Hok r d ltac:(done))) as Hnz.
  pose proof (proj1 (nk_names _ _ Hok _ _ Hp)) as Hpz.
  erewrite (wjfs_unlink_ok pointer stack r d2 ir i2 (d_parent d) pd pir pi ls); try done.
  - unfold told_gone. cbn [d_name i_ino set_d_count set_links]. by rewrite En.
  - apply (nk_table _ _ Hok).
  - simpl. apply lookup_insert_eq.
  - simpl. lia.
  - simpl. apply lookup_insert_eq.
  - simpl. by rewrite lookup_insert_ne by done.
  - simpl. by rewrite lookup_insert_ne by done.
  - simpl. by rewrite En.
Qed.

(** d_delete, the last dput and the last iput. *)
Lemma let_go msg s1 :
  s1 = sent_one test_addr (htons test_port) msg (unlinked r d2 ir i2 pir pi grabbed) ->
  exists s2 s3, d_delete r s1 = Ok (tt, s2) /\ dput r s2 = Ok (tt, s3) /\
    iput ir s3 = Ok (tt, sent_one test_addr (htons test_port) msg
                           (removed r ir p pd pir (set_mtime_ctime (now s) pi) s)).
Proof using Hleaf Hdy.
  clear Hfind. intros ->. destruct Hdy as [Hp Hpir Hpi Hdir Hl].
  destruct Hleaf as [Lr Lc Lh Lop Lir _ Li Lic Lp Lne Lpd Lpc _ _ Line].
  eexists _, _. split; [|split].
  - unfold d_delete. erewrite M_bind_ok by (apply get_dentry_ok; simpl; apply lookup_insert_eq).
    cbn [d_inode d_count set_d_count]. rewrite Lir, Lc. erewrite M_bind_ok by reflexivity.
    erewrite M_bind_ok by (apply get_inode_ok; simpl; apply lookup_insert_eq).
    change (1 + 1 - 1 =? 1) with true. cbn iota. unfold dentry_iput.
    erewrite M_bind_ok by (apply get_dentry_ok; simpl; apply lookup_insert_eq).
    cbn [d_inode set_d_count]. rewrite Lir.
    erewrite M_bind_ok by (apply upd_dentry_ok; simpl; apply lookup_insert_eq).
    unfold iput. erewrite M_bind_ok by (apply get_inode_ok; simpl; apply lookup_insert_eq).
    cbn [i_count set_links]. rewrite Lic. change (1 + 1 - 1 =? 0) with false. cbn iota.
    apply upd_inode_ok. simpl. apply lookup_insert_eq.
  - eapply (dput_last r (set_d_inode None (set_d_count (1 + 1 - 1) d2)) p pd); try done.
    + simpl. rewrite Lc. apply lookup_insert_eq.
    + simpl. by rewrite Lh.
    + simpl. by rewrite !lookup_insert_ne by done.
  - unfold iput. erewrite M_bind_ok by (apply get_inode_ok; simpl; apply lookup_insert_eq).
    cbn [i_count set_links]. change (1 + 1 - 1 - 1 =? 0) with true. cbn iota.
    unfold modify, removed, sent_one. simpl. do 2 f_equal. unfold with_net, with_inodes. simpl.
    f_equal; map_solve.
Qed.

Lemma unlinkat_ok :
  do_unlinkat p n s
  = Ok (0, sent_one test_addr (htons test_port) told_gone
             (removed r ir p pd pir (set_mtime_ctime (now s) pi) s)).
Proof using Hft Hdy Hw Hst Hfind Hleaf Hls Hmine Hnl Hfile.
  destruct (let_go told_gone _ eq_refl) as (s2 & s3 & E1 & E2 & E3).
  pose proof Hft as [_ Hok _ _]. pose proof Hdy as [Hp Hpir Hpi Hdir _].
  pose proof (changed_ready _ _ _ _ _ _ Hok Hp Hpir Hpi Hdir Hw) as Hdr.
  pose proof Hleaf as [_ _ _ _ Lir _ Li _ _ Lne _ _ _ _ Line].
  unfold do_unlinkat. erewrite M_bind_ok by apply lookup_hash_hit. cbn iota.
  erewrite M_bind_ok by (apply get_dentry_ok; simpl; apply lookup_insert_eq).
  cbn [d_inode set_d_count]. rewrite Lir.
  erewrite M_bind_ok by (by apply upd_inode_ok).
  erewrite M_bind_ok by (apply get_dentry_ok; simpl; by rewrite lookup_insert_ne by done).
  rewrite Hpir. erewrite M_bind_ok by reflexivity. fold grabbed.
  erewrite M_bind_ok; cycle 1.
  { unfold vfs_unlink. erewrite M_bind_ok by apply may_delete_grabbed.
    change (negb (0 =? 0)) with false. cbn iota.
    erewrite M_bind_ok by (apply get_inode_ok; simpl; by rewrite lookup_insert_ne by done).
    rewrite (dr_ops _ _ _ _ _ Hdr). cbn [op_unlink unlink_ops wjfs_ops].
    erewrite M_bind_ok by apply unlink_grabbed. change (0 =? 0) with true. cbn iota.
    erewrite M_bind_ok by exact E1. reflexivity. }
  erewrite M_bind_ok by exact E2. by erewrite M_bind_ok by exact E3.
Qed.
End unlink.

(** The entry [n] of directory [p]: a dentry without children that nobody uses,
    and its inode. *)
Record entry (s : kstate) (t : tree) (p : nat) (n : list Z) (r : nat) (d : dentry) (ir : nat)
    (i : inode) : Prop := {
  en_find : d_lookup_in (d_hash s) (dentries s) p n = Some r;
  en_dentry : dentries s !! r = Some d;
  en_below : r <> troot t;
  en_empty : d_subdirs d = [];
  en_inode : d_inode d = Some ir;
  en_i : inodes s !! ir = Some i;
  en_unused : users (dentries s) r = 0;
}.

Lemma entry_leaf s t p pd pir pi n r d ir i :
  node_ok s t -> directory s p pd pir pi -> entry s t p n r d ir i ->
  leaf s r d ir i p pd pir pi /\ r ∈ d_subdirs pd /\ NoDup (d_subdirs pd) /\ d_parent d = p.
Proof.
  intros Hok [Hp Hpir Hpi _ _] [Hf Hd Hr He Hir Hi Hu].
  destruct (d_lookup_found _ _ _ _ _ Hf) as (d' & Hd' & Hpar & _). simplify_eq.
  destruct (node_leaf _ _ _ _ Hok Hd Hr He Hu) as (ir' & i' & pd' & pir' & pi' & L & Hin & Hnd).
  pose proof L as [? ? ? ? ? ? ? ? ? ? ? ? ? ? ?]. simplify_eq. done.
Qed.

(** The node without the entry. *)
Lemma gone_ok s t p pd pir pi pi' n r d ir i msg :
  node_ok s t -> directory s p pd pir pi -> entry s t p n r d ir i -> same_role pi pi' ->
  i_size pi' = i_size pi -> i_pages pi' = i_pages pi -> i_ino pi' = i_ino pi -> i_mode pi' = i_mode pi ->
  let s' := sent_one test_addr (htons test_port) msg (removed r ir p pd pir pi' s) in
  node_ok s' (del r t) /\ dentries s' !! r = None /\ inodes s' !! ir = None /\ r ∉ d_hash s' /\
  loses s s' r.
Proof.
  intros Hok Hdy Hen Hrole Hsz Hpg Hin' Hmd s'.
  destruct (entry_leaf _ _ _ _ _ _ _ _ _ _ _ Hok Hdy Hen) as (Hleaf & Hin & Hnd & Hpar).
  split; [|split; [|split; [|split]]].
  - apply sent_one_ok. rewrite <- (set_table_id (removed _ _ _ _ _ _ s)), <- Hpar.
    rewrite <- Hpar in Hleaf. eapply remove_node_ok; try done; [by eapply en_below|].
    apply (nk_table _ _ Hok).
  - simpl. apply lookup_delete_eq.
  - simpl. apply lookup_delete_eq.
  - simpl. rewrite list_elem_of_In, List.filter_In, Nat.eqb_refl. by intros [_ ?].
  - split; [|split; [|done]].
    2: { exact (removed_shrinks s t r d ir i p pd pir pi pi' Hok Hleaf Hin' Hmd). }
    split; try done; [|intros Hf; by eapply removed_files; [|apply Hdy|..]].
    intros x. subst p. by apply (users_removed s r d ir i pd pir pi pi' (g_table (glob s))).
Qed.

(** The file is gone from the node, which is at rest, and the other node is told. *)
Lemma unlink_local pointer stack s t p pd pir pi n r d ir i ls :
  fit stack s t -> directory s p pd pir pi -> may_change s pi ->
  entry s t p n r d ir i -> (length n <= 255)%nat -> check_sticky (cur s) pi i = false -> S_ISDIR (i_mode i) = false ->
  links (g_table (glob s)) = Ok ls -> spec_mine ls (i_ino i) = true ->
  exists s',
    @do_unlinkat (wjfs_ops pointer stack) p n s = Ok (0, s') /\
    node_ok s' (del r t) /\
    dentries s' !! r = None /\ inodes s' !! ir = None /\ r ∉ d_hash s' /\
    loses s s' r /\
    n_sent (network s')
    = (test_addr, htons test_port,
       req_text (bytes "RM") (s32 (i_ino i)) n (s32 (i_ino pi)) (d_name pd) (mode_text 0))
      :: n_sent (network s).
Proof.
  intros Hft Hdy Hw Hen Hnl Hst Hfile Hls Hmine. pose proof (ft_ok _ _ _ Hft) as Hok.
  destruct (entry_leaf _ _ _ _ _ _ _ _ _ _ _ Hok Hdy Hen) as (Hleaf & _).
  pose proof (en_find _ _ _ _ _ _ _ _ Hen) as Hfind.
  eexists. split; [by eapply unlinkat_ok|].
  destruct (gone_ok s t p pd pir pi (set_mtime_ctime (now s) pi) n r d ir i
    (told_gone pd pi n i)) as (H1 & H2 & H3 & H4 & H5); try done.
Qed.

(** Unlinking a link: the call succeeds, only the name is unhashed; the dentry
    and its inode stay and nothing is sent. *)
Definition unhashed (r : nat) (d : dentry) (s : kstate) : kstate :=
  with_hash (List.filter (fun x => negb (x =? r)%nat) (d_hash s))
    (with_dentries (<[r := set_d_hashed false d]> (dentries s)) s).

Lemma d_delete_held r d ir i s :
  dentries s !! r = Some d -> d_inode d = Some ir -> inodes s !! ir = Some i -> d_count d <> 1 ->
  d_hashed d = true -> d_delete r s = Ok (tt, unhashed r d s).
Proof.
  intros Hr Hir Hi Hc Hh. unfold d_delete. erewrite M_bind_ok by (by apply get_dentry_ok).
  rewrite Hir. erewrite M_bind_ok by reflexivity. erewrite M_bind_ok by (by apply get_inode_ok).
  rewrite (proj2 (Z.eqb_neq _ _)) by done. unfold d_drop. erewrite M_bind_ok by (by apply get_dentry_ok).
  rewrite Hh. by erewrite M_bind_ok by (by apply upd_dentry_ok).
Qed.

Lemma not_mine stack s t r d ir i ls :
  able stack s t -> d_inode d = Some ir -> inodes s !! ir = Some i ->
  links (g_table (glob s)) = Ok ls -> spec_mine ls (i_ino i) = false ->
  dentry_is_mine r (grabbed s r d ir i) = Ok (false, grabbed s r d ir i).
Proof.
  intros Hab Hir Hi Hls Hmine. rewrite <- Hmine.
  apply (dentry_is_mine_spec r (set_d_count (d_count d + 1) d) ir
    (set_links (i_nlink i) (i_count i + 1) i)); try done; [simpl; apply lookup_insert_eq..|].
  apply (nk_table _ _ (ab_ok _ _ _ Hab)).
Qed.

(** unlinkat of a link: only the name goes. *)
Lemma unlink_link_ok pointer stack s t p pd pir pi n r d ir i ls :
  able stack s t -> directory s p pd pir pi -> entry s t p n r d ir i ->
  S_ISDIR (i_mode i) = false ->
  links (g_table (glob s)) = Ok ls -> spec_mine ls (i_ino i) = false ->
  @do_unlinkat (wjfs_ops pointer stack) p n s = Ok (0, unhashed r d s).
Proof.
  intros Hab Hdy Hen Hfile Hls Hmine. pose proof (ab_ok _ _ _ Hab) as Hok.
  destruct (entry_leaf _ _ _ _ _ _ _ _ _ _ _ Hok Hdy Hen) as (Hleaf & _ & _ & Hpar).
  pose proof Hdy as [Hp Hpir Hpi Hdir _].
  pose proof (root_may_change _ _ _ _ _ _ _ Hab Hdy) as Hw.
  pose proof (changed_ready _ _ _ _ _ _ Hok Hp Hpir Hpi Hdir Hw) as Hdr.
  pose proof Hleaf as [Lr Lc Lh _ Lir _ Li Lic _ Lne _ _ _ _ Line].
  unfold do_unlinkat.
  erewrite M_bind_ok by (eapply lookup_hash_hit; try done; [apply Hab|apply (en_find _ _ _ _ _ _ _ _ Hen)]).
  cbn iota. erewrite M_bind_ok by (apply get_dentry_ok; simpl; apply lookup_insert_eq).
  cbn [d_inode set_d_count]. rewrite Lir. erewrite M_bind_ok by (by apply upd_inode_ok).
  erewrite M_bind_ok by (apply get_dentry_ok; simpl; by rewrite lookup_insert_ne by done).
  rewrite Hpir. erewrite M_bind_ok by reflexivity. fold (grabbed s r d ir i).
  erewrite M_bind_ok; cycle 1.
  { unfold vfs_unlink. erewrite M_bind_ok by (eapply (may_delete_grabbed stack s t p pd); try done; [apply Hab|by eapply root_not_sticky]).
    change (negb (0 =? 0)) with false. cbn iota.
    erewrite M_bind_ok by (apply get_inode_ok; simpl; by rewrite lookup_insert_ne by done).
    rewrite (dr_ops _ _ _ _ _ Hdr). cbn [op_unlink wjfs_ops]. unfold wjfs_unlink.
    erewrite M_bind_ok; cycle 1.
    { erewrite M_bind_ok by (by eapply not_mine). reflexivity. }
    change (0 =? 0) with true. cbn iota. erewrite M_bind_ok; [reflexivity|].
    apply (d_delete_held r (set_d_count (d_count d + 1) d) ir (set_links (i_nlink i) (i_count i + 1) i));
      simpl; try done; [apply lookup_insert_eq|apply lookup_insert_eq|lia]. }
  erewrite M_bind_ok by (apply dput_held; [simpl; apply lookup_insert_eq|simpl; lia]).
  erewrite M_bind_ok; cycle 1.
  { unfold iput. erewrite M_bind_ok by (apply get_inode_ok; simpl; apply lookup_insert_eq).
    cbn [i_count set_links]. rewrite Lic. change (1 + 1 - 1 =? 0) with false. cbn iota.
    apply upd_inode_ok. simpl. apply lookup_insert_eq. }
  unfold mret, M_ret, unhashed, with_hash, with_dentries, with_inodes. simpl. do 2 f_equal.
  destruct s. simpl in *. f_equal.
  - rewrite insert_insert_eq. apply insert_id. rewrite Li. f_equal. destruct i. simpl in *. by subst.
  - rewrite !insert_insert_eq. f_equal. destruct d; simpl in *; by subst.
Qed.

(** C32: unlinkat of a link of another node's file reports success but only unhashes the name:
    dentry and inode stay and nothing is sent. *)
Theorem unlink_of_link pointer stack s t p pd pir pi n r d ir i ls :
  able stack s t -> directory s p pd pir pi -> entry s t p n r d ir i ->
  S_ISDIR (i_mode i) = false ->
  links (g_table (glob s)) = Ok ls -> spec_mine ls (i_ino i) = false ->
  @do_unlinkat (wjfs_ops pointer stack) p n s = Ok (0, unhashed r d s).
Proof. apply unlink_link_ok. Qed.
