(* ===== verification/LocalDir.v ===== *)
(** * Removing a directory of this node

    rmdir through do_rmdir, vfs_rmdir and wjfs_rmdir: the dentry is held twice
    while the file system works on it, unhashed, and freed by the last dput. *)

From S2P Require Import Prelude KString KScan KFormat Wire Ksocket MapTable Vfs Syscalls Tree.
From S2P Require Import Umount Ops PageIo Server Node Inv Remove Serve Contents Options.
From S2P Require Import Mount Cluster Local.

Lemma filter_twice (r : nat) h :
  List.filter (fun x => negb (x =? r)%nat) (List.filter (fun x => negb (x =? r)%nat) h)
  = List.filter (fun x => negb (x =? r)%nat) h.
Proof.
  induction h as [|x h IH]; [done|]. cbn [List.filter]. destruct (negb (x =? r)%nat) eqn:E; [|done].
  cbn [List.filter]. by rewrite E, IH.
Qed.

Section rmdir.
Variable pointer : block -> block * nat -> Z -> va -> printf_spec -> res (block * nat).
Context (stack : autos).
#[local] Instance rmdir_ops : InodeOps := wjfs_ops pointer stack.

Context (s : kstate) (t : tree) (p : nat) (pd : dentry) (pir : nat) (pi : inode) (n : list Z).
Context (r : nat) (d : dentry) (ir : nat) (i : inode) (ls : list (option link)).
Context (Hft : fit stack s t) (Hdy : directory s p pd pir pi).
Context (Hw : may_change s pi) (Hst : check_sticky (cur s) pi i = false).
Context (Hfind : d_lookup_in (d_hash s) (dentries s) p n = Some r).
Context (Hleaf : leaf s r d ir i p pd pir pi) (Hkind : S_ISDIR (i_mode i) = true).
Context (Hls : links (g_table (glob s)) = Ok ls) (Hmine : spec_mine ls (i_ino i) = true).
Context (Hnl : (length n <= 255)%nat).

(** The dentry with [k] more references. *)
Definition held (k : Z) : kstate :=
  with_dentries (<[r := set_d_count (d_count d + k) d]> (dentries s)) s.

(** The directory above and the removed one as wjfs_rmdir leaves them. *)
Definition less_links : inode :=
  set_links (u32 (i_nlink pi - 1)) (i_count pi) (set_mtime_ctime (now s) pi).
Definition emptied : inode :=
  set_links (u32 (u32 (i_nlink i - 1) - 1)) (i_count i) (set_ctime (now s) (set_links (u32 (i_nlink i - 1)) (i_count i) i)).

Definition told_rmdir : list Z :=
  req_text (bytes "RM") (s32 (i_ino i)) n (s32 (i_ino pi)) (d_name pd) (mode_text 1).

Lemma rmdir_held :
  wjfs_rmdir pointer stack pir r (held 2)
  = Ok (0, sent_one test_addr (htons test_port) told_rmdir
             (with_inodes (<[ir := emptied]> (<[pir := less_links]> (inodes s))) (held 1))).
Proof using Hft Hdy Hfind Hleaf Hls Hmine Hnl.
  destruct Hft as [Hb Hok _ Hon]. destruct Hdy as [Hp Hpir Hpi Hdir Hl].
  destruct (d_lookup_found _ _ _ _ _ Hfind) as (d' & Hd' & _ & _ & En).
  destruct Hleaf as [Lr Lc _ _ Lir Lsub Li _ Lp Lne _ _ _ _ Line]. simplify_eq.
  pose proof (proj1 (nk_names _ _ Hok r d ltac:(done))) as Hnz.
  pose proof (proj1 (nk_names _ _ Hok _ _ Hp)) as Hpz.
  set (d3 := set_d_count (d_count d + 2) d). set (i1 := set_links (u32 (i_nlink i - 1)) (i_count i) i).
  unfold wjfs_rmdir. erewrite M_bind_ok; cycle 1.
  { apply (dentry_is_mine_spec r d3 ir i ls); try done; [simpl; apply lookup_insert_eq|].
    apply (nk_table _ _ Hok). }
  rewrite Hmine. cbn [negb]. erewrite M_bind_ok; cycle 1.
  { unfold simple_empty. erewrite M_bind_ok by (apply get_dentry_ok; simpl; apply lookup_insert_eq).
    cbn [d_subdirs set_d_count]. rewrite Lsub. reflexivity. }
  cbn [negb]. erewrite M_bind_ok by (apply get_dentry_ok; simpl; apply lookup_insert_eq).
  cbn [d_inode set_d_count]. rewrite Lir. erewrite M_bind_ok by reflexivity.
  unfold drop_nlink at 1. erewrite M_bind_ok by (by apply upd_inode_ok). fold i1.
  erewrite M_bind_ok; cycle 1.
  { apply (simple_unlink_held r d3 ir i1 pir pi); try done; [simpl; apply lookup_insert_eq|simpl; lia
    |simpl; apply lookup_insert_eq|simpl; by rewrite lookup_insert_ne by done]. }
  unfold drop_nlink. erewrite M_bind_ok; cycle 1.
  { apply upd_inode_ok. simpl. rewrite lookup_insert_ne by done. apply lookup_insert_eq. }
  set (s2 := with_inodes _ _).
  assert (Es2 : s2 = with_inodes (<[ir := emptied]> (<[pir := less_links]> (inodes s))) (held 1)).
  { unfold s2, unlinked, held, with_inodes, with_dentries. simpl.
    f_equal; [unfold emptied, less_links, i1; map_solve|].
    rewrite insert_insert_eq. unfold d3, set_d_count. simpl. do 2 f_equal. lia. }
  rewrite Es2. clear s2 Es2.
  erewrite M_bind_ok by (apply get_dentry_ok; simpl; apply lookup_insert_eq).
  cbn [d_inode set_d_count]. rewrite Lir. erewrite M_bind_ok by reflexivity.
  erewrite M_bind_ok by (apply get_inode_ok; simpl; apply lookup_insert_eq).
  erewrite M_bind_ok; cycle 1.
  { unfold about_dentry. erewrite M_bind_ok by (apply get_dentry_ok; simpl; apply lookup_insert_eq).
    cbn [d_parent set_d_count].
    erewrite M_bind_ok by (apply get_dentry_ok; simpl; by rewrite lookup_insert_ne by done).
    rewrite Hpir. erewrite M_bind_ok by reflexivity.
    erewrite M_bind_ok by (apply get_inode_ok; simpl; rewrite lookup_insert_ne by done; apply lookup_insert_eq).
    reflexivity. }
  cbn iota beta. erewrite M_bind_ok by (apply client_remove_ok; simpl; try done; by rewrite En).
  unfold told_rmdir. cbn [d_name set_d_count i_ino emptied less_links set_links set_ctime set_times].
  by rewrite En.
Qed.

Lemma dentry_unhash_held : 1 <= d_count d -> dentry_unhash r (held 1) = Ok (tt, held 2).
Proof using.
  clear Hnl. intros Lc. unfold dentry_unhash, dget, atomic_inc_d. erewrite M_bind_ok; cycle 1.
  { erewrite M_bind_ok by (apply get_dentry_ok; simpl; apply lookup_insert_eq).
    cbn [d_count set_d_count]. rewrite (proj2 (Z.eqb_neq _ 0)) by lia.
    apply upd_dentry_ok. simpl. apply lookup_insert_eq. }
  erewrite M_bind_ok by (apply get_dentry_ok; simpl; apply lookup_insert_eq).
  cbn [d_count set_d_count]. rewrite (proj2 (Z.eqb_neq _ 2)) by lia.
  unfold held, with_dentries, mret, M_ret, set_d_count. simpl. rewrite insert_insert_eq.
  do 5 f_equal. lia.
Qed.

Lemma vfs_rmdir_found :
  exists s', vfs_rmdir pir r (held 1) = Ok (0, s') /\
    dput r s' = Ok (tt, sent_one test_addr (htons test_port) told_rmdir
                          (removed r ir p pd pir less_links s)).
Proof using Hft Hdy Hfind Hleaf Hls Hmine Hnl Hkind Hw Hst.
  pose proof Hft as [_ Hok _ _]. pose proof Hdy as [Hp Hpir Hpi Hdir _].
  pose proof (changed_ready _ _ _ _ _ _ Hok Hp Hpir Hpi Hdir Hw) as Hdr.
  pose proof Hleaf as [Lr Lc Lh Lop Lir _ Li Lic Lp Lne _ Lpc _ _ Line].
  unfold vfs_rmdir. eexists. split.
  - erewrite M_bind_ok; cycle 1.
    { apply (may_delete_ok pir pi r (set_d_count (d_count d + 1) d) p pd ir i); try done;
        [simpl; apply lookup_insert_eq|simpl; by rewrite lookup_insert_ne by done|apply (dr_dead _ _ _ _ _ Hdr)]. }
    change (negb (0 =? 0)) with false. cbn iota. erewrite M_bind_ok by (by apply get_inode_ok).
    rewrite (dr_ops _ _ _ _ _ Hdr). cbn [op_rmdir rmdir_ops wjfs_ops].
    erewrite M_bind_ok; cycle 1.
    { apply dentry_unhash_held. lia. }
    erewrite M_bind_ok by apply rmdir_held. change (0 =? 0) with true. cbn iota.
    erewrite M_bind_ok; cycle 1.
    { erewrite M_bind_ok by (apply get_dentry_ok; simpl; apply lookup_insert_eq).
      cbn [d_inode set_d_count]. rewrite Lir. erewrite M_bind_ok by reflexivity.
      apply upd_inode_ok. simpl. apply lookup_insert_eq. }
    erewrite M_bind_ok; cycle 1.
    { apply (d_delete_held r (set_d_count (d_count d + 1) d) ir (set_dead true emptied)); simpl;
        try done; [apply lookup_insert_eq|apply lookup_insert_eq|lia]. }
    erewrite M_bind_ok; cycle 1.
    { apply dput_held; [simpl; apply lookup_insert_eq|simpl; lia]. }
    reflexivity.
  - erewrite (dput_last r (set_d_count (d_count d + 1 - 1) (set_d_hashed false (set_d_count (d_count d + 1) d))) p pd);
      try done.
    + unfold sent_one, removed, with_net. simpl. rewrite Lir. simpl. do 3 f_equal; [map_solve|map_solve|].
      apply filter_twice.
    + simpl. apply lookup_insert_eq.
    + simpl. lia.
    + intros _. simpl. apply filter_twice.
    + intros x Hx. simpl in Hx. rewrite Lir in Hx. injection Hx as <-. eexists. simpl.
      split; [apply lookup_insert_eq|done].
    + simpl. by rewrite !lookup_insert_ne by done.
Qed.

Lemma rmdirat_ok :
  do_rmdir p n s
  = Ok (0, sent_one test_addr (htons test_port) told_rmdir (removed r ir p pd pir less_links s)).
Proof using Hft Hdy Hfind Hleaf Hls Hmine Hnl Hkind Hw Hst.
  destruct vfs_rmdir_found as (s' & E1 & E2). pose proof Hdy as [Hp Hpir _ _ _].
  pose proof (lf_ne _ _ _ _ _ _ _ _ _ Hleaf) as Lne.
  unfold do_rmdir.
  erewrite M_bind_ok by (by eapply lookup_hash_hit). cbn iota.
  erewrite M_bind_ok by (apply get_dentry_ok; simpl; by rewrite lookup_insert_ne by done).
  rewrite Hpir. erewrite M_bind_ok by reflexivity.
  erewrite M_bind_ok by exact E1. by erewrite M_bind_ok by exact E2.
Qed.
End rmdir.

(** rmdir of an empty directory of this node frees its dentry and inode, takes a link from
    the directory above, leaves the node at rest and sends the other node one remove
    request. *)
Lemma rmdir_local pointer stack s t p pd pir pi n r d ir i ls :
  fit stack s t -> directory s p pd pir pi -> may_change s pi ->
  entry s t p n r d ir i -> (length n <= 255)%nat -> check_sticky (cur s) pi i = false -> S_ISDIR (i_mode i) = true ->
  links (g_table (glob s)) = Ok ls -> spec_mine ls (i_ino i) = true ->
  exists s' pi',
    @do_rmdir (wjfs_ops pointer stack) p n s = Ok (0, s') /\
    node_ok s' (del r t) /\
    dentries s' !! r = None /\ inodes s' !! ir = None /\ r ∉ d_hash s' /\
    inodes s' !! pir = Some pi' /\ i_nlink pi' = u32 (i_nlink pi - 1) /\ loses s s' r /\
    n_sent (network s')
    = (test_addr, htons test_port,
       req_text (bytes "RM") (s32 (i_ino i)) n (s32 (i_ino pi)) (d_name pd) (mode_text 1))
      :: n_sent (network s).
Proof.
  intros Hft Hdy Hw Hen Hnl Hst Hkind Hls Hmine. pose proof (ft_ok _ _ _ Hft) as Hok.
  destruct (entry_leaf _ _ _ _ _ _ _ _ _ _ _ Hok Hdy Hen) as (Hleaf & _).
  pose proof (en_find _ _ _ _ _ _ _ _ Hen) as Hfind.
  eexists _, (less_links s pi). split; [by eapply rmdirat_ok|].
  destruct (gone_ok s t p pd pir pi (less_links s pi) n r d ir i (told_rmdir pd pi n i))
    as (H1 & H2 & H3 & H4 & H5); try done.
  split; [exact H1|]. split_and!; try done. simpl.
  rewrite lookup_delete_ne by (apply not_eq_sym, (lf_ine _ _ _ _ _ _ _ _ _ Hleaf)). apply lookup_insert_eq.
Qed.
