(* ===== verification/Results.v ===== *)
(** * What a system call returns

    For any caller and any name: the error that mknodat, mkdirat, unlinkat and
    rmdir return, as a function of the directory and the caller, and that a call
    that returns one leaves the node as it was. *)

From S2P Require Import Prelude KString KScan KFormat Wire Ksocket MapTable Vfs Syscalls Tree.
From S2P Require Import Umount Ops PageIo Server Node Inv Remove Serve Contents Options.
From S2P Require Import Mount Cluster View Local LocalDir.

(** ** A call that changed nothing *)

(** Only the counter of references, and [a_dentry], may have moved on. *)
Record quiet (s s' : kstate) : Prop := {
  qt_inodes : inodes s' = inodes s;
  qt_dentries : dentries s' = dentries s;
  qt_fresh : (fresh s <= fresh s')%nat;
  qt_hash : d_hash s' = d_hash s;
  qt_last : last_ino s' = last_ino s;
  qt_mem : mem s' = mem s;
  qt_now : now s' = now s;
  qt_cur : cur s' = cur s;
  qt_net : network s' = network s;
  qt_table : g_table (glob s') = g_table (glob s);
  qt_root : g_rroot_dentry (glob s') = g_rroot_dentry (glob s);
}.

#[global] Instance quiet_preorder : PreOrder quiet.
Proof.
  split; [intros s; by split|]. intros s1 s2 s3 [] []. split; try congruence. lia.
Qed.

Lemma quiet_ok s s' t : quiet s s' -> node_ok s t -> node_ok s' t.
Proof.
  intros [Ei Ed Hf Eh _ _ _ _ _ Et Er] Hok.
  split; rewrite ?Ei, ?Ed, ?Eh, ?Et, ?Er; try apply Hok.
  - intros r Hr%(nk_fresh _ _ Hok). lia.
  - intros ir Hi%(nk_ifresh _ _ Hok). lia.
  - intros r d Hr. destruct (nk_inode _ _ Hok _ _ Hr) as (ir & i & Hi). exists ir, i. by rewrite Ei.
Qed.

(** The node after a name was looked up that is not there, and let go. *)
Definition forgotten (n : list Z) (s : kstate) : kstate :=
  mkK (inodes s) (dentries s) (S (fresh s)) (d_hash s) (last_ino s) (mem s) (now s) (cur s)
    (note_a n (fresh s) (glob s)) (network s).

Lemma forgotten_quiet n s : quiet s (forgotten n s).
Proof.
  split; try done; simpl; [lia|..]; by destruct (note_a_glob n (fresh s) (glob s)) as [? ?].
Qed.

Lemma with_dentries_id s : with_dentries (dentries s) s = s.
Proof. by destruct s. Qed.

(** A fresh child of [p] in the maps of a node at rest. *)
Section fresh.
Context (s : kstate) (t : tree) (p : nat) (pd : dentry).
Context (Hok : node_ok s t) (Hp : dentries s !! p = Some pd).

Lemma fresh_child :
  dentries s !! fresh s = None /\ (p < fresh s)%nat /\ fresh s ∉ d_subdirs pd /\ fresh s ∉ d_hash s /\
  1 <= d_count pd.
Proof using Hok Hp.
  destruct (node_tree _ _ Hok) as [[Hrep Hnd] _].
  assert (Hpt : p ∈ refs t) by (apply (nk_dom _ _ Hok); eauto).
  assert (Hnf : fresh s ∉ refs t) by (intros H%(nk_fresh _ _ Hok); lia).
  split; [|split; [|split; [|split]]].
  - destruct (dentries s !! fresh s) eqn:E; [|done]. destruct Hnf. apply (nk_dom _ _ Hok). eauto.
  - by apply (nk_fresh _ _ Hok).
  - intros H. apply Hnf. by eapply (sub_refs _ _ _ p pd Hrep).
  - intros H. apply (nk_hash _ _ Hok) in H. by destruct H.
  - pose proof (node_count _ _ _ _ Hok Hp). lia.
Qed.

(** The maps get back to what they were. *)
Lemma fresh_dropped d :
  delete (fresh s) (<[p := drop_sub (fresh s) (add_sub (fresh s) pd)]>
    (<[fresh s := d]> (<[p := add_sub (fresh s) pd]> (dentries s)))) = dentries s.
Proof using Hok Hp.
  destruct fresh_child as (Hn & Hlt & Hs & _). rewrite drop_add_sub by done.
  apply map_eq. intros k. destruct (decide (k = fresh s)) as [->|Hk]; [by rewrite lookup_delete_eq|].
  rewrite lookup_delete_ne by done. destruct (decide (k = p)) as [->|Hkp]; [by rewrite lookup_insert_eq|].
  by rewrite !lookup_insert_ne by done.
Qed.

Lemma put_looked n :
  dput (fresh s) (looked_up p pd n s) = Ok (tt, forgotten n s).
Proof using Hok Hp.
  destruct fresh_child as (Hn & Hlt & Hs & Hh & Hc).
  erewrite (dput_last (fresh s) (child_dentry p n) p (add_sub (fresh s) pd)); try done.
  - unfold forgotten. simpl. do 2 f_equal. f_equal; [apply fresh_dropped|].
    rewrite Nat.eqb_refl. cbn [negb]. by apply filter_notin.
  - simpl. apply lookup_insert_eq.
  - lia.
  - simpl. rewrite lookup_insert_ne by lia. apply lookup_insert_eq.
  - simpl. lia.
Qed.
End fresh.

(** ** Looking a name up *)

Definition lookup_errno (s : kstate) (p : nat) (pi : inode) (n : list Z) : Z :=
  let e := generic_permission (cur s) pi MAY_EXEC in
  if negb (e =? 0) then e
  else match d_lookup_in (d_hash s) (dentries s) p n with
       | Some _ => 0
       | None => if NAME_MAX <? Z.of_nat (length n) then - ENAMETOOLONG else 0
       end.

(** A component of a path: no NUL and no slash. *)
Definition plain (n : list Z) : Prop := n <> [] /\ Forall (fun c => c <> 0 /\ c <> 47) n.

Lemma plain_component n : plain n -> Z.of_nat (length n) <= NAME_MAX -> component n.
Proof. intros [Hne Hn] Hl. split; [done|]. split; [done|]. unfold NAME_MAX in Hl. lia. Qed.

Section calls.
Variable pointer : block -> block * nat -> Z -> va -> printf_spec -> res (block * nat).
Context (stack : autos).
#[local] Instance results_ops : InodeOps := wjfs_ops pointer stack.

Context (s : kstate) (t : tree) (p : nat) (pd : dentry) (pir : nat) (pi : inode) (n : list Z).
Context (Hok : node_ok s t) (Hmem : mem s = []) (Hdy : directory s p pd pir pi) (Hn : plain n).

(** wjfs_lookup refuses a long name; d_alloc's dentry goes away. *)
Lemma lookup_long :
  generic_permission (cur s) pi MAY_EXEC = 0 -> d_lookup_in (d_hash s) (dentries s) p n = None ->
  NAME_MAX < Z.of_nat (length n) ->
  lookup_hash n p s = Ok (DErr (- ENAMETOOLONG), forgotten n s).
Proof using Hok Hmem Hdy Hn.
  intros Hx Hmiss Hl. destruct Hdy as [Hp Hpir Hpi Hdir _].
  pose proof (node_dir_ready _ _ _ _ _ _ Hok Hp Hpir Hpi Hdir Hx) as Hdr.
  destruct (fresh_child _ _ _ _ Hok Hp) as (Hf & Hlt & Hs & Hh & Hc).
  unfold lookup_hash. erewrite M_bind_ok by (by apply get_dentry_ok). rewrite Hpir.
  erewrite M_bind_ok by reflexivity. erewrite M_bind_ok by (by eapply dir_may_search).
  change (negb (0 =? 0)) with false. cbn iota. unfold lookup_hash_.
  erewrite M_bind_ok by (by apply get_dentry_ok).
  erewrite M_bind_ok; cycle 1.
  { unfold d_lookup. erewrite M_bind_ok by reflexivity. rewrite Hmiss. reflexivity. }
  rewrite Hpir. erewrite M_bind_ok by reflexivity.
  erewrite M_bind_ok by (by apply get_inode_ok). rewrite (dr_dead _ _ _ _ _ Hdr).
  erewrite M_bind_ok by (apply d_alloc_ok; [done|done|lia|lia]).
  rewrite (dr_ops _ _ _ _ _ Hdr). cbn [op_lookup results_ops wjfs_ops].
  set (d := mkDentry 1 false None p n [] false false). set (s1 := mkK _ _ _ _ _ _ _ _ _ _).
  assert (E : wjfs_lookup pir (fresh s) s1
              = Ok (DErr (- ENAMETOOLONG), with_glob (note_a n (fresh s) (glob s)) s1)).
  { unfold wjfs_lookup. erewrite M_bind_ok.
    2: { apply get_dentry_ok. simpl. rewrite lookup_insert_ne by lia. apply lookup_insert_eq. }
    destruct (strcmp_a n) as (c & Ec & Hc'); [destruct Hn as [_ Hz]; eapply List.Forall_impl; [|exact Hz]; simpl; tauto|].
    erewrite M_bind_ok by (unfold lift; simpl; by rewrite Ec). rewrite Hc'.
    erewrite M_bind_ok; [cbn [d_name d]; by rewrite (proj2 (Z.ltb_lt _ _))|].
    unfold note_a. by case_bool_decide. }
  erewrite M_bind_ok by exact E. cbn iota.
  erewrite M_bind_ok; cycle 1.
  { apply (dput_unhashed (fresh s) d p (add_sub (fresh s) pd)); try done; [|lia| |simpl; lia].
    - simpl. rewrite lookup_insert_ne by lia. apply lookup_insert_eq.
    - simpl. apply lookup_insert_eq. }
  unfold mret, M_ret, forgotten, with_dentries, with_glob. simpl. do 2 f_equal. f_equal.
  rewrite <- (fresh_dropped s t p pd Hok Hp d) at 2. f_equal. map_solve.
Qed.

Lemma lookup_refused :
  lookup_errno s p pi n <> 0 ->
  exists s', lookup_hash n p s = Ok (DErr (lookup_errno s p pi n), s') /\ quiet s s'.
Proof using Hok Hmem Hdy Hn.
  unfold lookup_errno. destruct (Z.eqb_spec (generic_permission (cur s) pi MAY_EXEC) 0) as [Hx|Hx]; cbn [negb].
  - destruct (d_lookup_in _ _ p n) eqn:Hm; [done|].
    destruct (Z.ltb_spec NAME_MAX (Z.of_nat (length n))) as [Hl|]; [|done]. intros _.
    exists (forgotten n s). split; [by apply lookup_long|apply forgotten_quiet].
  - intros _. exists s. split; [|done]. destruct Hdy as [Hp Hpir Hpi _ _]. unfold lookup_hash.
    erewrite M_bind_ok by (by apply get_dentry_ok). rewrite Hpir. erewrite M_bind_ok by reflexivity.
    unfold inode_permission. erewrite M_bind_ok; cycle 1.
    { erewrite M_bind_ok by (by apply get_inode_ok). erewrite M_bind_ok by reflexivity. reflexivity. }
    by rewrite (proj2 (Z.eqb_neq _ 0)) by done.
Qed.

(** A name that may be looked up is there, or becomes a negative dentry. *)
Lemma lookup_allowed :
  lookup_errno s p pi n = 0 ->
  dir_ready s p pd pir pi /\
  match d_lookup_in (d_hash s) (dentries s) p n with
  | Some r => exists d, dentries s !! r = Some d /\ d_parent d = p /\ d_name d = n /\ 
      lookup_hash n p s
      = Ok (DPtr r, with_dentries (<[r := set_d_count (d_count d + 1) d]> (dentries s)) s)
  | None => component n /\ lookup_hash n p s = Ok (DPtr (fresh s), looked_up p pd n s)
  end.
Proof using Hok Hmem Hdy Hn.
  unfold lookup_errno. destruct (Z.eqb_spec (generic_permission (cur s) pi MAY_EXEC) 0) as [Hx|Hx]; cbn [negb]; [|done].
  pose proof Hdy as [Hp Hpir Hpi Hdir _].
  pose proof (node_dir_ready _ _ _ _ _ _ Hok Hp Hpir Hpi Hdir Hx) as Hdr. intros He. split; [done|].
  destruct (d_lookup_in _ _ p n) as [r|] eqn:Hm.
  - destruct (d_lookup_found _ _ _ _ _ Hm) as (d & Hd & Hpar & _ & En). exists d. split_and!; try done.
    by eapply lookup_hash_found.
  - destruct (Z.ltb_spec NAME_MAX (Z.of_nat (length n))); [done|].
    pose proof (plain_component _ Hn ltac:(done)) as Hc. split; [done|]. unfold lookup_hash.
    erewrite M_bind_ok by (by apply get_dentry_ok). rewrite Hpir. erewrite M_bind_ok by reflexivity.
    erewrite M_bind_ok by (by eapply dir_may_search). change (negb (0 =? 0)) with false. cbn iota.
    by eapply lookup_hash_miss.
Qed.

(** What lookup and dput together leave of a dentry that is there. *)
Lemma found_positive r d :
  dentries s !! r = Some d ->
  exists ir i, d_inode d = Some ir /\ inodes s !! ir = Some i /\ i_count i = 1 /\ 1 <= d_count d /\
    node_inode s r = Some i.
Proof using Hok.
  intros Hd. destruct (nk_inode _ _ Hok _ _ Hd) as (ir & i & Hir & Hi & Hc & Hm & _).
  exists ir, i. split_and!; try done.
  - pose proof (node_count _ _ _ _ Hok Hd). lia.
  - unfold node_inode. rewrite Hd. simpl. rewrite Hir. simpl. rewrite Hi. simpl.
    by rewrite (proj2 (Z.eqb_neq _ 0)).
Qed.

Lemma put_found r d :
  dentries s !! r = Some d ->
  dput r (with_dentries (<[r := set_d_count (d_count d + 1) d]> (dentries s)) s) = Ok (tt, s).
Proof using Hok.
  intros Hd. destruct (found_positive r d Hd) as (_ & _ & _ & _ & _ & Hc & _).
  erewrite dput_held; [|simpl; apply lookup_insert_eq|simpl; lia]. cbn [dentries with_dentries].
  rewrite insert_insert_eq, insert_id; [exact (f_equal (fun u => Ok (tt, u)) (with_dentries_id s))|]. rewrite Hd. f_equal.
  destruct d. simpl. unfold set_d_count. simpl. f_equal. lia.
Qed.

(** ** Creating *)

(** The error of a call that makes an entry, where [m] is the error of making
    one in the directory. *)
Definition create_errno (m : Z) : Z :=
  let e := lookup_errno s p pi n in
  if negb (e =? 0) then e
  else match d_lookup_in (d_hash s) (dentries s) p n with
       | Some _ => - EEXIST
       | None => m
       end.

Lemma create_allowed m :
  create_errno m = 0 -> m = 0 /\ component n /\ d_lookup_in (d_hash s) (dentries s) p n = None.
Proof using pointer stack Hok Hmem Hdy Hn.
  unfold create_errno. destruct (Z.eqb_spec (lookup_errno s p pi n) 0) as [He|]; cbn [negb]; [|done].
  destruct (lookup_allowed He) as [_ H]. destruct (d_lookup_in _ _ p n); [done|]. by destruct H.
Qed.

(** A call that makes nothing: the name is taken, or [make] refuses. *)
Lemma on_new_refused make m :
  (m <> 0 -> make pir (fresh s) (looked_up p pd n s) = Ok (m, looked_up p pd n s)) ->
  create_errno m <> 0 -> exists s', on_new p n make s = Ok (create_errno m, s') /\ quiet s s'.
Proof using Hok Hmem Hdy Hn.
  intros Hmake. unfold create_errno.
  destruct (Z.eqb_spec (lookup_errno s p pi n) 0) as [He|He]; cbn [negb].
  - destruct (lookup_allowed He) as [_ H]. destruct Hdy as [Hp Hpir Hpi _ _].
    destruct (d_lookup_in _ _ p n) as [r|]; intros Hne; unfold on_new, lookup_create.
    + exists s. split; [|done]. destruct H as (d & Hd & _ & _ & E).
      destruct (found_positive r d Hd) as (ir & _ & Hir & _).
      erewrite M_bind_ok; cycle 1.
      { erewrite M_bind_ok by exact E. cbn iota.
        erewrite M_bind_ok by (apply get_dentry_ok; simpl; apply lookup_insert_eq). simpl. rewrite Hir.
        erewrite M_bind_ok by (by apply put_found). reflexivity. }
      reflexivity.
    + exists (forgotten n s). split; [|apply forgotten_quiet]. destruct H as [_ E].
      destruct (fresh_child _ _ _ _ Hok Hp) as (_ & Hlt & _).
      erewrite M_bind_ok; cycle 1.
      { erewrite M_bind_ok by exact E. cbn iota.
        erewrite M_bind_ok by (apply get_dentry_ok; simpl; apply lookup_insert_eq). reflexivity. }
      cbn iota. erewrite M_bind_ok; cycle 1.
      { apply get_dentry_ok. simpl. rewrite lookup_insert_ne by lia. apply lookup_insert_eq. }
      cbn [d_inode add_sub set_d_subdirs set_d_count]. rewrite Hpir. erewrite M_bind_ok by reflexivity.
      erewrite M_bind_ok by exact (Hmake Hne). by erewrite M_bind_ok by (by eapply put_looked).
  - intros _. destruct (lookup_refused He) as (s' & E & Hq). exists s'. split; [|done].
    unfold on_new, lookup_create. erewrite M_bind_ok; cycle 1.
    { erewrite M_bind_ok by exact E. reflexivity. }
    reflexivity.
Qed.

(** may_create on the new dentry, for any caller. *)
Lemma may_create_spec :
  may_create pir (fresh s) (looked_up p pd n s)
  = Ok (generic_permission (cur s) pi (Z.lor MAY_WRITE MAY_EXEC), looked_up p pd n s).
Proof using Hok Hdy.
  destruct Hdy as [Hp Hpir Hpi _ _].
  destruct (nk_inode _ _ Hok _ _ Hp) as (ir & i & Hir & Hi & _ & _ & Hdead & _). simplify_eq.
  unfold may_create. erewrite M_bind_ok by (apply get_dentry_ok; simpl; apply lookup_insert_eq).
  cbn [d_inode child_dentry]. erewrite M_bind_ok by (by apply get_inode_ok). rewrite Hdead.
  unfold inode_permission. erewrite M_bind_ok by (by apply get_inode_ok). by erewrite M_bind_ok by reflexivity.
Qed.

#[local] Abbreviation refused := (generic_permission (cur s) pi (Z.lor MAY_WRITE MAY_EXEC)).

Lemma mkdirat_refused mode umask :
  create_errno refused <> 0 ->
  exists s', sys_mkdirat p n mode umask s = Ok (create_errno refused, s') /\ quiet s s'.
Proof using Hok Hmem Hdy Hn.
  intros He. apply on_new_refused; [|done]. intros H0. unfold vfs_mkdir.
  erewrite M_bind_ok by apply may_create_spec. by rewrite (proj2 (Z.eqb_neq _ 0)).
Qed.

(** mknodat tests the type first and, once the name is free, what is left of it
    under the umask. *)
Definition mknod_errno (mode umask : Z) : Z :=
  if S_ISDIR mode then - EPERM
  else create_errno (let e := may_mknod (Z.land mode (Z.lnot umask)) in
                     if negb (e =? 0) then e else refused).

Lemma mknodat_refused mode dev umask :
  mknod_errno mode umask <> 0 ->
  exists s', sys_mknodat p n mode dev umask s = Ok (mknod_errno mode umask, s') /\ quiet s s'.
Proof using Hok Hmem Hdy Hn.
  set (fmt := Z.land (Z.land mode (Z.lnot umask)) S_IFMT). unfold mknod_errno, sys_mknodat. destruct (S_ISDIR mode); [by exists s|].
  apply on_new_refused. cbv zeta. fold fmt. set (e := may_mknod _).
  destruct (Z.eqb_spec e 0) as [He|He]; cbn [negb]; [|done]. intros H0.
  assert (Hno : forall m dev, vfs_mknod pir (fresh s) m dev (looked_up p pd n s)
                          = Ok (refused, looked_up p pd n s)).
  { intros m dv. unfold vfs_mknod. erewrite M_bind_ok by apply may_create_spec.
    by rewrite (proj2 (Z.eqb_neq _ 0)). }
  destruct ((fmt =? 0) || (fmt =? S_IFREG)); [|by destruct ((fmt =? S_IFCHR) || _)].
  unfold vfs_create. erewrite M_bind_ok by apply may_create_spec. by rewrite (proj2 (Z.eqb_neq _ 0)).
Qed.

(** ** Removing *)

(** The error of may_delete for an entry that is there. *)
Definition may_errno (i : inode) (isdir : bool) : Z :=
  if negb (refused =? 0) then refused
  else if check_sticky (cur s) pi i then - EPERM
  else if isdir && negb (S_ISDIR (i_mode i)) then - ENOTDIR
  else if negb isdir && S_ISDIR (i_mode i) then - EISDIR
  else 0.

Definition delete_errno (isdir : bool) : Z :=
  let e := lookup_errno s p pi n in
  if negb (e =? 0) then e
  else match d_lookup_in (d_hash s) (dentries s) p n with
       | None => - ENOENT
       | Some r =>
           match node_inode s r with
           | Some i => may_errno i isdir
           | None => 0
           end
       end.

(** The entry as a call holds it: a state that agrees with [s] but for the
    counts of one dentry and one inode. *)
Lemma may_delete_spec r d d' ir i i' isdir s' :
  dentries s !! r = Some d -> d_parent d = p -> d_inode d = Some ir -> inodes s !! ir = Some i ->
  cur s' = cur s -> dentries s' = <[r := d']> (dentries s) -> d_inode d' = Some ir -> d_parent d' = p ->
  inodes s' !! pir = Some pi -> inodes s' !! ir = Some i' -> i_mode i' = i_mode i -> i_uid i' = i_uid i ->
  p <> r ->
  may_delete pir r isdir s' = Ok (may_errno i isdir, s').
Proof using Hok Hdy.
  intros Hd Hpar Hir Hi Ec Ed Hir' Hpar' Hpi' Hi' Em Eu Hne. destruct Hdy as [Hp Hpir Hpi Hdir _].
  destruct (nk_inode _ _ Hok _ _ Hp) as (pir1 & pi1 & E1 & E2 & _ & _ & Hdead & _). simplify_eq.
  unfold may_delete. erewrite M_bind_ok by (apply get_dentry_ok; rewrite Ed; apply lookup_insert_eq).
  rewrite Hir', Hpar'.
  erewrite M_bind_ok by (apply get_dentry_ok; rewrite Ed; by rewrite lookup_insert_ne by done).
  rewrite bool_decide_eq_true_2 by done. cbn [negb].
  unfold inode_permission at 1. erewrite M_bind_ok; cycle 1.
  { erewrite M_bind_ok by (by apply get_inode_ok). erewrite M_bind_ok by reflexivity. reflexivity. }
  rewrite Ec. unfold may_errno.
  destruct (negb (refused =? 0)); [done|].
  erewrite M_bind_ok by (by apply get_inode_ok). erewrite M_bind_ok by (by apply get_inode_ok).
  erewrite M_bind_ok by reflexivity. rewrite Ec.
  assert (check_sticky (cur s) pi i' = check_sticky (cur s) pi i) as ->.
  { unfold check_sticky. by rewrite Eu. }
  rewrite Em, Hdead, (proj2 (Nat.eqb_neq _ r)) by done.
  destruct (check_sticky _ _ _); [done|]. by destruct isdir, (S_ISDIR (i_mode i)).
Qed.

Lemma may_delete_negative dir isdir :
  may_delete dir (fresh s) isdir (looked_up p pd n s) = Ok (- ENOENT, looked_up p pd n s).
Proof using.
  unfold may_delete. by erewrite M_bind_ok by (apply get_dentry_ok; simpl; apply lookup_insert_eq).
Qed.

(** dput and iput of what do_unlinkat holds. *)
Lemma put_grabbed r d ir i :
  dentries s !! r = Some d -> 1 <= d_count d -> inodes s !! ir = Some i -> i_count i = 1 ->
  exists s1, dput r (grabbed s r d ir i) = Ok (tt, s1) /\ iput ir s1 = Ok (tt, s).
Proof using.
  clear Hok Hmem Hdy Hn. intros Hd Hc Hi Hic. eexists. split.
  - apply dput_held; [simpl; apply lookup_insert_eq|simpl; lia].
  - unfold iput. erewrite M_bind_ok by (apply get_inode_ok; simpl; apply lookup_insert_eq).
    cbn [i_count set_links]. rewrite Hic. change (1 + 1 - 1 =? 0) with false. cbn iota.
    erewrite upd_inode_ok by (simpl; apply lookup_insert_eq). unfold with_inodes, with_dentries. simpl.
    rewrite !insert_insert_eq. destruct s; simpl in *. do 2 f_equal. f_equal; apply insert_id.
    + rewrite Hi. f_equal. destruct i; simpl in *. by subst.
    + rewrite Hd. f_equal. destruct d. unfold set_d_count. simpl. f_equal. lia.
Qed.

Lemma unlinkat_refused :
  delete_errno false <> 0 ->
  exists s', do_unlinkat p n s = Ok (delete_errno false, s') /\ quiet s s'.
Proof using Hok Hmem Hdy Hn.
  unfold delete_errno. destruct (Z.eqb_spec (lookup_errno s p pi n) 0) as [He|He]; cbn [negb].
  - destruct (lookup_allowed He) as [_ H]. pose proof Hdy as [Hp Hpir Hpi _ _]. unfold do_unlinkat.
    destruct (d_lookup_in _ _ p n) as [r|] eqn:Hf.
    + destruct H as (d & Hd & Hpar & _ & E). destruct (found_below _ _ _ _ _ Hok Hf) as [_ Hne].
      destruct (found_positive r d Hd) as (ir & i & Hir & Hi & Hic & Hc & Hni). rewrite Hni. intros H0.
      assert (Hpii : pir <> ir) by (intros ->; by destruct Hne; eapply (nk_inj _ _ Hok)).
      destruct (put_grabbed r d ir i Hd Hc Hi Hic) as (s1 & E1 & E2).
      exists s. split; [|done]. erewrite M_bind_ok by exact E. cbn iota.
      erewrite M_bind_ok by (apply get_dentry_ok; simpl; apply lookup_insert_eq).
      cbn [d_inode set_d_count]. rewrite Hir. erewrite M_bind_ok by (by apply upd_inode_ok).
      erewrite M_bind_ok by (apply get_dentry_ok; simpl; by rewrite lookup_insert_ne by done).
      rewrite Hpir. erewrite M_bind_ok by reflexivity. erewrite M_bind_ok; cycle 1.
      { unfold vfs_unlink. erewrite M_bind_ok; cycle 1.
        { apply (may_delete_spec r d (set_d_count (d_count d + 1) d) ir i
            (set_links (i_nlink i) (i_count i + 1) i)); try done; simpl;
            [by rewrite lookup_insert_ne by done|apply lookup_insert_eq]. }
        rewrite (proj2 (Z.eqb_neq _ 0)) by done. reflexivity. }
      erewrite M_bind_ok by exact E1. by erewrite M_bind_ok by exact E2.
    + intros _. exists (forgotten n s). split; [|apply forgotten_quiet]. destruct H as [_ E].
      destruct (fresh_child _ _ _ _ Hok Hp) as (_ & Hlt & _).
      erewrite M_bind_ok by exact E. cbn iota.
      erewrite M_bind_ok by (apply get_dentry_ok; simpl; apply lookup_insert_eq). cbn [d_inode child_dentry].
      erewrite M_bind_ok by reflexivity. erewrite M_bind_ok; cycle 1.
      { apply get_dentry_ok. simpl. rewrite lookup_insert_ne by lia. apply lookup_insert_eq. }
      cbn [d_inode add_sub set_d_subdirs set_d_count]. rewrite Hpir. erewrite M_bind_ok by reflexivity.
      erewrite M_bind_ok; cycle 1.
      { unfold vfs_unlink. erewrite M_bind_ok by apply may_delete_negative. reflexivity. }
      erewrite M_bind_ok by (by eapply put_looked). by erewrite M_bind_ok by reflexivity.
  - intros _. destruct (lookup_refused He) as (s' & E & Hq). exists s'. split; [|done].
    unfold do_unlinkat. by erewrite M_bind_ok by exact E.
Qed.

(** rmdir also refuses a directory that is not empty. *)
Definition rmdir_errno : Z :=
  let e := delete_errno true in
  if negb (e =? 0) then e
  else match d_lookup_in (d_hash s) (dentries s) p n with
       | Some r => match dentries s !! r with
                   | Some d => match d_subdirs d with [] => 0 | _ => - ENOTEMPTY end
                   | None => 0
                   end
       | None => 0
       end.

Lemma not_empty r d k :
  dentries s !! r = Some d -> d_subdirs d <> [] ->
  simple_empty r (LocalDir.held s r d k) = Ok (false, LocalDir.held s r d k).
Proof using Hok.
  intros Hd Hs. unfold simple_empty.
  erewrite M_bind_ok by (apply get_dentry_ok; simpl; apply lookup_insert_eq).
  cbn [d_subdirs set_d_count]. destruct (d_subdirs d) as [|x l] eqn:El; [done|].
  destruct (node_child s t r d x Hok Hd) as (xd & Hxd & _ & Hpos & Hxr & _); [rewrite El; by left|].
  cbn [no_positive].
  erewrite M_bind_ok by (apply get_dentry_ok; simpl; by rewrite lookup_insert_ne by done).
  by rewrite Hpos.
Qed.

(** vfs_rmdir of a directory of this node that is not empty. *)
Lemma vfs_rmdir_not_empty r d ir i ls :
  dentries s !! r = Some d -> d_parent d = p -> d_inode d = Some ir -> inodes s !! ir = Some i -> p <> r ->
  may_errno i true = 0 -> d_subdirs d <> [] ->
  links (g_table (glob s)) = Ok ls -> spec_mine ls (i_ino i) = true ->
  vfs_rmdir pir r (LocalDir.held s r d 1) = Ok (- ENOTEMPTY, LocalDir.held s r d 1).
Proof using Hok Hdy.
  intros Hd Hpar Hir Hi Hne H0 Hs Hls Hmine. pose proof Hdy as [Hp Hpir Hpi Hdir _].
  assert (Hops : i_op pi = wjfs_dir_iops).
  { destruct (nk_inode _ _ Hok _ _ Hp) as (? & ? & ? & ? & _ & _ & _ & _ & Ho). simplify_eq. by apply typed_dir. }
  assert (Hc : 2 <= d_count d).
  { pose proof (node_count _ _ _ _ Hok Hd) as Hc. destruct (d_subdirs d); [done|]. cbn [length] in Hc. lia. }
  unfold vfs_rmdir. erewrite M_bind_ok; cycle 1.
  { apply (may_delete_spec r d (set_d_count (d_count d + 1) d) ir i i); try done. }
  rewrite H0. change (negb (0 =? 0)) with false. cbn iota. erewrite M_bind_ok by (by apply get_inode_ok).
  rewrite Hops. cbn [op_rmdir results_ops wjfs_ops]. erewrite M_bind_ok; cycle 1.
  { apply dentry_unhash_held. lia. }
  erewrite M_bind_ok; cycle 1.
  { unfold wjfs_rmdir. erewrite M_bind_ok; cycle 1.
    { apply (dentry_is_mine_spec r (set_d_count (d_count d + 2) d) ir i ls); try done;
        [simpl; apply lookup_insert_eq|apply (nk_table _ _ Hok)]. }
    rewrite Hmine. cbn [negb]. erewrite M_bind_ok by (by apply not_empty). reflexivity. }
  change (- ENOTEMPTY =? 0) with false. cbn iota.
  erewrite M_bind_ok by reflexivity. erewrite M_bind_ok by reflexivity.
  erewrite M_bind_ok by (apply dput_held; [simpl; apply lookup_insert_eq|simpl; lia]).
  unfold mret, M_ret, LocalDir.held, with_dentries. simpl. rewrite insert_insert_eq. do 4 f_equal.
  unfold set_d_count. simpl. f_equal. lia.
Qed.

(** The entry, where there is one, is not a link of another node's file, and
    nobody uses it. *)
Definition mine_here : Prop :=
  exists ls, links (g_table (glob s)) = Ok ls /\
    forall r i, d_lookup_in (d_hash s) (dentries s) p n = Some r -> node_inode s r = Some i ->
      spec_mine ls (i_ino i) = true /\ users (dentries s) r = 0.

(** What an error of do_rmdir's may come from, once the name is found. *)
Lemma vfs_rmdir_refused r d :
  mine_here -> d_lookup_in (d_hash s) (dentries s) p n = Some r -> dentries s !! r = Some d ->
  d_parent d = p -> lookup_errno s p pi n = 0 -> rmdir_errno <> 0 ->
  vfs_rmdir pir r (LocalDir.held s r d 1) = Ok (rmdir_errno, LocalDir.held s r d 1).
Proof using Hok Hdy.
  intros (ls & Hls & Hmine) Hf Hd Hpar He. destruct (found_below _ _ _ _ _ Hok Hf) as [_ Hne].
  destruct (found_positive r d Hd) as (ir & i & Hir & Hi & Hic & Hc & Hni).
  unfold rmdir_errno, delete_errno. rewrite He. change (negb (0 =? 0)) with false. cbn iota.
  rewrite Hf, Hni, Hd. destruct (Z.eqb_spec (may_errno i true) 0) as [H0|H0]; cbn [negb].
  - destruct (d_subdirs d) eqn:Es; [done|]. intros _.
    apply (vfs_rmdir_not_empty r d ir i ls); try done; [by rewrite Es|by apply (Hmine r i)].
  - intros _. pose proof Hdy as [_ _ Hpi _ _]. unfold vfs_rmdir. erewrite M_bind_ok; cycle 1.
    { by apply (may_delete_spec r d (set_d_count (d_count d + 1) d) ir i i). }
    by rewrite (proj2 (Z.eqb_neq _ 0)).
Qed.

Lemma rmdirat_refused :
  mine_here -> rmdir_errno <> 0 ->
  exists s', do_rmdir p n s = Ok (rmdir_errno, s') /\ quiet s s'.
Proof using Hok Hmem Hdy Hn.
  intros Hmine Hr. pose proof Hdy as [Hp Hpir _ _ _].
  destruct (Z.eqb_spec (lookup_errno s p pi n) 0) as [He|He].
  - destruct (lookup_allowed He) as [_ H]. unfold do_rmdir. destruct (d_lookup_in _ _ p n) as [r|] eqn:Hf.
    + exists s. split; [|done]. destruct H as (d & Hd & Hpar & _ & E).
      destruct (found_below _ _ _ _ _ Hok Hf) as [_ Hne].
      erewrite M_bind_ok by exact E. cbn iota.
      erewrite M_bind_ok by (apply get_dentry_ok; simpl; by rewrite lookup_insert_ne by done).
      rewrite Hpir. erewrite M_bind_ok by reflexivity.
      erewrite M_bind_ok by (by apply vfs_rmdir_refused). by erewrite M_bind_ok by (by apply put_found).
    + exists (forgotten n s). split; [|apply forgotten_quiet]. destruct H as [_ E].
      destruct (fresh_child _ _ _ _ Hok Hp) as (_ & Hlt & _).
      assert (Ee : rmdir_errno = - ENOENT).
      { unfold rmdir_errno, delete_errno. by rewrite He, Hf. }
      rewrite Ee. erewrite M_bind_ok by exact E. cbn iota. erewrite M_bind_ok; cycle 1.
      { apply get_dentry_ok. simpl. rewrite lookup_insert_ne by lia. apply lookup_insert_eq. }
      cbn [d_inode add_sub set_d_subdirs set_d_count]. rewrite Hpir. erewrite M_bind_ok by reflexivity.
      erewrite M_bind_ok; cycle 1.
      { unfold vfs_rmdir. erewrite M_bind_ok by apply may_delete_negative. reflexivity. }
      by erewrite M_bind_ok by (by eapply put_looked).
  - destruct (lookup_refused He) as (s' & E & Hq). exists s'. split; [|done].
    assert (Ee : rmdir_errno = lookup_errno s p pi n).
    { unfold rmdir_errno, delete_errno. rewrite (proj2 (Z.eqb_neq _ 0) He). cbn [negb].
      by rewrite (proj2 (Z.eqb_neq _ 0) He). }
    rewrite Ee. unfold do_rmdir. by erewrite M_bind_ok by exact E.
Qed.
End calls.

(** ** The whole result *)

(** mkdirat by any caller of any name: the error is the one of [create_errno] and
    a call that fails changes nothing; otherwise the directory is there, the node at
    rest and the other node told. *)
Lemma mkdir_here pointer stack s t p pd pir pi n mode umask :
  fit stack s t -> directory s p pd pir pi -> plain n ->
  let e := create_errno s p pi n (generic_permission (cur s) pi (Z.lor MAY_WRITE MAY_EXEC)) in
  exists s', @sys_mkdirat (wjfs_ops pointer stack) p n mode umask s = Ok (e, s') /\
    (e <> 0 -> quiet s s') /\
    (e = 0 -> node_ok s' (add_child p (fresh s) t) /\
       entry_at s' (fresh s) p n (u32 (last_ino s + 1)) S_IFDIR /\
       gains s s' (fresh s) (mkEnt p n (u32 (last_ino s + 1)) true) /\
       n_sent (network s')
       = (test_addr, htons test_port,
          req_text (bytes "CR") (s32 (u32 (last_ino s + 1))) n (s32 (i_ino pi)) (d_name pd)
            (mode_text 1)) :: n_sent (network s)).
Proof.
  intros Hft Hdy Hn e. pose proof Hft as [_ Hok Hm _]. destruct (decide (e = 0)) as [He|He].
  - destruct (create_allowed pointer stack s t p pd pir pi n Hok Hm Hdy Hn _ He) as (Hw & Hc & Hmiss).
    destruct (mkdir_local pointer stack s t p pd pir pi n mode umask Hft Hdy Hw Hc Hmiss)
      as (s' & pi' & E & H1 & H2 & _ & _ & H3 & H4). exists s'. rewrite He. done.
  - destruct (mkdirat_refused pointer stack s t p pd pir pi n Hok Hm Hdy Hn mode umask He) as (s' & E & Hq).
    exists s'. split; [done|]. split; [done|]. intros H0. by destruct He.
Qed.

(** mknodat of a regular file by any caller, with any name and mode bits: the error
    of [mknod_errno] without any change, or the new file and one create request. *)
Lemma mknod_here pointer stack s t p pd pir pi n mode umask :
  fit stack s t -> directory s p pd pir pi -> plain n ->
  let m := Z.land mode (Z.lnot umask) in
  let e := mknod_errno s p pi n mode umask in
  (e = 0 -> Z.land m S_IFMT = 0 \/ Z.land m S_IFMT = S_IFREG) ->
  exists s', @sys_mknodat (wjfs_ops pointer stack) p n mode 0 umask s = Ok (e, s') /\
    (e <> 0 -> quiet s s') /\
    (e = 0 -> node_ok s' (add_child p (fresh s) t) /\
       entry_at s' (fresh s) p n (u32 (last_ino s + 1)) S_IFREG /\
       gains s s' (fresh s) (mkEnt p n (u32 (last_ino s + 1)) false) /\
       n_sent (network s')
       = (test_addr, htons test_port,
          req_text (bytes "CR") (s32 (u32 (last_ino s + 1))) n (s32 (i_ino pi)) (d_name pd)
            (mode_text 0)) :: n_sent (network s)).
Proof.
  intros Hft Hdy Hn m e Hreg. pose proof Hft as [_ Hok Hm _]. destruct (decide (e = 0)) as [He|He].
  - assert (S_ISDIR mode = false /\ create_errno s p pi n (if negb (may_mknod m =? 0) then may_mknod m
        else generic_permission (cur s) pi (Z.lor MAY_WRITE MAY_EXEC)) = 0) as [Hnd He'].
    { unfold e, mknod_errno in He. by destruct (S_ISDIR mode). }
    destruct (create_allowed pointer stack s t p pd pir pi n Hok Hm Hdy Hn _ He') as (Hw & Hc & Hmiss).
    destruct (Z.eqb_spec (may_mknod m) 0); cbn [negb] in Hw; [|done].
    destruct (mknod_local pointer stack s t p pd pir pi n mode umask Hft Hdy Hw Hc Hmiss Hnd (Hreg He))
      as (s' & E & H). exists s'. rewrite He. done.
  - destruct (mknodat_refused pointer stack s t p pd pir pi n Hok Hm Hdy Hn mode 0 umask He) as (s' & E & Hq).
    exists s'. split; [done|]. split; [done|]. intros H0. by destruct He.
Qed.

(** The entry that a call may delete. *)
Lemma delete_allowed
    (pointer : block -> block * nat -> Z -> va -> printf_spec -> res (block * nat))
    (stack : autos) s t p pd pir pi n isdir :
  node_ok s t -> mem s = [] -> directory s p pd pir pi -> plain n -> delete_errno s p pi n isdir = 0 ->
  exists r d ir i, d_lookup_in (d_hash s) (dentries s) p n = Some r /\ dentries s !! r = Some d /\
    d_inode d = Some ir /\ inodes s !! ir = Some i /\ node_inode s r = Some i /\ r <> troot t /\
    may_change s pi /\ check_sticky (cur s) pi i = false /\ S_ISDIR (i_mode i) = isdir /\
    (length n <= 255)%nat.
Proof.
  intros Hok Hm Hdy Hn. unfold delete_errno.
  destruct (Z.eqb_spec (lookup_errno s p pi n) 0) as [He|]; cbn [negb]; [|done].
  destruct (lookup_allowed pointer stack s t p pd pir pi n Hok Hm Hdy Hn He) as [_ H].
  destruct (d_lookup_in _ _ p n) as [r|] eqn:Hf; [|done]. destruct H as (d & Hd & _ & En & _).
  destruct (found_positive s t Hok r d Hd) as (ir & i & Hir & Hi & _ & _ & Hni). rewrite Hni.
  unfold may_errno. destruct (Z.eqb_spec (generic_permission (cur s) pi (Z.lor MAY_WRITE MAY_EXEC)) 0);
    cbn [negb]; [|done]. destruct (check_sticky _ _ _) eqn:Est; [done|]. intros Hk.
  exists r, d, ir, i. split_and!; try done; [apply (found_below _ _ _ _ _ Hok Hf)| |].
  - by destruct isdir, (S_ISDIR (i_mode i)).
  - subst n. apply (nk_names _ _ Hok _ _ Hd).
Qed.

Lemma not_dir_empty s t r d i :
  node_ok s t -> dentries s !! r = Some d -> node_inode s r = Some i -> S_ISDIR (i_mode i) = false ->
  d_subdirs d = [].
Proof.
  intros Hok Hd (d' & ir & Hd' & Hir & Hi & _)%node_inode_inv Hk.
  destruct (nk_inode _ _ Hok _ _ Hd) as (ir' & i' & E1 & E2 & _ & _ & _ & Hsub & _). simplify_eq.
  destruct (d_subdirs d); [done|]. rewrite Hsub in Hk by done. done.
Qed.

(** What an entry that was removed leaves: nothing of it, and one request. *)
Definition deleted (s s' : kstate) (t : tree) (r ir : nat) (msg : list Z) : Prop :=
  node_ok s' (del r t) /\ dentries s' !! r = None /\ inodes s' !! ir = None /\ r ∉ d_hash s' /\
  loses s s' r /\ n_sent (network s') = (test_addr, htons test_port, msg) :: n_sent (network s).

(** unlinkat by any caller of any name that is not a link's: the error of
    [delete_errno] and no change, or the file is gone and the other node told. *)
Lemma unlink_here pointer stack s t p pd pir pi n :
  fit stack s t -> directory s p pd pir pi -> plain n -> mine_here s p n ->
  let e := delete_errno s p pi n false in
  exists s', @do_unlinkat (wjfs_ops pointer stack) p n s = Ok (e, s') /\
    (e <> 0 -> quiet s s') /\
    (e = 0 -> exists r d ir i, d_lookup_in (d_hash s) (dentries s) p n = Some r /\
       dentries s !! r = Some d /\ d_inode d = Some ir /\ inodes s !! ir = Some i /\
       deleted s s' t r ir
         (req_text (bytes "RM") (s32 (i_ino i)) n (s32 (i_ino pi)) (d_name pd) (mode_text 0))).
Proof.
  intros Hft Hdy Hn Hmh e. pose proof Hft as [_ Hok Hm _]. destruct (decide (e = 0)) as [He|He].
  - destruct (delete_allowed pointer stack s t p pd pir pi n false Hok Hm Hdy Hn He)
      as (r & d & ir & i & Hf & Hd & Hir & Hi & Hni & Hr & Hw & Hst & Hk & Hl).
    destruct Hmh as (ls & Hls & Hmine). destruct (Hmine r i Hf Hni) as [Hmi Hu].
    assert (Hen : entry s t p n r d ir i) by (split; try done; by eapply not_dir_empty).
    destruct (unlink_local pointer stack s t p pd pir pi n r d ir i ls Hft Hdy Hw Hen Hl Hst Hk Hls Hmi)
      as (s' & E & H). exists s'. rewrite He. split; [done|]. split; [done|]. intros _. by exists r, d, ir, i.
  - destruct (unlinkat_refused pointer stack s t p pd pir pi n Hok Hm Hdy Hn He) as (s' & E & Hq).
    exists s'. split; [done|]. split; [done|]. intros H0. by destruct He.
Qed.

(** rmdir likewise; a directory that is not empty stays. *)
Lemma rmdir_here pointer stack s t p pd pir pi n :
  fit stack s t -> directory s p pd pir pi -> plain n -> mine_here s p n ->
  let e := rmdir_errno s p pi n in
  exists s', @do_rmdir (wjfs_ops pointer stack) p n s = Ok (e, s') /\
    (e <> 0 -> quiet s s') /\
    (e = 0 -> exists r d ir i, d_lookup_in (d_hash s) (dentries s) p n = Some r /\
       dentries s !! r = Some d /\ d_inode d = Some ir /\ inodes s !! ir = Some i /\
       deleted s s' t r ir
         (req_text (bytes "RM") (s32 (i_ino i)) n (s32 (i_ino pi)) (d_name pd) (mode_text 1))).
Proof.
  intros Hft Hdy Hn Hmh e. pose proof Hft as [_ Hok Hm _]. destruct (decide (e = 0)) as [He|He].
  - assert (He' : delete_errno s p pi n true = 0).
    { unfold e, rmdir_errno in He. destruct (Z.eqb_spec (delete_errno s p pi n true) 0); [done|].
      by cbn [negb] in He. }
    destruct (delete_allowed pointer stack s t p pd pir pi n true Hok Hm Hdy Hn He')
      as (r & d & ir & i & Hf & Hd & Hir & Hi & Hni & Hr & Hw & Hst & Hk & Hl).
    destruct Hmh as (ls & Hls & Hmine). destruct (Hmine r i Hf Hni) as [Hmi Hu].
    assert (Hsub : d_subdirs d = []).
    { unfold e, rmdir_errno in He. rewrite He', Hf, Hd in He. cbn [negb] in He.
      by destruct (d_subdirs d). }
    assert (Hen : entry s t p n r d ir i) by done.
    destruct (rmdir_local pointer stack s t p pd pir pi n r d ir i ls Hft Hdy Hw Hen Hl Hst Hk Hls Hmi)
      as (s' & pi' & E & H1 & H2 & H3 & H4 & _ & _ & H5 & H6).
    exists s'. rewrite He. split; [done|]. split; [done|]. intros _. by exists r, d, ir, i.
  - destruct (rmdirat_refused pointer stack s t p pd pir pi n Hok Hm Hdy Hn Hmh He) as (s' & E & Hq).
    exists s'. split; [done|]. split; [done|]. intros H0. by destruct He.
Qed.
