(* ===== verification/ReadDir.v ===== *)
(** * Listing a directory

    simple_dir_operations of fs/libfs.c, which wjfs_get_inode gives to every
    directory, below vfs_readdir and getdents64 of fs/readdir.c.  The position in
    a directory that is open is a dentry of its own, the cursor, which moves
    through the list of children.

    User memory is an object: a store outside it fails with EFAULT and changes
    nothing, copy_to_user writes what can be reached. *)

From S2P Require Import Prelude KString MapTable Vfs Tree PageIo FileMap.

(** ** Lists of children *)

(** list_add of [q] behind [x], and list_move. *)
Fixpoint add_behind (x q : nat) (l : list nat) : list nat :=
  match l with
  | [] => []
  | y :: l => if (y =? x)%nat then y :: q :: l else y :: add_behind x q l
  end.

Definition list_del (q : nat) (l : list nat) : list nat := List.filter (fun x => negb (x =? q)%nat) l.

(** [list_add_tail(q, p)], where the rest of the list from [p] on is [rest]. *)
Definition add_before (q : nat) (l rest : list nat) : list nat :=
  take (length l - length rest) l ++ q :: rest.

(** ** fs/libfs.c *)

(** An open directory: the file, [private_data] and [f_pos]. *)
Record dirfile : Type := mkDirfile {
  df_file : file;
  df_cursor : nat;
  df_pos : Z;
}.

Definition dcache_dir_open (f : file) : M (Z * option dirfile) :=
  c ← d_alloc (Some (f_dentry f)) (bytes ".");
  match c with
  | Some c => mret (0, Some (mkDirfile f c 0))
  | None => mret (- ENOMEM, None)
  end.

Definition dcache_dir_close (f : dirfile) : M Z := dput (df_cursor f);; mret 0.

(** The child behind the first [n] positive ones, as the list that starts with
    it. *)
Fixpoint skip_positive (n : Z) (l : list nat) : M (list nat) :=
  match l with
  | [] => mret []
  | r :: rest =>
      if n =? 0 then mret l else
      d ← get_dentry r;
      skip_positive (if d_hashed d && bool_decide (is_Some (d_inode d)) then n - 1 else n) rest
  end.

Definition dcache_dir_lseek (f : dirfile) (offset origin : Z) : M (Z * dirfile) :=
  let offset := if origin =? 1 then s64 (offset + df_pos f) else offset in
  if negb ((origin =? 0) || (origin =? 1)) || (offset <? 0) then mret (- EINVAL, f) else
  (if negb (offset =? df_pos f) && (2 <=? offset) then
     let dir := f_dentry (df_file f) in
     upd_dentry dir (fun d => set_d_subdirs (list_del (df_cursor f) (d_subdirs d)) d);;
     d ← get_dentry dir;
     rest ← skip_positive (offset - 2) (d_subdirs d);
     upd_dentry dir (set_d_subdirs (add_before (df_cursor f) (d_subdirs d) rest))
   else mret tt);;
  mret (offset, mkDirfile (df_file f) (df_cursor f) offset).

Definition dt_type (i : inode) : Z := Z.land (Z.shiftr (i_mode i) 12) 15.
Definition DT_DIR : Z := 4.

Section readdir.
Context {CB : Type} (filldir : CB -> list Z -> Z -> Z -> Z -> Z * CB).

(** The loop over the children behind [p]; every turn that goes on moves [p] or
    the cursor forward. *)
Fixpoint readdir_loop (fuel dir cursor p : nat) (pos : Z) (cb : CB) : M (Z * CB) :=
  match fuel with
  | O => fail OutOfFuel
  | S fuel =>
      d ← get_dentry dir;
      match after p (d_subdirs d) with
      | [] => mret (pos, cb)
      | x :: _ =>
          next ← get_dentry x;
          match d_inode next with
          | Some ir =>
              if negb (d_hashed next) then readdir_loop fuel dir cursor x pos cb else
              i ← get_inode ir;
              let '(e, cb) := filldir cb (d_name next) pos (i_ino i) (dt_type i) in
              if e <? 0 then mret (pos, cb) else
              upd_dentry dir (fun d =>
                set_d_subdirs (add_behind x cursor (list_del cursor (d_subdirs d))) d);;
              readdir_loop fuel dir cursor cursor (pos + 1) cb
          | None => readdir_loop fuel dir cursor x pos cb
          end
      end
  end.

(** The three cases of dcache_readdir, each of which falls through to the next;
    the result is the new position and what was filled in. *)
Definition readdir_default (f : dirfile) (pos : Z) (cb : CB) : M (Z * CB) :=
  let dir := f_dentry (df_file f) in
  (if pos =? 2 then
     upd_dentry dir (fun d => set_d_subdirs (df_cursor f :: list_del (df_cursor f) (d_subdirs d)) d)
   else mret tt);;
  d ← get_dentry dir;
  readdir_loop (S (length (d_subdirs d))) dir (df_cursor f) (df_cursor f) pos cb.

Definition readdir_1 (f : dirfile) (pos : Z) (cb : CB) : M (Z * CB) :=
  d ← get_dentry (f_dentry (df_file f));
  p ← get_dentry (d_parent d);
  ir ← deref (d_inode p);
  pi ← get_inode ir;
  let '(e, cb) := filldir cb (bytes "..") 1 (i_ino pi) DT_DIR in
  if e <? 0 then mret (pos, cb) else readdir_default f (pos + 1) cb.

Definition readdir_0 (f : dirfile) (pos : Z) (cb : CB) : M (Z * CB) :=
  d ← get_dentry (f_dentry (df_file f));
  ir ← deref (d_inode d);
  di ← get_inode ir;
  let '(e, cb) := filldir cb (bytes ".") 0 (i_ino di) DT_DIR in
  if e <? 0 then mret (pos, cb) else readdir_1 f (pos + 1) cb.

Definition dcache_readdir (f : dirfile) (cb : CB) : M (Z * CB) :=
  let i := s32 (df_pos f) in
  if i =? 0 then readdir_0 f (df_pos f) cb
  else if i =? 1 then readdir_1 f (df_pos f) cb
  else readdir_default f (df_pos f) cb.

(** ** fs/readdir.c *)

(** vfs_readdir on a file of simple_dir_operations; the result, the position and
    what was filled in. *)
Definition vfs_readdir (env : io_env) (f : dirfile) (cb : CB) : M (Z * dirfile * CB) :=
  d ← get_dentry (f_dentry (df_file f));
  ir ← deref (d_inode d);
  i ← get_inode ir;
  if negb (bool_decide (i_fop i = simple_dir_fops)) then mret (- ENOTDIR, f, cb) else
  if i_dead i then mret (- ENOENT, f, cb) else
  '(pos, cb) ← dcache_readdir f cb;
  file_accessed env (df_file f) ir;;
  mret (0, mkDirfile (df_file f) (df_cursor f) pos, cb).
End readdir.

(** The bytes of a number, least significant first. *)
Fixpoint le (n : nat) (z : Z) : list Z :=
  match n with O => [] | S n => z mod 256 :: le n (z / 256) end.

(** A store into user memory: the memory afterwards and whether it succeeded. *)
Definition store : Type := block -> block * bool.

Definition put_user (off : Z) (bs : list Z) : store := fun b =>
  if (0 <=? off) && (off + Z.of_nat (length bs) <=? Z.of_nat (length b))
  then (splice b (Z.to_nat off) bs, true) else (b, false).

Definition copy_to_user (off : Z) (bs : list Z) : store := fun b =>
  let n := Z.min (Z.of_nat (length bs)) (Z.of_nat (length b) - off) in
  (splice b (Z.to_nat off) (take (Z.to_nat n) bs), n =? Z.of_nat (length bs)).

Fixpoint stores (l : list store) : store := fun b =>
  match l with
  | [] => (b, true)
  | f :: l => let '(b, ok) := f b in if (ok : bool) then stores l b else (b, false)
  end.

(** struct getdents_callback64, with the user's memory; the pointers are offsets
    from [dirent]. *)
Record callback : Type := mkCallback {
  cb_mem : block;
  cb_current : Z;
  cb_previous : option Z;
  cb_count : Z;
  cb_error : Z;
}.

Definition NAME_OFFSET : Z := 19.
Definition reclen64 (namlen : Z) : Z := Z.land (NAME_OFFSET + namlen + 1 + 7) (Z.lnot 7).

Definition filldir64 (cb : callback) (name : list Z) (offset ino d_type : Z) : Z * callback :=
  let namlen := Z.of_nat (length name) in
  let reclen := reclen64 namlen in
  let cur := cb_current cb in
  if cb_count cb <? reclen
  then (- EINVAL, mkCallback (cb_mem cb) cur (cb_previous cb) (cb_count cb) (- EINVAL)) else
  let '(mem, ok) := stores
    [ (match cb_previous cb with Some p => put_user (p + 8) (le 8 offset) | None => fun b => (b, true) end);
      put_user cur (le 8 ino);
      put_user (cur + 8) (le 8 0);
      put_user (cur + 16) (le 2 reclen);
      put_user (cur + 18) (le 1 d_type);
      copy_to_user (cur + NAME_OFFSET) name;
      put_user (cur + NAME_OFFSET + namlen) (le 1 0) ] (cb_mem cb) in
  if negb ok then (- EFAULT, mkCallback mem cur (cb_previous cb) (cb_count cb) (- EFAULT))
  else (0, mkCallback mem (cur + reclen) (Some cur) (cb_count cb - reclen) (- EINVAL)).

(** getdents64 on an open directory; [mem] is the user's memory at [dirent],
    where access_ok admits [count] bytes. *)
Definition sys_getdents64 (env : io_env) (f : dirfile) (mem : block) (count : Z)
  : M (Z * dirfile * block) :=
  '(error, f, cb) ← vfs_readdir filldir64 env f (mkCallback mem 0 None (s32 count) 0);
  let error := if 0 <=? error then cb_error cb else error in
  mret (match cb_previous cb with
        | Some last =>
            let '(mem, ok) := put_user (last + 8) (le 8 (df_pos f)) (cb_mem cb) in
            (if negb ok then - EFAULT else s32 (count - cb_count cb), f, mem)
        | None => (error, f, cb_mem cb)
        end).
