(* ===== verification/Dirents.v ===== *)
(** * The records of a listing

    filldir64 lays the entries of a directory out as records in user memory.
    Here is what the memory holds after any number of entries, and that a reader
    who follows [d_reclen] gets the entries back. *)

From S2P Require Import Prelude KString MapTable Vfs Tree PageIo FileMap ReadDir.

(** Name, inode number and type, as filldir gets them. *)
Definition dirent : Type := (list Z * Z * Z).

Definition name_of (e : dirent) : list Z := fst (fst e).

(** filldir over a list of entries, up to the first it refuses. *)
Section fill.
Context {CB : Type} (filldir : CB -> list Z -> Z -> Z -> Z -> Z * CB).

Fixpoint fills (pos : Z) (cb : CB) (es : list dirent) : Z * CB :=
  match es with
  | [] => (pos, cb)
  | (n, ino, ty) :: es =>
      let '(e, cb) := filldir cb n pos ino ty in
      if e <? 0 then (pos, cb) else fills (pos + 1) cb es
  end.
End fill.

(** ** Stores *)

Lemma length_le n z : length (le n z) = n.
Proof. revert z. induction n; intros z; simpl; [done|]. by rewrite IHn. Qed.

Lemma splice_middle (a b b' r : list Z) :
  length b' = length b -> splice (a ++ b ++ r) (length a) b' = a ++ b' ++ r.
Proof.
  intros E. unfold splice. rewrite take_app_length. do 2 f_equal.
  rewrite app_assoc, E, drop_app_length'; [done|]. by rewrite length_app.
Qed.

Lemma splice_behind (a r : list Z) o bs : splice (a ++ r) (length a + o) bs = a ++ splice r o bs.
Proof.
  unfold splice. rewrite take_app_add, <- app_assoc, drop_app_ge by lia. do 4 f_equal. lia.
Qed.

(** A store behind [a] that fits. *)
Lemma put_behind a r o bs :
  0 <= o -> o + Z.of_nat (length bs) <= Z.of_nat (length r) ->
  put_user (Z.of_nat (length a) + o) bs (a ++ r) = (a ++ splice r (Z.to_nat o) bs, true).
Proof.
  intros Ho Hl. unfold put_user. rewrite length_app.
  rewrite (proj2 (Z.leb_le 0 _)), (proj2 (Z.leb_le _ _)) by lia. cbn [andb].
  replace (Z.to_nat (Z.of_nat (length a) + o)) with (length a + Z.to_nat o)%nat by lia.
  by rewrite splice_behind.
Qed.

Lemma copy_behind a r o bs :
  0 <= o -> o + Z.of_nat (length bs) <= Z.of_nat (length r) ->
  copy_to_user (Z.of_nat (length a) + o) bs (a ++ r) = (a ++ splice r (Z.to_nat o) bs, true).
Proof.
  intros Ho Hl. unfold copy_to_user. rewrite length_app, Z.min_l by lia. rewrite Nat2Z.id, take_ge by lia.
  replace (Z.to_nat (Z.of_nat (length a) + o)) with (length a + Z.to_nat o)%nat by lia.
  by rewrite splice_behind, Z.eqb_refl.
Qed.

(** ** Records *)

Lemma reclen64_value n : 0 <= n -> reclen64 n = 8 * ((27 + n) / 8).
Proof.
  intros Hn. unfold reclen64, NAME_OFFSET. replace (19 + n + 1 + 7) with (27 + n) by lia.
  change 7 with (Z.ones 3). rewrite <- Z.ldiff_land, Z.ldiff_ones_r by lia.
  rewrite Z.shiftl_mul_pow2, Z.shiftr_div_pow2 by lia. change (2 ^ 3) with 8. lia.
Qed.

Definition reclen (e : dirent) : Z := reclen64 (Z.of_nat (length (name_of e))).

Lemma reclen_range e :
  20 + Z.of_nat (length (name_of e)) <= reclen e <= 27 + Z.of_nat (length (name_of e)).
Proof. unfold reclen. rewrite reclen64_value by lia. dlia. Qed.

Definition header (e : dirent) (off : Z) : list Z :=
  let '(n, ino, ty) := e in le 8 ino ++ le 8 off ++ le 2 (reclen e) ++ le 1 ty ++ n ++ le 1 0.

Lemma length_header e off : length (header e off) = (20 + length (name_of e))%nat.
Proof. destruct e as [[n ino] ty]. unfold header, name_of. cbn [fst]. rewrite !length_app, !length_le. lia. Qed.

(** The bytes [b] are the records of the entries [es] from position [k] on. *)
Inductive records : Z -> list dirent -> list Z -> Prop :=
  | records_nil k : records k [] []
  | records_cons k e es pad b :
      Z.of_nat (length (header e (k + 1) ++ pad)) = reclen e -> records (k + 1) es b ->
      records k (e :: es) (header e (k + 1) ++ pad ++ b).

Lemma records_snoc k es b e pad :
  records k es b -> Z.of_nat (length (header e (k + Z.of_nat (length es) + 1) ++ pad)) = reclen e ->
  records k (es ++ [e]) (b ++ header e (k + Z.of_nat (length es) + 1) ++ pad).
Proof.
  induction 1 as [k|k e' es pad' b Hl Hr IH]; intros He; cbn [app length].
  - replace (k + Z.of_nat (length []) + 1) with (k + 1) in * by (simpl; lia).
    rewrite <- (app_nil_r pad) at 1. constructor; [done|constructor].
  - cbn [length] in He. replace (k + Z.of_nat (S (length es)) + 1) with (k + 1 + Z.of_nat (length es) + 1) in * by lia.
    rewrite <- !app_assoc. constructor; [done|]. by apply IH.
Qed.

(** ** The callback while it is filled *)

(** A callback for [n] bytes of [mem] after the entries [es], which start at
    position [k]: whole records, but that the last does not know the position
    behind it yet; the rest of the memory is as it was. *)
Inductive filling (mem : block) (n k : Z) : list dirent -> callback -> Prop :=
  | filling_none err : filling mem n k [] (mkCallback mem 0 None n err)
  | filling_some es e b pad err :
      records k es b ->
      let last := header e 0 ++ pad in
      let cur := Z.of_nat (length (b ++ last)) in
      Z.of_nat (length last) = reclen e -> cur <= n ->
      filling mem n k (es ++ [e])
        (mkCallback (b ++ last ++ drop (Z.to_nat cur) mem) cur (Some (Z.of_nat (length b))) (n - cur) err).

(** The next bytes of a record that is being stored behind [a]. *)
Lemma put_next a r h o bs :
  o = Z.of_nat (length a) + Z.of_nat (length h) -> (length h + length bs <= length r)%nat ->
  put_user o bs (a ++ splice r 0 h) = (a ++ splice r 0 (h ++ bs), true).
Proof.
  intros -> Hl. rewrite put_behind by (rewrite ?length_splice; lia).
  by rewrite Nat2Z.id, <- splice_app by lia.
Qed.

Lemma copy_next a r h o bs :
  o = Z.of_nat (length a) + Z.of_nat (length h) -> (length h + length bs <= length r)%nat ->
  copy_to_user o bs (a ++ splice r 0 h) = (a ++ splice r 0 (h ++ bs), true).
Proof.
  intros -> Hl. rewrite copy_behind by (rewrite ?length_splice; lia).
  by rewrite Nat2Z.id, <- splice_app by lia.
Qed.

Lemma store_record a r n ino ty :
  reclen (n, ino, ty) <= Z.of_nat (length r) ->
  let cur := Z.of_nat (length a) in
  stores [put_user cur (le 8 ino); put_user (cur + 8) (le 8 0);
    put_user (cur + 16) (le 2 (reclen64 (Z.of_nat (length n)))); put_user (cur + 18) (le 1 ty);
    copy_to_user (cur + NAME_OFFSET) n; put_user (cur + NAME_OFFSET + Z.of_nat (length n)) (le 1 0)] (a ++ r)
  = (a ++ splice r 0 (header (n, ino, ty) 0), true).
Proof.
  intros Hl. cbv zeta. pose proof (reclen_range (n, ino, ty)) as Hr. unfold name_of in Hr. cbn [fst] in Hr.
  unfold NAME_OFFSET. rewrite <- (splice_nil r 0) at 1. cbn [stores].
  rewrite put_next by (rewrite ?length_app, ?length_le; simpl; lia). cbn iota beta. cbn [app].
  do 3 (rewrite put_next by (rewrite ?length_app, ?length_le; lia); cbn iota beta).
  rewrite copy_next by (rewrite ?length_app, ?length_le; lia). cbn iota beta.
  rewrite put_next by (rewrite ?length_app, ?length_le; lia). cbn iota beta.
  unfold header, reclen, name_of. cbn [fst]. by rewrite <- !app_assoc.
Qed.

Lemma drop_splice_0 r h : drop (length h) (splice r 0 h) = drop (length h) r.
Proof. unfold splice. rewrite take_0. cbn [app]. by rewrite drop_app_length. Qed.

(** The position behind the last record. *)
Lemma store_offset b e pad rest off :
  put_user (Z.of_nat (length b) + 8) (le 8 off) (b ++ (header e 0 ++ pad) ++ rest)
  = (b ++ (header e off ++ pad) ++ rest, true).
Proof.
  destruct e as [[n ino] ty]. unfold header. rewrite <- !app_assoc, (app_assoc b (le 8 ino)).
  set (tail := le 2 _ ++ _). rewrite <- (Z.add_0_r (_ + 8)).
  replace (Z.of_nat (length b) + 8 + 0) with (Z.of_nat (length (b ++ le 8 ino)) + 0)
    by (rewrite length_app, length_le; lia).
  rewrite put_behind by (rewrite ?length_app, ?length_le; lia).
  assert (E : splice (le 8 0 ++ tail) (Z.to_nat 0) (le 8 off) = le 8 off ++ tail)
    by (apply (splice_middle []); by rewrite !length_le).
  by rewrite E, <- !app_assoc.
Qed.

(** ** One more entry *)

(** A new record behind [a], in memory whose rest is [drop (length a) mem]. *)
Lemma record_behind a mem e :
  reclen e <= Z.of_nat (length mem) - Z.of_nat (length a) ->
  exists pad, Z.of_nat (length (header e 0 ++ pad)) = reclen e /\
    a ++ splice (drop (length a) mem) 0 (header e 0)
    = a ++ (header e 0 ++ pad) ++ drop (length (a ++ header e 0 ++ pad)) mem.
Proof.
  intros Hl. pose proof (reclen_range e) as Hr. pose proof (length_header e 0) as Hh.
  set (r := drop (length a) mem). assert (Hlr : length r = (length mem - length a)%nat) by apply length_drop.
  exists (take (Z.to_nat (reclen e) - length (header e 0)) (drop (length (header e 0)) r)). split.
  - rewrite length_app, length_take, length_drop. lia.
  - unfold splice. rewrite take_0. cbn [app]. rewrite Nat.add_0_l, <- app_assoc. do 2 f_equal.
    rewrite <- (take_drop (Z.to_nat (reclen e) - length (header e 0)) (drop (length (header e 0)) r)) at 1.
    f_equal. rewrite drop_drop. unfold r. rewrite drop_drop. f_equal.
    rewrite !length_app, length_take, !length_drop. lia.
Qed.

Lemma filldir64_behind cb a mem n ino ty pos :
  let e := (n, ino, ty) in
  cb_current cb = Z.of_nat (length a) -> reclen e <= cb_count cb ->
  reclen e <= Z.of_nat (length mem) - Z.of_nat (length a) ->
  (match cb_previous cb with Some p => put_user (p + 8) (le 8 pos) | None => fun b => (b, true) end) (cb_mem cb)
  = (a ++ drop (length a) mem, true) ->
  exists pad, Z.of_nat (length (header e 0 ++ pad)) = reclen e /\
    filldir64 cb n pos ino ty
    = (0, mkCallback (a ++ (header e 0 ++ pad) ++ drop (length (a ++ header e 0 ++ pad)) mem)
            (Z.of_nat (length a) + reclen e) (Some (Z.of_nat (length a))) (cb_count cb - reclen e) (- EINVAL)).
Proof.
  intros e Hcur Hc Hl Hfirst. destruct (record_behind a mem e Hl) as (pad & Hp & E). exists pad.
  split; [done|]. unfold filldir64. change (reclen64 (Z.of_nat (length n))) with (reclen e).
  rewrite (proj2 (Z.ltb_ge _ _)) by done. rewrite Hcur. cbn [stores]. rewrite Hfirst.
  pose proof (store_record a (drop (length a) mem) n ino ty) as Hs. cbv zeta in Hs. cbn [stores] in Hs.
  change (reclen64 (Z.of_nat (length n))) with (reclen e) in Hs.
  rewrite Hs by (rewrite length_drop; fold e; lia). cbn [negb]. by rewrite <- E.
Qed.

Lemma fill_one mem n k es cb name ino ty :
  let e := (name, ino, ty) in
  filling mem n k es cb -> n <= Z.of_nat (length mem) -> reclen e <= cb_count cb ->
  exists cb', filldir64 cb name (k + Z.of_nat (length es)) ino ty = (0, cb') /\
    filling mem n k (es ++ [e]) cb' /\ cb_error cb' = - EINVAL.
Proof.
  intros e Hf Hn Hc.
  destruct Hf as [err|es e1 b pad err Hrec last cur Hlast Hcur]; cbn [cb_count] in Hc.
  - destruct (filldir64_behind (mkCallback mem 0 None n err) [] mem name ino ty (k + Z.of_nat (length (@nil dirent))))
      as (pad & Hp & E); try done; [simpl; fold e; lia|].
    eexists. split; [exact E|]. split; [|done]. pose proof (filling_some mem n k [] e [] pad (- EINVAL) (records_nil k) Hp) as H.
    cbn [app length] in *. rewrite Nat2Z.id in H. cbn [cb_count]. fold e in Hp, E |- *.
    replace (Z.of_nat 0 + reclen e) with (Z.of_nat (length (header e 0 ++ pad))) by lia.
    rewrite <- Hp. apply H. lia.
  - set (off := k + Z.of_nat (length (es ++ [e1]))).
    pose proof (length_header e1 0) as L0. pose proof (length_header e1 off) as L1.
    set (a := b ++ header e1 off ++ pad).
    assert (Ha : length a = length (b ++ last)).
    { unfold a, last. rewrite !length_app, L0, L1. lia. }
    destruct (filldir64_behind (mkCallback (b ++ last ++ drop (Z.to_nat cur) mem) cur (Some (Z.of_nat (length b)))
      (n - cur) err) a mem name ino ty off) as (pad' & Hp & E).
    + cbn [cb_current]. unfold cur. by rewrite Ha.
    + done.
    + fold e. unfold cur in *. rewrite Ha. lia.
    + cbn [cb_previous cb_mem]. unfold last. rewrite store_offset. unfold a at 1. rewrite <- !app_assoc.
      do 5 f_equal. unfold cur. lia.
    + eexists. split; [exact E|]. split; [|done].
      assert (Hrec' : records k (es ++ [e1]) a).
      { unfold a, off. rewrite length_app. cbn [length].
        replace (k + Z.of_nat (length es + 1)) with (k + Z.of_nat (length es) + 1) by lia.
        apply records_snoc; [done|]. rewrite length_app, length_header. unfold last in Hlast.
        rewrite length_app, L0 in Hlast. done. }
      pose proof (filling_some mem n k (es ++ [e1]) e a pad' (- EINVAL) Hrec' Hp) as H.
      cbn [cb_count]. fold e in Hp |- *. rewrite Nat2Z.id in H.
      replace (Z.of_nat (length (a ++ header e 0 ++ pad'))) with (Z.of_nat (length a) + reclen e) in H
        by (rewrite (length_app a); lia).
      replace (n - cur - reclen e) with (n - (Z.of_nat (length a) + reclen e)) by (unfold cur; rewrite Ha; lia).
      apply H. unfold cur in *. rewrite Ha. lia.
Qed.

Lemma fill_refused mem n k es cb name ino ty pos :
  filling mem n k es cb -> cb_count cb < reclen (name, ino, ty) ->
  exists cb', filldir64 cb name pos ino ty = (- EINVAL, cb') /\ filling mem n k es cb' /\
    cb_count cb' = cb_count cb /\ cb_error cb' = - EINVAL.
Proof.
  intros Hf Hc. unfold filldir64. change (reclen64 (Z.of_nat (length name))) with (reclen (name, ino, ty)).
  rewrite (proj2 (Z.ltb_lt _ _)) by done. eexists. split; [done|]. split; [|done].
  by destruct Hf; constructor.
Qed.

(** ** Many entries *)

(** What getdents64 gets into [n] bytes: as many entries as fit. *)
Lemma fills64_ok mem n k : n <= Z.of_nat (length mem) -> forall es before cb,
  filling mem n k before cb ->
  exists j cb', fills filldir64 (k + Z.of_nat (length before)) cb es
      = (k + Z.of_nat (length before) + Z.of_nat j, cb') /\ (j <= length es)%nat /\
    filling mem n k (before ++ take j es) cb' /\
    (forall e, es !! j = Some e -> cb_count cb' < reclen e) /\
    cb_error cb' = match es with [] => cb_error cb | _ => - EINVAL end.
Proof.
  intros Hn. induction es as [|[[name ino] ty] es IH]; intros before cb Hf; cbn [fills].
  - exists 0%nat, cb. split; [f_equal; lia|]. split; [done|]. rewrite app_nil_r. done.
  - destruct (Z_lt_le_dec (cb_count cb) (reclen (name, ino, ty))) as [Hlt|Hge].
    + destruct (fill_refused mem n k before cb name ino ty (k + Z.of_nat (length before)) Hf Hlt)
        as (cb' & E & Hf' & Ec & Ee).
      rewrite E. change (- EINVAL <? 0) with true. cbn iota. exists 0%nat, cb'. split; [f_equal; lia|].
      split; [lia|]. rewrite take_0, app_nil_r. split; [done|]. split; [|done].
      intros e [= <-]. by rewrite Ec.
    + destruct (fill_one mem n k before cb name ino ty Hf Hn Hge) as (cb1 & E & Hf1 & Ee).
      rewrite E. change (0 <? 0) with false. cbn iota.
      destruct (IH (before ++ [(name, ino, ty)]) cb1 Hf1) as (j & cb' & E' & Hj & Hf' & Hmax & Herr).
      exists (S j), cb'. rewrite length_app in E'. cbn [length] in E'.
      replace (k + Z.of_nat (length before) + 1) with (k + Z.of_nat (length before + 1)) by lia.
      split; [rewrite E'; f_equal; lia|]. split; [simpl; lia|].
      split; [by rewrite <- app_assoc in Hf'|]. split; [done|].
      rewrite Herr. by destruct es.
Qed.

(** The end of getdents64: the last record learns the position behind it. *)
Lemma finish_ok mem n k es e cb :
  filling mem n k (es ++ [e]) cb ->
  exists b last, cb_previous cb = Some last /\ records k (es ++ [e]) b /\
    cb_count cb = n - Z.of_nat (length b) /\ Z.of_nat (length b) <= n /\
    put_user (last + 8) (le 8 (k + Z.of_nat (length (es ++ [e])))) (cb_mem cb)
    = (b ++ drop (length b) mem, true).
Proof.
  intros Hf. remember (es ++ [e]) as l eqn:El.
  destruct Hf as [err|es' e' b pad err Hrec last cur Hlast Hcur]; [by destruct es|]. clear El es e.
  set (off := k + Z.of_nat (length es') + 1).
  assert (Elen : length (header e' off ++ pad) = length last)
    by (unfold last; by rewrite !length_app, !length_header).
  assert (Ec : length (b ++ header e' off ++ pad) = length (b ++ last)) by (by rewrite !length_app, <- Elen, length_app).
  exists (b ++ header e' off ++ pad), (Z.of_nat (length b)). split; [done|].
  split; [apply records_snoc; [done|]; fold off; by rewrite Elen|].
  rewrite Ec. fold cur. split; [done|]. split; [done|]. cbn [cb_mem]. unfold last.
  replace (k + Z.of_nat (length (es' ++ [e']))) with off by (unfold off; rewrite length_app; simpl; lia).
  rewrite store_offset, <- !app_assoc. do 4 f_equal. unfold cur. by rewrite Nat2Z.id.
Qed.

(** ** Reading the records *)

Fixpoint unle (b : list Z) : Z := match b with [] => 0 | c :: b => c + 256 * unle b end.

Lemma unle_le n z : 0 <= z < 256 ^ Z.of_nat n -> unle (le n z) = z.
Proof.
  revert z. induction n as [|n IH]; intros z Hz; cbn [le unle]; [simpl in Hz; lia|].
  rewrite IH; [dlia|]. rewrite Nat2Z.inj_succ, Z.pow_succ_r in Hz by lia. dlia.
Qed.

(** A reader that goes from record to record by [d_reclen]: each entry with its
    [d_off]. *)
Fixpoint read_dirents (fuel : nat) (b : block) : list (dirent * Z) :=
  match fuel, b with
  | S fuel, _ :: _ =>
      ((default [] (cstring (drop 19 b)), unle (take 8 b), unle (take 1 (drop 18 b))), unle (take 8 (drop 8 b)))
      :: read_dirents fuel (drop (Z.to_nat (unle (take 2 (drop 16 b)))) b)
  | _, _ => []
  end.

(** Entries with the positions behind them. *)
Fixpoint offsets (k : Z) (es : list dirent) : list (dirent * Z) :=
  match es with [] => [] | e :: es => (e, k + 1) :: offsets (k + 1) es end.

(** What fits the members of a record. *)
Definition fits_record (e : dirent) : Prop :=
  let '(n, ino, ty) := e in
  Forall (fun c => c <> 0) n /\ (length n <= 255)%nat /\ 0 <= ino < 2 ^ 64 /\ 0 <= ty < 256.

(** The members of the record at the start of [b]. *)
Lemma header_fields e off r :
  fits_record e -> 0 <= off < 2 ^ 64 ->
  let b := header e off ++ r in
  b <> [] /\ (default [] (cstring (drop 19 b)), unle (take 8 b), unle (take 1 (drop 18 b))) = e /\
  unle (take 8 (drop 8 b)) = off /\ unle (take 2 (drop 16 b)) = reclen e.
Proof.
  destruct e as [[n ino] ty]. intros (Hn & Hl & Hi & Ht) Hoff b. unfold b, header. clear b.
  pose proof (reclen_range (n, ino, ty)) as Hr. unfold name_of in Hr. cbn [fst] in Hr.
  rewrite <- !app_assoc. set (rl := reclen (n, ino, ty)) in *.
  assert (Hd : forall j (x y : list Z), length x = j -> drop j (x ++ y) = y)
    by (intros j x y <-; apply drop_app_length).
  assert (Ht' : forall j (x y : list Z), length x = j -> take j (x ++ y) = x)
    by (intros j x y <-; apply take_app_length).
  assert (H8 : forall y, drop 8 (le 8 ino ++ y) = y) by (intros; apply Hd, length_le).
  assert (H16 : forall y, drop 16 (le 8 ino ++ le 8 off ++ y) = y)
    by (intros; change 16%nat with (8 + 8)%nat; rewrite <- drop_drop, H8; apply Hd, length_le).
  assert (H18 : forall y, drop 18 (le 8 ino ++ le 8 off ++ le 2 rl ++ y) = y)
    by (intros; change 18%nat with (16 + 2)%nat; rewrite <- drop_drop, H16; apply Hd, length_le).
  split; [done|]. rewrite H8, H16, H18.
  change 19%nat with (18 + 1)%nat. rewrite <- drop_drop, H18, Hd by apply length_le.
  rewrite !Ht' by apply length_le. split; [|split; [by rewrite unle_le|rewrite unle_le; [done|simpl; lia]]].
  rewrite (proj2 (cstring_is_cstr _ n)) by (by apply is_cstr_app). cbn [default from_option id].
  rewrite !unle_le; [done|simpl; lia|simpl; lia].
Qed.

Lemma read_records k es b fuel :
  records k es b -> Forall fits_record es -> 0 <= k -> k + Z.of_nat (length es) < 2 ^ 64 ->
  (length es <= fuel)%nat -> read_dirents fuel b = offsets k es.
Proof.
  intros Hr. revert fuel. induction Hr as [k|k e es pad b Hl Hr IH]; intros fuel Hf Hk Hmax Hfuel.
  - by destruct fuel.
  - apply Forall_cons_iff in Hf as [He Hf]. cbn [length] in Hmax, Hfuel. destruct fuel as [|fuel]; [lia|].
    destruct (header_fields e (k + 1) (pad ++ b) He) as (Hne & E1 & E2 & E3); [lia|].
    cbn [read_dirents offsets]. destruct (header e (k + 1) ++ pad ++ b) eqn:Eb; [done|]. rewrite <- Eb in *.
    rewrite E1, E2, E3. f_equal. rewrite app_assoc, drop_app_length' by lia. apply IH; try done; lia.
Qed.

Lemma offsets_app k es1 es2 :
  offsets k (es1 ++ es2) = offsets k es1 ++ offsets (k + Z.of_nat (length es1)) es2.
Proof.
  revert k. induction es1 as [|e es1 IH]; intros k; cbn [app offsets length]; [by rewrite Z.add_0_r|].
  rewrite IH. do 3 f_equal. lia.
Qed.

Lemma records_length k es b : records k es b -> (length es <= length b)%nat.
Proof.
  induction 1 as [|k e es pad b Hl _ IH]; [done|]. rewrite app_assoc, length_app. cbn [length].
  pose proof (reclen_range e). lia.
Qed.

Lemma reclen_max e : (length (name_of e) <= 255)%nat -> reclen e <= 280.
Proof. intros H. unfold reclen. rewrite reclen64_value by lia. dlia. Qed.
