(* ===== verification/Listing.v ===== *)
(** * What a listing shows

    Opening a directory of a node at rest, reading it with any sequence of
    getdents64 calls and closing it: the calls together deliver ".", ".." and each
    entry of the directory once, and the node is as it was. *)

From S2P Require Import Prelude KString KScan KFormat Wire Ksocket MapTable Vfs Syscalls Tree.
From S2P Require Import Umount Ops PageIo FileMap Server Node Inv Remove Serve Contents.
From S2P Require Import Options Mount Cluster Local LocalDir Results ReadDir Dirents.

(** ** Lists with a cursor *)

Lemma after_cursor c l1 l2 : c ∉ l1 -> after c (l1 ++ c :: l2) = l2.
Proof.
  induction l1 as [|y l1 IH]; cbn [app after]; [by rewrite Nat.eqb_refl|].
  intros [Hy Hl]%not_elem_of_cons. rewrite (proj2 (Nat.eqb_neq y c)) by done. by apply IH.
Qed.

Lemma list_del_cursor c l1 l2 : c ∉ l1 -> c ∉ l2 -> list_del c (l1 ++ c :: l2) = l1 ++ l2.
Proof.
  intros H1 H2. unfold list_del. rewrite List.filter_app. cbn [List.filter]. rewrite Nat.eqb_refl.
  cbn [negb]. by rewrite !filter_notin.
Qed.

Lemma add_behind_at x c l1 l2 : x ∉ l1 -> add_behind x c (l1 ++ x :: l2) = l1 ++ x :: c :: l2.
Proof.
  induction l1 as [|y l1 IH]; cbn [app add_behind]; [by rewrite Nat.eqb_refl|].
  intros [Hy Hl]%not_elem_of_cons. rewrite (proj2 (Nat.eqb_neq y x)) by done. by rewrite IH.
Qed.

(** ** The entries of a directory *)

Definition dirent_of (s : kstate) (r : nat) : dirent :=
  match dentries s !! r with
  | Some d => (d_name d, default 0 (i_ino <$> node_inode s r), default 0 (dt_type <$> node_inode s r))
  | None => ([], 0, 0)
  end.

(** "." and ".." and the children, in the order of the list. *)
Definition listing (s : kstate) (p : nat) (pd : dentry) : list dirent :=
  (bytes ".", default 0 (i_ino <$> node_inode s p), DT_DIR) ::
  (bytes "..", default 0 (i_ino <$> node_inode s (d_parent pd)), DT_DIR) ::
  map (dirent_of s) (d_subdirs pd).

(** ** An open directory *)

Definition cursor_dentry (p : nat) : dentry := mkDentry 1 false None p (bytes ".") [] false false.

(** Reading a directory to its end, as a program does: getdents64 until it has
    nothing more, the records taken apart; and the whole of it, from open to
    close. *)
Fixpoint getdents_all (env : io_env) (fuel : nat) (f : dirfile) (um : block) (count : Z)
  : M (Z * dirfile * list (dirent * Z)) :=
  match fuel with
  | O => fail OutOfFuel
  | S fuel =>
      '(ret, f, um) ← sys_getdents64 env f um count;
      if ret <=? 0 then mret (ret, f, []) else
      '(r, f, l) ← getdents_all env fuel f um count;
      mret (r, f, read_dirents (length um) (take (Z.to_nat ret) um) ++ l)
  end.

Definition list_directory (env : io_env) (fuel : nat) (fl : file) (um : block) (count : Z)
  : M (Z * list (dirent * Z)) :=
  '(e, f) ← dcache_dir_open fl;
  match f with
  | None => mret (e, [])
  | Some f =>
      '(r, f, l) ← getdents_all env fuel f um count;
      dcache_dir_close f;;
      mret (r, l)
  end.

Section listing.
Context (s : kstate) (t : tree) (p : nat) (pd : dentry) (pir : nat) (pi : inode).
Context (Hok : node_ok s t) (Hdy : directory s p pd pir pi).

#[local] Abbreviation c := (fresh s).

(** The node while the directory is open, the cursor behind [l1]; [m] are the
    inodes, which differ in times of access only. *)
Definition open_at (m : gmap nat inode) (l1 l2 : list nat) : kstate :=
  mkK m (<[c := cursor_dentry p]>
          (<[p := set_d_subdirs (l1 ++ c :: l2) (set_d_count (d_count pd + 1) pd)]> (dentries s)))
    (S c) (d_hash s) (last_ino s) (mem s) (now s) (cur s) (glob s) (network s).

(** Inodes that show the same entries. *)
Definition shown (m : gmap nat inode) : Prop :=
  forall r i, inodes s !! r = Some i ->
    exists i', m !! r = Some i' /\ i_ino i' = i_ino i /\ i_mode i' = i_mode i /\ i_dead i' = i_dead i /\ i_fop i' = i_fop i.

Lemma children_facts :
  NoDup (d_subdirs pd) /\ c ∉ d_subdirs pd /\ p <> c /\
  forall x, x ∈ d_subdirs pd -> x <> p /\ x <> c /\ exists xd ir i, dentries s !! x = Some xd /\
    d_inode xd = Some ir /\ d_hashed xd = true /\ inodes s !! ir = Some i /\
    dirent_of s x = (d_name xd, i_ino i, dt_type i).
Proof using Hok Hdy.
  destruct Hdy as [Hp _ _ _ _]. destruct (fresh_child _ _ _ _ Hok Hp) as (_ & Hlt & Hs & _).
  split; [|split; [done|split; [lia|]]].
  - destruct (d_subdirs pd) as [|x l] eqn:E; [constructor|].
    destruct (node_child s t p pd x Hok Hp) as (xd & Hxd & Hpar & _ & _ & Hxt); [rewrite E; by left|].
    destruct (node_positive _ _ _ _ Hok Hxd Hxt) as [Hin _]. destruct (node_tree _ _ Hok) as [[Hrep Hnd] _].
    destruct (rep_up _ _ _ x Hrep Hnd Hin) as (d' & pd' & Hd' & Hpd' & _ & Hn & _). simplify_eq.
    by rewrite <- E.
  - intros x Hx. destruct (node_child _ _ _ _ _ Hok Hp Hx) as (xd & Hxd & _ & Hpos & Hne & _).
    split; [done|]. split; [by intros ->|]. destruct (found_positive _ _ Hok x xd Hxd) as
      (ir & i & Hir & Hi & _ & _ & Hni). exists xd, ir, i. split_and!; try done.
    + unfold simple_positive in Hpos. by rewrite Hir in Hpos.
    + unfold dirent_of. by rewrite Hxd, Hni.
Qed.

(** The loop from the cursor on. *)
Section loop.
Context {CB : Type} (filldir : CB -> list Z -> Z -> Z -> Z -> Z * CB).

Lemma readdir_loop_ok m l2 : shown m -> forall l1 pos cb fuel,
  d_subdirs pd = l1 ++ l2 -> (length l2 < fuel)%nat ->
  exists l1' l2', d_subdirs pd = l1' ++ l2' /\
    fst (fills filldir pos cb (map (dirent_of s) l2)) = pos + Z.of_nat (length l1') - Z.of_nat (length l1) /\
    readdir_loop filldir fuel p c c pos cb (open_at m l1 l2)
    = Ok (fills filldir pos cb (map (dirent_of s) l2), open_at m l1' l2').
Proof using Hok Hdy.
  intros Hm. destruct children_facts as (Hnd & Hc & Hpc & Hch).
  induction l2 as [|x l2 IH]; intros l1 pos cb fuel El Hf; destruct fuel as [|fuel]; try (simpl in Hf; lia);
    cbn [readdir_loop map fills].
  all: assert (Hc1 : c ∉ l1) by (rewrite El in Hc; by apply not_elem_of_app in Hc as []).
  all: erewrite M_bind_ok by (apply get_dentry_ok; simpl; rewrite lookup_insert_ne by done; apply lookup_insert_eq).
  all: cbn [d_subdirs set_d_subdirs]; rewrite after_cursor by done.
  - exists l1, []. split; [done|]. split; [simpl; lia|done].
  - destruct (Hch x) as (Hxp & Hxc & xd & ir & i & Hxd & Hir & Hh & Hi & Hde); [rewrite El; set_solver|].
    destruct (Hm ir i Hi) as (i' & Hi' & Eino & Emode & _).
    erewrite M_bind_ok by (apply get_dentry_ok; simpl; by rewrite !lookup_insert_ne by congruence).
    rewrite Hir, Hh. cbn [negb]. erewrite M_bind_ok by (by apply get_inode_ok).
    rewrite Hde. unfold dt_type. rewrite Eino, Emode. fold (dt_type i).
    destruct (filldir cb (d_name xd) pos (i_ino i) (dt_type i)) as [e cb']. destruct (e <? 0).
    + exists l1, (x :: l2). split; [done|]. split; [simpl; lia|done].
    + erewrite M_bind_ok; cycle 1.
      { apply upd_dentry_ok. simpl. rewrite lookup_insert_ne by done. apply lookup_insert_eq. }
      cbn [d_subdirs set_d_subdirs]. rewrite El in Hnd, Hc. apply not_elem_of_app in Hc as [_ Hc2].
      rewrite list_del_cursor by done.
      apply list.NoDup_app in Hnd as (_ & Hd & _). rewrite add_behind_at by (intros H; apply (Hd x H); by left).
      destruct (IH (l1 ++ [x]) (pos + 1) cb' fuel) as (l1' & l2' & El' & Ef & E);
        [by rewrite <- app_assoc|simpl in Hf; lia|].
      exists l1', l2'. split; [done|]. split; [rewrite Ef, length_app; simpl; lia|]. rewrite <- E.
      f_equal. unfold open_at, with_dentries. simpl. f_equal.
      rewrite <- app_assoc. cbn [app]. map_solve.
Qed.

(** Where the cursor of an open directory is, at position [k]. *)
Definition placed (k : Z) (l1 l2 : list nat) : Prop :=
  d_subdirs pd = l1 ++ l2 /\ (2 < k -> Z.of_nat (length l1) = k - 2).

#[local] Abbreviation children := (map (dirent_of s) (d_subdirs pd)).

Lemma get_open m l1 l2 :
  get_dentry p (open_at m l1 l2)
  = Ok (set_d_subdirs (l1 ++ c :: l2) (set_d_count (d_count pd + 1) pd), open_at m l1 l2).
Proof using Hok Hdy.
  destruct children_facts as (_ & _ & Hpc & _). apply get_dentry_ok. simpl.
  rewrite lookup_insert_ne by done. apply lookup_insert_eq.
Qed.

(** The part of dcache_readdir behind "..". *)
Lemma readdir_default_ok m l1 l2 fl k pos cb :
  shown m -> placed pos l1 l2 -> f_dentry fl = p -> 2 <= pos ->
  exists l1' l2', placed (fst (fills filldir pos cb (drop (Z.to_nat (pos - 2)) children))) l1' l2' /\
    readdir_default filldir (mkDirfile fl c k) pos cb (open_at m l1 l2)
    = Ok (fills filldir pos cb (drop (Z.to_nat (pos - 2)) children), open_at m l1' l2').
Proof using Hok Hdy.
  intros Hm [El Hk] Hfl Hpos. destruct children_facts as (Hnd & Hc & Hpc & _).
  unfold readdir_default. cbn [df_file df_cursor]. rewrite Hfl.
  assert (Hmove : exists j1 j2, d_subdirs pd = j1 ++ j2 /\ Z.of_nat (length j1) = pos - 2 /\
    (if pos =? 2 then upd_dentry p (fun d => set_d_subdirs (c :: list_del c (d_subdirs d)) d)
     else mret tt) (open_at m l1 l2) = Ok (tt, open_at m j1 j2)).
  { destruct (Z.eqb_spec pos 2) as [->|Hne]; [|exists l1, l2; split; [done|]; split; [lia|done]].
    exists [], (d_subdirs pd). split; [done|]. split; [simpl; lia|].
    rewrite El in Hc. apply not_elem_of_app in Hc as [Hc1 Hc2].
    erewrite upd_dentry_ok by (simpl; rewrite lookup_insert_ne by done; apply lookup_insert_eq).
    cbn [d_subdirs set_d_subdirs]. rewrite list_del_cursor, <- El by done.
    unfold open_at, with_dentries. simpl. do 3 f_equal. map_solve. }
  destruct Hmove as (j1 & j2 & Ej & Hj & Em). erewrite M_bind_ok by exact Em.
  erewrite M_bind_ok by apply get_open. cbn [d_subdirs set_d_subdirs].
  destruct (readdir_loop_ok m j2 Hm j1 pos cb (S (length (j1 ++ c :: j2))) Ej) as (l1' & l2' & El' & Ef & E);
    [rewrite length_app; simpl; lia|].
  assert (Ed : drop (Z.to_nat (pos - 2)) children = map (dirent_of s) j2).
  { rewrite Ej, map_app, drop_app_length'; [done|]. rewrite length_map. lia. }
  rewrite Ed. exists l1', l2'. split; [|exact E]. split; [done|]. rewrite Ef. lia.
Qed.

(** The two names that every directory has. *)
Lemma dot_inode m : shown m ->
  exists i', m !! pir = Some i' /\ i_ino i' = default 0 (i_ino <$> node_inode s p).
Proof using Hok Hdy.
  intros Hm. destruct Hdy as [Hp Hpir Hpi _ _]. destruct (Hm _ _ Hpi) as (i' & Hi' & E & _).
  exists i'. split; [done|]. destruct (found_positive _ _ Hok p pd Hp) as (? & ? & ? & ? & _ & _ & Hni).
  simplify_eq. by rewrite Hni.
Qed.

Lemma dotdot_inode m l1 l2 : shown m ->
  exists q ir i', get_dentry (d_parent pd) (open_at m l1 l2) = Ok (q, open_at m l1 l2) /\
    d_inode q = Some ir /\ m !! ir = Some i' /\
    i_ino i' = default 0 (i_ino <$> node_inode s (d_parent pd)).
Proof using Hok Hdy.
  intros Hm. pose proof Hdy as [Hp Hpir Hpi _ _]. destruct (node_tree _ _ Hok) as [[Hrep Hnd] _].
  destruct (decide (d_parent pd = p)) as [Epar|Hpar].
  - destruct (dot_inode m Hm) as (i' & Hi' & E). rewrite Epar.
    eexists _, pir, i'. split; [apply get_open|done].
  - assert (Hpt : p <> troot t).
    { intros ->. destruct (rs_root _ _ (nk_rest _ _ Hok)) as (rd & Hrd & Er & _). congruence. }
    destruct (node_positive _ _ _ _ Hok Hp Hpt) as [Hin _].
    destruct (rep_up _ _ _ p Hrep Hnd Hin) as (d' & qd & Hd' & Hqd & _). simplify_eq.
    destruct (found_positive _ _ Hok _ qd Hqd) as (ir & i & Hir & Hi & _ & _ & Hni).
    destruct (Hm _ _ Hi) as (i' & Hi' & E & _). exists qd, ir, i'. rewrite Hni. split_and!; try done.
    apply get_dentry_ok. simpl. rewrite !lookup_insert_ne; [done|done|].
    assert (d_parent pd < c)%nat by (apply (nk_fresh _ _ Hok), (nk_dom _ _ Hok); eauto). lia.
Qed.

Lemma readdir_1_ok m l1 l2 fl k cb :
  shown m -> placed 1 l1 l2 -> f_dentry fl = p ->
  exists l1' l2', placed (fst (fills filldir 1 cb (drop 1 (listing s p pd)))) l1' l2' /\
    readdir_1 filldir (mkDirfile fl c k) 1 cb (open_at m l1 l2)
    = Ok (fills filldir 1 cb (drop 1 (listing s p pd)), open_at m l1' l2').
Proof using Hok Hdy.
  intros Hm Hpl Hfl. destruct (dotdot_inode m l1 l2 Hm) as (q & ir & qi & Hq & Hir & Hqi & Eqi).
  unfold readdir_1. cbn [df_file]. rewrite Hfl. erewrite M_bind_ok by apply get_open.
  cbn [d_parent set_d_subdirs set_d_count]. erewrite M_bind_ok by exact Hq. rewrite Hir.
  erewrite M_bind_ok by reflexivity. erewrite M_bind_ok by (by apply get_inode_ok).
  unfold listing. rewrite <- Eqi. cbn [drop fills].
  destruct (filldir cb (bytes "..") 1 (i_ino qi) DT_DIR) as [e cb']. destruct (e <? 0); [by exists l1, l2|].
  apply (readdir_default_ok m l1 l2 fl k (1 + 1) cb'); try done. destruct Hpl as [El _]. split; [done|lia].
Qed.

Lemma readdir_ok m l1 l2 fl k cb :
  shown m -> placed k l1 l2 -> f_dentry fl = p -> 0 <= k < 2 ^ 31 ->
  exists l1' l2', placed (fst (fills filldir k cb (drop (Z.to_nat k) (listing s p pd)))) l1' l2' /\
    dcache_readdir filldir (mkDirfile fl c k) cb (open_at m l1 l2)
    = Ok (fills filldir k cb (drop (Z.to_nat k) (listing s p pd)), open_at m l1' l2').
Proof using Hok Hdy.
  intros Hm Hpl Hfl Hk. assert (El : d_subdirs pd = l1 ++ l2) by apply Hpl.
  unfold dcache_readdir. cbn [df_pos]. rewrite (s32_small k) by lia.
  destruct (Z.eqb_spec k 0) as [->|H0]; [|destruct (Z.eqb_spec k 1) as [->|H1]; [by apply readdir_1_ok|]].
  - destruct (dot_inode m Hm) as (di & Hdi & Edi). pose proof Hdy as [_ Hpir _ _ _].
    unfold readdir_0. cbn [df_file]. rewrite Hfl. erewrite M_bind_ok by apply get_open.
    cbn [d_inode set_d_subdirs set_d_count]. rewrite Hpir. erewrite M_bind_ok by reflexivity.
    erewrite M_bind_ok by (by apply get_inode_ok). unfold listing. rewrite <- Edi.
    change (Z.to_nat 0) with 0%nat. cbn [drop fills].
    destruct (filldir cb (bytes ".") 0 (i_ino di) DT_DIR) as [e cb']. destruct (e <? 0); [by exists l1, l2|].
    by apply (readdir_1_ok m l1 l2 fl 0 cb').
  - replace (drop (Z.to_nat k) (listing s p pd)) with (drop (Z.to_nat (k - 2)) children).
    { apply readdir_default_ok; try done. lia. }
    replace (Z.to_nat k) with (S (S (Z.to_nat (k - 2)))) by lia. done.
Qed.

(** Inodes after accesses to the directory. *)
Definition accessed (m : gmap nat inode) : Prop :=
  exists a, m = <[pir := set_times a (i_mtime pi) (i_ctime pi) pi]> (inodes s).

Lemma accessed_none : accessed (inodes s).
Proof using Hdy.
  destruct Hdy as [_ _ Hpi _ _]. exists (i_atime pi). rewrite insert_id; [done|]. rewrite Hpi. by destruct pi.
Qed.

Lemma accessed_shown m : accessed m -> shown m.
Proof using Hdy.
  intros [a ->] r i Hr. destruct Hdy as [_ _ Hpi _ _]. rewrite lookup_insert. case_decide; subst; eauto 10.
  simplify_eq. by eexists.
Qed.

Lemma accessed_again env fl m l1 l2 : accessed m ->
  exists m', accessed m' /\ file_accessed env fl pir (open_at m l1 l2) = Ok (tt, open_at m' l1 l2).
Proof using.
  intros [a ->]. set (m := <[pir := _]> (inodes s)).
  assert (Hm : accessed m) by by exists a. unfold file_accessed, touch_atime.
  destruct (f_noatime fl); [by exists m|].
  erewrite M_bind_ok by (apply get_inode_ok; apply lookup_insert_eq).
  destruct (e_noatime env); [by exists m|]. destruct (_ && _); [by exists m|].
  erewrite M_bind_ok by reflexivity. destruct (negb (relatime_need_update _ _ _)); [by exists m|].
  destruct (_ =? _); [by exists m|]. destruct (e_readonly env); [by exists m|].
  eexists. split; [|erewrite upd_inode_ok by apply lookup_insert_eq; reflexivity].
  exists (now s). unfold m. simpl. by rewrite insert_insert_eq.
Qed.

Lemma vfs_readdir_ok env m l1 l2 fl k cb :
  i_fop pi = simple_dir_fops -> accessed m -> placed k l1 l2 -> f_dentry fl = p -> 0 <= k < 2 ^ 31 ->
  let '(k', cb') := fills filldir k cb (drop (Z.to_nat k) (listing s p pd)) in
  exists m' l1' l2', accessed m' /\ placed k' l1' l2' /\
    vfs_readdir filldir env (mkDirfile fl c k) cb (open_at m l1 l2)
    = Ok ((0, mkDirfile fl c k', cb'), open_at m' l1' l2').
Proof using Hok Hdy.
  intros Hfop Hm Hpl Hfl Hk.
  destruct (readdir_ok m l1 l2 fl k cb (accessed_shown _ Hm) Hpl Hfl Hk) as (l1' & l2' & Hpl' & E).
  destruct (fills filldir k cb _) as [k' cb']. cbn [fst] in Hpl'.
  destruct (accessed_again env fl m l1' l2' Hm) as (m' & Hm' & E').
  exists m', l1', l2'. split; [done|]. split; [done|]. pose proof Hdy as [Hp Hpir Hpi _ _].
  destruct (accessed_shown _ Hm _ _ Hpi) as (i' & Hi' & _ & _ & Edead & Efop).
  unfold vfs_readdir. cbn [df_file df_cursor]. rewrite Hfl. erewrite M_bind_ok by apply get_open.
  cbn [d_inode set_d_subdirs set_d_count]. rewrite Hpir. erewrite M_bind_ok by reflexivity.
  erewrite M_bind_ok by (by apply get_inode_ok). rewrite Efop, Hfop, bool_decide_eq_true_2 by done. cbn [negb].
  destruct (nk_inode _ _ Hok _ _ Hp) as (? & ? & ? & ? & _ & _ & Hdead & _). simplify_eq.
  rewrite Edead, Hdead. erewrite M_bind_ok by exact E. cbn iota beta.
  by erewrite M_bind_ok by exact E'.
Qed.
End loop.

(** Opening and closing. *)
Lemma open_ok fl :
  mem s = [] -> f_dentry fl = p ->
  dcache_dir_open fl s = Ok ((0, Some (mkDirfile fl c 0)), open_at (inodes s) [] (d_subdirs pd)).
Proof using Hok Hdy.
  intros Hmem Hfl. destruct Hdy as [Hp _ _ _ _].
  destruct (fresh_child _ _ _ _ Hok Hp) as (Hn & Hlt & Hs & _ & Hc). unfold dcache_dir_open. rewrite Hfl.
  erewrite M_bind_ok by (apply d_alloc_ok; [done|done|lia|lia]).
  unfold mret, M_ret, open_at. cbn [app]. do 3 f_equal. unfold add_sub, cursor_dentry. map_solve.
Qed.

Definition closed (m : gmap nat inode) : kstate :=
  mkK m (dentries s) (S c) (d_hash s) (last_ino s) (mem s) (now s) (cur s) (glob s) (network s).

Lemma close_ok fl k m l1 l2 :
  d_subdirs pd = l1 ++ l2 ->
  dcache_dir_close (mkDirfile fl c k) (open_at m l1 l2) = Ok (0, closed m).
Proof using Hok Hdy.
  intros El. destruct Hdy as [Hp _ _ _ _].
  destruct (fresh_child _ _ _ _ Hok Hp) as (Hn & Hlt & Hs & _ & Hc).
  unfold dcache_dir_close. cbn [df_cursor]. erewrite M_bind_ok; cycle 1.
  { apply (dput_unhashed c (cursor_dentry p) p
      (set_d_subdirs (l1 ++ c :: l2) (set_d_count (d_count pd + 1) pd))); try done; simpl;
      [apply lookup_insert_eq|lia|rewrite lookup_insert_ne by lia; apply lookup_insert_eq|lia]. }
  unfold mret, M_ret, closed, open_at, with_dentries. simpl. do 2 f_equal. f_equal.
  assert (Ed : drop_sub c (set_d_subdirs (l1 ++ c :: l2) (set_d_count (d_count pd + 1) pd)) = pd).
  { rewrite El in Hs. apply not_elem_of_app in Hs as [H1 H2].
    unfold drop_sub, set_d_subdirs, set_d_count. simpl. fold (list_del c (l1 ++ c :: l2)).
    rewrite list_del_cursor, <- El by done. destruct pd; simpl. f_equal. lia. }
  rewrite Ed. map_solve.
Qed.

(** ** Seeking *)

Lemma skip_ok u l : (forall x, x ∈ d_subdirs pd -> dentries u !! x = dentries s !! x) ->
  forall n, l ⊆ d_subdirs pd -> 0 <= n <= Z.of_nat (length l) ->
  skip_positive n l u = Ok (drop (Z.to_nat n) l, u).
Proof using Hok Hdy.
  intros Hu. destruct children_facts as (_ & _ & _ & Hch).
  induction l as [|x l IH]; intros n Hl Hn; cbn [skip_positive].
  - by rewrite drop_nil.
  - destruct (Z.eqb_spec n 0) as [->|H0]; [done|]. assert (Hx : x ∈ d_subdirs pd) by (apply Hl; by left).
    destruct (Hch x Hx) as (_ & _ & xd & ir & i & Hxd & Hir & Hh & _).
    erewrite M_bind_ok by (apply get_dentry_ok; rewrite Hu by done; exact Hxd).
    rewrite Hh, Hir, bool_decide_eq_true_2 by done. cbn [andb].
    rewrite IH; [|intros y Hy; apply Hl; by right|cbn [length] in Hn; lia].
    by replace (Z.to_nat n) with (S (Z.to_nat (n - 1))) by lia.
Qed.

(** A seek moves the cursor to the position, wherever it was. *)
Lemma seek_ok fl m l1 l2 k off :
  f_dentry fl = p -> placed k l1 l2 -> 0 <= off <= Z.of_nat (length (listing s p pd)) ->
  exists l1' l2', placed off l1' l2' /\
    dcache_dir_lseek (mkDirfile fl c k) off 0 (open_at m l1 l2)
    = Ok ((off, mkDirfile fl c off), open_at m l1' l2').
Proof using Hok Hdy.
  intros Hfl [El Hpl] Hoff. destruct children_facts as (_ & Hc & Hpc & Hch).
  unfold dcache_dir_lseek. cbn [df_file df_cursor df_pos].
  change (negb ((0 =? 0) || (0 =? 1))) with false. change (0 =? 1) with false. cbn iota.
  rewrite (proj2 (Z.ltb_ge off 0)) by lia. cbn [orb]. destruct (Z.eqb_spec off k) as [->|Hne]; cbn [negb andb].
  { exists l1, l2. by erewrite M_bind_ok by reflexivity. }
  destruct (Z.leb_spec 2 off) as [H2|H2]; cycle 1.
  { exists l1, l2. split; [split; [done|lia]|]. by erewrite M_bind_ok by reflexivity. }
  set (j := Z.to_nat (off - 2)). unfold listing in Hoff. cbn [length] in Hoff. rewrite length_map in Hoff.
  exists (take j (d_subdirs pd)), (drop j (d_subdirs pd)).
  split; [split; [by rewrite take_drop|rewrite length_take; lia]|].
  rewrite El in Hc. apply not_elem_of_app in Hc as [Hc1 Hc2].
  assert (Hstep : upd_dentry p (fun d => set_d_subdirs (list_del c (d_subdirs d)) d) (open_at m l1 l2)
    = Ok (tt, with_dentries (<[p := set_d_subdirs (d_subdirs pd) (set_d_count (d_count pd + 1) pd)]>
        (dentries (open_at m l1 l2))) (open_at m l1 l2))).
  { erewrite upd_dentry_ok by (simpl; rewrite lookup_insert_ne by done; apply lookup_insert_eq).
    cbn [d_subdirs set_d_subdirs]. by rewrite list_del_cursor, <- El by done. }
  rewrite Hfl. erewrite M_bind_ok; cycle 1.
  { erewrite M_bind_ok by exact Hstep.
    erewrite M_bind_ok by (apply get_dentry_ok; simpl; apply lookup_insert_eq).
    cbn [d_subdirs set_d_subdirs]. erewrite M_bind_ok; cycle 1.
    { apply skip_ok; [|done|lia]. intros x Hx. destruct (Hch x Hx) as (Hxp & Hxc & _). simpl.
      by rewrite !lookup_insert_ne by congruence. }
    apply upd_dentry_ok. simpl. apply lookup_insert_eq. }
  unfold mret, M_ret, open_at, with_dentries, add_before. simpl. do 3 f_equal.
  rewrite length_drop. fold j.
  replace (length (d_subdirs pd) - (length (d_subdirs pd) - j))%nat with j by (unfold j; lia). map_solve.
Qed.

(** ** getdents64 *)

Section getdents.
Context (env : io_env) (fl : file) (Hfl : f_dentry fl = p) (Hfop : i_fop pi = simple_dir_fops).

Lemma getdents64_ok m l1 l2 k um count :
  accessed m -> placed k l1 l2 -> 0 <= k < 2 ^ 31 -> 0 <= count < 2 ^ 31 -> count <= Z.of_nat (length um) ->
  let rest := drop (Z.to_nat k) (listing s p pd) in
  exists j m' l1' l2' ret um', accessed m' /\ placed (k + Z.of_nat j) l1' l2' /\ (j <= length rest)%nat /\
    sys_getdents64 env (mkDirfile fl c k) um count (open_at m l1 l2)
    = Ok ((ret, mkDirfile fl c (k + Z.of_nat j), um'), open_at m' l1' l2') /\
    (j = 0%nat -> ret = match rest with [] => 0 | _ => - EINVAL end /\ um' = um /\
       forall e, rest !! 0%nat = Some e -> count < reclen e) /\
    ((0 < j)%nat -> exists b, records k (take j rest) b /\ ret = Z.of_nat (length b) /\ 0 < ret <= count /\
       um' = b ++ drop (length b) um /\ forall e, rest !! j = Some e -> count - ret < reclen e).
Proof using Hok Hdy Hfl Hfop.
  intros Hm Hpl Hk Hc Hl rest.
  pose proof (vfs_readdir_ok filldir64 env m l1 l2 fl k (mkCallback um 0 None count 0) Hfop Hm Hpl Hfl Hk) as Hv.
  fold rest in Hv.
  destruct (fills64_ok um count k Hl rest [] _ (filling_none um count k 0)) as (j & cb & Ef & Hj & Hfi & Hmax & Herr).
  cbn [length app] in *. rewrite Z.add_0_r in Ef. rewrite Ef in Hv.
  destruct Hv as (m' & l1' & l2' & Hm' & Hpl' & E). unfold sys_getdents64. rewrite (s32_small count) by lia.
  destruct j as [|j].
  - inversion Hfi as [err Hnil|]; [|by destruct es]. subst cb.
    exists 0%nat, m', l1', l2', (match rest with [] => 0 | _ => - EINVAL end), um.
    split; [done|]. split; [done|]. split; [lia|]. split; [|split; [|lia]].
    + erewrite M_bind_ok by exact E. cbn iota beta. cbn [cb_previous cb_error cb_mem] in *.
      rewrite Herr. reflexivity.
    + intros _. split; [done|]. split; [done|]. done.
  - destruct (lookup_lt_is_Some_2 rest j) as [e He]; [lia|].
    rewrite (take_S_r _ _ _ He) in Hfi.
    destruct (finish_ok _ _ _ _ _ _ Hfi) as (b & last & Hprev & Hrec & Hcnt & Hb & Eput).
    assert (Elen : length (take j rest ++ [e]) = S j) by (rewrite length_app, length_take; simpl; lia).
    rewrite Elen in Eput. exists (S j), m', l1', l2', (Z.of_nat (length b)), (b ++ drop (length b) um).
    split; [done|]. split; [done|]. split; [done|]. split; [|split; [lia|]].
    + erewrite M_bind_ok by exact E. cbn iota beta. rewrite Hprev. cbn [df_pos]. rewrite Eput. cbn [negb].
      unfold mret, M_ret. rewrite Hcnt, s32_small by lia. do 4 f_equal. lia.
    + intros _. exists b. split; [by rewrite (take_S_r _ _ _ He)|]. split; [done|]. split; [|split; [done|]].
      * apply records_length in Hrec. rewrite Elen in Hrec. lia.
      * intros e' He'. specialize (Hmax e' He'). lia.
Qed.

(** The entries that are left at position [k]. *)
#[local] Abbreviation left k := (drop (Z.to_nat k) (listing s p pd)).

Context (Hsize : Z.of_nat (length (listing s p pd)) < 2 ^ 31) (Hfit : Forall fits_record (listing s p pd)).

Lemma getdents_all_ok fuel : forall m l1 l2 k um count,
  accessed m -> placed k l1 l2 -> 0 <= k <= Z.of_nat (length (listing s p pd)) ->
  280 <= count < 2 ^ 31 -> count <= Z.of_nat (length um) -> (length (left k) < fuel)%nat ->
  exists m' l1' l2' k', accessed m' /\ placed k' l1' l2' /\
    getdents_all env fuel (mkDirfile fl c k) um count (open_at m l1 l2)
    = Ok ((0, mkDirfile fl c k', offsets k (left k)), open_at m' l1' l2').
Proof using Hok Hdy Hfl Hfop Hsize Hfit.
  induction fuel as [|fuel IH]; intros m l1 l2 k um count Hm Hpl Hk Hc Hl Hf; [lia|].
  destruct (getdents64_ok m l1 l2 k um count Hm Hpl ltac:(lia) ltac:(lia) Hl)
    as (j & m' & l1' & l2' & ret & um' & Hm' & Hpl' & Hj & E & H0 & H1).
  cbn [getdents_all]. erewrite M_bind_ok by exact E. cbn iota beta.
  assert (Hfk : Forall fits_record (left k)) by by apply Forall_drop.
  assert (Hlen : length (left k) = (length (listing s p pd) - Z.to_nat k)%nat) by apply length_drop.
  destruct j as [|j].
  - destruct (H0 eq_refl) as (-> & -> & Hno). destruct (left k) as [|e es].
    + exists m', l1', l2', (k + Z.of_nat 0). done.
    + exfalso. specialize (Hno e eq_refl). apply Forall_cons_iff in Hfk as [He _].
      assert (reclen e <= 280); [|lia]. apply reclen_max. destruct e as [[n ino] ty]. apply He.
  - destruct (H1 ltac:(lia)) as (b & Hrec & -> & Hpos & -> & _). clear H0 H1.
    rewrite (proj2 (Z.leb_gt _ 0)) by lia.
    pose proof (records_length _ _ _ Hrec) as Hlb. rewrite length_take in Hlb.
    assert (Hbl : (length b <= length um)%nat) by lia.
    destruct (IH m' l1' l2' (k + Z.of_nat (S j)) (b ++ drop (length b) um) count) as
      (m2 & j1 & j2 & k2 & Hm2 & Hpl2 & E2); try done.
    { lia. }
    { rewrite length_app, length_drop. lia. }
    { rewrite length_drop. lia. }
    erewrite M_bind_ok by exact E2. cbn iota beta. exists m2, j1, j2, k2. split; [done|]. split; [done|].
    unfold mret, M_ret. do 3 f_equal. rewrite Nat2Z.id, take_app_length.
    rewrite (read_records k (take (S j) (left k)) b); try done.
    + trans (offsets k (take (S j) (left k) ++ drop (S j) (left k))); [|by rewrite take_drop].
      rewrite offsets_app. f_equal. rewrite length_take, Nat.min_l by done. f_equal. rewrite drop_drop.
      f_equal. lia.
    + by apply Forall_take.
    + lia.
    + rewrite length_take. lia.
    + rewrite length_take, length_app. lia.
Qed.
End getdents.
End listing.

(** ** The listing and the lookup *)

Lemma child_of s t p pd r d :
  node_ok s t -> dentries s !! p = Some pd -> dentries s !! r = Some d -> r <> troot t -> d_parent d = p ->
  r ∈ d_subdirs pd.
Proof.
  intros Hok Hp Hr Hrt Hpar. destruct (node_positive _ _ _ _ Hok Hr Hrt) as [Hin _].
  destruct (node_tree _ _ Hok) as [[Hrep Hnd] _].
  destruct (rep_up _ _ _ r Hrep Hnd Hin) as (d' & pd' & Hd' & Hpd' & Hs & _). by simplify_eq.
Qed.

(** A name is listed exactly when a lookup finds it, and no name twice. *)
Lemma listed_names s t p pd pir pi :
  node_ok s t -> directory s p pd pir pi ->
  let names := map name_of (map (dirent_of s) (d_subdirs pd)) in
  NoDup names /\ forall n, n ∈ names <-> is_Some (d_lookup_in (d_hash s) (dentries s) p n).
Proof.
  intros Hok Hdy names. pose proof Hdy as [Hp _ _ _ _].
  destruct (children_facts _ _ _ _ _ _ Hok Hdy) as (Hnd & _ & _ & Hch).
  assert (Hname : forall x, x ∈ d_subdirs pd -> exists xd, dentries s !! x = Some xd /\ x <> troot t /\
    d_parent xd = p /\ d_hashed xd = true /\ name_of (dirent_of s x) = d_name xd).
  { intros x Hx. destruct (node_child _ _ _ _ _ Hok Hp Hx) as (xd & Hxd & Hpar & _ & _ & Hxt).
    destruct (Hch x Hx) as (_ & _ & xd' & ir & i & Hxd' & _ & Hh & _ & Hde). simplify_eq.
    exists xd. by rewrite Hde. }
  unfold names. rewrite map_map. split.
  - apply list.NoDup_fmap_2_strong; [|done]. intros x y Hx Hy E.
    destruct (Hname x Hx) as (xd & Hxd & Hxt & Px & _ & Nx). destruct (Hname y Hy) as (yd & Hyd & Hyt & Py & _ & Ny).
    eapply (nk_uniq _ _ Hok); [done|done|done|done|congruence|congruence].
  - intros n. rewrite list_elem_of_In, in_map_iff. split.
    + intros (x & <- & Hx). apply list_elem_of_In in Hx. destruct (Hname x Hx) as (xd & Hxd & Hxt & Px & Hh & ->).
      destruct (d_lookup_in _ _ p (d_name xd)) eqn:E; [done|].
      destruct (miss_free _ _ _ _ Hok E _ _ Hxd Hxt Px). done.
    + intros [r Hr]. destruct (d_lookup_found _ _ _ _ _ Hr) as (d & Hd & Hpar & _ & En).
      destruct (found_below _ _ _ _ _ Hok Hr) as [Hrt _].
      pose proof (child_of _ _ _ _ _ _ Hok Hp Hd Hrt Hpar) as Hx. exists r.
      destruct (Hname r Hx) as (xd & Hxd & _ & _ & _ & E). simplify_eq. split; [done|]. by apply list_elem_of_In.
Qed.

Lemma closed_ok s t pir pi m :
  node_ok s t -> inodes s !! pir = Some pi -> accessed s pir pi m -> node_ok (closed s m) t.
Proof.
  intros Hok Hpi [a ->]. assert (Hq : quiet s (closed s (inodes s))) by (split; try done; simpl; lia).
  exact (node_ok_inode (closed s (inodes s)) t pir pi (set_times a (i_mtime pi) (i_ctime pi) pi)
    (quiet_ok _ _ _ Hq Hok) Hpi ltac:(done)).
Qed.

(** The entries of a node at rest fit their records. *)
Lemma listing_fits s t p pd pir pi :
  node_ok s t -> directory s p pd pir pi -> (forall r i, inodes s !! r = Some i -> 0 <= i_ino i < 2 ^ 64) ->
  Forall fits_record (listing s p pd).
Proof.
  intros Hok Hdy Hino. pose proof Hdy as [Hp _ _ _ _].
  assert (Hno : forall r, 0 <= default 0 (i_ino <$> node_inode s r) < 2 ^ 64).
  { intros r. destruct (node_inode s r) as [i|] eqn:E; [|simpl; lia].
    apply node_inode_inv in E as (d & ir & _ & _ & Hi & _). by apply (Hino ir). }
  destruct (children_facts _ _ _ _ _ _ Hok Hdy) as (_ & _ & _ & Hch).
  assert (Hdot : forall n r, Forall (fun c => c <> 0) n -> (length n <= 255)%nat ->
    fits_record (n, default 0 (i_ino <$> node_inode s r), DT_DIR)).
  { intros n r Hn Hl. split; [done|]. split; [done|]. split; [apply Hno|done]. }
  constructor; [apply Hdot; [by repeat constructor|simpl; lia]|].
  constructor; [apply Hdot; [by repeat constructor|simpl; lia]|]. apply List.Forall_forall.
  intros e (x & <- & Hx)%in_map_iff. apply list_elem_of_In in Hx.
  destruct (Hch x Hx) as (_ & _ & xd & ir & i & Hxd & _ & _ & Hi & ->).
  destruct (nk_names _ _ Hok _ _ Hxd) as [Hz Hl]. split; [done|]. split; [done|]. split; [by eapply Hino|].
  unfold dt_type. change 15 with (Z.ones 4). rewrite Z.land_ones by lia. dlia.
Qed.

(** The calls of a listing. *)
Lemma list_directory_ok env s t p pd pir pi fl um count :
  node_ok s t -> mem s = [] -> directory s p pd pir pi -> f_dentry fl = p ->
  (forall r i, inodes s !! r = Some i -> 0 <= i_ino i < 2 ^ 64) ->
  Z.of_nat (length (listing s p pd)) < 2 ^ 31 -> 280 <= count < 2 ^ 31 -> count <= Z.of_nat (length um) ->
  exists m, list_directory env (S (length (listing s p pd))) fl um count s
      = Ok ((0, offsets 0 (listing s p pd)), closed s m) /\
    accessed s pir pi m /\ node_ok (closed s m) t.
Proof.
  intros Hok Hm Hdy Hfl Hino Hsize Hc Hl. pose proof Hdy as [Hp Hpir Hpi Hdir _].
  assert (Hfop : i_fop pi = simple_dir_fops).
  { destruct (nk_inode _ _ Hok _ _ Hp) as (? & ? & ? & ? & _ & _ & _ & _ & Ht). simplify_eq. by apply typed_dir. }
  pose proof (listing_fits _ _ _ _ _ _ Hok Hdy Hino) as Hfit.
  destruct (getdents_all_ok s t p pd pir pi Hok Hdy env fl Hfl Hfop Hsize Hfit (S (length (listing s p pd)))
    (inodes s) [] (d_subdirs pd) 0 um count (accessed_none _ _ _ _ _ Hdy)) as (m & l1 & l2 & k & Ha & [El _] & E);
    [split; [done|lia]|lia|done|done|rewrite length_drop; lia|].
  exists m. split; [|split; [done|by eapply closed_ok]].
  unfold list_directory. erewrite M_bind_ok by (by eapply open_ok). cbn iota beta.
  erewrite M_bind_ok by exact E. cbn iota beta. by erewrite M_bind_ok by (by eapply close_ok).
Qed.

(** C23: Reading a directory of a node at rest from open to close with getdents64 calls of
    any buffer size that holds a record delivers ".", ".." and every entry that a lookup
    finds, each once, with its number, type and position, and leaves the node at rest
    with nothing changed but the directory's time of access. *)
Theorem list_complete env s t p pd pir pi fl um count :
  node_ok s t -> mem s = [] -> directory s p pd pir pi -> f_dentry fl = p ->
  (forall r i, inodes s !! r = Some i -> 0 <= i_ino i < 2 ^ 64) ->
  Z.of_nat (length (listing s p pd)) < 2 ^ 31 -> 280 <= count < 2 ^ 31 -> count <= Z.of_nat (length um) ->
  exists m, list_directory env (S (length (listing s p pd))) fl um count s
      = Ok ((0, offsets 0 (listing s p pd)), closed s m) /\
    accessed s pir pi m /\ node_ok (closed s m) t /\
    let names := map name_of (map (dirent_of s) (d_subdirs pd)) in
    NoDup names /\ (forall n, n ∈ names <-> is_Some (d_lookup_in (d_hash s) (dentries s) p n)).
Proof.
  intros Hok Hm Hdy Hfl Hino Hsize Hc Hl.
  destruct (list_directory_ok env s t p pd pir pi fl um count) as (m & E & Hm' & Hok'); try done.
  exists m. split_and!; try done. by eapply listed_names.
Qed.
