(* ===== verification/Walk.v ===== *)
(** * The path walk

    fs/namei.c from a path name to a dentry: getname, path_init,
    __link_path_walk and what it calls, and the system calls that begin with it.

    wjfs is mounted on a directory of another file system.  A walk stays in the
    mount or leaves it upwards, by ".." at its root; the rest of such a walk, in
    the other file system, is not modelled.  Nothing
    is mounted on a dentry of wjfs, whose dentries have no d_hash and no
    d_revalidate method, so __follow_mount, follow_mount and do_revalidate do
    nothing; the counts of the mount itself are left out.  do_follow_link is an
    argument, since no inode of a node at rest has a follow_link method. *)

From S2P Require Import Prelude KString MapTable Vfs Syscalls.

Definition PATH_MAX : Z := 4096.

(** do_getname of a string that can be read: its bytes up to the NUL. *)
Definition getname (filename : list Z) : Z :=
  let retval := Z.min (Z.of_nat (length filename)) PATH_MAX in
  if 0 <? retval then if retval <? PATH_MAX then 0 else - ENAMETOOLONG else - ENOENT.

(** ** The state of a walk *)

(** Where the task is: its root and working directory, as dentries of the mount;
    [None] is a directory elsewhere. *)
Record fs_struct : Type := mkFs {
  fs_root : option nat;
  fs_pwd : option nat;
  mnt_root : nat;
}.

Inductive last_type := LAST_NORM | LAST_ROOT | LAST_DOT | LAST_DOTDOT.

#[global] Instance last_type_eq_dec : EqDecision last_type.
Proof. solve_decision. Defined.

Record nameidata : Type := mkNd {
  nd_path : nat;
  nd_last : list Z;             (* last.name, last.len bytes of it *)
  nd_slash : bool;              (* last.name[last.len] is a slash *)
  nd_last_type : last_type;
  nd_root : bool;               (* root.mnt is set *)
}.

Definition set_path (r : nat) (nd : nameidata) : nameidata :=
  mkNd r (nd_last nd) (nd_slash nd) (nd_last_type nd) (nd_root nd).
Definition set_last (this : list Z) (slash : bool) (ty : last_type) (nd : nameidata) : nameidata :=
  mkNd (nd_path nd) this slash ty (nd_root nd).

(** A walk that ends in the mount, with its error; on an error the reference of
    [nd_path] has been given back.  Or one that leaves the mount, with the name
    that is left. *)
Inductive walked :=
  | Walked (err : Z) (nd : nameidata)
  | Leaves (rest : list Z) (nd : nameidata).

Definition LOOKUP_FOLLOW : Z := 1.
Definition LOOKUP_DIRECTORY : Z := 2.
Definition LOOKUP_PARENT : Z := 16.
Definition ESTALE : Z := 116.

Definition flag (flags f : Z) : bool := negb (Z.land flags f =? 0).

Section walk.
Context `{InodeOps} (fs : fs_struct).
Variable do_follow_link : nat -> nameidata -> M walked.

(** inode->i_op->follow_link. *)
Definition follows (o : iops) : bool := match o with page_symlink_iops => true | _ => false end.

Definition exec_permission_lite (c : cred) (i : inode) : Z :=
  let ret := acl_permission_check c i MAY_EXEC in
  if ret =? 0 then 0
  else if cap_dac_override c || cap_dac_read_search c then 0
  else ret.

Definition set_root (nd : nameidata) : M nameidata :=
  if nd_root nd then mret nd else
  (match fs_root fs with Some r => dget r | None => mret tt end);;
  mret (mkNd (nd_path nd) (nd_last nd) (nd_slash nd) (nd_last_type nd) true).

(** The new position, or that the walk went up to the parent mount. *)
Definition follow_dotdot (nd : nameidata) : M (nameidata * bool) :=
  nd ← set_root nd;
  if bool_decide (fs_root fs = Some (nd_path nd)) then mret (nd, false) else
  if negb (nd_path nd =? mnt_root fs)%nat then
    d ← get_dentry (nd_path nd);
    dget (d_parent d);;
    dput (nd_path nd);;
    mret (set_path (d_parent d) nd, false)
  else dput (nd_path nd);; mret (nd, true).

Definition real_lookup (parent : nat) (name : list Z) : M dptr :=
  p ← get_dentry parent;
  dir ← deref (d_inode p);
  result ← d_lookup parent name;
  match result with
  | Some r => mret (DPtr r)
  | None =>
      i ← get_inode dir;
      if i_dead i then mret (DErr (- ENOENT)) else
      dentry ← d_alloc (Some parent) name;
      match dentry with
      | None => mret (DErr (- ENOMEM))
      | Some dentry =>
          match op_lookup (i_op i) with
          | None => fail NullDeref
          | Some lookup =>
              result ← lookup dir dentry;
              match result with
              | DNull => mret (DPtr dentry)
              | e => dput dentry;; mret e
              end
          end
      end
  end.

Definition do_lookup (nd : nameidata) (name : list Z) : M dptr :=
  dentry ← d_lookup (nd_path nd) name;
  match dentry with
  | Some r => mret (DPtr r)
  | None => real_lookup (nd_path nd) name
  end.

Definition path_to_nameidata (next : nat) (nd : nameidata) : M nameidata :=
  dput (nd_path nd);; mret (set_path next nd).

Definition follow_on_final (i : inode) (lookup_flags : Z) : bool :=
  follows (i_op i) && (flag lookup_flags LOOKUP_FOLLOW || S_ISDIR (i_mode i)).

(** [break] out of the loop: the reference of [nd_path] is given back. *)
Definition stop (err : Z) (nd : nameidata) : M walked := dput (nd_path nd);; mret (Walked err nd).

Definition last_type_of (this : list Z) : last_type :=
  if bool_decide (this = [46]) then LAST_DOT
  else if bool_decide (this = [46; 46]) then LAST_DOTDOT else LAST_NORM.

(** What last_component does with a dentry that is found, once links are
    followed. *)
Definition final_checks (lookup_flags : Z) (nd : nameidata) : M walked :=
  d ← get_dentry (nd_path nd);
  match d_inode d with
  | None => stop (- ENOENT) nd
  | Some ir =>
      i ← get_inode ir;
      if flag lookup_flags LOOKUP_DIRECTORY && negb (bool_decide (is_Some (op_lookup (i_op i))))
      then stop (- ENOTDIR) nd
      else mret (Walked 0 nd)
  end.

Definition last_component (lookup_flags : Z) (this : list Z) (slash : bool) (nd : nameidata) : M walked :=
  if flag lookup_flags LOOKUP_PARENT then mret (Walked 0 (set_last this slash (last_type_of this) nd)) else
  if bool_decide (this = [46]) then mret (Walked 0 nd) else
  if bool_decide (this = [46; 46]) then
    '(nd, up) ← follow_dotdot nd;
    if (up : bool) then mret (Leaves [] nd) else mret (Walked 0 nd)
  else
  next ← do_lookup nd this;
  match next with
  | DErr e => stop e nd
  | DNull => fail NullDeref
  | DPtr n =>
      d ← get_dentry n;
      follow ← (match d_inode d with
                | Some ir => i ← get_inode ir; mret (follow_on_final i lookup_flags)
                | None => mret false
                end);
      if (follow : bool) then
        w ← do_follow_link n nd;
        match w with
        | Walked err nd => if negb (err =? 0) then mret w else final_checks lookup_flags nd
        | Leaves _ _ => mret w
        end
      else nd ← path_to_nameidata n nd; final_checks lookup_flags nd
  end.

Fixpoint skip_slashes (name : list Z) : list Z :=
  match name with
  | c :: rest => if c =? 47 then skip_slashes rest else name
  | [] => []
  end.

(** The bytes up to a slash or the end. *)
Fixpoint up_to_slash (name : list Z) : list Z * list Z :=
  match name with
  | c :: rest =>
      if c =? 47 then ([], name) else let '(this, rest) := up_to_slash rest in (c :: this, rest)
  | [] => ([], [])
  end.

(** The component that starts at the first byte of [name], whatever that is. *)
Definition component_at (name : list Z) : list Z * list Z :=
  match name with
  | c :: rest => let '(this, rest) := up_to_slash rest in (c :: this, rest)
  | [] => ([], [])
  end.

(** A component [this] with [name] behind it, from the directory [nd_path] with
    the inode [ir]; [next_turn] is the loop's next turn. *)
Definition middle_component (next_turn : nameidata -> nat -> M walked) (this name : list Z)
    (nd : nameidata) (ir : nat) : M walked :=
  if bool_decide (this = [46]) then next_turn nd ir
  else if bool_decide (this = [46; 46]) then
    '(nd, up) ← follow_dotdot nd;
    if (up : bool) then mret (Leaves name nd) else
    d ← get_dentry (nd_path nd);
    ir ← deref (d_inode d);
    next_turn nd ir
  else
  next ← do_lookup nd this;
  match next with
  | DErr e => stop e nd
  | DNull => fail NullDeref
  | DPtr n =>
      d ← get_dentry n;
      match d_inode d with
      | None => dput n;; stop (- ENOENT) nd
      | Some ir =>
          i ← get_inode ir;
          if follows (i_op i) then
            w ← do_follow_link n nd;
            match w with
            | Walked err nd =>
                if negb (err =? 0) then mret w else
                d ← get_dentry (nd_path nd);
                match d_inode d with
                | None => stop (- ENOENT) nd
                | Some ir =>
                    i ← get_inode ir;
                    if negb (bool_decide (is_Some (op_lookup (i_op i)))) then stop (- ENOTDIR) nd
                    else next_turn nd ir
                end
            | Leaves _ _ => mret w
            end
          else
            nd ← path_to_nameidata n nd;
            if negb (bool_decide (is_Some (op_lookup (i_op i)))) then stop (- ENOTDIR) nd
            else next_turn nd ir
      end
  end.

(** The loop of __link_path_walk; every turn that goes on consumes a component. *)
Fixpoint walk_loop (fuel : nat) (lookup_flags : Z) (name : list Z) (nd : nameidata) (ir : nat) : M walked :=
  match fuel with
  | O => fail OutOfFuel
  | S fuel =>
      i ← get_inode ir;
      c ← gets cur;
      let err := exec_permission_lite c i in
      if negb (err =? 0) then stop err nd else
      let '(this, rest) := component_at name in
      match rest with
      | [] => last_component lookup_flags this false nd
      | _ :: rest =>
          let name := skip_slashes rest in
          if (length name =? 0)%nat
          then last_component (Z.lor lookup_flags (Z.lor LOOKUP_FOLLOW LOOKUP_DIRECTORY)) this true nd
          else middle_component (walk_loop fuel lookup_flags name) this name nd ir
      end
  end.

(** __link_path_walk; a name of [n] bytes has at most [n] components. *)
Definition link_path_walk_ (lookup_flags : Z) (name : list Z) (nd : nameidata) : M walked :=
  let name := skip_slashes name in
  if (length name =? 0)%nat then mret (Walked 0 nd) else
  d ← get_dentry (nd_path nd);
  ir ← deref (d_inode d);
  walk_loop (length name) lookup_flags name nd ir.

Definition link_path_walk (lookup_flags : Z) (name : list Z) (nd : nameidata) : M walked :=
  let save := nd_path nd in
  dget save;;
  w ← link_path_walk_ lookup_flags name nd;
  w ← (match w with
       | Walked err nd =>
           if err =? - ESTALE then dget save;; link_path_walk_ lookup_flags name (set_path save nd)
           else mret w
       | Leaves _ _ => mret w
       end);
  dput save;;
  mret w.

Definition absolute (name : list Z) : bool := match name with c :: _ => c =? 47 | [] => false end.

(** path_init; [dfd] is the dentry of an open file, or [None] for AT_FDCWD.  No
    nameidata and no error: the walk starts outside the mount. *)
Definition init_nd (r : nat) (root : bool) : nameidata := mkNd r [] false LAST_ROOT root.

Definition path_init_dfd (dfd : option nat) : M (Z * option nameidata) :=
  match dfd with
  | None =>
      match fs_pwd fs with
      | Some r => dget r;; mret (0, Some (init_nd r false))
      | None => mret (0, None)
      end
  | Some r =>
      d ← get_dentry r;
      ir ← deref (d_inode d);
      i ← get_inode ir;
      if negb (S_ISDIR (i_mode i)) then mret (- ENOTDIR, None) else
      retval ← inode_permission ir MAY_EXEC;
      if negb (retval =? 0) then mret (retval, None) else
      dget r;; mret (0, Some (init_nd r false))
  end.

Definition path_init (dfd : option nat) (name : list Z) : M (Z * option nameidata) :=
  if absolute name then
    match fs_root fs with
    | Some r => dget r;; dget r;; mret (0, Some (init_nd r true))
    | None => mret (0, None)
    end
  else path_init_dfd dfd.

Definition no_nd : nameidata := init_nd 0 false.

(** do_path_lookup, without the audit; a walk that starts outside the mount, or
    ends there, is [Leaves]. *)
Definition do_path_lookup (dfd : option nat) (name : list Z) (flags : Z) : M walked :=
  '(retval, nd) ← path_init dfd name;
  match nd with
  | None => mret (if retval =? 0 then Leaves name no_nd else Walked retval no_nd)
  | Some nd =>
      w ← link_path_walk flags name nd;
      let nd := match w with Walked _ nd => nd | Leaves _ nd => nd end in
      (if nd_root nd then match fs_root fs with Some r => dput r | None => mret tt end else mret tt);;
      mret w
  end.

Definition user_path_at (dfd : option nat) (name : list Z) (flags : Z) : M walked :=
  let err := getname name in
  if negb (err =? 0) then mret (Walked err no_nd) else
  if flag flags LOOKUP_PARENT then fail BugOn else do_path_lookup dfd name flags.

Definition user_path_parent (dfd : option nat) (name : list Z) : M walked :=
  let err := getname name in
  if negb (err =? 0) then mret (Walked err no_nd) else do_path_lookup dfd name LOOKUP_PARENT.

(** ** The system calls *)

(** A call on the directory of a path: [None] when the walk leaves the mount. *)
Definition at_parent (dfd : option nat) (name : list Z) (call : nameidata -> M Z) : M (option Z) :=
  w ← user_path_parent dfd name;
  match w with
  | Leaves _ _ => mret None
  | Walked err nd =>
      if negb (err =? 0) then mret (Some err) else
      error ← call nd;
      dput (nd_path nd);;
      mret (Some error)
  end.

(** lookup_create of a name with a slash behind it, for what is not a directory:
    it never succeeds. *)
Definition create_slashes (name : list Z) (base : nat) : M Z :=
  dentry ← lookup_hash name base;
  match dentry with
  | DErr e => mret e
  | DNull => fail NullDeref
  | DPtr r =>
      d ← get_dentry r;
      dput r;;
      mret (match d_inode d with Some _ => - EEXIST | None => - ENOENT end)
  end.

Definition mknodat (dfd : option nat) (filename : list Z) (mode dev umask : Z) : M (option Z) :=
  if S_ISDIR mode then mret (Some (- EPERM)) else
  at_parent dfd filename (fun nd =>
    if negb (bool_decide (nd_last_type nd = LAST_NORM)) then mret (- EEXIST)
    else if nd_slash nd then create_slashes (nd_last nd) (nd_path nd)
    else sys_mknodat (nd_path nd) (nd_last nd) mode dev umask).

Definition mkdirat (dfd : option nat) (pathname : list Z) (mode umask : Z) : M (option Z) :=
  at_parent dfd pathname (fun nd =>
    if negb (bool_decide (nd_last_type nd = LAST_NORM)) then mret (- EEXIST)
    else sys_mkdirat (nd_path nd) (nd_last nd) mode umask).

Definition rmdir_at (dfd : option nat) (pathname : list Z) : M (option Z) :=
  at_parent dfd pathname (fun nd =>
    match nd_last_type nd with
    | LAST_DOTDOT => mret (- ENOTEMPTY)
    | LAST_DOT => mret (- EINVAL)
    | LAST_ROOT => mret (- EBUSY)
    | LAST_NORM => do_rmdir (nd_path nd) (nd_last nd)
    end).

(** The branch [slashes] of do_unlinkat. *)
Definition unlink_slashes (name : list Z) (base : nat) : M Z :=
  dentry ← lookup_hash name base;
  match dentry with
  | DErr e => mret e
  | DNull => fail NullDeref
  | DPtr r =>
      d ← get_dentry r;
      error ← (match d_inode d with
               | None => mret (- ENOENT)
               | Some ir => i ← get_inode ir; mret (if S_ISDIR (i_mode i) then - EISDIR else - ENOTDIR)
               end);
      dput r;;
      mret error
  end.

Definition unlink_at (dfd : option nat) (pathname : list Z) : M (option Z) :=
  at_parent dfd pathname (fun nd =>
    if negb (bool_decide (nd_last_type nd = LAST_NORM)) then mret (- EISDIR)
    else if nd_slash nd then unlink_slashes (nd_last nd) (nd_path nd)
    else do_unlinkat (nd_path nd) (nd_last nd)).

Definition AT_REMOVEDIR : Z := 512.

Definition unlinkat (dfd : option nat) (pathname : list Z) (flags : Z) : M (option Z) :=
  if flag flags (Z.lnot AT_REMOVEDIR) then mret (Some (- EINVAL))
  else if flag flags AT_REMOVEDIR then rmdir_at dfd pathname
  else unlink_at dfd pathname.
End walk.
