(* ===== verification/Open.v ===== *)
(** * Opening, reading, writing and closing

    do_filp_open of fs/namei.c, __dentry_open, truncate and filp_close of
    fs/open.c, vfs_read and vfs_write of fs/read_write.c, on files of wjfs.

    The mount is writable and nothing is mounted on a dentry of wjfs.  No file of
    wjfs is being executed, leased or locked, IS_APPEND is false for its inodes,
    and the counts of the mount are left out; then get_write_access,
    mnt_want_write, break_lease and the lock checks let everything pass, as the
    security hooks of a kernel without a security module do.
    get_empty_filp takes one answer of the allocator.  The table of descriptors
    is not modelled: a file is what do_filp_open returns.  Arguments stand for
    what lies outside: following a symbolic link, and the open method of a device
    or a fifo, which no inode of a node at rest is. *)

From S2P Require Import Prelude KString KScan KFormat Wire Ksocket MapTable Vfs Syscalls Tree.
From S2P Require Import Ops PageIo FileMap Truncate FileOps ReadDir Walk.

(** ** Flags *)

Definition O_ACCMODE : Z := 3.
Definition O_CREAT : Z := 64.
Definition O_EXCL : Z := 128.
Definition O_TRUNC : Z := 512.
Definition O_APPEND : Z := 1024.
Definition O_DIRECT : Z := 16384.
Definition O_LARGEFILE : Z := 32768.
Definition O_DIRECTORY : Z := 65536.
Definition O_NOFOLLOW : Z := 131072.
Definition O_NOATIME : Z := 262144.
Definition MAY_APPEND : Z := 8.
Definition MAY_OPEN : Z := 32.
Definition ENXIO : Z := 6.
Definition EBADF : Z := 9.
Definition ENFILE : Z := 23.
Definition ELOOP : Z := 40.

Definition ACC_MODE (x : Z) : Z :=
  match Z.land x O_ACCMODE with 0 => 0 | 1 => 4 | 2 => 2 | _ => 6 end.

Definition open_to_namei_flags (fl : Z) : Z :=
  if negb (Z.land (fl + 1) O_ACCMODE =? 0) then fl + 1 else fl.

Definition lookup_flags (f : Z) : Z :=
  let retval := if flag f O_NOFOLLOW then 0 else LOOKUP_FOLLOW in
  if flag f O_DIRECTORY then Z.lor retval LOOKUP_DIRECTORY else retval.

(** The access do_filp_open asks for. *)
Definition open_acc_mode (fl : Z) : Z :=
  let acc_mode := Z.lor MAY_OPEN (ACC_MODE fl) in
  let acc_mode := if flag fl O_TRUNC then Z.lor acc_mode MAY_WRITE else acc_mode in
  if flag fl O_APPEND then Z.lor acc_mode MAY_APPEND else acc_mode.

Definition special_file (m : Z) : bool :=
  ifmt m S_IFCHR || ifmt m S_IFBLK || ifmt m S_IFIFO || ifmt m S_IFSOCK.

(** ** Open files *)

Inductive opened := OFile (f : file) | ODir (f : dirfile).

Definition o_file (o : opened) : file := match o with OFile f => f | ODir f => df_file f end.

(** fput of the last reference, on a file without a release method or a
    directory. *)
Definition fput (o : opened) : M unit :=
  (match o with ODir f => _ ← dcache_dir_close f; mret tt | OFile _ => mret tt end);;
  dput (f_dentry (o_file o)).

(** filp_close: wjfs has no flush method. *)
Definition filp_close (o : opened) : M Z := fput o;; mret 0.

Section open.
Context `{InodeOps} (env : io_env) (nodev : bool) (umask : Z).
Context (fs : fs_struct) (follow : nat -> nameidata -> M walked).
Variable do_link : nat -> nameidata -> M (option (Z + opened)).
Variable open_special : nat -> file -> M (Z + opened).

Definition may_open (r : nat) (acc_mode fl : Z) : M Z :=
  d ← get_dentry r;
  match d_inode d with
  | None => mret (- ENOENT)
  | Some ir =>
      i ← get_inode ir;
      c ← gets cur;
      if ifmt (i_mode i) S_IFLNK then mret (- ELOOP)
      else if S_ISDIR (i_mode i) && flag acc_mode MAY_WRITE then mret (- EISDIR)
      else if (ifmt (i_mode i) S_IFBLK || ifmt (i_mode i) S_IFCHR) && nodev then mret (- EACCES)
      else
      let fl := if special_file (i_mode i) then Z.land fl (Z.lnot O_TRUNC) else fl in
      error ← inode_permission ir acc_mode;
      if negb (error =? 0) then mret error
      else if flag fl O_NOATIME && negb (is_owner_or_cap c i) then mret (- EPERM)
      else if flag fl O_TRUNC then do_truncate env ir 0 true
      else mret 0
  end.

(** The file that __dentry_open fills in. *)
Definition file_of (r : nat) (flags : Z) : file :=
  mkFile r (Z.testbit (flags + 1) 0) (Z.testbit (flags + 1) 1) (flag flags O_APPEND) (flag flags O_LARGEFILE)
    (flag flags O_NOATIME).

(** __dentry_open; the address space of a file or directory of wjfs has no
    direct_IO. *)
Definition dentry_open_ (r : nat) (flags : Z) : M (Z + opened) :=
  let f := file_of r flags in
  d ← get_dentry r;
  ir ← deref (d_inode d);
  i ← get_inode ir;
  let opens o := if flag flags O_DIRECT then fput o;; mret (inl (- EINVAL)) else mret (inr o) in
  match i_fop i with
  | simple_dir_fops =>
      '(error, df) ← dcache_dir_open f;
      match df with
      | Some df => opens (ODir df)
      | None => dput r;; mret (inl error)
      end
  | wjfs_file_fops | empty_fops => opens (OFile f)
  | bad_sock_fops => dput r;; mret (inl (- ENXIO))
  | def_chr_fops | def_blk_fops | def_fifo_fops => open_special ir f
  end.

(** The references a walk holds. *)
Definition put_root (nd : nameidata) : M unit :=
  if nd_root nd then match fs_root fs with Some r => dput r | None => mret tt end else mret tt.

Definition exit_open (error : Z) (nd : nameidata) : M (option (Z + opened)) :=
  put_root nd;; dput (nd_path nd);; mret (Some (inl error)).

(** From the label [ok] on. *)
Definition open_found (open_flag fl acc_mode : Z) (nd : nameidata) : M (option (Z + opened)) :=
  error ← may_open (nd_path nd) acc_mode fl;
  if negb (error =? 0) then exit_open error nd else
  filp ← dentry_open_ (nd_path nd) open_flag;
  put_root nd;;
  mret (Some filp).

(** __open_namei_create: the directory is given back. *)
Definition open_namei_create (r : nat) (fl mode : Z) (nd : nameidata) : M (Z * nameidata) :=
  p ← get_dentry (nd_path nd);
  dir ← deref (d_inode p);
  error ← vfs_create dir r (Z.land mode (Z.lnot umask));
  dput (nd_path nd);;
  let nd := set_path r nd in
  if negb (error =? 0) then mret (error, nd) else
  error ← may_open r 0 (Z.land fl (Z.lnot O_TRUNC));
  mret (error, nd).

(** From the label [do_last] on. *)
Definition open_last (open_flag fl acc_mode mode : Z) (nd : nameidata) : M (option (Z + opened)) :=
  dentry ← lookup_hash (nd_last nd) (nd_path nd);
  match dentry with
  | DErr e => exit_open e nd
  | DNull => fail NullDeref
  | DPtr r =>
      d ← get_dentry r;
      match d_inode d with
      | None =>
          '(error, nd) ← open_namei_create r fl mode nd;
          if negb (error =? 0) then exit_open error nd else
          filp ← dentry_open_ (nd_path nd) open_flag;
          put_root nd;;
          mret (Some filp)
      | Some ir =>
          if flag fl O_EXCL then dput r;; exit_open (- EEXIST) nd else
          i ← get_inode ir;
          if follows (i_op i) then
            if flag fl O_NOFOLLOW then dput r;; exit_open (- ELOOP) nd else do_link r nd
          else
          nd ← path_to_nameidata r nd;
          if S_ISDIR (i_mode i) then exit_open (- EISDIR) nd
          else open_found open_flag fl acc_mode nd
      end
  end.

(** The walk of a call that may create; its root reference is given back only at
    the end. *)
Definition open_create (dfd : option nat) (pathname : list Z) (open_flag fl acc_mode mode : Z)
    : M (option (Z + opened)) :=
  '(error, nd) ← path_init fs dfd pathname;
  match nd with
  | None => mret (if error =? 0 then None else Some (inl error))
  | Some nd =>
      w ← link_path_walk fs follow LOOKUP_PARENT pathname nd;
      match w with
      | Leaves _ nd => put_root nd;; mret None
      | Walked error nd =>
          if negb (error =? 0) then put_root nd;; mret (Some (inl error)) else
          if negb (bool_decide (nd_last_type nd = LAST_NORM)) || nd_slash nd then exit_open (- EISDIR) nd else
          a ← alloc;
          if negb a then exit_open (- ENFILE) nd
          else open_last open_flag fl acc_mode mode nd
      end
  end.

(** path_lookup_open and what follows it; the walk has given back its root. *)
Definition open_plain (dfd : option nat) (pathname : list Z) (open_flag fl acc_mode : Z)
    : M (option (Z + opened)) :=
  a ← alloc;
  if negb a then mret (Some (inl (- ENFILE))) else
  w ← do_path_lookup fs follow dfd pathname (lookup_flags fl);
  match w with
  | Leaves _ _ => mret None
  | Walked error nd =>
      if negb (error =? 0) then mret (Some (inl error))
      else open_found open_flag fl acc_mode (init_nd (nd_path nd) false)
  end.

Definition do_filp_open (dfd : option nat) (pathname : list Z) (open_flag mode : Z) : M (option (Z + opened)) :=
  let fl := open_to_namei_flags open_flag in
  let acc_mode := open_acc_mode fl in
  if flag fl O_CREAT then open_create dfd pathname open_flag fl acc_mode mode
  else open_plain dfd pathname open_flag fl acc_mode.

(** do_sys_open: [None] when the walk leaves the mount. *)
Definition do_sys_open (dfd : option nat) (filename : list Z) (flags mode : Z) : M (option (Z + opened)) :=
  let err := getname filename in
  if negb (err =? 0) then mret (Some (inl err)) else do_filp_open dfd filename flags mode.

(** do_sys_truncate *)
Definition truncate_found (length : Z) (r : nat) : M Z :=
  d ← get_dentry r;
  ir ← deref (d_inode d);
  i ← get_inode ir;
  if S_ISDIR (i_mode i) then mret (- EISDIR)
  else if negb (ifmt (i_mode i) S_IFREG) then mret (- EINVAL) else
  error ← inode_permission ir MAY_WRITE;
  if negb (error =? 0) then mret error else do_truncate env ir length false.

Definition do_sys_truncate (pathname : list Z) (length : Z) : M (option Z) :=
  if length <? 0 then mret (Some (- EINVAL)) else
  w ← user_path_at fs follow None pathname LOOKUP_FOLLOW;
  match w with
  | Leaves _ _ => mret None
  | Walked error nd =>
      if negb (error =? 0) then mret (Some error) else
      error ← truncate_found length (nd_path nd);
      dput (nd_path nd);;
      mret (Some error)
  end.
End open.

(** ** Reading and writing *)

Definition MAX_RW_COUNT : Z := 0x7ffff000.

Definition rw_verify_area (pos count : Z) : Z :=
  if s32 count <? 0 then - EINVAL
  else if (pos <? 0) || (s64 (pos + count) <? 0) then - EINVAL
  else if MAX_RW_COUNT <? count then MAX_RW_COUNT else count.

Section rw.
Context `{AioOps}.
Variable pointer : block -> block * nat -> Z -> va -> printf_spec -> res (block * nat).
Variable stack : autos.

(** vfs_read of a file or directory of wjfs, to memory of the user. *)
Definition vfs_read (fuel : nat) (f : file) (buf : block) (count pos : Z) : M (Z * Z * block) :=
  if negb (f_read f) then mret (- EBADF, pos, buf) else
  d ← get_dentry (f_dentry f);
  ir ← deref (d_inode d);
  i ← get_inode ir;
  if negb (bool_decide (i_fop i = wjfs_file_fops) || bool_decide (i_fop i = simple_dir_fops))
  then mret (- EINVAL, pos, buf) else
  let ret := rw_verify_area pos count in
  if ret <? 0 then mret (ret, pos, buf) else
  if bool_decide (i_fop i = simple_dir_fops) then mret (- EISDIR, pos, buf)
  else wjfs_read pointer stack fuel f buf ret pos.

(** vfs_write; a directory has no write method. *)
Definition vfs_write (fuel : nat) (f : file) (buf : block) (count pos : Z) : M (Z * Z) :=
  if negb (f_write f) then mret (- EBADF, pos) else
  d ← get_dentry (f_dentry f);
  ir ← deref (d_inode d);
  i ← get_inode ir;
  if negb (bool_decide (i_fop i = wjfs_file_fops)) then mret (- EINVAL, pos) else
  let ret := rw_verify_area pos count in
  if ret <? 0 then mret (ret, pos) else wjfs_write pointer stack fuel f buf ret pos.
End rw.
