(* ===== verification/Uses.v ===== *)
(** * References on dentries

    dget and dput of a dentry that stays: who holds a reference changes the
    count of one dentry and nothing that a lookup, a permission check or a walk
    reads. *)

From S2P Require Import Prelude KString KScan KFormat Wire Ksocket MapTable Vfs Syscalls Tree.
From S2P Require Import Umount Ops PageIo Server Node Inv Remove Serve Contents Options.
From S2P Require Import Mount Cluster Local LocalDir Results.

(** One more reference on [r]. *)
Definition use (r : nat) (s : kstate) : kstate :=
  with_dentries (alter (fun d => set_d_count (d_count d + 1) d) r (dentries s)) s.

(** ** States that differ in counts only *)

Record alike (s s' : kstate) : Prop := {
  al_inodes : inodes s' = inodes s;
  al_hash : d_hash s' = d_hash s;
  al_cur : cur s' = cur s;
  al_dentries : forall r, set_d_count 0 <$> dentries s' !! r = set_d_count 0 <$> dentries s !! r;
}.

#[global] Instance alike_equiv : Equivalence alike.
Proof.
  split.
  - by intros s.
  - intros s s' [H1 H2 H3 H4]. by split.
  - intros s1 s2 s3 [H1 H2 H3 H4] [H5 H6 H7 H8]. split; [congruence..|].
    intros r. by rewrite H8.
Qed.

Lemma use_alike r s : alike s (use r s).
Proof.
  split; try done. intros x. simpl. rewrite lookup_alter. case_decide as E; [|done]. subst.
  by destruct (dentries s !! x) as [[]|].
Qed.

Lemma quiet_alike s s' : quiet s s' -> alike s s'.
Proof. intros []. split; try done. intros r. congruence. Qed.

Lemma but_count d d' : set_d_count 0 <$> Some d' = set_d_count 0 <$> Some d -> d' = set_d_count (d_count d') d.
Proof. destruct d, d'. unfold set_d_count. simpl. intros E. by injection E as <- <- <- <- <- <- <-. Qed.

Lemma alike_dentry s s' r d :
  alike s s' -> dentries s !! r = Some d -> exists c, dentries s' !! r = Some (set_d_count c d).
Proof.
  intros Ha Hd. pose proof (al_dentries _ _ Ha r) as E. rewrite Hd in E.
  destruct (dentries s' !! r) as [d'|]; [|done]. exists (d_count d'). by rewrite <- (but_count _ _ E).
Qed.

Lemma alike_node_inode s s' r : alike s s' -> node_inode s' r = node_inode s r.
Proof.
  intros Ha. unfold node_inode. pose proof (al_dentries _ _ Ha r) as E. rewrite (al_inodes _ _ Ha).
  destruct (dentries s' !! r) as [d'|], (dentries s !! r) as [d|]; try done.
  by rewrite (but_count _ _ E).
Qed.

Lemma alike_lookup s s' p n :
  alike s s' -> d_lookup_in (d_hash s') (dentries s') p n = d_lookup_in (d_hash s) (dentries s) p n.
Proof.
  intros Ha. rewrite (al_hash _ _ Ha). induction (d_hash s) as [|x h IH]; [done|]. cbn [d_lookup_in].
  pose proof (al_dentries _ _ Ha x) as E. rewrite IH.
  destruct (dentries s' !! x) as [d'|], (dentries s !! x) as [d|]; try done.
  by rewrite (but_count _ _ E).
Qed.

(** ** Taking and giving back *)

Lemma use_comm a b s : use a (use b s) = use b (use a s).
Proof.
  unfold use, with_dentries. simpl. f_equal. apply map_eq. intros x. rewrite !lookup_alter.
  repeat case_decide; by subst.
Qed.

Lemma use_insert r d s :
  dentries s !! r = Some d ->
  with_dentries (<[r := set_d_count (d_count d + 1) d]> (dentries s)) s = use r s.
Proof.
  intros Hd. unfold use. f_equal. apply map_eq. intros x. rewrite lookup_insert, lookup_alter.
  case_decide; [subst; by rewrite Hd|done].
Qed.

(** The invariant does not depend on the counts, as long as they are high enough. *)
Lemma recount_ok s s' t :
  node_ok s t -> alike s s' -> (forall r, 0 <= users (dentries s') r) -> fresh s' = fresh s ->
  glob s' = glob s -> node_ok s' t.
Proof.
  intros Hok Ha Hu Ef Eg.
  assert (Hold : forall x d, dentries s' !! x = Some d ->
    exists d0, dentries s !! x = Some d0 /\ d = set_d_count (d_count d) d0).
  { intros x d Hd. destruct (alike_dentry s' s x d (symmetry Ha) Hd) as (c & Hc).
    exists (set_d_count c d). split; [done|]. by destruct d. }
  split; rewrite ?Ef, ?Eg, ?(al_hash _ _ Ha), ?(al_inodes _ _ Ha); try apply Hok; try done.
  - destruct (nk_rest _ _ Hok) as [Hnd (rd & Hrd & Hpar & Hsub) Hch]. split; [done|..].
    + destruct (alike_dentry _ _ _ _ Ha Hrd) as (c & Hc). by exists (set_d_count c rd).
    + eapply List.Forall_impl; [|exact Hch]. intros c. clear -Ha. generalize (troot t).
      induction c as [x ch IH] using tree_rect_all. intros q Hq.
      inversion Hq as [? ? d Hx Hp Hs Hpos Hcs]; subst.
      destruct (alike_dentry _ _ _ _ Ha Hx) as (c & Hc).
      apply pinned_node with (set_d_count c d); try done. rewrite List.Forall_forall in *. auto.
  - intros x. rewrite <- (nk_dom _ _ Hok). pose proof (al_dentries _ _ Ha x) as E.
    destruct (dentries s' !! x), (dentries s !! x); by split; intros []; eauto.
  - intros x d (d0 & Hd0 & ->)%Hold. destruct (nk_inode _ _ Hok _ _ Hd0) as (ir & i & H).
    exists ir, i. by rewrite (al_inodes _ _ Ha).
  - intros r1 r2 d1 d2 ir (e1 & H1 & ->)%Hold (e2 & H2 & ->)%Hold E1 E2. by eapply (nk_inj _ _ Hok).
  - intros x d (d0 & Hd0 & ->)%Hold. exact (nk_names _ _ Hok _ _ Hd0).
  - intros x d (d0 & Hd0 & ->)%Hold. exact (nk_dop _ _ Hok _ _ Hd0).
  - intros r1 r2 d1 d2 (e1 & H1 & ->)%Hold (e2 & H2 & ->)%Hold. exact (nk_uniq _ _ Hok _ _ _ _ H1 H2).
Qed.

Section use.
Context (s : kstate) (t : tree) (Hok : node_ok s t).

Lemma use_ok r : node_ok (use r s) t.
Proof using Hok.
  apply (recount_ok s); try done; [apply use_alike|].
  intros x. pose proof (nk_users _ _ Hok x) as H. unfold users in *. simpl. rewrite lookup_alter.
  case_decide as E; [subst x|done]. destruct (dentries s !! r); simpl in *; [lia|done].
Qed.

Lemma dget_use r : is_Some (dentries s !! r) -> dget r s = Ok (tt, use r s).
Proof using Hok.
  intros [d Hd]. pose proof (node_count _ _ _ _ Hok Hd). unfold dget.
  erewrite M_bind_ok by (by apply get_dentry_ok). rewrite (proj2 (Z.eqb_neq _ 0)) by lia.
  unfold atomic_inc_d. rewrite (upd_dentry_ok _ _ _ _ Hd). by rewrite use_insert.
Qed.

(** Giving back the reference restores the node, also when the dentries' counters
    are all that is as before. *)
Lemma dput_quiet r s' :
  is_Some (dentries s !! r) -> quiet (use r s) s' ->
  exists s'', dput r s' = Ok (tt, s'') /\ quiet s s'' /\ (s' = use r s -> s'' = s).
Proof using Hok.
  intros [d Hd] Hq. pose proof (node_count _ _ _ _ Hok Hd).
  assert (Hd' : dentries s' !! r = Some (set_d_count (d_count d + 1) d)).
  { rewrite (qt_dentries _ _ Hq). simpl. by rewrite lookup_alter_eq, Hd. }
  assert (Eb : <[r := set_d_count (d_count d + 1 - 1) (set_d_count (d_count d + 1) d)]> (dentries s') = dentries s).
  { rewrite (qt_dentries _ _ Hq). apply map_eq. intros x. simpl. rewrite lookup_insert, lookup_alter.
    case_decide; [subst|done]. rewrite Hd. f_equal. destruct d. unfold set_d_count. simpl. f_equal. lia. }
  eexists. split; [apply (dput_held _ _ _ Hd'); simpl; lia|]. cbn [d_count set_d_count] in *.
  change (d_count (set_d_count (d_count d + 1) d)) with (d_count d + 1). rewrite Eb. split.
  - destruct Hq. by split.
  - intros ->. by destruct s.
Qed.

Lemma dput_use r : is_Some (dentries s !! r) -> dput r (use r s) = Ok (tt, s).
Proof using Hok.
  intros Hr. destruct (dput_quiet r (use r s) Hr) as (s'' & E & _ & H); [done|]. by rewrite E, H.
Qed.
End use.

Lemma use_is_Some r x s : is_Some (dentries (use r s) !! x) <-> is_Some (dentries s !! x).
Proof. simpl. rewrite lookup_alter. case_decide as E; [subst x|done]. by rewrite fmap_is_Some. Qed.

Lemma users_use r x s :
  is_Some (dentries s !! r) ->
  users (dentries (use r s)) x = users (dentries s) x + (if decide (x = r) then 1 else 0).
Proof.
  intros [d Hd]. unfold users. simpl. rewrite lookup_alter. case_decide as E; case_decide; subst; try done.
  - rewrite Hd. simpl. lia.
  - lia.
Qed.

(** ** Giving back after a change *)

Definition unuse (r : nat) (s : kstate) : kstate :=
  with_dentries (alter (fun d => set_d_count (d_count d - 1) d) r (dentries s)) s.

Lemma unuse_alike r s : alike s (unuse r s).
Proof.
  split; try done. intros x. simpl. rewrite lookup_alter. case_decide as E; [|done]. subst.
  by destruct (dentries s !! x) as [[]|].
Qed.

Lemma users_unuse r x s :
  is_Some (dentries s !! r) ->
  users (dentries (unuse r s)) x = users (dentries s) x - (if decide (x = r) then 1 else 0).
Proof.
  intros [d Hd]. unfold users. simpl. rewrite lookup_alter. case_decide as E; case_decide; subst; try done.
  - rewrite Hd. simpl. lia.
  - lia.
Qed.

(** dput of a dentry that someone uses, on a node that a call has changed. *)
Lemma dput_unuse s t r :
  node_ok s t -> is_Some (dentries s !! r) -> 1 <= users (dentries s) r ->
  dput r s = Ok (tt, unuse r s) /\ node_ok (unuse r s) t.
Proof.
  intros Hok Hr Hu. split.
  - destruct Hr as [d Hd]. unfold users in Hu. rewrite Hd in Hu. rewrite (dput_held _ _ _ Hd) by lia.
    unfold unuse. do 3 f_equal. apply map_eq. intros x. rewrite lookup_insert, lookup_alter.
    case_decide; [subst; by rewrite Hd|done].
  - apply (recount_ok s); try done; [apply unuse_alike|]. intros x. rewrite users_unuse by done.
    pose proof (nk_users _ _ Hok x). case_decide; subst; lia.
Qed.
