(* ===== verification/Path.v ===== *)
(** * Where a path leads

    The components of a path name, the directory or file they lead to from a
    directory of a node at rest, and that the path walk finds it, or the error,
    and gives back every reference but the one on what it found. *)

From S2P Require Import Prelude KString KScan KFormat Wire Ksocket MapTable Vfs Syscalls Tree.
From S2P Require Import Umount Ops PageIo Server Node Inv Remove Serve Contents Options.
From S2P Require Import Mount Cluster Local LocalDir Results Walk Uses.

(** ** The components of a name *)

Fixpoint fields (name : list Z) : list (list Z) :=
  match name with
  | [] => [[]]
  | c :: rest =>
      if c =? 47 then [] :: fields rest
      else match fields rest with w :: ws => (c :: w) :: ws | [] => [[c]] end
  end.

Definition components (name : list Z) : list (list Z) :=
  List.filter (fun w => negb (length w =? 0)%nat) (fields name).

Definition ends_slash (name : list Z) : bool := bool_decide (list.last name = Some 47).

Lemma fields_word w rest : 47 ∉ w -> fields (w ++ 47 :: rest) = w :: fields rest.
Proof.
  induction w as [|c w IH]; [done|]. intros [Hc Hw]%not_elem_of_cons. cbn [app fields].
  rewrite (proj2 (Z.eqb_neq c 47)), (IH Hw) by done. done.
Qed.

Lemma fields_last w : 47 ∉ w -> fields w = [w].
Proof.
  induction w as [|c w IH]; [done|]. intros [Hc Hw]%not_elem_of_cons. cbn [fields].
  by rewrite (proj2 (Z.eqb_neq c 47)), (IH Hw) by done.
Qed.

Lemma components_word w rest : w <> [] -> 47 ∉ w -> components (w ++ 47 :: rest) = w :: components rest.
Proof. intros Hw Hs. unfold components. rewrite fields_word by done. by destruct w. Qed.

Lemma components_last w : w <> [] -> 47 ∉ w -> components w = [w].
Proof. intros Hw Hs. unfold components. rewrite fields_last by done. by destruct w. Qed.

Lemma components_skip name : components (skip_slashes name) = components name.
Proof.
  induction name as [|c name IH]; [done|]. cbn [skip_slashes].
  destruct (Z.eqb_spec c 47) as [->|]; [by rewrite IH|done].
Qed.

Lemma skip_head name c rest : skip_slashes name = c :: rest -> c <> 47.
Proof.
  induction name as [|x name IH]; [done|]. cbn [skip_slashes].
  destruct (Z.eqb_spec x 47); [done|congruence].
Qed.

Lemma skip_suffix name : exists pre, name = pre ++ skip_slashes name /\ Forall (fun c => c = 47) pre.
Proof.
  induction name as [|c name (pre & E & Hp)]; [by exists []|]. cbn [skip_slashes].
  destruct (Z.eqb_spec c 47) as [->|]; [|by exists []]. exists (47 :: pre). split; [by rewrite E at 1|by constructor].
Qed.

Lemma up_to_slash_spec name this rest :
  up_to_slash name = (this, rest) ->
  name = this ++ rest /\ 47 ∉ this /\ (rest = [] \/ exists r, rest = 47 :: r).
Proof.
  revert this rest. induction name as [|c name IH]; intros this rest; cbn [up_to_slash].
  - intros [= <- <-]. split; [done|]. split; [by intros ?%not_elem_of_nil|by left].
  - destruct (Z.eqb_spec c 47) as [->|Hc].
    + intros [= <- <-]. split; [done|]. split; [by intros ?%not_elem_of_nil|right; eauto].
    + destruct (up_to_slash name) as [w r] eqn:E. intros [= <- <-].
      destruct (IH _ _ eq_refl) as (-> & Hw & Hr). split; [done|]. split; [|done].
      by intros [|]%elem_of_cons.
Qed.

Lemma last_notin (w : list Z) : 47 ∉ w -> ends_slash w = false.
Proof.
  intros Hw. apply bool_decide_eq_false_2. intros E. apply Hw. by apply last_Some_elem_of.
Qed.

(** One component off the front: the last one, or one with more behind it. *)
Lemma component_at_spec c0 name0 this rest :
  let name := c0 :: name0 in
  c0 <> 47 -> component_at name = (this, rest) ->
  this <> [] /\ 47 ∉ this /\ (length (skip_slashes rest) < length name)%nat /\
  (Forall (fun c => c <> 0) name -> Forall (fun c => c <> 0) this /\ Forall (fun c => c <> 0) (skip_slashes rest)) /\
  match rest with
  | [] => components name = [this] /\ ends_slash name = false
  | _ :: rest' =>
      skip_slashes rest = skip_slashes rest' /\
      match skip_slashes rest' with
      | [] => components name = [this] /\ ends_slash name = true
      | c :: r => components name = this :: components (c :: r) /\ ends_slash name = ends_slash (c :: r)
      end
  end.
Proof.
  intros name Hc E. unfold component_at, name in *. destruct (up_to_slash name0) as [w r] eqn:Ew.
  injection E as <- <-. destruct (up_to_slash_spec _ _ _ Ew) as (-> & Hw & Hr).
  destruct (skip_suffix r) as (pre & Epre & Hpre).
  assert (Hw0 : 47 ∉ c0 :: w) by (by intros [|]%elem_of_cons).
  split; [done|]. split; [done|]. split.
  { pose proof (f_equal length Epre) as El. rewrite length_app in El. simpl. rewrite length_app. lia. }
  split.
  { rewrite Forall_cons_iff, Forall_app. intros (H0 & H1 & H2). split; [by constructor|].
    rewrite Epre in H2. apply Forall_app in H2. apply H2. }
  destruct Hr as [->|[r' ->]].
  - rewrite app_nil_r. split; [by apply components_last|by apply last_notin].
  - split; [done|]. cbn [skip_slashes] in Epre. change (47 =? 47) with true in Epre. cbn iota in Epre.
    change (c0 :: w ++ 47 :: r') with ((c0 :: w) ++ 47 :: r').
    rewrite components_word by done. rewrite <- (components_skip r').
    unfold ends_slash. rewrite last_app_cons.
    destruct (skip_slashes r') as [|c r] eqn:Es.
    + split; [done|]. apply bool_decide_eq_true_2. rewrite app_nil_r in Epre. rewrite Epre.
      destruct (list.last pre) as [x|] eqn:El.
      * f_equal. apply last_Some_elem_of in El. rewrite List.Forall_forall in Hpre.
        by apply Hpre, list_elem_of_In.
      * apply last_None in El. subst pre. done.
    + split; [done|]. rewrite Epre, last_app_cons. done.
Qed.

Lemma components_cons c name : c <> 47 -> exists w ws, components (c :: name) = w :: ws.
Proof.
  intros Hc. destruct (component_at (c :: name)) as [this rest] eqn:E.
  destruct (component_at_spec c name this rest Hc E) as (_ & _ & _ & _ & H).
  destruct rest as [|x rest]; [destruct H as [-> _]; eauto|].
  destruct H as [_ H]. destruct (skip_slashes rest); destruct H as [-> _]; eauto.
Qed.

(** ** Where the components lead *)

Definition is_dir (s : kstate) (r : nat) : bool :=
  match node_inode s r with Some i => S_ISDIR (i_mode i) | None => false end.

Definition search_errno (s : kstate) (r : nat) : Z :=
  match node_inode s r with Some i => generic_permission (cur s) i MAY_EXEC | None => 0 end.

Definition parent_of (s : kstate) (r : nat) : nat :=
  match dentries s !! r with Some d => d_parent d | None => r end.

Inductive place := At (r : nat) | Fails (e : Z) | Outside.

(** One component from directory [p]. *)
Definition go (s : kstate) (fs : fs_struct) (p : nat) (c : list Z) : place :=
  if bool_decide (c = [46]) then At p
  else if bool_decide (c = [46; 46]) then
    if bool_decide (fs_root fs = Some p) then At p
    else if (p =? mnt_root fs)%nat then Outside else At (parent_of s p)
  else match d_lookup_in (d_hash s) (dentries s) p c with
       | Some r => At r
       | None => Fails (if NAME_MAX <? Z.of_nat (length c) then - ENAMETOOLONG else - ENOENT)
       end.

Definition must_dir (s : kstate) (dir : bool) (x : place) : place :=
  match x with
  | At r => if dir && negb (is_dir s r) then Fails (- ENOTDIR) else x
  | x => x
  end.

(** All components from directory [p]; [final] says what becomes of the last. *)
Fixpoint lead (s : kstate) (fs : fs_struct) (final : nat -> list Z -> place) (p : nat)
    (cs : list (list Z)) : place :=
  match cs with
  | [] => At p
  | c :: cs =>
      if negb (search_errno s p =? 0) then Fails (search_errno s p)
      else match cs with
           | [] => final p c
           | _ => match must_dir s true (go s fs p c) with
                  | At q => lead s fs final q cs
                  | x => x
                  end
           end
  end.

(** ** The walk on a node at rest *)

Lemma exec_lite c i : S_ISDIR (i_mode i) = true -> exec_permission_lite c i = generic_permission c i MAY_EXEC.
Proof.
  intros Hd. unfold exec_permission_lite, generic_permission, execute_ok. rewrite Hd, !orb_true_r.
  assert (acl_permission_check c i MAY_EXEC = 0 \/ acl_permission_check c i MAY_EXEC = - EACCES)
    as [-> | ->]; [unfold acl_permission_check; destruct (_ =? 0); auto|done|].
  change (- EACCES =? 0) with false. change (negb (- EACCES =? - EACCES)) with false. cbn iota.
  destruct (cap_dac_override c); [done|]. cbn [orb]. unfold MAY_EXEC, MAY_READ, MAY_WRITE. simpl.
  by destruct (cap_dac_read_search c).
Qed.

Section walk.
Variable pointer : block -> block * nat -> Z -> va -> printf_spec -> res (block * nat).
Context (stack : autos) (fs : fs_struct) (follow : nat -> nameidata -> M walked).
#[local] Instance walk_ops : InodeOps := wjfs_ops pointer stack.

Context (s : kstate) (t : tree) (Hok : node_ok s t) (Hmem : mem s = []).

Lemma is_dir_directory s1 r :
  node_ok s1 t -> is_dir s1 r = true ->
  exists d ir i, directory s1 r d ir i /\ node_inode s1 r = Some i /\ typed i.
Proof using.
  clear Hok Hmem. intros Hok1. unfold is_dir. destruct (node_inode s1 r) as [i|] eqn:E; [|done].
  intros Hd. destruct (node_inode_inv _ _ _ E) as (d & ir & H1 & H2 & H3 & _). exists d, ir, i.
  split; [split; try done; apply (nk_names _ _ Hok1 _ _ H1)|]. split; [done|].
  destruct (nk_inode _ _ Hok1 _ _ H1) as (? & ? & ? & ? & _ & _ & _ & _ & Ht). by simplify_eq.
Qed.

Lemma is_dir_some r : is_dir s r = true -> is_Some (dentries s !! r).
Proof using Hok. intros H. destruct (is_dir_directory s r Hok H) as (d & ? & ? & [Hd _ _ _ _] & _). eauto. Qed.

(** The reference that set_root took, and the one of [nd_path]. *)
Definition rooted (nd : nameidata) : kstate :=
  if nd_root nd then match fs_root fs with Some r => use r s | None => s end else s.
Definition at_nd (nd : nameidata) : kstate := use (nd_path nd) (rooted nd).

Lemma rooted_ok nd : node_ok (rooted nd) t.
Proof using Hok. unfold rooted. repeat case_match; try done. by apply use_ok. Qed.

Lemma at_ok nd : node_ok (at_nd nd) t.
Proof using Hok. apply use_ok, rooted_ok. Qed.

Lemma rooted_alike nd : alike s (rooted nd).
Proof using. unfold rooted. repeat case_match; try done. apply use_alike. Qed.

Lemma at_alike nd : alike s (at_nd nd).
Proof using. etransitivity; [apply rooted_alike|apply use_alike]. Qed.

Lemma at_mem nd : mem (at_nd nd) = [].
Proof using Hmem. unfold at_nd, rooted. by repeat case_match. Qed.

Lemma rooted_some nd r : is_Some (dentries (rooted nd) !! r) <-> is_Some (dentries s !! r).
Proof using. unfold rooted. repeat case_match; try done. apply use_is_Some. Qed.

Lemma is_dir_at nd r : is_dir (at_nd nd) r = is_dir s r.
Proof using. unfold is_dir. by rewrite (alike_node_inode _ _ _ (at_alike nd)). Qed.

(** What a walk leaves, for the place it should come to. *)
Definition outcome (Q : nameidata -> Prop) (x : place) (r : res (walked * kstate)) : Prop :=
  match x with
  | At q => exists nd, r = Ok (Walked 0 nd, at_nd nd) /\ nd_path nd = q /\ is_Some (dentries s !! q) /\ Q nd
  | Fails e => e <> 0 /\ exists nd s', r = Ok (Walked e nd, s') /\ quiet (rooted nd) s'
  | Outside => exists rest nd, r = Ok (Leaves rest nd, rooted nd)
  end.

(** Giving up. *)
Lemma stop_ok e nd s' Q :
  e <> 0 -> is_Some (dentries s !! nd_path nd) -> quiet (at_nd nd) s' -> outcome Q (Fails e) (stop e nd s').
Proof using Hok.
  intros He Hp Hq. split; [done|].
  destruct (dput_quiet (rooted nd) t (rooted_ok nd) (nd_path nd) s') as (s'' & E & Hq' & _);
    [by apply rooted_some|done|].
  exists nd, s''. split; [|done]. unfold stop. by erewrite M_bind_ok by exact E.
Qed.
Context (Hmnt : mnt_root fs = troot t) (Hfs : forall r, fs_root fs = Some r -> is_dir s r = true).

Definition with_root (nd : nameidata) : nameidata :=
  mkNd (nd_path nd) (nd_last nd) (nd_slash nd) (nd_last_type nd) true.

Lemma set_root_ok nd : set_root fs nd (at_nd nd) = Ok (with_root nd, at_nd (with_root nd)).
Proof using Hok Hfs.
  unfold set_root. destruct (nd_root nd) eqn:E.
  - assert (with_root nd = nd) as ->; [|done]. destruct nd. simpl in E. by subst.
  - unfold at_nd at 2, rooted. cbn [with_root nd_root nd_path]. destruct (fs_root fs) as [r|] eqn:Er.
    + assert (Hr : is_Some (dentries (at_nd nd) !! r)) by (apply use_is_Some, rooted_some, is_dir_some; auto).
      erewrite M_bind_ok by (eapply dget_use; [apply at_ok|done]).
      unfold mret, M_ret. do 2 f_equal. unfold at_nd, rooted. rewrite E. apply use_comm.
    + erewrite M_bind_ok by reflexivity. unfold mret, M_ret. do 2 f_equal. unfold at_nd, rooted. by rewrite E.
Qed.

Lemma parent_dir r d :
  dentries s !! r = Some d -> r <> troot t -> is_dir s (d_parent d) = true /\ is_Some (dentries s !! d_parent d).
Proof using Hok.
  intros Hd Hr. destruct (node_positive _ _ _ _ Hok Hd Hr) as [Hin _].
  destruct (node_tree _ _ Hok) as [[Hrep Hnd] _].
  destruct (rep_up _ _ _ r Hrep Hnd Hin) as (d' & pd & Hd' & Hpd & Hrs & _). simplify_eq.
  destruct (node_node_inode _ _ _ _ Hok Hpd) as (ir & i & _ & _ & Hni & Hdir).
  split; [|eauto]. unfold is_dir. rewrite Hni. apply Hdir. intros E. rewrite E in Hrs. by apply not_elem_of_nil in Hrs.
Qed.

(** From one dentry to another. *)
Lemma move_to q nd :
  is_Some (dentries s !! nd_path nd) ->
  dput (nd_path nd) (use q (at_nd nd)) = Ok (tt, at_nd (set_path q nd)).
Proof using Hok.
  intros Hp. unfold at_nd at 1. rewrite use_comm.
  apply (dput_use (use q (rooted nd)) t); [apply use_ok, rooted_ok|]. by apply use_is_Some, rooted_some.
Qed.

Lemma dotdot_ok nd :
  is_dir s (nd_path nd) = true ->
  match go s fs (nd_path nd) [46; 46] with
  | At q => exists nd', follow_dotdot fs nd (at_nd nd) = Ok ((nd', false), at_nd nd') /\
      nd_path nd' = q /\ is_dir s q = true
  | Outside => exists nd', follow_dotdot fs nd (at_nd nd) = Ok ((nd', true), rooted nd')
  | Fails _ => False
  end.
Proof using Hok Hfs Hmnt.
  intros Hd. pose proof (is_dir_some _ Hd) as [d Hp].
  unfold go, follow_dotdot. rewrite (bool_decide_eq_false_2 ([46; 46] = [46])), (bool_decide_eq_true_2 ([46; 46] = _)) by done.
  erewrite M_bind_ok by apply set_root_ok. cbn [nd_path with_root]. set (nd1 := with_root nd).
  case_bool_decide as Er; [by exists nd1|].
  destruct (Nat.eqb_spec (nd_path nd) (mnt_root fs)) as [Em|Em]; cbn [negb].
  - exists nd1. erewrite M_bind_ok; [reflexivity|].
    apply (dput_use (rooted nd1) t); [apply rooted_ok|]. apply rooted_some. eauto.
  - rewrite Hmnt in Em. destruct (parent_dir _ _ Hp Em) as [Hpd Hps].
    unfold parent_of. rewrite Hp. exists (set_path (d_parent d) nd1). split; [|done].
    destruct (alike_dentry _ _ _ _ (at_alike nd1) Hp) as (c & Hc).
    erewrite M_bind_ok by (apply get_dentry_ok; exact Hc). cbn [d_parent set_d_count].
    erewrite M_bind_ok by (eapply dget_use; [apply at_ok|]; by apply use_is_Some, rooted_some).
    erewrite M_bind_ok by (apply (move_to (d_parent d) nd1); simpl; eauto). reflexivity.
Qed.

(** do_lookup is lookup_hash for whoever may search the directory. *)
Lemma do_lookup_eq s1 nd n d ir i :
  directory s1 (nd_path nd) d ir i -> generic_permission (cur s1) i MAY_EXEC = 0 ->
  do_lookup nd n s1 = lookup_hash n (nd_path nd) s1.
Proof using.
  intros [Hd Hir Hi _ _] Hx. unfold do_lookup, lookup_hash.
  rewrite (M_bind_ok (get_dentry (nd_path nd)) _ _ _ _ (get_dentry_ok _ _ _ Hd)). rewrite Hir.
  erewrite (M_bind_ok (deref (Some ir))) by reflexivity. unfold inode_permission.
  erewrite (M_bind_ok (i ← get_inode ir; _)); cycle 1.
  { erewrite M_bind_ok by (by apply get_inode_ok). erewrite M_bind_ok by reflexivity. reflexivity. }
  rewrite Hx. change (negb (0 =? 0)) with false. cbn iota. unfold lookup_hash_.
  rewrite (M_bind_ok (get_dentry (nd_path nd)) _ _ _ _ (get_dentry_ok _ _ _ Hd)).
  destruct (d_lookup (nd_path nd) n s1) as [[[r|] s2]|f] eqn:E.
  - by rewrite !(M_bind_ok _ _ _ _ _ E).
  - rewrite !(M_bind_ok _ _ _ _ _ E).
    assert (s2 = s1) as ->.
    { unfold d_lookup in E. erewrite M_bind_ok in E by reflexivity.
      destruct (d_lookup_in _ _ _ _) as [x|]; [|by injection E].
      exfalso. apply M_bind_inv in E as (u & s3 & _ & E). discriminate. }
    unfold real_lookup. rewrite (M_bind_ok (get_dentry (nd_path nd)) _ _ _ _ (get_dentry_ok _ _ _ Hd)).
    rewrite Hir. erewrite (M_bind_ok (deref (Some ir))) by reflexivity.
    rewrite (M_bind_ok _ _ _ _ _ E). by erewrite (M_bind_ok (deref (Some ir))) by reflexivity.
  - by rewrite !(M_bind_fault _ _ _ _ E).
Qed.

Lemma at_fresh nd : fresh (at_nd nd) = fresh s.
Proof using. clear Hmnt Hfs. unfold at_nd, rooted. by repeat case_match. Qed.

Lemma lookup_at nd n :
  plain n -> is_dir s (nd_path nd) = true -> search_errno s (nd_path nd) = 0 ->
  match d_lookup_in (d_hash s) (dentries s) (nd_path nd) n with
  | Some r => do_lookup nd n (at_nd nd) = Ok (DPtr r, use r (at_nd nd)) /\ is_Some (dentries s !! r)
  | None =>
      if NAME_MAX <? Z.of_nat (length n)
      then exists s', do_lookup nd n (at_nd nd) = Ok (DErr (- ENAMETOOLONG), s') /\ quiet (at_nd nd) s'
      else exists pd, dentries (at_nd nd) !! nd_path nd = Some pd /\
             do_lookup nd n (at_nd nd) = Ok (DPtr (fresh s), looked_up (nd_path nd) pd n (at_nd nd))
  end.
Proof using Hok Hmem.
  intros Hn Hd Hx. rewrite <- (is_dir_at nd) in Hd. pose proof (at_ok nd) as Hok1. pose proof (at_mem nd) as Hm1.
  destruct (is_dir_directory _ _ Hok1 Hd) as (pd & pir & pi & Hdy & Hni & _).
  assert (Hx1 : generic_permission (cur (at_nd nd)) pi MAY_EXEC = 0).
  { rewrite (alike_node_inode _ _ _ (at_alike nd)) in Hni. unfold search_errno in Hx. rewrite Hni in Hx.
    by rewrite (al_cur _ _ (at_alike nd)). }
  rewrite (do_lookup_eq _ nd n _ _ _ Hdy Hx1).
  rewrite <- (alike_lookup _ _ _ _ (at_alike nd)).
  pose proof (lookup_allowed pointer stack _ t _ _ _ _ n Hok1 Hm1 Hdy Hn) as Hall.
  pose proof (lookup_refused pointer stack _ t _ _ _ _ n Hok1 Hm1 Hdy Hn) as Href.
  unfold lookup_errno in *. rewrite Hx1 in Hall, Href. change (negb (0 =? 0)) with false in *. cbn iota in *.
  destruct (d_lookup_in _ _ _ _) as [r|].
  - destruct (Hall eq_refl) as (_ & d & Hr & _ & _ & E).
    split; [etransitivity; [exact E|by rewrite use_insert]|]. apply (rooted_some nd), (use_is_Some (nd_path nd)). eauto.
  - destruct (NAME_MAX <? Z.of_nat (length n)).
    + by apply Href.
    + destruct (Hall eq_refl) as (_ & _ & E). exists pd. split; [apply Hdy|].
      etransitivity; [exact E|]. by rewrite at_fresh.
Qed.

(** A dentry that a lookup made is given back after the directory, or before. *)
Lemma put_dir_first nd n pd :
  is_Some (dentries s !! nd_path nd) -> dentries (at_nd nd) !! nd_path nd = Some pd ->
  exists pd', dentries (rooted nd) !! nd_path nd = Some pd' /\
    dput (nd_path nd) (looked_up (nd_path nd) pd n (at_nd nd))
    = Ok (tt, looked_up (nd_path nd) pd' n (rooted nd)).
Proof using Hok.
  clear Hmnt Hfs. intros Hs Hpd. pose proof (proj2 (rooted_some nd _) Hs) as [pd' Hp']. exists pd'. split; [done|].
  assert (pd = set_d_count (d_count pd' + 1) pd') as ->.
  { unfold at_nd in Hpd. simpl in Hpd. rewrite lookup_alter_eq, Hp' in Hpd. by injection Hpd. }
  destruct (fresh_child _ _ _ _ (rooted_ok nd) Hp') as (_ & Hlt & _ & _ & Hc).
  assert (Hfr : fresh (at_nd nd) = fresh (rooted nd)) by done.
  erewrite dput_held; cycle 1.
  { simpl. rewrite lookup_insert_ne by (rewrite <- ?Hfr; simpl; lia). apply lookup_insert_eq. }
  { simpl. lia. }
  unfold looked_up, with_dentries, at_nd, use. simpl. do 3 f_equal. apply map_eq. intros x.
  rewrite !lookup_insert, !lookup_alter. repeat case_decide; subst; try done; try lia.
  f_equal. unfold add_sub, set_d_subdirs, set_d_count. simpl. f_equal. lia.
Qed.

(** The dentry of a typed inode: no link to follow, and a lookup method exactly
    for directories. *)
Lemma inode_at s1 r :
  node_ok s1 t -> is_Some (dentries s1 !! r) ->
  exists d ir i, dentries s1 !! r = Some d /\ d_inode d = Some ir /\ inodes s1 !! ir = Some i /\
    follows (i_op i) = false /\ bool_decide (is_Some (op_lookup (i_op i))) = is_dir s1 r.
Proof using.
  clear Hok Hmem Hmnt Hfs. intros Hok1 [d Hd].
  destruct (nk_inode _ _ Hok1 _ _ Hd) as (ir & i & Hir & Hi & _ & _ & _ & _ & Ht).
  destruct (node_node_inode _ _ _ _ Hok1 Hd) as (ir' & i' & E1 & E2 & Hni & _). simplify_eq.
  exists d, ir, i. split_and!; try done; unfold is_dir; rewrite ?Hni.
  - by destruct Ht as [(_ & -> & _)|(_ & -> & _)].
  - destruct (S_ISDIR (i_mode i)) eqn:E.
    + destruct (typed_dir _ Ht E) as [-> _]. done.
    + destruct (typed_reg _ Ht E) as (_ & -> & _). done.
Qed.

Definition last_place (dir : bool) (p : nat) (c : list Z) : place := must_dir s dir (go s fs p c).

Lemma flag_dir flags : flag (Z.lor flags (Z.lor LOOKUP_FOLLOW LOOKUP_DIRECTORY)) LOOKUP_DIRECTORY = true.
Proof using.
  unfold flag. rewrite Z.land_lor_distr_l. change (Z.land (Z.lor LOOKUP_FOLLOW LOOKUP_DIRECTORY) _) with 2.
  destruct (Z.eqb_spec (Z.lor (Z.land flags LOOKUP_DIRECTORY) 2) 0) as [E|]; [|done].
  apply Z.lor_eq_0_iff in E as [_ E]. done.
Qed.

(** The end of last_component for a dentry that is there. *)
Lemma final_checks_ok flags nd :
  is_Some (dentries s !! nd_path nd) ->
  outcome (fun _ => True)
    (must_dir s (flag flags LOOKUP_DIRECTORY) (At (nd_path nd))) (final_checks flags nd (at_nd nd)).
Proof using Hok.
  clear Hmnt Hfs Hmem. intros Hs.
  destruct (inode_at _ (nd_path nd) (at_ok nd)) as (d & ir & i & Hd & Hir & Hi & _ & Hop);
    [by apply use_is_Some, rooted_some|].
  unfold final_checks. erewrite M_bind_ok by (by apply get_dentry_ok). rewrite Hir.
  erewrite M_bind_ok by (by apply get_inode_ok). rewrite Hop, is_dir_at. cbn [must_dir].
  destruct (flag flags LOOKUP_DIRECTORY && negb (is_dir s (nd_path nd))).
  - by apply stop_ok.
  - by exists nd.
Qed.

Lemma last_lookup_ok flags c slash nd :
  flag flags LOOKUP_PARENT = false -> plain c -> is_dir s (nd_path nd) = true -> search_errno s (nd_path nd) = 0 ->
  outcome (fun _ => True) (last_place (flag flags LOOKUP_DIRECTORY) (nd_path nd) c)
    (last_component fs follow flags c slash nd (at_nd nd)).
Proof using Hok Hmem Hfs Hmnt.
  intros Hf Hc Hd Hx. pose proof (is_dir_some _ Hd) as Hs. unfold last_component, last_place. rewrite Hf.
  case_bool_decide as E1.
  { subst c. cbn [go must_dir]. unfold go. rewrite bool_decide_eq_true_2 by done. cbn [must_dir].
    rewrite Hd, andb_false_r. by exists nd. }
  case_bool_decide as E2.
  { subst c. pose proof (dotdot_ok nd Hd) as H. destruct (go s fs (nd_path nd) [46; 46]) as [q|e|].
    - destruct H as (nd' & E & Hq & Hqd). erewrite M_bind_ok by exact E. cbn iota beta.
      cbn [must_dir]. rewrite Hqd, andb_false_r. exists nd'. split_and!; try done. by apply is_dir_some.
    - done.
    - destruct H as (nd' & E). erewrite M_bind_ok by exact E. by exists [], nd'. }
  unfold go. rewrite bool_decide_eq_false_2, bool_decide_eq_false_2 by done.
  pose proof (lookup_at nd c Hc Hd Hx) as H. destruct (d_lookup_in _ _ _ _) as [r|].
  - destruct H as [E Hr]. erewrite M_bind_ok by exact E. cbn iota.
    destruct (inode_at (use r (at_nd nd)) r) as (d & ir & i & H1 & H2 & H3 & H4 & _);
      [apply use_ok, at_ok|by apply use_is_Some, use_is_Some, rooted_some|].
    erewrite M_bind_ok by (by apply get_dentry_ok). rewrite H2. erewrite M_bind_ok; cycle 1.
    { erewrite M_bind_ok by (by apply get_inode_ok). unfold follow_on_final. rewrite H4. reflexivity. }
    cbn [andb]. cbn iota.
    unfold path_to_nameidata. erewrite M_bind_ok; cycle 1.
    { erewrite M_bind_ok by (by apply move_to). reflexivity. }
    by apply (final_checks_ok flags (set_path r nd)).
  - destruct (NAME_MAX <? Z.of_nat (length c)).
    + destruct H as (s' & E & Hq). erewrite M_bind_ok by exact E. by apply stop_ok.
    + assert (Hfr : fresh (rooted nd) = fresh s) by exact (at_fresh nd).
      destruct H as (pd & Hpd & E). erewrite M_bind_ok by exact E. cbn iota.
      erewrite M_bind_ok by (apply get_dentry_ok; simpl; rewrite Hfr; apply lookup_insert_eq).
      cbn [d_inode child_dentry]. erewrite M_bind_ok by reflexivity. cbn iota.
      destruct (put_dir_first nd c pd Hs Hpd) as (pd' & Hpd' & E').
      unfold path_to_nameidata. erewrite M_bind_ok; cycle 1.
      { erewrite M_bind_ok by exact E'. reflexivity. }
      unfold final_checks. erewrite M_bind_ok by (apply get_dentry_ok; simpl; rewrite Hfr; apply lookup_insert_eq).
      cbn [d_inode child_dentry]. unfold stop. cbn [nd_path set_path].
      erewrite M_bind_ok by (rewrite <- Hfr; eapply put_looked; [apply rooted_ok|done]).
      split; [done|]. exists (set_path (fresh s) nd), (forgotten c (rooted nd)). split; [done|apply forgotten_quiet].
Qed.

Lemma last_parent_ok flags c slash nd :
  flag flags LOOKUP_PARENT = true -> is_dir s (nd_path nd) = true ->
  outcome (fun nd => nd_last nd = c /\ nd_slash nd = slash /\ nd_last_type nd = last_type_of c)
    (At (nd_path nd)) (last_component fs follow flags c slash nd (at_nd nd)).
Proof using Hok.
  clear Hmnt Hfs Hmem. intros Hf Hd. unfold last_component. rewrite Hf.
  exists (set_last c slash (last_type_of c) nd). split_and!; try done. by apply is_dir_some.
Qed.

Lemma middle_ok Q (L : nat -> place) next_turn this name nd d ir :
  plain this -> is_dir s (nd_path nd) = true -> search_errno s (nd_path nd) = 0 ->
  dentries s !! nd_path nd = Some d -> d_inode d = Some ir ->
  (forall nd' d' ir', is_dir s (nd_path nd') = true -> dentries s !! nd_path nd' = Some d' ->
     d_inode d' = Some ir' -> outcome Q (L (nd_path nd')) (next_turn nd' ir' (at_nd nd'))) ->
  outcome Q (match must_dir s true (go s fs (nd_path nd) this) with At q => L q | x => x end)
    (middle_component fs follow next_turn this name nd ir (at_nd nd)).
Proof using Hok Hmem Hfs Hmnt.
  intros Hpl Hd Hx Hp Hir Hnext. assert (Hps : is_Some (dentries s !! nd_path nd)) by eauto.
  unfold middle_component. case_bool_decide as E1.
  { subst this. unfold go. rewrite bool_decide_eq_true_2 by done. cbn [must_dir andb]. rewrite Hd. by eapply Hnext. }
  case_bool_decide as E2.
  { subst this. pose proof (dotdot_ok nd Hd) as H. destruct (go s fs (nd_path nd) [46; 46]) as [q|e|].
    - destruct H as (nd' & E & <- & Hqd). erewrite M_bind_ok by exact E. cbn iota beta. cbn [must_dir andb].
      rewrite Hqd. cbn [negb]. destruct (is_dir_some _ Hqd) as [d' Hd'].
      destruct (nk_inode _ _ Hok _ _ Hd') as (ir' & _ & Hir' & _).
      destruct (alike_dentry _ _ _ _ (at_alike nd') Hd') as (k & Hk).
      erewrite M_bind_ok by (apply get_dentry_ok; exact Hk). cbn [d_inode set_d_count]. rewrite Hir'.
      erewrite M_bind_ok by reflexivity. by eapply Hnext.
    - done.
    - destruct H as (nd' & E). erewrite M_bind_ok by exact E. by exists name, nd'. }
  unfold go. rewrite bool_decide_eq_false_2, bool_decide_eq_false_2 by done.
  pose proof (lookup_at nd this Hpl Hd Hx) as H. destruct (d_lookup_in _ _ _ _) as [r|].
  - destruct H as [E Hr]. erewrite M_bind_ok by exact E. cbn iota.
    destruct (inode_at (use r (at_nd nd)) r) as (d1 & ir1 & i1 & H1 & H2 & H3 & H4 & H5);
      [apply use_ok, at_ok|by apply use_is_Some, use_is_Some, rooted_some|].
    erewrite M_bind_ok by (by apply get_dentry_ok). rewrite H2.
    erewrite M_bind_ok by (by apply get_inode_ok). rewrite H4. unfold path_to_nameidata.
    erewrite M_bind_ok; cycle 1.
    { erewrite M_bind_ok by (by apply move_to). reflexivity. }
    assert (is_dir (use r (at_nd nd)) r = is_dir s r) as Ed.
    { unfold is_dir. by rewrite (alike_node_inode _ _ _ (use_alike _ _)), (alike_node_inode _ _ _ (at_alike nd)). }
    rewrite H5, Ed. cbn [must_dir andb]. destruct (is_dir s r) eqn:Erd; cbn [negb].
    + destruct Hr as [d0 Hd0]. apply (Hnext (set_path r nd) d0 ir1); try done.
      destruct (alike_dentry _ _ _ _ (at_alike nd) Hd0) as (k & Hk).
      destruct (alike_dentry _ _ _ _ (use_alike r (at_nd nd)) Hk) as (k' & Hk'). by simplify_eq.
    + by apply (stop_ok _ (set_path r nd)).
  - destruct (NAME_MAX <? Z.of_nat (length this)).
    + destruct H as (s' & E & Hq). erewrite M_bind_ok by exact E. by apply stop_ok.
    + assert (Hfr : fresh (at_nd nd) = fresh s) by exact (at_fresh nd).
      destruct H as (pd & Hpd & E). erewrite M_bind_ok by exact E. cbn iota.
      erewrite M_bind_ok by (apply get_dentry_ok; rewrite <- Hfr; apply lookup_insert_eq).
      cbn [d_inode child_dentry].
      erewrite M_bind_ok by (rewrite <- Hfr; eapply put_looked; [apply at_ok|done]).
      apply stop_ok; [done|done|apply forgotten_quiet].
Qed.

(** What the loop does in a directory before it looks at the component. *)
Lemma searched nd d ir :
  is_dir s (nd_path nd) = true -> dentries s !! nd_path nd = Some d -> d_inode d = Some ir ->
  exists i, inodes (at_nd nd) !! ir = Some i /\
    exec_permission_lite (cur (at_nd nd)) i = search_errno s (nd_path nd).
Proof using Hok.
  clear Hmnt Hfs Hmem. intros Hd Hp Hir. unfold search_errno, is_dir in *.
  destruct (node_inode s (nd_path nd)) as [i|] eqn:Hni; [|done]. exists i.
  destruct (node_inode_inv _ _ _ Hni) as (? & ? & ? & ? & ? & _). simplify_eq.
  rewrite (al_inodes _ _ (at_alike nd)), (al_cur _ _ (at_alike nd)). split; [done|]. by apply exec_lite.
Qed.

Definition last_flags (flags : Z) (slash : bool) : Z :=
  if slash then Z.lor flags (Z.lor LOOKUP_FOLLOW LOOKUP_DIRECTORY) else flags.

Lemma walk_loop_ok Q final flags fuel : forall c0 name0 nd d ir,
  let name := c0 :: name0 in
  c0 <> 47 -> (length name <= fuel)%nat -> Forall (fun c => c <> 0) name ->
  is_dir s (nd_path nd) = true -> dentries s !! nd_path nd = Some d -> d_inode d = Some ir ->
  (forall nd c, plain c -> list.last (components name) = Some c ->
     is_dir s (nd_path nd) = true -> search_errno s (nd_path nd) = 0 ->
     outcome Q (final (nd_path nd) c)
       (last_component fs follow (last_flags flags (ends_slash name)) c (ends_slash name) nd (at_nd nd))) ->
  outcome Q (lead s fs final (nd_path nd) (components name))
    (walk_loop fs follow fuel flags name nd ir (at_nd nd)).
Proof using Hok Hmem Hfs Hmnt.
  induction fuel as [|fuel IH]; intros c0 name0 nd d ir name Hc0 Hl Hnz Hd Hp Hir Hlast; [simpl in Hl; lia|].
  destruct (searched nd d ir Hd Hp Hir) as (i & Hi & Ex). cbn [walk_loop].
  erewrite M_bind_ok by (by apply get_inode_ok). erewrite M_bind_ok by reflexivity. rewrite Ex.
  assert (Hps : is_Some (dentries s !! nd_path nd)) by eauto.
  destruct (component_at name) as [this rest] eqn:Ec.
  destruct (component_at_spec c0 name0 this rest Hc0 Ec) as (Hne & Hsl & Hlen & Hz & Hcs).
  destruct (Hz Hnz) as [Hz1 Hz2]. clear Hz.
  assert (Hpl : plain this).
  { split; [done|]. rewrite List.Forall_forall in *. intros x Hx. split; [by apply Hz1|].
    intros ->. by apply Hsl, list_elem_of_In. }
  assert (Hstop : forall cs, cs <> [] -> search_errno s (nd_path nd) <> 0 ->
    outcome Q (lead s fs final (nd_path nd) cs) (stop (search_errno s (nd_path nd)) nd (at_nd nd))).
  { intros [|w ws] Hw Hse; [done|]. cbn [lead]. rewrite (proj2 (Z.eqb_neq _ 0)) by done. by apply stop_ok. }
  destruct (Z.eqb_spec (search_errno s (nd_path nd)) 0) as [Hx|Hx]; cbn [negb]; [clear Hstop|].
  2: { apply Hstop; [|done]. destruct (components_cons c0 name0 Hc0) as (w & ws & Ew). unfold name. by rewrite Ew. }
  assert (Hone : forall slash, components name = [this] -> ends_slash name = slash ->
    outcome Q (lead s fs final (nd_path nd) (components name))
      (last_component fs follow (last_flags flags slash) this slash nd (at_nd nd))).
  { intros slash E1 <-. rewrite E1. cbn [lead]. rewrite Hx. apply Hlast; try done. by rewrite E1. }
  destruct rest as [|x rest]; [destruct Hcs as [E1 E2]; by apply (Hone false)|].
  destruct Hcs as [Esk Hcs]. rewrite Esk in Hlen, Hz2. destruct (skip_slashes rest) as [|c r] eqn:Es.
  { destruct Hcs as [E1 E2]. by apply (Hone true). }
  cbn [length Nat.eqb]. destruct Hcs as [E1 E2]. pose proof (skip_head _ _ _ Es) as Hc.
  unfold name in *. rewrite E1. destruct (components_cons c r Hc) as (w & ws & Ew).
  assert (Hgo : forall nd' d' ir', is_dir s (nd_path nd') = true -> dentries s !! nd_path nd' = Some d' ->
    d_inode d' = Some ir' ->
    outcome Q (lead s fs final (nd_path nd') (components (c :: r)))
      (walk_loop fs follow fuel flags (c :: r) nd' ir' (at_nd nd'))).
  { intros nd' d' ir' H1 H2 H3. apply (IH c r nd' d' ir'); try done; [simpl in *; lia|]. rewrite <- E2.
    intros nd2 c2 Hc2 Hl2. apply Hlast; [done|]. by rewrite E1, Ew, last_cons_cons, <- Ew. }
  cbn [lead]. rewrite Hx, Ew. change (negb (0 =? 0)) with false. cbn iota. rewrite <- Ew.
  by apply (middle_ok Q (fun q => lead s fs final q (components (c :: r))) _ this (c :: r) nd d ir).
Qed.

(** __link_path_walk, from any directory. *)
Lemma inner_walk_ok Q final flags name nd :
  Forall (fun c => c <> 0) name -> is_dir s (nd_path nd) = true -> (components name = [] -> Q nd) ->
  (forall nd c, plain c -> list.last (components name) = Some c ->
     is_dir s (nd_path nd) = true -> search_errno s (nd_path nd) = 0 ->
     outcome Q (final (nd_path nd) c)
       (last_component fs follow (last_flags flags (ends_slash name)) c (ends_slash name) nd (at_nd nd))) ->
  outcome Q (lead s fs final (nd_path nd) (components name))
    (link_path_walk_ fs follow flags name nd (at_nd nd)).
Proof using Hok Hmem Hfs Hmnt.
  intros Hnz Hd HQ Hlast. destruct (is_dir_some _ Hd) as [d Hp]. unfold link_path_walk_.
  destruct (skip_suffix name) as (pre & Epre & _). rewrite <- components_skip in *.
  destruct (skip_slashes name) as [|c r] eqn:Es.
  { cbn [length Nat.eqb]. exists nd. split; [done|]. split; [done|]. split; [by exists d|]. by apply HQ. }
  cbn [length Nat.eqb]. destruct (nk_inode _ _ Hok _ _ Hp) as (ir & _ & Hir & _).
  destruct (alike_dentry _ _ _ _ (at_alike nd) Hp) as (k & Hk).
  erewrite M_bind_ok by (apply get_dentry_ok; exact Hk). cbn [d_inode set_d_count]. rewrite Hir.
  erewrite M_bind_ok by reflexivity. pose proof (skip_head _ _ _ Es) as Hc.
  assert (Ee : ends_slash name = ends_slash (c :: r)).
  { unfold ends_slash. by rewrite Epre, last_app_cons. }
  apply (walk_loop_ok Q final flags (S (length r)) c r nd d ir); try done.
  - rewrite Epre in Hnz. by apply Forall_app in Hnz as [_ Hnz].
  - by rewrite <- Ee.
Qed.
End walk.

(** ** From the name to the place *)

Lemma alike_is_dir s s' r : alike s s' -> is_dir s' r = is_dir s r.
Proof. intros Ha. unfold is_dir. by rewrite (alike_node_inode _ _ _ Ha). Qed.

Lemma alike_search s s' r : alike s s' -> search_errno s' r = search_errno s r.
Proof. intros Ha. unfold search_errno. by rewrite (alike_node_inode _ _ _ Ha), (al_cur _ _ Ha). Qed.

Lemma alike_go s s' fs p c : alike s s' -> go s' fs p c = go s fs p c.
Proof.
  intros Ha. unfold go. rewrite (alike_lookup _ _ _ _ Ha).
  assert (parent_of s' p = parent_of s p) as ->; [|done]. unfold parent_of.
  destruct (dentries s !! p) as [d|] eqn:Hd; [by destruct (alike_dentry _ _ _ _ Ha Hd) as (k & ->)|].
  pose proof (al_dentries _ _ Ha p) as E. rewrite Hd in E. by destruct (dentries s' !! p).
Qed.

Lemma alike_must_dir s s' b x : alike s s' -> must_dir s' b x = must_dir s b x.
Proof. intros Ha. destruct x; try done. cbn [must_dir]. by rewrite (alike_is_dir _ _ _ Ha). Qed.

Lemma alike_lead s s' fs final final' cs : forall p,
  alike s s' -> (forall p c, final' p c = final p c) -> lead s' fs final' p cs = lead s fs final p cs.
Proof.
  induction cs as [|c cs IH]; intros p Ha Hf; [done|]. cbn [lead].
  rewrite (alike_search _ _ _ Ha), (alike_go _ _ _ _ _ Ha), (alike_must_dir _ _ _ _ Ha), Hf.
  destruct (negb _); [done|]. destruct cs as [|c' cs]; [done|].
  destruct (must_dir s true (go s fs p c)); [by apply IH|done|done].
Qed.

(** The errors of a walk. *)
Definition walk_error (x : place) : Prop := x <> Fails (- ESTALE).

Lemma search_errors s r : search_errno s r = 0 \/ search_errno s r = - EACCES.
Proof.
  unfold search_errno. destruct (node_inode s r) as [i|]; [|by left]. unfold generic_permission.
  assert (acl_permission_check (cur s) i MAY_EXEC = 0 \/ acl_permission_check (cur s) i MAY_EXEC = - EACCES)
    as [-> | ->]; [unfold acl_permission_check; destruct (_ =? 0); auto|by left|].
  change (negb (- EACCES =? - EACCES)) with false. cbn iota. repeat case_match; auto.
Qed.

Lemma go_error s fs b p c : walk_error (must_dir s b (go s fs p c)).
Proof.
  unfold walk_error, go. repeat case_match; cbn [must_dir]; repeat case_match;
    intros E; first [discriminate|injection E as E; vm_compute in E; discriminate].
Qed.

Lemma lead_error s fs final cs : forall p,
  (forall p c, walk_error (final p c)) -> walk_error (lead s fs final p cs).
Proof.
  induction cs as [|c cs IH]; intros p Hf; [done|]. cbn [lead].
  destruct (search_errors s p) as [-> | ->]; [|done]. change (negb (0 =? 0)) with false. cbn iota.
  destruct cs as [|c' cs]; [done|]. pose proof (go_error s fs true p c) as Hg.
  destruct (must_dir s true (go s fs p c)); [by apply IH|done|done].
Qed.

(** Where a walk starts, for a name and an open directory or AT_FDCWD. *)
Definition start (s : kstate) (fs : fs_struct) (dfd : option nat) (name : list Z) : place :=
  if absolute name then match fs_root fs with Some r => At r | None => Outside end
  else match dfd with
       | None => match fs_pwd fs with Some r => At r | None => Outside end
       | Some r =>
           if negb (is_dir s r) then Fails (- ENOTDIR)
           else if negb (search_errno s r =? 0) then Fails (search_errno s r) else At r
       end.

(** The place of a name. *)
Definition named (s : kstate) (fs : fs_struct) (dfd : option nat) (final : nat -> list Z -> place)
    (name : list Z) : place :=
  if negb (getname name =? 0) then Fails (getname name)
  else match start s fs dfd name with
       | At p => lead s fs final p (components name)
       | x => x
       end.

(** The task's root and working directory are directories of the node. *)
Record fs_ok (s : kstate) (t : tree) (fs : fs_struct) : Prop := {
  fo_mnt : mnt_root fs = troot t;
  fo_root : forall r, fs_root fs = Some r -> is_dir s r = true;
  fo_pwd : forall r, fs_pwd fs = Some r -> is_dir s r = true;
}.

Section lookup.
Variable pointer : block -> block * nat -> Z -> va -> printf_spec -> res (block * nat).
Context (stack : autos) (fs : fs_struct) (follow : nat -> nameidata -> M walked).
#[local] Instance lookup_ops : InodeOps := wjfs_ops pointer stack.

Lemma use_rooted s r nd : use r (rooted fs s nd) = rooted fs (use r s) nd.
Proof using. unfold rooted. repeat case_match; try done. apply use_comm. Qed.

Lemma use_at s r nd : use r (at_nd fs s nd) = at_nd fs (use r s) nd.
Proof using. unfold at_nd. rewrite use_comm. by rewrite use_rooted. Qed.

Context (s : kstate) (t : tree) (Hok : node_ok s t) (Hmem : mem s = []) (Hfs : fs_ok s t fs).

(** What a walk leaves that gave back all but the reference on its result. *)
Definition arrives (Q : nameidata -> Prop) (x : place) (r : res (walked * kstate)) : Prop :=
  match x with
  | At q => exists nd, r = Ok (Walked 0 nd, use q s) /\ nd_path nd = q /\ is_Some (dentries s !! q) /\ Q nd
  | Fails e => e <> 0 /\ exists nd s', r = Ok (Walked e nd, s') /\ quiet s s'
  | Outside => exists rest nd, r = Ok (Leaves rest nd, s)
  end.

Context (Q : nameidata -> Prop) (final : nat -> list Z -> place) (flags : Z) (name : list Z).
Context (Hnz : Forall (fun c => c <> 0) name) (Hfe : forall p c, walk_error (final p c)).
Context (Hlast : forall s1 nd c, node_ok s1 t -> mem s1 = [] -> alike s s1 -> plain c ->
  list.last (components name) = Some c -> is_dir s1 (nd_path nd) = true -> search_errno s1 (nd_path nd) = 0 ->
  outcome fs s1 Q (final (nd_path nd) c)
    (last_component fs follow (last_flags flags (ends_slash name)) c (ends_slash name) nd (at_nd fs s1 nd))).

Lemma link_walk_ok nd :
  is_dir s (nd_path nd) = true -> (components name = [] -> Q nd) ->
  outcome fs s Q (lead s fs final (nd_path nd) (components name))
    (link_path_walk fs follow flags name nd (at_nd fs s nd)).
Proof using Hok Hmem Hfs Hnz Hfe Hlast.
  intros Hd HQ. set (p := nd_path nd) in *. set (s1 := use p s).
  pose proof (is_dir_some s t Hok p Hd) as Hp.
  assert (Ha : alike s s1) by apply use_alike.
  assert (Hw : outcome fs s1 Q (lead s fs final p (components name))
                 (link_path_walk_ fs follow flags name nd (at_nd fs s1 nd))).
  { rewrite <- (alike_lead s s1 fs final final) by done. destruct Hfs as [Hm Hr _].
    apply (inner_walk_ok pointer stack fs follow s1 t); try done.
    - by apply use_ok.
    - intros r Er. rewrite (alike_is_dir _ _ _ Ha). by apply Hr.
    - by rewrite (alike_is_dir _ _ _ Ha).
    - intros nd' c Hc Hl Hd' Hx. apply Hlast; try done. by apply use_ok. }
  pose proof (lead_error s fs final (components name) p Hfe) as Her.
  unfold link_path_walk. erewrite M_bind_ok; cycle 1.
  { eapply dget_use; [by apply at_ok|]. by apply use_is_Some, rooted_some. }
  rewrite use_at. fold p s1. destruct (lead s fs final p (components name)) as [q|e|].
  - destruct Hw as (nd' & E & Hq & Hqs & HQ'). erewrite M_bind_ok by exact E. cbn iota.
    change (0 =? - ESTALE) with false. cbn iota. erewrite M_bind_ok by reflexivity.
    exists nd'. split; [|split_and!; [done|by apply (use_is_Some p)|done]].
    unfold s1. rewrite <- use_at. erewrite M_bind_ok; [reflexivity|].
    eapply dput_use; [by apply at_ok|]. by apply use_is_Some, rooted_some.
  - destruct Hw as (He & nd' & s' & E & Hq). split; [done|]. erewrite M_bind_ok by exact E. cbn iota.
    rewrite (proj2 (Z.eqb_neq e _)) by (intros ->; by apply Her). erewrite M_bind_ok by reflexivity.
    unfold s1 in Hq. rewrite <- use_rooted in Hq.
    destruct (dput_quiet (rooted fs s nd') t (rooted_ok fs s t Hok nd') p s') as (s2 & E2 & Hq2 & _);
      [by apply rooted_some|done|].
    exists nd', s2. split; [|done]. by erewrite M_bind_ok by exact E2.
  - destruct Hw as (rest & nd' & E). erewrite M_bind_ok by exact E. cbn iota. erewrite M_bind_ok by reflexivity.
    exists rest, nd'. unfold s1. rewrite <- use_rooted. erewrite M_bind_ok; [reflexivity|].
    eapply dput_use; [by apply rooted_ok|]. by apply rooted_some.
Qed.

(** do_path_lookup gives back the reference set_root took. *)
Lemma put_root_ok s0 nd s' :
  node_ok s0 t -> (forall r, fs_root fs = Some r -> is_Some (dentries s0 !! r)) -> quiet (rooted fs s0 nd) s' ->
  exists s'',
    (if nd_root nd then match fs_root fs with Some r => dput r | None => mret tt end else mret tt) s'
    = Ok (tt, s'') /\ quiet s0 s'' /\ (s' = rooted fs s0 nd -> s'' = s0).
Proof using.
  clear. intros Hok Hr. unfold rooted. destruct (nd_root nd); [|by exists s'].
  destruct (fs_root fs) as [r|]; [|by exists s']. intros Hq. by apply (dput_quiet s0 t Hok r); [apply Hr|].
Qed.

Lemma rooted_walk_ok nd x (m : M walked) :
  outcome fs s Q x (m (at_nd fs s nd)) ->
  arrives Q x ((w ← m;
    let nd := match w with Walked _ nd => nd | Leaves _ nd => nd end in
    (if nd_root nd then match fs_root fs with Some r => dput r | None => mret tt end else mret tt);;
    mret w) (at_nd fs s nd)).
Proof using Hok Hfs.
  clear Hfe Hlast Hnz Hmem. intros H.
  assert (Hroot : forall r, fs_root fs = Some r -> is_Some (dentries s !! r)).
  { intros r Er. apply (is_dir_some s t Hok). by apply (fo_root _ _ _ Hfs). }
  destruct x as [q|e|].
  - destruct H as (nd' & E & Hq & Hs & HQ). exists nd'. split; [|done]. erewrite M_bind_ok by exact E. cbv zeta.
    destruct (put_root_ok (use q s) nd' (at_nd fs s nd')) as (s2 & E2 & _ & Es); [by apply use_ok| | |].
    + intros r Er. by apply use_is_Some, Hroot.
    + rewrite <- use_rooted. unfold at_nd. by rewrite Hq.
    + erewrite M_bind_ok by exact E2. rewrite Es; [done|]. rewrite <- use_rooted. unfold at_nd. by rewrite Hq.
  - destruct H as (He & nd' & s' & E & Hq). split; [done|]. erewrite M_bind_ok by exact E. cbv zeta.
    destruct (put_root_ok s nd' s' Hok Hroot Hq) as (s2 & E2 & Hq2 & _).
    exists nd', s2. split; [|done]. by erewrite M_bind_ok by exact E2.
  - destruct H as (rest & nd' & E). exists rest, nd'. erewrite M_bind_ok by exact E. cbv zeta.
    destruct (put_root_ok s nd' (rooted fs s nd') Hok Hroot) as (s2 & E2 & _ & Es); [done|].
    erewrite M_bind_ok by exact E2. by rewrite Es.
Qed.

Context (HQ : forall p b, components name = [] -> Q (init_nd p b)).
Context (dfd : option nat) (Hdfd : forall r, dfd = Some r -> is_Some (dentries s !! r)).

Lemma dget_start r b :
  is_dir s r = true -> b = false \/ fs_root fs = Some r ->
  ((if b then dget r else mret tt);; dget r;; mret (0, Some (init_nd r b))) s
  = Ok ((0, Some (init_nd r b)), at_nd fs s (init_nd r b)).
Proof using Hok.
  clear Hfe Hlast Hnz Hmem Hfs HQ Hdfd. intros Hd Hb. pose proof (is_dir_some s t Hok r Hd) as Hr.
  unfold at_nd, rooted. cbn [init_nd nd_root nd_path]. destruct b.
  - destruct Hb as [|Hb]; [done|]. rewrite Hb. erewrite M_bind_ok by (by eapply dget_use).
    erewrite M_bind_ok by (eapply dget_use; [by apply use_ok|by apply use_is_Some]). done.
  - erewrite M_bind_ok by reflexivity. by erewrite M_bind_ok by (by eapply dget_use).
Qed.

Lemma path_init_ok :
  match start s fs dfd name with
  | At p => exists nd, path_init fs dfd name s = Ok ((0, Some nd), at_nd fs s nd) /\ nd_path nd = p /\
      is_dir s p = true /\ (components name = [] -> Q nd)
  | Fails e => e <> 0 /\ path_init fs dfd name s = Ok ((e, None), s)
  | Outside => path_init fs dfd name s = Ok ((0, None), s)
  end.
Proof using Hok Hfs HQ Hdfd.
  clear Hfe Hlast Hnz Hmem. pose proof Hfs as [_ Hroot Hpwd]. unfold start, path_init.
  destruct (absolute name).
  { destruct (fs_root fs) as [r|] eqn:Er; [|done]. exists (init_nd r true).
    split; [apply (dget_start r true); auto|]. auto. }
  unfold path_init_dfd. destruct dfd as [r|].
  - destruct (Hdfd r eq_refl) as [d Hd].
    destruct (node_node_inode _ _ _ _ Hok Hd) as (ir & i & Hir & Hi & Hni & _).
    erewrite M_bind_ok by (by apply get_dentry_ok). rewrite Hir. erewrite M_bind_ok by reflexivity.
    erewrite M_bind_ok by (by apply get_inode_ok).
    assert (Ed : is_dir s r = S_ISDIR (i_mode i)) by (unfold is_dir; by rewrite Hni).
    assert (Es : search_errno s r = generic_permission (cur s) i MAY_EXEC) by (unfold search_errno; by rewrite Hni).
    rewrite <- Ed. destruct (is_dir s r) eqn:E; cbn [negb]; [|done].
    unfold inode_permission. erewrite M_bind_ok; cycle 1.
    { erewrite M_bind_ok by (by apply get_inode_ok). erewrite M_bind_ok by reflexivity. reflexivity. }
    rewrite <- Es. destruct (Z.eqb_spec (search_errno s r) 0) as [H0|H0]; cbn [negb]; [|done].
    exists (init_nd r false). split; [by apply (dget_start r false); auto|]. auto.
  - destruct (fs_pwd fs) as [r|] eqn:Er; [|done]. exists (init_nd r false).
    split; [by apply (dget_start r false); auto|]. auto.
Qed.

Lemma named_ok :
  getname name = 0 ->
  arrives Q (named s fs dfd final name) (do_path_lookup fs follow dfd name flags s).
Proof using Hok Hmem Hfs Hnz Hfe Hlast HQ Hdfd.
  intros Hg. unfold named, do_path_lookup. rewrite Hg. change (negb (0 =? 0)) with false. cbn iota.
  pose proof path_init_ok as Hst. destruct (start s fs dfd name) as [p|e|].
  - destruct Hst as (nd & E & <- & Hd & HQ'). erewrite M_bind_ok by exact E. cbn iota beta.
    by apply rooted_walk_ok, link_walk_ok.
  - destruct Hst as [He E]. split; [done|]. erewrite M_bind_ok by exact E. cbn iota beta.
    rewrite (proj2 (Z.eqb_neq e 0)) by done. by exists no_nd, s.
  - erewrite M_bind_ok by exact Hst. by exists name, no_nd.
Qed.
End lookup.

Lemma last_flags_dir flags slash :
  flag (last_flags flags slash) LOOKUP_DIRECTORY = flag flags LOOKUP_DIRECTORY || slash.
Proof. unfold last_flags. destruct slash; [by rewrite flag_dir, orb_true_r|by rewrite orb_false_r]. Qed.

Lemma last_flags_parent flags slash : flag (last_flags flags slash) LOOKUP_PARENT = flag flags LOOKUP_PARENT.
Proof.
  unfold last_flags, flag. destruct slash; [|done]. rewrite Z.land_lor_distr_l.
  change (Z.land (Z.lor LOOKUP_FOLLOW LOOKUP_DIRECTORY) _) with 0. by rewrite Z.lor_0_r.
Qed.

Lemma path_lookup_ok pointer stack fs follow s t dfd name flags :
  node_ok s t -> mem s = [] -> fs_ok s t fs -> Forall (fun c => c <> 0) name ->
  (forall r, dfd = Some r -> is_Some (dentries s !! r)) -> flag flags LOOKUP_PARENT = false ->
  arrives s (fun _ => True)
    (named s fs dfd (last_place fs s (flag flags LOOKUP_DIRECTORY || ends_slash name)) name)
    (@user_path_at (wjfs_ops pointer stack) fs follow dfd name flags s).
Proof.
  intros Hok Hm Hfs Hnz Hdfd Hfl.
  unfold user_path_at. destruct (Z.eqb_spec (getname name) 0) as [Hg|Hg]; cbn [negb]; cycle 1.
  { unfold named. rewrite (proj2 (Z.eqb_neq _ 0)) by done. split; [done|]. by exists no_nd, s. }
  rewrite Hfl. apply (named_ok pointer stack fs follow s t); try done.
  - intros p c. apply go_error.
  - intros s1 nd c Hok1 Hm1 Ha Hc _ Hd Hx.
    assert (Hfs1 : forall r, fs_root fs = Some r -> is_dir s1 r = true).
    { intros r Hr. rewrite (alike_is_dir _ _ _ Ha). by apply (fo_root _ _ _ Hfs). }
    pose proof (last_lookup_ok pointer stack fs follow s1 t Hok1 Hm1 (fo_mnt _ _ _ Hfs) Hfs1
      (last_flags flags (ends_slash name)) c (ends_slash name) nd) as H.
    rewrite last_flags_parent, last_flags_dir in H. specialize (H Hfl Hc Hd Hx).
    unfold last_place in *. by rewrite (alike_must_dir _ _ _ _ Ha), (alike_go _ _ _ _ _ Ha) in H.
Qed.

(** C7: user_path_at of any name by any caller finds what the components name, or the
    error of the component that stops it, or leaves the file system at the point
    the components do.  It takes one reference, on what it found, and with that given
    back the node is as before. *)
Theorem path_lookup_total pointer stack fs follow s t dfd name flags :
  node_ok s t -> mem s = [] -> fs_ok s t fs -> Forall (fun c => c <> 0) name ->
  (forall r, dfd = Some r -> is_Some (dentries s !! r)) -> flag flags LOOKUP_PARENT = false ->
  let x := named s fs dfd (last_place fs s (flag flags LOOKUP_DIRECTORY || ends_slash name)) name in
  arrives s (fun _ => True) x (@user_path_at (wjfs_ops pointer stack) fs follow dfd name flags s) /\
  (forall r, x = At r -> dput r (use r s) = Ok (tt, s)).
Proof.
  intros Hok Hm Hfs Hnz Hdfd Hfl x.
  pose proof (path_lookup_ok pointer stack fs follow s t dfd name flags Hok Hm Hfs Hnz Hdfd Hfl) as H.
  split; [done|]. intros r Er. fold x in H. rewrite Er in H. destruct H as (nd & _ & _ & Hr & _).
  by apply (dput_use s t).
Qed.

(** What user_path_parent says of the last component. *)
Definition last_said (name : list Z) (nd : nameidata) : Prop :=
  match list.last (components name) with
  | Some c => nd_last nd = c /\ nd_slash nd = ends_slash name /\ nd_last_type nd = last_type_of c
  | None => nd_last_type nd = LAST_ROOT
  end.

(** The directory that holds, or may hold, the last component. *)
Definition parent_place (s : kstate) (fs : fs_struct) (dfd : option nat) (name : list Z) : place :=
  named s fs dfd (fun p _ => At p) name.

Lemma parent_last_ok pointer stack fs follow s t name nd c :
  node_ok s t -> list.last (components name) = Some c -> is_dir s (nd_path nd) = true ->
  outcome fs s (last_said name) (At (nd_path nd))
    (@last_component (wjfs_ops pointer stack) fs follow (last_flags LOOKUP_PARENT (ends_slash name)) c (ends_slash name)
       nd (at_nd fs s nd)).
Proof.
  intros Hok Hl Hd.
  destruct (last_parent_ok pointer stack fs follow s t Hok (last_flags LOOKUP_PARENT (ends_slash name)) c
    (ends_slash name) nd) as (nd' & E & Hp & Hs & H1 & H2 & H3); [by rewrite last_flags_parent|done|].
  exists nd'. split_and!; try done. unfold last_said. by rewrite Hl.
Qed.

Lemma parent_lookup pointer stack fs follow s t dfd name :
  node_ok s t -> mem s = [] -> fs_ok s t fs -> Forall (fun c => c <> 0) name ->
  (forall r, dfd = Some r -> is_Some (dentries s !! r)) ->
  arrives s (last_said name) (parent_place s fs dfd name)
    (@user_path_parent (wjfs_ops pointer stack) fs follow dfd name s).
Proof.
  intros Hok Hm Hfs Hnz Hdfd. unfold user_path_parent.
  destruct (Z.eqb_spec (getname name) 0) as [Hg|Hg]; cbn [negb]; cycle 1.
  { unfold parent_place, named. rewrite (proj2 (Z.eqb_neq _ 0)) by done. split; [done|]. by exists no_nd, s. }
  apply (named_ok pointer stack fs follow s t); try done.
  - intros s1 nd c Hok1 _ _ _ Hl Hd _. by apply (parent_last_ok pointer stack fs follow s1 t).
  - intros p b Hc. unfold last_said. by rewrite Hc.
Qed.

(** The directory of a place is a directory, which the caller may search. *)
Lemma lead_dir s t fs cs : forall p q,
  node_ok s t -> fs_ok s t fs -> is_dir s p = true -> lead s fs (fun p _ => At p) p cs = At q ->
  is_dir s q = true /\ (cs <> [] -> search_errno s q = 0).
Proof.
  induction cs as [|c cs IH]; intros p q Hok Hfs Hp; cbn [lead].
  - intros [= <-]. done.
  - destruct (Z.eqb_spec (search_errno s p) 0) as [Hx|]; cbn [negb]; [|done].
    destruct cs as [|c' cs]; [intros [= <-]; done|].
    destruct (go s fs p c) as [r| |]; cbn [must_dir andb]; [|done|done].
    destruct (is_dir s r) eqn:Hr; cbn [negb]; [|done]. intros H.
    destruct (IH r q Hok Hfs Hr H) as [H1 H2]. split; [done|]. intros _. by apply H2.
Qed.

Lemma parent_dir_of s t fs dfd name q :
  node_ok s t -> fs_ok s t fs -> parent_place s fs dfd name = At q ->
  is_dir s q = true /\ (components name <> [] -> search_errno s q = 0).
Proof.
  intros Hok Hfs. unfold parent_place, named. destruct (negb _); [done|].
  assert (Hst : forall p, start s fs dfd name = At p -> is_dir s p = true).
  { intros p. unfold start. destruct Hfs as [_ Hr Hp]. destruct (absolute name).
    - destruct (fs_root fs); [|done]. intros [= <-]. auto.
    - destruct dfd as [r|]; [|destruct (fs_pwd fs); [|done]; intros [= <-]; auto].
      destruct (is_dir s r) eqn:E; cbn [negb]; [|done]. destruct (negb _); [done|]. by intros [= <-]. }
  destruct (start s fs dfd name) as [p| |]; [|done|done]. by apply (lead_dir s t), Hst.
Qed.
