(* ===== verification/Calls.v ===== *)
(** * System calls from the path name on

    mknodat, mkdirat, unlinkat and rmdir as a program makes them: any path name,
    any caller, from any working directory or open directory.  The result is a
    function of the node and the caller, a call that fails changes nothing, and
    every reference the walk took is given back. *)

From S2P Require Import Prelude KString KScan KFormat Wire Ksocket MapTable Vfs Syscalls Tree.
From S2P Require Import Umount Ops PageIo Server Node Inv Remove Serve Contents Options.
From S2P Require Import Mount Cluster View Local LocalDir Results Walk Uses Path FileData.

(** ** The last component *)

Lemma components_plain name c : Forall (fun b => b <> 0) name -> c ∈ components name -> plain c.
Proof.
  intros Hnz Hc. unfold components in Hc. apply list_elem_of_In, List.filter_In in Hc as [Hc He].
  split; [by destruct c|]. apply list_elem_of_In in Hc. clear He. revert c Hc.
  induction name as [|b name IH]; cbn [fields]; intros c Hc.
  { apply list_elem_of_singleton in Hc. by subst. }
  apply Forall_cons_iff in Hnz as [Hb Hnz]. specialize (IH Hnz). destruct (Z.eqb_spec b 47) as [->|Hb47].
  - apply elem_of_cons in Hc as [->|Hc]; [done|by apply IH].
  - destruct (fields name) as [|w ws]; [apply list_elem_of_singleton in Hc; subst; by repeat constructor|].
    apply elem_of_cons in Hc as [->|Hc]; [|apply IH; by right]. constructor; [done|]. apply IH. by left.
Qed.

(** The name a call makes or removes: the last component, unless it is "." or "..". *)
Definition last_norm (name : list Z) : option (list Z) :=
  c ← list.last (components name);
  if bool_decide (last_type_of c = LAST_NORM) then Some c else None.

Lemma last_norm_plain name c : Forall (fun b => b <> 0) name -> last_norm name = Some c -> plain c.
Proof.
  intros Hnz (c' & Hl & H)%bind_Some. case_bool_decide; simplify_eq.
  by eapply components_plain, last_Some_elem_of.
Qed.

Lemma last_norm_said name nd :
  last_said name nd ->
  match last_norm name with
  | Some c => nd_last_type nd = LAST_NORM /\ nd_last nd = c /\ nd_slash nd = ends_slash name
  | None => nd_last_type nd <> LAST_NORM
  end.
Proof.
  unfold last_said, last_norm. destruct (list.last (components name)) as [c|]; cbn [mbind option_bind]; [|by intros ->].
  intros (H1 & H2 & H3). case_bool_decide; rewrite H3; done.
Qed.

(** The result of a call on the directory of a path; [None]: the walk leaves the
    file system. *)
Definition in_parent (s : kstate) (fs : fs_struct) (dfd : option nat) (name : list Z)
    (result : nat -> inode -> Z) : option Z :=
  match parent_place s fs dfd name with
  | At q => result q <$> node_inode s q
  | Fails e => Some e
  | Outside => None
  end.

(** Giving back a dentry that was held over a call. *)
Lemma put_back s t s1 t1 q :
  node_ok s t -> is_Some (dentries s !! q) -> node_ok s1 t1 -> steady (use q s) s1 ->
  dput q s1 = Ok (tt, unuse q s1) /\ node_ok (unuse q s1) t1 /\ steady s (unuse q s1).
Proof.
  intros Hok Hq Hok1 [Em Ec E3 E4 Hu Hf].
  assert (Hu1 : 1 <= users (dentries s1) q).
  { rewrite Hu, users_use, decide_True by done. pose proof (nk_users _ _ Hok q). lia. }
  assert (Hq1 : is_Some (dentries s1 !! q)).
  { unfold users in Hu1. destruct (dentries s1 !! q); [done|lia]. }
  destruct (dput_unuse s1 t1 q Hok1 Hq1 Hu1) as [E2 Hok2]. split; [done|]. split; [done|].
  split; try done. intros x. rewrite users_unuse, Hu, users_use by done. lia.
Qed.

(** ** A call on the directory of a path *)

Section calls.
Variable pointer : block -> block * nat -> Z -> va -> printf_spec -> res (block * nat).
Context (stack : autos) (fs : fs_struct) (follow : nat -> nameidata -> M walked).
#[local] Instance calls_ops : InodeOps := wjfs_ops pointer stack.

Context (s : kstate) (t : tree) (dfd : option nat) (name : list Z).
Context (Hft : fit stack s t) (Hfs : fs_ok s t fs) (Hnz : Forall (fun b => b <> 0) name).
Context (Hdfd : forall r, dfd = Some r -> is_Some (dentries s !! r)).

(** A result, and the state it comes with: nothing changed, or what [R] says of
    the directory, the name and the state. *)
Definition called (e : option Z) (R : nat -> dentry -> nat -> inode -> list Z -> kstate -> Prop)
    (r : res (option Z * kstate)) : Prop :=
  exists s', r = Ok (e, s') /\ (e <> Some 0 -> quiet s s') /\
    (e = Some 0 -> exists q pd pir pi c, parent_place s fs dfd name = At q /\ directory s q pd pir pi /\
       last_norm name = Some c /\ steady s s' /\ R q pd pir pi c s').

Lemma at_parent_ok call result (R : nat -> dentry -> nat -> inode -> list Z -> kstate -> Prop) :
  (forall nd pd pir pi, let q := nd_path nd in
     parent_place s fs dfd name = At q -> directory s q pd pir pi -> node_inode s q = Some pi -> last_said name nd ->
     exists s1, call nd (use q s) = Ok (result q pi, s1) /\ (result q pi <> 0 -> quiet (use q s) s1) /\
       (result q pi = 0 -> exists t1 c, last_norm name = Some c /\ node_ok s1 t1 /\ steady (use q s) s1 /\
          (node_ok (unuse q s1) t1 -> R q pd pir pi c (unuse q s1)))) ->
  called (in_parent s fs dfd name result) R (at_parent fs follow dfd name call s).
Proof using Hft Hfs Hnz Hdfd.
  intros Hcall. destruct Hft as [_ Hok Hm _].
  pose proof (parent_lookup pointer stack fs follow s t dfd name Hok Hm Hfs Hnz Hdfd) as Hp.
  pose proof (parent_dir_of s t fs dfd name) as Hdir. unfold called, in_parent, at_parent.
  destruct (parent_place s fs dfd name) as [q|e|].
  - destruct Hp as (nd & E & <- & Hq & Hsaid). set (q := nd_path nd) in *.
    destruct (Hdir q Hok Hfs eq_refl) as [Hqd _].
    destruct (is_dir_directory t s q Hok Hqd) as (pd & pir & pi & Hdy & Hni & _). rewrite Hni. cbn [fmap option_fmap option_map].
    destruct (Hcall nd pd pir pi eq_refl Hdy Hni Hsaid) as (s1 & E1 & Hq1 & Hs1). fold q in E1, Hq1, Hs1.
    erewrite M_bind_ok by exact E. cbn iota. change (negb (0 =? 0)) with false. cbn iota.
    erewrite M_bind_ok by exact E1. destruct (decide (result q pi = 0)) as [H0|H0].
    + destruct (Hs1 H0) as (t1 & c & Hc & Hok1 & Hu1 & HR).
      destruct (put_back s t s1 t1 q Hok Hq Hok1 Hu1) as (E2 & Hok2 & Hst). exists (unuse q s1).
      split; [by erewrite M_bind_ok by exact E2|]. split; [congruence|]. intros _.
      exists q, pd, pir, pi, c. split_and!; try done. by apply HR.
    + destruct (dput_quiet s t Hok q s1 Hq (Hq1 H0)) as (s2 & E2 & Hq2 & _). exists s2.
      split; [by erewrite M_bind_ok by exact E2|]. split; [done|]. congruence.
  - destruct Hp as (He & nd & s' & E & Hq). exists s'. erewrite M_bind_ok by exact E. cbn iota.
    rewrite (proj2 (Z.eqb_neq e 0)) by done. split; [done|]. split; [done|]. congruence.
  - destruct Hp as (rest & nd & E). exists s. erewrite M_bind_ok by exact E. split; [done|]. split; [done|]. done.
Qed.
End calls.

(** ** The results do not depend on who uses what *)

Lemma alike_directory s s' q pd pir pi :
  alike s s' -> directory s q pd pir pi -> exists k, directory s' q (set_d_count k pd) pir pi.
Proof.
  intros Ha [Hp Hpir Hpi Hd Hl]. destruct (alike_dentry _ _ _ _ Ha Hp) as (k & Hk). exists k.
  split; try done. by rewrite (al_inodes _ _ Ha).
Qed.

Lemma alike_lookup_errno s s' p pi n : alike s s' -> lookup_errno s' p pi n = lookup_errno s p pi n.
Proof. intros Ha. unfold lookup_errno. by rewrite (al_cur _ _ Ha), (alike_lookup _ _ _ _ Ha). Qed.

Lemma alike_create_errno s s' p pi n m : alike s s' -> create_errno s' p pi n m = create_errno s p pi n m.
Proof. intros Ha. unfold create_errno. by rewrite (alike_lookup_errno _ _ _ _ _ Ha), (alike_lookup _ _ _ _ Ha). Qed.

Lemma alike_mknod_errno s s' p pi n mode umask :
  alike s s' -> mknod_errno s' p pi n mode umask = mknod_errno s p pi n mode umask.
Proof. intros Ha. unfold mknod_errno. by rewrite (al_cur _ _ Ha), (alike_create_errno _ _ _ _ _ _ Ha). Qed.

Lemma alike_delete_errno s s' p pi n b : alike s s' -> delete_errno s' p pi n b = delete_errno s p pi n b.
Proof.
  intros Ha. unfold delete_errno. rewrite (alike_lookup_errno _ _ _ _ _ Ha), (alike_lookup _ _ _ _ Ha).
  destruct (negb _); [done|]. destruct (d_lookup_in _ _ _ _) as [r|]; [|done].
  rewrite (alike_node_inode _ _ _ Ha). unfold may_errno. by rewrite (al_cur _ _ Ha).
Qed.

Lemma alike_rmdir_errno s s' p pi n : alike s s' -> rmdir_errno s' p pi n = rmdir_errno s p pi n.
Proof.
  intros Ha. unfold rmdir_errno. rewrite (alike_delete_errno _ _ _ _ _ _ Ha), (alike_lookup _ _ _ _ Ha).
  destruct (negb _); [done|]. destruct (d_lookup_in _ _ _ _) as [r|]; [|done].
  destruct (dentries s !! r) as [d|] eqn:Hd; [by destruct (alike_dentry _ _ _ _ Ha Hd) as (k & ->)|].
  pose proof (al_dentries _ _ Ha r) as E. rewrite Hd in E. by destruct (dentries s' !! r).
Qed.

(** The directory of a call as the walk holds it. *)
Lemma held_dir stack s t q pd pir pi :
  fit stack s t -> directory s q pd pir pi ->
  exists k, directory (use q s) q (set_d_count k pd) pir pi /\ fit stack (use q s) t.
Proof.
  intros Hft Hdy. destruct (alike_directory _ _ _ _ _ _ (use_alike q s) Hdy) as (k & Hdy').
  exists k. split; [done|]. destruct Hft. split; try done. by apply use_ok.
Qed.

(** ** Making *)

(** The entry that a call made, seen after the directory was given back. *)
Lemma entry_unuse s r p n ino mode q : entry_at s r p n ino mode -> entry_at (unuse q s) r p n ino mode.
Proof.
  intros (d & ir & i & Hd & H). destruct (alike_dentry _ _ _ _ (unuse_alike q s) Hd) as (k & Hk).
  by exists (set_d_count k d), ir, i.
Qed.

Lemma alike_view s s' r : alike s s' -> view s' r = view s r.
Proof.
  intros Ha. unfold view. rewrite (alike_node_inode _ _ _ Ha).
  destruct (dentries s !! r) as [d|] eqn:Hd; [by destruct (alike_dentry _ _ _ _ Ha Hd) as (k & ->)|].
  pose proof (al_dentries _ _ Ha r) as E. rewrite Hd in E. by destruct (dentries s' !! r).
Qed.

Lemma grows_unuse s s1 q r e : grows (use q s) s1 r e -> grows s (unuse q s1) r e.
Proof.
  intros [Hv Hl]. split; [|done]. intros x. rewrite (alike_view _ _ _ (unuse_alike q s1)), Hv.
  by rewrite (alike_view _ _ _ (use_alike q s)).
Qed.

Lemma shrinks_unuse s s1 q r : shrinks (use q s) s1 r -> shrinks s (unuse q s1) r.
Proof.
  intros [Hv Hl]. split; [|done]. intros x. rewrite (alike_view _ _ _ (unuse_alike q s1)), Hv.
  by rewrite (alike_view _ _ _ (use_alike q s)).
Qed.

(** A new entry [c] of directory [q], and the request that tells the other node. *)
Definition made (s : kstate) (t : tree) (type flag : Z) (q : nat) (pd : dentry) (pir : nat) (pi : inode)
    (c : list Z) (s' : kstate) : Prop :=
  node_ok s' (add_child q (fresh s) t) /\ entry_at s' (fresh s) q c (u32 (last_ino s + 1)) type /\
  grows s s' (fresh s) (mkEnt q c (u32 (last_ino s + 1)) (type =? S_IFDIR)) /\
  g_table (glob s') = g_table (glob s) /\
  n_sent (network s')
  = (test_addr, htons test_port,
     req_text (bytes "CR") (s32 (u32 (last_ino s + 1))) c (s32 (i_ino pi)) (d_name pd) (mode_text flag))
    :: n_sent (network s).

Definition mkdir_result (s : kstate) (fs : fs_struct) (dfd : option nat) (name : list Z) : option Z :=
  in_parent s fs dfd name (fun q pi =>
    match last_norm name with
    | Some c => create_errno s q pi c (generic_permission (cur s) pi (Z.lor MAY_WRITE MAY_EXEC))
    | None => - EEXIST
    end).

Lemma mkdir_called pointer stack fs follow s t dfd name mode umask :
  fit stack s t -> fs_ok s t fs -> Forall (fun b => b <> 0) name ->
  (forall r, dfd = Some r -> is_Some (dentries s !! r)) ->
  called fs s dfd name (mkdir_result s fs dfd name) (made s t S_IFDIR 1)
    (@mkdirat (wjfs_ops pointer stack) fs follow dfd name mode umask s).
Proof.
  intros Hft Hfs Hnz Hdfd. apply (at_parent_ok pointer stack fs follow s t); try done.
  intros nd pd pir pi q _ Hdy Hni Hsaid. pose proof (use_alike q s) as Ha.
  pose proof (last_norm_said _ _ Hsaid) as Hl. destruct (last_norm name) as [c|] eqn:Ec.
  - destruct Hl as (Ht & Hc & _). rewrite bool_decide_eq_true_2 by done. cbn [negb]. rewrite Hc.
    destruct (held_dir stack s t q pd pir pi Hft Hdy) as (k & Hdy' & Hft').
    destruct (mkdir_here pointer stack (use q s) t q _ pir pi c mode umask Hft' Hdy')
      as (s1 & E & Hq & Hs); [by eapply last_norm_plain|].
    rewrite (alike_create_errno _ _ _ _ _ _ Ha), (al_cur _ _ Ha) in E, Hq, Hs.
    exists s1. split; [exact E|]. split; [done|]. intros H0. destruct (Hs H0) as (H1 & H2 & (H3 & Hg & Htb) & H4).
    exists (add_child q (fresh s) t), c. split_and!; try done. intros Hok2.
    split; [done|]. split; [by apply entry_unuse|]. split; [by apply grows_unuse|done].
  - rewrite bool_decide_eq_false_2 by done. cbn [negb]. exists (use q s). split; [done|]. by split.
Qed.

(** ** A slash behind a name that is no directory's *)

(** The error of a call that looks such a name up; [found] is the one of a name
    that is there. *)
Definition slash_errno (s : kstate) (p : nat) (pi : inode) (n : list Z) (found : inode -> Z) : Z :=
  let e := lookup_errno s p pi n in
  if negb (e =? 0) then e
  else match d_lookup_in (d_hash s) (dentries s) p n with
       | Some r => match node_inode s r with Some i => found i | None => 0 end
       | None => - ENOENT
       end.

Lemma alike_slash_errno s s' p pi n found :
  alike s s' -> slash_errno s' p pi n found = slash_errno s p pi n found.
Proof.
  intros Ha. unfold slash_errno. rewrite (alike_lookup_errno _ _ _ _ _ Ha), (alike_lookup _ _ _ _ Ha).
  destruct (negb _); [done|]. destruct (d_lookup_in _ _ _ _); [|done]. by rewrite (alike_node_inode _ _ _ Ha).
Qed.

Lemma slash_errno_fails s t p pd pir pi n found :
  node_ok s t -> directory s p pd pir pi -> (forall i, found i <> 0) -> slash_errno s p pi n found <> 0.
Proof.
  intros Hok Hdy Hf. unfold slash_errno. destruct (Z.eqb_spec (lookup_errno s p pi n) 0); cbn [negb]; [|done].
  destruct (d_lookup_in _ _ _ _) as [r|] eqn:E; [|done].
  destruct (d_lookup_found _ _ _ _ _ E) as (d & Hd & _). 
  destruct (node_node_inode _ _ _ _ Hok Hd) as (? & i & _ & _ & -> & _). apply Hf.
Qed.

(** Both calls with a slash look the name up, take their error from the dentry
    and give it back. *)
Lemma slashes_ok pointer stack s t p pd pir pi n (error : dentry -> M Z) found :
  node_ok s t -> mem s = [] -> directory s p pd pir pi -> plain n ->
  (forall s1 d, d_inode d = None -> error d s1 = Ok (- ENOENT, s1)) ->
  (forall s1 d ir i, d_inode d = Some ir -> inodes s1 !! ir = Some i -> error d s1 = Ok (found i, s1)) ->
  exists s', (dentry ← @lookup_hash (wjfs_ops pointer stack) n p;
    match dentry with
    | DErr e => mret e
    | DNull => fail NullDeref
    | DPtr r => d ← get_dentry r; e ← error d; dput r;; mret e
    end) s = Ok (slash_errno s p pi n found, s') /\ quiet s s'.
Proof.
  intros Hok Hm Hdy Hn Hneg Hpos. unfold slash_errno.
  destruct (Z.eqb_spec (lookup_errno s p pi n) 0) as [He|He]; cbn [negb].
  - destruct (lookup_allowed pointer stack s t p pd pir pi n Hok Hm Hdy Hn He) as [_ H].
    destruct (d_lookup_in _ _ _ _) as [r|].
    + destruct H as (d & Hd & _ & _ & E). exists s. split; [|done]. erewrite M_bind_ok by exact E. cbn iota.
      destruct (node_node_inode _ _ _ _ Hok Hd) as (ir & i & Hir & Hi & -> & _).
      erewrite M_bind_ok by (apply get_dentry_ok; simpl; apply lookup_insert_eq).
      erewrite M_bind_ok by (by apply (Hpos _ _ ir)). by erewrite M_bind_ok by (by eapply put_found).
    + destruct H as [_ E]. exists (forgotten n s). split; [|apply forgotten_quiet].
      erewrite M_bind_ok by exact E. cbn iota.
      erewrite M_bind_ok by (apply get_dentry_ok; simpl; apply lookup_insert_eq).
      erewrite M_bind_ok by (by apply Hneg).
      by erewrite M_bind_ok by (eapply put_looked; [done|apply (dy_dentry _ _ _ _ _ Hdy)]).
  - destruct (lookup_refused pointer stack s t p pd pir pi n Hok Hm Hdy Hn He) as (s' & E & Hq).
    exists s'. split; [|done]. by erewrite M_bind_ok by exact E.
Qed.

Definition exists_errno (i : inode) : Z := - EEXIST.
Definition kind_errno (i : inode) : Z := if S_ISDIR (i_mode i) then - EISDIR else - ENOTDIR.

Lemma create_slashes_ok pointer stack s t p pd pir pi n :
  node_ok s t -> mem s = [] -> directory s p pd pir pi -> plain n ->
  exists s', @create_slashes (wjfs_ops pointer stack) n p s = Ok (slash_errno s p pi n exists_errno, s') /\ quiet s s'.
Proof.
  intros Hok Hm Hdy Hn.
  destruct (slashes_ok pointer stack s t p pd pir pi n
    (fun d => mret (match d_inode d with Some _ => - EEXIST | None => - ENOENT end)) exists_errno) as (s' & E & Hq);
    try done; [by intros ? d ->|by intros ? d ? ? ->|]. exists s'. split; [|done]. exact E.
Qed.

Lemma unlink_slashes_ok pointer stack s t p pd pir pi n :
  node_ok s t -> mem s = [] -> directory s p pd pir pi -> plain n ->
  exists s', @unlink_slashes (wjfs_ops pointer stack) n p s = Ok (slash_errno s p pi n kind_errno, s') /\ quiet s s'.
Proof.
  intros Hok Hm Hdy Hn. apply (slashes_ok pointer stack s t p pd pir pi n); try done; [by intros ? d ->|].
  intros s1 d ir i -> Hi. by erewrite M_bind_ok by (by apply get_inode_ok).
Qed.

Definition mknod_result (s : kstate) (fs : fs_struct) (dfd : option nat) (name : list Z) (mode umask : Z)
  : option Z :=
  if S_ISDIR mode then Some (- EPERM) else
  in_parent s fs dfd name (fun q pi =>
    match last_norm name with
    | Some c => if ends_slash name then slash_errno s q pi c exists_errno else mknod_errno s q pi c mode umask
    | None => - EEXIST
    end).

Lemma mknod_called pointer stack fs follow s t dfd name mode umask :
  fit stack s t -> fs_ok s t fs -> Forall (fun b => b <> 0) name ->
  (forall r, dfd = Some r -> is_Some (dentries s !! r)) ->
  Z.land (Z.land mode (Z.lnot umask)) S_IFMT = 0 \/ Z.land (Z.land mode (Z.lnot umask)) S_IFMT = S_IFREG ->
  called fs s dfd name (mknod_result s fs dfd name mode umask) (made s t S_IFREG 0)
    (@mknodat (wjfs_ops pointer stack) fs follow dfd name mode 0 umask s).
Proof.
  intros Hft Hfs Hnz Hdfd Hreg. unfold mknod_result, mknodat.
  destruct (S_ISDIR mode); [by exists s|]. apply (at_parent_ok pointer stack fs follow s t); try done.
  intros nd pd pir pi q _ Hdy Hni Hsaid. pose proof (use_alike q s) as Ha.
  pose proof (last_norm_said _ _ Hsaid) as Hl. destruct (last_norm name) as [c|] eqn:Ec; cycle 1.
  { rewrite bool_decide_eq_false_2 by done. cbn [negb]. exists (use q s). split; [done|]. by split. }
  destruct Hl as (Ht & Hc & Hs). rewrite bool_decide_eq_true_2 by done. cbn [negb]. rewrite Hc, Hs.
  destruct (held_dir stack s t q pd pir pi Hft Hdy) as (k & Hdy' & Hft').
  pose proof (last_norm_plain _ _ Hnz Ec) as Hpl. pose proof Hft' as [_ Hok' Hm' _]. destruct (ends_slash name).
  - destruct (create_slashes_ok pointer stack (use q s) t q _ pir pi c Hok' Hm' Hdy' Hpl) as (s1 & E & Hq).
    rewrite (alike_slash_errno _ _ _ _ _ _ Ha) in E. exists s1. split; [exact E|]. split; [done|].
    intros H0. exfalso. revert H0. by eapply slash_errno_fails; [apply Hft|..].
  - destruct (mknod_here pointer stack (use q s) t q _ pir pi c mode umask Hft' Hdy' Hpl) as (s1 & E & Hq & Hs1);
      [done|]. rewrite (alike_mknod_errno _ _ _ _ _ _ _ Ha) in E, Hq, Hs1.
    exists s1. split; [exact E|]. split; [done|]. intros H0. destruct (Hs1 H0) as (H1 & H2 & (H3 & Hg & Htb) & H4).
    exists (add_child q (fresh s) t), c. split_and!; try done. intros Hok2.
    split; [done|]. split; [by apply entry_unuse|]. split; [by apply grows_unuse|done].
Qed.

(** ** Removing *)

(** The last component of a path, where it is there, is the caller's to remove:
    no link, and in nobody's use. *)
Definition free_to_remove (s : kstate) (fs : fs_struct) (dfd : option nat) (name : list Z) : Prop :=
  forall q c, parent_place s fs dfd name = At q -> last_norm name = Some c -> mine_here s q c.

Lemma mine_use s t q c : node_ok s t -> is_Some (dentries s !! q) -> mine_here s q c -> mine_here (use q s) q c.
Proof.
  intros Hok Hq (ls & Hls & H). exists ls. split; [done|]. intros r i Hf Hni.
  rewrite (alike_lookup _ _ _ _ (use_alike q s)) in Hf. rewrite (alike_node_inode _ _ _ (use_alike q s)) in Hni.
  destruct (H r i Hf Hni) as [H1 H2]. split; [done|]. destruct (found_below _ _ _ _ _ Hok Hf) as [_ Hne].
  rewrite users_use, decide_False by done. lia.
Qed.

(** The entry [c] of directory [q] is gone, dentry and inode, and the other node
    is told. *)
Definition unmade (s : kstate) (t : tree) (flag : Z) (q : nat) (pd : dentry) (pir : nat) (pi : inode)
    (c : list Z) (s' : kstate) : Prop :=
  exists r d ir i, d_lookup_in (d_hash s) (dentries s) q c = Some r /\ dentries s !! r = Some d /\
    d_inode d = Some ir /\ inodes s !! ir = Some i /\ node_ok s' (del r t) /\
    dentries s' !! r = None /\ inodes s' !! ir = None /\ r ∉ d_hash s' /\
    shrinks s s' r /\ g_table (glob s') = g_table (glob s) /\
    n_sent (network s')
    = (test_addr, htons test_port,
       req_text (bytes "RM") (s32 (i_ino i)) c (s32 (i_ino pi)) (d_name pd) (mode_text flag))
      :: n_sent (network s).

(** What the calls on the directory give, seen after the directory was given back. *)
Lemma deleted_unmade s t q pd pir pi c k flag r d ir i s1 :
  d_lookup_in (d_hash (use q s)) (dentries (use q s)) q c = Some r -> dentries (use q s) !! r = Some d ->
  d_inode d = Some ir -> inodes (use q s) !! ir = Some i ->
  deleted (use q s) s1 t r ir
    (req_text (bytes "RM") (s32 (i_ino i)) c (s32 (i_ino pi)) (d_name (set_d_count k pd)) (mode_text flag)) ->
  node_ok (unuse q s1) (del r t) -> unmade s t flag q pd pir pi c (unuse q s1).
Proof.
  intros Hf Hd Hir Hi (_ & H2 & H3 & H4 & (_ & Hs & Htb) & H6) Hok.
  rewrite (alike_lookup _ _ _ _ (use_alike q s)) in Hf.
  destruct (alike_dentry _ _ _ _ (symmetry (use_alike q s)) Hd) as (k' & Hk').
  exists r, (set_d_count k' d), ir, i. split_and!; try done; [|by apply shrinks_unuse].
  simpl. rewrite lookup_alter. case_decide; [subst; by rewrite H2|done].
Qed.

Definition unlink_result (s : kstate) (fs : fs_struct) (dfd : option nat) (name : list Z) : option Z :=
  in_parent s fs dfd name (fun q pi =>
    match last_norm name with
    | Some c => if ends_slash name then slash_errno s q pi c kind_errno else delete_errno s q pi c false
    | None => - EISDIR
    end).

Lemma unlink_called pointer stack fs follow s t dfd name :
  fit stack s t -> fs_ok s t fs -> Forall (fun b => b <> 0) name ->
  (forall r, dfd = Some r -> is_Some (dentries s !! r)) -> free_to_remove s fs dfd name ->
  called fs s dfd name (unlink_result s fs dfd name) (unmade s t 0)
    (@unlinkat (wjfs_ops pointer stack) fs follow dfd name 0 s).
Proof.
  intros Hft Hfs Hnz Hdfd Hfree.
  change (@unlinkat (wjfs_ops pointer stack) fs follow dfd name 0)
    with (@unlink_at (wjfs_ops pointer stack) fs follow dfd name).
  apply (at_parent_ok pointer stack fs follow s t); try done.
  intros nd pd pir pi q Hpl Hdy Hni Hsaid. pose proof (use_alike q s) as Ha.
  pose proof (last_norm_said _ _ Hsaid) as Hl. destruct (last_norm name) as [c|] eqn:Ec; cycle 1.
  { rewrite bool_decide_eq_false_2 by done. cbn [negb]. exists (use q s). split; [done|]. by split. }
  destruct Hl as (Ht & Hc & Hs). rewrite bool_decide_eq_true_2 by done. cbn [negb]. rewrite Hc, Hs.
  destruct (held_dir stack s t q pd pir pi Hft Hdy) as (k & Hdy' & Hft').
  pose proof (last_norm_plain _ _ Hnz Ec) as Hpn. pose proof Hft' as [_ Hok' Hm' _]. destruct (ends_slash name).
  - destruct (unlink_slashes_ok pointer stack (use q s) t q _ pir pi c Hok' Hm' Hdy' Hpn) as (s1 & E & Hq).
    rewrite (alike_slash_errno _ _ _ _ _ _ Ha) in E. exists s1. split; [exact E|]. split; [done|].
    intros H0. exfalso. revert H0. eapply slash_errno_fails; [apply Hft|done|].
    intros i. unfold kind_errno. by destruct (S_ISDIR _).
  - destruct (unlink_here pointer stack (use q s) t q _ pir pi c Hft' Hdy' Hpn) as (s1 & E & Hq & Hs1);
      [by eapply mine_use, Hfree; [apply Hft|rewrite (dy_dentry _ _ _ _ _ Hdy)|..]|].
    rewrite (alike_delete_errno _ _ _ _ _ _ Ha) in E, Hq, Hs1.
    exists s1. split; [exact E|]. split; [done|]. intros H0. destruct (Hs1 H0) as (r & d & ir & i & Hf & Hd & Hir & Hi & Hdel).
    exists (del r t), c. split; [done|]. split; [apply Hdel|]. split; [apply Hdel|].
    intros Hok2. by eapply deleted_unmade.
Qed.

(** rmdir of a name whose last component is no entry's. *)
Definition rmdir_last (name : list Z) : Z :=
  match list.last (components name) with
  | None => - EBUSY
  | Some c => if bool_decide (last_type_of c = LAST_DOTDOT) then - ENOTEMPTY else - EINVAL
  end.

Lemma rmdir_last_said (name : list Z) nd :
  last_said name nd -> last_norm name = None ->
  (nd_last_type nd = LAST_DOTDOT /\ rmdir_last name = - ENOTEMPTY) \/
  (nd_last_type nd = LAST_DOT /\ rmdir_last name = - EINVAL) \/
  (nd_last_type nd = LAST_ROOT /\ rmdir_last name = - EBUSY).
Proof.
  unfold last_said, last_norm, rmdir_last.
  destruct (list.last (components name)) as [c|]; cbn [mbind option_bind]; [|tauto].
  intros (_ & _ & ->). unfold last_type_of. repeat case_match; simpl; intros; simplify_eq; tauto.
Qed.

Definition rmdir_result (s : kstate) (fs : fs_struct) (dfd : option nat) (name : list Z) : option Z :=
  in_parent s fs dfd name (fun q pi =>
    match last_norm name with
    | Some c => rmdir_errno s q pi c
    | None => rmdir_last name
    end).

Lemma rmdir_called pointer stack fs follow s t dfd name :
  fit stack s t -> fs_ok s t fs -> Forall (fun b => b <> 0) name ->
  (forall r, dfd = Some r -> is_Some (dentries s !! r)) -> free_to_remove s fs dfd name ->
  called fs s dfd name (rmdir_result s fs dfd name) (unmade s t 1)
    (@unlinkat (wjfs_ops pointer stack) fs follow dfd name AT_REMOVEDIR s).
Proof.
  intros Hft Hfs Hnz Hdfd Hfree.
  change (@unlinkat (wjfs_ops pointer stack) fs follow dfd name AT_REMOVEDIR)
    with (@rmdir_at (wjfs_ops pointer stack) fs follow dfd name).
  apply (at_parent_ok pointer stack fs follow s t); try done.
  intros nd pd pir pi q Hpl Hdy Hni Hsaid. pose proof (use_alike q s) as Ha.
  pose proof (last_norm_said _ _ Hsaid) as Hl. destruct (last_norm name) as [c|] eqn:Ec; cycle 1.
  { exists (use q s). by destruct (rmdir_last_said _ _ Hsaid Ec) as [[-> ->]|[[-> ->]|[-> ->]]]. }
  destruct Hl as (-> & Hc & _). rewrite Hc.
  destruct (held_dir stack s t q pd pir pi Hft Hdy) as (k & Hdy' & Hft').
  destruct (rmdir_here pointer stack (use q s) t q _ pir pi c Hft' Hdy') as (s1 & E & Hq & Hs1);
    [by eapply last_norm_plain|by eapply mine_use, Hfree; [apply Hft|rewrite (dy_dentry _ _ _ _ _ Hdy)|..]|].
  rewrite (alike_rmdir_errno _ _ _ _ _ Ha) in E, Hq, Hs1.
  exists s1. split; [exact E|]. split; [done|]. intros H0.
  destruct (Hs1 H0) as (r & d & ir & i & Hf & Hd & Hir & Hi & Hdel).
  exists (del r t), c. split; [done|]. split; [apply Hdel|]. split; [apply Hdel|].
  intros Hok2. by eapply deleted_unmade.
Qed.

(** ** The calls leave a node that can take the next one *)

Lemma called_fit stack fs s t dfd name e R r a s' :
  fit stack s t -> called fs s dfd name e R r -> r = Ok (a, s') ->
  (forall q pd pir pi c x, R q pd pir pi c x -> exists t', node_ok x t') -> exists t', fit stack s' t'.
Proof.
  intros [Hb Hok Hm (H1 & H2 & H3)] (x & -> & Hq & Hs) [= -> ->] HR.
  destruct (decide (a = Some 0)) as [Ha|Ha].
  - destruct (Hs Ha) as (q & pd & pir & pi & c & _ & _ & _ & [Em _ E1 E2 _ _] & HR').
    destruct (HR _ _ _ _ _ _ HR') as (t' & Hok'). exists t'. split; try congruence. split_and!; congruence.
  - pose proof (Hq Ha) as Hqt. exists t. split; [done|by eapply quiet_ok|by rewrite (qt_mem _ _ Hqt)|].
    unfold online. by rewrite (qt_net _ _ Hqt), (qt_mem _ _ Hqt).
Qed.

Lemma made_node s t type flag q pd pir pi c x :
  made s t type flag q pd pir pi c x -> exists t', node_ok x t'.
Proof. intros (Hok & _). eauto. Qed.

Lemma unmade_node s t flag q pd pir pi c x : unmade s t flag q pd pir pi c x -> exists t', node_ok x t'.
Proof. intros (r & d & ir & i & _ & _ & _ & _ & Hok & _). eauto. Qed.

(** C16: mkdirat of any path name by any caller: the error of the walk or of
    [create_errno], with nothing changed, or the new directory in its place, the other
    node told, and nothing else in use than before.  Whatever the result, the node can take
    the next call. *)
Theorem mkdir_total pointer stack fs follow s t dfd name mode umask :
  fit stack s t -> fs_ok s t fs -> Forall (fun b => b <> 0) name ->
  (forall r, dfd = Some r -> is_Some (dentries s !! r)) ->
  called fs s dfd name (mkdir_result s fs dfd name) (made s t S_IFDIR 1)
    (@mkdirat (wjfs_ops pointer stack) fs follow dfd name mode umask s) /\
  forall a s', @mkdirat (wjfs_ops pointer stack) fs follow dfd name mode umask s = Ok (a, s') -> exists t', fit stack s' t'.
Proof.
  intros Hft Hfs Hnz Hdfd. pose proof (mkdir_called pointer stack fs follow s t dfd name mode umask) as H.
  specialize (H Hft Hfs Hnz Hdfd). split; [done|]. intros a s' E.
  eapply called_fit; [done|exact H|exact E|]. intros. by eapply made_node.
Qed.

(** C15: mknodat of a regular file, by any path name and any caller: the error of the walk,
    of a slash behind the name or of [mknod_errno], with nothing changed, or the new
    file in its place and the other node told.  Whatever the result, the node can take
    the next call. *)
Theorem mknod_total pointer stack fs follow s t dfd name mode umask :
  fit stack s t -> fs_ok s t fs -> Forall (fun b => b <> 0) name ->
  (forall r, dfd = Some r -> is_Some (dentries s !! r)) ->
  Z.land (Z.land mode (Z.lnot umask)) S_IFMT = 0 \/ Z.land (Z.land mode (Z.lnot umask)) S_IFMT = S_IFREG ->
  called fs s dfd name (mknod_result s fs dfd name mode umask) (made s t S_IFREG 0)
    (@mknodat (wjfs_ops pointer stack) fs follow dfd name mode 0 umask s) /\
  forall a s', @mknodat (wjfs_ops pointer stack) fs follow dfd name mode 0 umask s = Ok (a, s') -> exists t', fit stack s' t'.
Proof.
  intros Hft Hfs Hnz Hdfd Hx. pose proof (mknod_called pointer stack fs follow s t dfd name mode umask) as H.
  specialize (H Hft Hfs Hnz Hdfd Hx). split; [done|]. intros a s' E.
  eapply called_fit; [done|exact H|exact E|]. intros. by eapply made_node.
Qed.

(** C17: unlinkat without flags, of any path name by any caller: the error of the walk, of a
    slash behind the name or of [delete_errno], with nothing changed, or the file is
    gone and the other node told.  Whatever the result, the node can take
    the next call. *)
Theorem unlink_total pointer stack fs follow s t dfd name :
  fit stack s t -> fs_ok s t fs -> Forall (fun b => b <> 0) name ->
  (forall r, dfd = Some r -> is_Some (dentries s !! r)) -> free_to_remove s fs dfd name ->
  called fs s dfd name (unlink_result s fs dfd name) (unmade s t 0)
    (@unlinkat (wjfs_ops pointer stack) fs follow dfd name 0 s) /\
  forall a s', @unlinkat (wjfs_ops pointer stack) fs follow dfd name 0 s = Ok (a, s') -> exists t', fit stack s' t'.
Proof.
  intros Hft Hfs Hnz Hdfd Hx. pose proof (unlink_called pointer stack fs follow s t dfd name) as H.
  specialize (H Hft Hfs Hnz Hdfd Hx). split; [done|]. intros a s' E.
  eapply called_fit; [done|exact H|exact E|]. intros. by eapply unmade_node.
Qed.

(** C18: rmdir, which is unlinkat with AT_REMOVEDIR, of any path name by any caller: the
    error of the walk, of a last component that is "/", "." or "..", or of
    [rmdir_errno], with nothing changed, or the directory is gone and the other node
    told.  Whatever the result, the node can take
    the next call. *)
Theorem rmdir_total pointer stack fs follow s t dfd name :
  fit stack s t -> fs_ok s t fs -> Forall (fun b => b <> 0) name ->
  (forall r, dfd = Some r -> is_Some (dentries s !! r)) -> free_to_remove s fs dfd name ->
  called fs s dfd name (rmdir_result s fs dfd name) (unmade s t 1)
    (@unlinkat (wjfs_ops pointer stack) fs follow dfd name AT_REMOVEDIR s) /\
  forall a s', @unlinkat (wjfs_ops pointer stack) fs follow dfd name AT_REMOVEDIR s = Ok (a, s') -> exists t', fit stack s' t'.
Proof.
  intros Hft Hfs Hnz Hdfd Hx. pose proof (rmdir_called pointer stack fs follow s t dfd name) as H.
  specialize (H Hft Hfs Hnz Hdfd Hx). split; [done|]. intros a s' E.
  eapply called_fit; [done|exact H|exact E|]. intros. by eapply unmade_node.
Qed.
