(* ===== verification/Opened.v ===== *)
(** * What open, truncate and close do

    do_sys_open and do_sys_truncate on a node at rest, for any path name, flags
    and caller: the error is a function of the node and the caller and changes
    nothing, or the file is opened, emptied or made.  filp_close gives back the
    one reference an open file holds. *)

From S2P Require Import Prelude KString KScan KFormat Wire Ksocket MapTable Vfs Syscalls Tree.
From S2P Require Import Umount Ops PageIo FileMap Server Node FileData Inv Remove.
From S2P Require Import Serve View Contents Truncate Options Mount Cluster FileOps Local.
From S2P Require Import LocalDir Results ReadDir Dirents Listing Walk Open Uses Path.
From S2P Require Import Calls.

(** ** References held over a call *)

Lemma dput_any r d s :
  dentries s !! r = Some d -> d_count d <> 0 -> dput r (use r s) = Ok (tt, s).
Proof.
  intros Hd Hc. erewrite (dput_held r (set_d_count (d_count d + 1) d)); cycle 1.
  { simpl. by rewrite lookup_alter_eq, Hd. }
  { simpl. lia. }
  unfold use, with_dentries. simpl. destruct s. simpl in *. do 2 f_equal. f_equal.
  apply map_eq. intros x. rewrite lookup_insert, lookup_alter. case_decide; [subst x|done].
  rewrite Hd. f_equal. destruct d. unfold set_d_count. simpl. f_equal. lia.
Qed.

Section held.
Context (s : kstate) (t : tree) (q : nat) (pd : dentry) (n : list Z).
Context (Hok : node_ok s t) (Hq : dentries s !! q = Some pd).

Definition more_used (a : nat) : dentry := if (a =? q)%nat then set_d_count (d_count pd + 1) pd else pd.

Lemma more_used_at a : dentries (use a s) !! q = Some (more_used a).
Proof using Hq.
  simpl. rewrite lookup_alter. unfold more_used. destruct (Nat.eqb_spec a q); case_decide; subst; try done.
  by rewrite Hq.
Qed.

(** The dentries of a lookup, or a creation, in [q] with one more reference on [a]. *)
Lemma below_use a c :
  is_Some (dentries s !! a) ->
  <[fresh s := c]> (<[q := add_sub (fresh s) (more_used a)]> (dentries (use a s)))
  = alter (fun d => set_d_count (d_count d + 1) d) a (<[fresh s := c]> (<[q := add_sub (fresh s) pd]> (dentries s))).
Proof using Hok Hq.
  intros Ha. assert (a <> fresh s).
  { pose proof (nk_fresh _ _ Hok a (proj1 (nk_dom _ _ Hok a) Ha)). lia. }
  apply map_eq. intros x. unfold more_used. cbn [use with_dentries dentries].
  rewrite !lookup_insert, lookup_alter. destruct (Nat.eqb_spec a q) as [->|]; repeat case_decide; subst; try done.
  all: by simplify_map_eq.
Qed.
End held.

(** ** The state of the walk in do_filp_open *)

(** put_root where the dentries are as in [s], or have more below them. *)
Lemma put_root_any fs x nd :
  (forall r, fs_root fs = Some r -> exists d, dentries x !! r = Some d /\ d_count d <> 0) ->
  put_root fs nd (rooted fs x nd) = Ok (tt, x).
Proof.
  intros Hr. unfold put_root, rooted. destruct (nd_root nd); [|done]. destruct (fs_root fs) as [r|]; [|done].
  destruct (Hr r eq_refl) as (d & Hd & Hc). by apply (dput_any r d).
Qed.

Section exits.
Context (fs : fs_struct) (s : kstate) (t : tree).
Context (Hok : node_ok s t) (Hroot : forall r, fs_root fs = Some r -> is_Some (dentries s !! r)).

Lemma put_root_quiet x nd s' :
  is_Some (dentries s !! x) -> quiet (at_nd fs s (set_path x nd)) s' ->
  exists s'', put_root fs nd s' = Ok (tt, s'') /\ quiet (use x s) s''.
Proof using Hok Hroot.
  intros Hx Hq. destruct (put_root_ok fs t (use x s) nd s') as (s'' & E & Hq' & _).
  - by apply use_ok.
  - intros r Hr. by apply use_is_Some, Hroot.
  - by rewrite <- use_rooted.
  - by exists s''.
Qed.

(** An error: everything is given back. *)
Lemma exit_open_ok e nd s' :
  is_Some (dentries s !! nd_path nd) -> quiet (at_nd fs s nd) s' ->
  exists s'', exit_open fs e nd s' = Ok (Some (inl e), s'') /\ quiet s s''.
Proof using Hok Hroot.
  intros Hx Hq. destruct (put_root_quiet (nd_path nd) nd s' Hx) as (s1 & E1 & Hq1); [by destruct nd|].
  destruct (dput_quiet s t Hok (nd_path nd) s1 Hx Hq1) as (s2 & E2 & Hq2 & _). exists s2. split; [|done].
  unfold exit_open. erewrite M_bind_ok by exact E1. by erewrite M_bind_ok by exact E2.
Qed.
End exits.

(** ** A dentry that is there *)

(** The error may_open returns for a file or directory of a node. *)
Definition access_errno (c : cred) (i : inode) (acc fl : Z) : Z :=
  if S_ISDIR (i_mode i) && flag acc MAY_WRITE then - EISDIR
  else
    let e := generic_permission c i acc in
    if negb (e =? 0) then e
    else if flag fl O_NOATIME && negb (is_owner_or_cap c i) then - EPERM else 0.

(** The node with the file of [r] cut to [n] bytes, where [b] says so. *)
Definition cut_at (s : kstate) (r : nat) (b stamp : bool) (n : Z) (s1 : kstate) : Prop :=
  exists d ir i i', dentries s !! r = Some d /\ d_inode d = Some ir /\ inodes s !! ir = Some i /\
    s1 = with_inodes (<[ir := i']> (inodes s)) s /\
    if b then cut (cur s) (now s) stamp i n i' else i' = i.

Lemma cut_at_none s r stamp n s1 : cut_at s r false stamp n s1 -> s1 = s.
Proof. intros (d & ir & i & i' & _ & _ & Hi & -> & ->). by apply with_inodes_id. Qed.

Lemma typed_plain i : typed i -> ifmt (i_mode i) S_IFLNK = false /\ special_file (i_mode i) = false /\
  ifmt (i_mode i) S_IFBLK || ifmt (i_mode i) S_IFCHR = false.
Proof.
  unfold special_file. intros [(H & _)|(H & _)]; unfold ifmt in *; apply Z.eqb_eq in H; by rewrite H.
Qed.

Lemma empty_size_ok env i : data_ok i -> inode_newsize_ok env i 0 = 0.
Proof. intros Hd. pose proof (do_size _ Hd). unfold inode_newsize_ok. by rewrite (proj2 (Z.ltb_ge _ _)) by lia. Qed.

Lemma may_open_ok env nodev r d ir i acc fl s :
  dentries s !! r = Some d -> d_inode d = Some ir -> inodes s !! ir = Some i -> typed i -> data_ok i ->
  let e := access_errno (cur s) i acc fl in
  exists s1, may_open env nodev r acc fl s = Ok (e, s1) /\ cut_at s r ((e =? 0) && flag fl O_TRUNC) true 0 s1.
Proof.
  intros Hd Hir Hi Ht Hda e. destruct (typed_plain i Ht) as (H1 & H2 & H3).
  assert (Hno : e <> 0 -> cut_at s r ((e =? 0) && flag fl O_TRUNC) true 0 s).
  { intros He. exists d, ir, i, i. rewrite (proj2 (Z.eqb_neq e 0)), with_inodes_id by done. done. }
  unfold may_open. erewrite M_bind_ok by (by apply get_dentry_ok). rewrite Hir.
  erewrite M_bind_ok by (by apply get_inode_ok). erewrite M_bind_ok by reflexivity. rewrite H1, H2, H3. cbn [andb].
  unfold e, access_errno in *. destruct (S_ISDIR (i_mode i) && flag acc MAY_WRITE); [exists s; split; [done|by apply Hno]|].
  unfold inode_permission. erewrite M_bind_ok; cycle 1.
  { erewrite M_bind_ok by (by apply get_inode_ok). erewrite M_bind_ok by reflexivity. reflexivity. }
  cbv zeta in *. destruct (Z.eqb_spec (generic_permission (cur s) i acc) 0) as [Hp|Hp]; cbn [negb] in *;
    [|exists s; split; [done|by apply Hno]].
  destruct (flag fl O_NOATIME && _); [exists s; split; [done|by apply Hno]|]. change (0 =? 0) with true. cbn [andb].
  destruct (flag fl O_TRUNC).
  - destruct (do_truncate_ok env ir i 0 true s Hi Hda ltac:(lia)) as (i' & E & _ & Hc).
    rewrite empty_size_ok in E, Hc by done. eexists. split; [exact E|]. exists d, ir, i, i'. split_and!; auto.
  - exists s. split; [done|]. exists d, ir, i, i. by rewrite with_inodes_id.
Qed.

(** A node with a file cut. *)
Lemma cut_at_ok s t r b stamp n s1 :
  node_ok s t -> cut_at s r b stamp n s1 -> node_ok s1 t /\ steady s s1.
Proof.
  intros Hok (d & ir & i & i' & Hd & Hir & Hi & -> & Hc). destruct b; cycle 1.
  { subst i'. by rewrite with_inodes_id. }
  destruct Hc as [_ _ Hda Hs _ Hk _]. split.
  - apply (node_ok_kind s t ir i); try done; [|by rewrite Hs..]. intros _ E.
    destruct (nk_inode _ _ Hok _ _ Hd) as (? & ? & ? & ? & _ & _ & _ & _ & Ht). simplify_eq.
    destruct Ht as [(H & _)|(H & _)]; unfold ifmt in H; rewrite <- Hk, E in H; done.
  - split; try done. intros Hf. by apply files_ok_insert.
Qed.

(** ** __dentry_open and filp_close *)

(** The result of an open that reaches __dentry_open with [s] the node before the
    reference on [r]: O_DIRECT is refused, otherwise there is a file, and closing
    it gives back the node. *)
Definition opens {A} (inj : Z + opened -> A) (r : nat) (flags : Z) (s : kstate) (x : res (A * kstate)) : Prop :=
  if flag flags O_DIRECT then exists s', x = Ok (inj (inl (- EINVAL)), s') /\ quiet s s'
  else exists o s2 s3, x = Ok (inj (inr o), s2) /\ o_file o = file_of r flags /\
    filp_close o s2 = Ok (0, s3) /\ quiet s s3 /\
    (is_dir s r = false -> o = OFile (file_of r flags) /\ s2 = use r s /\ s3 = s).

Section dentry_open.
Variable open_special : nat -> file -> M (Z + opened).
Context (s : kstate) (t : tree) (Hok : node_ok s t) (Hmem : mem s = []).

Lemma close_file f : is_Some (dentries s !! f_dentry f) -> filp_close (OFile f) (use (f_dentry f) s) = Ok (0, s).
Proof using Hok.
  intros Hf. unfold filp_close, fput. erewrite M_bind_ok; [reflexivity|].
  erewrite M_bind_ok by reflexivity. by eapply dput_use.
Qed.

Lemma open_file_ok r flags :
  is_Some (dentries s !! r) -> is_dir s r = false ->
  dentry_open_ open_special r flags (use r s)
  = Ok (if flag flags O_DIRECT then (inl (- EINVAL), s) else (inr (OFile (file_of r flags)), use r s)).
Proof using Hok.
  intros Hr Hk. destruct Hr as [d Hd]. destruct (nk_inode _ _ Hok _ _ Hd) as (ir & i & Hir & Hi & _ & _ & _ & _ & Ht).
  assert (Hreg : S_ISDIR (i_mode i) = false).
  { unfold is_dir in Hk. destruct (node_node_inode _ _ _ _ Hok Hd) as (ir' & i' & H1 & H2 & H3 & _). simplify_eq.
    by rewrite H3 in Hk. }
  destruct (typed_reg i Ht Hreg) as (_ & _ & Hfop). destruct (alike_dentry _ _ _ _ (use_alike r s) Hd) as (k & Hk').
  unfold dentry_open_. erewrite M_bind_ok by (by apply get_dentry_ok). cbn [d_inode set_d_count]. rewrite Hir.
  erewrite M_bind_ok by reflexivity. erewrite M_bind_ok by (by apply get_inode_ok). rewrite Hfop.
  destruct (flag flags O_DIRECT); [|done].
  erewrite M_bind_ok; [reflexivity|]. unfold fput. erewrite M_bind_ok by reflexivity. eapply dput_use; eauto.
Qed.

Lemma open_dir_ok r flags :
  is_dir s r = true ->
  exists df s1 s2, dcache_dir_open (file_of r flags) (use r s) = Ok ((0, Some df), s1) /\
    df_file df = file_of r flags /\ fput (ODir df) s1 = Ok (tt, s2) /\ quiet s s2 /\
    dentry_open_ open_special r flags (use r s)
    = (if flag flags O_DIRECT then fput (ODir df);; mret (inl (- EINVAL)) else mret (inr (ODir df))) s1.
Proof using Hok Hmem.
  intros Hk. destruct (is_dir_directory t s r Hok Hk) as (pd & pir & pi & Hdy & Hni & Ht).
  destruct (alike_directory _ _ _ _ _ _ (use_alike r s) Hdy) as (k & Hdy'). pose proof (use_ok s t Hok r) as Hok'.
  pose proof (open_ok (use r s) t r _ pir pi Hok' Hdy' (file_of r flags) Hmem eq_refl) as E.
  set (s1 := open_at _ _ _ _ _ _) in E. set (df := mkDirfile _ _ _) in E.
  destruct (dput_quiet s t Hok r (closed (use r s) (inodes s))) as (s2 & E2 & Hq & _).
  { destruct Hdy as [Hp _ _ _ _]. eauto. }
  { split; try done. simpl. lia. }
  exists df, s1, s2. split; [exact E|]. split; [done|]. split; [|split; [done|]].
  - unfold fput. erewrite M_bind_ok; cycle 1.
    { erewrite M_bind_ok; [reflexivity|]. by apply (close_ok (use r s) t r (set_d_count k pd) pir pi Hok' Hdy'). }
    exact E2.
  - unfold dentry_open_. destruct Hdy' as [Hp Hpir Hpi _ _].
    erewrite M_bind_ok by (by apply get_dentry_ok). rewrite Hpir. erewrite M_bind_ok by reflexivity.
    erewrite M_bind_ok by (by apply get_inode_ok). destruct Hdy as [_ _ _ Hdir _].
    destruct (typed_dir pi Ht Hdir) as [_ ->]. erewrite M_bind_ok by exact E. done.
Qed.

Lemma dentry_open_ok r flags :
  is_Some (dentries s !! r) -> opens id r flags s (dentry_open_ open_special r flags (use r s)).
Proof using Hok Hmem.
  intros Hr. unfold opens. destruct (is_dir s r) eqn:Hk.
  - destruct (open_dir_ok r flags Hk) as (df & s1 & s2 & E & Hf & Ec & Hq & ->). destruct (flag flags O_DIRECT).
    + exists s2. by erewrite M_bind_ok by exact Ec.
    + exists (ODir df), s1, s2. split; [done|]. split; [done|]. split; [|done].
      unfold filp_close. by erewrite M_bind_ok by exact Ec.
  - rewrite open_file_ok by done. destruct (flag flags O_DIRECT); [by exists s|].
    exists (OFile (file_of r flags)), (use r s), s. split; [done|]. split; [done|]. split; [|done].
    by apply (close_file (file_of r flags)).
Qed.
End dentry_open.

(** ** From the dentry to the file *)

Lemma with_inodes_at fs s nd m : with_inodes m (at_nd fs s nd) = at_nd fs (with_inodes m s) nd.
Proof. unfold at_nd, rooted. by repeat case_match. Qed.

Lemma cut_at_held fs s nd r b stamp n x :
  cut_at (at_nd fs s nd) r b stamp n x -> exists s1, cut_at s r b stamp n s1 /\ x = at_nd fs s1 nd.
Proof.
  intros (d & ir & i & i' & Hd & Hir & Hi & -> & Hc). pose proof (at_alike fs s nd) as Ha.
  rewrite (al_inodes _ _ Ha) in Hi |- *. rewrite (al_cur _ _ Ha) in Hc.
  assert (Hn : now (at_nd fs s nd) = now s) by (unfold at_nd, rooted; by repeat case_match). rewrite Hn in Hc.
  destruct (alike_dentry _ _ r d (symmetry Ha) Hd) as (k & Hk).
  eexists. split; [|apply with_inodes_at]. exists (set_d_count k d), ir, i, i'. by split_and!.
Qed.

(** What has a dentry has an inode of its own. *)
Lemma cut_at_is_dir s t r b stamp n s1 x : node_ok s t -> cut_at s r b stamp n s1 -> is_dir s1 x = is_dir s x.
Proof.
  intros Hok (d & ir & i & i' & Hd & Hir & Hi & -> & Hc). destruct b; [|subst; by rewrite with_inodes_id].
  destruct Hc as [_ _ _ Hs _ Hk _]. unfold is_dir, node_inode. simpl.
  destruct (dentries s !! x) as [xd|]; cbn [mbind option_bind]; [|done].
  destruct (d_inode xd) as [xir|]; cbn [mbind option_bind]; [|done]. rewrite lookup_insert.
  case_decide; [subst xir|done]. rewrite Hi. cbn [mbind option_bind].
  assert (Hc : i_count i' = i_count i) by (by rewrite Hs).
  destruct (nk_inode _ _ Hok _ _ Hd) as (? & ? & ? & ? & _ & Hm & _ & _ & Ht). simplify_eq.
  assert (i_mode i' <> 0).
  { intros E. destruct Ht as [(H & _)|(H & _)]; unfold ifmt in H; rewrite <- Hk, E in H; done. }
  rewrite !(proj2 (Z.eqb_neq _ 0)) by done. unfold S_ISDIR, ifmt. by rewrite Hk.
Qed.

Section held_open.
Context (fs : fs_struct) (open_special : nat -> file -> M (Z + opened)).
Context (s : kstate) (t : tree) (Hok : node_ok s t) (Hmem : mem s = []).
Context (Hroot : forall r, fs_root fs = Some r -> is_Some (dentries s !! r)).

Lemma at_put_root x nd :
  (x = s \/ exists r, x = use r s) -> put_root fs nd (rooted fs x nd) = Ok (tt, x).
Proof using Hok Hroot.
  intros Hx. apply put_root_any. intros r Hr.
  assert (is_Some (dentries x !! r)) as [d Hrd].
  { destruct Hx as [->|[y ->]]; [|apply use_is_Some]; auto. }
  exists d. split; [done|].
  assert (node_ok x t) as Hokx by (destruct Hx as [->|[y ->]]; [done|by apply use_ok]).
  pose proof (node_count _ _ _ _ Hokx Hrd). lia.
Qed.

(** A dentry that holds still for a file: with the root of the walk held too, it is
    no directory. *)
Lemma held_open_ok nd flags :
  is_Some (dentries s !! nd_path nd) -> nd_root nd = false \/ is_dir s (nd_path nd) = false ->
  opens Some (nd_path nd) flags s
    ((filp ← dentry_open_ open_special (nd_path nd) flags; put_root fs nd;; mret (Some filp)) (at_nd fs s nd)).
Proof using Hok Hmem Hroot.
  intros Hr Hor. set (r := nd_path nd) in *. destruct (is_dir s r) eqn:Hk.
  - destruct Hor as [Hnr|]; [|done]. assert (rooted fs s nd = s) as Ers by (unfold rooted; by rewrite Hnr).
    unfold at_nd. fold r. rewrite Ers. pose proof (dentry_open_ok open_special s t Hok Hmem r flags Hr) as H.
    assert (Ep : forall x, put_root fs nd x = Ok (tt, x)) by (unfold put_root; by rewrite Hnr).
    unfold opens in *. destruct (flag flags O_DIRECT).
    + destruct H as (s' & E & Hq). exists s'. split; [|done]. erewrite M_bind_ok by exact E. by erewrite M_bind_ok by apply Ep.
    + destruct H as (o & s2 & s3 & E & H). exists o, s2, s3. split; [|done].
      erewrite M_bind_ok by exact E. by erewrite M_bind_ok by apply Ep.
  - assert (Hkr : is_dir (rooted fs s nd) r = false) by (by rewrite (alike_is_dir _ _ _ (rooted_alike fs s nd))).
    pose proof (open_file_ok open_special (rooted fs s nd) t (rooted_ok fs s t Hok nd) r flags) as E.
    unfold at_nd. fold r. unfold opens. rewrite rooted_some in E. specialize (E Hr Hkr).
    destruct (flag flags O_DIRECT).
    + exists s. split; [|done]. erewrite M_bind_ok by exact E. by erewrite M_bind_ok by (apply at_put_root; auto).
    + exists (OFile (file_of r flags)), (use r s), s. split; [|split; [done|split; [|done]]].
      * erewrite M_bind_ok by exact E. rewrite use_rooted. erewrite M_bind_ok; [done|]. apply at_put_root. eauto.
      * by eapply (close_file s t Hok (file_of r flags)).
Qed.
End held_open.

Section found.
Context (env : io_env) (nodev : bool) (fs : fs_struct) (open_special : nat -> file -> M (Z + opened)).
Context (s : kstate) (t : tree) (Hok : node_ok s t) (Hmem : mem s = []) (Hfi : files_ok s).
Context (Hroot : forall r, fs_root fs = Some r -> is_Some (dentries s !! r)).

Lemma open_found_ok nd open_flag fl acc i :
  let r := nd_path nd in
  is_Some (dentries s !! r) -> nd_root nd = false \/ is_dir s r = false -> node_inode s r = Some i ->
  let e := access_errno (cur s) i acc fl in
  let x := open_found env nodev fs open_special open_flag fl acc nd (at_nd fs s nd) in
  (e <> 0 -> exists s', x = Ok (Some (inl e), s') /\ quiet s s') /\
  (e = 0 -> exists s1, cut_at s r (flag fl O_TRUNC) true 0 s1 /\ opens Some r open_flag s1 x).
Proof using Hok Hmem Hfi Hroot.
  intros r Hr Hor Hni e x. destruct (node_inode_inv _ _ _ Hni) as (d & ir & Hd & Hir & Hi & _).
  destruct (nk_inode _ _ Hok _ _ Hd) as (? & ? & ? & ? & _ & _ & _ & _ & Ht). simplify_eq.
  pose proof (at_alike fs s nd) as Ha. destruct (alike_dentry _ _ _ _ Ha Hd) as (k & Hk).
  destruct (may_open_ok env nodev r (set_d_count k d) ir i acc fl (at_nd fs s nd)) as (s1' & E & Hc); try done;
    [by rewrite (al_inodes _ _ Ha)|exact (Hfi _ _ Hi)|].
  rewrite (al_cur _ _ Ha) in E, Hc. fold e in E, Hc. destruct (cut_at_held _ _ _ _ _ _ _ _ Hc) as (s1 & Hc1 & ->).
  unfold x, open_found. erewrite M_bind_ok by exact E. destruct (Z.eqb_spec e 0) as [He|He]; cbn [negb andb] in *.
  - split; [done|]. intros _. exists s1. split; [done|]. destruct (cut_at_ok _ _ _ _ _ _ _ Hok Hc1) as [Hok1 Hst].
    assert (Hdom : forall y, is_Some (dentries s1 !! y) <-> is_Some (dentries s !! y)).
    { destruct Hc1 as (? & ? & ? & ? & _ & _ & _ & -> & _). done. }
    apply (held_open_ok fs open_special s1 t); try done; [by rewrite (st_mem _ _ Hst)|..].
    { intros y Hy. by apply Hdom, Hroot. }
    { by apply Hdom. }
    destruct Hor as [|Hkd]; [by left|right]. by rewrite (cut_at_is_dir _ _ _ _ _ _ _ _ Hok Hc1).
  - apply cut_at_none in Hc1 as ->. split; [|done]. intros _. by apply (exit_open_ok fs s t).
Qed.
End found.

(** ** Creating *)

Section creating.
Context (fs : fs_struct) (s : kstate) (t : tree) (q : nat) (pd : dentry) (c : list Z) (nd : nameidata).
Context (Hok : node_ok s t) (Hq : dentries s !! q = Some pd) (Hnd : nd_path nd = q).
Context (Hroot : forall r, fs_root fs = Some r -> is_Some (dentries s !! r)).

Lemma below_at pd' x :
  dentries (at_nd fs s nd) !! q = Some pd' ->
  forall rest, dentries rest = <[fresh s := x]> (<[q := add_sub (fresh s) pd]> (dentries s)) ->
  <[fresh s := x]> (<[q := add_sub (fresh s) pd']> (dentries (at_nd fs s nd))) = dentries (at_nd fs rest nd).
Proof using Hok Hq Hnd Hroot.
  intros Hpd' rest Er. unfold at_nd, rooted in *. rewrite Hnd in *.
  destruct (nd_root nd), (fs_root fs) as [r|] eqn:Ef.
  2-4: rewrite (more_used_at s q pd Hq) in Hpd'; injection Hpd' as <-; rewrite (below_use s t q pd) by eauto;
    cbn [use with_dentries dentries]; by rewrite Er.
  pose proof (more_used_at s q pd Hq r) as Hq1. pose proof (use_ok s t Hok r) as Hok1.
  rewrite (more_used_at (use r s) q _ Hq1) in Hpd'. injection Hpd' as <-.
  etransitivity; [exact (below_use (use r s) t q _ Hok1 Hq1 q x ltac:(eauto))|].
  change (fresh (use r s)) with (fresh s). rewrite (below_use s t q pd Hok Hq r x) by auto.
  cbn [use with_dentries dentries]. by rewrite Er.
Qed.

Lemma looked_at pd' :
  dentries (at_nd fs s nd) !! q = Some pd' ->
  looked_up q pd' c (at_nd fs s nd) = at_nd fs (looked_up q pd c s) nd.
Proof using Hok Hq Hnd Hroot.
  intros Hpd'. pose proof (below_at pd' (child_dentry q c) Hpd' (looked_up q pd c s) eq_refl) as E.
  assert (Hf : fresh (at_nd fs s nd) = fresh s) by (unfold at_nd, rooted; by repeat case_match).
  unfold looked_up at 1. rewrite Hf, E. unfold at_nd, rooted. by repeat case_match.
Qed.

Lemma created_at pd' pir pi mode k addr port msg :
  dentries (at_nd fs s nd) !! q = Some pd' ->
  sent_one addr port msg (created q pd' pir pi c mode k (at_nd fs s nd))
  = at_nd fs (sent_one addr port msg (created q pd pir pi c mode k s)) nd.
Proof using Hok Hq Hnd Hroot.
  intros Hpd'. pose proof (below_at pd' (mkDentry k true (Some (S (fresh s))) q c [] true false) Hpd'
    (sent_one addr port msg (created q pd pir pi c mode k s)) eq_refl) as E.
  assert (Hf : fresh (at_nd fs s nd) = fresh s) by (unfold at_nd, rooted; by repeat case_match).
  unfold created at 1. rewrite Hf, E. unfold at_nd, rooted. by repeat case_match.
Qed.
End creating.

Lemma created_used q pd pir pi c mode s addr port msg :
  sent_one addr port msg (created q pd pir pi c mode 2 s)
  = use (fresh s) (sent_one addr port msg (created q pd pir pi c mode 1 s)).
Proof.
  unfold use, sent_one, with_net, with_dentries. simpl. unfold created. simpl. f_equal.
  apply map_eq. intros x. rewrite lookup_alter, !lookup_insert. by repeat case_decide.
Qed.

(** The node after vfs_create and a dput is the node after mknodat. *)
Lemma vfs_made (pointer : block -> block * nat -> Z -> va -> printf_spec -> res (block * nat)) stack s t q pd pir pi c mode :
  fit stack s t -> directory s q pd pir pi -> may_change s pi -> component c ->
  d_lookup_in (d_hash s) (dentries s) q c = None ->
  let m' := Z.lor (Z.lor (Z.land mode S_IALLUGO) S_IFREG) S_IFREG in
  let s1 := sent_one test_addr (htons test_port) (told s pd pi c m') (created q pd pir pi c m' 1 s) in
  made s t S_IFREG 0 q pd pir pi c s1 /\ steady s s1.
Proof.
  intros Hft Hdy Hw Hc Hmiss m' s1. set (mode0 := Z.land mode S_IALLUGO).
  assert (Hm0 : Z.land mode0 (Z.lnot 0) = mode0) by apply Z.land_m1_r.
  assert (Hmm : Z.land mode0 S_IALLUGO = mode0) by (unfold mode0; by rewrite <- Z.land_assoc, Z.land_diag).
  assert (Hf0 : Z.land mode0 S_IFMT = 0) by apply perm_no_fmt.
  assert (Hnd : S_ISDIR mode0 = false) by (unfold S_ISDIR, ifmt; by rewrite Hf0).
  destruct (mknod_local pointer stack s t q pd pir pi c mode0 0 Hft Hdy Hw Hc Hmiss Hnd) as
    (s' & E & Hok' & Hen & (Hst & Hg & Htb) & Hsent); [rewrite Hm0; by left|].
  assert (s' = s1) as ->; [|by split; [split; [|split; [|split; [|split]]]|]].
  destruct Hft as [Hb Hok Hm Hon]. pose proof Hdy as [Hp Hpir Hpi Hdir Hl].
  pose proof (mknodat_ok pointer stack Hb s t q pd pir pi c Hok Hm Hon Hw Hp Hpir Hpi Hdir Hc Hl Hmiss mode0 0) as E'.
  cbv zeta in E'. rewrite Hm0, Hmm in E'. pose proof (eq_trans (eq_sym (E' Hnd (or_introl Hf0))) E) as Es. by injection Es as <-.
Qed.

Lemma new_access c i fl : S_ISDIR (i_mode i) = false -> i_uid i = fsuid c -> access_errno c i 0 fl = 0.
Proof.
  intros Hk Hu. unfold access_errno. rewrite Hk. cbn [andb].
  assert (generic_permission c i 0 = 0) as ->.
  { unfold generic_permission, acl_permission_check. rewrite !Z.land_0_l. done. }
  unfold is_owner_or_cap. rewrite Hu, !Z.eqb_refl. by destruct (flag fl O_NOATIME).
Qed.

Lemma no_trunc fl : flag (Z.land fl (Z.lnot O_TRUNC)) O_TRUNC = false.
Proof. unfold flag. by rewrite land_cleared. Qed.

Lemma rooted_count fs x nd r d :
  dentries x !! r = Some d -> 0 < d_count d -> exists d', dentries (rooted fs x nd) !! r = Some d' /\ d_count d' <> 0.
Proof.
  intros Hd Hc. unfold rooted. destruct (nd_root nd); [|exists d; split; [done|lia]].
  destruct (fs_root fs) as [a|]; [|exists d; split; [done|lia]]. simpl. rewrite lookup_alter. case_decide.
  - subst a. rewrite Hd. eexists. split; [done|]. simpl. lia.
  - exists d. split; [done|lia].
Qed.

(** The dentries of [s] are all held in the state with a new name. *)
Lemma looked_count s t q pd c r :
  node_ok s t -> dentries s !! q = Some pd -> is_Some (dentries s !! r) ->
  exists d, dentries (looked_up q pd c s) !! r = Some d /\ d_count d <> 0.
Proof.
  intros Hok Hq [d Hd]. destruct (fresh_child _ _ _ _ Hok Hq) as (Hfn & _ & _ & _ & Hcnt).
  pose proof (node_count _ _ _ _ Hok Hd). simpl. rewrite lookup_insert_ne by congruence. rewrite lookup_insert.
  case_decide; eexists; (split; [done|]); simpl; lia.
Qed.

(** ** The answer of open *)

(** What open finds: an error, an entry [r], a free name [c] in directory [q], or a
    path out of the mount. *)
Inductive answer := Refused (e : Z) | Found (r : nat) | Fresh (q : nat) (c : list Z) | Away.

Definition judged (s : kstate) (fl : Z) (r : nat) : answer :=
  match node_inode s r with
  | Some i => let e := access_errno (cur s) i (open_acc_mode fl) fl in if e =? 0 then Found r else Refused e
  | None => Away
  end.

Definition last_answer (s : kstate) (fl : Z) (q : nat) (c : list Z) : answer :=
  match node_inode s q with
  | None => Away
  | Some pi =>
      let e := lookup_errno s q pi c in
      if negb (e =? 0) then Refused e
      else match d_lookup_in (d_hash s) (dentries s) q c with
           | Some r =>
               if flag fl O_EXCL then Refused (- EEXIST)
               else if is_dir s r then Refused (- EISDIR) else judged s fl r
           | None =>
               let e := generic_permission (cur s) pi (Z.lor MAY_WRITE MAY_EXEC) in
               if e =? 0 then Fresh q c else Refused e
           end
  end.

(** A file without bytes. *)
Definition empty_at (s : kstate) (r : nat) : Prop :=
  exists i, node_inode s r = Some i /\ S_ISDIR (i_mode i) = false /\ i_size i = 0.

(** A call, for its answer: an error that changed nothing, the file opened and cut
    where O_TRUNC says so, or a new file. *)
Definition responds (s : kstate) (t : tree) (flags : Z) (a : answer) (x : res (option (Z + opened) * kstate)) : Prop :=
  match a with
  | Refused e => e <> 0 /\ exists s', x = Ok (Some (inl e), s') /\ quiet s s'
  | Found r => exists s1, cut_at s r (flag (open_to_namei_flags flags) O_TRUNC) true 0 s1 /\ opens Some r flags s1 x
  | Fresh q c => exists pd pir pi s1, directory s q pd pir pi /\ made s t S_IFREG 0 q pd pir pi c s1 /\
      steady s s1 /\ empty_at s1 (fresh s) /\ opens Some (fresh s) flags s1 x
  | Away => exists s', x = Ok (None, s') /\ quiet s s'
  end.

Section create.
Variable pointer : block -> block * nat -> Z -> va -> printf_spec -> res (block * nat).
Context (stack : autos) (env : io_env) (nodev : bool) (umask : Z) (fs : fs_struct).
Context (do_link : nat -> nameidata -> M (option (Z + opened))) (open_special : nat -> file -> M (Z + opened)).
#[local] Instance open_ops : InodeOps := wjfs_ops pointer stack.

Context (s : kstate) (t : tree) (Hft : fit stack s t) (Hfi : files_ok s).
Context (Hroot : forall r, fs_root fs = Some r -> is_Some (dentries s !! r)).
Context (nd : nameidata) (pd : dentry) (pir : nat) (pi : inode) (c : list Z).
Context (Hdy : directory s (nd_path nd) pd pir pi) (Hc : plain c) (Hlast : nd_last nd = c).

#[local] Abbreviation q := (nd_path nd).
#[local] Abbreviation refused := (generic_permission (cur s) pi (Z.lor MAY_WRITE MAY_EXEC)).

(** The directory as the walk holds it, and the lookup of a new name in it. *)
Lemma new_name :
  lookup_errno s q pi c = 0 -> d_lookup_in (d_hash s) (dentries s) q c = None ->
  exists pd', directory (at_nd fs s nd) q pd' pir pi /\ d_name pd' = d_name pd /\ component c /\
    lookup_hash c q (at_nd fs s nd) = Ok (DPtr (fresh s), at_nd fs (looked_up q pd c s) nd) /\
    looked_up q pd' c (at_nd fs s nd) = at_nd fs (looked_up q pd c s) nd.
Proof using Hft Hroot Hdy Hc.
  intros He Hmiss. destruct Hft as [_ Hok Hm _]. pose proof (at_alike fs s nd) as Ha.
  destruct (alike_directory _ _ _ _ _ _ Ha Hdy) as (k & Hdy').
  pose proof (at_ok fs s t Hok nd) as Hok'. pose proof (at_mem fs s Hm nd) as Hm'.
  assert (He' : lookup_errno (at_nd fs s nd) q pi c = 0) by (by rewrite (alike_lookup_errno _ _ _ _ _ Ha)).
  destruct (lookup_allowed pointer stack _ t q _ pir pi c Hok' Hm' Hdy' Hc He') as [_ H].
  rewrite (alike_lookup _ _ _ _ Ha), Hmiss in H. destruct H as [Hcc E].
  assert (Hf : fresh (at_nd fs s nd) = fresh s) by (unfold at_nd, rooted; by repeat case_match).
  pose proof (looked_at fs s t q pd c nd Hok (dy_dentry _ _ _ _ _ Hdy) eq_refl Hroot _ (dy_dentry _ _ _ _ _ Hdy')) as El.
  exists (set_d_count k pd). split_and!; try done. etransitivity; [exact E|]. by rewrite Hf, El.
Qed.

(** The caller may not: everything is given back. *)
Lemma open_new_refused open_flag fl acc mode :
  lookup_errno s q pi c = 0 -> d_lookup_in (d_hash s) (dentries s) q c = None -> refused <> 0 ->
  exists s', open_last env nodev umask fs do_link open_special open_flag fl acc mode nd (at_nd fs s nd)
    = Ok (Some (inl refused), s') /\ quiet s s'.
Proof using Hft Hroot Hdy Hc Hlast.
  intros He Hmiss Hre. destruct (new_name He Hmiss) as (pd' & Hdy' & _ & Hcc & E & El).
  pose proof (ft_ok _ _ _ Hft) as Hok. pose proof (at_alike fs s nd) as Ha. pose proof Hdy as [Hp Hpir _ _ _].
  destruct (fresh_child _ _ _ _ Hok Hp) as (Hfn & Hlt & _ & _ & Hcnt).
  set (X := looked_up q pd c s) in *.
  assert (HXq : dentries X !! q = Some (add_sub (fresh s) pd)).
  { simpl. rewrite lookup_insert_ne by lia. apply lookup_insert_eq. }
  exists (forgotten c s). split; [|apply forgotten_quiet]. unfold open_last. rewrite Hlast.
  erewrite M_bind_ok by exact E. cbn iota.
  assert (Hfd : exists k, dentries (at_nd fs X nd) !! fresh s = Some (set_d_count k (child_dentry q c))).
  { apply (alike_dentry X _ _ _ (at_alike fs X nd)). simpl. apply lookup_insert_eq. }
  destruct Hfd as (k & Hfd). erewrite M_bind_ok by (by apply get_dentry_ok). cbn [d_inode set_d_count child_dentry].
  assert (Hnew : open_namei_create env nodev umask (fresh s) fl mode nd (at_nd fs X nd)
                 = Ok ((refused, set_path (fresh s) nd), rooted fs X nd)).
  { unfold open_namei_create. destruct (alike_dentry _ _ _ _ (at_alike fs X nd) HXq) as (k' & Hk').
    erewrite M_bind_ok by (by apply get_dentry_ok). cbn [d_inode set_d_count add_sub set_d_subdirs]. rewrite Hpir.
    erewrite M_bind_ok by reflexivity. erewrite M_bind_ok; cycle 1.
    { pose proof (may_create_spec (at_nd fs s nd) t q pd' pir pi c (at_ok fs s t Hok nd) Hdy') as Hmc.
      assert (Hf : fresh (at_nd fs s nd) = fresh s) by (unfold at_nd, rooted; by repeat case_match).
      rewrite Hf, El, (al_cur _ _ Ha) in Hmc. unfold vfs_create. erewrite M_bind_ok by exact Hmc.
      rewrite (proj2 (Z.eqb_neq _ 0)) by done. reflexivity. }
    destruct (rooted_count fs X nd q _ HXq) as (dq & Hdq & Hc0); [simpl; lia|].
    erewrite M_bind_ok by (by apply (dput_any q dq)).
    by rewrite (proj2 (Z.eqb_neq _ 0)). }
  erewrite M_bind_ok by exact Hnew. cbn iota. rewrite (proj2 (Z.eqb_neq _ 0)) by done. cbn [negb].
  unfold exit_open. erewrite M_bind_ok; cycle 1.
  { change (rooted fs X nd) with (rooted fs X (set_path (fresh s) nd)). apply put_root_any. intros r Hr.
    by apply (looked_count s t); auto. }
  cbn [nd_path set_path]. erewrite M_bind_ok; [reflexivity|]. by apply (put_looked s t q pd Hok Hp c).
Qed.

(** The new inode, open for its maker. *)
Lemma new_may_open m' msg fl :
  Z.land m' S_IFMT = S_IFREG ->
  let s1 := sent_one test_addr (htons test_port) msg (created q pd pir pi c m' 1 s) in
  node_ok s1 (add_child q (fresh s) t) -> files_ok s1 ->
  empty_at s1 (fresh s) /\
  forall nd', may_open env nodev (fresh s) 0 (Z.land fl (Z.lnot O_TRUNC)) (at_nd fs s1 nd') = Ok (0, at_nd fs s1 nd').
Proof using Hft Hdy.
  intros Hm s1 Hok1 Hf1. pose proof (ft_ok _ _ _ Hft) as Hok. pose proof Hdy as [Hp Hpir Hpi _ _].
  assert (Hne : S (fresh s) <> pir) by (assert (pir < fresh s)%nat by (apply (nk_ifresh _ _ Hok); eauto); lia).
  assert (Hd : dentries s1 !! fresh s = Some (mkDentry 1 true (Some (S (fresh s))) q c [] true false))
    by apply lookup_insert_eq.
  assert (Hi : inodes s1 !! S (fresh s) = Some (inherit pi m' (made_inode s m'))).
  { simpl. rewrite lookup_insert_ne by done. apply lookup_insert_eq. }
  destruct (nk_inode _ _ Hok1 _ _ Hd) as (? & i & [= <-] & Hi' & _ & _ & _ & _ & Ht). rewrite Hi in Hi'. injection Hi' as <-.
  assert (Hk : S_ISDIR (i_mode (inherit pi m' (made_inode s m'))) = false).
  { unfold S_ISDIR, ifmt. rewrite inherit_fmt. cbn [made_inode i_mode]. by rewrite Hm. }
  split.
  - destruct (node_node_inode _ _ _ _ Hok1 Hd) as (? & i & [= <-] & Hi' & Hni & _).
    rewrite Hi in Hi'. injection Hi' as <-. eexists. split; [exact Hni|]. split; [done|].
    unfold inherit. by destruct (negb _).
  - intros nd'. pose proof (at_alike fs s1 nd') as Ha. destruct (alike_dentry _ _ _ _ Ha Hd) as (k & Hk').
    destruct (may_open_ok env nodev (fresh s) _ (S (fresh s)) (inherit pi m' (made_inode s m')) 0
      (Z.land fl (Z.lnot O_TRUNC)) (at_nd fs s1 nd') Hk') as (s2 & E & Hc2); try done;
      [by rewrite (al_inodes _ _ Ha)|exact (Hf1 _ _ Hi)|].
    rewrite no_trunc, andb_false_r in Hc2. apply cut_at_none in Hc2 as ->.
    rewrite (al_cur _ _ Ha), new_access in E; [done|done|]. unfold inherit. by destruct (negb _).
Qed.

(** vfs_create with the references of the walk. *)
Lemma vfs_create_held m :
  lookup_errno s q pi c = 0 -> d_lookup_in (d_hash s) (dentries s) q c = None -> refused = 0 ->
  let m' := Z.lor (Z.lor (Z.land m S_IALLUGO) S_IFREG) S_IFREG in
  let s1 := sent_one test_addr (htons test_port) (told s pd pi c m') (created q pd pir pi c m' 1 s) in
  vfs_create pir (fresh s) m (at_nd fs (looked_up q pd c s) nd) = Ok (0, at_nd fs (use (fresh s) s1) nd).
Proof using Hft Hroot Hdy Hc.
  intros He Hmiss Hre m' s1. destruct (new_name He Hmiss) as (pd' & Hdy' & Hpn & Hcc & E & El).
  pose proof Hft as [Hb Hok Hm Hon]. pose proof (at_alike fs s nd) as Ha. pose proof Hdy as [Hp _ _ _ _].
  pose proof (vfs_create_ok pointer stack Hb (at_nd fs s nd) t q pd' pir pi c (at_ok fs s t Hok nd)
    (at_mem fs s Hm nd)) as Ec. destruct Hdy' as [Hp' Hpir' Hpi' Hdir' Hl'].
  assert (Hon' : online (at_nd fs s nd)) by (unfold at_nd, rooted; by repeat case_match).
  assert (Hw' : may_change (at_nd fs s nd) pi) by (unfold may_change; by rewrite (al_cur _ _ Ha)).
  specialize (Ec Hon' Hw' Hp' Hpir' Hpi' Hdir' Hcc Hl' m). cbv zeta in Ec.
  assert (Hf : fresh (at_nd fs s nd) = fresh s) by (unfold at_nd, rooted; by repeat case_match).
  assert (Hla : last_ino (at_nd fs s nd) = last_ino s) by (unfold at_nd, rooted; by repeat case_match).
  rewrite Hf, El in Ec. fold m' in Ec.
  rewrite (created_at fs s t q pd c nd Hok Hp eq_refl Hroot pd') in Ec by done.
  assert (told (at_nd fs s nd) pd' pi c m' = told s pd pi c m') as Et by (unfold told; by rewrite Hla, Hpn).
  rewrite Et, created_used in Ec. exact Ec.
Qed.

(** __open_namei_create of a new name: the reference is on the file now. *)
Lemma namei_created fl mode :
  lookup_errno s q pi c = 0 -> d_lookup_in (d_hash s) (dentries s) q c = None -> refused = 0 ->
  let m' := Z.lor (Z.lor (Z.land (Z.land mode (Z.lnot umask)) S_IALLUGO) S_IFREG) S_IFREG in
  let s1 := sent_one test_addr (htons test_port) (told s pd pi c m') (created q pd pir pi c m' 1 s) in
  node_ok s1 (add_child q (fresh s) t) -> files_ok s1 ->
  open_namei_create env nodev umask (fresh s) fl mode nd (at_nd fs (looked_up q pd c s) nd)
  = Ok ((0, set_path (fresh s) nd), at_nd fs s1 (set_path (fresh s) nd)).
Proof using Hft Hroot Hdy Hc.
  intros He Hmiss Hre m' s1 Hok1 Hf1. destruct (new_may_open m' _ fl (reg_mode _) Hok1 Hf1) as [_ Hmay].
  pose proof (ft_ok _ _ _ Hft) as Hok. pose proof Hdy as [Hp Hpir _ _ _].
  destruct (fresh_child _ _ _ _ Hok Hp) as (_ & Hlt & _ & _ & Hcnt). unfold open_namei_create.
  assert (HXq : dentries (looked_up q pd c s) !! q = Some (add_sub (fresh s) pd)).
  { simpl. rewrite lookup_insert_ne by lia. apply lookup_insert_eq. }
  destruct (alike_dentry _ _ _ _ (at_alike fs _ nd) HXq) as (k' & Hk').
  erewrite M_bind_ok by (by apply get_dentry_ok). cbn [d_inode set_d_count add_sub set_d_subdirs]. rewrite Hpir.
  erewrite M_bind_ok by reflexivity. erewrite M_bind_ok by exact (vfs_create_held _ He Hmiss Hre).
  assert (Hdq : dentries (use (fresh s) s1) !! q = Some (add_sub (fresh s) pd)).
  { simpl. rewrite lookup_alter_ne, lookup_insert_ne by lia. apply lookup_insert_eq. }
  destruct (rooted_count fs (use (fresh s) s1) nd q _ Hdq) as (dr & Hdr & Hdrc); [simpl; lia|].
  erewrite M_bind_ok by (by apply (dput_any q dr)). change (negb (0 =? 0)) with false. cbn iota.
  fold m'. fold s1. rewrite <- use_rooted. by erewrite M_bind_ok by exact (Hmay (set_path (fresh s) nd)).
Qed.

Lemma open_new_ok open_flag fl acc mode :
  lookup_errno s q pi c = 0 -> d_lookup_in (d_hash s) (dentries s) q c = None -> refused = 0 ->
  exists s1, made s t S_IFREG 0 q pd pir pi c s1 /\ steady s s1 /\ empty_at s1 (fresh s) /\
    opens Some (fresh s) open_flag s1
      (open_last env nodev umask fs do_link open_special open_flag fl acc mode nd (at_nd fs s nd)).
Proof using Hft Hfi Hroot Hdy Hc Hlast.
  intros He Hmiss Hre. destruct (new_name He Hmiss) as (pd' & _ & _ & Hcc & E & _).
  pose proof Hft as [_ _ Hm _].
  destruct (vfs_made pointer stack s t q pd pir pi c (Z.land mode (Z.lnot umask)) Hft Hdy Hre Hcc Hmiss) as [Hmade Hst].
  pose proof (namei_created fl mode He Hmiss Hre) as Hnew. cbv zeta in Hnew.
  set (m' := Z.lor _ S_IFREG) in *. set (s1 := sent_one _ _ _ _) in *. exists s1. split; [done|]. split; [done|].
  pose proof (st_files _ _ Hst Hfi) as Hf1. destruct Hmade as [Hok1 _]. specialize (Hnew Hok1 Hf1).
  destruct (new_may_open m' _ fl (reg_mode _) Hok1 Hf1) as [He1 _]. split; [done|].
  assert (Hk1 : is_dir s1 (fresh s) = false).
  { destruct He1 as (i & Hni & Hk & _). unfold is_dir. fold s1 in Hni. by rewrite Hni. }
  assert (Hroot1 : forall r, fs_root fs = Some r -> is_Some (dentries s1 !! r)).
  { intros r Hr. destruct (Hroot r Hr) as [d Hd]. unfold s1. simpl. rewrite !lookup_insert. repeat case_decide; eauto. }
  unfold open_last. rewrite Hlast. erewrite M_bind_ok by exact E. cbn iota.
  assert (exists k, dentries (at_nd fs (looked_up q pd c s) nd) !! fresh s = Some (set_d_count k (child_dentry q c)))
    as (k & Hfd).
  { apply (alike_dentry _ _ _ _ (at_alike fs _ nd)). simpl. apply lookup_insert_eq. }
  erewrite M_bind_ok by (by apply get_dentry_ok). cbn [d_inode set_d_count child_dentry].
  erewrite M_bind_ok by exact Hnew. cbn iota beta. change (negb (0 =? 0)) with false. cbn iota.
  apply (held_open_ok fs open_special s1 _ Hok1); [by rewrite (st_mem _ _ Hst)|done| |by right].
  unfold s1. simpl. rewrite lookup_insert_eq. eauto.
Qed.

(** A name that is there. *)
Lemma open_old_ok open_flag mode r :
  let fl := open_to_namei_flags open_flag in
  lookup_errno s q pi c = 0 -> d_lookup_in (d_hash s) (dentries s) q c = Some r ->
  responds s t open_flag
    (if flag fl O_EXCL then Refused (- EEXIST) else if is_dir s r then Refused (- EISDIR) else judged s fl r)
    (open_last env nodev umask fs do_link open_special open_flag fl (open_acc_mode fl) mode nd (at_nd fs s nd)).
Proof using Hft Hfi Hroot Hdy Hc Hlast.
  intros fl He Hf. pose proof Hft as [_ Hok Hm _]. pose proof (at_alike fs s nd) as Ha.
  destruct (alike_directory _ _ _ _ _ _ Ha Hdy) as (k & Hdy').
  pose proof (at_ok fs s t Hok nd) as Hok'. pose proof (at_mem fs s Hm nd) as Hm'.
  assert (He' : lookup_errno (at_nd fs s nd) q pi c = 0) by (by rewrite (alike_lookup_errno _ _ _ _ _ Ha)).
  destruct (lookup_allowed pointer stack _ t q _ pir pi c Hok' Hm' Hdy' Hc He') as [_ H].
  rewrite (alike_lookup _ _ _ _ Ha), Hf in H. destruct H as (d & Hd & _ & _ & E). rewrite use_insert in E by done.
  destruct (d_lookup_found _ _ _ _ _ Hf) as (d0 & Hd0 & _).
  destruct (node_node_inode _ _ _ _ Hok Hd0) as (ir & i & Hir & Hi & Hni & _).
  assert (Ht : typed i) by (destruct (nk_inode _ _ Hok _ _ Hd0) as (? & ? & ? & ? & _ & _ & _ & _ & Ht); by simplify_eq).
  assert (Hq : is_Some (dentries s !! q)) by (destruct Hdy as [Hp _ _ _ _]; eauto).
  assert (Hdir : is_dir s r = S_ISDIR (i_mode i)) by (unfold is_dir; by rewrite Hni).
  unfold open_last. rewrite Hlast. erewrite M_bind_ok by exact E. cbn iota.
  destruct (alike_dentry _ _ _ _ (use_alike r (at_nd fs s nd)) Hd) as (k1 & Hk1).
  destruct (alike_dentry _ _ _ _ Ha Hd0) as (k2 & Hk2). rewrite Hd in Hk2. injection Hk2 as ->.
  erewrite M_bind_ok by (by apply get_dentry_ok). cbn [d_inode set_d_count]. rewrite Hir.
  destruct (flag fl O_EXCL).
  { split; [done|]. erewrite M_bind_ok by (eapply dput_use; [done|eauto]). by apply (exit_open_ok fs s t). }
  erewrite M_bind_ok by (apply get_inode_ok; by rewrite (al_inodes _ _ (use_alike r (at_nd fs s nd))), (al_inodes _ _ Ha)).
  assert (follows (i_op i) = false) as -> by (by destruct Ht as [(_ & -> & _)|(_ & -> & _)]).
  erewrite (M_bind_ok _ _ _ (set_path r nd) (at_nd fs s (set_path r nd))); cycle 1.
  { unfold path_to_nameidata. unfold at_nd at 1. rewrite use_comm. erewrite M_bind_ok; [reflexivity|].
    eapply dput_use; [apply use_ok, rooted_ok, Hok|]. by apply use_is_Some, rooted_some. }
  rewrite Hdir. destruct (S_ISDIR (i_mode i)) eqn:Hk.
  { split; [done|]. apply (exit_open_ok fs s t Hok Hroot); [cbn; eauto|done]. }
  unfold judged. rewrite Hni.
  destruct (open_found_ok env nodev fs open_special s t Hok Hm Hfi Hroot (set_path r nd) open_flag fl (open_acc_mode fl) i)
    as [Hre Hgo]; cbn [nd_path set_path]; [eauto|by right; rewrite Hdir|done|].
  cbn [nd_path set_path] in Hre, Hgo. destruct (Z.eqb_spec (access_errno (cur s) i (open_acc_mode fl) fl) 0); [by apply Hgo|].
  split; [done|]. by apply Hre.
Qed.

Lemma open_last_ok open_flag mode :
  let fl := open_to_namei_flags open_flag in
  node_inode s q = Some pi ->
  responds s t open_flag (last_answer s fl q c)
    (open_last env nodev umask fs do_link open_special open_flag fl (open_acc_mode fl) mode nd (at_nd fs s nd)).
Proof using Hft Hfi Hroot Hdy Hc Hlast.
  intros fl Hni. unfold last_answer. rewrite Hni. destruct (Z.eqb_spec (lookup_errno s q pi c) 0) as [He|He]; cbn [negb].
  - destruct (d_lookup_in (d_hash s) (dentries s) q c) as [r|] eqn:Hf; [by apply open_old_ok|].
    cbv zeta. destruct (Z.eqb_spec refused 0) as [Hre|Hre].
    + destruct (open_new_ok open_flag fl (open_acc_mode fl) mode He Hf Hre) as (s1 & H). by exists pd, pir, pi, s1.
    + split; [done|]. by apply open_new_refused.
  - split; [done|]. pose proof Hft as [_ Hok Hm _]. pose proof (at_alike fs s nd) as Ha.
    destruct (alike_directory _ _ _ _ _ _ Ha Hdy) as (k & Hdy').
    destruct (lookup_refused pointer stack (at_nd fs s nd) t q _ pir pi c (at_ok fs s t Hok nd) (at_mem fs s Hm nd) Hdy' Hc)
      as (s' & E & Hq); [by rewrite (alike_lookup_errno _ _ _ _ _ Ha)|].
    rewrite (alike_lookup_errno _ _ _ _ _ Ha) in E. unfold open_last. rewrite Hlast. erewrite M_bind_ok by exact E.
    apply (exit_open_ok fs s t Hok Hroot); [|done]. destruct Hdy as [Hp _ _ _ _]. eauto.
Qed.
End create.

(** ** From the path name *)

Definition open_answer (s : kstate) (fs : fs_struct) (dfd : option nat) (name : list Z) (flags : Z) : answer :=
  let fl := open_to_namei_flags flags in
  if flag fl O_CREAT then
    match parent_place s fs dfd name with
    | Outside => Away
    | Fails e => Refused e
    | At q =>
        match last_norm name with
        | Some c => if ends_slash name then Refused (- EISDIR) else last_answer s fl q c
        | None => Refused (- EISDIR)
        end
    end
  else
    match named s fs dfd (last_place fs s (flag fl O_DIRECTORY || ends_slash name)) name with
    | Outside => Away
    | Fails e => Refused e
    | At r => judged s fl r
    end.

Lemma lookup_flags_dir fl : flag (lookup_flags fl) LOOKUP_DIRECTORY = flag fl O_DIRECTORY.
Proof. unfold lookup_flags. by destruct (flag fl O_NOFOLLOW), (flag fl O_DIRECTORY). Qed.

Lemma lookup_flags_parent fl : flag (lookup_flags fl) LOOKUP_PARENT = false.
Proof. unfold lookup_flags. by destruct (flag fl O_NOFOLLOW), (flag fl O_DIRECTORY). Qed.

Section path.
Variable pointer : block -> block * nat -> Z -> va -> printf_spec -> res (block * nat).
Context (stack : autos) (env : io_env) (nodev : bool) (umask : Z) (fs : fs_struct).
Context (follow : nat -> nameidata -> M walked).
Context (do_link : nat -> nameidata -> M (option (Z + opened))) (open_special : nat -> file -> M (Z + opened)).
#[local] Instance path_ops : InodeOps := wjfs_ops pointer stack.

Context (s : kstate) (t : tree) (Hft : fit stack s t) (Hfi : files_ok s) (Hfs : fs_ok s t fs).
Context (dfd : option nat) (name : list Z) (Hnz : Forall (fun b => b <> 0) name) (Hg : getname name = 0).
Context (Hdfd : forall r, dfd = Some r -> is_Some (dentries s !! r)).

Lemma root_there r : fs_root fs = Some r -> is_Some (dentries s !! r).
Proof using Hft Hfs. intros Hr. apply (is_dir_some s t (ft_ok _ _ _ Hft)). by apply (fo_root _ _ _ Hfs). Qed.

(** Without O_CREAT. *)
Lemma open_plain_ok flags :
  let fl := open_to_namei_flags flags in
  responds s t flags
    (match named s fs dfd (last_place fs s (flag fl O_DIRECTORY || ends_slash name)) name with
     | Outside => Away | Fails e => Refused e | At r => judged s fl r end)
    (open_plain env nodev fs follow open_special dfd name flags fl (open_acc_mode fl) s).
Proof using Hft Hfi Hfs Hnz Hg Hdfd.
  intros fl. pose proof Hft as [_ Hok Hm _].
  pose proof (path_lookup_ok pointer stack fs follow s t dfd name (lookup_flags fl) Hok Hm Hfs Hnz Hdfd
    (lookup_flags_parent fl)) as H.
  rewrite lookup_flags_dir in H. unfold user_path_at in H. rewrite Hg, lookup_flags_parent in H.
  change (negb (0 =? 0)) with false in H. cbn iota in H.
  unfold open_plain. erewrite M_bind_ok by (by apply alloc_ok). cbn [negb].
  destruct (named s fs dfd _ name) as [r|e|].
  - destruct H as (nd & E & Hp & Hr & _). erewrite M_bind_ok by exact E. change (negb (0 =? 0)) with false. cbn iota.
    rewrite Hp. destruct Hr as [d Hd]. destruct (node_node_inode _ _ _ _ Hok Hd) as (ir & i & _ & _ & Hni & _).
    unfold judged. rewrite Hni.
    destruct (open_found_ok env nodev fs open_special s t Hok Hm Hfi root_there (init_nd r false) flags fl
      (open_acc_mode fl) i) as [Hre Hgo]; cbn [nd_path init_nd]; [eauto|by left|done|].
    cbv zeta. destruct (Z.eqb_spec (access_errno (cur s) i (open_acc_mode fl) fl) 0); [by apply Hgo|].
    split; [done|]. by apply Hre.
  - destruct H as (He & nd & s' & E & Hq). split; [done|]. erewrite M_bind_ok by exact E. cbn iota.
    rewrite (proj2 (Z.eqb_neq e 0)) by done. by exists s'.
  - destruct H as (rest & nd & E). exists s. by erewrite M_bind_ok by exact E.
Qed.

(** With O_CREAT. *)
Lemma open_create_ok flags mode :
  let fl := open_to_namei_flags flags in
  responds s t flags
    (match parent_place s fs dfd name with
     | Outside => Away
     | Fails e => Refused e
     | At q =>
         match last_norm name with
         | Some c => if ends_slash name then Refused (- EISDIR) else last_answer s fl q c
         | None => Refused (- EISDIR)
         end
     end)
    (open_create env nodev umask fs follow do_link open_special dfd name flags fl (open_acc_mode fl) mode s).
Proof using Hft Hfi Hfs Hnz Hg Hdfd.
  intros fl. pose proof Hft as [_ Hok Hm _]. pose proof (parent_dir_of s t fs dfd name) as Hdir.
  unfold parent_place, named in *. rewrite Hg in *. change (negb (0 =? 0)) with false in *. cbn iota in *.
  assert (HQ : forall p b, components name = [] -> last_said name (init_nd p b)).
  { intros p b H0. unfold last_said. by rewrite H0. }
  pose proof (path_init_ok fs s t Hok Hfs (last_said name) name HQ dfd Hdfd) as Hst. unfold open_create.
  destruct (start s fs dfd name) as [p|e|].
  2: { destruct Hst as [He E]. split; [done|]. erewrite M_bind_ok by exact E. cbn iota beta.
       rewrite (proj2 (Z.eqb_neq e 0)) by done. by exists s. }
  2: { exists s. by erewrite M_bind_ok by exact Hst. }
  destruct Hst as (nd & E & <- & Hd & HQ'). erewrite M_bind_ok by exact E. cbn iota beta.
  assert (Hw : outcome fs s (last_said name) (lead s fs (fun p _ => At p) (nd_path nd) (components name))
                 (link_path_walk fs follow LOOKUP_PARENT name nd (at_nd fs s nd))).
  { apply (link_walk_ok pointer stack fs follow s t Hok Hm Hfs); try done.
    intros s1 nd1 c1 Hok1 _ _ _ Hl Hd1 _. by apply (parent_last_ok pointer stack fs follow s1 t). }
  destruct (lead s fs _ (nd_path nd) (components name)) as [q|e|].
  - destruct Hw as (nd' & E1 & Hp & Hq & Hsaid). erewrite M_bind_ok by exact E1. cbn iota. change (negb (0 =? 0)) with false. cbn iota.
    pose proof (last_norm_said _ _ Hsaid) as Hl. subst q. destruct (last_norm name) as [c|] eqn:Ec.
    + destruct Hl as (Hty & Hlc & Hsl). rewrite bool_decide_eq_true_2, Hsl by done. cbn [negb orb].
      destruct (ends_slash name).
      { split; [done|]. apply (exit_open_ok fs s t Hok root_there); done. }
      cbn iota. erewrite M_bind_ok by (apply alloc_ok, at_mem, Hm). cbn [negb].
      destruct (Hdir (nd_path nd') Hok Hfs eq_refl) as [Hqd _].
      destruct (is_dir_directory t s _ Hok Hqd) as (pd & pir & pi & Hdy & Hni & _).
      apply (open_last_ok pointer stack env nodev umask fs do_link open_special s t Hft Hfi root_there nd' pd pir pi c);
        try done. by eapply last_norm_plain.
    + rewrite bool_decide_eq_false_2 by done. cbn [negb orb]. split; [done|].
      apply (exit_open_ok fs s t Hok root_there); done.
  - destruct Hw as (He & nd' & s' & E1 & Hq). split; [done|]. erewrite M_bind_ok by exact E1. cbn iota.
    rewrite (proj2 (Z.eqb_neq e 0)) by done. cbn [negb].
    destruct (put_root_ok fs t s nd' s' Hok root_there Hq) as (s2 & E2 & Hq2 & _). exists s2. split; [|done].
    by erewrite M_bind_ok by exact E2.
  - destruct Hw as (rest & nd' & E1). exists s. split; [|done]. erewrite M_bind_ok by exact E1. cbn iota.
    erewrite M_bind_ok; [done|]. apply (at_put_root fs s t Hok root_there). by left.
Qed.
End path.

Lemma open_responds pointer stack env nodev umask fs follow do_link open_special s t dfd name flags mode :
  fit stack s t -> files_ok s -> fs_ok s t fs -> Forall (fun b => b <> 0) name ->
  (forall r, dfd = Some r -> is_Some (dentries s !! r)) ->
  responds s t flags (open_answer s fs dfd name flags)
    (@do_sys_open (wjfs_ops pointer stack) env nodev umask fs follow do_link open_special dfd name flags mode s).
Proof.
  intros Hft Hfi Hfs Hnz Hdfd. unfold do_sys_open, open_answer.
  destruct (Z.eqb_spec (getname name) 0) as [Hg|Hg]; cbn [negb].
  - unfold do_filp_open. destruct (flag (open_to_namei_flags flags) O_CREAT).
    + by apply (open_create_ok pointer stack).
    + by apply (open_plain_ok pointer stack).
  - unfold parent_place, named. rewrite (proj2 (Z.eqb_neq _ 0)) by done. cbn [negb].
    destruct (flag _ O_CREAT); (split; [done|by exists s]).
Qed.

(** ** What is left when the file is closed *)

(** The node can go on, and nobody holds more than before. *)
Definition back (stack : autos) (s s' : kstate) : Prop :=
  (exists t', fit stack s' t') /\ files_ok s' /\ same_users s s'.

Lemma steady_fit stack s t s' t' : fit stack s t -> steady s s' -> node_ok s' t' -> fit stack s' t'.
Proof.
  intros [Hb _ Hm (H1 & H2 & _)] [Em _ E1 E2 _ _] Hok. split; rewrite ?Em; try done.
  split_and!; congruence.
Qed.

Lemma quiet_steady s s' : quiet s s' -> steady s s'.
Proof.
  intros Hq. pose proof Hq as [_ _ _ _ _ Em _ Ec En _ _]. split; rewrite ?En; try done.
  - intros r. by rewrite (qt_dentries _ _ Hq).
  - unfold files_ok. by rewrite (qt_inodes _ _ Hq).
Qed.

Lemma quiet_back stack s t s1 s2 :
  fit stack s t -> files_ok s -> steady s s1 -> (exists t1, node_ok s1 t1) -> quiet s1 s2 -> back stack s s2.
Proof.
  intros Hft Hfi Hst (t1 & Hok1) Hq. pose proof (quiet_ok _ _ _ Hq Hok1) as Hok2.
  assert (Hst2 : steady s s2) by (etransitivity; [exact Hst|by apply quiet_steady]).
  split; [exists t1; by eapply steady_fit|]. split; [by apply (st_files _ _ Hst2)|apply Hst2].
Qed.

Lemma opens_back stack s t s1 r flags x :
  fit stack s t -> files_ok s -> steady s s1 -> (exists t1, node_ok s1 t1) -> opens Some r flags s1 x ->
  (forall e s', x = Ok (Some (inl e), s') -> back stack s s') /\
  (forall o s2, x = Ok (Some (inr o), s2) -> exists s3, filp_close o s2 = Ok (0, s3) /\ back stack s s3).
Proof.
  intros Hft Hfi Hst Hok1 Ho. unfold opens in Ho. destruct (flag flags O_DIRECT).
  - destruct Ho as (s' & -> & Hq). split; [intros e s2 [= <- <-]|done]. by eapply quiet_back.
  - destruct Ho as (o & s2 & s3 & -> & _ & Ec & Hq & _). split; [done|]. intros o' s2' [= <- <-].
    exists s3. split; [done|]. by eapply quiet_back.
Qed.

Lemma responds_back stack s t flags a x :
  fit stack s t -> files_ok s -> responds s t flags a x ->
  (forall e s', x = Ok (Some (inl e), s') -> back stack s s') /\
  (forall o s2, x = Ok (Some (inr o), s2) -> exists s3, filp_close o s2 = Ok (0, s3) /\ back stack s s3).
Proof.
  intros Hft Hfi Hr. pose proof (ft_ok _ _ _ Hft) as Hok. destruct a as [e|r|q c|].
  - destruct Hr as (_ & s' & -> & Hq). split; [|done]. intros e' s2 [= <- <-]. eapply quiet_back; eauto. done.
  - destruct Hr as (s1 & Hc & Ho). destruct (cut_at_ok _ _ _ _ _ _ _ Hok Hc) as [Hok1 Hst].
    eapply opens_back; eauto.
  - destruct Hr as (pd & pir & pi & s1 & _ & (Hok1 & _) & Hst & _ & Ho). eapply opens_back; eauto.
  - by destruct Hr as (s' & -> & _).
Qed.

(** C20: open of any path name with any flags by any caller: the error of the walk, of the
    directory or of the file, with nothing changed; or a file of what the path names,
    emptied with O_TRUNC; or with O_CREAT a new file, of which the other node is told.
    O_DIRECT is refused, after the file was emptied or made.  Closing what was opened
    gives everything back. *)
Theorem open_total pointer stack env nodev umask fs follow do_link open_special s t dfd name flags mode :
  fit stack s t -> files_ok s -> fs_ok s t fs -> Forall (fun b => b <> 0) name ->
  (forall r, dfd = Some r -> is_Some (dentries s !! r)) ->
  let x := @do_sys_open (wjfs_ops pointer stack) env nodev umask fs follow do_link open_special dfd name flags mode s in
  responds s t flags (open_answer s fs dfd name flags) x /\
  (forall e s', x = Ok (Some (inl e), s') -> back stack s s') /\
  (forall o s2, x = Ok (Some (inr o), s2) -> exists s3, filp_close o s2 = Ok (0, s3) /\ back stack s s3).
Proof.
  intros Hft Hfi Hfs Hnz Hdfd x.
  pose proof (open_responds pointer stack env nodev umask fs follow do_link open_special s t dfd name flags mode
    Hft Hfi Hfs Hnz Hdfd) as H.
  split; [done|]. by eapply responds_back.
Qed.

(** ** truncate *)

Definition truncate_errno (env : io_env) (s : kstate) (r : nat) (n : Z) : Z :=
  match node_inode s r with
  | Some i =>
      if S_ISDIR (i_mode i) then - EISDIR
      else let e := generic_permission (cur s) i MAY_WRITE in
           if negb (e =? 0) then e else inode_newsize_ok env i n
  | None => 0
  end.

Lemma truncate_found_ok env s t r n :
  node_ok s t -> files_ok s -> is_Some (dentries s !! r) -> 0 <= n ->
  exists s1, truncate_found env n r (use r s) = Ok (truncate_errno env s r n, use r s1) /\
    cut_at s r (truncate_errno env s r n =? 0) false n s1.
Proof.
  intros Hok Hfi [d Hd] Hn. destruct (node_node_inode _ _ _ _ Hok Hd) as (ir & i & Hir & Hi & Hni & _).
  assert (Ht : typed i) by (destruct (nk_inode _ _ Hok _ _ Hd) as (? & ? & ? & ? & _ & _ & _ & _ & Ht); by simplify_eq).
  pose proof (use_alike r s) as Ha. destruct (alike_dentry _ _ _ _ Ha Hd) as (k & Hk).
  assert (Hno : forall e, e <> 0 -> cut_at s r (e =? 0) false n s).
  { intros e He. exists d, ir, i, i. rewrite (proj2 (Z.eqb_neq e 0)), with_inodes_id by done. done. }
  unfold truncate_errno, truncate_found. rewrite Hni. erewrite M_bind_ok by (by apply get_dentry_ok).
  cbn [d_inode set_d_count]. rewrite Hir. erewrite M_bind_ok by reflexivity.
  erewrite M_bind_ok by (apply get_inode_ok; by rewrite (al_inodes _ _ Ha)).
  destruct (S_ISDIR (i_mode i)) eqn:Hkd; [exists s; split; [done|by apply Hno]|].
  destruct (typed_reg i Ht Hkd) as [-> _]. cbn [negb]. unfold inode_permission. erewrite M_bind_ok; cycle 1.
  { erewrite M_bind_ok by (apply get_inode_ok; by rewrite (al_inodes _ _ Ha)). erewrite M_bind_ok by reflexivity. reflexivity. }
  rewrite (al_cur _ _ Ha). cbv zeta.
  destruct (Z.eqb_spec (generic_permission (cur s) i MAY_WRITE) 0) as [Hp|Hp]; cbn [negb];
    [|exists s; split; [done|by apply Hno]].
  destruct (do_truncate_ok env ir i n false (use r s)) as (i' & E & Hsame & Hc); [by rewrite (al_inodes _ _ Ha)
    |exact (Hfi _ _ Hi)|done|].
  exists (with_inodes (<[ir := i']> (inodes s)) s). split; [exact E|]. exists d, ir, i, i'. split_and!; try done.
  destruct (Z.eqb_spec (inode_newsize_ok env i n) 0); auto.
Qed.

Definition truncate_result (env : io_env) (s : kstate) (fs : fs_struct) (name : list Z) (n : Z) : option Z :=
  if n <? 0 then Some (- EINVAL)
  else match named s fs None (last_place fs s (ends_slash name)) name with
       | At r => Some (truncate_errno env s r n)
       | Fails e => Some e
       | Outside => None
       end.

Lemma truncate_ok pointer stack env fs follow s t name n :
  fit stack s t -> files_ok s -> fs_ok s t fs -> Forall (fun b => b <> 0) name ->
  let e := truncate_result env s fs name n in
  exists s', @do_sys_truncate (wjfs_ops pointer stack) env fs follow name n s = Ok (e, s') /\
    (e <> Some 0 -> quiet s s') /\
    (e = Some 0 -> exists r, named s fs None (last_place fs s (ends_slash name)) name = At r /\
       is_dir s r = false /\ cut_at s r true false n s').
Proof.
  intros Hft Hfi Hfs Hnz e. pose proof Hft as [_ Hok Hm _].
  unfold e, truncate_result, do_sys_truncate. destruct (Z.ltb_spec n 0) as [Hn|Hn].
  { exists s. split; [done|]. by split. }
  pose proof (path_lookup_ok pointer stack fs follow s t None name LOOKUP_FOLLOW Hok Hm Hfs Hnz ltac:(done) eq_refl) as H.
  change (flag LOOKUP_FOLLOW LOOKUP_DIRECTORY || ends_slash name) with (ends_slash name) in H.
  destruct (named s fs None _ name) as [r|e'|].
  - destruct H as (nd & E & <- & Hr & _). erewrite M_bind_ok by exact E. cbn iota.
    change (negb (0 =? 0)) with false. cbn iota. set (r := nd_path nd) in *.
    destruct (truncate_found_ok env s t r n Hok Hfi Hr Hn) as (s1 & E1 & Hc). erewrite M_bind_ok by exact E1.
    destruct (cut_at_ok _ _ _ _ _ _ _ Hok Hc) as [Hok1 _].
    assert (Hr1 : is_Some (dentries s1 !! r)) by (destruct Hc as (? & ? & ? & ? & ? & _ & _ & -> & _); eauto).
    exists s1. split; [by erewrite M_bind_ok by (by eapply dput_use)|]. split.
    + intros He. rewrite (proj2 (Z.eqb_neq (truncate_errno env s r n) 0)) in Hc by congruence.
      by apply cut_at_none in Hc as ->.
    + intros [= He]. rewrite He in Hc. exists r. split_and!; try done. unfold is_dir. unfold truncate_errno in He.
      destruct (node_inode s r) as [i|]; [|done]. by destruct (S_ISDIR (i_mode i)).
  - destruct H as (He & nd & s' & E & Hq). exists s'. erewrite M_bind_ok by exact E. cbn iota.
    rewrite (proj2 (Z.eqb_neq e' 0)) by done. split; [done|]. split; [done|congruence].
  - destruct H as (rest & nd & E). exists s. erewrite M_bind_ok by exact E. split; [done|]. by split.
Qed.

(** C21: truncate of any path name to any length by any caller: the error of the walk, of
    the file's type, its permissions or the limits, with nothing changed; or the file has
    that length, its bytes up to there and zeros where it grew, and no other file is
    touched.  The node can go on, and holds nothing more. *)
Theorem truncate_total pointer stack env fs follow s t name n :
  fit stack s t -> files_ok s -> fs_ok s t fs -> Forall (fun b => b <> 0) name ->
  let e := truncate_result env s fs name n in
  exists s', @do_sys_truncate (wjfs_ops pointer stack) env fs follow name n s = Ok (e, s') /\
    (e <> Some 0 -> quiet s s') /\
    (e = Some 0 -> exists r, named s fs None (last_place fs s (ends_slash name)) name = At r /\
       is_dir s r = false /\ cut_at s r true false n s') /\
    back stack s s'.
Proof.
  intros Hft Hfi Hfs Hnz e. destruct (truncate_ok pointer stack env fs follow s t name n Hft Hfi Hfs Hnz) as (s' & E & Hq & Hs).
  fold e in E, Hq, Hs. exists s'. split_and!; try done. pose proof (ft_ok _ _ _ Hft) as Hok.
  destruct (decide (e = Some 0)) as [He|He].
  - destruct (Hs He) as (r & _ & _ & Hc). destruct (cut_at_ok _ _ _ _ _ _ _ Hok Hc). eapply quiet_back; eauto; done.
  - eapply quiet_back; eauto; done.
Qed.
