(* ===== verification/Saves.v ===== *)
(** * Programs that save and load

    vfs_read and vfs_write of an open file of this node, and what a program does
    to replace a file: open it with O_TRUNC, write, and read back. *)

From S2P Require Import Prelude KString KScan KFormat Wire Ksocket MapTable Vfs Syscalls Tree.
From S2P Require Import Umount Ops PageIo FileMap Server Node FileData Inv Remove.
From S2P Require Import Serve View Contents Truncate Options Mount Cluster FileOps Local.
From S2P Require Import LocalIo LocalDir Results ReadDir Dirents Listing Walk Open Uses Path.
From S2P Require Import Calls Opened.

(** ** vfs_read and vfs_write *)

Lemma verify_ok pos count :
  0 <= pos < 2 ^ 62 -> 0 <= count < 2 ^ 31 -> rw_verify_area pos count = Z.min count MAX_RW_COUNT.
Proof.
  intros Hp Hc. unfold rw_verify_area. rewrite s32_small, (proj2 (Z.ltb_ge count 0)) by lia.
  rewrite (proj2 (Z.ltb_ge pos 0)) by lia. cbn [orb].
  assert (s64 (pos + count) = pos + count) as -> by (unfold s64; rewrite Z.mod_small; lia).
  rewrite (proj2 (Z.ltb_ge _ 0)) by lia. destruct (Z.ltb_spec MAX_RW_COUNT count); lia.
Qed.

Section rw.
Context `{AioOps}.
Variable pointer : block -> block * nat -> Z -> va -> printf_spec -> res (block * nat).
Context (stack : autos) (s : kstate) (f : file) (d : dentry) (ir : nat) (i : inode).
Context (Hd : dentries s !! f_dentry f = Some d) (Hir : d_inode d = Some ir) (Hi : inodes s !! ir = Some i).
Context (Hfop : i_fop i = wjfs_file_fops).

(** What is not asked for at open is refused; else the method gets at most
    MAX_RW_COUNT bytes. *)
Lemma vfs_read_ok fuel buf count pos :
  0 <= pos < 2 ^ 62 -> 0 <= count < 2 ^ 31 ->
  vfs_read pointer stack fuel f buf count pos s
  = if f_read f then wjfs_read pointer stack fuel f buf (Z.min count MAX_RW_COUNT) pos s
    else Ok ((- EBADF, pos, buf), s).
Proof using Hd Hir Hi Hfop.
  intros Hp Hc. unfold vfs_read. destruct (f_read f); [|done]. cbn [negb].
  erewrite M_bind_ok by (by apply get_dentry_ok). rewrite Hir. erewrite M_bind_ok by reflexivity.
  erewrite M_bind_ok by (by apply get_inode_ok). rewrite Hfop, verify_ok by done.
  cbn. by rewrite (proj2 (Z.ltb_ge _ 0)) by (unfold MAX_RW_COUNT; lia).
Qed.

Lemma vfs_write_ok fuel buf count pos :
  0 <= pos < 2 ^ 62 -> 0 <= count < 2 ^ 31 ->
  vfs_write pointer stack fuel f buf count pos s
  = if f_write f then wjfs_write pointer stack fuel f buf (Z.min count MAX_RW_COUNT) pos s
    else Ok ((- EBADF, pos), s).
Proof using Hd Hir Hi Hfop.
  intros Hp Hc. unfold vfs_write. destruct (f_write f); [|done]. cbn [negb].
  erewrite M_bind_ok by (by apply get_dentry_ok). rewrite Hir. erewrite M_bind_ok by reflexivity.
  erewrite M_bind_ok by (by apply get_inode_ok). rewrite Hfop, verify_ok by done.
  cbn. by rewrite (proj2 (Z.ltb_ge _ 0)) by (unfold MAX_RW_COUNT; lia).
Qed.
End rw.

(** ** What O_TRUNC opens is empty *)

Lemma trunc_acc fl : flag fl O_TRUNC = true -> flag (open_acc_mode fl) MAY_WRITE = true.
Proof.
  intros Ht. unfold open_acc_mode. rewrite Ht. unfold flag, MAY_WRITE.
  assert (H : forall a b, Z.land (Z.lor (Z.lor a 2) b) 2 <> 0 /\ Z.land (Z.lor a 2) 2 <> 0).
  { intros a b. split; intros E; apply (f_equal (fun z => Z.testbit z 1)) in E;
      rewrite !Z.land_spec, !Z.lor_spec, Z.bits_0 in E; change (Z.testbit 2 1) with true in E;
      rewrite ?orb_true_r in E; done. }
  assert (H1 : forall a, Z.land (Z.lor a 2) 2 <> 0) by (intros a; apply (H a 0)).
  assert (H2 : forall a b, Z.land (Z.lor (Z.lor a 2) b) 2 <> 0) by (intros a b; apply (H a b)).
  destruct (negb (Z.land fl O_APPEND =? 0)); by rewrite (proj2 (Z.eqb_neq _ 0)) by auto.
Qed.

Lemma judged_found s fl r r' :
  judged s fl r = Found r' -> r' = r /\ exists i, node_inode s r = Some i /\ access_errno (cur s) i (open_acc_mode fl) fl = 0.
Proof.
  unfold judged. destruct (node_inode s r) as [i|]; [|done]. cbv zeta.
  destruct (Z.eqb_spec (access_errno (cur s) i (open_acc_mode fl) fl) 0); [|done]. intros [= <-]. eauto.
Qed.

Lemma found_judged s fs dfd name flags r :
  open_answer s fs dfd name flags = Found r ->
  exists i, node_inode s r = Some i /\
    access_errno (cur s) i (open_acc_mode (open_to_namei_flags flags)) (open_to_namei_flags flags) = 0.
Proof.
  unfold open_answer, last_answer. set (fl := open_to_namei_flags flags). intros H.
  assert (exists r0, judged s fl r0 = Found r) as (r0 & Hj).
  { repeat (case_match; try done); eauto. }
  by destruct (judged_found _ _ _ _ Hj) as [-> ?].
Qed.

Lemma trunc_empty s t fs dfd name flags r s1 :
  node_ok s t -> open_answer s fs dfd name flags = Found r -> flag (open_to_namei_flags flags) O_TRUNC = true ->
  cut_at s r true true 0 s1 -> empty_at s1 r.
Proof.
  intros Hok Ha Ht Hc. destruct (found_judged _ _ _ _ _ _ Ha) as (i & Hni & He).
  assert (Hk : S_ISDIR (i_mode i) = false).
  { unfold access_errno in He. rewrite (trunc_acc _ Ht), andb_true_r in He. by destruct (S_ISDIR (i_mode i)). }
  pose proof (cut_at_is_dir _ _ _ _ _ _ _ r Hok Hc) as Hd.
  destruct (cut_at_ok _ _ _ _ _ _ _ Hok Hc) as [Hok1 _].
  destruct Hc as (d & ir & i0 & i' & Hrd & Hir & Hi & -> & Hcut).
  destruct (node_node_inode _ _ r d Hok1 Hrd) as (ir1 & i1 & H1 & H2 & H3 & _). exists i1. split; [done|].
  rewrite Hir in H1. injection H1 as <-. simpl in H2. rewrite lookup_insert_eq in H2. injection H2 as <-.
  split; [|apply Hcut]. unfold is_dir in Hd. rewrite H3, Hni in Hd. by rewrite Hd.
Qed.

(** The file that a call with O_TRUNC, or one that made it, returns. *)
Lemma opened_empty s t flags fs dfd name x f s2 :
  node_ok s t -> responds s t flags (open_answer s fs dfd name flags) x -> x = Ok (Some (inr (OFile f)), s2) ->
  flag (open_to_namei_flags flags) O_TRUNC = true ->
  exists r s1 t1, f = file_of r flags /\ s2 = use r s1 /\ empty_at s1 r /\ node_ok s1 t1.
Proof.
  intros Hok Hr Hx Ht.
  assert (Hopen : forall r s1, empty_at s1 r -> opens Some r flags s1 x -> f = file_of r flags /\ s2 = use r s1).
  { intros r s1 (i & Hni & Hk & _) Ho. unfold opens in Ho. subst x. destruct (flag flags O_DIRECT).
    - by destruct Ho as (? & ? & _).
    - destruct Ho as (o & x2 & x3 & [= <- <-] & _ & _ & _ & Ho). destruct Ho as ([= ->] & -> & _); [|done].
      unfold is_dir. by rewrite Hni. }
  destruct (open_answer s fs dfd name flags) as [e|r|q c|] eqn:Ha.
  - destruct Hr as (_ & ? & E & _). by subst.
  - destruct Hr as (s1 & Hc & Ho). rewrite Ht in Hc. pose proof (trunc_empty _ _ _ _ _ _ _ _ Hok Ha Ht Hc) as He.
    destruct (Hopen r s1 He Ho). destruct (cut_at_ok _ _ _ _ _ _ _ Hok Hc) as [Hok1 _]. by exists r, s1, t.
  - destruct Hr as (pd & pir & pi & s1 & _ & (Hok1 & _) & _ & He & Ho). destruct (Hopen (fresh s) s1 He Ho).
    by eexists (fresh s), s1, _.
  - destruct Hr as (? & E & _). by subst.
Qed.

Lemma rdwr_bits flags : Z.land flags O_ACCMODE = 2 -> Z.testbit (flags + 1) 0 = true /\ Z.testbit (flags + 1) 1 = true.
Proof.
  unfold O_ACCMODE. change 3 with (Z.ones 2). rewrite Z.land_ones by lia. intros Hm.
  assert (E : Z.land (flags + 1) (Z.ones 2) = 3).
  { rewrite Z.land_ones, <- Zplus_mod_idemp_l, Hm by lia. reflexivity. }
  split; [apply (f_equal (fun z => Z.testbit z 0)) in E|apply (f_equal (fun z => Z.testbit z 1)) in E];
    rewrite Z.land_spec in E; change (Z.testbit (Z.ones 2) _) with true in E; by rewrite andb_true_r in E.
Qed.

(** Writing to a file that is open and empty, and reading it back. *)
Lemma empty_write_read pointer stack env wait s f ir i buf text ubuf len :
  autos_ok stack -> open_file s f ir i -> i_fop i = wjfs_file_fops -> i_size i = 0 -> e_limit env = None ->
  f_read f = true -> f_write f = true ->
  take (length text) buf = text -> text <> [] ->
  Z.of_nat (length text) <= len <= MAX_RW_COUNT -> len <= Z.of_nat (length ubuf) ->
  let n := Z.of_nat (length text) in
  exists s3 s4,
    @vfs_write (wjfs_aio env (a_page stack) wait) pointer stack 1 f buf n 0 s = Ok ((n, n), s3) /\
    @vfs_read (wjfs_aio env (a_page stack) wait) pointer stack 1 f ubuf len 0 s3
    = Ok ((n, n, splice ubuf 0 text), s4).
Proof.
  intros Hau Hof Hfop Hsz Hlim Hfr Hfw Hbuf Hne Hlen Hub n.
  pose proof Hau as (_ & _ & _ & _ & _ & Hpage). pose proof Hof as [(d & Hd & Hir) Hi _ _ _].
  assert (0 < length text)%nat by (destruct text; [done|simpl; lia]).
  assert (Hn : 0 < n <= MAX_RW_COUNT) by (unfold n; lia).
  unfold MAX_RW_COUNT in *.
  assert (Hbl : n <= Z.of_nat (length buf)) by (apply (f_equal length) in Hbuf; rewrite length_take in Hbuf; lia).
  assert (Ht : take (Z.to_nat n) buf = text) by (unfold n; by rewrite Nat2Z.id).
  assert (Hck : generic_write_checks env f (i_size i) 0 n = (0, 0, n)).
  { rewrite (write_checks_plain env f (i_size i) 0 n) by (try done; try lia; rewrite Hsz; unfold MAX_NON_LFS;
      destruct (f_append f); lia). rewrite Hsz. by destruct (f_append f). }
  destruct (local_write_ok pointer stack env (a_page stack) wait Hpage 0 s f ir i buf n 0 0 n Hof) as (i1 & Hw & E1);
    [lia|done|done|lia|]. rewrite Ht in Hw.
  assert (Hof1 : open_file (with_inodes (<[ir := i1]> (inodes s)) s) f ir i1).
  { eapply open_file_next; [done|apply Hw|]. by rewrite (w_same _ _ _ _ _ _ _ Hw). }
  destruct (local_read_ok pointer stack env (a_page stack) wait 0 _ _ _ _ ubuf len 0 Hof1) as (i2 & _ & E2); [lia..|].
  assert (Hmin : Z.min len (Z.max 0 (i_size i1 - 0)) = n).
  { rewrite (w_size _ _ _ _ _ _ _ Hw), Hsz. unfold n in *. lia. }
  rewrite Hmin in E2. unfold n in E2 at 3. rewrite Nat2Z.id, (wrote_slice _ _ _ _ _ _ _ Hw), Z.add_0_l in E2.
  eexists _, _. split.
  - erewrite vfs_write_ok by (try done; lia). rewrite Hfw, Z.min_l by (unfold MAX_RW_COUNT; lia). exact E1.
  - erewrite vfs_read_ok; [| |exact Hir|simpl; apply lookup_insert_eq| |lia..]; [|done|by rewrite (w_same _ _ _ _ _ _ _ Hw)].
    rewrite Hfr, Z.min_l by (unfold MAX_RW_COUNT; lia). exact E2.
Qed.

(** C22: A program that opens a path of this node for reading and writing with O_TRUNC, by
    any name and with or without O_CREAT, and writes a text, reads back that text and
    nothing behind it, whatever the file held before. *)
Theorem saved_is_loaded pointer stack env nodev umask fs follow do_link open_special wait s t dfd name flags mode
    f s2 ir i buf text ubuf len :
  autos_ok stack -> fit stack s t -> files_ok s -> fs_ok s t fs -> Forall (fun b => b <> 0) name ->
  (forall r, dfd = Some r -> is_Some (dentries s !! r)) ->
  @do_sys_open (wjfs_ops pointer stack) env nodev umask fs follow do_link open_special dfd name flags mode s
    = Ok (Some (inr (OFile f)), s2) ->
  flag (open_to_namei_flags flags) O_TRUNC = true -> Z.land flags O_ACCMODE = 2 -> e_limit env = None ->
  open_file s2 f ir i -> take (length text) buf = text -> text <> [] ->
  Z.of_nat (length text) <= len <= MAX_RW_COUNT -> len <= Z.of_nat (length ubuf) ->
  let n := Z.of_nat (length text) in
  exists s3 s4,
    @vfs_write (wjfs_aio env (a_page stack) wait) pointer stack 1 f buf n 0 s2 = Ok ((n, n), s3) /\
    @vfs_read (wjfs_aio env (a_page stack) wait) pointer stack 1 f ubuf len 0 s3
    = Ok ((n, n, splice ubuf 0 text), s4).
Proof.
  intros Hau Hft Hfi Hfs Hnz Hdfd E Htr Hrw Hlim Hof Hbuf Hne Hlen Hub n.
  pose proof (open_responds pointer stack env nodev umask fs follow do_link open_special s t dfd name flags mode
    Hft Hfi Hfs Hnz Hdfd) as Hr.
  destruct (opened_empty _ _ _ _ _ _ _ _ _ (ft_ok _ _ _ Hft) Hr E Htr)
    as (r & s1 & t1 & -> & -> & (i0 & Hni & Hk & Hsz) & Hok1).
  rewrite <- (alike_node_inode _ _ _ (use_alike r s1)) in Hni. pose proof (use_ok s1 t1 Hok1 r) as Hok2.
  destruct (node_inode_inv _ _ _ Hni) as (d0 & ir0 & Hd0 & Hir0 & Hi0 & _).
  pose proof Hof as [(d & Hd & Hir) Hi _ _ _]. cbn [f_dentry file_of] in Hd. rewrite Hd0 in Hd. injection Hd as <-.
  rewrite Hir0 in Hir. injection Hir as <-. rewrite Hi0 in Hi. injection Hi as <-.
  destruct (nk_inode _ _ Hok2 _ _ Hd0) as (? & ? & ? & ? & _ & _ & _ & _ & Ht). simplify_eq.
  destruct (typed_reg _ Ht Hk) as (_ & _ & Hfop). destruct (rdwr_bits _ Hrw).
  by eapply empty_write_read.
Qed.
