(* ===== verification/Rename.v ===== *)
(** * rename

    renameat from the two directories on: lock_rename, vfs_rename and d_move of
    fs/namei.c and fs/dcache.c around wjfs_rename, which only keeps the link
    counts and the times.  The names have no trailing slash, and nothing is mounted
    on a directory of the node.  Whether a name is in [d_iname] follows from its
    length, as d_alloc decides it and switch_names keeps it. *)

From S2P Require Import Prelude KString KScan KFormat Wire Ksocket MapTable Vfs Syscalls Tree.
From S2P Require Import Umount Ops PageIo Server Node Inv Remove Serve Contents Options.
From S2P Require Import Mount Cluster FileData View Local LocalDir.

(** ** The code *)

(** d_ancestor: the child of [p1] that is [p2] or above it. *)
Fixpoint d_ancestor_loop (fuel : nat) (p1 p : nat) : M (option nat) :=
  match fuel with
  | O => fail OutOfFuel
  | S fuel =>
      d ← get_dentry p;
      if (d_parent d =? p)%nat then mret None
      else if (d_parent d =? p1)%nat then mret (Some p)
      else d_ancestor_loop fuel p1 (d_parent d)
  end.

Definition d_ancestor (p1 p2 : nat) : M (option nat) := fun s =>
  d_ancestor_loop (S (size (dentries s))) p1 p2 s.

(** lock_rename, without the locks. *)
Definition lock_rename (p1 p2 : nat) : M (option nat) :=
  if (p1 =? p2)%nat then mret None
  else
    p ← d_ancestor p2 p1;
    match p with
    | Some p => mret (Some p)
    | None => d_ancestor p1 p2
    end.

(** A name that does not fit into [d_iname]. *)
Definition dname_external (d : dentry) : bool := DNAME_INLINE_LEN - 1 <? Z.of_nat (length (d_name d)).

(** switch_names: the name the target is left with; [dentry] gets the target's. *)
Definition switched_name (d t : dentry) : list Z :=
  if dname_external t || dname_external d then d_name d else d_name t.

Definition set_d_name (n : list Z) (d : dentry) : dentry :=
  mkDentry (d_count d) (d_hashed d) (d_inode d) (d_parent d) n (d_subdirs d) (d_op d) (d_lru d).
(** list_del and list_add of [d_u.d_child]. *)
Definition child_del (p r : nat) : M unit :=
  upd_dentry p (fun d => set_d_subdirs (List.filter (fun x => negb (x =? r)%nat) (d_subdirs d)) d).
Definition child_add (p r : nat) : M unit :=
  upd_dentry p (fun d => set_d_subdirs (r :: d_subdirs d) d).

(** d_move_locked *)
Definition d_move (dentry target : nat) : M unit :=
  d ← get_dentry dentry;
  t ← get_dentry target;
  modify (fun s => with_hash (dentry :: List.filter (fun x => negb (x =? dentry)%nat) (d_hash s)) s);;
  upd_dentry dentry (set_d_hashed true);;
  d_drop target;;
  child_del (d_parent d) dentry;;
  child_del (d_parent t) target;;
  upd_dentry dentry (set_d_name (d_name t));;
  upd_dentry target (set_d_name (switched_name d t));;
  (if (d_parent d =? dentry)%nat then
     upd_dentry dentry (set_d_parent (d_parent t));;
     upd_dentry target (set_d_parent target)
   else
     upd_dentry dentry (set_d_parent (d_parent t));;
     upd_dentry target (set_d_parent (d_parent d));;
     child_add (d_parent d) target);;
  child_add (d_parent t) dentry.

Section rename.
Context `{InodeOps}.

(** What both ways of renaming call. *)
Definition op_rename_of (old_dir old_dentry new_dir new_dentry : nat) : M Z :=
  i ← get_inode old_dir;
  match op_rename (i_op i) with
  | Some rename => rename old_dir old_dentry new_dir new_dentry
  | None => fail NullDeref
  end.

(** vfs_rename_dir *)
Definition vfs_rename_dir (old_dir old_dentry new_dir new_dentry : nat) : M Z :=
  od ← get_dentry old_dentry;
  ir ← deref (d_inode od);
  error ← (if negb (new_dir =? old_dir)%nat then inode_permission ir MAY_WRITE else mret 0);
  if negb (error =? 0) then mret error else
  nd ← get_dentry new_dentry;
  (match d_inode nd with Some _ => dentry_unhash new_dentry | None => mret tt end);;
  error ← op_rename_of old_dir old_dentry new_dir new_dentry;
  (match d_inode nd with
   | Some tir =>
       (if error =? 0 then upd_inode tir (set_dead true) else mret tt);;
       nd ← get_dentry new_dentry;
       (if negb (d_hashed nd) then d_rehash new_dentry else mret tt);;
       dput new_dentry
   | None => mret tt
   end);;
  (if error =? 0 then d_move old_dentry new_dentry else mret tt);;
  mret error.

(** vfs_rename_other *)
Definition vfs_rename_other (old_dir old_dentry new_dir new_dentry : nat) : M Z :=
  dget new_dentry;;
  error ← op_rename_of old_dir old_dentry new_dir new_dentry;
  (if error =? 0 then d_move old_dentry new_dentry else mret tt);;
  dput new_dentry;;
  mret error.

(** vfs_rename *)
Definition vfs_rename (old_dir old_dentry new_dir new_dentry : nat) : M Z :=
  od ← get_dentry old_dentry;
  ir ← deref (d_inode od);
  i ← get_inode ir;
  let is_dir := S_ISDIR (i_mode i) in
  nd ← get_dentry new_dentry;
  if bool_decide (d_inode od = d_inode nd) then mret 0 else
  error ← may_delete old_dir old_dentry is_dir;
  if negb (error =? 0) then mret error else
  error ← (match d_inode nd with
           | None => may_create new_dir new_dentry
           | Some _ => may_delete new_dir new_dentry is_dir
           end);
  if negb (error =? 0) then mret error else
  di ← get_inode old_dir;
  match op_rename (i_op di) with
  | None => mret (- EPERM)
  | Some _ =>
      if is_dir then vfs_rename_dir old_dir old_dentry new_dir new_dentry
      else vfs_rename_other old_dir old_dentry new_dir new_dentry
  end.

(** sys_renameat from the two directories on; [slash]: one of the names has a slash
    behind it. *)
Definition sys_renameat (old_dir : nat) (from : list Z) (new_dir : nat) (to : list Z) (slash : bool) : M Z :=
  trap ← lock_rename new_dir old_dir;
  old_dentry ← lookup_hash from old_dir;
  match old_dentry with
  | DErr e => mret e
  | DNull => fail NullDeref
  | DPtr r =>
      d ← get_dentry r;
      error ← (match d_inode d with
        | None => mret (- ENOENT)
        | Some ir =>
            i ← get_inode ir;
            if negb (S_ISDIR (i_mode i)) && slash then mret (- ENOTDIR) else
            if bool_decide (trap = Some r) then mret (- EINVAL) else
            new_dentry ← lookup_hash to new_dir;
            match new_dentry with
            | DErr e => mret e
            | DNull => fail NullDeref
            | DPtr q =>
                error ← (if bool_decide (trap = Some q) then mret (- ENOTEMPTY) else
                           od ← get_dentry old_dir;
                           old_ir ← deref (d_inode od);
                           nd ← get_dentry new_dir;
                           new_ir ← deref (d_inode nd);
                           vfs_rename old_ir r new_ir q);
                dput q;;
                mret error
            end
        end);
      dput r;;
      mret error
  end.
End rename.

(** ** d_ancestor ends *)

(** From [x] the loop comes to an ancestor it looks for, or to the root. *)
Definition inner (s : kstate) (x y : nat) : Prop :=
  y = x \/ exists d, dentries s !! y = Some d /\ d_subdirs d <> [].

Lemma ancestor_up s p1 t : forall q x,
  rep (dentries s) q t -> NoDup (refs t) -> x ∈ refs t ->
  (exists y, inner s x y /\
     forall fuel, (length (refs t) <= fuel)%nat -> d_ancestor_loop fuel p1 x s = Ok (Some y, s)) \/
  (exists k, (k < length (refs t))%nat /\
     forall fuel, d_ancestor_loop (k + fuel) p1 x s = d_ancestor_loop fuel p1 (troot t) s).
Proof.
  induction t as [r ch IH] using tree_rect_all. intros q x Hrep Hnd Hx.
  inversion Hrep as [? ? rd Hrd _ Hsub Hch]; subst. cbn [refs troot] in *. fold (refs_list ch) in *.
  apply list.NoDup_cons in Hnd as [Hr Hnd].
  apply elem_of_cons in Hx as [->|Hx]; [right; exists 0%nat; split; [simpl; lia|done]|].
  pose proof Hx as Hx'. unfold refs_list in Hx'. rewrite list_elem_of_In, in_concat in Hx'.
  destruct Hx' as (l & Hl & Hxl). apply in_map_iff in Hl as (c & <- & Hc).
  assert (Hlen : (length (refs c) <= length (refs_list ch))%nat).
  { apply list_elem_of_In, list_elem_of_split in Hc as (l1 & l2 & ->). unfold refs_list.
    rewrite map_app, concat_app, length_app. cbn [map concat]. rewrite length_app. lia. }
  assert (Hndc : NoDup (refs c)).
  { apply list_elem_of_In, list_elem_of_split in Hc as (l1 & l2 & ->). unfold refs_list in Hnd.
    rewrite map_app, concat_app in Hnd. cbn [map concat] in Hnd.
    apply list.NoDup_app in Hnd as (_ & _ & Hnd). by apply list.NoDup_app in Hnd as (Hnd & _ & _). }
  rewrite List.Forall_forall in IH, Hch. pose proof (Hch c Hc) as Hrc.
  destruct (IH c Hc r x Hrc Hndc) as [(y & Hy & Hrun)|(k & Hk & Hrun)]; [by apply list_elem_of_In| |].
  - left. exists y. split; [done|]. intros fuel Hf. apply Hrun. cbn [length] in Hf. lia.
  - destruct (rep_inv _ _ _ Hrc) as (cd & Hcd & Hpar & Hcsub & _).
    assert (Hne : r <> troot c).
    { intros E. apply Hr. apply (refs_child c ch); [by apply list_elem_of_In|]. rewrite E.
      rewrite refs_unfold. by left. }
    assert (Hstep : forall fuel, d_ancestor_loop (k + S fuel) p1 x s
              = if (r =? p1)%nat then Ok (Some (troot c), s) else d_ancestor_loop fuel p1 r s).
    { intros fuel. rewrite Hrun. cbn [d_ancestor_loop]. erewrite M_bind_ok by (by apply get_dentry_ok).
      rewrite Hpar, (proj2 (Nat.eqb_neq r _)) by done. by destruct (r =? p1)%nat. }
    destruct (r =? p1)%nat.
    + left. exists (troot c). split.
      * apply list_elem_of_In in Hxl. rewrite refs_unfold in Hxl.
        apply elem_of_cons in Hxl as [->|Hxl]; [by left|right]. exists cd. split; [done|].
        rewrite Hcsub. intros E%map_eq_nil. rewrite E in Hxl. by apply not_elem_of_nil in Hxl.
      * intros fuel Hf. replace fuel with (k + S (fuel - S k))%nat by (cbn [length] in Hf; lia).
        apply Hstep.
    + right. exists (S k). split; [cbn [length]; lia|]. intros fuel. cbn [Nat.add].
      rewrite <- Hstep. f_equal. lia.
Qed.

Lemma d_ancestor_ok s t p1 x :
  node_ok s t -> x ∈ refs t ->
  exists o, d_ancestor p1 x s = Ok (o, s) /\ (forall y, o = Some y -> inner s x y).
Proof.
  intros Hok Hx. destruct (node_tree _ _ Hok) as [[Hrep Hnd] _].
  pose proof (refs_size _ _ _ Hrep Hnd) as Hsz. unfold d_ancestor.
  destruct (ancestor_up s p1 t _ x Hrep Hnd Hx) as [(y & Hy & Hrun)|(k & Hk & Hrun)].
  - exists (Some y). split; [apply Hrun; lia|]. by intros ? [= <-].
  - destruct (rs_root _ _ (nk_rest _ _ Hok)) as (d & Hd & Hpar & _). exists None. split; [|done].
    replace (S (size (dentries s))) with (k + S (size (dentries s) - k))%nat by lia.
    rewrite Hrun. cbn [d_ancestor_loop]. erewrite M_bind_ok by (by apply get_dentry_ok).
    by rewrite Hpar, Nat.eqb_refl.
Qed.

Lemma lock_rename_ok s t p1 p2 :
  node_ok s t -> p1 ∈ refs t -> p2 ∈ refs t ->
  exists trap, lock_rename p1 p2 s = Ok (trap, s) /\
    forall y, trap = Some y -> inner s p1 y \/ inner s p2 y.
Proof.
  intros Hok H1 H2. unfold lock_rename. destruct (p1 =? p2)%nat; [by exists None|].
  destruct (d_ancestor_ok s t p2 p1 Hok H1) as (o & E & Ho). erewrite M_bind_ok by exact E.
  destruct o as [y|]; [exists (Some y); split; [done|]; intros z [= <-]; left; by apply Ho|].
  destruct (d_ancestor_ok s t p1 p2 Hok H2) as (o & E2 & Ho2). exists o. split; [done|]. eauto.
Qed.

(** ** d_move *)

Definition others (r : nat) (l : list nat) : list nat := List.filter (fun x => negb (x =? r)%nat) l.
#[local] Arguments others : simpl never.

Definition set_subs (f : list nat -> list nat) (d : dentry) : dentry := set_d_subdirs (f (d_subdirs d)) d.

(** The two dentries after the move. *)
Definition moved (d t : dentry) : dentry := set_d_parent (d_parent t) (set_d_name (d_name t) (set_d_hashed true d)).
Definition replaced (d t : dentry) : dentry :=
  set_d_parent (d_parent d) (set_d_name (switched_name d t) (set_d_hashed false t)).

(** A state with other dentries and hash chains. *)
Definition st (h : list nat) (m : gmap nat dentry) (s : kstate) : kstate := with_hash h (with_dentries m s).

Lemma st_id s : s = st (d_hash s) (dentries s) s.
Proof. by destruct s. Qed.

Lemma st_get h m s k d : m !! k = Some d -> get_dentry k (st h m s) = Ok (d, st h m s).
Proof. intros H. by apply get_dentry_ok. Qed.

Lemma st_upd h m s k d f :
  m !! k = Some d -> upd_dentry k f (st h m s) = Ok (tt, st h (<[k := f d]> m) s).
Proof. intros H. by erewrite upd_dentry_ok by exact H. Qed.

Lemma st_drop h m s k d :
  m !! k = Some d -> d_hashed d = true ->
  d_drop k (st h m s) = Ok (tt, st (others k h) (<[k := set_d_hashed false d]> m) s).
Proof.
  intros Hk Hh. unfold d_drop. erewrite M_bind_ok by (by apply st_get). rewrite Hh.
  by erewrite M_bind_ok by (by apply st_upd).
Qed.

(** Closes [m !! k = Some _] for a map built by insertions. *)
Ltac find_key :=
  repeat match goal with
    | |- <[?k := _]> _ !! ?k = _ => rewrite lookup_insert_eq; reflexivity
    | |- <[_ := _]> _ !! _ = _ => rewrite lookup_insert_ne by done
    | |- delete _ _ !! _ = _ => rewrite lookup_delete_ne by done
    end;
  try eassumption.
Ltac upd_step := erewrite M_bind_ok by (apply st_upd; find_key).

Section move.
Context (s : kstate) (r q : nat) (d t : dentry) (P P' : nat) (pd pd' : dentry).
Context (Hr : dentries s !! r = Some d) (Hq : dentries s !! q = Some t).
Context (HP : dentries s !! P = Some pd) (HP' : dentries s !! P' = Some pd').
Context (EP : d_parent d = P) (EP' : d_parent t = P').
Context (Hrq : r <> q) (HPr : P <> r) (HPq : P <> q) (HPr' : P' <> r) (HPq' : P' <> q).
Context (Hth : d_hashed t = true).

Definition moved_hash : list nat := others q (r :: others r (d_hash s)).

(** The steps of d_move, one after the other. *)
Ltac run_move :=
  rewrite (st_id s) at 1; unfold d_move;
  erewrite M_bind_ok by (by apply st_get); erewrite M_bind_ok by (by apply st_get);
  erewrite M_bind_ok by reflexivity; fold (others r (d_hash s));
  change (with_hash ?h (st _ ?m ?u)) with (st h m u);
  upd_step; erewrite M_bind_ok by (apply st_drop; [find_key|done]);
  unfold child_del, child_add; rewrite EP, EP', (proj2 (Nat.eqb_neq P r)) by done;
  do 4 upd_step;
  erewrite M_bind_ok; [|upd_step; upd_step; apply st_upd; find_key];
  erewrite st_upd by find_key; do 2 f_equal; unfold st; f_equal; f_equal;
  unfold moved, replaced, set_subs; rewrite EP, EP'; map_solve.

Lemma d_move_across :
  P <> P' ->
  d_move r q s
  = Ok (tt, with_hash moved_hash (with_dentries
      (<[P' := set_subs (fun l => r :: others q l) pd']> (<[P := set_subs (fun l => q :: others r l) pd]>
        (<[q := replaced d t]> (<[r := moved d t]> (dentries s))))) s)).
Proof using Hr Hq HP HP' EP EP' Hrq HPr HPq HPr' HPq' Hth.
  intros Hne. run_move.
Qed.

Lemma d_move_within :
  P = P' ->
  d_move r q s
  = Ok (tt, with_hash moved_hash (with_dentries
      (<[P := set_subs (fun l => r :: q :: others q (others r l)) pd]>
        (<[q := replaced d t]> (<[r := moved d t]> (dentries s)))) s)).
Proof using Hr Hq HP EP EP' Hrq HPr HPq HPr' HPq' Hth.
  clear HP' pd'. intros <-. run_move.
Qed.
End move.

(** ** Small facts *)

Lemma lookup_in_count h m r d c p n :
  m !! r = Some d -> d_lookup_in h (<[r := set_d_count c d]> m) p n = d_lookup_in h m p n.
Proof.
  intros Hr. induction h as [|x h IH]; [done|]. cbn [d_lookup_in].
  destruct (decide (x = r)) as [->|Hx]; [rewrite lookup_insert_eq, Hr; simpl; by rewrite IH|].
  rewrite lookup_insert_ne by done. by rewrite IH.
Qed.

Lemma others_none q l : (forall x, x ∈ l -> x <> q) -> others q l = l.
Proof.
  unfold others. induction l as [|x l IH]; [done|]. intros H. cbn [List.filter].
  rewrite (proj2 (Nat.eqb_neq x q)) by (apply H; by left). cbn [negb].
  rewrite IH; [done|]. intros y Hy. apply H. by right.
Qed.

Lemma others_head q l : others q (q :: l) = others q l.
Proof. unfold others. cbn [List.filter]. by rewrite Nat.eqb_refl. Qed.

Lemma others_other q x l : x <> q -> others q (x :: l) = x :: others q l.
Proof. intros H. unfold others. cbn [List.filter]. by rewrite (proj2 (Nat.eqb_neq x q)). Qed.

Lemma in_others q x l : x ∈ others q l -> x ∈ l.
Proof. unfold others. rewrite !list_elem_of_In. by intros [H _]%List.filter_In. Qed.

Lemma node_sub_fresh s t p pd x :
  node_ok s t -> dentries s !! p = Some pd -> x ∈ d_subdirs pd -> x <> fresh s.
Proof.
  intros Hok Hp Hx. destruct (node_tree _ _ Hok) as [[Hrep _] _].
  assert (x ∈ refs t) as Hin.
  { eapply (sub_refs _ _ _ p pd Hrep); [apply (nk_dom _ _ Hok); eauto|done|done]. }
  apply (nk_fresh _ _ Hok) in Hin. lia.
Qed.

Lemma node_others s t p pd : node_ok s t -> dentries s !! p = Some pd -> others (fresh s) (d_subdirs pd) = d_subdirs pd.
Proof. intros Hok Hp. apply others_none. intros x Hx. by eapply node_sub_fresh. Qed.

(** [st] under the operations that rename uses. *)
Lemma st_upd_inode h m u k i f :
  inodes u !! k = Some i ->
  upd_inode k f (st h m u) = Ok (tt, st h m (with_inodes (<[k := f i]> (inodes u)) u)).
Proof. intros H. by erewrite upd_inode_ok by exact H. Qed.

Lemma st_dput_held h m u r d :
  m !! r = Some d -> d_count d <> 1 ->
  dput r (st h m u) = Ok (tt, st h (<[r := set_d_count (d_count d - 1) d]> m) u).
Proof. intros H Hc. by erewrite dput_held by (exact H || exact Hc). Qed.

Lemma st_dput_negative h m u r d p pd :
  m !! r = Some d -> d_count d = 1 -> d_op d = true -> d_inode d = None ->
  (d_hashed d = false -> others r h = h) -> d_parent d = p -> p <> r -> m !! p = Some pd -> d_count pd <> 1 ->
  dput r (st h m u) = Ok (tt, st (others r h) (delete r (<[p := drop_sub r pd]> m)) u).
Proof.
  intros Hr Hc Hop Hir Hh Hp Hne Hpd Hpc. erewrite (dput_last r d p pd); try done.
  - rewrite Hir. done.
  - intros x E. congruence.
Qed.

(** ** Renaming a file *)

Section file.
Variable pointer : block -> block * nat -> Z -> va -> printf_spec -> res (block * nat).
Context (stack : autos).
#[local] Instance rename_ops : InodeOps := wjfs_ops pointer stack.

Context (s : kstate) (t : tree) (p : nat) (pd : dentry) (pir : nat) (pi : inode) (n : list Z).
Context (p' : nat) (pd' : dentry) (pir' : nat) (pi' : inode) (n' : list Z).
Context (r : nat) (d : dentry) (ir : nat) (i : inode).
Context (Hft : fit stack s t) (Hdy : directory s p pd pir pi) (Hdy' : directory s p' pd' pir' pi').
Context (Hen : entry s t p n r d ir i) (Hfile : S_ISDIR (i_mode i) = false).
Context (Hn' : component n') (Hmiss : d_lookup_in (d_hash s) (dentries s) p' n' = None).

#[local] Abbreviation q := (fresh s).
#[local] Abbreviation d2 := (set_d_count (d_count d + 1) d).

(** The state once both names are looked up, apart from dentries and hash. *)
Definition base : kstate :=
  mkK (inodes s) (dentries s) (S q) (d_hash s) (last_ino s) (mem s) (now s) (cur s)
    (note_a n' q (glob s)) (network s).

Definition both_found : gmap nat dentry :=
  <[q := child_dentry p' n']> (<[p' := add_sub q pd']> (<[r := d2]> (dentries s))).

(** The inodes afterwards. *)
Definition renamed_inodes : gmap nat inode :=
  <[pir := set_mtime_ctime (now s) pi]> (<[pir' := set_mtime_ctime (now s) pi']>
    (<[ir := set_ctime (now s) i]> (inodes s))).

(** The dentries afterwards: the leaf taken out at [p] and put in at [p']. *)
Definition without : gmap nat dentry := delete r (<[p := drop_sub r pd]> (dentries s)).
Definition target_dir : dentry := if decide (p = p') then drop_sub r pd else pd'.
Definition renamed_dentry : dentry := mkDentry 1 true (Some ir) p' n' [] true (d_lru d).
Definition renamed : kstate :=
  st (r :: others r (d_hash s)) (grown without p' r target_dir renamed_dentry)
    (with_inodes renamed_inodes base).

Lemma rename_facts :
  leaf s r d ir i p pd pir pi /\ p' <> r /\ pir' <> ir /\ p <> q /\ p' <> q /\ r <> q /\
  (forall x, x ∈ d_hash s -> x <> q).
Proof using Hft Hdy Hdy' Hen Hfile.
  clear Hmiss Hn'. pose proof (ft_ok _ _ _ Hft) as Hok. pose proof Hdy as [Hp Hpir Hpi _ _].
  pose proof Hdy' as [Hp' Hpir' Hpi' Hdir' _].
  destruct (entry_leaf _ _ _ _ _ _ _ _ _ _ _ Hok Hdy Hen) as (Hleaf & _).
  pose proof Hleaf as [Lr _ _ _ Lir _ Li _ _ _ _ _ _ _ _].
  assert (Hf : forall x e, dentries s !! x = Some e -> x <> q).
  { intros x e Hx. assert (x < q)%nat by (apply (nk_fresh _ _ Hok), (nk_dom _ _ Hok); eauto). lia. }
  assert (Hpr : p' <> r) by (intros ->; simplify_eq; congruence).
  split; [done|]. split; [done|]. split; [|split_and!; eauto].
  - intros ->. apply Hpr. by eapply (nk_inj _ _ Hok).
  - intros x Hx. assert (x < q)%nat by (by apply (nk_fresh _ _ Hok), (nk_hash _ _ Hok)). lia.
Qed.

(** wjfs_rename of a file to a free name. *)
Lemma wjfs_rename_ok h m e :
  m !! r = Some d2 -> m !! q = Some e -> d_inode e = None -> d_subdirs e = [] ->
  wjfs_rename pir r pir' q (st h m base) = Ok (0, st h m (with_inodes renamed_inodes base)).
Proof using Hft Hdy Hdy' Hen Hfile.
  destruct rename_facts as (Hleaf & _ & Hir' & _).
  pose proof Hdy as [_ _ Hpi _ _]. pose proof Hdy' as [_ _ Hpi' _ _].
  destruct Hleaf as [_ _ _ _ Lir _ Li _ _ _ _ _ _ _ Line].
  intros Hr Hq He Hes. unfold wjfs_rename. erewrite M_bind_ok by (by apply st_get).
  cbn [d_inode set_d_count]. rewrite Lir. erewrite M_bind_ok by reflexivity.
  erewrite M_bind_ok by (by apply get_inode_ok). rewrite Hfile.
  erewrite M_bind_ok; cycle 1.
  { unfold simple_empty. erewrite M_bind_ok by (by apply st_get). rewrite Hes. reflexivity. }
  cbn [negb]. erewrite M_bind_ok by (by apply st_get). rewrite He.
  erewrite M_bind_ok by reflexivity. erewrite M_bind_ok by reflexivity.
  erewrite M_bind_ok by (by apply st_upd_inode).
  erewrite M_bind_ok by (apply st_upd_inode; simpl; rewrite lookup_insert_ne by done; exact Hpi').
  change (now (st h m base)) with (now s).
  destruct (decide (pir = pir')) as [E|E].
  - rewrite <- E in *. rewrite Hpi in Hpi'. injection Hpi' as <-.
    erewrite M_bind_ok by (apply st_upd_inode; simpl; apply lookup_insert_eq).
    unfold mret, M_ret, renamed_inodes. rewrite <- E. unfold with_inodes. simpl. by rewrite !insert_insert_eq.
  - erewrite M_bind_ok; cycle 1.
    { apply st_upd_inode. simpl. rewrite lookup_insert_ne by done. rewrite lookup_insert_ne by done. exact Hpi. }
    done.
Qed.

(** What is left of vfs_rename_other once the link counts and times are set: the
    move, and the references to the looked-up dentries given back. *)
Definition tail_rename : M unit := d_move r q;; dput q;; dput q;; dput r.

#[local] Abbreviation q2 := (set_d_count (1 + 1) (child_dentry p' n')).
#[local] Abbreviation h2 := (q :: d_hash s).

Lemma tail_hash : others q (others q (r :: others r h2)) = r :: others r (d_hash s).
Proof using Hft Hdy Hdy' Hen Hfile.
  destruct rename_facts as (_ & _ & _ & _ & _ & Hrq & Hh).
  rewrite (others_other r q) by done. rewrite (others_other q r), others_head by done.
  rewrite (others_none q (others r (d_hash s))) by (intros x Hx; apply Hh; by eapply in_others).
  rewrite others_other by done.
  by rewrite (others_none q (others r (d_hash s))) by (intros x Hx; apply Hh; by eapply in_others).
Qed.

Lemma moved_renamed : set_d_count (d_count (moved d2 q2) - 1) (moved d2 q2) = renamed_dentry.
Proof using Hft Hdy Hdy' Hen Hfile.
  destruct rename_facts as ([_ Lc _ Lop Lir Lsub _ _ _ _ _ _ _ _ _] & _).
  unfold moved, renamed_dentry, set_d_count, set_d_parent, set_d_name, set_d_hashed. simpl.
  by rewrite Lc, Lir, Lsub, Lop.
Qed.

Lemma fresh_none : dentries s !! q = None.
Proof using Hft.
  clear - Hft. pose proof (ft_ok _ _ _ Hft) as Hok.
  apply eq_None_not_Some. intros Hs%(nk_dom _ _ Hok)%(nk_fresh _ _ Hok). lia.
Qed.

Lemma tail_across u :
  p <> p' ->
  tail_rename (st h2 (<[q := q2]> both_found) u)
  = Ok (tt, st (r :: others r (d_hash s)) (grown without p' r target_dir renamed_dentry) u).
Proof using Hft Hdy Hdy' Hen Hfile.
  intros Hne. destruct rename_facts as (Hleaf & Hp'r & _ & Hpq & Hp'q & Hrq & Hh).
  pose proof (ft_ok _ _ _ Hft) as Hok. pose proof Hdy as [Hp _ _ _ _]. pose proof Hdy' as [Hp' _ _ _ _].
  destruct Hleaf as [Lr Lc Lh Lop Lir Lsub _ _ Lp Lne _ Lpc _ _ _].
  pose proof tail_hash as Hth. unfold tail_rename.
  erewrite M_bind_ok; cycle 1.
  { apply (d_move_across (st h2 (<[q := q2]> both_found) u) r q d2 q2 p p' pd (add_sub q pd')); try done;
      unfold st, both_found; simpl; find_key. }
  set (m4 := <[p' := _]> _). change (with_hash ?h (with_dentries m4 _)) with (st h m4 u).
  erewrite M_bind_ok; cycle 1.
  { apply st_dput_held with (d := replaced d2 q2); [unfold m4; find_key|done]. }
  erewrite M_bind_ok; cycle 1.
  { apply (st_dput_negative _ _ _ q (set_d_count (1 + 1 - 1) (replaced d2 q2)) p
      (set_subs (fun l => q :: others r l) pd)); try done.
    - find_key.
    - intros _. apply filter_twice.
    - unfold m4. find_key. }
  erewrite st_dput_held with (d := moved d2 q2); [|unfold m4; find_key|simpl; lia].
  do 2 f_equal. unfold moved_hash. change (d_hash (st h2 _ u)) with h2. rewrite Hth.
  unfold st, target_dir. rewrite decide_False by done. do 2 f_equal.
  assert (E2 : set_subs (fun l => r :: others q l) (add_sub q pd') = add_sub r pd').
  { unfold set_subs, add_sub, set_d_subdirs. simpl. by rewrite others_head, (node_others _ _ _ _ Hok Hp'). }
  assert (E3 : drop_sub q (set_subs (fun l => q :: others r l) pd) = drop_sub r pd).
  { unfold set_subs, drop_sub. cbn [d_subdirs d_count set_d_subdirs].
    fold (others q (q :: others r (d_subdirs pd))). rewrite others_head, others_none; [done|].
    intros x Hx%in_others. exact (node_sub_fresh s t p pd x Hok Hp Hx). }
  rewrite moved_renamed, E3. unfold m4. rewrite E2. unfold grown, without, both_found, renamed_dentry.
  pose proof fresh_none as Hq. change (dentries (st _ ?m _)) with m. map_solve.
Qed.

Lemma tail_within u :
  p = p' ->
  tail_rename (st h2 (<[q := q2]> both_found) u)
  = Ok (tt, st (r :: others r (d_hash s)) (grown without p' r target_dir renamed_dentry) u).
Proof using Hft Hdy Hdy' Hen Hfile.
  intros E. clear Hmiss. destruct rename_facts as (Hleaf & Hp'r & _ & Hpq & Hp'q & Hrq & Hh).
  pose proof (ft_ok _ _ _ Hft) as Hok. pose proof Hdy as [Hp _ _ _ _]. pose proof Hdy' as [Hp' _ _ _ _].
  destruct Hleaf as [Lr Lc Lh Lop Lir Lsub _ _ Lp Lne _ Lpc _ _ _].
  assert (pd' = pd) as Epd by (subst p'; congruence).
  pose proof tail_hash as Hth. unfold tail_rename.
  set (f := fun l => r :: q :: others q (others r l)).
  erewrite M_bind_ok; cycle 1.
  { apply (d_move_within (st h2 (<[q := q2]> both_found) u) r q d2 q2 p p' (add_sub q pd')); try done;
      unfold st, both_found; simpl; rewrite ?E; find_key. }
  fold f. set (m4 := <[p := _]> _). change (with_hash ?h (with_dentries m4 _)) with (st h m4 u).
  erewrite M_bind_ok; cycle 1.
  { apply st_dput_held with (d := replaced d2 q2); [unfold m4; find_key|done]. }
  erewrite M_bind_ok; cycle 1.
  { apply (st_dput_negative _ _ _ q (set_d_count (1 + 1 - 1) (replaced d2 q2)) p
      (set_subs f (add_sub q pd'))); try done.
    - find_key.
    - intros _. apply filter_twice.
    - unfold m4. find_key.
    - simpl. pose proof (node_count _ _ _ _ Hok Hp'). lia. }
  erewrite st_dput_held with (d := moved d2 q2); [|unfold m4; find_key|simpl; lia].
  do 2 f_equal. unfold moved_hash. change (d_hash (st h2 _ u)) with h2. rewrite Hth.
  unfold st, target_dir. rewrite decide_True by done. do 2 f_equal.
  assert (E3 : drop_sub q (set_subs f (add_sub q pd')) = add_sub r (drop_sub r pd)).
  { unfold set_subs, f, drop_sub, add_sub. cbn [d_subdirs d_count set_d_subdirs set_d_count].
    fold (others q (r :: q :: others q (others r (q :: d_subdirs pd')))). fold (others r (d_subdirs pd)).
    rewrite (others_other r q), others_head, Epd, others_other, others_head by done.
    assert (Eo : others q (others r (d_subdirs pd)) = others r (d_subdirs pd)).
    { apply others_none. intros x Hx%in_others. exact (node_sub_fresh s t p pd x Hok Hp Hx). }
    rewrite !Eo. unfold set_d_count, set_d_subdirs. simpl. f_equal. lia. }
  rewrite moved_renamed, E3. unfold m4, grown, without, both_found, renamed_dentry.
  pose proof fresh_none as Hq. change (dentries (st _ ?m _)) with m. rewrite <- E in *. map_solve.
Qed.

Lemma tail_ok u :
  tail_rename (st h2 (<[q := q2]> both_found) u)
  = Ok (tt, st (r :: others r (d_hash s)) (grown without p' r target_dir renamed_dentry) u).
Proof using Hft Hdy Hdy' Hen Hfile.
  clear Hmiss Hn'. destruct (decide (p = p')); [by apply tail_within|by apply tail_across].
Qed.

(** The caller may change both directories. *)
Context (Hw : may_change s pi) (Hw' : may_change s pi') (Hst : check_sticky (cur s) pi i = false).

Lemma target_found : lookup_hash n' p' (with_dentries (<[r := d2]> (dentries s)) s)
  = Ok (DPtr q, st h2 both_found base).
Proof using Hft Hdy Hdy' Hen Hfile Hn' Hmiss Hw'.
  destruct rename_facts as (Hleaf & Hp'r & _). pose proof Hft as [_ Hok Hm _].
  pose proof Hdy' as [Hp' Hpir' Hpi' Hdir' _].
  pose proof (changed_ready _ _ _ _ _ _ Hok Hp' Hpir' Hpi' Hdir' Hw') as Hdr.
  assert (Hdr1 : dir_ready (with_dentries (<[r := d2]> (dentries s)) s) p' pd' pir' pi').
  { destruct Hdr. split; try done. simpl. by rewrite lookup_insert_ne by done. }
  unfold lookup_hash. erewrite M_bind_ok by (apply get_dentry_ok; apply (dr_dentry _ _ _ _ _ Hdr1)).
  rewrite Hpir'. erewrite M_bind_ok by reflexivity. erewrite M_bind_ok by (by eapply dir_may_search).
  change (negb (0 =? 0)) with false. cbn iota.
  etrans; [apply (lookup_hash_miss pointer stack p' pd' pir' pi'); try done|done].
  simpl. by rewrite lookup_in_count by apply Hleaf.
Qed.

Lemma rename_checks :
  exists pd2, both_found !! p = Some pd2 /\ d_inode pd2 = Some pir /\
    may_delete pir r false (st h2 both_found base) = Ok (0, st h2 both_found base) /\
    may_create pir' q (st h2 both_found base) = Ok (0, st h2 both_found base).
Proof using Hft Hdy Hdy' Hen Hfile Hw Hw' Hst.
  clear Hmiss. destruct rename_facts as (Hleaf & Hp'r & _ & Hpq & Hp'q & Hrq & _).
  pose proof Hft as [_ Hok Hm _]. pose proof Hdy as [Hp Hpir Hpi Hdir _].
  pose proof Hdy' as [Hp' Hpir' Hpi' Hdir' _].
  destruct Hleaf as [Lr Lc Lh Lop Lir Lsub Li _ Lp Lne _ Lpc _ _ _].
  pose proof (changed_ready _ _ _ _ _ _ Hok Hp Hpir Hpi Hdir Hw) as Hdr.
  pose proof (changed_ready _ _ _ _ _ _ Hok Hp' Hpir' Hpi' Hdir' Hw') as Hdr'.
  assert (Hat : exists pd2, both_found !! p = Some pd2 /\ d_inode pd2 = Some pir).
  { unfold both_found. destruct (decide (p = p')) as [E|E].
    - exists (add_sub q pd'). rewrite E. split; [find_key|]. simpl. subst p'. congruence.
    - exists pd. split; [find_key|done]. }
  destruct Hat as (pd2 & Hpd2 & Hi2). exists pd2. split; [done|]. split; [done|]. split.
  - apply (may_delete_ok pir pi r d2 p pd2 ir i); try done; [unfold both_found, st; simpl; find_key|].
    apply (dr_dead _ _ _ _ _ Hdr).
  - unfold may_create. erewrite M_bind_ok by (apply st_get; unfold both_found; find_key).
    cbn [d_inode child_dentry]. erewrite M_bind_ok by (by apply get_inode_ok).
    rewrite (dr_dead _ _ _ _ _ Hdr'). unfold inode_permission.
    erewrite M_bind_ok by (by apply get_inode_ok). erewrite M_bind_ok by reflexivity.
    cbn [cur st with_hash with_dentries base]. by rewrite Hw'.
Qed.

(** vfs_rename, and the two references sys_renameat gives back. *)
Lemma vfs_rename_found :
  exists s1 s2, vfs_rename pir r pir' q (st h2 both_found base) = Ok (0, s1) /\
    dput q s1 = Ok (tt, s2) /\ dput r s2 = Ok (tt, renamed).
Proof using Hft Hdy Hdy' Hen Hfile Hw Hw' Hst.
  pose proof rename_facts as (Hleaf & Hp'r & _ & Hpq & Hp'q & Hrq & _).
  pose proof Hft as [_ Hok _ _]. pose proof Hdy as [Hp Hpir Hpi Hdir _].
  pose proof Hleaf as [_ _ _ _ Lir _ Li _ _ _ _ _ _ _ _].
  pose proof (changed_ready _ _ _ _ _ _ Hok Hp Hpir Hpi Hdir Hw) as Hdr.
  destruct rename_checks as (pd2 & Hpd2 & Hi2 & Emd & Emc).
  pose proof (tail_ok (with_inodes renamed_inodes base)) as Etail. unfold tail_rename in Etail.
  apply M_bind_inv in Etail as ([] & s1 & E1 & Etail). apply M_bind_inv in Etail as ([] & s2 & E2 & Etail).
  apply M_bind_inv in Etail as ([] & s3 & E3 & E4).
  exists s2, s3. split; [|split; [exact E3|exact E4]].
  unfold vfs_rename. erewrite M_bind_ok by (apply st_get; unfold both_found; find_key; reflexivity).
  cbn [d_inode set_d_count]. rewrite Lir. erewrite M_bind_ok by reflexivity.
  erewrite M_bind_ok by (by apply get_inode_ok). rewrite Hfile.
  erewrite M_bind_ok by (apply st_get; unfold both_found; find_key).
  cbn [d_inode child_dentry]. rewrite bool_decide_eq_false_2 by done.
  erewrite M_bind_ok by exact Emd. change (negb (0 =? 0)) with false. cbn iota.
  erewrite M_bind_ok by exact Emc. change (negb (0 =? 0)) with false. cbn iota.
  erewrite M_bind_ok by (by apply get_inode_ok). rewrite (dr_ops _ _ _ _ _ Hdr).
  cbn [op_rename rename_ops wjfs_ops]. unfold vfs_rename_other.
  erewrite M_bind_ok; cycle 1.
  { unfold dget, atomic_inc_d. erewrite M_bind_ok by (apply st_get; unfold both_found; find_key).
    change (d_count (child_dentry p' n') =? 0) with false. cbn iota.
    apply st_upd. unfold both_found. find_key. }
  erewrite M_bind_ok; cycle 1.
  { unfold op_rename_of. erewrite M_bind_ok by (by apply get_inode_ok).
    rewrite (dr_ops _ _ _ _ _ Hdr). cbn [op_rename rename_ops wjfs_ops].
    eapply wjfs_rename_ok; [unfold both_found; find_key; reflexivity|find_key|done|done]. }
  change (0 =? 0) with true. cbn iota. erewrite M_bind_ok by exact E1.
  by erewrite M_bind_ok by exact E2.
Qed.

Lemma renameat_ok : sys_renameat p n p' n' false s = Ok (0, renamed).
Proof using Hft Hdy Hdy' Hen Hfile Hn' Hmiss Hw Hw' Hst.
  pose proof rename_facts as (Hleaf & Hp'r & _ & Hpq & Hp'q & Hrq & _).
  pose proof Hft as [_ Hok Hm _]. pose proof Hdy as [Hp Hpir Hpi Hdir _].
  pose proof Hdy' as [Hp' Hpir' Hpi' Hdir' _].
  pose proof Hleaf as [Lr Lc Lh Lop Lir Lsub Li _ Lp Lne _ Lpc _ _ _].
  pose proof (changed_ready _ _ _ _ _ _ Hok Hp Hpir Hpi Hdir Hw) as Hdr.
  destruct (lock_rename_ok s t p' p Hok) as (trap & Et & Htrap);
    [apply (nk_dom _ _ Hok); eauto..|].
  assert (Hin : forall y, trap = Some y -> y <> r /\ y <> q).
  { intros y Hy. assert (Hd : exists e, dentries s !! y = Some e /\ (y = p \/ y = p' \/ d_subdirs e <> [])).
    { destruct (Htrap y Hy) as [[-> |(e & He & Hs)]|[-> |(e & He & Hs)]]; eauto 10. }
    destruct Hd as (e & He & Hcase). split; [|intros ->; by rewrite fresh_none in He].
    intros ->. simplify_eq. destruct Hcase as [?|[?|?]]; done. }
  unfold sys_renameat. erewrite M_bind_ok by exact Et.
  erewrite M_bind_ok by (eapply lookup_hash_hit; try done; apply (en_find _ _ _ _ _ _ _ _ Hen)). cbn iota.
  erewrite M_bind_ok by (apply get_dentry_ok; simpl; apply lookup_insert_eq).
  cbn [d_inode set_d_count]. rewrite Lir.
  destruct rename_checks as (pd2 & Hpd2 & Hi2 & _).
  destruct vfs_rename_found as (s1 & s2 & E1 & E2 & E3).
  erewrite M_bind_ok; cycle 1.
  { erewrite M_bind_ok by (by apply get_inode_ok). rewrite andb_false_r. cbn iota.
    rewrite (bool_decide_eq_false_2 (trap = Some r)) by (intros Hy; by destruct (Hin r Hy)).
    erewrite M_bind_ok by apply target_found. cbn iota.
    rewrite (bool_decide_eq_false_2 (trap = Some q)) by (intros Hy; by destruct (Hin q Hy)).
    erewrite M_bind_ok; cycle 1.
    { erewrite M_bind_ok by (by apply st_get). rewrite Hi2. erewrite M_bind_ok by reflexivity.
      erewrite M_bind_ok by (apply st_get; unfold both_found; find_key).
      cbn [d_inode add_sub set_d_subdirs set_d_count]. rewrite Hpir'. erewrite M_bind_ok by reflexivity.
      exact E1. }
    erewrite M_bind_ok by exact E2. reflexivity. }
  by erewrite M_bind_ok by exact E3.
Qed.

Lemma target_dir_at : without !! p' = Some target_dir /\ d_inode target_dir = Some pir'.
Proof using Hft Hdy Hdy' Hen Hfile.
  clear Hmiss Hn'. destruct rename_facts as (_ & Hp'r & _). pose proof Hdy as [Hp Hpir _ _ _].
  pose proof Hdy' as [Hp' Hpir' _ _ _]. unfold without, target_dir. rewrite lookup_delete_ne by done.
  case_decide as E; [subst p'; rewrite lookup_insert_eq; simpl; split; congruence|].
  by rewrite lookup_insert_ne by done.
Qed.

Lemma renamed_users : same_users s renamed.
Proof using Hft Hdy Hdy' Hen Hfile.
  clear Hw Hw' Hst Hn' Hmiss.
  pose proof rename_facts as (Hleaf & Hp'r & Hir' & _). pose proof (ft_ok _ _ _ Hft) as Hok.
  destruct (gone_ok s t p pd pir pi (set_mtime_ctime (now s) pi) n r d ir i [])
    as (_ & Hr1 & _ & _ & (Hus%st_users & _)); try done.
  destruct target_dir_at as [Htd _]. intros x. etransitivity; [|apply Hus].
  by apply (users_grown _ p' r target_dir renamed_dentry).
Qed.

Lemma renamed_steady : steady s renamed.
Proof using Hft Hdy Hdy' Hen Hfile.
  pose proof rename_facts as (Hleaf & _). pose proof Hdy as [_ _ Hpi _ _]. pose proof Hdy' as [_ _ Hpi' _ _].
  split; try done; [apply renamed_users|]. intros Hf. repeat apply map_Forall_insert_2; [..|exact Hf].
  - by eapply data_ok_same; [exact (Hf _ _ Hpi)|..].
  - by eapply data_ok_same; [exact (Hf _ _ Hpi')|..].
  - by eapply data_ok_same; [exact (Hf _ _ (lf_i _ _ _ _ _ _ _ _ _ Hleaf))|..].
Qed.

Lemma renamed_ok : node_ok renamed (add_child p' r (del r t)).
Proof using pointer Hft Hdy Hdy' Hen Hfile Hn' Hmiss.
  clear Hw Hw' Hst.
  pose proof rename_facts as (Hleaf & Hp'r & Hir' & Hpq & Hp'q & Hrq & Hh).
  pose proof (ft_ok _ _ _ Hft) as Hok. pose proof Hdy as [Hp Hpir Hpi Hdir _].
  pose proof Hdy' as [Hp' Hpir' Hpi' Hdir' _].
  pose proof Hleaf as [Lr Lc Lh Lop Lir Lsub Li Lic Lp Lne _ Lpc _ _ Line].
  set (s1 := removed r ir p pd pir (set_mtime_ctime (now s) pi) s).
  destruct (gone_ok s t p pd pir pi (set_mtime_ctime (now s) pi) n r d ir i []) as (Hok1 & Hr1 & _); try done.
  assert (Hok1' : node_ok s1 (del r t)) by (destruct Hok1; by split). clear Hok1.
  destruct target_dir_at as [Htd Htdi]. destruct (note_a_glob n' q (glob s)) as [Hg1 Hg2].
  destruct (nk_inode _ _ Hok _ _ Lr) as (j & ji & Ej & Hj & Hjc & Hjm & Hjd & _ & Hjo). simplify_eq.
  assert (Hpi1 : exists x, inodes s1 !! pir' = Some x /\ S_ISDIR (i_mode x) = true).
  { unfold s1. simpl. rewrite lookup_delete_ne by done. rewrite lookup_insert. case_decide as E; eauto. }
  destruct Hpi1 as (x & Hx & Hxd).
  apply (attach_node_ok s1 renamed (del r t) p' target_dir pir' x r renamed_dentry ir (set_ctime (now s) i));
    try done.
  - intros y yd Hy E. unfold s1 in Hy. simpl in Hy. rewrite lookup_delete, lookup_insert in Hy.
    repeat case_decide; simplify_eq; [simpl in E; congruence|]. destruct (nk_inj _ _ Hok y r yd d ir); done.
  - by apply component_name.
  - simpl. unfold renamed_inodes. rewrite !lookup_insert_ne by done. apply lookup_insert_eq.
  - intros y yi Hy Hyi. unfold s1 in Hyi. simpl in *. unfold renamed_inodes.
    rewrite lookup_delete_ne, lookup_insert in Hyi by done. rewrite !lookup_insert.
    repeat case_decide; simplify_eq; eexists; (split; [first [reflexivity|eassumption]|done]).
  - simpl. lia.
  - simpl. assert (r < q)%nat by (apply (nk_fresh _ _ Hok), (nk_dom _ _ Hok); eauto). lia.
  - intros y. simpl. unfold renamed_inodes. rewrite !lookup_insert.
    assert (Hlt : forall z, is_Some (inodes s !! z) -> (z < S q)%nat)
      by (intros z Hz%(nk_ifresh _ _ Hok); lia).
    repeat case_decide; subst; intros; apply Hlt; eauto.
  - intros y. simpl. by rewrite elem_of_cons.
  - intros y yd Hy Hyr Epar. rewrite troot_del in Hyr. unfold s1 in Hy. simpl in Hy.
    rewrite lookup_delete, lookup_insert in Hy. pose proof (miss_free _ _ _ _ Hok Hmiss) as Hfn.
    repeat case_decide; simplify_eq; [by apply (Hfn _ _ Hp)|by apply (Hfn _ _ Hy)].
  - simpl. rewrite Hg2. apply (nk_table _ _ Hok).
Qed.
End file.

(** renameat of a file, in its directory or to another one, to a name that is free: the node
    is at rest with the entry in its new place, the file and the table are as before, and
    the other node hears nothing of it. *)
Lemma rename_local pointer stack s t p pd pir pi n p' pd' pir' pi' n' r d ir i :
  fit stack s t -> directory s p pd pir pi -> directory s p' pd' pir' pi' ->
  may_change s pi -> may_change s pi' -> check_sticky (cur s) pi i = false ->
  entry s t p n r d ir i -> S_ISDIR (i_mode i) = false ->
  component n' -> d_lookup_in (d_hash s) (dentries s) p' n' = None ->
  exists s', @sys_renameat (wjfs_ops pointer stack) p n p' n' false s = Ok (0, s') /\
    node_ok s' (add_child p' r (del r t)) /\
    entry_at s' r p' n' (i_ino i) (Z.land (i_mode i) S_IFMT) /\
    inodes s' !! ir = Some (set_ctime (now s) i) /\ steady s s' /\
    g_table (glob s') = g_table (glob s) /\ network s' = network s.
Proof.
  intros Hft Hdy Hdy' Hw Hw' Hst Hen Hfile Hn' Hmiss.
  destruct (rename_facts stack s t p pd pir pi n p' pd' pir' pi' r d ir i Hft Hdy Hdy' Hen Hfile)
    as (Hleaf & Hp'r & Hir' & _).
  assert (Hi : inodes (renamed s p pd pir pi p' pd' pir' pi' n' r d ir i) !! ir = Some (set_ctime (now s) i)).
  { pose proof (lf_ine _ _ _ _ _ _ _ _ _ Hleaf). simpl. unfold renamed_inodes.
    rewrite !lookup_insert_ne by done. apply lookup_insert_eq. }
  eexists. split; [by eapply renameat_ok|]. split; [by eapply renamed_ok|]. split; [|split; [done|split; [by eapply renamed_steady|]]].
  - eexists _, ir, _. split; [simpl; unfold grown; apply lookup_insert_eq|]. by rewrite Hi.
  - split; [|done]. simpl. by destruct (note_a_glob n' (fresh s) (glob s)) as [_ ->].
Qed.
