(* ===== verification/Moves.v ===== *)
(** * Renaming by path

    renameat from the two path names on, and what it does to a file that is moved to
    a free name. *)

From S2P Require Import Prelude KString KScan KFormat Wire Ksocket MapTable Vfs Syscalls Tree.
From S2P Require Import Umount Ops PageIo Server Node Inv Remove Serve Contents Options.
From S2P Require Import Mount Cluster FileData Local LocalDir Results Walk Uses Path Calls.
From S2P Require Import Rename.

Section renameat.
Context `{InodeOps} (fs : fs_struct) (follow : nat -> nameidata -> M walked).

(** [None]: one of the walks leaves the file system. *)
Definition renameat (olddfd : option nat) (oldname : list Z) (newdfd : option nat) (newname : list Z)
  : M (option Z) :=
  w ← user_path_parent fs follow olddfd oldname;
  match w with
  | Leaves _ _ => mret None
  | Walked err oldnd =>
      if negb (err =? 0) then mret (Some err) else
      w' ← user_path_parent fs follow newdfd newname;
      error ← (match w' with
        | Leaves _ _ => mret None
        | Walked err newnd =>
            if negb (err =? 0) then mret (Some err) else
            error ← (if negb (bool_decide (nd_last_type oldnd = LAST_NORM)) then mret (- EBUSY)
                     else if negb (bool_decide (nd_last_type newnd = LAST_NORM)) then mret (- EBUSY)
                     else sys_renameat (nd_path oldnd) (nd_last oldnd) (nd_path newnd) (nd_last newnd)
                            (nd_slash oldnd || nd_slash newnd));
            dput (nd_path newnd);;
            mret (Some error)
        end);
      dput (nd_path oldnd);;
      mret error
  end.
End renameat.

(** ** What holding a dentry leaves as it is *)

Lemma alike_parent_place s s' fs dfd name :
  alike s s' -> parent_place s' fs dfd name = parent_place s fs dfd name.
Proof.
  intros Ha. unfold parent_place, named. destruct (negb _); [done|].
  assert (start s' fs dfd name = start s fs dfd name) as ->.
  { unfold start. destruct (absolute name); [done|]. destruct dfd as [r|]; [|done].
    by rewrite (alike_is_dir _ _ _ Ha), (alike_search _ _ _ Ha). }
  destruct (start s fs dfd name); try done. by apply alike_lead.
Qed.

Lemma alike_fs_ok s s' t fs : alike s s' -> fs_ok s t fs -> fs_ok s' t fs.
Proof. intros Ha [H1 H2 H3]. split; [done|intros r; rewrite (alike_is_dir _ _ _ Ha); auto..]. Qed.

Lemma entry_use s t p n r d ir i q :
  q <> r -> is_Some (dentries s !! q) -> entry s t p n r d ir i -> entry (use q s) t p n r d ir i.
Proof.
  intros Hne Hq [H1 H2 H3 H4 H5 H6 H7]. split; try done.
  - by rewrite (alike_lookup _ _ _ _ (use_alike q s)).
  - simpl. by rewrite lookup_alter_ne.
  - rewrite users_use, decide_False by done. lia.
Qed.


(** The walk to the directory of a name. *)
Lemma parent_found pointer stack fs follow s t dfd name p n :
  fit stack s t -> fs_ok s t fs -> Forall (fun b => b <> 0) name ->
  (forall x, dfd = Some x -> is_Some (dentries s !! x)) ->
  parent_place s fs dfd name = At p -> last_norm name = Some n ->
  exists nd, @user_path_parent (wjfs_ops pointer stack) fs follow dfd name s = Ok (Walked 0 nd, use p s) /\
    nd_path nd = p /\ nd_last_type nd = LAST_NORM /\ nd_last nd = n /\ nd_slash nd = ends_slash name /\
    is_Some (dentries s !! p).
Proof.
  intros [_ Hok Hm _] Hfs Hnz Hdfd Hp Hl.
  pose proof (parent_lookup pointer stack fs follow s t dfd name Hok Hm Hfs Hnz Hdfd) as H.
  rewrite Hp in H. destruct H as (nd & E & <- & Hq & Hsaid%last_norm_said). rewrite Hl in Hsaid.
  exists nd. tauto.
Qed.

(** Renaming with both directories held. *)
Lemma rename_held pointer stack s t p pd pir pi n p' pd' pir' pi' n' r d ir i :
  fit stack s t -> directory s p pd pir pi -> directory s p' pd' pir' pi' ->
  may_change s pi -> may_change s pi' -> check_sticky (cur s) pi i = false ->
  entry s t p n r d ir i -> S_ISDIR (i_mode i) = false ->
  component n' -> d_lookup_in (d_hash s) (dentries s) p' n' = None ->
  exists s1, @sys_renameat (wjfs_ops pointer stack) p n p' n' false (use p' (use p s)) = Ok (0, s1) /\
    node_ok s1 (add_child p' r (del r t)) /\
    entry_at s1 r p' n' (i_ino i) (Z.land (i_mode i) S_IFMT) /\
    inodes s1 !! ir = Some (set_ctime (now s) i) /\ steady (use p' (use p s)) s1 /\
    g_table (glob s1) = g_table (glob s) /\ network s1 = network s.
Proof.
  intros Hft Hdy Hdy' Hw Hw' Hst Hen Hfile Hn' Hmiss.
  destruct (rename_facts stack s t p pd pir pi n p' pd' pir' pi' r d ir i Hft Hdy Hdy' Hen Hfile)
    as (Hleaf & Hp'r & _). pose proof (lf_ne _ _ _ _ _ _ _ _ _ Hleaf) as Hne.
  assert (Ha : alike s (use p' (use p s))) by (etransitivity; apply use_alike).
  destruct (held_dir stack s t p pd pir pi Hft Hdy) as (_ & _ & Hft1).
  destruct (alike_directory _ _ _ _ _ _ (use_alike p s) Hdy') as (k & Hdy1').
  destruct (held_dir stack _ t p' _ pir' pi' Hft1 Hdy1') as (k' & Hdy2' & Hft2).
  destruct (alike_directory _ _ _ _ _ _ Ha Hdy) as (k2 & Hdy2).
  destruct (rename_local pointer stack (use p' (use p s)) t p _ pir pi n p' _ pir' pi' n' r d ir i
    Hft2 Hdy2 Hdy2') as (s1 & E & H); try done; [|by rewrite (alike_lookup _ _ _ _ Ha)|by exists s1].
  apply entry_use; [done|rewrite (dy_dentry _ _ _ _ _ Hdy1'); eauto|].
  apply entry_use; [done|rewrite (dy_dentry _ _ _ _ _ Hdy); eauto|done].
Qed.

Lemma rename_by_path pointer stack fs follow s t olddfd oldname newdfd newname p pd pir pi n
    p' pd' pir' pi' n' r d ir i :
  fit stack s t -> fs_ok s t fs ->
  Forall (fun b => b <> 0) oldname -> Forall (fun b => b <> 0) newname ->
  (forall x, olddfd = Some x -> is_Some (dentries s !! x)) ->
  (forall x, newdfd = Some x -> is_Some (dentries s !! x)) ->
  parent_place s fs olddfd oldname = At p -> last_norm oldname = Some n -> ends_slash oldname = false ->
  parent_place s fs newdfd newname = At p' -> last_norm newname = Some n' -> ends_slash newname = false ->
  directory s p pd pir pi -> directory s p' pd' pir' pi' ->
  may_change s pi -> may_change s pi' -> check_sticky (cur s) pi i = false ->
  entry s t p n r d ir i -> S_ISDIR (i_mode i) = false ->
  (length n' <= 255)%nat -> d_lookup_in (d_hash s) (dentries s) p' n' = None ->
  exists s', @renameat (wjfs_ops pointer stack) fs follow olddfd oldname newdfd newname s = Ok (Some 0, s') /\
    node_ok s' (add_child p' r (del r t)) /\
    entry_at s' r p' n' (i_ino i) (Z.land (i_mode i) S_IFMT) /\
    inodes s' !! ir = Some (set_ctime (now s) i) /\ steady s s' /\
    g_table (glob s') = g_table (glob s) /\ network s' = network s.
Proof.
  intros Hft Hfs Hnz Hnz' Hdfd Hdfd' Hp Hl Hs Hp' Hl' Hs' Hdy Hdy' Hw Hw' Hst Hen Hfile Hlen Hmiss.
  pose proof (use_alike p s) as Ha. pose proof (last_norm_plain _ _ Hnz' Hl') as Hn'.
  destruct (parent_found pointer stack fs follow s t olddfd oldname p n Hft Hfs Hnz Hdfd Hp Hl)
    as (nd & E & E1 & E2 & E3 & E4 & Hq).
  destruct (held_dir stack s t p pd pir pi Hft Hdy) as (_ & _ & Hft1).
  destruct (parent_found pointer stack fs follow (use p s) t newdfd newname p' n' Hft1
    (alike_fs_ok _ _ _ _ Ha Hfs) Hnz') as (nd' & E' & E1' & E2' & E3' & E4' & Hq'); try done.
  { intros x Hx. by apply use_is_Some, Hdfd'. }
  { by rewrite (alike_parent_place _ _ _ _ _ Ha). }
  destruct (rename_held pointer stack s t p pd pir pi n p' pd' pir' pi' n' r d ir i Hft Hdy Hdy' Hw Hw' Hst Hen
    Hfile (plain_component _ Hn' ltac:(unfold NAME_MAX; lia)) Hmiss) as (s1 & Er & Hok1 & Hat & Hi & Hst1 & Hg & Hnet).
  destruct (put_back (use p s) t s1 _ p' (ft_ok _ _ _ Hft1) Hq' Hok1 Hst1) as (P1 & Hok2 & Hst2).
  destruct (put_back s t _ _ p (ft_ok _ _ _ Hft) Hq Hok2 Hst2) as (P2 & Hok3 & Hst3).
  exists (unuse p (unuse p' s1)). split_and!; try done; [|by repeat apply entry_unuse].
  unfold renameat. erewrite M_bind_ok by exact E. cbn iota. change (negb (0 =? 0)) with false. cbn iota.
  erewrite M_bind_ok by exact E'. cbn iota. rewrite E1, E2, E3, E4, E1', E2', E3', E4', Hs, Hs'.
  erewrite M_bind_ok; cycle 1.
  { change (negb (0 =? 0)) with false. cbn iota. erewrite M_bind_ok by exact Er.
    erewrite M_bind_ok by exact P1. reflexivity. }
  by erewrite M_bind_ok by exact P2.
Qed.

(** C19: renameat of a file to a free name, by any two paths into the node and any caller who
    may change both directories: it returns 0 and leaves the node at rest with the entry
    in its new place; the file, the table and the network are as before, and every
    reference the two walks took is given back. *)
Theorem rename_path pointer stack fs follow s t olddfd oldname newdfd newname p pd pir pi n
    p' pd' pir' pi' n' r d ir i :
  fit stack s t -> fs_ok s t fs ->
  Forall (fun b => b <> 0) oldname -> Forall (fun b => b <> 0) newname ->
  (forall x, olddfd = Some x -> is_Some (dentries s !! x)) ->
  (forall x, newdfd = Some x -> is_Some (dentries s !! x)) ->
  parent_place s fs olddfd oldname = At p -> last_norm oldname = Some n -> ends_slash oldname = false ->
  parent_place s fs newdfd newname = At p' -> last_norm newname = Some n' -> ends_slash newname = false ->
  directory s p pd pir pi -> directory s p' pd' pir' pi' ->
  may_change s pi -> may_change s pi' -> check_sticky (cur s) pi i = false ->
  entry s t p n r d ir i -> S_ISDIR (i_mode i) = false ->
  (length n' <= 255)%nat -> d_lookup_in (d_hash s) (dentries s) p' n' = None ->
  exists s', @renameat (wjfs_ops pointer stack) fs follow olddfd oldname newdfd newname s = Ok (Some 0, s') /\
    node_ok s' (add_child p' r (del r t)) /\
    entry_at s' r p' n' (i_ino i) (Z.land (i_mode i) S_IFMT) /\
    inodes s' !! ir = Some (set_ctime (now s) i) /\ steady s s' /\
    g_table (glob s') = g_table (glob s) /\ network s' = network s /\
    fit stack s' (add_child p' r (del r t)).
Proof.
  intros Hft Hfs Hnz Hnz' Hdfd Hdfd' Hp Hl Hs Hp' Hl' Hs' Hdy Hdy' Hw Hw' Hst Hen Hfile Hlen Hmiss.
  destruct (rename_by_path pointer stack fs follow s t olddfd oldname newdfd newname p pd pir pi n
    p' pd' pir' pi' n' r d ir i) as (s' & E & Hok & Hat & Hi & Hsd & Hg & Hn); try done.
  exists s'. split_and!; try done. destruct Hft as [Hb _ Hm (H1 & H2 & _)].
  split; [done|done|by rewrite (st_mem _ _ Hsd)|]. unfold online. by rewrite Hn, (st_mem _ _ Hsd).
Qed.
