(* ===== verification/Session.v ===== *)
(** * The life of a node

    A node between mount and unmount: requests of the other node, served by
    wjfs_server, and system calls of its own users, in any order, with the files
    they have open.  Each event that is [allowed] runs without a fault and leaves
    the node able to go on. *)

From S2P Require Import Prelude KString KScan KFormat Wire Ksocket MapTable Vfs Syscalls Tree Umount.
From S2P Require Import Ops PageIo FileMap FileData Server Node Inv Remove Serve Contents Options Mount.
From S2P Require Import Cluster Remote FileOps LocalIo Local LocalDir Results ReadDir Dirents Listing.
From S2P Require Import View Walk Open Uses Path Calls Rename Moves Truncate Opened Saves.

(** ** Events *)

(** A process: who it is, and its root and working directory. *)
Record task : Type := mkTask { t_cred : cred; t_fs : fs_struct }.

Inductive event : Type :=
  | Served (addr : Z) (msg : list Z)
  | Mknod (u : task) (dfd : option nat) (name : list Z) (mode umask : Z)
  | Mkdir (u : task) (dfd : option nat) (name : list Z) (mode umask : Z)
  | Unlink (u : task) (dfd : option nat) (name : list Z)
  | Rmdir (u : task) (dfd : option nat) (name : list Z)
  | Move (u : task) (olddfd : option nat) (oldname : list Z) (newdfd : option nat) (newname : list Z)
  | OpenFile (u : task) (dfd : option nat) (name : list Z) (flags mode umask : Z)
  | CloseFile (f : file)
  | Truncate (u : task) (name : list Z) (n : Z)
  | ReadDirectory (f : file) (calls : nat) (um : block) (count : Z)
  | Read (f : file) (buf : block) (len pos : Z)
  | Write (f : file) (buf : block) (len pos : Z).

(** What lies outside wjfs: where symbolic links lead, and special files. *)
Record outside : Type := mkOutside {
  x_follow : nat -> nameidata -> M walked;
  x_link : nat -> nameidata -> M (option (Z + opened));
  x_special : nat -> file -> M (Z + opened);
  x_nodev : bool;
}.

Definition with_cur (c : cred) (s : kstate) : kstate :=
  mkK (inodes s) (dentries s) (fresh s) (d_hash s) (last_ino s) (mem s) (now s) c (glob s) (network s).

(** A call made by another process than the one that runs before and after it. *)
Definition run_as {A} (c : cred) (m : M A) : M A :=
  old ← gets cur; modify (with_cur c);; a ← m; modify (with_cur old);; mret a.

Lemma run_as_ok {A} c (m : M A) s a s' :
  m (with_cur c s) = Ok (a, s') -> run_as c m s = Ok (a, with_cur (cur s) s').
Proof.
  intros E. unfold run_as. erewrite M_bind_ok by reflexivity. erewrite M_bind_ok by reflexivity.
  by erewrite M_bind_ok by exact E.
Qed.

Lemma with_cur_ok c s t : node_ok s t -> node_ok (with_cur c s) t.
Proof. intros []. by split. Qed.

Lemma with_cur_fit c stack s t : fit stack s t -> fit stack (with_cur c s) t.
Proof. intros []. split; try done. by apply with_cur_ok. Qed.

Lemma with_cur_steady c s s' : steady (with_cur c s) s' -> steady s (with_cur (cur s) s').
Proof. intros []. by split. Qed.

Section session.
Variable pointer : block -> block * nat -> Z -> va -> printf_spec -> res (block * nat).
Context (stack : autos) (Ha : autos_ok stack).
Context (env : io_env) (wait : M Z) (ext : outside).

#[local] Instance session_aio : AioOps := wjfs_aio env (a_page stack) wait.
#[local] Instance session_ops : InodeOps := wjfs_ops pointer stack.

#[local] Abbreviation follow := (x_follow ext).

(** An event, and the file it opened. *)
Definition perform (e : event) : M (option file) :=
  match e with
  | Served addr msg => _ ← server_step pointer stack addr msg; mret None
  | Mknod u dfd name mode umask => _ ← run_as (t_cred u) (mknodat (t_fs u) follow dfd name mode 0 umask); mret None
  | Mkdir u dfd name mode umask => _ ← run_as (t_cred u) (mkdirat (t_fs u) follow dfd name mode umask); mret None
  | Unlink u dfd name => _ ← run_as (t_cred u) (unlinkat (t_fs u) follow dfd name 0); mret None
  | Rmdir u dfd name => _ ← run_as (t_cred u) (unlinkat (t_fs u) follow dfd name AT_REMOVEDIR); mret None
  | Move u olddfd oldname newdfd newname =>
      _ ← run_as (t_cred u) (renameat (t_fs u) follow olddfd oldname newdfd newname); mret None
  | OpenFile u dfd name flags mode umask =>
      x ← run_as (t_cred u) (do_sys_open env (x_nodev ext) umask (t_fs u) follow (x_link ext) (x_special ext)
                               dfd name flags mode);
      mret (match x with Some (inr (OFile f)) => Some f | _ => None end)
  | CloseFile f => _ ← filp_close (OFile f); mret None
  | Truncate u name n => _ ← run_as (t_cred u) (do_sys_truncate env (t_fs u) follow name n); mret None
  | ReadDirectory f calls um count => _ ← list_directory env calls f um count; mret None
  | Read f buf len pos => _ ← vfs_read pointer stack 1 f buf len pos; mret None
  | Write f buf len pos => _ ← vfs_write pointer stack 1 f buf len pos; mret None
  end.

(** The open files after an event. *)
Fixpoint close_one (f : file) (o : list file) : list file :=
  match o with
  | [] => []
  | g :: o => if bool_decide (g = f) then o else g :: close_one f o
  end.

Definition files_after (e : event) (out : option file) (o : list file) : list file :=
  match e, out with
  | CloseFile f, _ => close_one f o
  | _, Some f => f :: o
  | _, None => o
  end.

(** The names and numbers of a request that fits the arrays of the server. *)
Definition fits (ino : Z) (n : list Z) (inop : Z) (np : list Z) : Prop :=
  fname n /\ (length n <= 19)%nat /\ fname np /\ (length np <= 19)%nat /\
  0 <= ino < 2 ^ 31 /\ 0 <= inop < 2 ^ 31.

(** A file of this node that is open. *)
Definition own_file (s : kstate) (f : file) (ir : nat) (i : inode) : Prop :=
  exists d ls, dentries s !! f_dentry f = Some d /\ d_inode d = Some ir /\ inodes s !! ir = Some i /\
    links (g_table (glob s)) = Ok ls /\ spec_mine ls (i_ino i) = true.

(** A path name that a process may pass: its own directories and the open one are on
    the node. *)
Definition passes (s : kstate) (t : tree) (u : task) (dfd : option nat) (name : list Z) : Prop :=
  fs_ok s t (t_fs u) /\ Forall (fun b => b <> 0) name /\ (forall r, dfd = Some r -> is_Some (dentries s !! r)).

(** The tree after a call that makes an entry and returned [e], and after one that
    removes an entry. *)
Definition with_entry (s : kstate) (u : task) (dfd : option nat) (name : list Z) (e : option Z) (t : tree) : tree :=
  match e, parent_place (with_cur (t_cred u) s) (t_fs u) dfd name with
  | Some 0, At q => add_child q (fresh s) t
  | _, _ => t
  end.

Definition without_entry (s : kstate) (u : task) (dfd : option nat) (name : list Z) (e : option Z) (t : tree) : tree :=
  match e, parent_place (with_cur (t_cred u) s) (t_fs u) dfd name, last_norm name with
  | Some 0, At q, Some c =>
      match d_lookup_in (d_hash s) (dentries s) q c with Some r => del r t | None => t end
  | _, _, _ => t
  end.

(** The tree after open. *)
Definition opened_tree (s : kstate) (u : task) (dfd : option nat) (name : list Z) (flags : Z) (t : tree) : tree :=
  match open_answer (with_cur (t_cred u) s) (t_fs u) dfd name flags with
  | Fresh q _ => add_child q (fresh s) t
  | _ => t
  end.

(** When an event is allowed, with the files [o] open, and the tree it leaves.  A
    directory is open within [ReadDirectory] only. *)
Inductive allowed (s : kstate) (t : tree) (o : list file) : event -> tree -> Prop :=
  | allow_create addr ino n inop np mode p pd pir pi ls ls' :
      fits ino n inop np -> 47 ∉ n -> resolves s np p -> directory s p pd pir pi ->
      d_lookup_in (d_hash s) (dentries s) p n = None ->
      links (g_table (glob s)) = Ok ls ->
      spec_add ls (mkLink (s32 (u32 (last_ino s + 1))) ino (s32 (i_ino pi)) inop) = Some ls' ->
      allowed s t o (Served addr (message "CR" ino n inop np mode)) (add_child p (fresh s) t)
  | allow_remove addr ino n inop np mode r d i my my_parent ls ls' :
      fits ino n inop np ->
      links (g_table (glob s)) = Ok ls -> spec_take ls ino inop = (ls', (my, my_parent)) ->
      dentries s !! r = Some d -> r <> troot t -> d_subdirs d = [] -> users (dentries s) r = 0 ->
      node_inode s r = Some i -> i_ino i = u32 my -> numbered s (u32 my) r ->
      allowed s t o (Served addr (message "RM" ino n inop np mode)) (del r t)
  | allow_write addr ino n inop np p r d ir i :
      fits ino n inop np -> served_file s t ino r d ir i ->
      Forall (fun c => c <> 0) p -> p <> [] -> (length p <= 900)%nat -> (length (flat p) <= 19)%nat ->
      allowed s t o (Served addr (req_text (bytes "WR") ino n inop np p)) t
  | allow_read addr ino n inop np r d ir i c :
      fits ino n inop np -> served_file s t ino r d ir i -> 0 < i_size i <= 1024 ->
      is_cstr (contents i ++ junk_after stack i) c -> (length c < 1024)%nat -> inert c ->
      allowed s t o (Served addr (read_text ino n inop np)) t
  | allow_mknod u dfd name mode umask :
      passes s t u dfd name ->
      Z.land (Z.land mode (Z.lnot umask)) S_IFMT = 0 \/
      Z.land (Z.land mode (Z.lnot umask)) S_IFMT = S_IFREG ->
      allowed s t o (Mknod u dfd name mode umask)
        (with_entry s u dfd name (mknod_result (with_cur (t_cred u) s) (t_fs u) dfd name mode umask) t)
  | allow_mkdir u dfd name mode umask :
      passes s t u dfd name ->
      allowed s t o (Mkdir u dfd name mode umask)
        (with_entry s u dfd name (mkdir_result (with_cur (t_cred u) s) (t_fs u) dfd name) t)
  | allow_unlink u dfd name :
      passes s t u dfd name -> free_to_remove (with_cur (t_cred u) s) (t_fs u) dfd name ->
      allowed s t o (Unlink u dfd name)
        (without_entry s u dfd name (unlink_result (with_cur (t_cred u) s) (t_fs u) dfd name) t)
  | allow_rmdir u dfd name :
      passes s t u dfd name -> free_to_remove (with_cur (t_cred u) s) (t_fs u) dfd name ->
      allowed s t o (Rmdir u dfd name)
        (without_entry s u dfd name (rmdir_result (with_cur (t_cred u) s) (t_fs u) dfd name) t)
  | allow_rename u olddfd oldname newdfd newname p pd pir pi n p' pd' pir' pi' n' r d ir i :
      let su := with_cur (t_cred u) s in
      passes s t u olddfd oldname -> passes s t u newdfd newname ->
      parent_place su (t_fs u) olddfd oldname = At p -> last_norm oldname = Some n -> ends_slash oldname = false ->
      parent_place su (t_fs u) newdfd newname = At p' -> last_norm newname = Some n' -> ends_slash newname = false ->
      directory s p pd pir pi -> directory s p' pd' pir' pi' ->
      may_change su pi -> may_change su pi' -> check_sticky (t_cred u) pi i = false ->
      entry s t p n r d ir i -> S_ISDIR (i_mode i) = false ->
      (length n' <= 255)%nat -> d_lookup_in (d_hash s) (dentries s) p' n' = None ->
      allowed s t o (Move u olddfd oldname newdfd newname) (add_child p' r (del r t))
  | allow_open u dfd name flags mode umask :
      passes s t u dfd name ->
      (forall r, open_answer (with_cur (t_cred u) s) (t_fs u) dfd name flags = Found r -> is_dir s r = false) ->
      allowed s t o (OpenFile u dfd name flags mode umask) (opened_tree s u dfd name flags t)
  | allow_close f : f ∈ o -> allowed s t o (CloseFile f) t
  | allow_truncate u name n : passes s t u None name -> allowed s t o (Truncate u name n) t
  | allow_readdir f um count pd pir pi :
      directory s (f_dentry f) pd pir pi ->
      (forall r i, inodes s !! r = Some i -> 0 <= i_ino i < 2 ^ 64) ->
      Z.of_nat (length (listing s (f_dentry f) pd)) < 2 ^ 31 -> 280 <= count < 2 ^ 31 ->
      count <= Z.of_nat (length um) ->
      allowed s t o (ReadDirectory f (S (length (listing s (f_dentry f) pd))) um count) t
  | allow_user_read f ir i buf len pos :
      own_file s f ir i -> S_ISDIR (i_mode i) = false -> 0 <= pos < 2 ^ 44 -> 0 <= len < 2 ^ 31 ->
      len <= Z.of_nat (length buf) ->
      allowed s t o (Read f buf len pos) t
  | allow_user_write f ir i buf len ppos pos count :
      own_file s f ir i -> ifmt (i_mode i) S_IFREG = true -> 0 <= ppos < 2 ^ 62 ->
      0 <= len <= MAX_RW_COUNT -> len <= Z.of_nat (length buf) ->
      generic_write_checks env f (i_size i) ppos len = (0, pos, count) -> 0 < count ->
      allowed s t o (Write f buf len ppos) t.

(** ** One event *)

(** A node at rest whose files have well-formed data. *)
Definition sound (s : kstate) (t : tree) : Prop := able stack s t /\ files_ok s.

Lemma sound_open s t f ir i : sound s t -> own_file s f ir i -> open_file s f ir i.
Proof using.
  intros [Hab Hf] (d & ls & Hd & Hir & Hi & Hls & Hm).
  split; [by exists d|done|exact (Hf _ _ Hi)|apply (ab_mem _ _ _ Hab)|].
  exists ls. split; [apply (nk_table _ _ (ab_ok _ _ _ Hab))|done].
Qed.

Lemma sound_next s t s' t' : sound s t -> steady s s' -> node_ok s' t' -> sound s' t'.
Proof using.
  intros [[[Hb _ Hm (H1 & H2 & _)] Hc Ho] Hf] [Em Ec E1 E2 _ Hf'] Hok.
  split; [|by apply Hf']. split; [split|..]; rewrite ?Em, ?Ec; try done. split_and!; congruence.
Qed.

Lemma perform_bind {A} (m : M A) s a s' :
  m s = Ok (a, s') -> (_ ← m; mret (None : option file)) s = Ok (None, s').
Proof using. intros H. by erewrite M_bind_ok by exact H. Qed.

Lemma serve_create s t addr ino n inop np mode p pd pir pi ls ls' :
  sound s t -> fits ino n inop np -> 47 ∉ n -> resolves s np p -> directory s p pd pir pi ->
  d_lookup_in (d_hash s) (dentries s) p n = None -> links (g_table (glob s)) = Ok ls ->
  spec_add ls (mkLink (s32 (u32 (last_ino s + 1))) ino (s32 (i_ino pi)) inop) = Some ls' ->
  exists s', server_step pointer stack addr (message "CR" ino n inop np mode) s = Ok (Some [], s') /\
    steady s s' /\ node_ok s' (add_child p (fresh s) t) /\
    grows s s' (fresh s) (mkEnt p n (u32 (last_ino s + 1)) (negb (mode =? 0))) /\
    links (g_table (glob s')) = Ok ls'.
Proof using Ha.
  intros [[[_ Hok Hm _] Hcap _] Hfs] (Fn & Ln & Fp & Lp & Hi & Hip) Hsl Hres [Hp Hpir Hpi Hdir _] Hmiss Hls Hadd.
  destruct (message_fits "CR" ino n inop np mode verb_CR Fn Ln Fp Lp Hi Hip) as [Hlen Hbuf].
  destruct verb_CR as [_ Fv].
  destruct (create_served pointer stack s t _ _ ino n inop np mode p pd pir pi (peer_text addr)
    (quad addr) ls ls' Hok Ha Hm Hcap Hbuf Fv) as (s1 & E1 & Hok1 & [t1 Es1] & Hls'); try done;
    [change (length (bytes "CR")) with 2%nat; lia|apply peer_text_cstr|apply length_quad|].
  exists s1. split; [|subst s1; split; [split; try done|split; [done|split; [|done]]]].
  2: { exact (create_users s t p pd pir pi n 0 (g_table (glob s)) Hok Hp Hpi). }
  2: { intros Hf. by eapply created_files. }
  2: { assert (Hlm : Z.land (link_mode (mode_value mode)) S_IFMT = S_IFREG \/
                     Z.land (link_mode (mode_value mode)) S_IFMT = S_IFDIR)
         by (unfold link_mode, mode_value; by destruct (mode =? 0); [left|right]).
       pose proof (created_grows s t p pd pir pi n (link_mode (mode_value mode)) 1 Hok Hp Hpi Hlm) as Hg.
       replace (negb (mode =? 0)) with (S_ISDIR (link_mode (mode_value mode))); [exact Hg|].
       unfold link_mode, mode_value. by destruct (mode =? 0). }
  eapply server_dispatch; [exact Hlen|done|]. left. split; [done|exact E1].
Qed.

Lemma serve_remove s t addr ino n inop np mode r d i my my_parent ls ls' :
  sound s t -> fits ino n inop np ->
  links (g_table (glob s)) = Ok ls -> spec_take ls ino inop = (ls', (my, my_parent)) ->
  dentries s !! r = Some d -> r <> troot t -> d_subdirs d = [] -> users (dentries s) r = 0 ->
  node_inode s r = Some i -> i_ino i = u32 my -> numbered s (u32 my) r ->
  exists s', server_step pointer stack addr (message "RM" ino n inop np mode) s = Ok (Some [], s') /\
    steady s s' /\ node_ok s' (del r t) /\ shrinks s s' r /\ links (g_table (glob s')) = Ok ls'.
Proof using Ha.
  intros [[[_ Hok Hm _] _ _] Hfs] (Fn & Ln & Fp & Lp & Hi & Hip) Hls Htake Hd Hr Hsub Hu Hni Hino Hnum.
  destruct (message_fits "RM" ino n inop np mode verb_RM Fn Ln Fp Lp Hi Hip) as [Hlen Hbuf].
  destruct verb_RM as [_ Fv].
  destruct (remove_served stack s t _ _ ino n inop np mode r d i my my_parent ls ls' Hok Ha Hbuf Fv)
    as (ir & pd & pir & pi & t' & Hleaf & Hrun & Hok' & Hls' & Hus); try done;
    [change (length (bytes "RM")) with 2%nat; lia|].
  eexists. split; [eapply server_dispatch; [exact Hlen|done|right; left; split; [done|exact Hrun]]|].
  split; [|split; [done|split; [|done]]].
  2: { apply (removed_shrinks s t r d ir i (d_parent d) pd pir pi); try done; unfold after_remove; by destruct (_ =? 0). }
  split; try done. intros _.
  apply (removed_files s r ir (d_parent d) pd pir pi); try done; [apply Hleaf|unfold after_remove; by destruct (_ =? 0)..].
Qed.

Lemma serve_write s t addr ino n inop np p r d ir i :
  sound s t -> fits ino n inop np -> served_file s t ino r d ir i ->
  Forall (fun c => c <> 0) p -> p <> [] -> (length p <= 900)%nat -> (length (flat p) <= 19)%nat ->
  exists s', server_step pointer stack addr (req_text (bytes "WR") ino n inop np p) s
      = Ok (Some [], s') /\ steady s s' /\ node_ok s' t.
Proof using Ha.
  intros [[[_ Hok Hm _] _ _] Hfs] (Fn & Ln & Fp & Lp & Hi & Hip) Hsf Hnz Hne Hlp Hfl.
  destruct (server_write pointer stack s t addr ino n inop np p r d ir i) as (E & Hok' & _); try done.
  eexists. split; [exact E|]. split; [|done]. split; try done. intros _. apply files_ok_insert; [done|].
  pose proof (Hfs _ _ (sf_i _ _ _ _ _ _ _ Hsf)) as Hd. destruct Ha as (_ & _ & _ & _ & _ & Hpage).
  eapply pt_ok, written_patched; [done|done|lia].
Qed.

Lemma serve_read s t addr ino n inop np r d ir i c :
  sound s t -> fits ino n inop np -> served_file s t ino r d ir i -> 0 < i_size i <= 1024 ->
  is_cstr (contents i ++ junk_after stack i) c -> (length c < 1024)%nat -> inert c ->
  exists s', server_step pointer stack addr (read_text ino n inop np) s = Ok (Some c, s') /\
    steady s s' /\ node_ok s' t.
Proof using Ha.
  intros [[[_ Hok Hm _] _ _] Hfs] (Fn & Ln & Fp & Lp & Hi & Hip) Hsf Hsz Hcs Hlc Hin.
  exists s. split; [by eapply server_read|by split].
Qed.

Lemma served_ok s t o addr msg t' :
  sound s t -> allowed s t o (Served addr msg) t' ->
  exists out s', server_step pointer stack addr msg s = Ok (Some out, s') /\
    steady s s' /\ node_ok s' t'.
Proof using Ha.
  intros Hab Hal. inversion Hal; subst.
  - exists []. edestruct serve_create as (s' & E & Hst & Hok & _); eauto.
  - exists []. edestruct serve_remove as (s' & E & Hst & Hok & _); eauto.
  - exists []. by eapply serve_write.
  - eexists. by eapply serve_read.
Qed.

(** ** Open files *)

Definition uses (o : list file) (r : nat) : Z := Z.of_nat (length (filter (fun f => f_dentry f = r) o)).

(** Every open file holds its dentry. *)
Definition holds (o : list file) (s : kstate) : Prop := forall r, uses o r <= users (dentries s) r.

Lemma uses_cons f o r : uses (f :: o) r = uses o r + (if decide (r = f_dentry f) then 1 else 0).
Proof using.
  unfold uses. rewrite filter_cons. repeat case_decide; subst; try done; cbn [length]; lia.
Qed.

Lemma uses_close f o r : f ∈ o -> uses (close_one f o) r = uses o r - (if decide (r = f_dentry f) then 1 else 0).
Proof using.
  induction o as [|g o IH]; intros Hf; [by apply not_elem_of_nil in Hf|]. cbn [close_one].
  case_bool_decide as E; [subst g; rewrite uses_cons; lia|].
  apply elem_of_cons in Hf as [->|Hf]; [done|]. rewrite !uses_cons, IH by done. lia.
Qed.

(** The dentry of an open file is there, and in use. *)
Lemma held o s f :
  holds o s -> f ∈ o -> 1 <= users (dentries s) (f_dentry f) /\ is_Some (dentries s !! f_dentry f).
Proof using.
  intros Hh Hf. pose proof (uses_close f o (f_dentry f) Hf) as E. rewrite decide_True in E by done.
  assert (0 <= uses (close_one f o) (f_dentry f)) by (unfold uses; lia). specialize (Hh (f_dentry f)).
  unfold users in *. destruct (dentries s !! f_dentry f); [split; [lia|done]|lia].
Qed.

Lemma holds_same o s s' : (forall r, users (dentries s') r = users (dentries s) r) -> holds o s -> holds o s'.
Proof using. intros Hu Hh r. by rewrite Hu. Qed.

(** The reference an event leaves on, or takes from, the dentry of its file. *)
Definition shift (e : event) (out : option file) (s : kstate) : kstate :=
  match e, out with
  | CloseFile f, _ => unuse (f_dentry f) s
  | _, Some f => use (f_dentry f) s
  | _, None => s
  end.

(** What an event that [perform]s leaves: a steady node, but for that reference. *)
Definition performed (s : kstate) (o : list file) (e : event) (t' : tree) : Prop :=
  exists out s1, perform e s = Ok (out, shift e out s1) /\ steady s s1 /\ node_ok s1 t' /\
    match e, out with
    | CloseFile f, _ => f ∈ o
    | _, Some f => is_Some (dentries s1 !! f_dentry f)
    | _, None => True
    end.

(** An event that opens and closes nothing. *)
Lemma performed_steady s o e t' s1 :
  (forall f, e <> CloseFile f) -> perform e s = Ok (None, s1) -> steady s s1 -> node_ok s1 t' -> performed s o e t'.
Proof using.
  intros Hc E Hst Hok. assert (shift e None s1 = s1) as Es by (destruct e; try done; by destruct (Hc f)).
  exists None, s1. rewrite Es. split_and!; try done. destruct e; try done. by destruct (Hc f).
Qed.

Lemma performed_as s o c {A} (m : M A) e t' a s' :
  (forall f, e <> CloseFile f) -> (forall x, perform e x = (_ ← run_as c m; mret None) x) ->
  m (with_cur c s) = Ok (a, s') -> steady (with_cur c s) s' -> node_ok s' t' -> performed s o e t'.
Proof using.
  intros Hc He E Hst Hok. apply (performed_steady s o e t' (with_cur (cur s) s')); [done| | |].
  - rewrite He. by eapply perform_bind, run_as_ok.
  - by eapply with_cur_steady.
  - by apply with_cur_ok.
Qed.

(** A call on the directory of a path, whatever it returns: nothing changed, or the
    tree is the one of [R]. *)
Lemma called_event s t o u dfd name e R m ev t' :
  sound s t -> (forall f, ev <> CloseFile f) -> (forall x, perform ev x = (_ ← run_as (t_cred u) m; mret None) x) ->
  called (t_fs u) (with_cur (t_cred u) s) dfd name e R (m (with_cur (t_cred u) s)) ->
  (e <> Some 0 -> t' = t) ->
  (forall q pd pir pi c s', e = Some 0 -> parent_place (with_cur (t_cred u) s) (t_fs u) dfd name = At q ->
     last_norm name = Some c -> R q pd pir pi c s' -> node_ok s' t') ->
  performed s o ev t'.
Proof using.
  intros Hso Hcl He (s' & E & Hq & Hs) Ht HR. pose proof (ab_ok _ _ _ (proj1 Hso)) as Hok.
  destruct (decide (e = Some 0)) as [H0|H0].
  - destruct (Hs H0) as (q & pd & pir & pi & c & Hp & _ & Hl & Hst & HR'). by eapply performed_as; eauto.
  - rewrite (Ht H0). eapply performed_as; [done|done|done|by apply quiet_steady, Hq|].
    by eapply quiet_ok, with_cur_ok; [apply Hq|].
Qed.

Lemma with_entry_same s u dfd name e t : e <> Some 0 -> with_entry s u dfd name e t = t.
Proof using. intros H. unfold with_entry. by destruct e as [[| |]|]. Qed.

Lemma without_entry_same s u dfd name e t : e <> Some 0 -> without_entry s u dfd name e t = t.
Proof using. intros H. unfold without_entry. by destruct e as [[| |]|]. Qed.

Lemma mknod_event s t o u dfd name mode umask :
  sound s t -> passes s t u dfd name ->
  Z.land (Z.land mode (Z.lnot umask)) S_IFMT = 0 \/ Z.land (Z.land mode (Z.lnot umask)) S_IFMT = S_IFREG ->
  performed s o (Mknod u dfd name mode umask)
    (with_entry s u dfd name (mknod_result (with_cur (t_cred u) s) (t_fs u) dfd name mode umask) t).
Proof using.
  intros Hso (Hfs & Hnz & Hdfd) Hm. pose proof (with_cur_fit (t_cred u) _ _ _ (ab_fit _ _ _ (proj1 Hso))) as Hft.
  eapply called_event; [done|done|done|eapply mknod_called; try done; by destruct Hfs|apply with_entry_same|].
  intros q pd pir pi c s' -> Hp _ (Hok & _). unfold with_entry. by rewrite Hp.
Qed.

Lemma mkdir_event s t o u dfd name mode umask :
  sound s t -> passes s t u dfd name ->
  performed s o (Mkdir u dfd name mode umask)
    (with_entry s u dfd name (mkdir_result (with_cur (t_cred u) s) (t_fs u) dfd name) t).
Proof using.
  intros Hso (Hfs & Hnz & Hdfd). pose proof (with_cur_fit (t_cred u) _ _ _ (ab_fit _ _ _ (proj1 Hso))) as Hft.
  eapply called_event; [done|done|done|eapply mkdir_called; try done; by destruct Hfs|apply with_entry_same|].
  intros q pd pir pi c s' -> Hp _ (Hok & _). unfold with_entry. by rewrite Hp.
Qed.

Lemma unmade_tree s t u dfd name flag q pd pir pi c s' :
  parent_place (with_cur (t_cred u) s) (t_fs u) dfd name = At q -> last_norm name = Some c ->
  unmade (with_cur (t_cred u) s) t flag q pd pir pi c s' -> node_ok s' (without_entry s u dfd name (Some 0) t).
Proof using.
  intros Hp Hl (r & d & ir & i & Hf & _ & _ & _ & Hok & _). unfold without_entry. rewrite Hp, Hl.
  simpl in Hf. by rewrite Hf.
Qed.

Lemma unlink_event s t o u dfd name :
  sound s t -> passes s t u dfd name -> free_to_remove (with_cur (t_cred u) s) (t_fs u) dfd name ->
  performed s o (Unlink u dfd name)
    (without_entry s u dfd name (unlink_result (with_cur (t_cred u) s) (t_fs u) dfd name) t).
Proof using.
  intros Hso (Hfs & Hnz & Hdfd) Hfr. pose proof (with_cur_fit (t_cred u) _ _ _ (ab_fit _ _ _ (proj1 Hso))) as Hft.
  eapply called_event; [done|done|done|eapply unlink_called; try done; by destruct Hfs|apply without_entry_same|].
  intros q pd pir pi c s' -> Hp Hl HR. by eapply unmade_tree.
Qed.

Lemma rmdir_event s t o u dfd name :
  sound s t -> passes s t u dfd name -> free_to_remove (with_cur (t_cred u) s) (t_fs u) dfd name ->
  performed s o (Rmdir u dfd name)
    (without_entry s u dfd name (rmdir_result (with_cur (t_cred u) s) (t_fs u) dfd name) t).
Proof using.
  intros Hso (Hfs & Hnz & Hdfd) Hfr. pose proof (with_cur_fit (t_cred u) _ _ _ (ab_fit _ _ _ (proj1 Hso))) as Hft.
  eapply called_event; [done|done|done|eapply rmdir_called; try done; by destruct Hfs|apply without_entry_same|].
  intros q pd pir pi c s' -> Hp Hl HR. by eapply unmade_tree.
Qed.

Lemma move_event s t o u olddfd oldname newdfd newname t' :
  sound s t -> allowed s t o (Move u olddfd oldname newdfd newname) t' ->
  performed s o (Move u olddfd oldname newdfd newname) t'.
Proof using.
  intros Hso Hal. pose proof (with_cur_fit (t_cred u) _ _ _ (ab_fit _ _ _ (proj1 Hso))) as Hft.
  inversion Hal as [| | | | | | | |? ? ? ? ? p pd pir pi n p' pd' pir' pi' n' r d ir i su (Hfs & Hnz & Hdfd)
    (_ & Hnz' & Hdfd') Hp Hl Hs Hp' Hl' Hs' Hdy Hdy' Hw Hw' Hst Hen Hk Hlen Hmiss| | | | | |]; subst.
  destruct (rename_by_path pointer stack (t_fs u) follow su t olddfd oldname newdfd newname p pd pir pi n
    p' pd' pir' pi' n' r d ir i) as (s' & E & Hok & _ & _ & Hst' & _); try done;
    [by destruct Hfs|by destruct Hdy|by destruct Hdy'|by destruct Hen|].
  by eapply performed_as.
Qed.

Lemma readdir_event s t o f um count pd pir pi :
  sound s t -> directory s (f_dentry f) pd pir pi ->
  (forall r i, inodes s !! r = Some i -> 0 <= i_ino i < 2 ^ 64) ->
  Z.of_nat (length (listing s (f_dentry f) pd)) < 2 ^ 31 -> 280 <= count < 2 ^ 31 ->
  count <= Z.of_nat (length um) ->
  performed s o (ReadDirectory f (S (length (listing s (f_dentry f) pd))) um count) t.
Proof using.
  intros [Hab Hfs] Hdy Hino Hlen Hc Hum. pose proof (ab_ok _ _ _ Hab) as Hok.
  destruct (list_directory_ok env s t (f_dentry f) pd pir pi f um count Hok (ab_mem _ _ _ Hab) Hdy)
    as (m & E & [a ->] & Hok'); try done.
  eapply performed_steady; [done|by eapply perform_bind| |done]. split; try done. intros _.
  apply map_Forall_insert_2; [|done]. eapply data_ok_same; [exact (Hfs _ _ (dy_i _ _ _ _ _ Hdy))|done..].
Qed.

(** The inode of a file that users read and write. *)
Lemma own_regular s t f ir i :
  sound s t -> own_file s f ir i -> S_ISDIR (i_mode i) = false ->
  exists d, dentries s !! f_dentry f = Some d /\ d_inode d = Some ir /\ inodes s !! ir = Some i /\ i_fop i = wjfs_file_fops.
Proof using.
  intros Hso (d & ls & Hd & Hir & Hi & _) Hk. pose proof (ab_ok _ _ _ (proj1 Hso)) as Hok. exists d. split_and!; try done.
  destruct (nk_inode _ _ Hok _ _ Hd) as (? & ? & ? & ? & _ & _ & _ & _ & Ht). simplify_eq. by apply typed_reg.
Qed.

Lemma read_event s t o f ir i buf len pos :
  sound s t -> own_file s f ir i -> S_ISDIR (i_mode i) = false ->
  0 <= pos < 2 ^ 44 -> 0 <= len < 2 ^ 31 -> len <= Z.of_nat (length buf) ->
  performed s o (Read f buf len pos) t.
Proof using.
  intros Hab Hof Hk Hp Hl Hlb. pose proof (sound_open _ _ _ _ _ Hab Hof) as Hop.
  destruct (own_regular _ _ _ _ _ Hab Hof Hk) as (d & Hd & Hir & Hi & Hfop). destruct Hab as [Hab Hfs].
  pose proof (ab_ok _ _ _ Hab) as Hok.
  assert (Ev : forall x, perform (Read f buf len pos) x = (_ ← vfs_read pointer stack 1 f buf len pos; mret None) x) by done.
  pose proof (vfs_read_ok pointer stack s f d ir i Hd Hir Hi Hfop 1 buf len pos ltac:(lia) Hl) as Er. destruct (f_read f); cycle 1.
  { eapply performed_steady; [done|rewrite Ev; by eapply perform_bind|done|done]. }
  destruct (local_read_ok pointer stack env (a_page stack) wait 0 s f ir i buf (Z.min len MAX_RW_COUNT) pos Hop Hp)
    as (i' & Hseen & E); [unfold MAX_RW_COUNT; lia|lia|].
  eapply performed_steady; [done|rewrite Ev; eapply perform_bind; rewrite Er; exact E| |by eapply seen_node_ok].
  split; try done. intros _. by apply files_ok_insert, Hseen.
Qed.

Lemma write_event s t o f ir i buf len ppos pos count :
  sound s t -> own_file s f ir i -> ifmt (i_mode i) S_IFREG = true -> 0 <= ppos < 2 ^ 62 ->
  0 <= len <= MAX_RW_COUNT -> len <= Z.of_nat (length buf) ->
  generic_write_checks env f (i_size i) ppos len = (0, pos, count) -> 0 < count ->
  performed s o (Write f buf len ppos) t.
Proof using Ha.
  intros Hab Hof Hreg Hpp Hl Hlb Hck Hc0. pose proof (sound_open _ _ _ _ _ Hab Hof) as Hop.
  destruct (own_regular _ _ _ _ _ Hab Hof (reg_not_dir _ Hreg)) as (d & Hd & Hir & Hi & Hfop).
  pose proof Ha as (_ & _ & _ & _ & _ & Hpage). destruct Hab as [Hab Hfs]. pose proof (ab_ok _ _ _ Hab) as Hok.
  assert (Hl31 : 0 <= len < 2 ^ 31) by (unfold MAX_RW_COUNT in Hl; lia).
  assert (Ev : forall x, perform (Write f buf len ppos) x = (_ ← vfs_write pointer stack 1 f buf len ppos; mret None) x) by done.
  pose proof (vfs_write_ok pointer stack s f d ir i Hd Hir Hi Hfop 1 buf len ppos Hpp Hl31) as Er.
  destruct (f_write f); cycle 1.
  { eapply performed_steady; [done|rewrite Ev; by eapply perform_bind|done|done]. }
  rewrite Z.min_l in Er by lia.
  destruct (local_write_ok pointer stack env (a_page stack) wait Hpage 0 s f ir i buf len ppos pos count
    Hop Hl31 Hlb Hck Hc0) as (i' & Hw & E).
  eapply performed_steady; [done|rewrite Ev; eapply perform_bind; rewrite Er; exact E| |by eapply wrote_node_ok].
  split; try done. intros _. by apply files_ok_insert, Hw.
Qed.

#[local] Abbreviation open_call u dfd name flags mode umask :=
  (do_sys_open env (x_nodev ext) umask (t_fs u) follow (x_link ext) (x_special ext) dfd name flags mode).

(** An open that returns no file of wjfs, and one that does. *)
Lemma open_refused s o u dfd name flags mode umask x s2 t' :
  open_call u dfd name flags mode umask (with_cur (t_cred u) s) = Ok (x, s2) -> (forall y, x <> Some (inr y)) ->
  steady (with_cur (t_cred u) s) s2 -> node_ok s2 t' -> performed s o (OpenFile u dfd name flags mode umask) t'.
Proof using.
  intros E Hx Hst Hok2. apply (performed_steady s o _ _ (with_cur (cur s) s2)); [done| | |].
  - cbn [perform]. erewrite M_bind_ok by (eapply run_as_ok; exact E). destruct x as [[|y]|]; [done| |done]. by destruct (Hx y).
  - by eapply with_cur_steady.
  - by apply with_cur_ok.
Qed.

Lemma open_granted s o u dfd name flags mode umask r s1 t' :
  opens Some r flags s1 (open_call u dfd name flags mode umask (with_cur (t_cred u) s)) ->
  steady (with_cur (t_cred u) s) s1 -> node_ok s1 t' -> is_dir s1 r = false -> is_Some (dentries s1 !! r) ->
  performed s o (OpenFile u dfd name flags mode umask) t'.
Proof using.
  intros Ho Hst Hok1 Hk Hr1. unfold opens in Ho. destruct (flag flags O_DIRECT).
  - destruct Ho as (s' & E & Hq). eapply open_refused; [exact E|done| |by eapply quiet_ok].
    etransitivity; [exact Hst|by apply quiet_steady].
  - destruct Ho as (op & s2 & s3 & E & _ & _ & _ & H). destruct (H Hk) as (-> & -> & _).
    exists (Some (file_of r flags)), (with_cur (cur s) s1).
    split; [cbn [perform]; by erewrite M_bind_ok by (eapply run_as_ok; exact E)|].
    split; [by eapply with_cur_steady|]. split; [by apply with_cur_ok|done].
Qed.

(** Opening: the file holds its dentry; what is refused changes nothing. *)
Lemma open_event s t o u dfd name flags mode umask :
  sound s t -> passes s t u dfd name ->
  (forall r, open_answer (with_cur (t_cred u) s) (t_fs u) dfd name flags = Found r -> is_dir s r = false) ->
  performed s o (OpenFile u dfd name flags mode umask) (opened_tree s u dfd name flags t).
Proof using.
  intros [Hab Hfi] (Hfs & Hnz & Hdfd) Hnd.
  pose proof (with_cur_fit (t_cred u) _ _ _ (ab_fit _ _ _ Hab)) as Hft. pose proof (ft_ok _ _ _ Hft) as Hok.
  pose proof (open_responds pointer stack env (x_nodev ext) umask (t_fs u) follow (x_link ext) (x_special ext)
    (with_cur (t_cred u) s) t dfd name flags mode Hft Hfi ltac:(by destruct Hfs) Hnz Hdfd) as Hr.
  unfold opened_tree. destruct (open_answer _ (t_fs u) dfd name flags) as [e|r|q c|] eqn:Ean.
  - destruct Hr as (_ & s' & E & Hq). eapply open_refused; [exact E|done|by apply quiet_steady|by eapply quiet_ok].
  - destruct Hr as (s1 & Hc & Ho). destruct (cut_at_ok _ _ _ _ _ _ _ Hok Hc) as [Hok1 Hst].
    eapply open_granted; [exact Ho|done|done| |].
    + rewrite (cut_at_is_dir _ _ _ _ _ _ _ r Hok Hc). by apply Hnd.
    + destruct Hc as (d & ? & ? & ? & Hd & _ & _ & -> & _). eauto.
  - destruct Hr as (pd & pir & pi & s1 & _ & (Hok1 & (d & ? & ? & Hd & _) & _) & Hst & (i & Hni & Hk & _) & Ho).
    eapply open_granted; [exact Ho|done|done| |eauto]. unfold is_dir. by rewrite Hni.
  - destruct Hr as (s' & E & Hq). eapply open_refused; [exact E|done|by apply quiet_steady|by eapply quiet_ok].
Qed.

Lemma close_event s t o f : sound s t -> holds o s -> f ∈ o -> performed s o (CloseFile f) t.
Proof using.
  intros Hso Hh Hf. pose proof (ab_ok _ _ _ (proj1 Hso)) as Hok.
  destruct (held _ _ _ Hh Hf) as [Hu Hr]. destruct (dput_unuse s t _ Hok Hr Hu) as [E _]. exists None, s. split; [|done].
  cbn [perform shift]. erewrite M_bind_ok; [reflexivity|]. unfold filp_close, fput.
  erewrite M_bind_ok; [reflexivity|]. by erewrite M_bind_ok by reflexivity.
Qed.

Lemma truncate_event s t o u name n : sound s t -> passes s t u None name -> performed s o (Truncate u name n) t.
Proof using.
  intros [Hab Hfi] (Hfs & Hnz & Hdfd).
  pose proof (with_cur_fit (t_cred u) _ _ _ (ab_fit _ _ _ Hab)) as Hft. pose proof (ft_ok _ _ _ Hft) as Hok.
  destruct (truncate_ok pointer stack env (t_fs u) follow (with_cur (t_cred u) s) t name n Hft Hfi) as (s' & E & Hq & Hs);
    [by destruct Hfs|done|].
  destruct (decide (truncate_result env (with_cur (t_cred u) s) (t_fs u) name n = Some 0)) as [He|He].
  - destruct (Hs He) as (r & _ & _ & Hc). destruct (cut_at_ok _ _ _ _ _ _ _ Hok Hc) as [Hok1 Hst].
    by eapply performed_as.
  - eapply performed_as; [done|done|exact E|by apply quiet_steady, Hq|by eapply quiet_ok; [apply Hq|]].
Qed.

Lemma event_ok s t o e t' : sound s t -> holds o s -> allowed s t o e t' -> performed s o e t'.
Proof using Ha.
  intros Hab Hh Hal. destruct e as [addr msg| | | | |u olddfd oldname newdfd newname| | | | | |].
  { destruct (served_ok s t o addr msg t' Hab Hal) as (out & s' & E & H).
    eapply performed_steady; [done|by eapply perform_bind|apply H..]. }
  5: by apply (move_event s t).
  all: inversion Hal; subst;
    try by eauto using mknod_event, mkdir_event, unlink_event, rmdir_event, open_event, close_event, truncate_event,
      read_event, write_event.
  by eapply (readdir_event s t').
Qed.

(** ** Many events *)

Inductive life : kstate -> tree -> list file -> list event -> kstate -> tree -> list file -> Prop :=
  | life_nil s t o : life s t o [] s t o
  | life_cons s t o e t1 out s1 es s2 t2 o2 :
      allowed s t o e t1 -> perform e s = Ok (out, s1) -> life s1 t1 (files_after e out o) es s2 t2 o2 ->
      life s t o (e :: es) s2 t2 o2.

(** What is in use besides the open files. *)
Definition other_users (o : list file) (s : kstate) (r : nat) : Z := users (dentries s) r - uses o r.

Lemma sound_alike s t s' t' :
  sound s t -> alike s s' -> mem s' = mem s -> network s' = network s -> node_ok s' t' -> sound s' t'.
Proof using.
  intros [[[Hb _ Hm Hon] Hc Ho] Hf] Hal Em En Hok. split; [|unfold files_ok; by rewrite (al_inodes _ _ Hal)].
  split; [split|..]; rewrite ?(al_cur _ _ Hal), ?Em; try done. unfold online. by rewrite En, Em.
Qed.

(** Closing and opening a file of a node at rest. *)
Lemma sound_close s t o f :
  sound s t -> holds o s -> f ∈ o ->
  sound (unuse (f_dentry f) s) t /\ forall r, other_users (close_one f o) (unuse (f_dentry f) s) r = other_users o s r.
Proof using.
  intros Hso Hh Hf. pose proof (ab_ok _ _ _ (proj1 Hso)) as Hok. destruct (held _ _ _ Hh Hf) as [Hu Hr].
  destruct (dput_unuse s t _ Hok Hr Hu) as [_ Hok1].
  split; [by apply (sound_alike s t); [..|apply unuse_alike| | |]|].
  intros r. unfold other_users. rewrite users_unuse, uses_close by done. lia.
Qed.

Lemma sound_use s t o f :
  sound s t -> is_Some (dentries s !! f_dentry f) ->
  sound (use (f_dentry f) s) t /\ forall r, other_users (f :: o) (use (f_dentry f) s) r = other_users o s r.
Proof using.
  intros Hso Hf. pose proof (ab_ok _ _ _ (proj1 Hso)) as Hok.
  split; [by apply (sound_alike s t); [..|apply use_alike| | |apply use_ok]|].
  intros r. unfold other_users. rewrite users_use, uses_cons by done. lia.
Qed.

Lemma sound_event s t o e t1 out s1 :
  sound s t -> holds o s -> allowed s t o e t1 -> perform e s = Ok (out, s1) ->
  sound s1 t1 /\ forall r, other_users (files_after e out o) s1 r = other_users o s r.
Proof using Ha.
  intros Hab Hh Hal E. destruct (event_ok _ _ _ _ _ Hab Hh Hal) as (out' & x & E' & Hst & Hok & Hx).
  rewrite E in E'. injection E' as <- ->. pose proof (sound_next _ _ _ _ Hab Hst Hok) as Hsx.
  assert (Hus : forall r, users (dentries x) r = users (dentries s) r) by (intros r; apply Hst).
  assert (Hou : forall r, other_users o x r = other_users o s r) by (intros r; unfold other_users; by rewrite Hus).
  pose proof (holds_same o s x Hus Hh) as Hhx.
  assert (Hclose : forall f, f ∈ o -> sound (unuse (f_dentry f) x) t1 /\
    forall r, other_users (close_one f o) (unuse (f_dentry f) x) r = other_users o s r).
  { intros f Hf. destruct (sound_close x t1 o f Hsx Hhx Hf) as [H1 H2]. split; [done|]. intros r. by rewrite H2. }
  assert (Hopen : forall f, is_Some (dentries x !! f_dentry f) -> sound (use (f_dentry f) x) t1 /\
    forall r, other_users (f :: o) (use (f_dentry f) x) r = other_users o s r).
  { intros f Hf. destruct (sound_use x t1 o f Hsx Hf) as [H1 H2]. split; [done|]. intros r. by rewrite H2. }
  destruct e, out; cbn [shift files_after] in *; auto.
Qed.

Lemma life_sound s t o es s' t' o' :
  sound s t -> holds o s -> life s t o es s' t' o' ->
  sound s' t' /\ holds o' s' /\ forall r, other_users o' s' r = other_users o s r.
Proof using Ha.
  intros Hab Hh H. induction H as [|s t o e t1 out s1 es s2 t2 o2 Hal E _ IH]; [done|].
  destruct (sound_event _ _ _ _ _ _ _ Hab Hh Hal E) as [Hab1 Hu].
  assert (Hh1 : holds (files_after e out o) s1).
  { intros r. specialize (Hu r). specialize (Hh r). unfold other_users in Hu. lia. }
  destruct (IH Hab1 Hh1) as (Hab2 & Hh2 & Hu2). split_and!; try done. intros r. by rewrite Hu2.
Qed.

(** The loop of the server over the requests of a life, ended by "quit". *)
Lemma server_run_life conns s t o s' t' o' addr :
  sound s t -> life s t o (map (fun '(a, m) => Served a m) conns) s' t' o' ->
  exists outs, server_run pointer stack (conns ++ [(addr, bytes "quit")]) s = Ok ((0, outs), s') /\
    length outs = length conns.
Proof using Ha.
  revert s t o. induction conns as [|[a m] conns IH]; intros s t o Hab Hl.
  - inversion Hl; subst. exists []. split; [|done]. cbn [app server_run].
    assert (Eq : server_step pointer stack addr (bytes "quit") s' = Ok (None, s')).
    { unfold server_step. erewrite M_bind_ok by (apply alloc_ok, (ab_mem _ _ _ (proj1 Hab))).
      erewrite M_bind_ok by (unfold lift; by rewrite inet_ntoa_text). reflexivity. }
    by erewrite M_bind_ok by exact Eq.
  - inversion Hl as [|? ? ? ? t1 out1 s1 ? ? ? ? Hal E Hl']; subst.
    destruct (served_ok _ _ _ _ _ _ Hab Hal) as (out & s1' & E1 & Hw & Hok).
    assert (s1' = s1 /\ out1 = None) as [-> ->].
    { cbn [perform] in E. erewrite M_bind_ok in E by exact E1. by injection E as <- <-. }
    destruct (IH s1 t1 _ (sound_next _ _ _ _ Hab Hw Hok) Hl') as (outs & E2 & Hlen).
    exists (out :: outs). split; [|simpl; by rewrite Hlen]. cbn [app server_run].
    erewrite M_bind_ok by exact E1. cbn iota. by erewrite M_bind_ok by exact E2.
Qed.
End session.

(** C5: In every state a node reaches by allowed events it is at rest, and every
    allowed event runs without a fault.  What is allowed is said by [allowed]: unlinking a link,
    or what somebody uses, is not. *)
Theorem life_safe pointer stack env wait ext s t o es s' t' o' :
  autos_ok stack -> sound stack s t -> holds o s -> life pointer stack env wait ext s t o es s' t' o' ->
  sound stack s' t' /\ holds o' s' /\
  forall e t'', allowed stack env s' t' o' e t'' ->
    exists out s'', perform pointer stack env wait ext e s' = Ok (out, s'') /\ sound stack s'' t'' /\
      holds (files_after e out o') s''.
Proof.
  intros Ha Hab Hh Hl. destruct (life_sound pointer stack Ha env wait ext _ _ _ _ _ _ _ Hab Hh Hl) as (Hab' & Hh' & _).
  split; [done|]. split; [done|]. intros e t'' Hal.
  destruct (event_ok pointer stack Ha env wait ext _ _ _ _ _ Hab' Hh' Hal) as (out & s1 & E & _).
  destruct (sound_event pointer stack Ha env wait ext _ _ _ _ _ _ _ Hab' Hh' Hal E) as [Hab2 Hu].
  exists out, (shift e out s1). split; [done|]. split; [done|]. intros r. specialize (Hu r). specialize (Hh' r).
  unfold other_users in Hu. lia.
Qed.

(** C13: wjfs_server over a sequence of allowed requests that ends with "quit"
    returns 0, answers every one of them and leaves the node at rest; it serves
    nothing when the socket cannot be made, bound or listened on. *)
Theorem server_serves pointer stack env wait ext s t o conns s' t' o' addr bind listen :
  autos_ok stack -> sound stack s t -> holds o s -> 0 <= bind -> 0 <= listen ->
  life pointer stack env wait ext s t o (map (fun '(a, m) => Served a m) conns) s' t' o' ->
  (exists outs, wjfs_server pointer stack bind listen (conns ++ [(addr, bytes "quit")]) s
     = Ok ((0, outs), s') /\ length outs = length conns) /\ sound stack s' t' /\
  (forall b l, b < 0 \/ l < 0 -> wjfs_server pointer stack b l conns s = Ok ((-1, []), s)).
Proof.
  intros Ha Hab Hh Hb Hl Hlife.
  assert (Hsock : net_socket s = Ok (true, s)).
  { unfold net_socket. by rewrite (proj1 (ab_online _ _ _ (proj1 Hab))). }
  split; [|split; [by eapply life_sound in Hlife as [? _]|]].
  - destruct (server_run_life pointer stack Ha env wait ext conns s t o s' t' o' addr Hab Hlife) as (outs & E & Hlen).
    exists outs. split; [|done]. unfold wjfs_server. erewrite M_bind_ok by exact Hsock. cbn [negb].
    by rewrite (proj2 (Z.ltb_ge bind 0)), (proj2 (Z.ltb_ge listen 0)) by done.
  - intros b l Hbl. unfold wjfs_server. erewrite M_bind_ok by exact Hsock. cbn [negb].
    destruct (Z.ltb_spec b 0); [done|]. by rewrite (proj2 (Z.ltb_lt l 0)) by lia.
Qed.

(** ** From mount to unmount *)

Lemma mounted_sound stack data t s s1 root :
  autos_ok stack -> unmounted s -> files_ok s -> online s -> cap_dac_override (cur s) = true ->
  cap_fowner (cur s) = true -> data_text data t ->
  wjfs_fill_super data s = Ok ((0, Some root), s1) ->
  sound stack s1 (Node root []) /\ idle (dentries s1).
Proof.
  intros (Hb & _) Hs Hfs Hon Hc Ho Hd E. pose proof (parse_data _ _ s (um_mem _ Hs) Hd) as Hopt.
  pose proof (mount_mode_range t) as Hmode.
  destruct (fill_super_ok data _ s Hs Hopt Hmode) as (t' & Et & E'). rewrite E in E'.
  injection E' as -> ->.
  destruct (table_reset_spec _ (um_entries _ Hs)) as (t1 & Et1 & Hl & Hwf & _).
  rewrite Et in Et1. injection Et1 as <-. rewrite (um_table _ Hs) in Hl.
  split; [|by apply mounted_idle].
  split; [split; try done; split; try done; [|apply (um_mem _ Hs)]|].
  - apply mounted_node_ok; [done|done|split; [lia|done]].
  - apply map_Forall_insert_2; [by apply data_ok_new|done].
Qed.

Lemma mounted_holds s r : idle (dentries s) -> holds [] s /\ other_users [] s r = 0.
Proof.
  intros Hid. assert (uses [] r = 0) as E by done. unfold other_users, holds. rewrite (Hid r), E.
  split; [|done]. intros x. by rewrite (Hid x).
Qed.

(** C4: A node that was mounted, went through any allowed events and has no file open any
    more is unmounted: no BUG, no dentry is left and every dentry's inode is freed. *)
Theorem mount_to_unmount pointer stack env wait ext data t s s1 root es s2 t2 :
  autos_ok stack -> unmounted s -> files_ok s -> online s -> cap_dac_override (cur s) = true ->
  cap_fowner (cur s) = true -> data_text data t ->
  wjfs_fill_super data s = Ok ((0, Some root), s1) ->
  life pointer stack env wait ext s1 (Node root []) [] es s2 t2 [] ->
  exists s3, wjfs_kill_litter_super (g_rroot_dentry (glob s2)) s2 = Ok (tt, s3) /\
    dentries s3 = ∅ /\
    (forall r d ir, dentries s2 !! r = Some d -> d_inode d = Some ir -> inodes s3 !! ir = None).
Proof.
  intros Ha Hs Hfs Hon Hc Ho Hd E Hl.
  destruct (mounted_sound _ _ _ _ _ _ Ha Hs Hfs Hon Hc Ho Hd E) as [Hab Hid].
  destruct (life_sound pointer stack Ha env wait ext _ _ _ _ _ _ _ Hab (proj1 (mounted_holds s1 0 Hid)) Hl)
    as ([Hab2 _] & _ & Hu).
  pose proof (ab_ok _ _ _ Hab2) as Hok.
  assert (Hid2 : idle (dentries s2)).
  { intros r. specialize (Hu r). rewrite (proj2 (mounted_holds s1 r Hid)) in Hu. unfold other_users in Hu.
    assert (uses [] r = 0) by done. lia. }
  destruct (unmount_clean s2 t2 Hok Hid2) as (s3 & E3 & Hd3 & Hi3). exists s3.
  split; [done|]. split; [done|]. intros r d ir Hr Hir.
  rewrite Hi3, decide_True; [done|]. apply elem_tinodes; eauto.
Qed.

(** C6: From mount on, through any allowed events, every dentry of a node has an inode, which
    is in use, and is a directory or a regular file with the methods wjfs_get_inode gives
    to its type; only directories have children. *)
Theorem life_typed pointer stack env wait ext data t s s1 root es s2 t2 o2 :
  autos_ok stack -> unmounted s -> files_ok s -> online s -> cap_dac_override (cur s) = true ->
  cap_fowner (cur s) = true -> data_text data t ->
  wjfs_fill_super data s = Ok ((0, Some root), s1) ->
  life pointer stack env wait ext s1 (Node root []) [] es s2 t2 o2 ->
  forall r d, dentries s2 !! r = Some d ->
    exists i, node_inode s2 r = Some i /\ i_count i = 1 /\
      if S_ISDIR (i_mode i)
      then i_op i = wjfs_dir_iops /\ i_fop i = simple_dir_fops
      else ifmt (i_mode i) S_IFREG = true /\ i_op i = wjfs_file_iops /\ i_fop i = wjfs_file_fops /\ d_subdirs d = [].
Proof.
  intros Ha Hs Hfs Hon Hc Ho Hd E Hl r d Hr.
  destruct (mounted_sound _ _ _ _ _ _ Ha Hs Hfs Hon Hc Ho Hd E) as [Hab Hid].
  destruct (life_sound pointer stack Ha env wait ext _ _ _ _ _ _ _ Hab (proj1 (mounted_holds s1 0 Hid)) Hl)
    as ([Hab2 _] & _ & _).
  pose proof (ab_ok _ _ _ Hab2) as Hok.
  destruct (node_node_inode _ _ _ _ Hok Hr) as (ir & i & Hir & Hi & Hni & _).
  destruct (nk_inode _ _ Hok _ _ Hr) as (ir' & i' & E1 & E2 & Hcn & _ & _ & _ & Ht). simplify_eq.
  exists i. split; [done|]. split; [done|]. destruct (S_ISDIR (i_mode i)) eqn:Hk; [by apply typed_dir|].
  pose proof (not_dir_empty _ _ _ _ _ Hok Hr Hni Hk).
  destruct Ht as [[Hm _]|(Hm & H1 & H2)]; [unfold S_ISDIR in Hk; congruence|done].
Qed.
