(* ===== verification/Joint.v ===== *)
(** * Two nodes at work

    Users of two nodes make and remove files and directories by path; the request
    each call sends is served by the other node before the next call.  The nodes show
    the same tree all the time: every path names the same entry on both. *)

From S2P Require Import Prelude KString KScan KFormat Wire Ksocket MapTable Vfs Syscalls Tree Umount.
From S2P Require Import Ops PageIo FileMap FileData Server Node Inv Remove Serve View Mirror.
From S2P Require Import Contents Options Mount Cluster Remote FileOps LocalIo Local LocalDir Results.
From S2P Require Import Walk Open Uses Path Calls Opened Session.

(** ** What a member of the cluster keeps *)

Record member (stack : autos) (s : kstate) (t : tree) (ls : list (option link)) : Prop := {
  mb_sound : sound stack s t;
  mb_idle : idle (dentries s);
  mb_links : links (g_table (glob s)) = Ok ls;
  mb_numbers : numbers_ok s;
  mb_root : forall e, view s (troot t) = Some e -> e_dir e = true;
  mb_names : forall r e, view s r = Some e -> fname (e_name e) /\ (length (e_name e) <= 19)%nat;
}.

Lemma mb_ok stack s t ls : member stack s t ls -> node_ok s t.
Proof. intros H. apply (ab_ok _ _ _ (proj1 (mb_sound _ _ _ _ H))). Qed.

Lemma member_grows stack s t ls s' t' ls' r p n dir :
  member stack s t ls -> steady s s' -> node_ok s' t' -> links (g_table (glob s')) = Ok ls' ->
  last_ino s + 1 < 2 ^ 31 -> grows s s' r (mkEnt p n (u32 (last_ino s + 1)) dir) -> link_name n ->
  troot t' = troot t -> r <> troot t -> member stack s' t' ls'.
Proof.
  intros [Hso Hid Hls Hn Hrd Hnm] Hst Hok Hls' Hb Hg (Fn & _ & Ln) Et Hr. split; try done.
  - by eapply sound_next.
  - by eapply same_users_idle, Hid; apply Hst.
  - by eapply numbers_grow.
  - intros e. destruct Hg as [-> _]. rewrite Et, decide_False by done. apply Hrd.
  - intros x e. destruct Hg as [-> _]. case_decide; [by intros [= <-]|]. apply Hnm.
Qed.

Lemma member_shrinks stack s t ls s' t' ls' r :
  member stack s t ls -> steady s s' -> node_ok s' t' -> links (g_table (glob s')) = Ok ls' ->
  shrinks s s' r -> troot t' = troot t -> member stack s' t' ls'.
Proof.
  intros [Hso Hid Hls Hn Hrd Hnm] Hst Hok Hls' Hg Et. split; try done.
  - by eapply sound_next.
  - by eapply same_users_idle, Hid; apply Hst.
  - by eapply numbers_shrink.
  - intros e. destruct Hg as [-> _]. rewrite Et. case_decide; [done|]. apply Hrd.
  - intros x e. destruct Hg as [-> _]. case_decide; [done|]. apply Hnm.
Qed.

(** ** Searches on a node at rest *)

(** find_from_all_dentry finds the dentry with a name only it has. *)
Lemma node_find_name s t r d n :
  node_ok s t -> dentries s !! r = Some d -> r <> troot t -> d_name d = n ->
  (forall x xd, dentries s !! x = Some xd -> d_name xd = n -> x = r) ->
  find_from_all_dentry (troot t) (n ++ [0]) s = Ok (Some r, s).
Proof.
  intros Hok Hd Hr En Hone. destruct (node_tree _ _ Hok) as [Ht Hio].
  rewrite (find_by_name_eq s t Ht Hio (n ++ [0]) n); cycle 1.
  { apply is_cstr_app. rewrite <- En. apply (nk_names _ _ Hok _ _ Hd). }
  { intros x xd _ Hx. apply (nk_names _ _ Hok _ _ Hx). }
  do 2 f_equal. assert (Hrc : r ∈ cands_list s (tch t)).
  { apply (node_cands _ _ Hok). by destruct (node_positive _ _ _ _ Hok Hd Hr). }
  destruct (List.find _ _) as [x|] eqn:E.
  - apply List.find_some in E as [_ Hx]. unfold name_is in Hx. destruct (dentries s !! x) as [xd|] eqn:Ex; [|done].
    apply bool_decide_eq_true in Hx. by rewrite (Hone x xd Ex Hx).
  - apply list_elem_of_In in Hrc. pose proof (List.find_none _ _ E r Hrc) as H.
    unfold name_is in H. rewrite Hd in H. by apply bool_decide_eq_false in H.
Qed.

(** The directory of an entry is an entry. *)
Lemma view_parent s t r e : node_ok s t -> view s r = Some e -> is_Some (view s (e_parent e)).
Proof.
  intros Hok He. destruct (view_dentry _ _ _ He) as (d & Hd & <- & _).
  assert (is_Some (dentries s !! d_parent d)) as [pd Hpd].
  { destruct (decide (r = troot t)) as [->|Hr].
    - destruct (rs_root _ _ (nk_rest _ _ Hok)) as (d' & Hd' & Hpar & _). simplify_eq. rewrite Hpar. eauto.
    - destruct (node_positive _ _ _ _ Hok Hd Hr) as [Hin _]. destruct (node_tree _ _ Hok) as [[Hrep Hnd] _].
      destruct (rep_up _ _ _ r Hrep Hnd Hin) as (d' & pd & Hd' & Hpd & _). simplify_eq. eauto. }
  destruct (node_view _ _ _ _ Hok Hpd) as (i & _ & ->). eauto.
Qed.

(** ** What one node shows, the other does *)

Section pair.
Context (R : nat -> nat -> Prop) (sA : kstate) (tA : tree) (lsA : list (option link)).
Context (sB : kstate) (tB : tree) (lsB : list (option link)) (Hm : mirror R sA tA lsA sB tB lsB).
Context (HokA : node_ok sA tA) (HokB : node_ok sB tB).

Lemma mirror_child y f p :
  view sB y = Some f -> y <> troot tB -> e_parent f = p -> forall q, R q p ->
  exists x e, R x y /\ x <> troot tA /\ view sA x = Some e /\ e_parent e = q /\ e_name e = e_name f /\
    e_dir e = e_dir f.
Proof using Hm.
  intros Hf Hy Hp q Hqp. destruct (mi_right _ _ _ _ _ _ _ Hm y) as [x Hxy]; [eauto|].
  destruct (mi_same _ _ _ _ _ _ _ Hm _ _ Hxy) as (e & f' & He & Hf' & En & Ed & Hup). simplify_eq.
  exists x, e. split_and!; try done; [by apply (mirror_roots _ _ _ _ _ _ _ _ _ Hm Hxy)|].
  by eapply (mi_inj _ _ _ _ _ _ _ Hm).
Qed.

Lemma lookup_view s t p c r :
  node_ok s t -> d_lookup_in (d_hash s) (dentries s) p c = Some r <->
  exists e, view s r = Some e /\ r <> troot t /\ e_parent e = p /\ e_name e = c.
Proof using.
  clear Hm HokA HokB. intros Hok. split.
  - intros Hf. destruct (d_lookup_found _ _ _ _ _ Hf) as (d & Hd & Hp & _ & Hn).
    destruct (node_view _ _ _ _ Hok Hd) as (i & _ & Hv). eexists. split; [exact Hv|].
    split; [by destruct (found_below _ _ _ _ _ Hok Hf)|done].
  - intros (e & He & Hr & Hp & Hn). destruct (view_dentry _ _ _ He) as (d & Hd & Ep & En).
    destruct (d_lookup_in _ _ p c) as [x|] eqn:E; cycle 1.
    { destruct (miss_free _ _ _ _ Hok E _ _ Hd Hr); congruence. }
    destruct (d_lookup_found _ _ _ _ _ E) as (d' & Hd' & Hp' & _ & Hn'). f_equal.
    destruct (found_below _ _ _ _ _ Hok E) as [Hx _]. eapply (nk_uniq _ _ Hok); try done; congruence.
Qed.

(** A name that is missing on one node is missing on the other. *)
Lemma mirror_lookup q p c :
  R q p ->
  match d_lookup_in (d_hash sA) (dentries sA) q c, d_lookup_in (d_hash sB) (dentries sB) p c with
  | Some x, Some y => R x y
  | None, None => True
  | _, _ => False
  end.
Proof using Hm HokA HokB.
  intros Hqp. destruct (d_lookup_in _ _ p c) as [y|] eqn:EB.
  - apply (lookup_view sB tB) in EB as (f & Hf & Hy & Hp & Hn); [|done].
    destruct (mirror_child y f p Hf Hy Hp q Hqp) as (x & e & Hxy & Hx & He & Hq & En & _).
    assert (d_lookup_in (d_hash sA) (dentries sA) q c = Some x) as ->; [|done].
    apply (lookup_view sA tA); [done|]. exists e. split_and!; congruence.
  - destruct (d_lookup_in _ _ q c) as [x|] eqn:EA; [|done].
    apply (lookup_view sA tA) in EA as (e & He & Hx & Hq & Hn); [|done].
    destruct (mi_left _ _ _ _ _ _ _ Hm x) as [y Hxy]; [eauto|].
    destruct (mi_same _ _ _ _ _ _ _ Hm _ _ Hxy) as (e' & f & He' & Hf & En & _ & Hup). simplify_eq.
    assert (d_lookup_in (d_hash sB) (dentries sB) p (e_name e) = Some y) as E; [|congruence].
    apply (lookup_view sB tB); [done|]. exists f. split_and!; try done.
    + by apply (mirror_roots _ _ _ _ _ _ _ _ _ Hm Hxy).
    + by eapply (mi_fun _ _ _ _ _ _ _ Hm).
Qed.

Lemma directory_view s t q pd pir pi :
  node_ok s t -> directory s q pd pir pi ->
  view s q = Some (mkEnt (d_parent pd) (d_name pd) (i_ino pi) true).
Proof using.
  clear Hm HokA HokB. intros Hok [Hd Hir Hi Hdir _]. apply view_some. exists pd, pir, pi. rewrite Hdir.
  destruct (nk_inode _ _ Hok _ _ Hd) as (? & ? & ? & ? & _ & Hmode & _). simplify_eq. done.
Qed.

Lemma view_directory s t q e :
  node_ok s t -> view s q = Some e -> e_dir e = true ->
  exists pd pir pi, directory s q pd pir pi /\ i_ino pi = e_ino e /\ d_name pd = e_name e.
Proof using.
  clear Hm HokA HokB. intros Hok (d & ir & i & Hd & Hir & Hi & _ & ->)%view_some Hdir. exists d, ir, i.
  split; [|done]. split; try done. apply (nk_names _ _ Hok _ _ Hd).
Qed.

(** The server finds the directory of a request by its name, when only one entry has
    that name. *)
Lemma mirror_resolves q p e :
  R q p -> view sA q = Some e ->
  (forall r e', view sA r = Some e' -> e_name e' = e_name e -> r = q) -> resolves sB (e_name e) p.
Proof using Hm HokB.
  clear HokA. intros Hqp He Hone. pose proof (mi_root _ _ _ _ _ _ _ Hm) as Hroot.
  destruct (mi_same _ _ _ _ _ _ _ Hm _ _ Hqp) as (e1 & f & He1 & Hf & En & _). simplify_eq.
  destruct (rs_root _ _ (nk_rest _ _ HokB)) as (rd & Hrd & _).
  assert (HoneB : forall y yd, dentries sB !! y = Some yd -> d_name yd = e_name e -> y = p).
  { intros y yd Hyd Eny. destruct (node_view _ _ _ _ HokB Hyd) as (i & _ & Hv).
    destruct (mi_right _ _ _ _ _ _ _ Hm y) as [x Hxy]; [eauto|].
    destruct (mi_same _ _ _ _ _ _ _ Hm _ _ Hxy) as (ex & fy & Hex & Hfy & Enx & _). simplify_eq. simpl in Enx.
    assert (x = q) as -> by (eapply Hone; [exact Hex|congruence]). by eapply (mi_fun _ _ _ _ _ _ _ Hm). }
  exists (troot tB), rd. split; [apply (nk_root _ _ HokB)|]. split; [done|].
  split; [apply (nk_names _ _ HokB _ _ Hrd)|].
  destruct (decide (d_name rd = e_name e)) as [E|E]; [left; split; [done|symmetry; by eapply HoneB]|right].
  split; [done|]. destruct (view_dentry _ _ _ Hf) as (d & Hd & _ & Hdn).
  eapply node_find_name; [done|exact Hd| |congruence|done]. intros ->. congruence.
Qed.
End pair.

(** ** A call and its delivery *)

(** The requests that left a node between two states, the oldest first. *)
Definition new_messages (s s' : kstate) : list (list Z) :=
  let l := n_sent (network s') in rev (map snd (take (length l - length (n_sent (network s))) l)).

Lemma new_none s s' : n_sent (network s') = n_sent (network s) -> new_messages s s' = [].
Proof. intros E. unfold new_messages. by rewrite E, Nat.sub_diag. Qed.

Lemma new_one s s' a p m : n_sent (network s') = (a, p, m) :: n_sent (network s) -> new_messages s s' = [m].
Proof.
  intros E. unfold new_messages. rewrite E. cbn [length].
  replace (S _ - _)%nat with 1%nat by lia. by rewrite firstn_cons.
Qed.

Section joint.
Variable pointer : block -> block * nat -> Z -> va -> printf_spec -> res (block * nat).
Context (follow : nat -> nameidata -> M walked).

(** wjfs_server of a node gets the requests, one after the other. *)
Fixpoint deliver (stack : autos) (addr : Z) (msgs : list (list Z)) : M unit :=
  match msgs with
  | [] => mret tt
  | m :: ms => _ ← server_step pointer stack addr m; deliver stack addr ms
  end.

(** A call on one node, then the service of what it sent on the other. *)
Definition exchange {A} (call : M A) (stack : autos) (addr : Z) (s s' : kstate) : res (A * (kstate * kstate)) :=
  match call s with
  | Ok (a, s1) =>
      match deliver stack addr (new_messages s s1) s' with
      | Ok (_, s1') => Ok (a, (s1, s1'))
      | Fault f => Fault f
      end
  | Fault f => Fault f
  end.

Inductive naming : Type :=
  | NMknod (mode umask : Z)
  | NMkdir (mode umask : Z)
  | NUnlink
  | NRmdir.

Definition name_call (stack : autos) (u : task) (dfd : option nat) (name : list Z) (k : naming) : M (option Z) :=
  run_as (t_cred u)
    (match k with
     | NMknod mode umask => @mknodat (wjfs_ops pointer stack) (t_fs u) follow dfd name mode 0 umask
     | NMkdir mode umask => @mkdirat (wjfs_ops pointer stack) (t_fs u) follow dfd name mode umask
     | NUnlink => @unlinkat (wjfs_ops pointer stack) (t_fs u) follow dfd name 0
     | NRmdir => @unlinkat (wjfs_ops pointer stack) (t_fs u) follow dfd name AT_REMOVEDIR
     end).

(** The request for a new entry [c] of directory [q] can be carried and served: the name
    fits, only [q] has its name, the other node's table has a free entry and numbers
    are left. *)
Record room (s s' : kstate) (ls' : list (option link)) (q : nat) (c : list Z) : Prop := {
  rm_name : link_name c;
  rm_only : forall r e e', view s q = Some e -> view s r = Some e' -> e_name e' = e_name e -> r = q;
  rm_free : None ∈ ls';
  rm_last : last_ino s + 1 < 2 ^ 31;
  rm_last' : last_ino s' + 1 < 2 ^ 31;
}.

(** Two nodes that show the same tree. *)
Definition joined (stackA : autos) (sA : kstate) (tA : tree) (stackB : autos) (sB : kstate) (tB : tree) : Prop :=
  exists lsA lsB R, member stackA sA tA lsA /\ member stackB sB tB lsB /\ mirror R sA tA lsA sB tB lsB.

Section step.
Context (stackA stackB : autos) (HaB : autos_ok stackB) (addr : Z).
Context (R : nat -> nat -> Prop) (sA : kstate) (tA : tree) (lsA : list (option link)).
Context (sB : kstate) (tB : tree) (lsB : list (option link)).
Context (HmA : member stackA sA tA lsA) (HmB : member stackB sB tB lsB) (Hm : mirror R sA tA lsA sB tB lsB).

Lemma fresh_view s t : node_ok s t -> view s (fresh s) = None.
Proof using.
  intros Hok. apply view_none. destruct (dentries s !! fresh s) eqn:E; [|done].
  assert (fresh s < fresh s)%nat; [|lia]. apply (nk_fresh _ _ Hok), (nk_dom _ _ Hok). eauto.
Qed.

Lemma fresh_root s t : node_ok s t -> fresh s <> troot t.
Proof using.
  intros Hok E. pose proof (nk_fresh _ _ Hok (troot t) (refs_root _)). lia.
Qed.

Lemma grown_missed s s' t t' q c n dir :
  node_ok s t -> node_ok s' t' -> grows s s' (fresh s) (mkEnt q c n dir) -> troot t' = troot t ->
  d_lookup_in (d_hash s) (dentries s) q c = None.
Proof using.
  intros Hok Hok' [Hv _] Et. destruct (d_lookup_in _ _ q c) as [r|] eqn:E; [|done].
  apply (lookup_view s t) in E as (e & He & Hr & Hp & Hn); [|done].
  pose proof (fresh_view s t Hok) as Hf.
  assert (Hrf : r <> fresh s) by congruence.
  pose proof (Hv r) as H1. rewrite decide_False, He in H1 by done.
  pose proof (Hv (fresh s)) as H2. rewrite decide_True in H2 by done.
  destruct (view_dentry _ _ _ H1) as (d1 & Hd1 & E1 & E2).
  destruct (view_dentry _ _ _ H2) as (d2 & Hd2 & E3 & E4). simpl in E3, E4.
  destruct Hrf. eapply (nk_uniq _ _ Hok'); try done; try congruence.
  rewrite Et. by apply fresh_root.
Qed.

Lemma deliver_one stack m s a s' :
  server_step pointer stack addr m s = Ok (a, s') -> deliver stack addr [m] s = Ok (tt, s').
Proof using. intros E. cbn [deliver]. by erewrite M_bind_ok by exact E. Qed.

(** The entry a call on A made comes to B. *)
Lemma made_joined c type flag q pd pir pi n sA1 :
  made (with_cur c sA) tA type flag q pd pir pi n sA1 -> steady (with_cur c sA) sA1 ->
  (type =? S_IFDIR) = negb (flag =? 0) -> directory sA q pd pir pi -> room sA sB lsB q n ->
  let sA' := with_cur (cur sA) sA1 in
  exists sB' tB', deliver stackB addr (new_messages sA sA') sB = Ok (tt, sB') /\
    joined stackA sA' (add_child q (fresh sA) tA) stackB sB' tB'.
Proof using HaB HmA HmB Hm.
  intros (Hok1 & _ & Hg & Htab & Hsent) Hst Hty Hdy [Hn Honly Hfree HlA HlB] sA'.
  pose proof (mb_ok _ _ _ _ HmA) as HokA. pose proof (mb_ok _ _ _ _ HmB) as HokB.
  pose proof (mb_numbers _ _ _ _ HmA) as HnA. pose proof (mb_numbers _ _ _ _ HmB) as HnB.
  pose proof (directory_view _ _ _ _ _ _ HokA Hdy) as Hq.
  destruct (mi_left _ _ _ _ _ _ _ Hm q) as [p Hqp]; [eauto|].
  destruct (mi_same _ _ _ _ _ _ _ Hm _ _ Hqp) as (e & f & He & Hf & En & Ed & _). rewrite Hq in He.
  injection He as <-. simpl in En, Ed.
  destruct (view_directory sB tB p f HokB Hf) as (pdB & pirB & piB & HdyB & EiB & _); [done|].
  assert (HinoA : ino sA q = i_ino pi) by (unfold ino; by rewrite Hq).
  assert (HinoB : ino sB p = i_ino piB) by (unfold ino; by rewrite Hf, EiB).
  pose proof (ino_range sA q HnA) as HrA. pose proof (ino_range sB p HnB) as HrB.
  pose proof (nm_last _ HnA) as HbA. pose proof (nm_last _ HnB) as HbB.
  change (last_ino (with_cur c sA)) with (last_ino sA) in *. change (fresh (with_cur c sA)) with (fresh sA) in *.
  set (l := mkLink (last_ino sB + 1) (last_ino sA + 1) (ino sB p) (ino sA q)).
  destruct (spec_add_some lsB l Hfree) as (lsB' & Hadd).
  assert (Hmiss : d_lookup_in (d_hash sB) (dentries sB) p n = None).
  { pose proof (mirror_lookup R sA tA lsA sB tB lsB Hm HokA HokB q p n Hqp) as H.
    rewrite (grown_missed sA sA1 tA (add_child q (fresh sA) tA) q n _ _ HokA Hok1 Hg (troot_add _ _ _)) in H.
    by destruct (d_lookup_in _ _ p n). }
  destruct (mb_names _ _ _ _ HmA _ _ Hq) as [Fp Lp]. simpl in Fp, Lp. destruct Hn as (Fn & Hsl & Ln).
  destruct (serve_create pointer stackB HaB sB tB addr (last_ino sA + 1) n (ino sA q) (d_name pd) flag
    p pdB pirB piB lsB lsB') as (sB' & EB & HstB & HokB' & HgB & HlsB'); try done.
  { apply (mb_sound _ _ _ _ HmB). }
  { split_and!; try done; lia. }
  { apply (mirror_resolves R sA tA lsA sB tB lsB Hm HokB q p _ Hqp Hq). intros r e' Hr Er.
    by eapply Honly. }
  { apply (mb_links _ _ _ _ HmB). }
  { rewrite <- HinoB, u32_small, !s32_small by lia. exact Hadd. }
  exists sB', (add_child p (fresh sB) tB). split.
  { rewrite (new_one sA sA' test_addr (htons test_port)
      (message "CR" (last_ino sA + 1) n (ino sA q) (d_name pd) flag)); [by eapply deliver_one|].
    unfold sA'. simpl. rewrite Hsent. unfold message. simpl.
    rewrite HinoA, u32_small, !s32_small by lia. done. }
  rewrite Hty in Hg. exists lsA, lsB', (paired R (fresh sA) (fresh sB)). split_and!.
  - eapply (member_grows stackA sA tA lsA); [done|by eapply with_cur_steady|by apply with_cur_ok| |done|exact Hg|done|apply troot_add|by eapply fresh_root].
    simpl. rewrite Htab. apply (mb_links _ _ _ _ HmA).
  - eapply (member_grows stackB sB tB lsB); try done; [apply troot_add|by eapply fresh_root].
  - eapply (mirror_grows R sA tA lsA sB tB lsB Hm HnA HnB sA' sB' _ _ _ _ q p n (negb (flag =? 0)) Hg HgB);
      try done; [by eapply fresh_view..|apply troot_add|apply troot_add].
Qed.

(** A removed entry was the directory of none. *)
Lemma shrunk_leaf s s' t t' r :
  node_ok s t -> node_ok s' t' -> shrinks s s' r -> troot t' = troot t -> r <> troot t ->
  forall a e, view s a = Some e -> e_parent e <> r.
Proof using.
  intros Hok Hok' [Hv _] Et Hr a e He Hp. destruct (decide (a = r)) as [->|Ha].
  - destruct (view_dentry _ _ _ He) as (d & Hd & Ep & _). destruct (node_parent _ _ _ _ Hok Hd Hr). congruence.
  - pose proof (Hv a) as H. rewrite decide_False, He in H by done.
    destruct (view_parent _ _ _ _ Hok' H) as [x Hx]. rewrite Hp, Hv, decide_True in Hx by done. done.
Qed.

(** What B finds for the link of an entry of A. *)
Lemma mirror_leaf x y :
  R x y -> x <> troot tA -> (forall a e, view sA a = Some e -> e_parent e <> x) ->
  exists d i, dentries sB !! y = Some d /\ y <> troot tB /\ d_subdirs d = [] /\ node_inode sB y = Some i /\
    i_ino i = ino sB y /\ numbered sB (ino sB y) y.
Proof using HmB Hm.
  intros Hxy Hx Hleaf. pose proof (mb_ok _ _ _ _ HmB) as HokB.
  destruct (mi_same _ _ _ _ _ _ _ Hm _ _ Hxy) as (e & f & He & Hf & _).
  destruct (view_dentry _ _ _ Hf) as (d & Hd & _). destruct (view_inode _ _ _ Hf) as (i & Hi & Ei & _).
  assert (Hy : y <> troot tB) by (by apply (mirror_roots _ _ _ _ _ _ _ _ _ Hm Hxy)).
  assert (Eino : ino sB y = e_ino f) by (unfold ino; by rewrite Hf).
  exists d, i. split_and!; try done; [|congruence|].
  - destruct (d_subdirs d) as [|z l] eqn:E; [done|].
    destruct (node_child _ _ _ _ z HokB Hd) as (zd & Hzd & Hzp & _ & _ & Hzt); [rewrite E; by left|].
    destruct (node_view _ _ _ _ HokB Hzd) as (zi & _ & Hzv).
    destruct (mirror_child R sA tA lsA sB tB lsB Hm z _ y Hzv Hzt Hzp x Hxy) as (a & ea & _ & _ & Hea & Hpa & _).
    by destruct (Hleaf a ea Hea).
  - intros z zi Hzi Ez. destruct (node_inode_inv _ _ _ Hzi) as (zd & zir & Hzd & _).
    destruct (node_view _ _ _ _ HokB Hzd) as (zi' & Hzi' & Hzv). simplify_eq.
    eapply (nm_inj _ (mb_numbers _ _ _ _ HmB)); [exact Hzv|exact Hf|]. simpl. congruence.
Qed.

(** The link of an entry that a call on A removed goes from B. *)
Lemma unmade_joined c flag q pd pir pi n sA1 :
  unmade (with_cur c sA) tA flag q pd pir pi n sA1 -> steady (with_cur c sA) sA1 ->
  directory sA q pd pir pi ->
  (forall r, d_lookup_in (d_hash sA) (dentries sA) q n = Some r -> spec_mine lsA (ino sA r) = true) ->
  let sA' := with_cur (cur sA) sA1 in
  exists sB' tA' tB', deliver stackB addr (new_messages sA sA') sB = Ok (tt, sB') /\
    joined stackA sA' tA' stackB sB' tB'.
Proof using HaB HmA HmB Hm.
  intros (r & d & ir & i & Hlook & Hd & Hir & Hi & Hok1 & _ & _ & _ & Hs & Htab & Hsent) Hst Hdy Hown sA'.
  specialize (Hown r Hlook). pose proof (mb_ok _ _ _ _ HmA) as HokA.
  pose proof (mb_numbers _ _ _ _ HmA) as HnA. pose proof (mb_numbers _ _ _ _ HmB) as HnB.
  simpl in Hlook, Hd, Hi. pose proof Hlook as Hl2. apply (lookup_view sA tA) in Hl2 as (e & He & Hr & Hp & Hname); [|done].
  pose proof (shrunk_leaf sA sA1 tA (del r tA) r HokA Hok1 Hs (troot_del _ _) Hr) as Hleaf.
  destruct (mi_left _ _ _ _ _ _ _ Hm r) as [y Hry]; [eauto|].
  assert (Hlink : Some (link_of sA sB r y) ∈ lsB).
  { destruct (mi_owner _ _ _ _ _ _ _ Hm r y Hry Hr) as [[Hl _]|[Hl _]]; [done|].
    by destruct (not_mine_here R sA lsA sB HnA r Hown r y Hry Hl). }
  destruct (take_link R sA tA lsA sB tB lsB Hm HnA r y Hry Hlink) as (lsB' & Htake & Honce & HlsB').
  destruct (mirror_leaf r y Hry Hr Hleaf) as (dB & iB & HdB & Hy & HsubB & HiB & EiB & HnumB).
  assert (Eup : up sA r = q) by (unfold up; by rewrite He).
  assert (Eino : ino sA r = i_ino i /\ ino sA q = i_ino pi).
  { unfold ino. rewrite He, (directory_view _ _ _ _ _ _ HokA Hdy). split; [|done].
    apply view_some in He as (d' & ir' & i' & E1 & E2 & E3 & _ & ->). simplify_eq. done. }
  destruct Eino as [Er Eq]. rewrite Eup in Htake.
  pose proof (ino_range sA r HnA) as HrA. pose proof (ino_range sA q HnA) as HqA. pose proof (nm_last _ HnA) as HbA.
  pose proof (ino_range sB y HnB) as HyB. pose proof (nm_last _ HnB) as HbB.
  destruct (mb_names _ _ _ _ HmA _ _ (directory_view _ _ _ _ _ _ HokA Hdy)) as [Fp Lp]. simpl in Fp, Lp.
  destruct (mb_names _ _ _ _ HmA _ _ He) as [Fn Ln]. rewrite Hname in Fn, Ln.
  destruct (serve_remove pointer stackB HaB sB tB addr (ino sA r) n (ino sA q) (d_name pd) flag y dB iB
    (ino sB y) (ino sB (up sB y)) lsB lsB') as (sB' & EB & HstB & HokB' & HsB & HlB); try done.
  { apply (mb_sound _ _ _ _ HmB). }
  { split_and!; try done; lia. }
  { apply (mb_links _ _ _ _ HmB). }
  { apply (mb_idle _ _ _ _ HmB). }
  { rewrite u32_small by lia. done. }
  { rewrite u32_small by lia. done. }
  exists sB', (del r tA), (del y tB). split.
  { rewrite (new_one sA sA' test_addr (htons test_port) (message "RM" (ino sA r) n (ino sA q) (d_name pd) flag));
      [by eapply deliver_one|]. unfold sA'. simpl. rewrite Hsent. unfold message. simpl.
    rewrite <- Er, <- Eq, !s32_small by lia. done. }
  exists lsA, lsB', (unpaired R r). split_and!.
  - eapply (member_shrinks stackA sA tA lsA); [done|by eapply with_cur_steady|by apply with_cur_ok| |exact Hs|apply troot_del].
    simpl. rewrite Htab. apply (mb_links _ _ _ _ HmA).
  - eapply (member_shrinks stackB sB tB lsB); try done. apply troot_del.
  - eapply (mirror_shrinks R sA tA lsA sB tB lsB Hm HnA HnB sA' sB' _ _ r y Hry Hr Hs HsB Hleaf);
      try done; apply troot_del.
Qed.

(** A call that changed nothing sends nothing. *)
Lemma quiet_joined c sA1 :
  quiet (with_cur c sA) sA1 ->
  let sA' := with_cur (cur sA) sA1 in
  deliver stackB addr (new_messages sA sA') sB = Ok (tt, sB) /\ joined stackA sA' tA stackB sB tB.
Proof using HmA HmB Hm.
  clear HaB. intros Hq sA'. pose proof (quiet_steady _ _ Hq) as Hst. split.
  { rewrite new_none; [done|]. unfold sA'. simpl. by rewrite (qt_net _ _ Hq). }
  assert (Hv : forall x, view sA' x = view sA x).
  { intros x. unfold view, node_inode. simpl. by rewrite (qt_dentries _ _ Hq), (qt_inodes _ _ Hq). }
  exists lsA, lsB, R. split_and!; [|done|by eapply mirror_ext].
  pose proof HmA as [Hso Hid Hls [N1 N2 N3] Hrd Hnm]. pose proof (mb_ok _ _ _ _ HmA) as HokA. split.
  - eapply sound_next; [done|by eapply with_cur_steady|]. by eapply with_cur_ok, quiet_ok, with_cur_ok.
  - eapply same_users_idle; [by apply (st_users _ _ (with_cur_steady _ _ _ Hst))|done].
  - simpl. by rewrite (qt_table _ _ Hq).
  - assert (El : last_ino sA' = last_ino sA) by apply (qt_last _ _ Hq).
    split; intros *; rewrite ?Hv, ?El; [apply N1|apply N2|done].
  - intros e. rewrite Hv. apply Hrd.
  - intros r e. rewrite Hv. apply Hnm.
Qed.
End step.

(** ** Any call by any path *)

Definition name_result (s : kstate) (u : task) (dfd : option nat) (name : list Z) (k : naming) : option Z :=
  let su := with_cur (t_cred u) s in
  match k with
  | NMknod mode umask => mknod_result su (t_fs u) dfd name mode umask
  | NMkdir _ _ => mkdir_result su (t_fs u) dfd name
  | NUnlink => unlink_result su (t_fs u) dfd name
  | NRmdir => rmdir_result su (t_fs u) dfd name
  end.

(** What the other node could not follow is left out: an entry for which there is no
    [room], special files, and the removal of links. *)
Definition may_name (s : kstate) (t : tree) (ls : list (option link)) (s' : kstate) (ls' : list (option link))
    (u : task) (dfd : option nat) (name : list Z) (k : naming) : Prop :=
  passes s t u dfd name /\
  (forall mode umask, k = NMknod mode umask ->
     Z.land (Z.land mode (Z.lnot umask)) S_IFMT = 0 \/ Z.land (Z.land mode (Z.lnot umask)) S_IFMT = S_IFREG) /\
  forall q c, parent_place (with_cur (t_cred u) s) (t_fs u) dfd name = At q -> last_norm name = Some c ->
    match k with
    | NMknod _ _ | NMkdir _ _ => name_result s u dfd name k = Some 0 -> room s s' ls' q c
    | NUnlink | NRmdir =>
        forall r, d_lookup_in (d_hash s) (dentries s) q c = Some r -> spec_mine ls (ino s r) = true
    end.

Section call.
Context (stackA stackB : autos) (HaB : autos_ok stackB) (addr : Z).
Context (R : nat -> nat -> Prop) (sA : kstate) (tA : tree) (lsA : list (option link)).
Context (sB : kstate) (tB : tree) (lsB : list (option link)).
Context (HmA : member stackA sA tA lsA) (HmB : member stackB sB tB lsB) (Hm : mirror R sA tA lsA sB tB lsB).

Lemma exchange_ok c (m : M (option Z)) e sA1 sB' :
  m (with_cur c sA) = Ok (e, sA1) ->
  deliver stackB addr (new_messages sA (with_cur (cur sA) sA1)) sB = Ok (tt, sB') ->
  exchange (run_as c m) stackB addr sA sB = Ok (e, (with_cur (cur sA) sA1, sB')).
Proof using. intros E Ed. unfold exchange. by rewrite (run_as_ok _ _ _ _ _ E), Ed. Qed.

(** A call on the directory of a path: nothing happens, or what [Q] says reaches the
    other node. *)
Lemma joined_called c fs dfd name e Q (m : M (option Z)) :
  called fs (with_cur c sA) dfd name e Q (m (with_cur c sA)) ->
  (forall q pd pir pi n s1, e = Some 0 -> parent_place (with_cur c sA) fs dfd name = At q ->
     last_norm name = Some n -> directory sA q pd pir pi -> steady (with_cur c sA) s1 -> Q q pd pir pi n s1 ->
     exists sB' tA' tB',
       deliver stackB addr (new_messages sA (with_cur (cur sA) s1)) sB = Ok (tt, sB') /\
       joined stackA (with_cur (cur sA) s1) tA' stackB sB' tB') ->
  exists sA' sB' tA' tB', exchange (run_as c m) stackB addr sA sB = Ok (e, (sA', sB')) /\
    joined stackA sA' tA' stackB sB' tB'.
Proof using HmA HmB Hm.
  clear HaB. intros (s1 & E & Hq & Hs) HQ. exists (with_cur (cur sA) s1). destruct (decide (e = Some 0)) as [He|He].
  - destruct (Hs He) as (q & pd & pir & pi & n & Hp & Hdy & Hl & Hst & HR).
    destruct (HQ q pd pir pi n s1 He Hp Hl ltac:(by destruct Hdy) Hst HR) as (sB' & tA' & tB' & Ed & Hj).
    exists sB', tA', tB'. split; [by apply exchange_ok|done].
  - destruct (quiet_joined stackA stackB addr R sA tA lsA sB tB lsB HmA HmB Hm c s1 (Hq He)) as [Ed Hj].
    exists sB, tA, tB. split; [by apply exchange_ok|done].
Qed.

Lemma member_free u dfd name :
  (forall q c, parent_place (with_cur (t_cred u) sA) (t_fs u) dfd name = At q -> last_norm name = Some c ->
     forall r, d_lookup_in (d_hash sA) (dentries sA) q c = Some r -> spec_mine lsA (ino sA r) = true) ->
  free_to_remove (with_cur (t_cred u) sA) (t_fs u) dfd name.
Proof using HmA.
  clear HaB HmB Hm. intros Hown q c Hq Hc. exists lsA. split; [apply (mb_links _ _ _ _ HmA)|]. intros r i Hf Hi.
  specialize (Hown q c Hq Hc r Hf). split; [|apply (mb_idle _ _ _ _ HmA)].
  assert (ino sA r = i_ino i) as <-; [|done]. unfold ino, view. change (node_inode sA r) with (node_inode (with_cur (t_cred u) sA) r).
  destruct (node_inode_inv _ _ _ Hi) as (d & ir & Hd & _). simpl in Hd. rewrite Hd. simpl. by rewrite Hi.
Qed.

Lemma joined_call u dfd name k :
  may_name sA tA lsA sB lsB u dfd name k ->
  exists sA' sB' tA' tB', exchange (name_call stackA u dfd name k) stackB addr sA sB
      = Ok (name_result sA u dfd name k, (sA', sB')) /\ joined stackA sA' tA' stackB sB' tB'.
Proof using HaB HmA HmB Hm.
  intros ((Hfs & Hnz & Hdfd) & Hreg & Hcan).
  pose proof (with_cur_fit (t_cred u) _ _ _ (ab_fit _ _ _ (proj1 (mb_sound _ _ _ _ HmA)))) as Hft.
  assert (Hfs' : fs_ok (with_cur (t_cred u) sA) tA (t_fs u)) by (by destruct Hfs).
  destruct k as [mode umask|mode umask| |]; unfold name_call, name_result.
  - eapply joined_called; [by eapply mknod_called; eauto|].
    intros q pd pir pi n s1 He Hp Hl Hdy Hst HQ. specialize (Hcan q n Hp Hl He).
    destruct (made_joined stackA stackB HaB addr R sA tA lsA sB tB lsB HmA HmB Hm _ _ _ _ _ _ _ _ _ HQ Hst)
      as (sB' & tB' & H); [done|done|done|]. eauto.
  - eapply joined_called; [by eapply mkdir_called|].
    intros q pd pir pi n s1 He Hp Hl Hdy Hst HQ. specialize (Hcan q n Hp Hl He).
    destruct (made_joined stackA stackB HaB addr R sA tA lsA sB tB lsB HmA HmB Hm _ _ _ _ _ _ _ _ _ HQ Hst)
      as (sB' & tB' & H); [done|done|done|]. eauto.
  - eapply joined_called; [by eapply unlink_called; eauto using member_free|].
    intros q pd pir pi n s1 He Hp Hl Hdy Hst HQ.
    by eapply (unmade_joined stackA stackB HaB addr R sA tA lsA sB tB lsB HmA HmB Hm); eauto.
  - eapply joined_called; [by eapply rmdir_called; eauto using member_free|].
    intros q pd pir pi n s1 He Hp Hl Hdy Hst HQ.
    by eapply (unmade_joined stackA stackB HaB addr R sA tA lsA sB tB lsB HmA HmB Hm); eauto.
Qed.
End call.

(** ** Calls on both nodes *)

Definition can_name (s s' : kstate) (u : task) (dfd : option nat) (name : list Z) (k : naming) : Prop :=
  exists t ls ls', node_ok s t /\ links (g_table (glob s)) = Ok ls /\ links (g_table (glob s')) = Ok ls' /\
    may_name s t ls s' ls' u dfd name k.

Inductive act (stackA stackB : autos) : kstate * kstate -> kstate * kstate -> Prop :=
  | act_left u dfd name k addr e sA sB sA' sB' :
      can_name sA sB u dfd name k ->
      exchange (name_call stackA u dfd name k) stackB addr sA sB = Ok (e, (sA', sB')) ->
      act stackA stackB (sA, sB) (sA', sB')
  | act_right u dfd name k addr e sA sB sA' sB' :
      can_name sB sA u dfd name k ->
      exchange (name_call stackB u dfd name k) stackA addr sB sA = Ok (e, (sB', sA')) ->
      act stackA stackB (sA, sB) (sA', sB').

Definition together (stackA stackB : autos) (w : kstate * kstate) : Prop :=
  exists tA tB, joined stackA w.1 tA stackB w.2 tB.

Lemma together_sym stackA stackB sA sB : together stackA stackB (sA, sB) -> together stackB stackA (sB, sA).
Proof using.
  intros (tA & tB & lsA & lsB & R & HA & HB & Hm). exists tB, tA, lsB, lsA, (fun y x => R x y).
  split; [done|]. split; [done|]. by apply mirror_sym.
Qed.

Lemma together_call stackA stackB addr sA sB u dfd name k :
  autos_ok stackB -> together stackA stackB (sA, sB) -> can_name sA sB u dfd name k ->
  exists sA' sB', exchange (name_call stackA u dfd name k) stackB addr sA sB
      = Ok (name_result sA u dfd name k, (sA', sB')) /\ together stackA stackB (sA', sB').
Proof using.
  intros HaB (tA & tB & lsA & lsB & R & HA & HB & Hm) (t & ls & ls' & Hok & Hls & Hls' & (Hfs & Hps) & Hmay).
  cbn [fst snd] in HA, HB, Hm. assert (Et : troot t = troot tA).
  { pose proof (nk_root _ _ Hok) as H1. pose proof (nk_root _ _ (mb_ok _ _ _ _ HA)) as H2. congruence. }
  assert (ls = lsA) as -> by (pose proof (mb_links _ _ _ _ HA); congruence).
  assert (ls' = lsB) as -> by (pose proof (mb_links _ _ _ _ HB); congruence).
  destruct (joined_call stackA stackB HaB addr R sA tA lsA sB tB lsB HA HB Hm u dfd name k)
    as (sA' & sB' & tA' & tB' & E & Hj).
  { split; [|done]. split; [|done]. destruct Hfs. split; try done. by rewrite <- Et. }
  exists sA', sB'. split; [done|]. by exists tA', tB'.
Qed.

Lemma together_act stackA stackB w w' :
  autos_ok stackA -> autos_ok stackB -> together stackA stackB w -> act stackA stackB w w' ->
  together stackA stackB w'.
Proof using.
  intros HaA HaB Hw Hact. destruct Hact as [u dfd name k addr e sA sB sA' sB' Hcan E|u dfd name k addr e sA sB sA' sB' Hcan E].
  - destruct (together_call stackA stackB addr sA sB u dfd name k HaB Hw Hcan) as (s1 & s2 & E1 & H).
    rewrite E in E1. by injection E1 as -> -> ->.
  - apply together_sym in Hw. destruct (together_call stackB stackA addr sB sA u dfd name k HaA Hw Hcan) as (s1 & s2 & E1 & H).
    rewrite E in E1. injection E1 as -> -> ->. by apply together_sym.
Qed.

Lemma together_run stackA stackB w w' :
  autos_ok stackA -> autos_ok stackB -> together stackA stackB w -> rtc (act stackA stackB) w w' ->
  together stackA stackB w'.
Proof using. intros HaA HaB Hw Hr. induction Hr as [|w w1 w2 Hact _ IH]; [done|]. by eapply IH, together_act. Qed.
End joint.

(** ** The same paths *)

Section agree.
Context (R : nat -> nat -> Prop) (sA : kstate) (tA : tree) (lsA : list (option link)).
Context (sB : kstate) (tB : tree) (lsB : list (option link)) (Hm : mirror R sA tA lsA sB tB lsB).
Context (HokA : node_ok sA tA) (HokB : node_ok sB tB).
Context (HcA : cap_dac_override (cur sA) = true) (HcB : cap_dac_override (cur sB) = true).

(** A process whose root and working directory are the root of the mount. *)
Definition root_fs (t : tree) : fs_struct := mkFs (Some (troot t)) (Some (troot t)) (troot t).

Definition agree (x y : place) : Prop :=
  match x, y with
  | At a, At b => R a b
  | Fails e, Fails e' => e = e'
  | _, _ => False
  end.

Lemma is_dir_view s r e : view s r = Some e -> is_dir s r = e_dir e.
Proof using. intros (i & Hi & _ & Hd)%view_inode. unfold is_dir. by rewrite Hi. Qed.

Lemma is_dir_agrees x y : R x y -> is_dir sA x = is_dir sB y.
Proof using Hm.
  intros Hxy. destruct (mi_same _ _ _ _ _ _ _ Hm _ _ Hxy) as (e & f & He & Hf & _ & Ed & _).
  by rewrite (is_dir_view _ _ _ He), (is_dir_view _ _ _ Hf).
Qed.

Lemma search_root s r : cap_dac_override (cur s) = true -> is_dir s r = true -> search_errno s r = 0.
Proof using.
  clear. intros Hc. unfold is_dir, search_errno. destruct (node_inode s r); [|done]. by apply root_may_search.
Qed.

Lemma go_agrees p p' c : R p p' -> agree (go sA (root_fs tA) p c) (go sB (root_fs tB) p' c).
Proof using Hm HokA HokB.
  intros Hp. unfold go. case_bool_decide; [done|]. case_bool_decide.
  - destruct (mirror_roots _ _ _ _ _ _ _ _ _ Hm Hp) as [Hr1 Hr2]. cbn [fs_root mnt_root root_fs].
    destruct (decide (p = troot tA)) as [E|E].
    + assert (p' = troot tB) as E' by (destruct (decide (p' = troot tB)); [done|by destruct (Hr2 n)]).
      subst. by rewrite !bool_decide_eq_true_2.
    + specialize (Hr1 E). rewrite !bool_decide_eq_false_2 by congruence.
      rewrite (proj2 (Nat.eqb_neq p _)), (proj2 (Nat.eqb_neq p' _)) by done.
      destruct (mi_same _ _ _ _ _ _ _ Hm _ _ Hp) as (e & f & He & Hf & _ & _ & Hup).
      destruct (view_dentry _ _ _ He) as (d & Hd & Ed & _). destruct (view_dentry _ _ _ Hf) as (d' & Hd' & Ed' & _).
      unfold parent_of. rewrite Hd, Hd', Ed, Ed'. done.
  - pose proof (mirror_lookup R sA tA lsA sB tB lsB Hm HokA HokB p p' c Hp) as Hlk.
    by destruct (d_lookup_in _ _ p c), (d_lookup_in _ _ p' c).
Qed.

Lemma must_dir_agrees b x y : agree x y -> agree (must_dir sA b x) (must_dir sB b y).
Proof using Hm.
  destruct x as [a| |], y as [a'| |]; try done. simpl. intros Ha. rewrite (is_dir_agrees _ _ Ha).
  by destruct (b && _).
Qed.

Lemma lead_agrees b cs : forall p p',
  R p p' -> is_dir sA p = true ->
  agree (lead sA (root_fs tA) (last_place (root_fs tA) sA b) p cs)
        (lead sB (root_fs tB) (last_place (root_fs tB) sB b) p' cs).
Proof using Hm HokA HokB HcA HcB.
  induction cs as [|c cs IH]; intros p p' Hp Hd; cbn [lead]; [done|].
  rewrite (search_root sA p HcA Hd), (search_root sB p' HcB) by (by rewrite <- (is_dir_agrees _ _ Hp)).
  change (negb (0 =? 0)) with false. cbn iota. pose proof (go_agrees p p' c Hp) as Hg.
  destruct cs as [|c' cs]; [by apply must_dir_agrees|].
  pose proof (must_dir_agrees true _ _ Hg) as Hmd.
  destruct (must_dir sA true _) as [x|e|] eqn:E, (must_dir sB true _) as [y|e'|]; try done.
  apply IH; [done|]. clear - E. destruct (go sA _ p c) as [z| |]; try done. cbn [must_dir andb] in E.
  destruct (is_dir sA z) eqn:Ez; simpl in E; [by injection E as <-|done].
Qed.

Lemma named_agrees b name :
  is_dir sA (troot tA) = true ->
  agree (named sA (root_fs tA) None (last_place (root_fs tA) sA b) name)
        (named sB (root_fs tB) None (last_place (root_fs tB) sB b) name).
Proof using Hm HokA HokB HcA HcB.
  intros Hd. unfold named. destruct (negb _); [done|].
  assert (Hs : forall s t, start s (root_fs t) None name = At (troot t)).
  { intros s t. unfold start. by destruct (absolute name). }
  rewrite !Hs. apply lead_agrees; [apply (mi_root _ _ _ _ _ _ _ Hm)|done].
Qed.
End agree.

(** ** From two mounts on *)

(** A machine on which wjfs is about to be mounted. *)
Record ready (data : option (list Z)) (s : kstate) : Prop := {
  rd_unmounted : unmounted s;
  rd_files : files_ok s;
  rd_online : online s;
  rd_root : cap_dac_override (cur s) = true;
  rd_owner : cap_fowner (cur s) = true;
  rd_data : exists t, data_text data t;
  rd_last : 0 <= last_ino s < 2 ^ 31 - 1;
}.

Lemma mounted_view mode t' s :
  unmounted s -> 0 <= mode <= S_IALLUGO -> 0 <= last_ino s < 2 ^ 31 - 1 ->
  forall r, view (mounted_state mode t' s) r
    = if decide (r = S (fresh s)) then Some (mkEnt (S (fresh s)) [47] (last_ino s + 1) true) else None.
Proof.
  intros Hs Hmode Hl r. pose proof (dir_mode _ Hmode) as Hd. case_decide as E.
  - subst r. apply view_some. eexists _, (fresh s), _. simpl. rewrite (um_dentries _ Hs), lookup_insert_eq.
    split; [done|]. split; [done|]. rewrite lookup_insert_eq. split; [done|]. simpl. split.
    + intros E. rewrite E in Hd. done.
    + rewrite u32_small by lia. f_equal. unfold S_ISDIR, ifmt. by rewrite Hd.
  - apply view_none. simpl. by rewrite (um_dentries _ Hs), lookup_insert_ne, lookup_empty.
Qed.

Lemma mounted_member stack data s s1 root :
  autos_ok stack -> ready data s -> wjfs_fill_super data s = Ok ((0, Some root), s1) ->
  member stack s1 (Node root []) (replicate table_size None) /\
  forall r, view s1 r = if decide (r = root) then Some (mkEnt root [47] (last_ino s + 1) true) else None.
Proof.
  intros Ha [Hs Hf Hon Hc Ho [t Hd] Hl] E.
  destruct (mounted_sound _ _ _ _ _ _ Ha Hs Hf Hon Hc Ho Hd E) as [Hso Hid].
  pose proof (parse_data _ _ s (um_mem _ Hs) Hd) as Hopt. pose proof (mount_mode_range t) as Hmode.
  destruct (fill_super_ok data _ s Hs Hopt Hmode) as (t' & Et & E'). rewrite E in E'. injection E' as -> ->.
  destruct (table_reset_spec _ (um_entries _ Hs)) as (t1 & Et1 & _ & _ & Hls). rewrite Et in Et1. injection Et1 as <-.
  rewrite (um_table _ Hs) in Hls. pose proof (mounted_view _ t' s Hs Hmode Hl) as Hv.
  split; [|exact Hv]. split; [done|done|done|split| |].
  - intros r e. rewrite Hv. case_decide; [|done]. intros [= <-]. simpl. rewrite u32_small by lia. lia.
  - intros r r' e e'. rewrite !Hv. repeat case_decide; congruence.
  - simpl. rewrite u32_small by lia. lia.
  - intros e. cbn [troot]. rewrite Hv, decide_True by done. by intros [= <-].
  - intros r e. rewrite Hv. case_decide; [|done]. intros [= <-]. simpl. split; [|lia].
    split; [done|]. by repeat constructor.
Qed.

Lemma mounted_together stackA stackB dataA dataB sA sB sA1 sB1 rootA rootB :
  autos_ok stackA -> autos_ok stackB -> ready dataA sA -> ready dataB sB ->
  wjfs_fill_super dataA sA = Ok ((0, Some rootA), sA1) -> wjfs_fill_super dataB sB = Ok ((0, Some rootB), sB1) ->
  together stackA stackB (sA1, sB1).
Proof.
  intros HaA HaB HA HB EA EB. destruct (mounted_member _ _ _ _ _ HaA HA EA) as [MA VA].
  destruct (mounted_member _ _ _ _ _ HaB HB EB) as [MB VB].
  assert (Hnone : forall l : link, Some l ∉ replicate table_size None).
  { by intros l H%elem_of_replicate_inv. }
  exists (Node rootA []), (Node rootB []), (replicate table_size None), (replicate table_size None),
    (fun x y => x = rootA /\ y = rootB).
  split; [done|]. split; [done|]. cbn [fst snd].
  split; cbn [troot].
  - done.
  - intros x. rewrite VA. case_decide; [eauto|by intros []%is_Some_None].
  - intros y. rewrite VB. case_decide; [eauto|by intros []%is_Some_None].
  - by intros x y y' [_ ->] [_ ->].
  - by intros x x' y [-> _] [-> _].
  - intros x y [-> ->]. rewrite VA, VB, !decide_True by done. eauto 10.
  - intros l Hl. by destruct (Hnone l).
  - intros l Hl. by destruct (Hnone l).
  - intros x y [-> _]. done.
  - intros i j l Hi. by destruct (Hnone l); eapply list_elem_of_lookup_2.
  - intros i j l Hi. by destruct (Hnone l); eapply list_elem_of_lookup_2.
Qed.

(** C2: Two mounted nodes go on together: after any calls on either node, each with its
    request served by the other, a further call that the other node can follow runs
    without a fault on both and returns what the tree of its own node says. *)
Theorem cluster_progress pointer follow stackA stackB dataA dataB sA sB sA1 sB1 rootA rootB sA2 sB2 :
  autos_ok stackA -> autos_ok stackB -> ready dataA sA -> ready dataB sB ->
  wjfs_fill_super dataA sA = Ok ((0, Some rootA), sA1) -> wjfs_fill_super dataB sB = Ok ((0, Some rootB), sB1) ->
  rtc (act pointer follow stackA stackB) (sA1, sB1) (sA2, sB2) ->
  (forall u dfd name k addr, can_name sA2 sB2 u dfd name k ->
     exists sA3 sB3, exchange pointer (name_call pointer follow stackA u dfd name k) stackB addr sA2 sB2
       = Ok (name_result sA2 u dfd name k, (sA3, sB3))) /\
  (forall u dfd name k addr, can_name sB2 sA2 u dfd name k ->
     exists sB3 sA3, exchange pointer (name_call pointer follow stackB u dfd name k) stackA addr sB2 sA2
       = Ok (name_result sB2 u dfd name k, (sB3, sA3))).
Proof.
  intros HaA HaB HA HB EA EB Hrun.
  pose proof (mounted_together _ _ _ _ _ _ _ _ _ _ HaA HaB HA HB EA EB) as Hw.
  pose proof (together_run pointer follow stackA stackB _ _ HaA HaB Hw Hrun) as Hw2. split.
  - intros u dfd name k addr Hcan.
    destruct (together_call pointer follow stackA stackB addr sA2 sB2 u dfd name k HaB Hw2 Hcan) as (s & s' & E & _). eauto.
  - intros u dfd name k addr Hcan. apply together_sym in Hw2.
    destruct (together_call pointer follow stackB stackA addr sB2 sA2 u dfd name k HaA Hw2 Hcan) as (s & s' & E & _). eauto.
Qed.

(** The path walk of root on both nodes. *)
Lemma walks_agree pointer follow stackA stackB R sA tA lsA sB tB lsB c name flags :
  member stackA sA tA lsA -> member stackB sB tB lsB -> mirror R sA tA lsA sB tB lsB ->
  cap_dac_override c = true -> Forall (fun b => b <> 0) name -> flag flags LOOKUP_PARENT = false ->
  exists err ndA ndB sA' sB',
    @user_path_at (wjfs_ops pointer stackA) (root_fs tA) follow None name flags (with_cur c sA)
      = Ok (Walked err ndA, sA') /\
    @user_path_at (wjfs_ops pointer stackB) (root_fs tB) follow None name flags (with_cur c sB)
      = Ok (Walked err ndB, sB') /\
    (err = 0 -> R (nd_path ndA) (nd_path ndB)).
Proof.
  intros HA HB Hm Hc Hnz Hfl.
  assert (Hfit : forall stack s t ls, member stack s t ls ->
    node_ok (with_cur c s) t /\ mem (with_cur c s) = [] /\ fs_ok (with_cur c s) t (root_fs t) /\ is_dir s (troot t) = true).
  { intros stack s t ls Hmb. pose proof (mb_ok _ _ _ _ Hmb) as Hok. pose proof (mb_sound _ _ _ _ Hmb) as [[[_ _ Hmem _] _ _] _].
    destruct (rs_root _ _ (nk_rest _ _ Hok)) as (d & Hd & _). destruct (node_view _ _ _ _ Hok Hd) as (i & _ & Hv).
    assert (Hdir : is_dir s (troot t) = true) by (rewrite (is_dir_view _ _ _ Hv); by apply (mb_root _ _ _ _ Hmb)).
    split; [by apply with_cur_ok|]. split; [done|]. split; [|done]. split; [done|by intros ? [= <-]..]. }
  destruct (Hfit _ _ _ _ HA) as (OA & MA & FA & DA). destruct (Hfit _ _ _ _ HB) as (OB & MB & FB & DB).
  assert (Hm' : mirror R (with_cur c sA) tA lsA (with_cur c sB) tB lsB).
  { apply (mirror_ext R sA); [|done]. pose proof (mirror_ext _ _ _ _ _ _ _ (with_cur c sB) (mirror_sym _ _ _ _ _ _ _ Hm)) as H.
    exact (mirror_sym _ _ _ _ _ _ _ (H ltac:(done))). }
  pose proof (named_agrees R _ _ _ _ _ _ Hm' OA OB Hc Hc (flag flags LOOKUP_DIRECTORY || ends_slash name) name DA) as Hag.
  pose proof (path_lookup_ok pointer stackA (root_fs tA) follow _ tA None name flags OA MA FA Hnz ltac:(done) Hfl) as HwA.
  pose proof (path_lookup_ok pointer stackB (root_fs tB) follow _ tB None name flags OB MB FB Hnz ltac:(done) Hfl) as HwB.
  destruct (named (with_cur c sA) _ _ _ _) as [x|e|], (named (with_cur c sB) _ _ _ _) as [y|e'|]; try done.
  - destruct HwA as (ndA & EA & <- & _). destruct HwB as (ndB & EB & <- & _). eauto 10.
  - simpl in Hag. subst e'. destruct HwA as (He & ndA & sA' & EA & _). destruct HwB as (_ & ndB & sB' & EB & _).
    exists e, ndA, ndB, sA', sB'. done.
Qed.

(** C1: Two mounted nodes show the same tree: after any calls on either node that the other
    can follow ([can_name]), each with its request served by the other, the entries of the
    nodes stand for each other, one for one, with the same name and kind in the same place,
    and a walk of any path name from the root of the mount by a caller with CAP_DAC_OVERRIDE
    ends on both nodes with the same error or at entries that stand for each other.  For other
    callers the permissions may differ, since a link does not keep those of the file. *)
Theorem nodes_agree pointer follow stackA stackB dataA dataB sA sB sA1 sB1 rootA rootB sA2 sB2 :
  autos_ok stackA -> autos_ok stackB -> ready dataA sA -> ready dataB sB ->
  wjfs_fill_super dataA sA = Ok ((0, Some rootA), sA1) -> wjfs_fill_super dataB sB = Ok ((0, Some rootB), sB1) ->
  rtc (act pointer follow stackA stackB) (sA1, sB1) (sA2, sB2) ->
  exists (R : nat -> nat -> Prop) (tA tB : tree),
    g_rroot_dentry (glob sA2) = Some (troot tA) /\ g_rroot_dentry (glob sB2) = Some (troot tB) /\
    (forall x, is_Some (dentries sA2 !! x) -> exists! y, R x y) /\
    (forall y, is_Some (dentries sB2 !! y) -> exists! x, R x y) /\
    (forall x y, R x y -> exists e f, view sA2 x = Some e /\ view sB2 y = Some f /\
       e_name e = e_name f /\ e_dir e = e_dir f /\ R (e_parent e) (e_parent f)) /\
    forall c name flags, cap_dac_override c = true -> Forall (fun b => b <> 0) name ->
      flag flags LOOKUP_PARENT = false ->
      exists err ndA ndB sA' sB',
        @user_path_at (wjfs_ops pointer stackA) (root_fs tA) follow None name flags (with_cur c sA2)
          = Ok (Walked err ndA, sA') /\
        @user_path_at (wjfs_ops pointer stackB) (root_fs tB) follow None name flags (with_cur c sB2)
          = Ok (Walked err ndB, sB') /\
        (err = 0 -> R (nd_path ndA) (nd_path ndB)).
Proof.
  intros HaA HaB HA HB EA EB Hrun.
  pose proof (mounted_together _ _ _ _ _ _ _ _ _ _ HaA HaB HA HB EA EB) as Hw.
  destruct (together_run pointer follow stackA stackB _ _ HaA HaB Hw Hrun) as (tA & tB & lsA & lsB & R & MA & MB & Hm).
  cbn [fst snd] in MA, MB, Hm. exists R, tA, tB. split_and!.
  - apply (nk_root _ _ (mb_ok _ _ _ _ MA)).
  - apply (nk_root _ _ (mb_ok _ _ _ _ MB)).
  - intros x [d Hd]. destruct (node_view _ _ _ _ (mb_ok _ _ _ _ MA) Hd) as (i & _ & Hv).
    destruct (mi_left _ _ _ _ _ _ _ Hm x) as [y Hy]; [eauto|]. exists y. split; [done|].
    intros y'. by apply (mi_fun _ _ _ _ _ _ _ Hm).
  - intros y [d Hd]. destruct (node_view _ _ _ _ (mb_ok _ _ _ _ MB) Hd) as (i & _ & Hv).
    destruct (mi_right _ _ _ _ _ _ _ Hm y) as [x Hx]; [eauto|]. exists x. split; [done|].
    intros x' Hx'. by eapply (mi_inj _ _ _ _ _ _ _ Hm).
  - apply (mi_same _ _ _ _ _ _ _ Hm).
  - intros c name flags Hc Hnz Hfl. by eapply walks_agree.
Qed.
