(* ===== verification/Defects.v ===== *)
(** * Defects

    What goes wrong on nodes that are otherwise in order: a link that was unlinked
    stops the unmounting, a read request carries out what a file contains, a link
    ends up in another directory of the same name, and emptying a link leaves the
    file it stands for as it was. *)

From S2P Require Import Prelude KString KScan KFormat Wire Ksocket MapTable Vfs Syscalls Tree.
From S2P Require Import Umount Stuck Ops PageIo FileMap FileData Server Node Inv Remove.
From S2P Require Import Serve Contents Options Mount Cluster Remote FileOps LocalIo Local.
From S2P Require Import LocalDir Results View Walk Truncate Open Uses Path Calls Opened.
From S2P Require Import Saves Session Joint.

(** C33: On any node at rest that nobody uses, unlinking a link of a file, which reports success,
    makes the unmounting that follows hit the BUG of shrink_dcache_for_umount_subtree, wherever
    the link lies in the tree. *)
Theorem umount_after_unlink_of_link pointer stack s t p pd pir pi n r d ir i ls :
  able stack s t -> idle (dentries s) -> directory s p pd pir pi -> entry s t p n r d ir i ->
  S_ISDIR (i_mode i) = false -> links (g_table (glob s)) = Ok ls -> spec_mine ls (i_ino i) = false ->
  exists s', @do_unlinkat (wjfs_ops pointer stack) p n s = Ok (0, s') /\
    wjfs_kill_litter_super (g_rroot_dentry (glob s')) s' = Fault BugOn.
Proof.
  intros Hab Hid Hdy Hen Hk Hls Hm. pose proof (ab_ok _ _ _ Hab) as Hok.
  exists (unhashed r d s). split; [by eapply unlink_link_ok|].
  change (g_rroot_dentry (glob (unhashed r d s))) with (g_rroot_dentry (glob s)). rewrite (nk_root _ _ Hok).
  apply (unhashed_stops s _ t r d); try done;
    [apply (nk_rest _ _ Hok)|by apply node_ok_held| |apply Hen..].
  apply (nk_dom _ _ Hok). rewrite (en_dentry _ _ _ _ _ _ _ _ Hen). done.
Qed.

(** ** Contents that are a request *)

(** The text of a write, create or remove request. *)
Definition is_request (c : list Z) : Prop :=
  take 2 c = bytes "WR" \/ take 2 c = bytes "CR" \/ take 2 c = bytes "RM".

Lemma splice_received c :
  (length c < 1024)%nat -> splice (replicate 1024 0) 0 (c ++ [0]) = c ++ replicate (1024 - length c) 0.
Proof.
  intros Hl. unfold splice. rewrite take_0, length_app, drop_replicate, <- app_assoc. cbn [app length].
  f_equal. by replace (1024 - length c)%nat with (S (1024 - (0 + (length c + 1))))%nat by lia.
Qed.

(** Such a request goes to the tests behind the one for a read request. *)
Lemma request_rest pointer stack addr c s :
  is_request c -> (length c < 1024)%nat -> mem s = [] ->
  server_step pointer stack addr c s
  = rest_of_step pointer stack (splice (replicate 1024 0) 0 (c ++ [0])) (Some (peer_text addr)) [] s.
Proof.
  intros Hc Hl Hm. rewrite splice_received by done.
  unfold server_step. erewrite M_bind_ok by (by apply alloc_ok).
  erewrite M_bind_ok by (unfold lift; by rewrite inet_ntoa_text).
  rewrite recv_buffer by done. fold (peer_text addr). set (buf := c ++ _).
  assert (Ht : starts buf "quit" s = Ok (false, s) /\ starts buf "RD" s = Ok (false, s)).
  { unfold buf. destruct c as [|x [|y c]]; [by destruct Hc as [|[|]]..|].
    by destruct Hc as [E|[E|E]]; injection E as -> ->. }
  clearbody buf. erewrite M_bind_ok by apply Ht. cbn iota. erewrite M_bind_ok by apply Ht. cbn iota.
  by erewrite M_bind_ok by reflexivity.
Qed.

(** C34: A read request for a file whose contents, with what lies behind them in the array up to
    a NUL, are the text of a write, create or remove request: wjfs_server sends the text back
    and then does with the node what it does when it receives the text itself, faults
    included. *)
Theorem read_executes_contents pointer stack s t addr ino n inop np r d ir i c :
  node_ok s t -> autos_ok stack -> mem s = [] -> served_file s t ino r d ir i ->
  fname n -> (length n <= 19)%nat -> fname np -> (length np <= 19)%nat -> 0 <= inop < 2 ^ 31 ->
  0 < i_size i <= 1024 -> is_cstr (contents i ++ junk_after stack i) c -> is_request c ->
  server_step pointer stack addr (read_text ino n inop np) s
  = (_ ← server_step pointer stack addr c; mret (Some c)) s.
Proof.
  intros Hok Ha Hm Hsf Fn Ln Fp Lp Hip Hsz Hc Hr.
  pose proof (cstr_in_array _ _ _ Ha (sf_file _ _ _ _ _ _ _ Hsf) Hsz Hc) as Hl.
  erewrite server_read_rest by done. rewrite (proj2 (up_to_nul_cstr _ _) Hc), rest_out.
  unfold mbind, M_bind. by rewrite request_rest.
Qed.

(** ** Two directories with one name *)

(** The parent of a request on a node at rest: the first dentry with the name, in the
    order of the search. *)
Lemma first_resolves s t rd np p :
  node_ok s t -> dentries s !! troot t = Some rd -> d_name rd <> np -> Forall (fun c => c <> 0) np ->
  List.find (name_is s np) (cands_list s (tch t)) = Some p -> resolves s np p.
Proof.
  intros Hok Hrd Hne Hnz Hf. destruct (node_tree _ _ Hok) as [Ht Hio].
  exists (troot t), rd. rewrite (nk_root _ _ Hok). split_and!; try done; [apply (nk_names _ _ Hok _ _ Hrd)|].
  right. split; [done|]. rewrite (find_by_name_eq s t Ht Hio (np ++ [0]) np); [by rewrite Hf|by apply is_cstr_app|].
  intros x xd _ Hx. apply (nk_names _ _ Hok _ _ Hx).
Qed.

(** C35: The table says that directory q stands for the other node's directory of a create
    request, by its number; but another directory p with the same name comes first in the
    search.  rdma_create makes the link in p: a lookup in p finds it, one in q does not. *)
Theorem same_name_elsewhere pointer stack s t addr ino n inop np mode p pd pir pi q qd qir qi rd l ls ls' :
  autos_ok stack -> sound stack s t -> fits ino n inop np -> 47 ∉ n ->
  dentries s !! troot t = Some rd -> d_name rd <> np ->
  directory s p pd pir pi -> List.find (name_is s np) (cands_list s (tch t)) = Some p ->
  directory s q qd qir qi -> d_name qd = np -> q <> p ->
  links (g_table (glob s)) = Ok ls -> Some l ∈ ls -> l_local l = s32 (i_ino qi) -> l_rdma l = inop ->
  d_lookup_in (d_hash s) (dentries s) p n = None -> d_lookup_in (d_hash s) (dentries s) q n = None ->
  spec_add ls (mkLink (s32 (u32 (last_ino s + 1))) ino (s32 (i_ino pi)) inop) = Some ls' ->
  exists s', server_step pointer stack addr (message "CR" ino n inop np mode) s = Ok (Some [], s') /\
    node_ok s' (add_child p (fresh s) t) /\
    d_lookup_in (d_hash s') (dentries s') p n = Some (fresh s) /\
    d_lookup_in (d_hash s') (dentries s') q n = None.
Proof.
  intros Ha Hso Hft Hsl Hrd Hrn Hp Hfind Hq _ Hne Hls _ _ _ Hmp Hmq Hadd. pose proof (ab_ok _ _ _ (proj1 Hso)) as Hok.
  pose proof Hft as (_ & _ & Fnp & _).
  pose proof (first_resolves s t rd np p Hok Hrd Hrn (fname_nz _ Fnp) Hfind) as Hres.
  destruct (serve_create pointer stack Ha s t addr ino n inop np mode p pd pir pi ls ls') as (s' & E & _ & Hok' & [Hg _] & _);
    try done.
  exists s'. split; [exact E|]. split; [exact Hok'|].
  assert (Hfr : fresh s <> troot t).
  { intros H. pose proof (nk_fresh _ _ Hok (troot t) (refs_root t)). lia. }
  assert (Htr : troot (add_child p (fresh s) t) = troot t) by (by destruct t).
  split.
  - apply (lookup_view s' _ _ _ _ Hok'). eexists. rewrite Hg, decide_True by done. rewrite Htr. done.
  - destruct (d_lookup_in (d_hash s') (dentries s') q n) as [x|] eqn:Ex; [|done]. exfalso.
    apply (lookup_view s' _ _ _ _ Hok') in Ex as (e & He & Hx & Hep & Hen). rewrite Hg in He. rewrite Htr in Hx.
    case_decide as Hxf; [injection He as <-; simpl in Hep; congruence|].
    assert (d_lookup_in (d_hash s) (dentries s) q n = Some x) by (apply (lookup_view s t); eauto).
    congruence.
Qed.

(** ** Emptying a link *)

(** The link is open as before when its file was cut here and holds the dentry. *)
Lemma cut_open_link s r b stamp k s1 n np rino rparent :
  cut_at s r b stamp k s1 -> open_link s r n np rino rparent -> open_link (use r s1) r n np rino rparent.
Proof.
  intros (d0 & ir0 & i0 & i' & Hd0 & Hir0 & Hi0 & -> & Hc)
    [Hon Ht (d & ir & i & pd & pir & pi & ls & Hd & Hn & Hir & Hi & Hpd & Hnp & Hpir & Hpi & Hls & Hm & Hr)].
  set (s1 := with_inodes (<[ir0 := i']> (inodes s)) s).
  assert (Hino : i_ino i' = i_ino i0) by (destruct b; [by rewrite (ct_same _ _ _ _ _ _ Hc)|congruence]).
  assert (Hkeep : forall x j, inodes s !! x = Some j -> exists j', inodes s1 !! x = Some j' /\ i_ino j' = i_ino j).
  { intros x j Hj. simpl. destruct (decide (ir0 = x)) as [<-|Hne]; [|rewrite lookup_insert_ne by done; eauto].
    rewrite lookup_insert_eq. simplify_eq. eauto. }
  destruct (Hkeep ir i Hi) as (j & Hj & Ej). destruct (Hkeep pir pi Hpi) as (pj & Hpj & Epj).
  destruct (alike_dentry s1 (use r s1) r d (use_alike r s1) Hd) as (k1 & Hk1).
  destruct (alike_dentry s1 (use r s1) (d_parent d) pd (use_alike r s1) Hpd) as (k2 & Hk2).
  split; [done|done|].
  exists (set_d_count k1 d), ir, j, (set_d_count k2 pd), pir, pj, ls. rewrite Ej, Epj. by split_and!.
Qed.

(** C36: A link of another node's file is opened for writing with O_TRUNC, by any path: it is
    empty on this node and no request is sent.  A text written through it then lies over the
    start of the old contents on the other node, and the rest of them stays. *)
Theorem truncate_of_link `{AioOps} pointer stackA stackB env nodev umask fs follow do_link open_special
    sA tA dfd name flags mode r n np rparent buf p fuel sB tB addr rB d ir i :
  autos_ok stackA -> fit stackA sA tA -> files_ok sA -> fs_ok sA tA fs -> Forall (fun b => b <> 0) name ->
  (forall x, dfd = Some x -> is_Some (dentries sA !! x)) ->
  open_answer sA fs dfd name flags = Found r ->
  flag (open_to_namei_flags flags) O_TRUNC = true -> flag flags O_DIRECT = false -> Z.testbit (flags + 1) 1 = true ->
  open_link sA r n np (i_ino i) rparent -> 0 <= rparent < 2 ^ 31 ->
  fname n -> (length n <= 19)%nat -> fname np -> (length np <= 19)%nat ->
  take (length p) buf = p -> Forall (fun c => c <> 0) p -> p <> [] -> (length p <= 900)%nat ->
  (length (flat p) <= 19)%nat ->
  node_ok sB tB -> autos_ok stackB -> mem sB = [] -> served_file sB tB (i_ino i) rB d ir i ->
  let f := file_of r flags in
  let len := Z.of_nat (length p) in
  exists sA1 sA2 msg sB1 i1,
    @do_sys_open (wjfs_ops pointer stackA) env nodev umask fs follow do_link open_special dfd name flags mode sA
      = Ok (Some (inr (OFile f)), sA1) /\
    empty_at sA1 r /\ n_sent (network sA1) = n_sent (network sA) /\
    vfs_write pointer stackA fuel f buf len 0 sA1 = Ok ((len, 0), sA2) /\
    n_sent (network sA2) = (test_addr, htons test_port, msg) :: n_sent (network sA1) /\
    server_step pointer stackB addr msg sB = Ok (Some [], sB1) /\
    inodes sB1 !! ir = Some i1 /\ contents i1 = flat p ++ drop (length (flat p)) (contents i).
Proof.
  intros HaA Hft Hfi Hfs Hnz Hdfd Han Htr Hdi Hwr Hol Hrp Fn Ln Fp Lp Hbuf Hpz Hpne Hlp Hfl HokB HaB HmB Hsf f len.
  pose proof (ft_ok _ _ _ Hft) as Hok. pose proof (sf_range _ _ _ _ _ _ _ Hsf) as Hir.
  pose proof (open_responds pointer stackA env nodev umask fs follow do_link open_special sA tA dfd name flags mode
    Hft Hfi Hfs Hnz Hdfd) as Hr. rewrite Han in Hr. destruct Hr as (s1 & Hc & Ho). rewrite Htr in Hc.
  pose proof (trunc_empty _ _ _ _ _ _ _ _ Hok Han Htr Hc) as (i1 & Hni & Hk & Hz).
  destruct (cut_at_ok _ _ _ _ _ _ _ Hok Hc) as [Hok1 _].
  unfold opens in Ho. rewrite Hdi in Ho. destruct Ho as (o & s2 & s3 & E & _ & _ & _ & Ho).
  destruct Ho as (-> & -> & _); [unfold is_dir; by rewrite Hni|].
  rewrite <- (alike_node_inode _ _ _ (use_alike r s1)) in Hni.
  pose proof (cut_open_link _ _ _ _ _ _ _ _ _ _ Hc Hol) as Hol1.
  destruct (node_inode_inv _ _ _ Hni) as (d1 & ir1 & Hd1 & Hir1 & Hi1 & _).
  destruct (nk_inode _ _ (use_ok s1 tA Hok1 r) _ _ Hd1) as (ir2 & i2 & E1 & E2 & _ & _ & _ & _ & Hty).
  rewrite Hir1 in E1. injection E1 as <-. rewrite Hi1 in E2. injection E2 as <-.
  destruct (typed_reg _ Hty Hk) as (_ & _ & Hfop).
  destruct (server_write pointer stackB sB tB addr (i_ino i) n rparent np p rB d ir i HokB HaB HmB Hsf
    Fn Ln Fp Lp Hrp Hpz Hpne Hlp Hfl) as (Ew & _ & _ & Hcont & Hlen).
  pose proof (link_write_ok pointer stackA HaA fuel (use r s1) f n np (i_ino i) rparent buf p 0 Hol1) as Elw.
  rewrite !s32_small in Elw by lia.
  eexists _, _, _, _, _. split; [exact E|]. split; [by exists i1|].
  split; [by destruct Hc as (? & ? & ? & ? & _ & _ & _ & -> & _)|]. split.
  - rewrite (vfs_write_ok pointer stackA (use r s1) f d1 ir1 i1 Hd1 Hir1 Hi1 Hfop) by (unfold len; lia).
    change (f_write f) with (Z.testbit (flags + 1) 1). rewrite Hwr, Z.min_l by (unfold MAX_RW_COUNT, len; lia).
    apply Elw; try done; [by apply fname_nz..|lia|lia].
  - split; [reflexivity|]. split; [exact Ew|]. split; [apply lookup_insert_eq|exact Hcont].
Qed.
