(* ===== verification/Witness.v ===== *)
(** * Concrete nodes

    The theorems of the other files at concrete inputs: a machine that mounts
    wjfs, a node with one link, and requests that reach it.  Each lemma applies
    the theorem whose name it carries and discharges its hypotheses by
    evaluation. *)

From S2P Require Import Prelude KString KScan KFormat Wire Ksocket MapTable Vfs Syscalls Tree.
From S2P Require Import Umount Ops PageIo FileMap FileData Server Node Inv.
From S2P Require Import Remove Serve Contents Options Mount Cluster Remote FileOps LocalIo.
From S2P Require Import Local LocalDir Results ReadDir Dirents Listing Walk Uses Path Calls.
From S2P Require Import Rename Moves View Truncate Open Opened Saves Session Mirror Joint.
From S2P Require Import Stuck Defects.

#[local] Arguments replicate : simpl never.

(** ** The nodes *)

(** The conversions of vsnprintf for pointers, which no format of wjfs uses. *)
Definition no_pointer : block -> block * nat -> Z -> va -> printf_spec -> res (block * nat) :=
  fun _ st _ _ _ => Ok st.

Definition empty_table : table := replicate 1024 (replicate 52 0).

Lemma empty_table_wf : table_wf empty_table.
Proof. split; [reflexivity|]. apply Forall_replicate. split; [reflexivity|by left]. Qed.

Lemma boot_unmounted : unmounted boot.
Proof.
  split; try reflexivity.
  - intros ir [i Hi]. simpl in Hi. by rewrite lookup_empty in Hi.
  - change (g_table (glob boot)) with empty_table. by apply Forall_replicate.
Qed.

Definition mounted : kstate := mounted_state RAMFS_DEFAULT_MODE empty_table boot.

Lemma mounted_ok : node_ok mounted (Node 1 []).
Proof.
  apply mounted_node_ok; [apply boot_unmounted| |apply empty_table_wf].
  unfold RAMFS_DEFAULT_MODE, S_IALLUGO. lia.
Qed.

Definition root_inode : inode := made_inode boot 16877.
Definition root_dentry : dentry := root_dentry_of 1 0.

(** The link: file 2 of the other node, called f, is file 2 here. *)
Definition f_link : link := mkLink 2 2 1 1.
Definition f_name : list Z := [102].

Definition f_entry : block :=
  Eval vm_compute in
    match table_record [replicate 52 0] (f_name ++ [0]) 2 2 1 1 (lit "192.168.124.134") with
    | Ok (e :: _) => e
    | _ => []
    end.

Definition demo_table : table := f_entry :: replicate 1023 (replicate 52 0).
Definition demo_links : list (option link) := Some f_link :: replicate 1023 None.

Lemma demo_table_wf : table_wf demo_table.
Proof.
  split; [reflexivity|]. constructor; [split; [reflexivity|by right]|].
  apply Forall_replicate. split; [reflexivity|by left].
Qed.

Lemma demo_table_links : links demo_table = Ok demo_links.
Proof. vm_compute. reflexivity. Qed.

(** A file f below the root: as the VFS creates it, with [count] references. *)
Definition with_f (count : Z) : kstate := created 1 root_dentry 0 root_inode f_name 33060 count mounted.

(** The node with the link at rest. *)
Definition demo : kstate := set_table demo_table (with_f 1).
Definition demo_tree : tree := Node 1 [Node 2 []].

Definition link_dentry (count : Z) : dentry := mkDentry count true (Some 3%nat) 1 f_name [] true false.
Definition f_inode : inode := made_inode mounted 33060.

Lemma demo_ok : node_ok demo demo_tree.
Proof.
  apply (create_node_ok mounted (Node 1 []) 1 root_dentry 0 root_inode f_name 33060 demo_table);
    try reflexivity; [apply mounted_ok|by repeat constructor|apply demo_table_wf|by left].
Qed.

Lemma demo_idle : idle (dentries demo).
Proof.
  apply (same_users_idle mounted); [|apply mounted_idle, boot_unmounted].
  apply (create_users mounted (Node 1 []) 1 root_dentry 0 root_inode f_name 33060 demo_table);
    [apply mounted_ok|reflexivity|reflexivity].
Qed.

Lemma demo_numbered : numbered demo 2 2.
Proof.
  intros x i (d & ir & Hd & Hir & Hi & _)%node_inode_inv Hino. simpl in Hd.
  apply lookup_insert_Some in Hd as [[<- _]|[_ Hd]]; [done|].
  apply lookup_insert_Some in Hd as [[<- <-]|[Hx Hd]].
  - injection Hir as <-. simpl in Hi. rewrite lookup_insert_eq in Hi. by injection Hi as <-.
  - rewrite lookup_insert_ne in Hd by done. by rewrite lookup_empty in Hd.
Qed.

Lemma stack0_ok : autos_ok stack0.
Proof. by vm_compute. Qed.

Lemma f_fname : fname f_name /\ link_name f_name.
Proof.
  assert (fname f_name) by (split; [done|by repeat constructor]).
  split; [done|]. split; [done|]. split; [set_solver|simpl; lia].
Qed.

Lemma root_fname : fname [47].
Proof. split; [done|by repeat constructor]. Qed.

Lemma new_file_ok i : i_size i = 0 -> i_pages i = ∅ -> file_ok i.
Proof.
  intros Hs Hp. split; rewrite ?Hs, ?Hp.
  - unfold PAGE_CACHE_SIZE. lia.
  - intros p E. by rewrite lookup_empty in E.
  - done.
Qed.

Lemma demo_served : served_file demo demo_tree 2 2 (link_dentry 1) 3 f_inode.
Proof.
  split; first [done|apply demo_numbered|by apply new_file_ok].
Qed.

(** ** Mounting and unmounting *)

Lemma mount_node_ok_witness :
  exists s' root, wjfs_fill_super None boot = Ok ((0, Some root), s') /\ node_ok s' (Node root []).
Proof.
  destruct (mount_node_ok None [] boot boot_unmounted eq_refl) as (s' & root & _ & _ & E & Hok & _).
  by exists s', root.
Defined.

Lemma parse_options_spec_witness :
  wjfs_parse_options (Some (lit "foo,mode=0712,,bar")) boot = Ok ((0, 458), boot).
Proof.
  apply (parse_options_spec (lit "foo,mode=0712,,bar") (bytes "foo,mode=0712,,bar") boot).
  - reflexivity.
  - apply is_cstr_lit. by repeat constructor.
  - repeat constructor; vm_compute; discriminate.
Defined.

Lemma node_unmount_witness :
  exists s', wjfs_kill_litter_super (Some 1%nat) demo = Ok (tt, s') /\ dentries s' = ∅.
Proof.
  destruct (node_unmount demo demo_tree demo_ok demo_idle) as (s' & E & Hd & _).
  exists s'. exact (conj E Hd).
Defined.

(** ** The tree *)

Lemma genocide_drops_each_once_witness :
  exists m', wjfs_d_genocide 1 demo = Ok (tt, with_dentries m' demo) /\
    d_count <$> m' !! 2%nat = Some 0.
Proof.
  destruct (genocide_drops_each_once demo demo_tree (proj1 (node_tree _ _ demo_ok))) as (m' & E & H).
  exists m'. split; [exact E|]. rewrite H. vm_compute. reflexivity.
Defined.

Lemma find_dentry_by_ino_correct_witness :
  exists o, find_dentry_by_ino 1 2 demo = Ok (o, demo) /\ o <> None.
Proof.
  destruct (node_tree _ _ demo_ok) as [Ht Hi].
  destruct (find_dentry_by_ino_correct demo demo_tree 2 Ht Hi) as (o & E & H).
  exists o. split; [exact E|]. intros ->. apply (H 2%nat f_inode); [|reflexivity|reflexivity].
  vm_compute. by left.
Defined.

Lemma find_from_all_dentry_correct_witness :
  exists o, find_from_all_dentry 1 (f_name ++ [0]) demo = Ok (o, demo) /\ o <> None.
Proof.
  destruct (node_tree _ _ demo_ok) as [Ht Hi].
  destruct (find_from_all_dentry_correct demo demo_tree (f_name ++ [0]) f_name Ht Hi) as (o & E & H).
  - apply is_cstr_app. by repeat constructor.
  - intros r d _ Hd. by eapply (nk_names _ _ demo_ok).
  - exists o. split; [exact E|]. intros ->. apply (H 2%nat (link_dentry 1)); [|reflexivity|reflexivity].
    vm_compute. by left.
Defined.

(** ** The table *)

Lemma table_link_roundtrip_witness :
  exists t1, table_record empty_table (f_name ++ [0]) 2 7 1 1 (lit "1.2.3.4") = Ok t1 /\
    is_my_file t1 2 = Ok false.
Proof.
  destruct (table_link_roundtrip empty_table (replicate 1024 None) (f_name ++ [0]) f_name 2 7 1 1
    (lit "1.2.3.4") (bytes "1.2.3.4") (Some (mkLink 2 7 1 1) :: replicate 1023 None))
    as (t1 & t2 & E & _ & Em & _).
  - apply empty_table_wf.
  - vm_compute. reflexivity.
  - apply is_cstr_app. by repeat constructor.
  - simpl. lia.
  - apply is_cstr_lit. by repeat constructor.
  - simpl. lia.
  - vm_compute. reflexivity.
  - by apply Forall_replicate.
  - exists t1. split; [exact E|exact Em].
Defined.

Lemma table_full_overflow_witness :
  table_record (replicate 1024 f_entry) (f_name ++ [0]) 3 7 1 1 (lit "1.2.3.4") = Fault OutOfBounds.
Proof.
  apply (table_full_overflow _ (replicate 1024 (Some f_link)) _ f_name _ _ _ _ _ (bytes "1.2.3.4")).
  - split; [reflexivity|]. apply Forall_replicate. split; [reflexivity|by right].
  - vm_compute. reflexivity.
  - apply is_cstr_app. by repeat constructor.
  - simpl. lia.
  - apply is_cstr_lit. by repeat constructor.
  - simpl. lia.
  - by apply Forall_replicate.
Defined.

Lemma is_my_file_correct_witness :
  exists mine, is_my_file demo_table 2 = Ok mine /\ mine <> true.
Proof.
  destruct (is_my_file_correct demo_table demo_links 2 demo_table_wf demo_table_links) as (b & E & H).
  exists b. split; [exact E|]. intros ->. apply (proj1 H eq_refl f_link); [|reflexivity].
  unfold demo_links. by left.
Defined.

(** ** The wire *)

Lemma request_roundtrip_witness :
  exists msg len, build_request no_pointer "CR" (replicate 1024 0) 7 (f_name ++ [0]) 1 (lit "/") 0
      = Ok (msg, len) /\
    parse_request (received msg len) (replicate 120 9) (replicate 20 9) (replicate 20 9)
    = Ok (mkReq 7 f_name 1 [47] 0).
Proof.
  apply (request_roundtrip no_pointer "CR" (replicate 1024 0) 7 (f_name ++ [0]) f_name 1 (lit "/") [47] 0
    (replicate 120 9) (replicate 20 9) (replicate 20 9)).
  - reflexivity.
  - apply verb_CR.
  - apply is_cstr_app. by repeat constructor.
  - apply (is_cstr_lit "/"). by repeat constructor.
  - apply f_fname.
  - apply root_fname.
  - simpl. lia.
  - simpl. lia.
  - lia.
  - lia.
  - reflexivity.
  - reflexivity.
  - reflexivity.
Defined.

Lemma read_roundtrip_witness :
  exists msg len, build_read no_pointer (replicate 1024 0) 7 (f_name ++ [0]) 1 (lit "/") = Ok (msg, len) /\
    parse_read (received msg len) (replicate 100 9) (replicate 20 9) (replicate 20 9)
    = Ok (mkReq 7 f_name 1 [47] 0).
Proof.
  apply (read_roundtrip no_pointer (replicate 1024 0) 7 (f_name ++ [0]) f_name 1 (lit "/") [47]
    (replicate 100 9) (replicate 20 9) (replicate 20 9)).
  - reflexivity.
  - apply is_cstr_app. by repeat constructor.
  - apply (is_cstr_lit "/"). by repeat constructor.
  - apply f_fname.
  - apply root_fname.
  - simpl. lia.
  - simpl. lia.
  - lia.
  - lia.
  - reflexivity.
  - reflexivity.
  - reflexivity.
Defined.

(** The line end does not arrive. *)
Lemma write_roundtrip_witness :
  exists b len, build_write no_pointer (replicate 1024 0) 7 (f_name ++ [0]) 1 (lit "/")
      (bytes "hi" ++ [10; 0]) = Ok (b, len) /\
    parse_write (received b len) (replicate 120 9) (replicate 20 9) (replicate 20 9) (replicate 1024 9)
    = Ok (mkReq 7 f_name 1 [47] 0, splice (replicate 1024 9) 0 (lit "hi")).
Proof.
  apply (write_roundtrip no_pointer (replicate 1024 0) 7 (f_name ++ [0]) f_name 1 (lit "/") [47]
    (bytes "hi" ++ [10; 0]) (bytes "hi" ++ [10]) (replicate 120 9) (replicate 20 9) (replicate 20 9)
    (replicate 1024 9)).
  - reflexivity.
  - apply is_cstr_app. by repeat constructor.
  - apply (is_cstr_lit "/"). by repeat constructor.
  - apply (is_cstr_app (bytes "hi" ++ [10]) []). by repeat constructor.
  - apply f_fname.
  - apply root_fname.
  - simpl. lia.
  - simpl. lia.
  - lia.
  - lia.
  - done.
  - simpl. lia.
  - simpl. lia.
  - reflexivity.
  - reflexivity.
  - reflexivity.
  - reflexivity.
Defined.

Lemma fname_replicate n : (0 < n)%nat -> fname (replicate n 97).
Proof. intros H. split; [by destruct n; [lia|]|]. by apply Forall_replicate. Qed.

Lemma fname_verb v : v = "CR"%string \/ v = "WR"%string -> fname (bytes v).
Proof. intros [-> | ->]; (split; [done|by repeat constructor]). Qed.

Lemma parse_request_long_witness :
  parse_request (req_text (bytes "CR") 7 (replicate 20 97) 1 [47] (bytes "0000") ++ [0])
    (replicate 120 9) (replicate 20 9) (replicate 20 9) = Fault OutOfBounds.
Proof.
  apply (parse_request_long _ _ _ _ (bytes "CR") 7 (replicate 20 97) 1 [47] (bytes "0000")).
  - apply is_cstr_app. vm_compute. by repeat constructor.
  - reflexivity.
  - reflexivity.
  - apply fname_verb. by left.
  - apply fname_replicate. lia.
  - apply root_fname.
  - exact (mode_text_fname 0).
  - lia.
  - lia.
  - left. rewrite length_replicate. lia.
Defined.

Lemma parse_write_long_witness :
  parse_write (req_text (bytes "WR") 7 f_name 1 [47] (replicate 20 97) ++ [0])
    (replicate 120 9) (replicate 20 9) (replicate 20 9) (replicate 1024 9) = Fault OutOfBounds.
Proof.
  apply (parse_write_long _ _ _ _ _ (bytes "WR") 7 f_name 1 [47] (replicate 20 97)).
  - apply is_cstr_app. vm_compute. by repeat constructor.
  - reflexivity.
  - apply fname_verb. by right.
  - apply f_fname.
  - apply root_fname.
  - lia.
  - lia.
  - vm_compute. lia.
Defined.

Lemma tokenize_refines_witness :
  tokenize (lit "RD 7 f") (replicate 120 9) = put_rows (replicate 120 9) 0 [bytes "RD"; [55]; f_name].
Proof. apply (tokenize_refines (lit "RD 7 f") (bytes "RD 7 f")). apply is_cstr_lit. by repeat constructor. Defined.

Lemma number_roundtrip_witness :
  exists b len, sprintf no_pointer (replicate 16 9) (lit "%d") [VWord 1234] = Ok (b, len) /\
    string2int b = Ok 1234.
Proof.
  apply (number_roundtrip no_pointer (replicate 16 9) 1234).
  - lia.
  - rewrite length_replicate. lia.
  - vm_compute. discriminate.
Defined.

Lemma put_dec_correct_witness :
  exists ds, put_dec [] 18446744073709551615 = Ok ds /\ digits_value ds = 18446744073709551615.
Proof.
  destruct (put_dec_correct 18446744073709551615) as (ds & E & H & _).
  - vm_compute. by split.
  - exists ds. exact (conj E H).
Defined.

Lemma inet_roundtrip_witness :
  exists str, inet_ntoa no_pointer true test_addr = Ok (Some str) /\ inet_addr str [0; 0; 0; 0] = Ok test_addr.
Proof.
  destruct (inet_roundtrip no_pointer test_addr [0; 0; 0; 0]) as ((str & E & _ & E') & _).
  - vm_compute. by split.
  - exists str. exact (conj E E').
Defined.

Lemma klisten_backlog_witness :
  exists b, w_trace (snd (klisten (fun _ _ => 0) 0 (-5) (mkW [] 1 false))) = [CListen 0 b] /\ b = 128.
Proof.
  destruct (klisten_backlog (fun _ _ => 0) 0 (-5) (mkW [] 1 false)) as (b & E & _).
  - lia.
  - exists b. split; [exact E|]. vm_compute in E. by injection E as <-.
Defined.

(** ** Requests on a node *)

Lemma mounted_resolves : resolves mounted [47] 1.
Proof. exists 1%nat, root_dentry. split; [done|]. split; [done|]. split; [by repeat constructor|by left]. Qed.

Lemma mounted_numbers x i : node_inode mounted x = Some i -> i_ino i <> 2.
Proof.
  intros (d & ir & Hd & Hir & Hi & _)%node_inode_inv. simpl in Hd.
  apply lookup_insert_Some in Hd as [[<- <-]|[_ Hd]]; [|by rewrite lookup_empty in Hd].
  injection Hir as <-. simpl in Hi. rewrite lookup_insert_eq in Hi. by injection Hi as <-.
Qed.

Lemma link_lifecycle_witness :
  exists s1 s2,
    server_step no_pointer stack0 0 (message "CR" 7 f_name 1 [47] 0) mounted = Ok (Some [], s1) /\
    server_step no_pointer stack0 0 (message "RM" 7 f_name 1 [47] 0) s1 = Ok (Some [], s2) /\
    dentries s2 = dentries mounted.
Proof.
  destruct (link_lifecycle no_pointer stack0 mounted (Node 1 []) 0 7 f_name 1 [47] 0 1 root_dentry 0
    root_inode (replicate 1024 None) (Some (mkLink 2 7 1 1) :: replicate 1023 None))
    as (s1 & s2 & E1 & _ & _ & E2 & _ & Hd & _).
  - apply mounted_ok.
  - apply stack0_ok.
  - reflexivity.
  - reflexivity.
  - apply f_fname.
  - apply root_fname.
  - simpl. lia.
  - lia.
  - lia.
  - apply mounted_resolves.
  - reflexivity.
  - reflexivity.
  - reflexivity.
  - reflexivity.
  - reflexivity.
  - vm_compute. reflexivity.
  - vm_compute. reflexivity.
  - by apply Forall_replicate.
  - intros x i Hi. exact (mounted_numbers x i Hi).
  - exists s1, s2. exact (conj E1 (conj E2 Hd)).
Defined.

Lemma remove_request_witness :
  exists s', server_step no_pointer stack0 0 (message "RM" 2 f_name 1 [47] 0) demo = Ok (Some [], s') /\
    dentries s' !! 2%nat = None.
Proof.
  destruct (remove_request no_pointer stack0 demo demo_tree 0 2 f_name 1 [47] 0 2 (link_dentry 1) f_inode
    2 1 demo_links (None :: replicate 1023 None)) as (s' & ir & E & _ & _ & Hd & _).
  - apply demo_ok.
  - apply stack0_ok.
  - reflexivity.
  - apply f_fname.
  - simpl. lia.
  - apply root_fname.
  - simpl. lia.
  - lia.
  - lia.
  - apply demo_table_links.
  - vm_compute. reflexivity.
  - reflexivity.
  - done.
  - reflexivity.
  - apply demo_idle.
  - reflexivity.
  - reflexivity.
  - apply demo_numbered.
  - exists s'. exact (conj E Hd).
Defined.

Lemma write_request_witness :
  exists s' i', server_step no_pointer stack0 0 (req_text (bytes "WR") 2 f_name 1 [47] (bytes "hi")) demo
      = Ok (Some [], s') /\ contents i' = bytes "hi".
Proof.
  destruct (write_request no_pointer stack0 demo demo_tree 0 2 f_name 1 [47] (bytes "hi") 2 (link_dentry 1)
    3 f_inode) as (s' & i' & E & _ & _ & _ & Hc).
  - apply demo_ok.
  - apply stack0_ok.
  - reflexivity.
  - apply demo_served.
  - apply f_fname.
  - simpl. lia.
  - apply root_fname.
  - simpl. lia.
  - lia.
  - by repeat constructor.
  - done.
  - simpl. lia.
  - simpl. lia.
  - exists s', i'. exact (conj E Hc).
Defined.

Lemma put_get_roundtrip_witness :
  exists s', put_file_message stack0 2 (lit "hi") demo = Ok (0, s') /\
    get_file_message stack0 2 (replicate 8 9) s' = Ok (splice (replicate 8 9) 0 (lit "hi"), s').
Proof.
  destruct (put_get_roundtrip stack0 2 (link_dentry 1) 3 f_inode (lit "hi") (bytes "hi") (replicate 8 9)
    (bytes "hi") demo) as (s' & i' & E & _ & _ & _ & _ & E' & _).
  - reflexivity.
  - reflexivity.
  - reflexivity.
  - by apply new_file_ok.
  - reflexivity.
  - apply stack0_ok.
  - apply is_cstr_lit. by repeat constructor.
  - done.
  - simpl. lia.
  - vm_compute. discriminate.
  - split; [by repeat constructor|]. exists (replicate 1021 0). vm_compute. reflexivity.
  - rewrite length_replicate. simpl. lia.
  - exists s'. exact (conj E E').
Defined.

(** A file of 2000 bytes. *)
Definition big_inode : inode := set_data 2000 {[0%nat := replicate 4096 97]} f_inode.
Definition demo_big : kstate := with_inodes (<[3%nat := big_inode]> (inodes demo)) demo.

Lemma get_file_overflow_witness : get_file_message stack0 2 (replicate 1024 0) demo_big = Fault OutOfBounds.
Proof.
  apply (get_file_overflow stack0 2 (link_dentry 1) 3 big_inode (replicate 1024 0) (replicate 4096 97)).
  - reflexivity.
  - reflexivity.
  - reflexivity.
  - reflexivity.
  - by rewrite length_replicate.
  - simpl. lia.
  - reflexivity.
Defined.

(** ** Two nodes *)

(** The VFS looked up f on a mounted node and is about to create it. *)
Definition looking : kstate := looked_up 1 root_dentry f_name mounted.

Lemma creating_f : creating looking stack0 2 (child_dentry 1 f_name) (add_sub 2 root_dentry) 0 root_inode 33188.
Proof.
  split; first [done|by left|apply f_fname|split; [apply root_fname|simpl; lia]|by vm_compute|simpl; lia].
Qed.

Lemma create_replicated_witness :
  exists sA' msg sB', wjfs_mknod no_pointer stack0 0 2 33188 0 looking = Ok (0, sA') /\
    server_step no_pointer stack0 0 msg mounted = Ok (Some [], sB') /\ node_ok sB' demo_tree.
Proof.
  destruct (create_replicated no_pointer stack0 stack0 looking 2 (child_dentry 1 f_name)
    (add_sub 2 root_dentry) 0 root_inode 33188 mounted (Node 1 []) 0 1 root_dentry 0 root_inode
    (replicate 1024 None) (Some f_link :: replicate 1023 None))
    as (sA' & msg & sB' & nd & ni & EA & _ & EB & Hok & _).
  - apply creating_f.
  - apply mounted_ok.
  - apply stack0_ok.
  - reflexivity.
  - reflexivity.
  - apply mounted_resolves.
  - reflexivity.
  - reflexivity.
  - reflexivity.
  - reflexivity.
  - reflexivity.
  - vm_compute. reflexivity.
  - vm_compute. reflexivity.
  - exists sA', msg, sB'. exact (conj EA (conj EB Hok)).
Defined.

(** The owner's node while the VFS removes f. *)
Definition owner : kstate := with_f 2.

Lemma unlinking_f : unlinking owner stack0 2 (link_dentry 2) 3 f_inode (add_sub 2 root_dentry) 0
  (set_mtime_ctime 0 root_inode).
Proof.
  split; cycle 2.
  - apply empty_table_wf.
  - exists (replicate 1024 None). split; vm_compute; reflexivity.
  - reflexivity.
  - done.
  - reflexivity.
  - reflexivity.
  - done.
  - reflexivity.
  - reflexivity.
  - reflexivity.
  - done.
  - split; [apply f_fname|simpl; lia].
  - split; [apply root_fname|simpl; lia].
  - by vm_compute.
  - by split.
  - reflexivity.
Qed.

Lemma unlink_replicated_witness :
  exists sA' msg sB', wjfs_unlink no_pointer stack0 0 2 owner = Ok (0, sA') /\
    server_step no_pointer stack0 0 msg demo = Ok (Some [], sB') /\ dentries sB' !! 2%nat = None.
Proof.
  destruct (unlink_replicated no_pointer stack0 stack0 owner 2 (link_dentry 2) 3 f_inode
    (add_sub 2 root_dentry) 0 (set_mtime_ctime 0 root_inode) demo demo_tree 0 2 (link_dentry 1) f_inode
    2 1 demo_links (None :: replicate 1023 None)) as (sA' & msg & sB' & EA & _ & EB & _ & Hd & _).
  - apply unlinking_f.
  - apply demo_ok.
  - apply stack0_ok.
  - reflexivity.
  - apply demo_table_links.
  - vm_compute. reflexivity.
  - reflexivity.
  - done.
  - reflexivity.
  - apply demo_idle.
  - reflexivity.
  - reflexivity.
  - apply demo_numbered.
  - exists sA', msg, sB'. exact (conj EA (conj EB Hd)).
Defined.

Lemma demo_linked replies : linked (with_net (mkNet [] [] [] replies) demo) 2 1 2 1.
Proof.
  split; [done|apply demo_table_wf|]. exists demo_links.
  split; [apply demo_table_links|vm_compute; reflexivity].
Qed.

Lemma remote_write_witness :
  exists sA' msg sB' i', wjfs_client_write no_pointer stack0 test_ip test_port 2 (f_name ++ [0]) 1 [47; 0]
      (lit "hi") (with_net (mkNet [] [] [] []) demo) = Ok (0, sA') /\
    server_step no_pointer stack0 0 msg demo = Ok (Some [], sB') /\ contents i' = bytes "hi".
Proof.
  destruct (remote_write no_pointer stack0 stack0 (with_net (mkNet [] [] [] []) demo) 2 f_name 1 [47]
    (lit "hi") (bytes "hi") 1 demo demo_tree 0 2 (link_dentry 1) 3 f_inode)
    as (sA' & msg & sB' & i' & EA & _ & EB & _ & _ & Hc).
  - reflexivity.
  - apply demo_linked.
  - apply is_cstr_lit. by repeat constructor.
  - done.
  - simpl. lia.
  - simpl. lia.
  - apply f_fname.
  - simpl. lia.
  - apply root_fname.
  - simpl. lia.
  - lia.
  - apply demo_ok.
  - apply stack0_ok.
  - reflexivity.
  - apply demo_served.
  - exists sA', msg, sB', i'. exact (conj EA (conj EB Hc)).
Defined.

(** The node after "hi" was written to f. *)
Definition hi_inode : inode := written (a_page stack0) (bytes "hi") f_inode.
Definition demo_hi : kstate := with_inodes (<[3%nat := hi_inode]> (inodes demo)) demo.

Lemma demo_hi_ok : node_ok demo_hi demo_tree.
Proof. eapply node_ok_inode; [apply demo_ok|reflexivity|apply written_role]. Qed.

Lemma demo_hi_served : served_file demo_hi demo_tree 2 2 (link_dentry 1) 3 hi_inode.
Proof.
  split; try done.
  - intros x i (d & ir & Hd & Hir & Hi & Hm)%node_inode_inv Hino.
    destruct (decide (ir = 3%nat)) as [->|Hne].
    + eapply (nk_inj _ _ demo_hi_ok); [exact Hd| |exact Hir|]; reflexivity.
    + simpl in Hi. rewrite lookup_insert_ne in Hi by done.
      apply (demo_numbered x i); [|done]. unfold node_inode.
      change (dentries demo) with (dentries demo_hi). rewrite Hd. cbn [mbind option_bind].
      rewrite Hir. cbn [mbind option_bind].
      change (inodes demo) with (inodes (with_f 1)). simpl. rewrite Hi. cbn [mbind option_bind].
      by rewrite (proj2 (Z.eqb_neq _ 0)).
  - apply written_ok; [by apply new_file_ok|simpl; lia].
Qed.

Lemma remote_read_witness :
  exists sA' msg r, wjfs_client_read no_pointer stack0 test_ip test_port 2 (f_name ++ [0]) 1 [47; 0]
      (replicate 1024 9) (with_net (mkNet [] [] [] [bytes "hi"]) demo) = Ok ((0, r), sA') /\
    server_step no_pointer stack0 0 msg demo_hi = Ok (Some (bytes "hi"), demo_hi) /\
    is_cstr r (bytes "hi").
Proof.
  destruct (remote_read no_pointer stack0 stack0 (with_net (mkNet [] [] [] [bytes "hi"]) demo) 2 f_name
    1 [47] (replicate 1024 9) 1 demo_hi demo_tree 0 2 (link_dentry 1) 3 hi_inode (bytes "hi") [])
    as (sA' & msg & r & EA & _ & EB & _ & Hc).
  - reflexivity.
  - apply demo_linked.
  - reflexivity.
  - reflexivity.
  - apply f_fname.
  - simpl. lia.
  - apply root_fname.
  - simpl. lia.
  - lia.
  - apply demo_hi_ok.
  - apply stack0_ok.
  - reflexivity.
  - apply demo_hi_served.
  - vm_compute. by split.
  - split; [by repeat constructor|]. exists (replicate 1021 0). vm_compute. reflexivity.
  - simpl. lia.
  - by vm_compute.
  - exists sA', msg, r. exact (conj EA (conj EB Hc)).
Defined.

(** ** System calls *)

Lemma able_mounted : able stack0 mounted (Node 1 []).
Proof. split; [split|..]; first [apply mounted_ok|reflexivity|by split]. Qed.

Lemma able_demo : able stack0 demo demo_tree.
Proof. split; [split|..]; first [apply demo_ok|reflexivity|by split]. Qed.

Lemma root_directory : directory mounted 1 root_dentry 0 root_inode.
Proof. split; first [reflexivity|simpl; lia]. Qed.

Lemma demo_directory : directory demo 1 (add_sub 2 root_dentry) 0 (set_mtime_ctime 0 root_inode).
Proof. split; first [reflexivity|simpl; lia]. Qed.

Lemma f_component : component f_name.
Proof. apply link_name_component, f_fname. Qed.

(** A process at the root of the mount; no link is followed in what follows. *)
Definition at_root : fs_struct := mkFs (Some 1%nat) (Some 1%nat) 1.
Definition follow0 : nat -> nameidata -> M walked := fun _ nd => mret (Walked 0 nd).

Ltac root_ok := split; [reflexivity|intros ? [= <-]; reflexivity..].

Lemma mounted_at_root : fs_ok mounted (Node 1 []) at_root.
Proof. root_ok. Qed.

Lemma demo_at_root : fs_ok demo demo_tree at_root.
Proof. root_ok. Qed.

(** A name that is free, and the same name once it is taken. *)
Lemma mknod_total_witness :
  (exists s', @mknodat (wjfs_ops no_pointer stack0) at_root follow0 None (bytes "/f") 33188 0 18 mounted
     = Ok (Some 0, s') /\ node_ok s' demo_tree) /\
  (exists s', @mknodat (wjfs_ops no_pointer stack0) at_root follow0 None (bytes "./../f") 33188 0 18 demo
     = Ok (Some (- EEXIST), s') /\ quiet demo s').
Proof.
  split.
  - destruct (mknod_total no_pointer stack0 at_root follow0 mounted (Node 1 []) None (bytes "/f") 33188 18)
      as [(s' & E & _ & H) _];
      [apply able_mounted|apply mounted_at_root|by repeat constructor|done|by right|].
    exists s'. split; [exact E|]. destruct (H eq_refl) as (q & pd & pir & pi & c & Hq & _ & _ & _ & Hok & _).
    vm_compute in Hq. injection Hq as <-. exact Hok.
  - destruct (mknod_total no_pointer stack0 at_root follow0 demo demo_tree None (bytes "./../f") 33188 18)
      as [(s' & E & Hq & _) _];
      [apply able_demo|apply demo_at_root|by repeat constructor|done|by right|].
    exists s'. split; [exact E|]. by apply Hq.
Defined.

(** A directory may be named with a slash; below a file there is nothing. *)
Lemma mkdir_total_witness :
  (exists s', @mkdirat (wjfs_ops no_pointer stack0) at_root follow0 None (bytes "f//") 511 18 mounted
     = Ok (Some 0, s') /\ node_ok s' demo_tree) /\
  (exists s', @mkdirat (wjfs_ops no_pointer stack0) at_root follow0 None (bytes "/f/g") 511 18 demo
     = Ok (Some (- ENOTDIR), s') /\ quiet demo s').
Proof.
  split.
  - destruct (mkdir_total no_pointer stack0 at_root follow0 mounted (Node 1 []) None (bytes "f//") 511 18)
      as [(s' & E & _ & H) _]; [apply able_mounted|apply mounted_at_root|by repeat constructor|done|].
    exists s'. split; [exact E|]. destruct (H eq_refl) as (q & pd & pir & pi & c & Hq & _ & _ & _ & Hok & _).
    vm_compute in Hq. injection Hq as <-. exact Hok.
  - destruct (mkdir_total no_pointer stack0 at_root follow0 demo demo_tree None (bytes "/f/g") 511 18)
      as [(s' & E & Hq & _) _]; [apply able_demo|apply demo_at_root|by repeat constructor|done|].
    exists s'. split; [exact E|]. by apply Hq.
Defined.

(** The file by its path; and a process whose root is elsewhere leaves the file
    system with the slash. *)
Lemma path_lookup_total_witness :
  (exists nd, @user_path_at (wjfs_ops no_pointer stack0) at_root follow0 None (bytes "/../f") LOOKUP_FOLLOW demo
     = Ok (Walked 0 nd, use 2 demo)) /\
  dput 2 (use 2 demo) = Ok (tt, demo) /\
  (exists rest nd, @user_path_at (wjfs_ops no_pointer stack0) (mkFs None (Some 1%nat) 1) follow0 None
     (bytes "/f") LOOKUP_FOLLOW demo = Ok (Leaves rest nd, demo)).
Proof.
  destruct (path_lookup_total no_pointer stack0 at_root follow0 demo demo_tree None (bytes "/../f") LOOKUP_FOLLOW)
    as [H Hput]; [apply demo_ok|reflexivity|apply demo_at_root|by repeat constructor|done|done|].
  destruct (path_lookup_total no_pointer stack0 (mkFs None (Some 1%nat) 1) follow0 demo demo_tree None
    (bytes "/f") LOOKUP_FOLLOW) as [H' _];
    [apply demo_ok|reflexivity|split; [reflexivity|done|intros ? [= <-]; reflexivity]
    |by repeat constructor|done|done|].
  set (x := named _ _ _ _ _) in H, Hput. set (x' := named _ _ _ _ _) in H'.
  assert (E : x = At 2) by (vm_compute; reflexivity).
  assert (E' : x' = Outside) by (vm_compute; reflexivity).
  rewrite E in H, Hput. rewrite E' in H'. destruct H as (nd & E1 & _).
  split; [exists nd; exact E1|]. split; [by apply Hput|]. destruct H' as (rest & nd' & E2). by exists rest, nd'.
Defined.

(** The same node with an empty table: the file is its own. *)
Definition own : kstate := set_table empty_table demo.

Lemma own_ok : node_ok own demo_tree.
Proof. apply node_ok_table; [apply demo_ok|apply empty_table_wf]. Qed.

Lemma own_idle : idle (dentries own).
Proof. exact demo_idle. Qed.

Lemma own_entry t : entry (set_table t demo) demo_tree 1 f_name 2 (link_dentry 1) 3 f_inode.
Proof. split; first [reflexivity|done]. Qed.

Lemma own_fit : fit stack0 own demo_tree.
Proof. split; first [apply own_ok|reflexivity|by split]. Qed.

Lemma own_directory : directory own 1 (add_sub 2 root_dentry) 0 (set_mtime_ctime 0 root_inode).
Proof. split; first [reflexivity|simpl; lia]. Qed.

(** With an empty table everything is the node's own. *)
Lemma all_mine s p n : g_table (glob s) = empty_table -> idle (dentries s) -> mine_here s p n.
Proof.
  intros E Hid. exists (replicate 1024 None). rewrite E. split; [vm_compute; reflexivity|].
  intros r i _ _. split; [|done]. unfold spec_mine. generalize (i_ino i). intros z. vm_compute. reflexivity.
Qed.

(** The file goes; a name that is not there is refused, and so is the root. *)
Lemma unlink_total_witness :
  (exists s', @unlinkat (wjfs_ops no_pointer stack0) at_root follow0 (Some 1%nat) f_name 0 own
     = Ok (Some 0, s') /\ node_ok s' (Node 1 [])) /\
  (exists s', @unlinkat (wjfs_ops no_pointer stack0) at_root follow0 None (bytes "/") 0 own
     = Ok (Some (- EISDIR), s') /\ quiet own s').
Proof.
  split.
  - destruct (unlink_total no_pointer stack0 at_root follow0 own demo_tree (Some 1%nat) f_name) as [(s' & E & _ & H) _];
      [apply own_fit|root_ok|by repeat constructor|intros ? [= <-]; by eexists
      |intros ? ? _ _; apply all_mine; [reflexivity|apply own_idle]|].
    exists s'. split; [exact E|]. destruct (H eq_refl) as (q & pd & pir & pi & c & Hq & _ & Hc & _ & r & d & ir & i & Hf & _ & _ & _ & Hok & _).
    vm_compute in Hq, Hc. injection Hq as <-. injection Hc as <-. vm_compute in Hf. injection Hf as <-. exact Hok.
  - destruct (unlink_total no_pointer stack0 at_root follow0 own demo_tree None (bytes "/")) as [(s' & E & Hq & _) _];
      [apply own_fit|root_ok|by repeat constructor|done
      |intros ? ? _ _; apply all_mine; [reflexivity|apply own_idle]|].
    exists s'. split; [exact E|]. by apply Hq.
Defined.

Lemma unlink_of_link_witness :
  @do_unlinkat (wjfs_ops no_pointer stack0) 1 f_name demo = Ok (0, unhashed 2 (link_dentry 1) demo).
Proof.
  apply (unlink_of_link no_pointer stack0 demo demo_tree 1 (add_sub 2 root_dentry) 0
    (set_mtime_ctime 0 root_inode) f_name 2 (link_dentry 1) 3 f_inode demo_links).
  - apply able_demo.
  - apply demo_directory.
  - apply (own_entry demo_table).
  - reflexivity.
  - apply demo_table_links.
  - vm_compute. reflexivity.
Defined.

(** A node with an empty directory of its own. *)
Definition with_dir : kstate :=
  set_table empty_table (created 1 root_dentry 0 root_inode f_name 16877 1 mounted).

Lemma with_dir_idle : idle (dentries with_dir).
Proof. exact demo_idle. Qed.

Lemma with_dir_ok : node_ok with_dir demo_tree.
Proof.
  apply (create_node_ok mounted (Node 1 []) 1 root_dentry 0 root_inode f_name 16877 empty_table);
    try reflexivity; [apply mounted_ok|by repeat constructor|apply empty_table_wf|by right].
Qed.

Lemma rmdir_total_witness :
  (exists s', @unlinkat (wjfs_ops no_pointer stack0) at_root follow0 None (bytes "/f/") AT_REMOVEDIR with_dir
     = Ok (Some 0, s') /\ node_ok s' (Node 1 [])) /\
  (exists s', @unlinkat (wjfs_ops no_pointer stack0) at_root follow0 None (bytes "f") AT_REMOVEDIR own
     = Ok (Some (- ENOTDIR), s') /\ quiet own s').
Proof.
  split.
  - destruct (rmdir_total no_pointer stack0 at_root follow0 with_dir demo_tree None (bytes "/f/")) as [(s' & E & _ & H) _];
      [split; first [apply with_dir_ok|reflexivity|by split]|root_ok|by repeat constructor|done
      |intros ? ? _ _; apply all_mine; [reflexivity|apply with_dir_idle]|].
    exists s'. split; [exact E|]. destruct (H eq_refl) as (q & pd & pir & pi & c & Hq & _ & Hc & _ & r & d & ir & i & Hf & _ & _ & _ & Hok & _).
    vm_compute in Hq, Hc. injection Hq as <-. injection Hc as <-. vm_compute in Hf. injection Hf as <-. exact Hok.
  - destruct (rmdir_total no_pointer stack0 at_root follow0 own demo_tree None (bytes "f")) as [(s' & E & Hq & _) _];
      [apply own_fit|root_ok|by repeat constructor|done
      |intros ? ? _ _; apply all_mine; [reflexivity|apply own_idle]|].
    exists s'. split; [exact E|]. by apply Hq.
Defined.

Lemma rename_path_witness :
  exists s', @renameat (wjfs_ops no_pointer stack0) at_root follow0 None (bytes "/f") (Some 1%nat) (bytes "./g") own
      = Ok (Some 0, s') /\
    node_ok s' demo_tree /\ entry_at s' 2 1 (bytes "g") 2 S_IFREG.
Proof.
  destruct (rename_path no_pointer stack0 at_root follow0 own demo_tree None (bytes "/f") (Some 1%nat) (bytes "./g")
    1 (add_sub 2 root_dentry) 0 (set_mtime_ctime 0 root_inode) f_name
    1 (add_sub 2 root_dentry) 0 (set_mtime_ctime 0 root_inode) (bytes "g") 2 (link_dentry 1) 3 f_inode)
    as (s' & E & Hok & Hat & _).
  - apply own_fit.
  - root_ok.
  - by repeat constructor.
  - by repeat constructor.
  - done.
  - intros ? [= <-]. by eexists.
  - vm_compute. reflexivity.
  - reflexivity.
  - reflexivity.
  - vm_compute. reflexivity.
  - reflexivity.
  - reflexivity.
  - apply own_directory.
  - apply own_directory.
  - reflexivity.
  - reflexivity.
  - reflexivity.
  - apply own_entry.
  - reflexivity.
  - simpl. lia.
  - reflexivity.
  - exists s'. exact (conj E (conj Hok Hat)).
Defined.

(** ** Open files *)

(** File operations that refuse everything: links do not reach them. *)
#[local] Instance no_aio : AioOps := {|
  aio_read := fun _ buf _ pos => mret (- EINVAL, pos, buf);
  aio_write := fun _ _ _ pos => mret (- EINVAL, pos);
  wait_on_sync_kiocb := mret 0;
|}.

(** The file f, open for reading and writing. *)
Definition f_open : file := mkFile 2 true true false false false.

Definition waiting (replies : list (list Z)) : kstate := with_net (mkNet [] [] [] replies) demo.

Lemma waiting_open replies : open_link (waiting replies) 2 f_name [47] 2 1.
Proof.
  split; [by split|apply demo_table_wf|].
  exists (link_dentry 1), 3%nat, f_inode, (add_sub 2 root_dentry), 0%nat, (set_mtime_ctime 0 root_inode),
    demo_links.
  do 8 (split; [reflexivity|]). split; [apply demo_table_links|]. split; vm_compute; reflexivity.
Qed.

(** The array of the server's get_file_message still holds ten digits. *)
Definition stack1 : autos :=
  mkAutos (bytes "0123456789" ++ replicate 1014 0) (a_message stack0) (a_tmp_name stack0) (a_name stack0)
    (a_name_parent stack0) (a_abcd stack0) (a_page stack0).

Lemma stack1_ok : autos_ok stack1.
Proof. by split_and!. Qed.

Lemma hi_inert : inert (bytes "hi there89").
Proof. by vm_compute. Qed.

Lemma hi2_inert : inert (bytes "hi" ++ bytes "23456789").
Proof. by vm_compute. Qed.

(** "hi there" comes back with the two digits that were left behind it. *)
Lemma link_write_read_witness :
  exists sA1 sA2,
    wjfs_write no_pointer stack0 1 f_open (bytes "hi there") 8 0 (waiting []) = Ok ((8, 0), sA1) /\
    wjfs_read no_pointer stack0 1 f_open (replicate 2048 1) 2048 0 (answered (bytes "hi there89") sA1)
    = Ok ((10, 0, filled (bytes "hi there89") (replicate 2048 1)), sA2).
Proof.
  destruct (link_write_read no_pointer stack0 stack1 1 (waiting []) f_open f_name [47] 1 (bytes "hi there")
    (bytes "hi there") 0 (replicate 2048 1) 2048 demo demo_tree 0 2 (link_dentry 1) 3 f_inode)
    as (sA1 & m1 & sB1 & E1 & _ & _ & H).
  - apply stack0_ok.
  - apply waiting_open.
  - lia.
  - apply f_fname.
  - simpl. lia.
  - apply root_fname.
  - simpl. lia.
  - reflexivity.
  - by repeat constructor.
  - done.
  - simpl. lia.
  - vm_compute. lia.
  - rewrite length_replicate. lia.
  - apply demo_ok.
  - apply stack1_ok.
  - reflexivity.
  - apply demo_served.
  - reflexivity.
  - set (x := stale _ _) in H. assert (Ex : x = Some (bytes "89")) by (vm_compute; reflexivity). rewrite Ex in H.
    change (flat (bytes "hi there") ++ bytes "89") with (bytes "hi there89") in H. cbv zeta in H.
    destruct (H hi_inert) as (_ & sA2 & E2 & _). exists sA1, sA2. exact (conj E1 E2).
Defined.

Lemma link_read_short_buffer_witness :
  wjfs_read no_pointer stack0 1 f_open (replicate 512 1) 512 0 (waiting [bytes "hi"]) = Fault OutOfBounds.
Proof.
  apply (link_read_short_buffer no_pointer stack0 1 (waiting [bytes "hi"]) f_open f_name [47] 2 1
    (replicate 512 1) 512 0 (bytes "hi") []).
  - apply stack0_ok.
  - apply waiting_open.
  - by repeat constructor.
  - by repeat constructor.
  - simpl. lia.
  - simpl. lia.
  - reflexivity.
  - simpl. lia.
  - rewrite length_replicate. lia.
Defined.

Lemma link_write_long_witness :
  wjfs_write no_pointer stack0 1 f_open (replicate 2000 97) 2000 0 (waiting []) = Fault OutOfBounds.
Proof.
  apply (link_write_long no_pointer stack0 1 (waiting []) f_open f_name [47] 2 1 (replicate 2000 97) 2000 0).
  - apply stack0_ok.
  - apply waiting_open.
  - rewrite length_replicate. lia.
Defined.

(** A mount without special flags. *)
Definition plain : io_env := mkEnv None false false true false.

Lemma own_numbers r i : inodes own !! r = Some i -> 0 <= i_ino i < 2 ^ 64.
Proof.
  revert r i. change (map_Forall (fun _ i => 0 <= i_ino i < 2 ^ 64) (inodes own)).
  apply (bool_decide_unpack _). vm_compute. reflexivity.
Qed.

(** The directory of a node with a file "f" of its own, read in one go. *)
Lemma list_complete_witness : exists m,
  list_directory plain 4 (mkFile 1 true false false false false) (replicate 300 0) 290 own
  = Ok ((0, [(bytes ".", 1, 4, 1); (bytes "..", 1, 4, 2); (bytes "f", 2, 8, 3)]), closed own m) /\
  node_ok (closed own m) demo_tree.
Proof.
  destruct (list_complete plain own demo_tree 1 (add_sub 2 root_dentry) 0 (set_mtime_ctime 0 root_inode)
    (mkFile 1 true false false false false) (replicate 300 0) 290) as (m & E & _ & Hok & _).
  - apply own_ok.
  - reflexivity.
  - apply own_directory.
  - reflexivity.
  - apply own_numbers.
  - vm_compute. reflexivity.
  - lia.
  - rewrite length_replicate. lia.
  - exists m. split; [exact E|exact Hok].
Defined.

Lemma own_served : served_file own demo_tree 2 2 (link_dentry 1) 3 f_inode.
Proof. split; first [done|apply demo_numbered|by apply new_file_ok]. Qed.

Lemma own_open : open_file own f_open 3 f_inode.
Proof.
  split; [by exists (link_dentry 1)|reflexivity|by apply data_ok_new|reflexivity|].
  exists (replicate 1024 None). split; [apply empty_table_wf|]. split; vm_compute; reflexivity.
Qed.

Lemma local_read_witness :
  exists s', @wjfs_read (wjfs_aio plain (a_page stack0) (mret 0)) no_pointer stack0 1 f_open
    (replicate 8 9) 8 100 own = Ok ((0, 100, replicate 8 9), s').
Proof.
  destruct (local_read no_pointer stack0 plain (a_page stack0) (mret 0) 0 own f_open 3 f_inode
    (replicate 8 9) 8 100 own_open) as (i' & _ & E).
  - lia.
  - lia.
  - rewrite length_replicate. lia.
  - eexists. etrans; [exact E|reflexivity].
Defined.

Lemma local_write_witness :
  exists s', @wjfs_write (wjfs_aio plain (a_page stack0) (mret 0)) no_pointer stack0 1 f_open
    (replicate 5000 65) 5000 6000 own = Ok ((5000, 11000), s').
Proof.
  destruct (local_write no_pointer stack0 plain (a_page stack0) (mret 0) eq_refl 0 own f_open 3 f_inode
    (replicate 5000 65) 5000 6000 6000 5000 own_open) as (i' & _ & E).
  - lia.
  - rewrite length_replicate. lia.
  - reflexivity.
  - lia.
  - eexists. exact E.
Defined.

Lemma local_write_read_witness :
  exists s1 s2,
    @wjfs_write (wjfs_aio plain (a_page stack0) (mret 0)) no_pointer stack0 1 f_open
      (bytes "hello") 5 4094 own = Ok ((5, 4099), s1) /\
    @wjfs_read (wjfs_aio plain (a_page stack0) (mret 0)) no_pointer stack0 1 f_open
      (replicate 8 9) 5 4094 s1 = Ok ((5, 4099, bytes "hello" ++ [9; 9; 9]), s2).
Proof.
  destruct (local_write_read no_pointer stack0 plain (a_page stack0) (mret 0) eq_refl 0 own f_open 3 f_inode
    (bytes "hello") 5 4094 4094 5 (replicate 8 9) own_open) as (s1 & s2 & E1 & E2).
  - lia.
  - simpl. lia.
  - reflexivity.
  - lia.
  - rewrite length_replicate. lia.
  - exists s1, s2. split; [exact E1|]. etrans; [exact E2|reflexivity].
Defined.

Lemma peer_write_local_read_witness :
  exists s1 s2,
    server_step no_pointer stack0 0 (req_text (bytes "WR") 2 f_name 1 [47] (bytes "hi there")) own
    = Ok (Some [], s1) /\
    @wjfs_read (wjfs_aio plain (a_page stack0) (mret 0)) no_pointer stack0 1 f_open
      (replicate 4096 9) 4096 0 s1
    = Ok ((8, 8, splice (replicate 4096 9) 0 (bytes "hi there")), s2).
Proof.
  apply (peer_write_local_read no_pointer stack0 plain (a_page stack0) (mret 0) 0 own demo_tree 0 2 f_name 1 [47]
    (bytes "hi there") f_open (link_dentry 1) 3 f_inode (replicate 4096 9) 4096).
  - apply own_ok.
  - apply stack0_ok.
  - apply own_served.
  - apply own_open.
  - apply f_fname.
  - simpl. lia.
  - apply root_fname.
  - simpl. lia.
  - lia.
  - by repeat constructor.
  - done.
  - simpl. lia.
  - vm_compute. lia.
  - lia.
  - rewrite length_replicate. lia.
Defined.

Lemma local_write_peer_read_witness :
  exists s1,
    @wjfs_write (wjfs_aio plain (a_page stack0) (mret 0)) no_pointer stack1 1 f_open (bytes "hi") 2 0 own
    = Ok ((2, 2), s1) /\ node_ok s1 demo_tree /\
    server_step no_pointer stack1 0 (read_text 2 f_name 1 [47]) s1 = Ok (Some (bytes "hi23456789"), s1).
Proof.
  destruct (local_write_peer_read no_pointer stack1 plain (a_page stack0) (mret 0) 0 own demo_tree 0 2 f_name 1 [47]
    f_open (link_dentry 1) 3 f_inode (bytes "hi")) as (s1 & E1 & Hok & H).
  - apply own_ok.
  - apply stack1_ok.
  - reflexivity.
  - apply own_served.
  - apply own_open.
  - reflexivity.
  - apply f_fname.
  - simpl. lia.
  - apply root_fname.
  - simpl. lia.
  - lia.
  - reflexivity.
  - reflexivity.
  - done.
  - by repeat constructor.
  - simpl. lia.
  - set (x := stale _ _) in H. assert (Ex : x = Some (bytes "23456789")) by (vm_compute; reflexivity). rewrite Ex in H.
    exists s1. split; [exact E1|]. split; [exact Hok|]. exact (H hi2_inert).
Defined.

(** ** Opening *)

(** The node with the text "old!" in its file. *)
Definition old_inode : inode := set_data 4 {[0%nat := bytes "old!" ++ replicate 4092 0]} f_inode.
Definition old : kstate := with_inodes (<[3%nat := old_inode]> (inodes own)) own.

Lemma old_data : data_ok old_inode.
Proof.
  assert (Ep : i_pages old_inode = {[0%nat := bytes "old!" ++ replicate 4092 0]}) by reflexivity.
  split; rewrite ?Ep.
  - intros x p Hp. apply lookup_singleton_Some in Hp as [_ <-]. reflexivity.
  - unfold MAX_LFS_FILESIZE. simpl. lia.
  - intros k Hk. change (4 <= k) in Hk. unfold byte_at. rewrite Ep.
    destruct (Z.to_nat (k / 4096)) eqn:E; [|by rewrite lookup_singleton_ne].
    assert (k / 4096 = 0) as Hz by (pose proof (Z.div_pos k 4096); lia).
    rewrite lookup_singleton_eq, Z.mod_eq, Hz by lia. rewrite lookup_app_r by (simpl; lia).
    destruct (replicate 4092 0 !! _) eqn:Hr; [|done]. by apply lookup_replicate in Hr as [-> _].
Qed.

Lemma own_files : files_ok own.
Proof. repeat (apply map_Forall_insert_2; [by apply data_ok_new|]). apply map_Forall_empty. Qed.

Lemma old_files : files_ok old.
Proof. apply files_ok_insert; [apply own_files|apply old_data]. Qed.

Lemma old_ok : node_ok old demo_tree.
Proof. apply (node_ok_inode own demo_tree 3 f_inode); [apply own_ok|reflexivity|done]. Qed.

Lemma old_fit : fit stack0 old demo_tree.
Proof. split; first [apply old_ok|reflexivity|by split]. Qed.

#[local] Abbreviation open_by name flags :=
  (@do_sys_open (wjfs_ops no_pointer stack0) plain false 18 at_root follow0 (fun _ _ => mret None)
     (fun _ _ => mret (inl 0)) None (bytes name) flags 420).

(** The file is opened for reading and writing (2) with O_TRUNC (512): it is emptied, and closed
    again; a path that goes through it is refused. *)
Lemma open_total_witness :
  (exists s1, cut_at old 2 true true 0 s1 /\
     open_by "/f" 514 old = Ok (Some (inr (OFile (file_of 2 514))), use 2 s1) /\
     exists s3, filp_close (OFile (file_of 2 514)) (use 2 s1) = Ok (0, s3) /\ back stack0 old s3) /\
  (exists s', open_by "/f/g" 514 old = Ok (Some (inl (- ENOTDIR)), s') /\ back stack0 old s').
Proof.
  split.
  - destruct (open_total no_pointer stack0 plain false 18 at_root follow0 (fun _ _ => mret None)
      (fun _ _ => mret (inl 0)) old demo_tree None (bytes "/f") 514 420) as (H & _ & Hclose);
      [apply old_fit|apply old_files|root_ok|by repeat constructor|done|].
    set (a := open_answer _ _ _ _ _) in H. assert (Ea : a = Found 2) by (vm_compute; reflexivity). rewrite Ea in H.
    destruct H as (s1 & Hc & o & s2 & s3 & E & _ & _ & _ & Hk). destruct Hk as (-> & -> & _).
    { rewrite (cut_at_is_dir _ _ _ _ _ _ _ 2%nat old_ok Hc). reflexivity. }
    exists s1. split; [exact Hc|]. split; [exact E|]. by apply Hclose.
  - destruct (open_total no_pointer stack0 plain false 18 at_root follow0 (fun _ _ => mret None)
      (fun _ _ => mret (inl 0)) old demo_tree None (bytes "/f/g") 514 420) as (H & Hback & _);
      [apply old_fit|apply old_files|root_ok|by repeat constructor|done|].
    set (a := open_answer _ _ _ _ _) in H. assert (Ea : a = Refused (- ENOTDIR)) by (vm_compute; reflexivity).
    rewrite Ea in H. destruct H as (_ & s' & E & _). exists s'. split; [exact E|by eapply Hback].
Defined.

(** "old!" cut to "ol", and a directory. *)
Lemma truncate_total_witness :
  (exists s' i', @do_sys_truncate (wjfs_ops no_pointer stack0) plain at_root follow0 (bytes "/f") 2 old = Ok (Some 0, s') /\
     inodes s' !! 3%nat = Some i' /\ i_size i' = 2 /\ slice i' 0 4 = bytes "ol" ++ [0; 0]) /\
  (exists s', @do_sys_truncate (wjfs_ops no_pointer stack0) plain at_root follow0 (bytes "/") 2 old
     = Ok (Some (- EISDIR), s') /\ quiet old s').
Proof.
  split.
  - destruct (truncate_total no_pointer stack0 plain at_root follow0 old demo_tree (bytes "/f") 2) as (s' & E & _ & H & _);
      [apply old_fit|apply old_files|root_ok|by repeat constructor|].
    set (e := truncate_result _ _ _ _ _) in E, H. assert (Ee : e = Some 0) by (vm_compute; reflexivity).
    rewrite Ee in E, H. destruct (H eq_refl) as (r & Hr & _ & d & ir & i & i' & Hd & Hir & Hi & -> & Hc).
    assert (r = 2%nat) as -> by (vm_compute in Hr; by injection Hr as <-). vm_compute in Hd. injection Hd as <-.
    injection Hir as <-. eexists _, i'. split; [exact E|]. split; [simpl; apply lookup_insert_eq|].
    injection Hi as <-.
    split; [apply Hc|]. unfold slice. cbn [map seq]. rewrite !(ct_bytes _ _ _ _ _ _ Hc) by lia. reflexivity.
  - destruct (truncate_total no_pointer stack0 plain at_root follow0 old demo_tree (bytes "/") 2) as (s' & E & Hq & _);
      [apply old_fit|apply old_files|root_ok|by repeat constructor|].
    exists s'. split; [exact E|]. by apply Hq.
Defined.

(** "old!" is replaced by "new". *)
Lemma saved_is_loaded_witness :
  exists s1 s2 s3, open_by "/f" 514 old = Ok (Some (inr (OFile (file_of 2 514))), s1) /\
    @vfs_write (wjfs_aio plain (a_page stack0) (mret 0)) no_pointer stack0 1 (file_of 2 514) (bytes "new") 3 0 s1
    = Ok ((3, 3), s2) /\
    @vfs_read (wjfs_aio plain (a_page stack0) (mret 0)) no_pointer stack0 1 (file_of 2 514) (replicate 6 9) 6 0 s2
    = Ok ((3, 3, bytes "new" ++ [9; 9; 9]), s3).
Proof.
  pose proof (open_responds no_pointer stack0 plain false 18 at_root follow0 (fun _ _ => mret None)
    (fun _ _ => mret (inl 0)) old demo_tree None (bytes "/f") 514 420 old_fit old_files ltac:(root_ok)
    ltac:(by repeat constructor) ltac:(done)) as H.
  set (a := open_answer _ _ _ _ _) in H. assert (Ea : a = Found 2) by (vm_compute; reflexivity). rewrite Ea in H.
  destruct H as (s1 & Hc & o & s2 & s3 & E & _ & _ & _ & Hk). destruct Hk as (-> & -> & _).
  { rewrite (cut_at_is_dir _ _ _ _ _ _ _ 2%nat old_ok Hc). reflexivity. }
  destruct Hc as (d & ir & i & i' & Hd & Hir & Hi & -> & Hc). vm_compute in Hd. injection Hd as <-.
  injection Hir as <-. injection Hi as <-.
  destruct (saved_is_loaded no_pointer stack0 plain false 18 at_root follow0 (fun _ _ => mret None)
    (fun _ _ => mret (inl 0)) (mret 0) old demo_tree None (bytes "/f") 514 420 (file_of 2 514)
    (use 2 (with_inodes (<[3%nat := i']> (inodes old)) old)) 3 i' (bytes "new") (bytes "new") (replicate 6 9) 6)
    as (x & y & E1 & E2).
  - apply stack0_ok.
  - apply old_fit.
  - apply old_files.
  - root_ok.
  - by repeat constructor.
  - done.
  - exact E.
  - reflexivity.
  - reflexivity.
  - reflexivity.
  - split; [by eexists|simpl; apply lookup_insert_eq|apply (ct_ok _ _ _ _ _ _ Hc)|reflexivity|].
    exists (replicate 1024 None). split; [apply empty_table_wf|]. rewrite (ct_same _ _ _ _ _ _ Hc).
    split; vm_compute; reflexivity.
  - reflexivity.
  - done.
  - unfold MAX_RW_COUNT. simpl. lia.
  - rewrite length_replicate. lia.
  - eexists _, x, y. split; [exact E|]. split; [exact E1|]. etrans; [exact E2|reflexivity].
Defined.

(** ** The life of a node *)

Lemma f_fits : fits 2 f_name 1 [47].
Proof.
  split; [apply f_fname|]. split; [simpl; lia|]. split; [apply root_fname|].
  split; [simpl; lia|]. split; lia.
Qed.

Lemma boot_files : files_ok boot.
Proof. apply map_Forall_empty. Qed.

Lemma sound_mounted : sound stack0 mounted (Node 1 []).
Proof.
  split; [apply able_mounted|]. apply map_Forall_insert_2; [by apply data_ok_new|apply boot_files].
Qed.

(** The link f comes. *)
Lemma f_allowed :
  allowed stack0 plain mounted (Node 1 []) [] (Served 0 (message "CR" 2 f_name 1 [47] 0)) demo_tree.
Proof.
  apply (allow_create stack0 plain mounted (Node 1 []) [] 0 2 f_name 1 [47] 0 1 root_dentry 0 root_inode
    (replicate 1024 None) (Some f_link :: replicate 1023 None)).
  - apply f_fits.
  - apply f_fname.
  - apply mounted_resolves.
  - apply root_directory.
  - reflexivity.
  - vm_compute. reflexivity.
  - vm_compute. reflexivity.
Qed.

(** Nothing outside is reached. *)
Definition ext0 : outside := mkOutside follow0 (fun _ _ => mret None) (fun _ _ => mret (inl 0)) false.

Lemma mounted_held : holds [] mounted.
Proof. apply mounted_holds; [exact 0%nat|]. apply mounted_idle, boot_unmounted. Qed.

(** The file that an event opened. *)
Definition value_of {A B} (x : res (A * B)) : option A := match x with Ok (a, _) => Some a | Fault _ => None end.

Lemma f_life : exists s1, life no_pointer stack0 plain (mret 0) ext0 mounted (Node 1 []) []
  [Served 0 (message "CR" 2 f_name 1 [47] 0)] s1 demo_tree [].
Proof.
  destruct (event_ok no_pointer stack0 stack0_ok plain (mret 0) ext0 _ _ _ _ _ sound_mounted mounted_held f_allowed)
    as (out & s1 & E & _).
  assert (out = None) as -> by (pose proof (f_equal value_of E) as Eo; vm_compute in Eo; by injection Eo as <-).
  exists s1. eapply life_cons; [apply f_allowed|exact E|apply life_nil].
Qed.

Lemma life_safe_witness :
  exists s1, life no_pointer stack0 plain (mret 0) ext0 mounted (Node 1 []) []
      [Served 0 (message "CR" 2 f_name 1 [47] 0)] s1 demo_tree [] /\ sound stack0 s1 demo_tree.
Proof.
  destruct f_life as [s1 Hl]. exists s1. split; [exact Hl|].
  exact (proj1 (life_safe no_pointer stack0 plain (mret 0) ext0 mounted (Node 1 []) [] _ s1 demo_tree []
    stack0_ok sound_mounted mounted_held Hl)).
Defined.

Lemma server_serves_witness :
  exists outs s1, wjfs_server no_pointer stack0 0 0
      [(0, message "CR" 2 f_name 1 [47] 0); (0, bytes "quit")] mounted = Ok ((0, outs), s1) /\
    sound stack0 s1 demo_tree.
Proof.
  destruct f_life as [s1 Hl].
  destruct (server_serves no_pointer stack0 plain (mret 0) ext0 mounted (Node 1 []) []
    [(0, message "CR" 2 f_name 1 [47] 0)] s1 demo_tree [] 0 0 0) as ((outs & E & _) & Hab & _).
  - apply stack0_ok.
  - apply sound_mounted.
  - apply mounted_held.
  - lia.
  - lia.
  - exact Hl.
  - exists outs, s1. exact (conj E Hab).
Defined.

(** A user makes a directory. *)
Definition user : task := mkTask (cur mounted) at_root.

Lemma mkdir_allowed :
  allowed stack0 plain mounted (Node 1 []) [] (Mkdir user None (bytes "/f") 511 18) demo_tree.
Proof.
  change demo_tree with (with_entry mounted user None (bytes "/f")
    (mkdir_result (with_cur (t_cred user) mounted) (t_fs user) None (bytes "/f")) (Node 1 [])).
  apply allow_mkdir. split; [root_ok|]. split; [by repeat constructor|done].
Qed.

Lemma mkdir_life : exists s1, life no_pointer stack0 plain (mret 0) ext0 mounted (Node 1 []) []
  [Mkdir user None (bytes "/f") 511 18] s1 demo_tree [].
Proof.
  destruct (event_ok no_pointer stack0 stack0_ok plain (mret 0) ext0 _ _ _ _ _ sound_mounted mounted_held mkdir_allowed)
    as (out & s1 & E & _).
  assert (out = None) as -> by (pose proof (f_equal value_of E) as Eo; vm_compute in Eo; by injection Eo as <-).
  exists s1. eapply life_cons; [apply mkdir_allowed|exact E|apply life_nil].
Qed.

(** A user makes a file with open and closes it. *)
Definition f_flags : Z := 578.   (* O_RDWR | O_CREAT | O_TRUNC *)

Lemma open_allowed :
  allowed stack0 plain mounted (Node 1 []) [] (OpenFile user None (bytes "/f") f_flags 420 18) demo_tree.
Proof.
  change demo_tree with (opened_tree mounted user None (bytes "/f") f_flags (Node 1 [])).
  apply allow_open; [split; [root_ok|split; [by repeat constructor|done]]|]. intros r Hr. vm_compute in Hr. done.
Qed.

Lemma open_life : exists s2, life no_pointer stack0 plain (mret 0) ext0 mounted (Node 1 []) []
  [OpenFile user None (bytes "/f") f_flags 420 18; CloseFile (file_of 2 f_flags)] s2 demo_tree [].
Proof.
  destruct (event_ok no_pointer stack0 stack0_ok plain (mret 0) ext0 _ _ _ _ _ sound_mounted mounted_held open_allowed)
    as (out & s1 & E & _).
  assert (out = Some (file_of 2 f_flags)) as ->
    by (pose proof (f_equal value_of E) as Eo; vm_compute in Eo; by injection Eo as <-).
  assert (Hl : life no_pointer stack0 plain (mret 0) ext0 mounted (Node 1 []) []
    [OpenFile user None (bytes "/f") f_flags 420 18] (use 2 s1) demo_tree [file_of 2 f_flags])
    by (eapply life_cons; [apply open_allowed|exact E|apply life_nil]).
  destruct (life_sound no_pointer stack0 stack0_ok plain (mret 0) ext0 _ _ _ _ _ _ _ sound_mounted mounted_held Hl)
    as (Hso & Hh & _).
  assert (Hal : allowed stack0 plain (use 2 s1) demo_tree [file_of 2 f_flags] (CloseFile (file_of 2 f_flags)) demo_tree)
    by (apply allow_close, list_elem_of_singleton; done).
  destruct (event_ok no_pointer stack0 stack0_ok plain (mret 0) ext0 _ _ _ _ _ Hso Hh Hal) as (out & s2 & E2 & _).
  eexists. eapply life_cons; [apply open_allowed|exact E|]. eapply life_cons; [exact Hal|exact E2|].
  cbn [files_after close_one]. rewrite bool_decide_eq_true_2 by done. apply life_nil.
Qed.

Lemma mount_to_unmount_witness :
  exists s2 s3, life no_pointer stack0 plain (mret 0) ext0 mounted (Node 1 []) []
      [OpenFile user None (bytes "/f") f_flags 420 18; CloseFile (file_of 2 f_flags)] s2 demo_tree [] /\
    wjfs_kill_litter_super (g_rroot_dentry (glob s2)) s2 = Ok (tt, s3) /\ dentries s3 = ∅.
Proof.
  destruct open_life as [s2 Hl].
  destruct (mount_to_unmount no_pointer stack0 plain (mret 0) ext0 None [] boot mounted 1
    [OpenFile user None (bytes "/f") f_flags 420 18; CloseFile (file_of 2 f_flags)] s2 demo_tree)
    as (s3 & E & Hd & _).
  - apply stack0_ok.
  - apply boot_unmounted.
  - apply boot_files.
  - by split.
  - reflexivity.
  - reflexivity.
  - reflexivity.
  - vm_compute. reflexivity.
  - exact Hl.
  - exists s2, s3. exact (conj Hl (conj E Hd)).
Defined.

Lemma life_typed_witness :
  exists s2, life no_pointer stack0 plain (mret 0) ext0 mounted (Node 1 []) []
      [Mkdir user None (bytes "/f") 511 18] s2 demo_tree [] /\
    forall r d, dentries s2 !! r = Some d -> exists i, node_inode s2 r = Some i /\ i_count i = 1.
Proof.
  destruct mkdir_life as [s2 Hl]. exists s2. split; [exact Hl|]. intros r d Hr.
  destruct (life_typed no_pointer stack0 plain (mret 0) ext0 None [] boot mounted 1
    [Mkdir user None (bytes "/f") 511 18] s2 demo_tree []) with (r := r) (d := d) as (i & Hi & Hc & _).
  - apply stack0_ok.
  - apply boot_unmounted.
  - apply boot_files.
  - by split.
  - reflexivity.
  - reflexivity.
  - reflexivity.
  - vm_compute. reflexivity.
  - exact Hl.
  - exact Hr.
  - exists i. exact (conj Hi Hc).
Defined.

(** ** Two machines *)

Lemma boot_ready : ready None boot.
Proof. split; first [apply boot_unmounted|apply boot_files|by split|reflexivity|simpl; lia|by exists []]. Qed.

Lemma mounted_only r e : view mounted r = Some e -> r = 1%nat.
Proof.
  intros (d & Hd & _)%view_dentry. revert Hd. change (dentries mounted) with ({[1%nat := root_dentry]} : gmap nat dentry).
  rewrite lookup_singleton_Some. by intros [<- _].
Qed.

(** The user makes a directory; the other machine has room for the link. *)
Lemma f_can : can_name mounted mounted user None (bytes "/f") (NMkdir 511 18).
Proof.
  exists (Node 1 []), (replicate 1024 None), (replicate 1024 None).
  split; [apply able_mounted|]. split; [vm_compute; reflexivity|]. split; [vm_compute; reflexivity|].
  split; [split; [root_ok|split; [by repeat constructor|done]]|]. split; [done|].
  intros q c Hq Hc _. vm_compute in Hq, Hc. injection Hq as <-. injection Hc as <-. split.
  - split; [apply f_fname|]. split; [apply f_fname|simpl; lia].
  - intros r e e' _ Hr _. by eapply mounted_only.
  - left.
  - vm_compute. reflexivity.
  - vm_compute. reflexivity.
Qed.

Lemma f_act : exists w, act no_pointer follow0 stack0 stack0 (mounted, mounted) w.
Proof.
  destruct (together_call no_pointer follow0 stack0 stack0 0 mounted mounted user None (bytes "/f") (NMkdir 511 18))
    as (sA' & sB' & E & _).
  - apply stack0_ok.
  - eapply mounted_together; [apply stack0_ok|apply stack0_ok|apply boot_ready|apply boot_ready|vm_compute; reflexivity..].
  - apply f_can.
  - exists (sA', sB'). eapply act_left; [apply f_can|exact E].
Qed.

Lemma nodes_agree_witness :
  exists sA2 sB2, rtc (act no_pointer follow0 stack0 stack0) (mounted, mounted) (sA2, sB2) /\
    exists R tA tB, forall c name flags, cap_dac_override c = true -> Forall (fun b => b <> 0) name ->
      flag flags LOOKUP_PARENT = false ->
      exists err ndA ndB sA' sB',
        @user_path_at (wjfs_ops no_pointer stack0) (root_fs tA) follow0 None name flags (with_cur c sA2)
          = Ok (Walked err ndA, sA') /\
        @user_path_at (wjfs_ops no_pointer stack0) (root_fs tB) follow0 None name flags (with_cur c sB2)
          = Ok (Walked err ndB, sB') /\
        (err = 0 -> R (nd_path ndA) (nd_path ndB)).
Proof.
  destruct f_act as [[sA2 sB2] Hact]. exists sA2, sB2. split; [by apply rtc_once|].
  destruct (nodes_agree no_pointer follow0 stack0 stack0 None None boot boot mounted mounted 1 1 sA2 sB2)
    as (R & tA & tB & _ & _ & _ & _ & _ & H).
  - apply stack0_ok.
  - apply stack0_ok.
  - apply boot_ready.
  - apply boot_ready.
  - vm_compute. reflexivity.
  - vm_compute. reflexivity.
  - by apply rtc_once.
  - exists R, tA, tB. exact H.
Defined.

Lemma cluster_progress_witness :
  exists sA3 sB3, exchange no_pointer (name_call no_pointer follow0 stack0 user None (bytes "/f") (NMkdir 511 18))
      stack0 0 mounted mounted = Ok (Some 0, (sA3, sB3)).
Proof.
  destruct (cluster_progress no_pointer follow0 stack0 stack0 None None boot boot mounted mounted 1 1 mounted mounted)
    as [H _].
  - apply stack0_ok.
  - apply stack0_ok.
  - apply boot_ready.
  - apply boot_ready.
  - vm_compute. reflexivity.
  - vm_compute. reflexivity.
  - apply rtc_refl.
  - destruct (H user None (bytes "/f") (NMkdir 511 18) 0 f_can) as (sA3 & sB3 & E). exists sA3, sB3. exact E.
Defined.

(** ** Defects *)

Lemma umount_after_unlink_of_link_witness :
  exists s', @do_unlinkat (wjfs_ops no_pointer stack0) 1 f_name demo = Ok (0, s') /\
    wjfs_kill_litter_super (g_rroot_dentry (glob s')) s' = Fault BugOn.
Proof.
  apply (umount_after_unlink_of_link no_pointer stack0 demo demo_tree 1 (add_sub 2 root_dentry) 0
    (set_mtime_ctime 0 root_inode) f_name 2 (link_dentry 1) 3 f_inode demo_links).
  - apply able_demo.
  - apply demo_idle.
  - apply demo_directory.
  - apply (own_entry demo_table).
  - reflexivity.
  - apply demo_table_links.
  - vm_compute. reflexivity.
Defined.

(** The file of a link holds the text of the request that removes the link. *)
Definition stored_request : list Z := message "RM" 2 f_name 1 [47] 0.

Definition armed_inode : inode :=
  set_data (Z.of_nat (length stored_request))
    {[0%nat := stored_request ++ replicate (4096 - length stored_request) 0]} f_inode.

Definition armed : kstate := with_inodes (<[3%nat := armed_inode]> (inodes demo)) demo.

Lemma armed_file : file_ok armed_inode.
Proof.
  split.
  - by vm_compute.
  - intros p Hp. vm_compute in Hp. injection Hp as <-. reflexivity.
  - done.
Qed.

Lemma read_executes_contents_witness :
  exists s', server_step no_pointer stack0 0 (read_text 2 f_name 1 [47]) armed = Ok (Some stored_request, s') /\
    dentries s' !! 2%nat = None.
Proof.
  assert (E : server_step no_pointer stack0 0 (read_text 2 f_name 1 [47]) armed
    = (_ ← server_step no_pointer stack0 0 stored_request; mret (Some stored_request)) armed).
  { apply (read_executes_contents no_pointer stack0 armed demo_tree 0 2 f_name 1 [47] 2 (link_dentry 1) 3 armed_inode
      stored_request).
    - apply (node_ok_inode demo demo_tree 3 f_inode); [apply demo_ok|reflexivity|done].
    - apply stack0_ok.
    - reflexivity.
    - apply (served_changed demo demo_tree 2 2 (link_dentry 1) 3 f_inode armed_inode);
        [apply demo_ok|apply demo_served|reflexivity|apply armed_file].
    - apply f_fname.
    - simpl. lia.
    - apply root_fname.
    - simpl. lia.
    - lia.
    - by vm_compute.
    - apply up_to_nul_cstr. vm_compute. reflexivity.
    - right. right. vm_compute. reflexivity. }
  rewrite E. vm_compute. eexists. split; reflexivity.
Defined.

(** The other node's users made /d, /e and /e/d. *)
Definition after (msg : list Z) (s : kstate) : kstate :=
  match server_step no_pointer stack0 0 msg s with Ok (_, s') => s' | Fault _ => s end.

Lemma after_sound s t ino n inop np mode p pd pir pi ls ls' :
  sound stack0 s t -> fits ino n inop np -> 47 ∉ n -> resolves s np p -> directory s p pd pir pi ->
  d_lookup_in (d_hash s) (dentries s) p n = None -> links (g_table (glob s)) = Ok ls ->
  spec_add ls (mkLink (s32 (u32 (last_ino s + 1))) ino (s32 (i_ino pi)) inop) = Some ls' ->
  sound stack0 (after (message "CR" ino n inop np mode) s) (add_child p (fresh s) t).
Proof.
  intros Hso Hft Hsl Hres Hdy Hmiss Hls Hadd.
  destruct (serve_create no_pointer stack0 stack0_ok s t 0 ino n inop np mode p pd pir pi ls ls')
    as (s' & E & Hst & Hok & _); try done.
  unfold after. rewrite E. by eapply sound_next.
Qed.

Definition dn : list Z := bytes "d".
Definition en : list Z := bytes "e".
Definition twins1 : kstate := after (message "CR" 2 dn 1 [47] 1) mounted.
Definition twins2 : kstate := after (message "CR" 3 en 1 [47] 1) twins1.
Definition twins : kstate := after (message "CR" 4 dn 3 en 1) twins2.

Lemma one_fits ino c inop np :
  0 < c < 128 -> c <> 32 -> c <> 13 -> c <> 10 -> c <> 47 -> fname np -> (length np <= 19)%nat ->
  0 <= ino < 2 ^ 31 -> 0 <= inop < 2 ^ 31 -> fits ino [c] inop np /\ 47 ∉ [c].
Proof.
  intros. split; [|by rewrite list_elem_of_singleton]. split_and!; try done; try lia; [|simpl; lia].
  split; [done|]. constructor; [|done]. unfold is_sep. lia.
Qed.

Ltac computed := vm_compute; reflexivity.

Ltac dir_computed := split; [computed|computed|computed|computed|vm_compute; lia].

Lemma dn_fname : fname dn.
Proof. split; [done|by repeat constructor]. Qed.

Lemma en_fname : fname en.
Proof. split; [done|by repeat constructor]. Qed.

Lemma root_resolves s rd : g_rroot_dentry (glob s) = Some 1%nat -> dentries s !! 1%nat = Some rd -> d_name rd = [47] -> resolves s [47] 1.
Proof. intros Hg Hd Hn. exists 1%nat, rd. rewrite Hn. split_and!; try done; [by repeat constructor|by left]. Qed.

Lemma twins1_sound : sound stack0 twins1 (Node 1 [Node 2 []]).
Proof.
  destruct (one_fits 2 100 1 [47] ltac:(lia) ltac:(lia) ltac:(lia) ltac:(lia) ltac:(lia) root_fname ltac:(simpl; lia) ltac:(lia) ltac:(lia))
    as [Hf Hs].
  eapply (after_sound mounted (Node 1 []) 2 dn 1 [47] 1 1 root_dentry 0 root_inode);
    [apply sound_mounted|exact Hf|exact Hs|apply mounted_resolves|apply root_directory|computed..].
Qed.

Lemma twins2_sound : sound stack0 twins2 (Node 1 [Node 4 []; Node 2 []]).
Proof.
  destruct (one_fits 3 101 1 [47] ltac:(lia) ltac:(lia) ltac:(lia) ltac:(lia) ltac:(lia) root_fname ltac:(simpl; lia) ltac:(lia) ltac:(lia))
    as [Hf Hs].
  eapply (after_sound twins1 (Node 1 [Node 2 []]) 3 en 1 [47] 1 1);
    [apply twins1_sound|exact Hf|exact Hs|eapply root_resolves; computed|dir_computed|computed..].
Qed.

Definition twins_tree : tree := Node 1 [Node 4 [Node 6 []]; Node 2 []].

Lemma twins_sound : sound stack0 twins twins_tree.
Proof.
  destruct (one_fits 4 100 3 en ltac:(lia) ltac:(lia) ltac:(lia) ltac:(lia) ltac:(lia) en_fname ltac:(simpl; lia) ltac:(lia) ltac:(lia))
    as [Hf Hs].
  eapply (after_sound twins2 (Node 1 [Node 4 []; Node 2 []]) 4 dn 3 en 1 4);
    [apply twins2_sound|exact Hf|exact Hs| |dir_computed|computed..].
  eapply (first_resolves twins2 (Node 1 [Node 4 []; Node 2 []]));
    [apply (ab_ok _ _ _ (proj1 twins2_sound))|computed|done|by repeat constructor|computed].
Qed.

(** The other node's user makes /d/x; its link becomes /e/d/x here. *)
Lemma same_name_elsewhere_witness :
  exists s', server_step no_pointer stack0 0 (message "CR" 5 (bytes "x") 2 dn 0) twins = Ok (Some [], s') /\
    d_lookup_in (d_hash s') (dentries s') 6 (bytes "x") = Some 8%nat /\
    d_lookup_in (d_hash s') (dentries s') 2 (bytes "x") = None.
Proof.
  destruct (one_fits 5 120 2 dn ltac:(lia) ltac:(lia) ltac:(lia) ltac:(lia) ltac:(lia) dn_fname ltac:(simpl; lia) ltac:(lia) ltac:(lia))
    as [Hf Hs].
  edestruct (same_name_elsewhere no_pointer stack0 twins twins_tree 0 5 (bytes "x") 2 dn 0 6) with (q := 2%nat)
    (l := mkLink 2 2 1 1) as (s' & E & _ & H1 & H2).
  - apply stack0_ok.
  - apply twins_sound.
  - exact Hf.
  - exact Hs.
  - computed.
  - done.
  - dir_computed.
  - computed.
  - dir_computed.
  - done.
  - done.
  - computed.
  - left.
  - computed.
  - computed.
  - computed.
  - computed.
  - computed.
  - exists s'. split; [exact E|]. split; [exact H1|exact H2].
Defined.

Lemma demo_files : files_ok demo.
Proof. exact own_files. Qed.

Lemma demo_fit : fit stack0 demo demo_tree.
Proof. apply able_demo. Qed.

Lemma old_served : served_file old demo_tree 2 2 (link_dentry 1) 3 old_inode.
Proof.
  apply (served_changed own demo_tree 2 2 (link_dentry 1) 3 f_inode old_inode);
    [apply own_ok|apply own_served|reflexivity|].
  split; [by vm_compute| |done]. intros p Hp. vm_compute in Hp. injection Hp as <-. reflexivity.
Qed.

(** The other node's file holds "old!"; "new" is written through the emptied link. *)
Lemma truncate_of_link_witness :
  exists sA1 sA2 msg sB1 i1, open_by "/f" 514 demo = Ok (Some (inr (OFile (file_of 2 514))), sA1) /\
    empty_at sA1 2 /\ n_sent (network sA1) = n_sent (network demo) /\
    vfs_write no_pointer stack0 1 (file_of 2 514) (bytes "new") 3 0 sA1 = Ok ((3, 0), sA2) /\
    n_sent (network sA2) = (test_addr, htons test_port, msg) :: n_sent (network sA1) /\
    server_step no_pointer stack0 0 msg old = Ok (Some [], sB1) /\
    inodes sB1 !! 3%nat = Some i1 /\ contents i1 = bytes "new!".
Proof.
  apply (truncate_of_link no_pointer stack0 stack0 plain false 18 at_root follow0 (fun _ _ => mret None)
    (fun _ _ => mret (inl 0)) demo demo_tree None (bytes "/f") 514 420 2 f_name [47] 1 (bytes "new") (bytes "new") 1
    old demo_tree 0 2 (link_dentry 1) 3 old_inode).
  - apply stack0_ok.
  - apply demo_fit.
  - apply demo_files.
  - apply demo_at_root.
  - by repeat constructor.
  - done.
  - computed.
  - computed.
  - computed.
  - computed.
  - exact (waiting_open []).
  - lia.
  - apply f_fname.
  - simpl. lia.
  - apply root_fname.
  - simpl. lia.
  - reflexivity.
  - by repeat constructor.
  - done.
  - simpl. lia.
  - vm_compute. lia.
  - apply old_ok.
  - apply stack0_ok.
  - reflexivity.
  - apply old_served.
Defined.
